(* ===== verification/_CoqProject ===== *)
-Q . S2P
Prelude.v
Iolinki.v
Reference.v
Types.v
Fixtures.v
Parameters.v
Isdu.v
IsduResponse.v
IsduRequest.v
IsduService.v
Services.v
DataStorage.v
Events.v
EventReadout.v
Hal.v
Transmit.v
Port.v
PortInvariant.v
PortServices.v
ParameterBlock.v
PortSafety.v
Sio.v
PortCalls.v
PortTransitions.v
PortWidths.v
Carrier.v
Handshake.v
PortLink.v
PortExchange.v
IsduFrames.v
PortTiming.v
EventFrames.v
Adapter.v
DeviceContract.v
Session.v
LoopbackPhy.v
LoopbackDemo.v
SampleMaster.v
SessionIsdu.v
OverTheWire.v
EventSession.v
PacedLink.v
FakeDevice.v
FakeServer.v
FakeRefinement.v
FakeSession.v
Identification.v
FakeEvents.v
FakeLossy.v
FakeWitness.v
CqLine.v
Controller.v
ControllerPorts.v
FourPortDemo.v
Gateway.v
GatewayLine.v
