(* ===== verification/Prelude.v ===== *)
(** * iolinki-master: a verified model of the IO-Link master stack

    The program is the IO-Link master stack of this repository: the sources under
    [src/] and the public interface [include/iolinki_master/master.h]. A master port
    wakes a device up, exchanges process data with it in cyclic M-sequences, carries
    acyclic ISDU services and event readouts in the same frames, and is driven by
    ticks of the application. This library translates that code and proves properties
    of it.

    ** Parts

    - [Prelude] (this file): machine integers as [Z] with the truncations of the C
      casts written out, record update, the error-state monad [M], checked arrays,
      weakest preconditions [wp], frames [keeps], transitions [relates], and the lemmas
      they share.
    - [Iolinki]: the interface to the sibling [iolinki] repository (checksum, frame
      codec, protocol constants), whose code is not here: the class [Iolinki] of
      operations and the class [IolinkiLaws] of their documented behaviour.
      [Reference]: an instance that satisfies the laws, used by the witnesses.
    - [Types]: the data of [master.h] and [master_internal.h]: enumerations, the
      configuration, diagnostics and the private state of a port.
    - [Fixtures]: concrete configurations and a scripted PHY for the witnesses.
    - [Parameters]: [src/master_parameters.c]. Direct Parameter page 1, the Master
      Command octet, validation and selection of configurations.
    - [Isdu]: [src/master_isdu.c], the ISDU transport and the read and write services.
      [IsduResponse]: the abstract receiver of a response and the refinement of the
      reception code to it. [IsduRequest]: segmentation of a request, FlowCTRL, the
      request octets. [IsduService]: the theorems about whole services.
    - [Services]: [src/master_isdu.c], the services built on read and write: device
      information, Data Storage images, verification, SystemCommands, parameter
      block download. [DataStorage]: images as record sequences and verification by
      readback. [ParameterBlock]: the download of a block as four services.
    - [Events]: [src/master_isdu.c], the event readout on the DIAGNOSIS channel.
      [EventReadout]: the readout and the acknowledgement from request to result.
      [EventFrames]: the frames of a readout on the wire. [EventSession]: the event
      services with a device behind the PHY of the port.
    - [Hal]: [src/master_port.c], timing conversions and access to the PHY.
    - [Transmit]: [src/master_port.c], the frames of the acyclic channels.
    - [Port]: [src/master_port.c], initialisation, the establish sequence, the cyclic
      exchange, reception, timeouts, the tick engine and the accessors.
      [PortInvariant]: the invariant of a port and the calculus of functions that keep
      it. [PortServices], [PortSafety]: every service, sender and receiver keeps it.
      [PortCalls]: the calls of the interface as data, sequences of calls, termination
      of reception. [PortTransitions]: which calls change the phase of a port and what they
      receive when they do. [PortWidths]: every integer and octet of a port stays in the
      range of its C type. [Carrier]: one frame on the wire. [Handshake]: the history of a
      port in OPERATE, from the DeviceOperate write to its acknowledgement. [PortLink]: start-up, the bounded establish
      sequence, loss of communication. [PortExchange]: the cyclic frame and its reply.
      [IsduFrames]: the frames of an ISDU service. [PortTiming]: frames per tick, the
      next instant, deadlines, the gate of the start-up, link quality.
    - A port and a device. [Adapter]: a PHY with a state of its own behind the trace.
      [DeviceContract]: what a device promises to the port, as classes over its abstract
      view. [Session]: rounds of a tick and a reception against such a device.
      [SessionIsdu]: a service repeated until it is done. [OverTheWire]: the theorems.
      [PacedLink]: the port driven by its tick engine over a link that garbles and loses
      replies.
    - [FakeDevice]: [tests/fake_iolink_device.c]. [FakeServer]: the server of objects it
      means to be; [FakeRefinement]: it is that server; [FakeSession]: it keeps the
      contract; [Identification]: a port identifies it; [FakeEvents]: it reports its events;
      [FakeLossy]: a test that arms its faults; [FakeWitness]: concrete inputs.
    - [Sio]: [src/master_sio.c]. [CqLine]: who drives C/Q.
    - [Controller]: [src/master_controller.c]. [ControllerPorts]: its operations as
      operations on every managed port.
    - The demonstrations. [LoopbackPhy], [LoopbackDemo]: [examples/master_loopback_demo.c].
      [SampleMaster]: [samples/iolink_master/src/main.c], whose PHY differs from that of
      the loopback demonstration in [demo_phy_send] only. [FourPortDemo]:
      [examples/master_4port_controller_demo.c].
    - [Gateway]: [src/master_gateway.c]. [GatewayLine]: the text of the record.

    A definition has the name of the C function it translates; a helper without the
    prefix [iolink_master_] is a block of the function it is used in.

    ** State and effects

    A function that touches only one component of the port ([isdu], [event]) is a
    program [M] over that component's record; [zoom] runs it inside the port. Services
    run on the port. Functions that call the PHY or an application hook run on a
    [world]: the port and the trace of the calls made so far. The controller runs a
    port function on one port of its array, with the trace all ports share. A function
    pointer is a function of that trace, so its answers may depend on everything that
    happened before; theorems that take a configuration or a PHY hold for all of them.
    A hook is assumed not to change the port it is called from. A device or the statics of
    a demonstration are the state [adapter_at] computes from the trace, so that PHY
    functions which read and write them fit this type.

    A C access outside its array is the result [Ub]; [wp] excludes it, so a theorem
    stated with [wp] includes memory safety and termination. [Nofuel] stands for a loop
    that is cut off. The receive loop of [poll_rx] ends when the PHY has no more octets:
    its fuel must exceed the number of octets the adapter ever queues ([adapter_ok]),
    and [poll_rx_terminates] shows that it then returns, with the same result for every
    larger fuel. The loops over a record image take the length of the image as fuel, the
    loop over decimal digits takes 3, enough for an octet. A pointer argument that may
    be [NULL] is an [option] or a [ptr].

    ** What is shown

    - Safety: after [iolink_master_init], every sequence of calls is memory safe, returns
      and keeps the invariant of the port ([port_safe]), likewise the ISDU transport on
      its own ([isdu_transport_safe]) and every port of a controller. A port in OPERATE has
      sent DeviceOperate, waited for the acknowledgement and received a valid one
      ([operate_needs_acknowledgement]); a tick sends at most one frame; C/Q is driven by
      [set_dq] in a digital output only.
    - The link: start-up with a device that answers reaches OPERATE, without one it ends
      after a fixed number of wake-up requests, each on the wire with its test messages
      ([establish_sequence_bounded]); three failures in a row give the device up. Under
      the tick engine the retries are a fold over the fates of the replies
      ([paced_link_retries]).
    - Data: process data, ISDU reads, writes and segmented responses arrive as the other
      side encoded them; the receiver refines an abstract decoder; images are compared
      as record lists; an array with room receives all active event entries in slot order;
      Direct Parameter page 1 is
      parsed as Annex B defines it.
    - The composition: a port with any device that keeps the contract reaches OPERATE,
      receives the device's process data ([communication_over_the_wire]) and completes its
      reads ([read_over_the_wire]) and its event readouts ([events_over_the_wire]). The
      simulated device refines its server and keeps the contract, so a port writes to it
      and reads back what it wrote, identifies it as what it was set up to be and reports
      the events it was set up with. The number of rounds a service takes is the number of
      frames of its request and its response. The three demonstrations succeed.
    - Timing: deadlines cover a reply; the next instant of a port or a controller is the
      first at which there is work.
    - Types: every integer and octet of a port stays in the range of its C type
      ([port_integers_stay_typed]), for a configuration and instants that are typed.
    - Flaws: theorems that state where the code departs from what it means to do, such as
      the transfer that stays latched after an error, the write of 16 octets that is
      refused, the retry limit of 255 that is never reached, the garbled reply that is
      counted twice, the gate of the start-up that silences OPERATE, the event list that is
      cut short with OK ([read_event_details_cut_short]), and the places where 32-bit time
      or counters wrap. Where the documents say something else the theorem states the
      code: an ABORT goes out for a wrong CHKPDU only ([read_isdu_reports_error]), and a
      response timeout of zero does not fall back to the cycle time
      ([response_timeout_covers_reply]).

    ** Not modelled

    The test cases, the Zephyr glue and the tools, which hold no logic of the stack; what
    the demonstrations print; the bodies of the [iolinki] helpers, which are not in this
    repository; concurrent calls on one port, which the interface forbids; hooks that call
    back into the master. *)

From Stdlib Require Export ZArith Lia.
From stdpp Require Export base list numbers option tactics.
#[global] Open Scope Z_scope.

(** ** Machine integers

    A [w]-bit unsigned C integer is a [Z]; a cast or an assignment to a
    [uintN_t] object is written out with the truncations below. *)

Definition u8 (z : Z) : Z := z mod 256.
Definition u16 (z : Z) : Z := z mod 65536.
Definition u32 (z : Z) : Z := z mod 4294967296.
Definition u64 (z : Z) : Z := z mod 18446744073709551616.

Definition UINT8_MAX : Z := 255.
Definition UINT32_MAX : Z := 4294967295.

(** [x] is the value of a [uint8_t] object. *)
Definition is_u8 (x : Z) : Prop := 0 ≤ x < 256.
Definition is_u16 (x : Z) : Prop := 0 ≤ x < 65536.
Definition is_u32 (x : Z) : Prop := 0 ≤ x < 4294967296.

Arguments u8 : simpl never.
Arguments u16 : simpl never.
Arguments u32 : simpl never.
Arguments u64 : simpl never.
#[global] Arguments Z.land : simpl never.
#[global] Arguments Z.lor : simpl never.
#[global] Arguments Z.lxor : simpl never.
#[global] Arguments Z.shiftl : simpl never.
#[global] Arguments Z.shiftr : simpl never.
#[global] Arguments Z.modulo : simpl never.
#[global] Arguments Z.div : simpl never.
#[global] Arguments Z.mul : simpl never.
#[global] Arguments Z.add : simpl never.
#[global] Arguments Z.sub : simpl never.
#[global] Arguments Z.of_nat : simpl never.
#[global] Arguments Z.to_nat : simpl never.

(** ** Record update: [r <| field := v |>]

    [Eta R] rebuilds a record from its projections; the setter of a field is
    derived from it, so that [proj (r <| proj' := v |>)] reduces for a variable
    [r]. *)

Class Eta (R : Type) : Type := eta : R → R.
Class Setter {R E : Type} (proj : R → E) : Type := set : (E → E) → R → R.
Arguments set {R E} proj {_} f r.

Ltac solve_setter :=
  lazymatch goal with
  | |- @Setter ?R ?E ?proj =>
      let h := constr:(_ : Eta R) in
      let h := lazymatch h with ?h => h end in
      let f := fresh "f" in
      let r := fresh "r" in
      exact (fun (f : E → E) (r : R) => ltac:(
        let b := eval cbv beta delta [h] in (h r) in
        match b with
        | context C [proj r] => let t := context C [f (proj r)] in exact t
        end))
  end.
#[export] Hint Extern 1 (Setter _) => solve_setter : typeclass_instances.

Declare Scope record_scope.
Delimit Scope record_scope with record.
#[global] Open Scope record_scope.
Notation "x <| f := v |>" := (set f (fun _ => v) x)
  (at level 12, f at next level, left associativity) : record_scope.

(** ** The error-state monad

    A C function runs in a state [S] and either returns a value ([Ok]), reads
    or writes outside an object ([Ub]: undefined behaviour), or exhausts the
    fuel given to a polling loop ([Nofuel]). *)

Inductive res (S A : Type) : Type :=
| Ok (a : A) (s : S)
| Ub
| Nofuel.
Arguments Ok {S A} a s.
Arguments Ub {S A}.
Arguments Nofuel {S A}.

Definition M (S A : Type) : Type := S → res S A.

#[export] Instance M_ret {S : Type} : MRet (M S) := fun A a s => Ok a s.
#[export] Instance M_bind {S : Type} : MBind (M S) := fun A B k m s =>
  match m s with
  | Ok a s' => k a s'
  | Ub => Ub
  | Nofuel => Nofuel
  end.

Section operations.
Context {S : Type}.

Definition get : M S S := fun s => Ok s s.
Definition gets {A : Type} (f : S → A) : M S A := fun s => Ok (f s) s.
Definition modify (f : S → S) : M S unit := fun s => Ok tt (f s).
Definition ub {A : Type} : M S A := fun _ => Ub.
Definition nofuel {A : Type} : M S A := fun _ => Nofuel.

(** [assign proj v] is the assignment [state->proj = v]. *)
Definition assign {E : Type} (proj : S → E) `{!Setter proj} (v : E) : M S unit :=
  modify (set proj (fun _ => v)).

(** A checked memory access: [None] stands for an access outside its object. *)
Definition mem {A : Type} (o : option A) : M S A :=
  match o with Some a => mret a | None => ub end.

(** [when b m] is [if (b) { m }]. *)
Definition when (b : bool) (m : M S unit) : M S unit := if b then m else mret tt.

(** A [for] loop over [l] whose body returns [true] to leave it early. *)
Fixpoint for_loop {A : Type} (l : list A) (body : A → M S bool) : M S unit :=
  match l with
  | [] => mret tt
  | x :: l' => stop ← body x; if (stop : bool) then mret tt else for_loop l' body
  end.
End operations.

(** Run an operation of a component on the part of the state it owns. *)
Definition zoom {S T A : Type} (proj : S → T) `{!Setter proj} (m : M T A) : M S A :=
  fun s =>
    match m (proj s) with
    | Ok a t => Ok a (s <| proj := t |>)
    | Ub => Ub
    | Nofuel => Nofuel
    end.

(** Run [m] on a local object that starts as [t]; the object is returned. *)
Definition local {S T A : Type} (t : T) (m : M T A) : M S (A * T) :=
  fun s =>
    match m t with
    | Ok a t' => Ok (a, t') s
    | Ub => Ub
    | Nofuel => Nofuel
    end.

Declare Scope c_scope.
Delimit Scope c_scope with c.
#[global] Open Scope c_scope.
Notation "proj <~ v" := (assign proj v) (at level 70, no associativity) : c_scope.

(** ** Arrays

    A C array is the list of its octets; every access is bounds checked. *)

Definition zlen {A : Type} (l : list A) : Z := Z.of_nat (length l).

(** [l[i]] *)
Definition rd {A : Type} (l : list A) (i : Z) : option A :=
  if i <? 0 then None else l !! Z.to_nat i.

(** [l[i] = v] *)
Definition wr {A : Type} (l : list A) (i : Z) (v : A) : option (list A) :=
  if (0 <=? i) && (i <? zlen l) then Some (<[Z.to_nat i := v]> l) else None.

(** The octets [l[off .. off + n)]. *)
Definition slice {A : Type} (l : list A) (off n : Z) : option (list A) :=
  if (0 <=? off) && (0 <=? n) && (off + n <=? zlen l)
  then Some (take (Z.to_nat n) (drop (Z.to_nat off) l)) else None.

(** [memcpy(&dst[off], src, len src)], also [memmove]: the source is read first. *)
Definition blit {A : Type} (dst : list A) (off : Z) (src : list A) : option (list A) :=
  if (0 <=? off) && (off + zlen src <=? zlen dst)
  then Some (take (Z.to_nat off) dst ++ src ++ drop (Z.to_nat off + length src)%nat dst)
  else None.

(** [memcpy(&dst[doff], &src[soff], n)] *)
Definition memcpy {A : Type} (dst : list A) (doff : Z) (src : list A) (soff n : Z)
    : option (list A) :=
  chunk ← slice src soff n; blit dst doff chunk.

(** A zero-initialised array of [n] octets. *)
Definition zeros (n : Z) : list Z := replicate (Z.to_nat n) 0.

(** The indices [0, 1, ..., n - 1] of a counting loop. *)
Definition upto (n : Z) : list Z := seqZ 0 n.

(** A loop over indices that updates a local array or accumulator. *)
Fixpoint ofold {A B : Type} (f : B → A → option B) (b : B) (l : list A) : option B :=
  match l with
  | [] => Some b
  | x :: l' => b' ← f b x; ofold f b' l'
  end.

(** [memcmp(a, b, n) == 0] on lists of [n] octets. *)
Fixpoint octets_eqb (a b : list Z) : bool :=
  match a, b with
  | [], [] => true
  | x :: a', y :: b' => (x =? y) && octets_eqb a' b'
  | _, _ => false
  end.

(** A caller's pointer to an object the function does not own: [NULL], or the
    object held in the monad's state. *)
Inductive ptr : Type := NULL | PTR.
Definition ptr_null (p : ptr) : bool := match p with NULL => true | PTR => false end.
Definition null {A : Type} (p : option A) : bool :=
  match p with None => true | Some _ => false end.

(** ** Weakest preconditions

    [wp m Q s]: run in [s], [m] neither hits undefined behaviour nor runs out of
    fuel, and its result and final state satisfy [Q]. *)

Definition wp {S A : Type} (m : M S A) (Q : A → S → Prop) (s : S) : Prop :=
  match m s with Ok a s' => Q a s' | _ => False end.

(** [m] maintains the invariant [I] from every state that satisfies it. *)
Definition preserves {S A : Type} (I : S → Prop) (m : M S A) : Prop :=
  ∀ s, I s → wp m (fun _ s' => I s') s.

Section wp_rules.
Context {S A B : Type}.
Implicit Types (Q : A → S → Prop) (s : S).

Lemma wp_ok (m : M S A) Q s a s' : m s = Ok a s' → Q a s' → wp m Q s.
Proof. unfold wp. by intros ->. Qed.

Lemma wp_inv (m : M S A) Q s : wp m Q s → ∃ a s', m s = Ok a s' ∧ Q a s'.
Proof. unfold wp. destruct (m s); naive_solver. Qed.

Lemma wp_mono (m : M S A) (P Q : A → S → Prop) s :
  wp m P s → (∀ a s', P a s' → Q a s') → wp m Q s.
Proof. unfold wp. destruct (m s); auto. Qed.

Lemma wp_and (m : M S A) (P Q : A → S → Prop) s :
  wp m P s → wp m Q s → wp m (fun a s' => P a s' ∧ Q a s') s.
Proof. unfold wp. destruct (m s); auto. Qed.

Lemma wp_partial (m : M S A) (P Q : A → S → Prop) s :
  wp m P s → (∀ a s', m s = Ok a s' → Q a s') → wp m (fun a s' => P a s' ∧ Q a s') s.
Proof. unfold wp. destruct (m s); auto. Qed.

Lemma wp_ret Q (a : A) s : Q a s → wp (mret a) Q s.
Proof. done. Qed.

Lemma wp_bind (m : M S B) (k : B → M S A) Q s :
  wp m (fun b s' => wp (k b) Q s') s → wp (mbind k m) Q s.
Proof. unfold wp, mbind, M_bind. by destruct (m s). Qed.

Lemma wp_bind_inv (m : M S B) (k : B → M S A) Q s :
  wp (mbind k m) Q s → wp m (fun b s' => wp (k b) Q s') s.
Proof. unfold wp, mbind, M_bind. by destruct (m s). Qed.

Lemma wp_gets (f : S → A) Q s : Q (f s) s → wp (gets f) Q s.
Proof. done. Qed.

Lemma wp_mem (o : option A) Q s a : o = Some a → Q a s → wp (mem o) Q s.
Proof. by intros ->. Qed.

Lemma wp_zoom {T} (proj : S → T) `{!Setter proj} (m : M T A) Q s :
  wp m (fun a t => Q a (s <| proj := t |>)) (proj s) → wp (zoom proj m) Q s.
Proof. unfold wp, zoom. by destruct (m (proj s)). Qed.

Lemma wp_local {T} (t : T) (m : M T A) (Q : A * T → S → Prop) s :
  wp m (fun a t' => Q (a, t') s) t → wp (local t m) Q s.
Proof. unfold wp, local. by destruct (m t). Qed.

Lemma wp_if (b : bool) (m n : M S A) Q s :
  (b = true → wp m Q s) → (b = false → wp n Q s) → wp (if b then m else n) Q s.
Proof. destruct b; auto. Qed.
End wp_rules.

Section wp_unit_rules.
Context {St : Type}.
Implicit Types (Q : unit → St → Prop) (s : St).

Lemma wp_get (Q : St → St → Prop) s : Q s s → wp get Q s.
Proof. done. Qed.

Lemma wp_modify (f : St → St) Q s : Q tt (f s) → wp (modify f) Q s.
Proof. done. Qed.

Lemma wp_assign {E} (proj : St → E) `{!Setter proj} (v : E) Q s :
  Q tt (s <| proj := v |>) → wp (proj <~ v) Q s.
Proof. done. Qed.

Lemma wp_when (b : bool) (m : M St unit) Q s :
  (b = true → wp m Q s) → (b = false → Q tt s) → wp (when b m) Q s.
Proof. destruct b; unfold when; auto using wp_ret. Qed.

(** An invariant of a loop that may be left early: [I n s] before iteration [n]. *)
Lemma wp_for_loop {A} (l : list A) (body : A → M St bool) (I : nat → St → Prop) Q s :
  I 0%nat s →
  (∀ n x s', l !! n = Some x → I n s' →
     wp (body x) (fun stop s'' => if stop then Q tt s'' else I (S n) s'') s') →
  (∀ s', I (length l) s' → Q tt s') →
  wp (for_loop l body) Q s.
Proof.
  revert I s. induction l as [|x l IH]; intros I s HI Hbody Hend; simpl.
  - apply wp_ret, Hend, HI.
  - apply wp_bind. eapply wp_mono; [by apply (Hbody 0%nat x)|].
    intros [] s' Hs; [apply wp_ret, Hs|].
    apply (IH (fun n => I (S n))); [done| |done].
    intros n y s'' Hl Hn. by apply (Hbody (S n) y).
Qed.
End wp_unit_rules.

(** The state a program ends in. *)
Definition final {S A : Type} (m : M S A) (s : S) : S :=
  match m s with Ok _ s' => s' | _ => s end.

Lemma wp_final {S A} (m : M S A) (P : S → Prop) s : wp m (fun _ s' => P s') s → P (final m s).
Proof. unfold wp, final. by destruct (m s). Qed.

(** Decide a closed proposition by computation. *)
Ltac decide_here := refine (bool_decide_eq_true_1 _ _); vm_compute; reflexivity.

(** Run one step of a monadic program; conditionals become two goals. *)
Ltac wp_step :=
  lazymatch goal with
  | |- wp (mret _) _ _ => apply wp_ret
  | |- wp (mbind _ _) _ _ => apply wp_bind
  | |- wp (gets _) _ _ => apply wp_gets
  | |- wp get _ _ => apply wp_get
  | |- wp (modify _) _ _ => apply wp_modify
  | |- wp (assign _ _) _ _ => apply wp_assign
  | |- wp (zoom _ _) _ _ => apply wp_zoom
  | |- wp (local _ _) _ _ => apply wp_local
  | |- wp (when _ _) _ _ => apply wp_when; intros ?
  | |- wp (if _ then _ else _) _ _ => apply wp_if; intros ?
  | |- wp (match ?x with _ => _ end) _ _ => destruct x eqn:?
  | |- wp (let _ := _ in _) _ _ => cbv zeta
  | |- wp ((fun _ => _) _) _ _ => cbv beta
  end.
Ltac wp_steps := repeat (wp_step; cbv beta).

(** ** Frames

    [keeps f m]: whenever [m] returns, the observation [f] of the state is unchanged. *)

Definition keeps {S A F : Type} (f : S → F) (m : M S A) : Prop :=
  ∀ s a s', m s = Ok a s' → f s' = f s.

Section keeps_rules.
Context {S F : Type} (f : S → F).

Lemma keeps_ret {A} (a : A) : keeps f (mret a).
Proof. by intros s a' s' [= _ <-]. Qed.
Lemma keeps_get : keeps f get.
Proof. by intros s a' s' [= _ <-]. Qed.
Lemma keeps_gets {A} (g : S → A) : keeps f (gets g).
Proof. by intros s a' s' [= _ <-]. Qed.
Lemma keeps_ub {A} : keeps f (@ub S A).
Proof. done. Qed.
Lemma keeps_nofuel {A} : keeps f (@nofuel S A).
Proof. done. Qed.
Lemma keeps_mem {A} (o : option A) : keeps f (mem o).
Proof. destruct o; [apply keeps_ret|done]. Qed.
Lemma keeps_modify g : (∀ s, f (g s) = f s) → keeps f (modify g).
Proof. by intros Hg s a s' [= _ <-]. Qed.
Lemma keeps_assign {E} (proj : S → E) `{!Setter proj} (v : E) :
  (∀ s, f (s <| proj := v |>) = f s) → keeps f (proj <~ v).
Proof. apply keeps_modify. Qed.

Lemma keeps_bind {A B} (m : M S A) (k : A → M S B) :
  keeps f m → (∀ a, keeps f (k a)) → keeps f (mbind k m).
Proof.
  intros Hm Hk s b s'. unfold mbind, M_bind. destruct (m s) as [a s1| |] eqn:Hms; [|done..].
  intros Hks. rewrite (Hk a s1 b s' Hks). by apply (Hm s a).
Qed.

Lemma keeps_when b (m : M S unit) : keeps f m → keeps f (when b m).
Proof. intros Hm. destruct b; [done|apply keeps_ret]. Qed.

Lemma keeps_for_loop {A} (l : list A) (body : A → M S bool) :
  (∀ x, keeps f (body x)) → keeps f (for_loop l body).
Proof.
  intros Hb. induction l as [|x l IH]; simpl; [apply keeps_ret|].
  apply keeps_bind; [apply Hb|]. intros []; [apply keeps_ret|apply IH].
Qed.

Lemma keeps_zoom {T A} (proj : S → T) `{!Setter proj} (m : M T A) :
  (∀ s t, f (s <| proj := t |>) = f s) → keeps f (zoom proj m).
Proof.
  intros Hf s a s'. unfold zoom. destruct (m (proj s)) as [b t| |]; [|done..].
  intros [= _ <-]. apply Hf.
Qed.

(** An observation of the part that [zoom] works on. *)
Lemma keeps_zoom_inner {T A} (proj : S → T) `{!Setter proj} (g : T → F) (m : M T A) :
  (∀ s, f s = g (proj s)) → (∀ s t, f (s <| proj := t |>) = g t) →
  keeps g m → keeps f (zoom proj m).
Proof.
  intros Hf Hs Hm s a s'. unfold zoom. destruct (m (proj s)) as [b t| |] eqn:Hmt; [|done..].
  intros [= _ <-]. rewrite Hs, Hf. by apply (Hm _ b).
Qed.

Lemma keeps_local {T A} (t : T) (m : M T A) : keeps f (local t m).
Proof. intros s a s'. unfold local. by destruct (m t); intros; simplify_eq. Qed.

Lemma wp_keeps {A} (m : M S A) (Q : A → S → Prop) s :
  wp m Q s → keeps f m → wp m (fun a s' => Q a s' ∧ f s' = f s) s.
Proof. unfold wp. intros HQ Hm. destruct (m s) eqn:Hms; [|done..]. split; [done|]. by eapply Hm. Qed.
End keeps_rules.

Create HintDb keeps.
Ltac keeps_step :=
  lazymatch goal with
  | |- keeps _ (mret _) => apply keeps_ret
  | |- keeps _ (mbind _ _) => apply keeps_bind; [|intros ?]
  | |- keeps _ get => apply keeps_get
  | |- keeps _ (gets _) => apply keeps_gets
  | |- keeps _ (mem _) => apply keeps_mem
  | |- keeps _ ub => apply keeps_ub
  | |- keeps _ nofuel => apply keeps_nofuel
  | |- keeps _ (modify _) => apply keeps_modify; intros; reflexivity
  | |- keeps _ (assign _ _) => apply keeps_assign; intros; reflexivity
  | |- keeps _ (when _ _) => apply keeps_when
  | |- keeps _ (for_loop _ _) => apply keeps_for_loop; intros ?
  | |- keeps _ (local _ _) => apply keeps_local
  | |- keeps _ (zoom _ _) => apply keeps_zoom; intros; reflexivity
  | |- keeps _ (if ?b then _ else _) => destruct b
  | |- keeps _ (match ?x with _ => _ end) => destruct x
  | |- keeps _ (let _ := _ in _) => cbv zeta
  | |- keeps _ ((fun _ => _) _) => cbv beta
  end.
(** Prove a frame by following the program; calls are found in the database. *)
Ltac keeps_auto := repeat (first [solve [auto with keeps nocore] | keeps_step]; cbv beta).
(** The same; calls that are not in the database are unfolded. *)
Ltac head_of m := lazymatch m with ?f _ => head_of f | _ => m end.
Ltac keeps_unfold := lazymatch goal with |- keeps _ ?m => let f := head_of m in unfold f end.
Ltac keeps_deep :=
  repeat (first [solve [auto with keeps nocore] | keeps_step | keeps_unfold]; cbv beta).

(** ** Transitions

    [relates R m]: whenever [m] returns, its initial and final states are related by the
    preorder [R]. *)

Definition relates {S A : Type} (R : S → S → Prop) (m : M S A) : Prop :=
  ∀ s a s', m s = Ok a s' → R s s'.

Section relates_rules.
Context {S : Type} (R : S → S → Prop) `{!PreOrder R}.

Lemma relates_keeps {A F} (f : S → F) (m : M S A) :
  (∀ s s', f s' = f s → R s s') → keeps f m → relates R m.
Proof. intros HR Hm s a s' H. by eapply HR, Hm. Qed.
Lemma relates_ret {A} (a : A) : relates R (mret a).
Proof. by intros s a' s' [= _ <-]. Qed.
Lemma relates_get : relates R get.
Proof. by intros s a' s' [= _ <-]. Qed.
Lemma relates_gets {A} (g : S → A) : relates R (gets g).
Proof. by intros s a' s' [= _ <-]. Qed.
Lemma relates_mem {A} (o : option A) : relates R (mem o).
Proof. destruct o; [apply relates_ret|done]. Qed.
Lemma relates_nofuel {A} : relates R (@nofuel S A).
Proof. done. Qed.

Lemma relates_bind {A B} (m : M S A) (k : A → M S B) :
  relates R m → (∀ a, relates R (k a)) → relates R (mbind k m).
Proof.
  intros Hm Hk s b s'. unfold mbind, M_bind. destruct (m s) as [a s1| |] eqn:Hms; [|done..].
  intros Hks. transitivity s1; [by eapply Hm|by eapply Hk].
Qed.

(** Reading the state: the continuation may use what it has read. *)
Lemma relates_bind_gets {A B} (g : S → A) (k : A → M S B) :
  (∀ s a s', k (g s) s = Ok a s' → R s s') → relates R (mbind k (gets g)).
Proof. intros Hk s b s'. apply Hk. Qed.

Lemma relates_when b (m : M S unit) : (b = true → relates R m) → relates R (when b m).
Proof. destruct b; intros Hm; [by apply Hm|apply relates_ret]. Qed.

Lemma relates_for_loop {A} (l : list A) (body : A → M S bool) :
  (∀ x, relates R (body x)) → relates R (for_loop l body).
Proof.
  intros Hb. induction l as [|x l IH]; simpl; [apply relates_ret|].
  apply relates_bind; [apply Hb|]. intros []; [apply relates_ret|apply IH].
Qed.

Lemma wp_relates {A} (m : M S A) (Q : A → S → Prop) s :
  wp m Q s → relates R m → wp m (fun a s' => Q a s' ∧ R s s') s.
Proof. unfold wp. intros HQ Hm. destruct (m s) eqn:Hms; [|done..]. split; [done|]. by eapply Hm. Qed.
End relates_rules.

Create HintDb relates.
Ltac relates_step :=
  lazymatch goal with
  | |- relates _ (mret _) => apply relates_ret; apply _
  | |- relates _ (mbind _ _) => apply relates_bind; [apply _| |intros ?]
  | |- relates _ get => apply relates_get; apply _
  | |- relates _ (gets _) => apply relates_gets; apply _
  | |- relates _ (mem _) => apply relates_mem; apply _
  | |- relates _ nofuel => apply relates_nofuel
  | |- relates _ (when _ _) => apply relates_when; [apply _|intros ?]
  | |- relates _ (for_loop _ _) => apply relates_for_loop; [apply _|intros ?]
  | |- relates _ (if ?b then _ else _) => destruct b eqn:?
  | |- relates _ (match ?x with _ => _ end) => destruct x eqn:?
  | |- relates _ (let _ := _ in _) => cbv zeta
  | |- relates _ ((fun _ => _) _) => cbv beta
  end.
(** Prove a transition by following the program; calls are found in the database. *)
Ltac relates_auto := repeat (first [solve [auto with relates nocore] | relates_step]; cbv beta).
(** The same; calls that are not in the database are unfolded. *)
Ltac relates_unfold := lazymatch goal with |- relates _ ?m => let f := head_of m in unfold f end.
Ltac relates_deep :=
  repeat (first [solve [auto with relates nocore] | relates_step | relates_unfold]; cbv beta).

(** ** Preserving a predicate

    [relates (preserved P) m]: whenever [m] returns from a state with [P], its final state
    has [P] too. *)

Definition preserved {S : Type} (P : S → Prop) (s s' : S) : Prop := P s → P s'.

#[export] Instance preserved_preorder {S} (P : S → Prop) : PreOrder (preserved P).
Proof. split; unfold preserved; repeat intro; auto. Qed.

Section stable_rules.
Context {S : Type} (P : S → Prop).

Lemma stable_assign {E} (proj : S → E) `{!Setter proj} (v : E) :
  (∀ s, P s → P (s <| proj := v |>)) → relates (preserved P) (proj <~ v).
Proof. intros Hv s a s' H. injection H as _ <-. exact (Hv s). Qed.

(** Reading and assigning in place. *)
Lemma stable_update {E} (proj : S → E) `{!Setter proj} (f : S → E) :
  (∀ s, P s → P (s <| proj := f s |>)) → relates (preserved P) (s ← get; proj <~ f s).
Proof. intros Hv s a s' H. injection H as _ <-. exact (Hv s). Qed.

Lemma stable_keeps {A F} (f : S → F) (m : M S A) :
  (∀ s s', f s' = f s → P s → P s') → keeps f m → relates (preserved P) m.
Proof. intros HP Hm s a s' H Hs. eapply HP; [by eapply Hm|done]. Qed.

Lemma stable_zoom {A T} (Q : T → Prop) (proj : S → T) `{!Setter proj} (m : M T A) :
  (∀ s, P s → Q (proj s)) → (∀ s x, P s → Q x → P (s <| proj := x |>)) →
  relates (preserved Q) m → relates (preserved P) (zoom proj m).
Proof.
  intros Hp Hs Hm s a s'. unfold zoom. destruct (m (proj s)) as [b x| |] eqn:Hmx; [|done..].
  intros [= _ <-] HP. apply Hs; [done|]. eapply Hm; [done|by apply Hp].
Qed.
End stable_rules.

(** ** Facts about arrays and octets *)

Lemma zlen_nonneg {A} (l : list A) : 0 ≤ zlen l.
Proof. unfold zlen. lia. Qed.

Lemma zlen_nil {A} : zlen (@nil A) = 0.
Proof. done. Qed.

Lemma zlen_cons {A} (x : A) l : zlen (x :: l) = 1 + zlen l.
Proof. unfold zlen. simpl. lia. Qed.

Lemma nil_zlen {A} (l : list A) : zlen l ≤ 0 → l = [].
Proof. destruct l; [done|]. unfold zlen. simpl. lia. Qed.

Lemma zlen_app {A} (l k : list A) : zlen (l ++ k) = zlen l + zlen k.
Proof. unfold zlen. rewrite length_app. lia. Qed.

Lemma zlen_take {A} (l : list A) n : zlen (take n l) = Z.min (Z.of_nat n) (zlen l).
Proof. unfold zlen. rewrite length_take. lia. Qed.

Lemma zlen_drop {A} (l : list A) n : zlen (drop n l) = Z.max 0 (zlen l - Z.of_nat n).
Proof. unfold zlen. rewrite length_drop. lia. Qed.

Lemma zlen_insert {A} (l : list A) i x : zlen (<[i := x]> l) = zlen l.
Proof. unfold zlen. by rewrite length_insert. Qed.

Lemma zlen_zeros n : 0 ≤ n → zlen (zeros n) = n.
Proof. intros. unfold zlen, zeros. rewrite length_replicate. lia. Qed.

Create Rewrite HintDb zlen.
#[export] Hint Rewrite @zlen_nil @zlen_cons @zlen_app @zlen_take @zlen_drop @zlen_insert : zlen.
#[export] Hint Rewrite zlen_zeros using lia : zlen.

(** [slia]: linear arithmetic after normalising lengths. *)
Ltac slia := autorewrite with zlen in *; lia.

Lemma rd_Some {A} (l : list A) i : 0 ≤ i < zlen l → ∃ x, rd l i = Some x.
Proof.
  unfold rd, zlen. intros. destruct (Z.ltb_spec i 0); [lia|].
  apply lookup_lt_is_Some_2. lia.
Qed.

Lemma rd_lookup {A} (l : list A) i : 0 ≤ i → rd l i = l !! Z.to_nat i.
Proof. unfold rd. intros. by destruct (Z.ltb_spec i 0); [lia|]. Qed.

Lemma rd_bound {A} (l : list A) i x : rd l i = Some x → 0 ≤ i < zlen l.
Proof.
  unfold rd, zlen. destruct (Z.ltb_spec i 0); [done|].
  intros ?%lookup_lt_Some. lia.
Qed.

Lemma rd_Forall {A} (P : A → Prop) (l : list A) i x : Forall P l → rd l i = Some x → P x.
Proof.
  unfold rd. destruct (i <? 0); [done|]. intros. by eapply Forall_lookup_1.
Qed.

Lemma wr_Some {A} (l : list A) i x : 0 ≤ i < zlen l → wr l i x = Some (<[Z.to_nat i := x]> l).
Proof.
  unfold wr. intros. destruct (Z.leb_spec 0 i), (Z.ltb_spec i (zlen l)); simpl; done || lia.
Qed.

Lemma slice_Some {A} (l : list A) off n : 0 ≤ off → 0 ≤ n → off + n ≤ zlen l →
  slice l off n = Some (take (Z.to_nat n) (drop (Z.to_nat off) l)).
Proof.
  unfold slice. intros.
  by rewrite !(proj2 (Z.leb_le _ _)) by lia.
Qed.

Lemma zlen_slice {A} (l k : list A) off n : slice l off n = Some k → zlen k = n.
Proof.
  unfold slice. intros H.
  destruct (Z.leb_spec 0 off), (Z.leb_spec 0 n), (Z.leb_spec (off + n) (zlen l));
    simplify_eq/=; slia.
Qed.

Lemma slice_Forall {A} (P : A → Prop) (l k : list A) off n :
  Forall P l → slice l off n = Some k → Forall P k.
Proof.
  unfold slice. intros ? H. case_match; simplify_eq. by apply Forall_take, Forall_drop.
Qed.

(** The front of an array, read through the array. *)
Lemma rd_slice {A} (l k : list A) n i x : slice l 0 n = Some k → rd k i = Some x → rd l i = Some x.
Proof.
  unfold slice, rd. destruct (_ && _); [|done]. intros [= <-]. rewrite drop_0.
  destruct (i <? 0); [done|]. intros H. by apply lookup_take_Some in H as [? _].
Qed.

Lemma slice_0 {A} (l : list A) : slice l 0 (zlen l) = Some l.
Proof.
  rewrite slice_Some by (pose proof (zlen_nonneg l); lia).
  simpl. rewrite take_ge; [done|]. rewrite length_drop. unfold zlen. lia.
Qed.

(** A queue from [pos] up to [len]: empty, and without its first element. *)
Lemma slice_empty {A} (l : list A) pos len : slice l pos (len - pos) = Some [] → len = pos.
Proof. intros H. apply zlen_slice in H. rewrite zlen_nil in H. lia. Qed.

Lemma slice_pop {A} (l r : list A) pos len b : slice l pos (len - pos) = Some (b :: r) →
  0 ≤ pos < len ∧ len ≤ zlen l ∧ rd l pos = Some b ∧ slice l (pos + 1) (len - (pos + 1)) = Some r.
Proof.
  intros Hs. pose proof (zlen_slice _ _ _ _ Hs) as Hz. rewrite zlen_cons in Hz. pose proof (zlen_nonneg r).
  unfold slice in Hs. destruct (_ && _) eqn:Hb in Hs; [|done]. injection Hs as Hs.
  apply andb_true_iff in Hb as [[Hb1%Z.leb_le Hb2%Z.leb_le]%andb_true_iff Hb3%Z.leb_le].
  assert (l !! Z.to_nat pos = Some b) as Hrd.
  { rewrite <- (Nat.add_0_r (Z.to_nat _)), <- lookup_drop, <- (lookup_take_lt _ (Z.to_nat (len - pos))) by lia.
    by rewrite Hs. }
  split; [lia|]. split; [lia|]. split; [by rewrite rd_lookup by lia|]. rewrite slice_Some by lia. f_equal.
  replace (Z.to_nat (pos + 1)) with (S (Z.to_nat pos)) by lia.
  rewrite (drop_S _ _ _ Hrd) in Hs. replace (Z.to_nat (len - pos)) with (S (Z.to_nat (len - (pos + 1)))) in Hs by lia.
  cbn [take] in Hs. by injection Hs.
Qed.

Lemma blit_Some {A} (dst : list A) off src : 0 ≤ off → off + zlen src ≤ zlen dst →
  blit dst off src =
    Some (take (Z.to_nat off) dst ++ src ++ drop (Z.to_nat off + length src)%nat dst).
Proof.
  unfold blit. intros. by rewrite !(proj2 (Z.leb_le _ _)) by lia.
Qed.

Lemma zlen_blit {A} (dst src k : list A) off : blit dst off src = Some k → zlen k = zlen dst.
Proof.
  unfold blit. intros H.
  destruct (Z.leb_spec 0 off), (Z.leb_spec (off + zlen src) (zlen dst)); simplify_eq/=.
  pose proof (zlen_nonneg src). autorewrite with zlen. unfold zlen in *. lia.
Qed.

Lemma blit_Forall {A} (P : A → Prop) (dst src k : list A) off :
  Forall P dst → Forall P src → blit dst off src = Some k → Forall P k.
Proof.
  unfold blit. intros ?? H. case_match; simplify_eq.
  auto using Forall_app_2, Forall_take, Forall_drop.
Qed.

Lemma memcpy_Some {A} (dst src : list A) doff soff n :
  0 ≤ doff → 0 ≤ soff → 0 ≤ n → doff + n ≤ zlen dst → soff + n ≤ zlen src →
  ∃ k, memcpy dst doff src soff n = Some k ∧ zlen k = zlen dst.
Proof.
  intros. unfold memcpy. rewrite slice_Some by lia. simpl.
  set (c := take _ _). assert (zlen c = n) by (unfold c; slia).
  rewrite blit_Some by lia. eexists. split; [done|].
  by eapply zlen_blit, blit_Some; lia.
Qed.

Lemma memcpy_Forall {A} (P : A → Prop) (dst src k : list A) doff soff n :
  Forall P dst → Forall P src → memcpy dst doff src soff n = Some k → Forall P k.
Proof.
  unfold memcpy. intros ?? (c & ? & ?)%bind_Some. eauto using blit_Forall, slice_Forall.
Qed.

(** The octets written by a [memcpy] at offset 0. *)
Lemma memcpy_prefix {A} (dst src : list A) n :
  0 ≤ n → n ≤ zlen dst → n ≤ zlen src →
  memcpy dst 0 src 0 n = Some (take (Z.to_nat n) src ++ drop (Z.to_nat n) dst).
Proof.
  intros. unfold memcpy. rewrite slice_Some by lia. simpl.
  assert (length (take (Z.to_nat n) src) = Z.to_nat n) as Hl.
  { rewrite length_take. unfold zlen in *. lia. }
  rewrite blit_Some by (unfold zlen in *; change (drop (Z.to_nat 0) src) with src; rewrite ?Hl; lia).
  change (drop (Z.to_nat 0) src) with src. by rewrite Hl.
Qed.

Lemma octets_eqb_eq a b : octets_eqb a b = true ↔ a = b.
Proof.
  revert b. induction a as [|x a IH]; intros [|y b]; simpl; try (by split; [|congruence]).
  rewrite andb_true_iff, Z.eqb_eq, IH. split; [by intros [-> ->]|by injection 1].
Qed.

Lemma zeros_Forall (P : Z → Prop) n : P 0 → Forall P (zeros n).
Proof. intros. by apply Forall_replicate. Qed.

(** Loops over the indices of an array. *)
Lemma upto_succ n : 0 ≤ n → upto (n + 1) = upto n ++ [n].
Proof.
  intros. unfold upto. by rewrite seqZ_app by lia.
Qed.

Lemma upto_nonpos n : n ≤ 0 → upto n = [].
Proof. intros. apply seqZ_nil. lia. Qed.

Lemma zlen_upto n : 0 ≤ n → zlen (upto n) = n.
Proof. intros. unfold zlen, upto. rewrite length_seqZ. lia. Qed.

Lemma lookup_upto n i x : upto n !! i = Some x → x = Z.of_nat i ∧ 0 ≤ x < n.
Proof. unfold upto. intros H%lookup_seqZ. lia. Qed.

Lemma elem_of_upto n i : i ∈ upto n ↔ 0 ≤ i < n.
Proof. unfold upto. rewrite elem_of_seqZ. lia. Qed.

Lemma ofold_app {A B} (f : B → A → option B) b l k :
  ofold f b (l ++ k) = b' ← ofold f b l; ofold f b' k.
Proof.
  revert b. induction l as [|x l IH]; intros b; simpl; [done|].
  destruct (f b x) as [b'|]; simpl; [apply IH|done].
Qed.

Lemma ofold_ext {A B} (f g : B → A → option B) b l :
  (∀ b' x, x ∈ l → f b' x = g b' x) → ofold f b l = ofold g b l.
Proof.
  revert b. induction l as [|x l IH]; intros b Hfg; simpl; [done|].
  rewrite (Hfg b x) by (left; done). destruct (g b x) as [b'|]; simpl; [|done].
  apply IH. intros. apply Hfg. by right.
Qed.

Lemma upto_S n : upto (Z.of_nat (S n)) = 0 :: map (Z.add 1) (upto (Z.of_nat n)).
Proof.
  unfold upto, seqZ. rewrite !Nat2Z.id. simpl. f_equal.
  rewrite <- fmap_S_seq, <- list_fmap_compose. change (map (Z.add 1)) with (fmap (M := list) (Z.add 1)).
  rewrite <- list_fmap_compose. apply list_fmap_ext. intros ???. unfold compose. lia.
Qed.

Lemma for_loop_ext {St A} (l : list A) (f g : A → M St bool) s :
  (∀ x s', x ∈ l → f x s' = g x s') → for_loop l f s = for_loop l g s.
Proof.
  revert s. induction l as [|x l IH]; intros s Hfg; simpl; [done|].
  unfold mbind, M_bind. rewrite (Hfg x s) by (left; done).
  destruct (g x s) as [[] s'| |]; [done| |done..].
  apply IH. intros. apply Hfg. by right.
Qed.

Lemma for_loop_map {St A B} (h : B → A) (l : list B) (f : A → M St bool) s :
  for_loop (map h l) f s = for_loop l (fun x => f (h x)) s.
Proof.
  revert s. induction l as [|x l IH]; intros s; simpl; [done|].
  unfold mbind, M_bind. destruct (f (h x) s) as [[] s'| |]; [done| |done..]. apply IH.
Qed.

(** A loop that reads the octets [0 .. n) of an array runs over those octets. *)
Lemma for_loop_rd {St A} (od : list A) n (body : A → M St bool) s :
  0 ≤ n ≤ zlen od →
  for_loop (upto n) (fun i => x ← mem (rd od i); body x) s
    = for_loop (take (Z.to_nat n) od) body s.
Proof.
  intros [Hn Hle]. rewrite <- (Z2Nat.id n) in Hle |- * by done. rewrite Nat2Z.id.
  clear Hn. generalize dependent s. revert od Hle.
  induction (Z.to_nat n) as [|m IH]; intros od Hle s; [done|].
  destruct od as [|x od]; [rewrite zlen_nil in Hle; lia|]. rewrite upto_S. simpl.
  unfold mbind, M_bind. simpl.
  destruct (body x s) as [[] s'| |]; [reflexivity| |reflexivity..].
  rewrite for_loop_map, <- IH by (rewrite zlen_cons in Hle; lia).
  apply for_loop_ext. intros i s'' Hi%elem_of_upto. unfold mbind, M_bind.
  replace (rd (x :: od) (1 + i)) with (rd od i); [done|].
  rewrite !rd_lookup by lia. replace (Z.to_nat (1 + i)) with (S (Z.to_nat i)) by lia. done.
Qed.

Lemma take_snoc {A} (l : list A) i x :
  l !! i = Some x → take (S i) l = take i l ++ [x].
Proof. apply take_S_r. Qed.

Lemma take_insert_snoc {A} (l r : list A) x :
  take (length r) l = r → (length r < length l)%nat →
  take (length (r ++ [x])) (<[length r := x]> l) = r ++ [x].
Proof.
  intros Ht Hl. rewrite length_app, Nat.add_1_r.
  rewrite (take_S_r _ _ x) by (by apply list_lookup_insert_eq).
  by rewrite take_insert_ge, Ht by lia.
Qed.

(** A loop that accumulates the first [n] elements is a fold. *)
Lemma ofold_rd {A B} (f : B → A → B) (data : list A) b n :
  0 ≤ n ≤ zlen data →
  ofold (fun acc i => x ← rd data i; Some (f acc x)) b (upto n)
    = Some (foldl f b (take (Z.to_nat n) data)).
Proof.
  intros [Hn Hle]. revert Hle. pattern n. apply natlike_ind; [done| |done].
  clear n Hn. intros n Hn IH Hle. change (Z.succ n) with (n + 1).
  rewrite upto_succ, ofold_app, IH by lia. simpl.
  destruct (rd_Some data n) as [x Hx]; [lia|]. rewrite Hx. simpl. f_equal.
  rewrite rd_lookup in Hx by lia.
  replace (Z.to_nat (n + 1)) with (S (Z.to_nat n)) by lia.
  by rewrite (take_snoc _ _ _ Hx), foldl_app.
Qed.

Lemma wr_blit {A} (l k : list A) off x :
  0 ≤ off → off + zlen k < zlen l →
  (l' ← blit l off k; wr l' (off + zlen k) x) = blit l off (k ++ [x]).
Proof.
  intros Ho Hl. pose proof (zlen_nonneg k).
  rewrite !blit_Some by slia. cbn [mbind option_bind].
  rewrite wr_Some by (autorewrite with zlen; unfold zlen in *; lia). f_equal.
  assert (length (take (Z.to_nat off) l) = Z.to_nat off) as Ht
    by (rewrite length_take; unfold zlen in *; lia).
  replace (Z.to_nat (off + zlen k)) with (Z.to_nat off + length k)%nat
    by (unfold zlen in *; lia).
  rewrite insert_app_r_alt by lia. rewrite Ht.
  replace (Z.to_nat off + length k - Z.to_nat off)%nat with (length k) by lia.
  rewrite insert_app_r_alt by lia. rewrite Nat.sub_diag, <- app_assoc. do 2 f_equal.
  destruct (drop (Z.to_nat off + length k) l) as [|y d] eqn:Hd.
  - apply (f_equal length) in Hd. rewrite length_drop in Hd. simpl in Hd.
    unfold zlen in *. lia.
  - simpl. f_equal. rewrite length_app. simpl.
    replace (Z.to_nat off + (length k + 1))%nat with (Z.to_nat off + length k + 1)%nat by lia.
    rewrite <- drop_drop, Hd. done.
Qed.

Lemma wr_then_blit {A} (l k : list A) off x :
  0 ≤ off → off + 1 + zlen k ≤ zlen l →
  (l' ← wr l off x; blit l' (off + 1) k) = blit l off (x :: k).
Proof.
  intros Ho Hl. pose proof (zlen_nonneg k).
  rewrite wr_Some by lia. cbn [mbind option_bind].
  rewrite !blit_Some by slia. f_equal.
  replace (Z.to_nat (off + 1)) with (S (Z.to_nat off)) by lia.
  rewrite (take_S_r _ _ x) by (apply list_lookup_insert_eq; unfold zlen in *; lia).
  rewrite take_insert_ge, <- app_assoc by lia. simpl. do 2 f_equal.
  rewrite drop_insert_lt by lia. f_equal. f_equal. lia.
Qed.

(** A copy loop is a [memcpy]. *)
Lemma ofold_copy {A} (dst src : list A) doff soff n :
  0 ≤ doff → 0 ≤ soff → 0 ≤ n → doff + n ≤ zlen dst → soff + n ≤ zlen src →
  ofold (fun dst i => b ← rd src (soff + i); wr dst (doff + i) b) dst (upto n)
    = blit dst doff (take (Z.to_nat n) (drop (Z.to_nat soff) src)).
Proof.
  intros Hd Hs Hn. pattern n. apply natlike_ind; [| |exact Hn].
  - intros ??. rewrite upto_nonpos by lia. simpl.
    rewrite blit_Some by slia. simpl. by rewrite Nat.add_0_r, take_drop.
  - clear n Hn. intros n Hn IH Hd' Hs'. change (Z.succ n) with (n + 1) in *.
    rewrite upto_succ, ofold_app, IH by lia.
    destruct (rd_Some src (soff + n)) as [x Hx]; [lia|].
    set (k := take (Z.to_nat n) (drop (Z.to_nat soff) src)).
    assert (zlen k = n) as Hk by (unfold k; slia).
    replace (take (Z.to_nat (n + 1)) (drop (Z.to_nat soff) src)) with (k ++ [x]).
    + rewrite <- wr_blit, Hk by lia.
      destruct (blit dst doff k); simpl; [|done]. rewrite Hx. simpl. by destruct (wr _ _ _).
    + rewrite rd_lookup in Hx by lia.
      replace (Z.to_nat (n + 1)) with (S (Z.to_nat n)) by lia.
      rewrite (take_snoc _ _ x); [done|]. rewrite lookup_drop. rewrite <- Hx. f_equal. lia.
Qed.

(** Arrays cut at known places. *)
Lemma blit_app {A} (a b c b' : list A) :
  zlen b' = zlen b → blit (a ++ b ++ c) (zlen a) b' = Some (a ++ b' ++ c).
Proof.
  intros Hb. pose proof (zlen_nonneg a). pose proof (zlen_nonneg c).
  rewrite blit_Some by slia. unfold zlen in *. rewrite Nat2Z.id. f_equal.
  rewrite take_app_length. f_equal. f_equal.
  rewrite <- drop_drop, drop_app_length.
  replace (length b') with (length b) by lia. apply drop_app_length.
Qed.

Lemma slice_app {A} (a b c : list A) : slice (a ++ b ++ c) (zlen a) (zlen b) = Some b.
Proof.
  pose proof (zlen_nonneg a). pose proof (zlen_nonneg b). pose proof (zlen_nonneg c).
  rewrite slice_Some by slia. unfold zlen. rewrite !Nat2Z.id, drop_app_length.
  by rewrite take_app_length.
Qed.

(** Writing over the element after [l]. *)
Lemma wr_middle {A} (l r : list A) x y : wr (l ++ x :: r) (zlen l) y = Some (l ++ y :: r).
Proof.
  rewrite wr_Some by (rewrite zlen_app, zlen_cons; pose proof (zlen_nonneg l); pose proof (zlen_nonneg r); lia).
  unfold zlen. by rewrite Nat2Z.id, insert_app_r_alt, Nat.sub_diag by lia.
Qed.

Lemma split_at {A} (l : list A) n : 0 ≤ n ≤ zlen l → ∃ a b, l = a ++ b ∧ zlen a = n.
Proof.
  intros Hn. exists (take (Z.to_nat n) l), (drop (Z.to_nat n) l).
  split; [by rewrite take_drop|]. slia.
Qed.

Lemma u8_small x : is_u8 x → u8 x = x.
Proof. apply Z.mod_small. Qed.
Lemma u16_small x : is_u16 x → u16 x = x.
Proof. apply Z.mod_small. Qed.
Lemma u32_small x : is_u32 x → u32 x = x.
Proof. apply Z.mod_small. Qed.
Lemma u8_range x : is_u8 (u8 x).
Proof. by apply Z.mod_pos_bound. Qed.
Lemma u16_range x : is_u16 (u16 x).
Proof. by apply Z.mod_pos_bound. Qed.
Lemma u32_range x : is_u32 (u32 x).
Proof. by apply Z.mod_pos_bound. Qed.
#[export] Hint Resolve u8_range u16_range u32_range : core.

(** Bitwise operations stay within an octet. *)
Lemma u8_testbit x k : 0 ≤ k → Z.testbit (u8 x) k = (k <? 8) && Z.testbit x k.
Proof.
  intros Hk. unfold u8. change 256 with (2 ^ 8). destruct (Z.ltb_spec k 8).
  - by rewrite Z.mod_pow2_bits_low by lia.
  - by rewrite Z.mod_pow2_bits_high by lia.
Qed.

Lemma is_u8_lxor a b : is_u8 a → is_u8 b → is_u8 (Z.lxor a b).
Proof.
  intros Ha Hb. rewrite <- (u8_small a Ha), <- (u8_small b Hb).
  replace (Z.lxor (u8 a) (u8 b)) with (u8 (Z.lxor a b)); [done|].
  apply Z.bits_inj'. intros k Hk. rewrite Z.lxor_spec, !u8_testbit, Z.lxor_spec by done.
  by destruct (k <? 8).
Qed.

Lemma is_u8_lor a b : is_u8 a → is_u8 b → is_u8 (Z.lor a b).
Proof.
  intros Ha Hb. rewrite <- (u8_small a Ha), <- (u8_small b Hb).
  replace (Z.lor (u8 a) (u8 b)) with (u8 (Z.lor a b)); [done|].
  apply Z.bits_inj'. intros k Hk. rewrite Z.lor_spec, !u8_testbit, Z.lor_spec by done.
  by destruct (k <? 8).
Qed.

(** A statement about an octet, checked on all 256 values. *)
Lemma forall_u8 (P : Z → bool) :
  forallb P (seqZ 0 256) = true → ∀ x, is_u8 x → P x = true.
Proof.
  intros H x Hx. rewrite forallb_forall in H. apply H, list_elem_of_In, elem_of_seqZ.
  unfold is_u8 in Hx. lia.
Qed.

Lemma forall_u8_eq (f g : Z → Z) :
  forallb (fun x => f x =? g x) (seqZ 0 256) = true → ∀ x, is_u8 x → f x = g x.
Proof. intros H x Hx. by apply Z.eqb_eq, (forall_u8 (fun x => f x =? g x)). Qed.

Lemma forall_u8_eqb (f g : Z → bool) :
  forallb (fun x => Bool.eqb (f x) (g x)) (seqZ 0 256) = true → ∀ x, is_u8 x → f x = g x.
Proof.
  intros H x Hx. by apply Bool.eqb_prop, (forall_u8 (fun x => Bool.eqb (f x) (g x))).
Qed.

(** Concatenation of bit fields is addition. *)
Lemma land_shiftl_small h l n : 0 ≤ n → 0 ≤ l < 2 ^ n → Z.land (Z.shiftl h n) l = 0.
Proof.
  intros Hn Hl. apply Z.bits_inj'. intros k Hk. rewrite Z.land_spec, Z.bits_0.
  destruct (Z.lt_ge_cases k n) as [Hkn|Hkn].
  - by rewrite Z.shiftl_spec_low.
  - rewrite (Z.testbit_eqb l) by done.
    rewrite Z.div_small; [apply andb_false_r|].
    split; [lia|]. eapply Z.lt_le_trans; [apply Hl|]. apply Z.pow_le_mono_r; lia.
Qed.

Lemma lor_shiftl_add h l n :
  0 ≤ n → 0 ≤ l < 2 ^ n → Z.lor (Z.shiftl h n) l = h * 2 ^ n + l.
Proof.
  intros. rewrite <- Z.shiftl_mul_pow2 by lia.
  symmetry. by apply Z.add_nocarry_lor, land_shiftl_small.
Qed.

(** [(hi << 8) | lo] on octets, as the code assembles 16-bit values. *)
Lemma be16 hi lo : is_u8 hi → is_u8 lo →
  u16 (Z.lor (u16 (Z.shiftl hi 8)) lo) = hi * 256 + lo.
Proof.
  unfold is_u8. intros. rewrite (u16_small (Z.shiftl hi 8)).
  - rewrite lor_shiftl_add by lia. apply u16_small. unfold is_u16. lia.
  - rewrite Z.shiftl_mul_pow2 by lia. unfold is_u16. lia.
Qed.

Lemma forall_u8_dec (P : Z → Prop) `{!∀ x, Decision (P x)} :
  forallb (fun x => bool_decide (P x)) (seqZ 0 256) = true → ∀ x, is_u8 x → P x.
Proof.
  intros Hall x Hx.
  eapply bool_decide_eq_true_1, (forall_u8 (fun x => bool_decide (P x)) Hall x Hx).
Qed.
#[export] Instance is_u8_dec x : Decision (is_u8 x) := ltac:(unfold is_u8; apply _).

(** Boolean tests to propositions, in the hypotheses and the goal. *)
Create Rewrite HintDb bools.
#[export] Hint Rewrite andb_true_iff andb_false_iff orb_true_iff orb_false_iff
  negb_true_iff negb_false_iff Z.eqb_eq Z.eqb_neq Z.leb_le Z.leb_gt Z.ltb_lt Z.ltb_ge
  bool_decide_eq_true bool_decide_eq_false : bools.
Ltac norm_bool := autorewrite with bools in *; destruct_and?.
