(* ===== verification/Iolinki.v ===== *)
(** * The shared [iolinki] helpers

    The master compiles [crc.c] and [frame.c] and includes [config.h], [phy.h]
    and [protocol.h] of the sibling [iolinki] repository. None of them is part of
    this repository, so their constants and functions are the fields of a class
    that every definition takes as an argument, and what the master relies on is
    the class of laws [IolinkiLaws]: values that the comments, the tests and the
    documents of this repository state. *)

From S2P Require Import Prelude.

(** [iolinki/phy.h]: the line modes and the transmission rates the master names.
    A value outside the enumeration is [_OTHER]. *)
Inductive iolink_phy_mode_t : Type :=
| IOLINK_PHY_MODE_INACTIVE
| IOLINK_PHY_MODE_SIO
| IOLINK_PHY_MODE_SDCI.

Inductive iolink_baudrate_t : Type :=
| IOLINK_BAUDRATE_COM1
| IOLINK_BAUDRATE_COM2
| IOLINK_BAUDRATE_COM3
| IOLINK_BAUDRATE_OTHER (raw : Z).

(** [iolinki/frame.h]: the decoded reply to an OPERATE M-sequence. *)
Record iolink_frame_operate_response_t : Type := {
  resp_checksum_ok : bool;
  resp_status : Z;
  resp_event_pending : bool;
  resp_pd_valid : bool;
  resp_pd : list Z;
  resp_pd_len : Z;
  resp_od : list Z;
  resp_od_len : Z;
}.

Class Iolinki : Type := {
  (* config.h *)
  IOLINK_PD_IN_MAX_SIZE : Z;
  IOLINK_PD_OUT_MAX_SIZE : Z;
  IOLINK_ISDU_BUFFER_SIZE : Z;
  (* protocol.h *)
  IOLINK_MC_RW_MASK : Z;
  IOLINK_MC_COMM_CHANNEL_MASK : Z;
  IOLINK_MC_ADDR_MASK : Z;
  IOLINK_M_SEQ_HEADER_LEN : Z;
  IOLINK_M_SEQ_TYPE0_LEN : Z;
  IOLINK_FLOWCTRL_COUNT_MASK : Z;
  IOLINK_FLOWCTRL_START : Z;
  IOLINK_FLOWCTRL_IDLE : Z;
  IOLINK_FLOWCTRL_ABORT : Z;
  IOLINK_IDX_DIRECT_PARAMETERS_1 : Z;
  IOLINK_IDX_SYSTEM_COMMAND : Z;
  IOLINK_IDX_DATA_STORAGE : Z;
  IOLINK_IDX_DETAILED_DEVICE_STATUS : Z;
  IOLINK_CMD_DEVICE_OPERATE : Z;
  IOLINK_CMD_PARAM_UPLOAD_START : Z;
  IOLINK_CMD_PARAM_UPLOAD_END : Z;
  IOLINK_CMD_PARAM_DOWNLOAD_START : Z;
  IOLINK_CMD_PARAM_DOWNLOAD_END : Z;
  IOLINK_CMD_PARAM_DOWNLOAD_STORE : Z;
  IOLINK_ISDU_ERROR_NONE : Z;
  IOLINK_ISDU_ERROR_SEGMENTATION : Z;
  IOLINK_DEVICE_STATUS_FAILURE : Z;
  (* crc.h *)
  (** The A.1.6 message checksum of an octet string. *)
  iolink_checksum6 : list Z → Z;
  (* frame.h *)
  (** [iolink_frame_encode_type0(mc, buf, size)]: the frame length and the buffer. *)
  iolink_frame_encode_type0 : Z → list Z → Z * list Z;
  (** [iolink_frame_encode_type0_write(mc, od, buf, size)] *)
  iolink_frame_encode_type0_write : Z → Z → list Z → Z * list Z;
  (** [iolink_frame_decode_operate_response(data, len, pd_in_len, od_len, &resp)]:
      [Some resp] when it returns 0. *)
  iolink_frame_decode_operate_response :
    list Z → Z → Z → option iolink_frame_operate_response_t;
}.

(** What the master relies on. The M-sequence control octet carries the direction
    in bit 7, the communication channel in bits 6-5 and a 5-bit address (A.1.2);
    the FlowCTRL values are those of Table 52; [FRAME_BUF_SIZE] (64) "must hold the
    worst-case operate frame": header, PD-out and at most eight OD octets, and on
    reception OD, PD-in and CKS. *)
Class IolinkiLaws (IO : Iolinki) : Prop := {
  law_pd_in_max : 0 ≤ IOLINK_PD_IN_MAX_SIZE ≤ 55;
  law_pd_out_max : 0 ≤ IOLINK_PD_OUT_MAX_SIZE ≤ 54;
  law_isdu_buffer : 64 ≤ IOLINK_ISDU_BUFFER_SIZE ≤ 65535;
  law_mc_rw : IOLINK_MC_RW_MASK = 0x80;
  law_mc_channel : IOLINK_MC_COMM_CHANNEL_MASK = 0x60;
  law_mc_addr : IOLINK_MC_ADDR_MASK = 0x1F;
  law_header_len : IOLINK_M_SEQ_HEADER_LEN = 2;
  law_type0_len : IOLINK_M_SEQ_TYPE0_LEN = 2;
  law_count_mask : IOLINK_FLOWCTRL_COUNT_MASK = 0x0F;
  law_start : IOLINK_FLOWCTRL_START = 0x10;
  law_idle : IOLINK_FLOWCTRL_IDLE = 0x11;
  law_abort : IOLINK_FLOWCTRL_ABORT = 0x1F;
  law_idx_dpp1 : is_u16 IOLINK_IDX_DIRECT_PARAMETERS_1;
  law_idx_cmd : is_u16 IOLINK_IDX_SYSTEM_COMMAND;
  law_idx_ds : is_u16 IOLINK_IDX_DATA_STORAGE;
  law_idx_dds : is_u16 IOLINK_IDX_DETAILED_DEVICE_STATUS;
  law_cmd_operate : IOLINK_CMD_DEVICE_OPERATE = 0x99;
  law_cmd_download : is_u8 IOLINK_CMD_PARAM_DOWNLOAD_START;
  law_cmd_download_end : is_u8 IOLINK_CMD_PARAM_DOWNLOAD_END;
  law_cmd_upload : is_u8 IOLINK_CMD_PARAM_UPLOAD_START;
  law_cmd_upload_end : is_u8 IOLINK_CMD_PARAM_UPLOAD_END;
  law_cmd_store : is_u8 IOLINK_CMD_PARAM_DOWNLOAD_STORE;
  law_error_none : IOLINK_ISDU_ERROR_NONE = 0;
  law_error_seg : 0 < IOLINK_ISDU_ERROR_SEGMENTATION < 65536;
  law_status_failure : IOLINK_DEVICE_STATUS_FAILURE = 0xFF;
  (** The checksum occupies bits 0-5 of CKT and CKS. *)
  law_checksum6 : ∀ msg, 0 ≤ iolink_checksum6 msg < 64;
  (** A TYPE_0 read request is MC, CKT. *)
  law_encode_type0 : ∀ mc buf, 2 ≤ zlen buf →
    iolink_frame_encode_type0 mc buf =
      (2, mc :: iolink_checksum6 [mc; 0] :: drop 2 buf);
  (** A TYPE_0 write request is MC, CKT and one OD octet. *)
  law_encode_type0_write : ∀ mc od buf, 3 ≤ zlen buf →
    iolink_frame_encode_type0_write mc od buf =
      (3, mc :: iolink_checksum6 [mc; 0; od] :: od :: drop 3 buf);
  (** A decoded reply has exactly the configured PD and OD octets and CKS
      (Figures A.9, A.10, A.13, A.14). *)
  law_decode : ∀ data pd_in_len od_len r,
    Forall is_u8 data →
    iolink_frame_decode_operate_response data pd_in_len od_len = Some r →
    zlen data = pd_in_len + od_len + 1 ∧
    resp_pd_len r = pd_in_len ∧ zlen (resp_pd r) = pd_in_len ∧ Forall is_u8 (resp_pd r) ∧
    resp_od_len r = od_len ∧ zlen (resp_od r) = od_len ∧ Forall is_u8 (resp_od r) ∧
    is_u8 (resp_status r);
}.

(** [iolinki/protocol.h]: the names only the devices of the examples and the tests use.
    A TYPE_0 write is the header and one OD octet; the channels are bits 6-5 of the
    M-sequence control octet (A.1.2). *)
Class IolinkiDevice : Type := {
  IOLINK_M_SEQ_MIN_LEN : Z;
  IOLINK_MC_CHANNEL_DIAGNOSIS : Z;
  IOLINK_MC_CHANNEL_ISDU : Z;
  IOLINK_MC_TRANSITION_COMMAND : Z;
  IOLINK_ISDU_ERROR_SERVICE_NOT_AVAIL : Z;
}.

Class IolinkiDeviceLaws (DC : IolinkiDevice) : Prop := {
  law_min_len : IOLINK_M_SEQ_MIN_LEN = 3;
  law_channel_diagnosis : IOLINK_MC_CHANNEL_DIAGNOSIS = 0x40;
  law_channel_isdu : IOLINK_MC_CHANNEL_ISDU = 0x60;
  law_transition : IOLINK_MC_TRANSITION_COMMAND = 0x0F;
  law_service_not_avail : is_u8 IOLINK_ISDU_ERROR_SERVICE_NOT_AVAIL;
}.

(** ** Well-formed replies

    The reply to an M-sequence is the OD octets, the process data and CKS, which holds
    the flags in bits 7 and 6 and the A.1.6 checksum of the whole reply with the checksum
    bits zero (A.1.5, Figures A.5, A.9, A.10, A.13, A.14). *)
Definition reply_octets {IO : Iolinki} (od pd : list Z) (flags : Z) : list Z :=
  od ++ pd ++ [Z.lor flags (iolink_checksum6 (od ++ pd ++ [flags]))].

Definition cks_flags (flags : Z) : Prop :=
  flags = 0 ∨ flags = 0x40 ∨ flags = 0x80 ∨ flags = 0xC0.

(** The decoder takes a reply apart: bit 7 of CKS is the event flag, bit 6 says that the
    process data are invalid, and the checksum is right when the other bits hold it. The
    checksum of the acknowledgement [0x00] is 0x2D. *)
Class CodecLaws (IO : Iolinki) : Prop := {
  law_decode_octets : ∀ od pd flags c,
    Forall is_u8 od → Forall is_u8 pd → cks_flags flags → 0 ≤ c < 64 →
    ∃ r, iolink_frame_decode_operate_response (od ++ pd ++ [Z.lor flags c]) (zlen pd) (zlen od) = Some r ∧
      resp_checksum_ok r = (iolink_checksum6 (od ++ pd ++ [flags]) =? c) ∧ resp_od r = od ∧ resp_pd r = pd ∧
      resp_event_pending r = Z.testbit flags 7 ∧ resp_pd_valid r = negb (Z.testbit flags 6);
  law_checksum_ack : iolink_checksum6 [0] = 0x2D;
}.

Section replies.
Context {IO : Iolinki} {laws : IolinkiLaws IO}.

(** CKS holds the flags and the checksum side by side. *)
Lemma cks_fields flags c : cks_flags flags → 0 ≤ c < 64 →
  is_u8 (Z.lor flags c) ∧ Z.land (Z.lor flags c) 0xC0 = flags ∧ Z.land (Z.lor flags c) 0x3F = c.
Proof.
  intros Hf Hc. assert (is_u8 c) as Hu by (unfold is_u8; lia). revert Hc.
  destruct Hf as [->|[->|[->| ->]]]; revert c Hu; refine (forall_u8_dec _ _); vm_compute; reflexivity.
Qed.

Lemma reply_u8 od pd flags : Forall is_u8 od → Forall is_u8 pd → cks_flags flags →
  Forall is_u8 (reply_octets od pd flags).
Proof.
  intros Ho Hp Hf. unfold reply_octets. rewrite !Forall_app. split; [done|]. split; [done|].
  constructor; [|constructor]. by apply cks_fields, law_checksum6.
Qed.

(** A well-formed reply is accepted. *)
Lemma law_decode_reply {codec : CodecLaws IO} od pd flags :
  Forall is_u8 od → Forall is_u8 pd → cks_flags flags →
  ∃ r, iolink_frame_decode_operate_response (reply_octets od pd flags) (zlen pd) (zlen od) = Some r ∧
    resp_checksum_ok r = true ∧ resp_od r = od ∧ resp_pd r = pd ∧
    resp_event_pending r = Z.testbit flags 7 ∧ resp_pd_valid r = negb (Z.testbit flags 6).
Proof.
  intros Ho Hp Hf. destruct (law_decode_octets od pd flags _ Ho Hp Hf (law_checksum6 (od ++ pd ++ [flags]))) as (r & Hd & Hc & H).
  exists r. split; [done|]. by rewrite Hc, Z.eqb_refl.
Qed.

Lemma zlen_reply od pd flags : zlen (reply_octets od pd flags) = zlen od + zlen pd + 1.
Proof. unfold reply_octets. rewrite !zlen_app. change (zlen [_]) with 1. lia. Qed.
End replies.
