(* ===== verification/Reference.v ===== *)
(** * A reference instance of the shared helpers

    The laws of [IolinkiLaws] can hold: this instance takes the checksum from the
    A.1.6 oracle of
    [docs/superpowers/plans/2026-09-18-spec-conformant-wire-master.md] and the frame
    layouts from the comments of [src/master_port.c]. The witnesses run the model
    with it. *)

From S2P Require Import Prelude Iolinki.

Definition bit (z i : Z) : Z := Z.b2z (Z.testbit z i).

(** A.1.6: seed 0x52, XOR of the octets, then the 8-to-6 bit compression (A.1). *)
Definition reference_checksum6 (msg : list Z) : Z :=
  let c := u8 (foldl Z.lxor 0x52 msg) in
  let b := bit c in
  Z.lxor (Z.lxor (b 7) (b 5)) (Z.lxor (b 3) (b 1)) * 32
  + Z.lxor (Z.lxor (b 6) (b 4)) (Z.lxor (b 2) (b 0)) * 16
  + Z.lxor (b 7) (b 6) * 8 + Z.lxor (b 5) (b 4) * 4
  + Z.lxor (b 3) (b 2) * 2 + Z.lxor (b 1) (b 0).

Definition reference_decode (data : list Z) (pd_in_len od_len : Z)
    : option iolink_frame_operate_response_t :=
  if (zlen data =? pd_in_len + od_len + 1) && (0 <=? pd_in_len) && (0 <=? od_len) then
    cks ← rd data (pd_in_len + od_len);
    od ← slice data 0 od_len;
    pd ← slice data od_len pd_in_len;
    Some {|
      resp_checksum_ok :=
        reference_checksum6 (od ++ pd ++ [Z.land cks 0xC0]) =? Z.land cks 0x3F;
      resp_status := cks;
      resp_event_pending := Z.testbit cks 7;
      resp_pd_valid := negb (Z.testbit cks 6);
      resp_pd := pd; resp_pd_len := pd_in_len;
      resp_od := od; resp_od_len := od_len;
    |}
  else None.

#[export] Instance reference_iolinki : Iolinki := {|
  IOLINK_PD_IN_MAX_SIZE := 32;
  IOLINK_PD_OUT_MAX_SIZE := 32;
  IOLINK_ISDU_BUFFER_SIZE := 256;
  IOLINK_MC_RW_MASK := 0x80;
  IOLINK_MC_COMM_CHANNEL_MASK := 0x60;
  IOLINK_MC_ADDR_MASK := 0x1F;
  IOLINK_M_SEQ_HEADER_LEN := 2;
  IOLINK_M_SEQ_TYPE0_LEN := 2;
  IOLINK_FLOWCTRL_COUNT_MASK := 0x0F;
  IOLINK_FLOWCTRL_START := 0x10;
  IOLINK_FLOWCTRL_IDLE := 0x11;
  IOLINK_FLOWCTRL_ABORT := 0x1F;
  IOLINK_IDX_DIRECT_PARAMETERS_1 := 0x0000;
  IOLINK_IDX_SYSTEM_COMMAND := 0x0002;
  IOLINK_IDX_DATA_STORAGE := 0x0003;
  IOLINK_IDX_DETAILED_DEVICE_STATUS := 0x0025;
  IOLINK_CMD_DEVICE_OPERATE := 0x99;
  IOLINK_CMD_PARAM_UPLOAD_START := 0x01;
  IOLINK_CMD_PARAM_UPLOAD_END := 0x02;
  IOLINK_CMD_PARAM_DOWNLOAD_START := 0x03;
  IOLINK_CMD_PARAM_DOWNLOAD_END := 0x04;
  IOLINK_CMD_PARAM_DOWNLOAD_STORE := 0x05;
  IOLINK_ISDU_ERROR_NONE := 0x0000;
  IOLINK_ISDU_ERROR_SEGMENTATION := 0x0081;
  IOLINK_DEVICE_STATUS_FAILURE := 0xFF;
  iolink_checksum6 := reference_checksum6;
  iolink_frame_encode_type0 := fun mc buf =>
    (2, mc :: reference_checksum6 [mc; 0] :: drop 2 buf);
  iolink_frame_encode_type0_write := fun mc od buf =>
    (3, mc :: reference_checksum6 [mc; 0; od] :: od :: drop 3 buf);
  iolink_frame_decode_operate_response := reference_decode;
|}.

(** The vectors of the same document. *)
Example checksum6_vectors :
  reference_checksum6 [0x00; 0x00] = 0x2D ∧ reference_checksum6 [0xA2; 0x00] = 0x00 ∧
  reference_checksum6 [0x20; 0x00; 0x99] = 0x06 ∧
  reference_checksum6 [0x00; 0x40; 0xA5; 0x5A] = 0x75 - 0x40 ∧
  reference_checksum6 [0x80; 0x80] = 0xAD - 0x80 ∧ reference_checksum6 [0x10; 0x00] = 0x39.
Proof. vm_compute. split_and!; reflexivity. Qed.

Lemma reference_checksum6_range msg : 0 ≤ reference_checksum6 msg < 64.
Proof.
  unfold reference_checksum6. generalize (foldl Z.lxor 0x52 msg). intros c.
  cbv zeta. generalize (u8_range c). generalize (u8 c). clear c msg.
  refine (forall_u8_dec _ _). vm_compute. reflexivity.
Qed.

Lemma reference_decode_ok data pd_in_len od_len r :
  Forall is_u8 data → reference_decode data pd_in_len od_len = Some r →
  zlen data = pd_in_len + od_len + 1 ∧
  resp_pd_len r = pd_in_len ∧ zlen (resp_pd r) = pd_in_len ∧ Forall is_u8 (resp_pd r) ∧
  resp_od_len r = od_len ∧ zlen (resp_od r) = od_len ∧ Forall is_u8 (resp_od r) ∧
  is_u8 (resp_status r).
Proof.
  unfold reference_decode. intros Hd H. case_match eqn:Hb; [|done]. norm_bool.
  apply bind_Some in H as (cks & Hcks & H). apply bind_Some in H as (od & Hod & H).
  apply bind_Some in H as (pd & Hpd & H). simplify_eq/=.
  split_and!; eauto using zlen_slice, slice_Forall. by eapply (rd_Forall is_u8).
Qed.

#[export] Instance reference_laws : IolinkiLaws reference_iolinki.
Proof.
  split; simpl; unfold is_u8, is_u16; try lia.
  - apply reference_checksum6_range.
  - done.
  - done.
  - apply reference_decode_ok.
Qed.

#[export] Instance reference_codec : CodecLaws reference_iolinki.
Proof.
  split; [|reflexivity]. intros od pd flags c Ho Hp Hf Hc.
  destruct (cks_fields flags c Hf Hc) as (_ & Hc0 & H3f).
  assert (zlen (od ++ pd) = zlen od + zlen pd) as Hl by apply zlen_app.
  cbn [iolink_frame_decode_operate_response reference_iolinki]. unfold reference_decode.
  pose proof (zlen_nonneg od). pose proof (zlen_nonneg pd).
  rewrite !zlen_app, (proj2 (Z.eqb_eq _ _)) by (change (zlen [_]) with 1; lia). rewrite !(proj2 (Z.leb_le _ _)) by lia. cbn [andb].
  assert (rd (od ++ pd ++ [Z.lor flags c]) (zlen pd + zlen od) = Some (Z.lor flags c)) as ->.
  { rewrite rd_lookup by lia. rewrite app_assoc, Z.add_comm, <- Hl. unfold zlen.
    by rewrite Nat2Z.id, list_lookup_middle. }
  pose proof (slice_app [] od (pd ++ [Z.lor flags c])) as Hs1. cbn [app] in Hs1. rewrite zlen_nil in Hs1.
  cbn [mbind option_bind]. rewrite Hs1. cbn [mbind option_bind]. rewrite slice_app. cbn [mbind option_bind].
  eexists. split; [reflexivity|]. cbn [resp_checksum_ok resp_od resp_pd resp_event_pending resp_pd_valid]. rewrite Hc0, H3f.
  split; [done|]. split; [done|]. split; [done|].
  assert (Z.testbit (Z.land (Z.lor flags c) 0xC0) 7 = Z.testbit flags 7) as H7 by (by rewrite Hc0).
  assert (Z.testbit (Z.land (Z.lor flags c) 0xC0) 6 = Z.testbit flags 6) as H6 by (by rewrite Hc0).
  rewrite Z.land_spec, andb_true_r in H7, H6. by rewrite H7, H6.
Qed.

#[export] Instance reference_device : IolinkiDevice := {|
  IOLINK_M_SEQ_MIN_LEN := 3;
  IOLINK_MC_CHANNEL_DIAGNOSIS := 0x40;
  IOLINK_MC_CHANNEL_ISDU := 0x60;
  IOLINK_MC_TRANSITION_COMMAND := 0x0F;
  IOLINK_ISDU_ERROR_SERVICE_NOT_AVAIL := 0x11;
|}.

#[export] Instance reference_device_laws : IolinkiDeviceLaws reference_device.
Proof. by split. Qed.
