(* ===== verification/Types.v ===== *)
(** * Data of the master stack

    The enumerations, configuration, diagnostics and per-port state of
    [include/iolinki_master/master.h] and [src/master_internal.h]. The opaque
    storage of a port or controller is modelled by the private state it holds. A
    configuration enumeration that a caller may set out of range has a constructor
    [_OTHER] for those values. *)

From S2P Require Import Prelude Iolinki.

(** ** Result codes *)

Definition IOLINK_MASTER_STATUS_OK : Z := 0.
Definition IOLINK_MASTER_STATUS_PENDING : Z := 1.
Definition IOLINK_MASTER_ERR_INVALID_ARG : Z := -1.
Definition IOLINK_MASTER_ERR_RETRY_LIMIT : Z := -2.
Definition IOLINK_MASTER_ERR_FRAME : Z := -2.
Definition IOLINK_MASTER_ERR_BUFFER_TOO_SMALL : Z := -2.
Definition IOLINK_MASTER_ERR_CHECKSUM : Z := -3.
Definition IOLINK_MASTER_ERR_UNSUPPORTED_PHY : Z := -6.

Definition IOLINK_MASTER_PARAM_ERR_TOO_SHORT : Z := -2.
Definition IOLINK_MASTER_PARAM_ERR_REVISION : Z := -2.
Definition IOLINK_MASTER_PARAM_ERR_CYCLE_TIME : Z := -3.
Definition IOLINK_MASTER_PARAM_ERR_PD_SIZE : Z := -4.
Definition IOLINK_MASTER_PARAM_ERR_M_SEQUENCE : Z := -5.
Definition IOLINK_MASTER_PARAM_ERR_VENDOR_ID : Z := -6.
Definition IOLINK_MASTER_PARAM_ERR_DEVICE_ID : Z := -7.
Definition IOLINK_MASTER_PARAM_ERR_PD_DESCRIPTOR : Z := -8.

Definition IOLINK_MASTER_ISDU_ERR_BUFFER_TOO_SMALL : Z := -2.
Definition IOLINK_MASTER_ISDU_ERR_BUSY : Z := -3.
Definition IOLINK_MASTER_ISDU_ERR_DEVICE : Z := -4.
Definition IOLINK_MASTER_ISDU_ERR_INVALID_STATE : Z := -5.
Definition IOLINK_MASTER_ISDU_ERR_VERIFY_FAILED : Z := -6.

Definition IOLINK_MASTER_SIO_ERR_WRONG_MODE : Z := -2.
Definition IOLINK_MASTER_SIO_ERR_UNSUPPORTED_PHY : Z := -3.

(** ** Constants of [master_internal.h] *)

Definition IOLINK_MASTER_FRAME_BUF_SIZE : Z := 64.
Definition IOLINK_MASTER_RX_RETRY_LIMIT : Z := 2.
Definition IOLINK_MASTER_T_BIT_COM1_NS : Z := 208330.
Definition IOLINK_MASTER_T_BIT_COM2_NS : Z := 26040.
Definition IOLINK_MASTER_T_BIT_COM3_NS : Z := 4340.
Definition IOLINK_MASTER_NS_PER_100US : Z := 100000.
Definition IOLINK_MASTER_DEFAULT_T_DMT_TBIT : Z := 32.
Definition IOLINK_MASTER_DEFAULT_T_DWU_100US : Z := 400.
Definition IOLINK_MASTER_DEFAULT_WAKE_RETRY_LIMIT : Z := 2.
Definition IOLINK_MASTER_DEFAULT_T_SD_100US : Z := 5000.
Definition IOLINK_MASTER_T_REN_MAX_100US : Z := 5.
Definition IOLINK_MASTER_TYPE0_M_SEQ_MAX_TBIT : Z := 58.
Definition IOLINK_MASTER_UART_FRAME_TBIT : Z := 11.
Definition IOLINK_MASTER_T_A_MAX_TBIT : Z := 10.
Definition IOLINK_MASTER_WAKEUP_BYTE : Z := 0x55.

Definition IOLINK_MASTER_DPP1_LEN : Z := 16.
Definition IOLINK_MASTER_DPP1_OFF_MASTER_COMMAND : Z := 0.
Definition IOLINK_MASTER_DPP1_OFF_MIN_CYCLE_TIME : Z := 2.
Definition IOLINK_MASTER_DPP1_OFF_MSEQ_CAPABILITY : Z := 3.
Definition IOLINK_MASTER_DPP1_OFF_REVISION_ID : Z := 4.
Definition IOLINK_MASTER_DPP1_OFF_PD_IN_DESC : Z := 5.
Definition IOLINK_MASTER_DPP1_OFF_PD_OUT_DESC : Z := 6.
Definition IOLINK_MASTER_DPP1_OFF_VENDOR_ID_HI : Z := 7.
Definition IOLINK_MASTER_DPP1_OFF_VENDOR_ID_LO : Z := 8.
Definition IOLINK_MASTER_DPP1_OFF_DEVICE_ID_HI : Z := 9.
Definition IOLINK_MASTER_DPP1_OFF_DEVICE_ID_MID : Z := 10.
Definition IOLINK_MASTER_DPP1_OFF_DEVICE_ID_LO : Z := 11.

Definition IOLINK_MASTER_REVISION_1_0 : Z := 0x10.
Definition IOLINK_MASTER_REVISION_1_1 : Z := 0x11.
Definition IOLINK_MASTER_MIN_CYCLE_BASE_SHIFT : Z := 6.
Definition IOLINK_MASTER_MIN_CYCLE_BASE_MASK : Z := 0x03.
Definition IOLINK_MASTER_MIN_CYCLE_MULT_MASK : Z := 0x3F.
Definition IOLINK_MASTER_MSEQ_CAP_ISDU_BIT : Z := 0x01.
Definition IOLINK_MASTER_MSEQ_CAP_OPERATE_SHIFT : Z := 1.
Definition IOLINK_MASTER_MSEQ_CAP_OPERATE_MASK : Z := 0x07.
Definition IOLINK_MASTER_MSEQ_CAP_PREOP_SHIFT : Z := 4.
Definition IOLINK_MASTER_MSEQ_CAP_PREOP_MASK : Z := 0x03.
Definition IOLINK_MASTER_PD_DESC_BYTE_BIT : Z := 0x80.
Definition IOLINK_MASTER_PD_DESC_LENGTH_MASK : Z := 0x1F.
Definition IOLINK_MASTER_PD_DESC_BITS_PER_OCTET : Z := 8.
Definition IOLINK_MASTER_MC_COMM_CHANNEL_SHIFT : Z := 5.

Definition IOLINK_MASTER_ISDU_SERVICE_SHIFT : Z := 4.
Definition IOLINK_MASTER_ISDU_LENGTH_NIBBLE_MAX : Z := 15.
Definition IOLINK_MASTER_ISDU_LENGTH_EXTENDED : Z := 0x01.
Definition IOLINK_MASTER_ISDU_EXT_MAX : Z := 238.
Definition IOLINK_MASTER_ISDU_WRITE_HEADER_MAX : Z := 7.
Definition IOLINK_MASTER_ISDU_CHKPDU_LEN : Z := 1.

Definition IOLINK_MASTER_DS_RECORD_HEADER_LEN : Z := 4.
Definition IOLINK_MASTER_EVENT_ENTRY_LEN : Z := 3.
Definition IOLINK_MASTER_EVENT_MEMORY_LEN : Z := 19.
Definition IOLINK_MASTER_EVENT_SLOT_MAX : Z := 6.
Definition IOLINK_MASTER_EVENT_QUALIFIER_MODE_SHIFT : Z := 4.
Definition IOLINK_MASTER_EVENT_QUALIFIER_MODE_MASK : Z := 0x03.
Definition IOLINK_MASTER_EVENT_MODE_NOTIFICATION : Z := 1.
Definition IOLINK_MASTER_EVENT_MODE_WARNING : Z := 2.
Definition IOLINK_MASTER_EVENT_MODE_ERROR : Z := 3.
Definition IOLINK_MASTER_GATEWAY_LINE_MAX : Z := 128.

(** ** Enumerations *)

Inductive iolink_master_m_seq_type_t : Type :=
| IOLINK_MASTER_M_SEQ_TYPE_0
| IOLINK_MASTER_M_SEQ_TYPE_1_1
| IOLINK_MASTER_M_SEQ_TYPE_1_2
| IOLINK_MASTER_M_SEQ_TYPE_1_V
| IOLINK_MASTER_M_SEQ_TYPE_2_1
| IOLINK_MASTER_M_SEQ_TYPE_2_2
| IOLINK_MASTER_M_SEQ_TYPE_2_V
| IOLINK_MASTER_M_SEQ_TYPE_OTHER (raw : Z).

Inductive iolink_master_state_t : Type :=
| IOLINK_MASTER_STATE_INACTIVE
| IOLINK_MASTER_STATE_STARTUP
| IOLINK_MASTER_STATE_PREOPERATE
| IOLINK_MASTER_STATE_OPERATE
| IOLINK_MASTER_STATE_ERROR.

Inductive iolink_master_port_mode_t : Type :=
| IOLINK_MASTER_PORT_MODE_IOLINK
| IOLINK_MASTER_PORT_MODE_DI
| IOLINK_MASTER_PORT_MODE_DQ
| IOLINK_MASTER_PORT_MODE_DEACTIVATED
| IOLINK_MASTER_PORT_MODE_OTHER (raw : Z).

Inductive iolink_master_isdu_op_t : Type :=
| IOLINK_MASTER_ISDU_OP_NONE
| IOLINK_MASTER_ISDU_OP_READ
| IOLINK_MASTER_ISDU_OP_WRITE.

Inductive iolink_master_event_type_t : Type :=
| IOLINK_MASTER_EVENT_TYPE_UNKNOWN
| IOLINK_MASTER_EVENT_TYPE_NOTIFICATION
| IOLINK_MASTER_EVENT_TYPE_WARNING
| IOLINK_MASTER_EVENT_TYPE_ERROR.

Inductive iolink_master_tick_event_t : Type :=
| IOLINK_MASTER_TICK_NONE
| IOLINK_MASTER_TICK_CYCLE_DUE
| IOLINK_MASTER_TICK_RESPONSE_TIMEOUT
| IOLINK_MASTER_TICK_OTHER (raw : Z).

Inductive iolink_master_inspection_level_t : Type :=
| IOLINK_MASTER_INSPECTION_NO_CHECK
| IOLINK_MASTER_INSPECTION_TYPE_COMP
| IOLINK_MASTER_INSPECTION_IDENTICAL
| IOLINK_MASTER_INSPECTION_OTHER (raw : Z).

Inductive iolink_master_mc_channel_t : Type :=
| IOLINK_MASTER_MC_CHANNEL_PROCESS
| IOLINK_MASTER_MC_CHANNEL_PAGE
| IOLINK_MASTER_MC_CHANNEL_DIAGNOSIS
| IOLINK_MASTER_MC_CHANNEL_ISDU.

Inductive iolink_master_startup_step_t : Type :=
| IOLINK_MASTER_STARTUP_STEP_WAKE
| IOLINK_MASTER_STARTUP_STEP_SEND_TYPE0
| IOLINK_MASTER_STARTUP_STEP_AWAIT_RESPONSE
| IOLINK_MASTER_STARTUP_STEP_AWAIT_OPERATE_ACK
| IOLINK_MASTER_STARTUP_STEP_INACTIVE.

Inductive iolink_master_isdu_phase_t : Type :=
| IOLINK_MASTER_ISDU_PHASE_NONE
| IOLINK_MASTER_ISDU_PHASE_REQUEST
| IOLINK_MASTER_ISDU_PHASE_WAIT
| IOLINK_MASTER_ISDU_PHASE_RESPONSE.

Inductive iolink_master_event_phase_t : Type :=
| IOLINK_MASTER_EVENT_PHASE_NONE
| IOLINK_MASTER_EVENT_PHASE_READ
| IOLINK_MASTER_EVENT_PHASE_WRITE.

Inductive iolink_master_event_req_t : Type :=
| IOLINK_MASTER_EVENT_REQ_NONE
| IOLINK_MASTER_EVENT_REQ_CODE
| IOLINK_MASTER_EVENT_REQ_DETAILS
| IOLINK_MASTER_EVENT_REQ_ACK.

Inductive iolink_master_block_step_t : Type :=
| IOLINK_MASTER_BLOCK_STEP_NONE
| IOLINK_MASTER_BLOCK_STEP_BEGIN_DOWNLOAD
| IOLINK_MASTER_BLOCK_STEP_WRITE
| IOLINK_MASTER_BLOCK_STEP_END_DOWNLOAD
| IOLINK_MASTER_BLOCK_STEP_VERIFY.

#[export] Instance mode_eq_dec : EqDecision iolink_phy_mode_t.
Proof. solve_decision. Defined.
#[export] Instance baudrate_eq_dec : EqDecision iolink_baudrate_t.
Proof. solve_decision. Defined.
#[export] Instance m_seq_type_eq_dec : EqDecision iolink_master_m_seq_type_t.
Proof. solve_decision. Defined.
#[export] Instance state_eq_dec : EqDecision iolink_master_state_t.
Proof. solve_decision. Defined.
#[export] Instance port_mode_eq_dec : EqDecision iolink_master_port_mode_t.
Proof. solve_decision. Defined.
#[export] Instance isdu_op_eq_dec : EqDecision iolink_master_isdu_op_t.
Proof. solve_decision. Defined.
#[export] Instance event_type_eq_dec : EqDecision iolink_master_event_type_t.
Proof. solve_decision. Defined.
#[export] Instance tick_event_eq_dec : EqDecision iolink_master_tick_event_t.
Proof. solve_decision. Defined.
#[export] Instance inspection_eq_dec : EqDecision iolink_master_inspection_level_t.
Proof. solve_decision. Defined.
#[export] Instance channel_eq_dec : EqDecision iolink_master_mc_channel_t.
Proof. solve_decision. Defined.
#[export] Instance startup_step_eq_dec : EqDecision iolink_master_startup_step_t.
Proof. solve_decision. Defined.
#[export] Instance isdu_phase_eq_dec : EqDecision iolink_master_isdu_phase_t.
Proof. solve_decision. Defined.
#[export] Instance event_phase_eq_dec : EqDecision iolink_master_event_phase_t.
Proof. solve_decision. Defined.
#[export] Instance event_req_eq_dec : EqDecision iolink_master_event_req_t.
Proof. solve_decision. Defined.
#[export] Instance block_step_eq_dec : EqDecision iolink_master_block_step_t.
Proof. solve_decision. Defined.

(** [x == y] on an enumeration. *)
Notation "x =e y" := (bool_decide (x = y)) (at level 70, no associativity) : c_scope.
Notation "x <>e y" := (negb (bool_decide (x = y))) (at level 70, no associativity) : c_scope.

(** ** Events and the calls a port makes to its environment

    A function pointer of [iolink_phy_api_t] or [iolink_master_config_t] is [None]
    when NULL; otherwise its answer depends on every call made so far, so that a
    theorem quantified over the pointers covers every environment. A [void] hook
    only has to be present or absent. Each call is recorded with its answer. *)

Record iolink_master_event_t : Type := {
  evt_qualifier : Z;
  evt_type : iolink_master_event_type_t;
  evt_code : Z;
}.

Inductive io : Type :=
| IoInit (user ret : Z)
| IoSetMode (user : Z) (mode : iolink_phy_mode_t)
| IoSetBaudrate (user : Z) (baudrate : iolink_baudrate_t)
| IoSend (user : Z) (data : list Z) (ret : Z)
| IoRecvByte (user : Z) (ret byte : Z)
| IoSetCqLine (user level : Z)
| IoGetVoltage (user mv : Z)
| IoIsShortCircuit (user : Z) (yes : bool)
| IoSetModeChecked (mode : iolink_phy_mode_t) (ret : Z)
| IoSetBaudrateChecked (baudrate : iolink_baudrate_t) (ret : Z)
| IoReadCqLineChecked (ret : Z)
| IoReadCqLine (ret : Z)
| IoFlushRx (ret : Z)
| IoPrepareTx (ret : Z)
| IoPrepareRx (ret : Z)
| IoWakeUp (ret : Z)
| IoEventPending (user : Z)
| IoEvent (user : Z) (event : iolink_master_event_t).

(** [iolinki/phy.h], as the master uses it. *)
Record iolink_phy_api_t : Type := {
  phy_user : Z;
  phy_init : option (list io → Z);
  phy_set_mode : bool;
  phy_set_baudrate : bool;
  phy_send : option (list io → list Z → Z);
  phy_recv_byte : option (list io → Z * Z);
  phy_set_cq_line : bool;
  phy_get_voltage_mv : option (list io → Z);
  phy_is_short_circuit : option (list io → bool);
}.

Record iolink_master_config_t : Type := {
  cfg_port_mode : iolink_master_port_mode_t;
  cfg_m_seq_type : iolink_master_m_seq_type_t;
  cfg_baudrate : iolink_baudrate_t;
  cfg_min_cycle_time : Z;
  cfg_pd_in_len : Z;
  cfg_pd_out_len : Z;
  cfg_auto_baudrate : bool;
  cfg_validate_device_info : bool;
  cfg_inspection_level : iolink_master_inspection_level_t;
  cfg_expected_vendor_id : Z;
  cfg_expected_device_id : Z;
  cfg_response_timeout_100us : Z;
  cfg_isdu_timeout_100us : Z;
  cfg_t_dmt_tbit : Z;
  cfg_t_dwu_100us : Z;
  cfg_wake_retry_limit : Z;
  cfg_t_sd_100us : Z;
  cfg_event_user : Z;
  cfg_event_pending_handler : bool;
  cfg_event_handler : bool;
  cfg_set_mode_checked : option (list io → iolink_phy_mode_t → Z);
  cfg_set_baudrate_checked : option (list io → iolink_baudrate_t → Z);
  cfg_read_cq_line_checked : option (list io → Z);
  cfg_flush_rx : option (list io → Z);
  cfg_prepare_tx : option (list io → Z);
  cfg_prepare_rx : option (list io → Z);
  cfg_read_cq_line : option (list io → Z);
  cfg_wake_up : option (list io → Z);
}.

(** ** Diagnostics, timing and device information *)

Record iolink_master_diagnostics_t : Type := {
  diag_od_status : Z;
  diag_device_status : Z;
  diag_event_pending : bool;
  diag_rx_retry_count : Z;
  diag_checksum_errors : Z;
  diag_send_errors : Z;
  diag_response_timeouts : Z;
  diag_cycle_slips : Z;
  diag_last_cycle_jitter_100us : Z;
  diag_max_cycle_jitter_100us : Z;
  diag_supply_voltage_mv : Z;
  diag_short_circuit : bool;
  diag_link_quality_percent : Z;
  diag_last_service_result : Z;
  diag_last_event_count : Z;
  diag_last_event_code : Z;
  diag_last_isdu_error : Z;
  diag_establish_failures : Z;
}.

#[export] Instance eta_diagnostics : Eta iolink_master_diagnostics_t := fun r => {|
  diag_od_status := diag_od_status r;
  diag_device_status := diag_device_status r;
  diag_event_pending := diag_event_pending r;
  diag_rx_retry_count := diag_rx_retry_count r;
  diag_checksum_errors := diag_checksum_errors r;
  diag_send_errors := diag_send_errors r;
  diag_response_timeouts := diag_response_timeouts r;
  diag_cycle_slips := diag_cycle_slips r;
  diag_last_cycle_jitter_100us := diag_last_cycle_jitter_100us r;
  diag_max_cycle_jitter_100us := diag_max_cycle_jitter_100us r;
  diag_supply_voltage_mv := diag_supply_voltage_mv r;
  diag_short_circuit := diag_short_circuit r;
  diag_link_quality_percent := diag_link_quality_percent r;
  diag_last_service_result := diag_last_service_result r;
  diag_last_event_count := diag_last_event_count r;
  diag_last_event_code := diag_last_event_code r;
  diag_last_isdu_error := diag_last_isdu_error r;
  diag_establish_failures := diag_establish_failures r;
|}.

Record iolink_master_timing_t : Type := {
  tm_cycle_timer_valid : bool;
  tm_awaiting_response : bool;
  tm_min_cycle_time_100us : Z;
  tm_last_cycle_start_100us : Z;
  tm_response_deadline_100us : Z;
}.

Record iolink_master_device_info_t : Type := {
  di_valid : bool;
  di_min_cycle_time : Z;
  di_min_cycle_time_100us : Z;
  di_mseq_capability : Z;
  di_isdu_supported : bool;
  di_operate_mseq_code : Z;
  di_preoperate_mseq_code : Z;
  di_revision_id : Z;
  di_pd_in_descriptor : Z;
  di_pd_out_descriptor : Z;
  di_pd_in_len : Z;
  di_pd_out_len : Z;
  di_vendor_id : Z;
  di_device_id : Z;
}.

#[export] Instance eta_device_info : Eta iolink_master_device_info_t := fun r => {|
  di_valid := di_valid r;
  di_min_cycle_time := di_min_cycle_time r;
  di_min_cycle_time_100us := di_min_cycle_time_100us r;
  di_mseq_capability := di_mseq_capability r;
  di_isdu_supported := di_isdu_supported r;
  di_operate_mseq_code := di_operate_mseq_code r;
  di_preoperate_mseq_code := di_preoperate_mseq_code r;
  di_revision_id := di_revision_id r;
  di_pd_in_descriptor := di_pd_in_descriptor r;
  di_pd_out_descriptor := di_pd_out_descriptor r;
  di_pd_in_len := di_pd_in_len r;
  di_pd_out_len := di_pd_out_len r;
  di_vendor_id := di_vendor_id r;
  di_device_id := di_device_id r;
|}.

(** [memset(info, 0, sizeof *info)] *)
Definition device_info_zero : iolink_master_device_info_t := {|
  di_valid := false; di_min_cycle_time := 0; di_min_cycle_time_100us := 0;
  di_mseq_capability := 0; di_isdu_supported := false; di_operate_mseq_code := 0;
  di_preoperate_mseq_code := 0; di_revision_id := 0; di_pd_in_descriptor := 0;
  di_pd_out_descriptor := 0; di_pd_in_len := 0; di_pd_out_len := 0;
  di_vendor_id := 0; di_device_id := 0;
|}.

(** ** Per-port state *)

Record iolink_master_startup_state_t : Type := {
  su_step : iolink_master_startup_step_t;
  su_baudrate_index : Z;
  su_wake_attempts : Z;
}.

#[export] Instance eta_startup : Eta iolink_master_startup_state_t := fun r => {|
  su_step := su_step r;
  su_baudrate_index := su_baudrate_index r;
  su_wake_attempts := su_wake_attempts r;
|}.

Record iolink_master_isdu_state_t : Type := {
  isdu_op : iolink_master_isdu_op_t;
  isdu_phase : iolink_master_isdu_phase_t;
  isdu_index : Z;
  isdu_subindex : Z;
  isdu_request : list Z;
  isdu_request_len : Z;
  isdu_request_pos : Z;
  isdu_flowctrl : Z;
  isdu_chk : Z;
  isdu_expected_len : Z;
  isdu_response : list Z;
  isdu_response_len : Z;
  isdu_response_pos : Z;
  isdu_done : bool;
  isdu_idle_pending : bool;
  isdu_abort_pending : bool;
  isdu_error : Z;
}.

#[export] Instance eta_isdu : Eta iolink_master_isdu_state_t := fun r => {|
  isdu_op := isdu_op r;
  isdu_phase := isdu_phase r;
  isdu_index := isdu_index r;
  isdu_subindex := isdu_subindex r;
  isdu_request := isdu_request r;
  isdu_request_len := isdu_request_len r;
  isdu_request_pos := isdu_request_pos r;
  isdu_flowctrl := isdu_flowctrl r;
  isdu_chk := isdu_chk r;
  isdu_expected_len := isdu_expected_len r;
  isdu_response := isdu_response r;
  isdu_response_len := isdu_response_len r;
  isdu_response_pos := isdu_response_pos r;
  isdu_done := isdu_done r;
  isdu_idle_pending := isdu_idle_pending r;
  isdu_abort_pending := isdu_abort_pending r;
  isdu_error := isdu_error r;
|}.

Record iolink_master_event_state_t : Type := {
  ev_phase : iolink_master_event_phase_t;
  ev_request : iolink_master_event_req_t;
  ev_addr : Z;
  ev_needed : Z;
  ev_memory : list Z;
  ev_len : Z;
  ev_last_slot : Z;
  ev_status_seen : bool;
  ev_od_expected : bool;
  ev_result : Z;
}.

#[export] Instance eta_event : Eta iolink_master_event_state_t := fun r => {|
  ev_phase := ev_phase r;
  ev_request := ev_request r;
  ev_addr := ev_addr r;
  ev_needed := ev_needed r;
  ev_memory := ev_memory r;
  ev_len := ev_len r;
  ev_last_slot := ev_last_slot r;
  ev_status_seen := ev_status_seen r;
  ev_od_expected := ev_od_expected r;
  ev_result := ev_result r;
|}.

Record iolink_master_rx_state_t : Type := {
  rx_buf : list Z;
  rx_len : Z;
}.

#[export] Instance eta_rx : Eta iolink_master_rx_state_t := fun r => {|
  rx_buf := rx_buf r;
  rx_len := rx_len r;
|}.

Record iolink_master_block_state_t : Type := {
  blk_step : iolink_master_block_step_t;
  blk_index : Z;
  blk_subindex : Z;
  blk_data : list Z;
  blk_len : Z;
}.

#[export] Instance eta_block : Eta iolink_master_block_state_t := fun r => {|
  blk_step := blk_step r;
  blk_index := blk_index r;
  blk_subindex := blk_subindex r;
  blk_data := blk_data r;
  blk_len := blk_len r;
|}.

Record iolink_master_port_state_t : Type := {
  p_phy : option iolink_phy_api_t;
  p_config : iolink_master_config_t;
  p_state : iolink_master_state_t;
  p_od_len : Z;
  p_tx_buf : list Z;
  p_pd_in : list Z;
  p_pd_in_len : Z;
  p_pd_out : list Z;
  p_pd_out_len : Z;
  p_pd_valid : bool;
  p_startup : iolink_master_startup_state_t;
  p_diagnostics : iolink_master_diagnostics_t;
  p_device_info : iolink_master_device_info_t;
  p_isdu : iolink_master_isdu_state_t;
  p_event : iolink_master_event_state_t;
  p_block : iolink_master_block_state_t;
  p_rx : iolink_master_rx_state_t;
  p_cycle_count : Z;
  p_last_cycle_start_100us : Z;
  p_response_deadline_100us : Z;
  p_send_ready_at_100us : Z;
  p_send_ready_valid : bool;
  p_cycle_timer_valid : bool;
  p_awaiting_response : bool;
  p_rx_od_expected : bool;
}.

#[export] Instance eta_port : Eta iolink_master_port_state_t := fun r => {|
  p_phy := p_phy r;
  p_config := p_config r;
  p_state := p_state r;
  p_od_len := p_od_len r;
  p_tx_buf := p_tx_buf r;
  p_pd_in := p_pd_in r;
  p_pd_in_len := p_pd_in_len r;
  p_pd_out := p_pd_out r;
  p_pd_out_len := p_pd_out_len r;
  p_pd_valid := p_pd_valid r;
  p_startup := p_startup r;
  p_diagnostics := p_diagnostics r;
  p_device_info := p_device_info r;
  p_isdu := p_isdu r;
  p_event := p_event r;
  p_block := p_block r;
  p_rx := p_rx r;
  p_cycle_count := p_cycle_count r;
  p_last_cycle_start_100us := p_last_cycle_start_100us r;
  p_response_deadline_100us := p_response_deadline_100us r;
  p_send_ready_at_100us := p_send_ready_at_100us r;
  p_send_ready_valid := p_send_ready_valid r;
  p_cycle_timer_valid := p_cycle_timer_valid r;
  p_awaiting_response := p_awaiting_response r;
  p_rx_od_expected := p_rx_od_expected r;
|}.

#[export] Instance eta_config : Eta iolink_master_config_t := fun r => {|
  cfg_port_mode := cfg_port_mode r;
  cfg_m_seq_type := cfg_m_seq_type r;
  cfg_baudrate := cfg_baudrate r;
  cfg_min_cycle_time := cfg_min_cycle_time r;
  cfg_pd_in_len := cfg_pd_in_len r;
  cfg_pd_out_len := cfg_pd_out_len r;
  cfg_auto_baudrate := cfg_auto_baudrate r;
  cfg_validate_device_info := cfg_validate_device_info r;
  cfg_inspection_level := cfg_inspection_level r;
  cfg_expected_vendor_id := cfg_expected_vendor_id r;
  cfg_expected_device_id := cfg_expected_device_id r;
  cfg_response_timeout_100us := cfg_response_timeout_100us r;
  cfg_isdu_timeout_100us := cfg_isdu_timeout_100us r;
  cfg_t_dmt_tbit := cfg_t_dmt_tbit r;
  cfg_t_dwu_100us := cfg_t_dwu_100us r;
  cfg_wake_retry_limit := cfg_wake_retry_limit r;
  cfg_t_sd_100us := cfg_t_sd_100us r;
  cfg_event_user := cfg_event_user r;
  cfg_event_pending_handler := cfg_event_pending_handler r;
  cfg_event_handler := cfg_event_handler r;
  cfg_set_mode_checked := cfg_set_mode_checked r;
  cfg_set_baudrate_checked := cfg_set_baudrate_checked r;
  cfg_read_cq_line_checked := cfg_read_cq_line_checked r;
  cfg_flush_rx := cfg_flush_rx r;
  cfg_prepare_tx := cfg_prepare_tx r;
  cfg_prepare_rx := cfg_prepare_rx r;
  cfg_read_cq_line := cfg_read_cq_line r;
  cfg_wake_up := cfg_wake_up r;
|}.

(** A port together with the calls it has made to its environment. *)
Record world : Type := {
  w_port : iolink_master_port_state_t;
  w_io : list io;
}.

#[export] Instance eta_world : Eta world := fun r => {|
  w_port := w_port r;
  w_io := w_io r;
|}.

(** ** Inline helpers of [master_internal.h] *)

(** The A.1.3 CKT M-sequence type field (bits 6-7). *)
Definition iolink_master_ckt_type_bits (type : iolink_master_m_seq_type_t) : Z :=
  match type with
  | IOLINK_MASTER_M_SEQ_TYPE_1_1
  | IOLINK_MASTER_M_SEQ_TYPE_1_2
  | IOLINK_MASTER_M_SEQ_TYPE_1_V => 0x40
  | IOLINK_MASTER_M_SEQ_TYPE_2_1
  | IOLINK_MASTER_M_SEQ_TYPE_2_2
  | IOLINK_MASTER_M_SEQ_TYPE_2_V => 0x80
  | _ => 0x00
  end.

(** The on-request-data octets of an M-sequence type (Table A.10). *)
Definition iolink_master_od_len_for_type (type : iolink_master_m_seq_type_t) : Z :=
  match type with
  | IOLINK_MASTER_M_SEQ_TYPE_1_2 => 2
  | IOLINK_MASTER_M_SEQ_TYPE_1_V => 8
  | IOLINK_MASTER_M_SEQ_TYPE_2_V => 2
  | _ => 1
  end.

(** Has the response deadline of the port elapsed? *)
Definition iolink_master_response_due_at (port : iolink_master_port_state_t)
    (now_100us : Z) : bool :=
  p_awaiting_response port && (p_response_deadline_100us port <=? now_100us).

Section zero.
Context {IO : Iolinki}.

Definition isdu_state_zero : iolink_master_isdu_state_t := {|
  isdu_op := IOLINK_MASTER_ISDU_OP_NONE;
  isdu_phase := IOLINK_MASTER_ISDU_PHASE_NONE;
  isdu_index := 0; isdu_subindex := 0;
  isdu_request := zeros IOLINK_ISDU_BUFFER_SIZE;
  isdu_request_len := 0; isdu_request_pos := 0; isdu_flowctrl := 0; isdu_chk := 0;
  isdu_expected_len := 0;
  isdu_response := zeros IOLINK_ISDU_BUFFER_SIZE;
  isdu_response_len := 0; isdu_response_pos := 0;
  isdu_done := false; isdu_idle_pending := false; isdu_abort_pending := false;
  isdu_error := 0;
|}.

Definition event_state_zero : iolink_master_event_state_t := {|
  ev_phase := IOLINK_MASTER_EVENT_PHASE_NONE;
  ev_request := IOLINK_MASTER_EVENT_REQ_NONE;
  ev_addr := 0; ev_needed := 0;
  ev_memory := zeros IOLINK_MASTER_EVENT_MEMORY_LEN;
  ev_len := 0; ev_last_slot := 0; ev_status_seen := false; ev_od_expected := false;
  ev_result := 0;
|}.

Definition block_state_zero : iolink_master_block_state_t := {|
  blk_step := IOLINK_MASTER_BLOCK_STEP_NONE;
  blk_index := 0; blk_subindex := 0;
  blk_data := zeros IOLINK_ISDU_BUFFER_SIZE; blk_len := 0;
|}.

Definition diagnostics_zero : iolink_master_diagnostics_t := {|
  diag_od_status := 0; diag_device_status := 0; diag_event_pending := false;
  diag_rx_retry_count := 0; diag_checksum_errors := 0; diag_send_errors := 0;
  diag_response_timeouts := 0; diag_cycle_slips := 0; diag_last_cycle_jitter_100us := 0;
  diag_max_cycle_jitter_100us := 0; diag_supply_voltage_mv := 0;
  diag_short_circuit := false; diag_link_quality_percent := 0;
  diag_last_service_result := 0; diag_last_event_count := 0; diag_last_event_code := 0;
  diag_last_isdu_error := 0; diag_establish_failures := 0;
|}.

(** Zeroed port storage ([memset(port, 0, sizeof *port)]) holding [config]. *)
Definition port_state_zero (config : iolink_master_config_t)
    : iolink_master_port_state_t := {|
  p_phy := None; p_config := config; p_state := IOLINK_MASTER_STATE_INACTIVE;
  p_od_len := 0; p_tx_buf := zeros IOLINK_MASTER_FRAME_BUF_SIZE;
  p_pd_in := zeros IOLINK_PD_IN_MAX_SIZE; p_pd_in_len := 0;
  p_pd_out := zeros IOLINK_PD_OUT_MAX_SIZE; p_pd_out_len := 0; p_pd_valid := false;
  p_startup := {| su_step := IOLINK_MASTER_STARTUP_STEP_WAKE;
                  su_baudrate_index := 0; su_wake_attempts := 0 |};
  p_diagnostics := diagnostics_zero; p_device_info := device_info_zero;
  p_isdu := isdu_state_zero; p_event := event_state_zero; p_block := block_state_zero;
  p_rx := {| rx_buf := zeros IOLINK_MASTER_FRAME_BUF_SIZE; rx_len := 0 |};
  p_cycle_count := 0; p_last_cycle_start_100us := 0; p_response_deadline_100us := 0;
  p_send_ready_at_100us := 0; p_send_ready_valid := false; p_cycle_timer_valid := false;
  p_awaiting_response := false; p_rx_od_expected := false;
|}.
End zero.
