(* ===== verification/Fixtures.v ===== *)
(** * Concrete configurations and adapters for the witnesses

    A TYPE_2_V port with two octets of process data each way, a scripted PHY that
    acknowledges every frame and delivers a fixed byte sequence, and a device
    information record that fits the port. *)

From S2P Require Import Prelude Iolinki Reference Types.

Definition fix_config : iolink_master_config_t := {|
  cfg_port_mode := IOLINK_MASTER_PORT_MODE_IOLINK;
  cfg_m_seq_type := IOLINK_MASTER_M_SEQ_TYPE_2_V;
  cfg_baudrate := IOLINK_BAUDRATE_COM3;
  cfg_min_cycle_time := 20;
  cfg_pd_in_len := 2;
  cfg_pd_out_len := 2;
  cfg_auto_baudrate := true;
  cfg_validate_device_info := false;
  cfg_inspection_level := IOLINK_MASTER_INSPECTION_NO_CHECK;
  cfg_expected_vendor_id := 0;
  cfg_expected_device_id := 0;
  cfg_response_timeout_100us := 0;
  cfg_isdu_timeout_100us := 0;
  cfg_t_dmt_tbit := 0;
  cfg_t_dwu_100us := 0;
  cfg_wake_retry_limit := 0;
  cfg_t_sd_100us := 0;
  cfg_event_user := 0;
  cfg_event_pending_handler := false;
  cfg_event_handler := false;
  cfg_set_mode_checked := None;
  cfg_set_baudrate_checked := None;
  cfg_read_cq_line_checked := None;
  cfg_flush_rx := None;
  cfg_prepare_tx := None;
  cfg_prepare_rx := None;
  cfg_read_cq_line := None;
  cfg_wake_up := None;
|}.

Definition fix_info : iolink_master_device_info_t := {|
  di_valid := true; di_min_cycle_time := 20; di_min_cycle_time_100us := 20;
  di_mseq_capability := 0x2B; di_isdu_supported := true; di_operate_mseq_code := 5;
  di_preoperate_mseq_code := 2; di_revision_id := 0x11; di_pd_in_descriptor := 0x10;
  di_pd_out_descriptor := 0x10; di_pd_in_len := 2; di_pd_out_len := 2;
  di_vendor_id := 0x1234; di_device_id := 0xABCDEF;
|}.

(** The number of octets [recv_byte] has delivered. *)
Fixpoint received (tr : list io) : nat :=
  match tr with
  | [] => 0
  | IoRecvByte _ ret _ :: tr' => if 0 <? ret then S (received tr') else received tr'
  | _ :: tr' => received tr'
  end.

(** A PHY that sends everything and delivers the octets of [script] in order. *)
Definition fix_phy (script : list Z) : iolink_phy_api_t := {|
  phy_user := 0;
  phy_init := None;
  phy_set_mode := true;
  phy_set_baudrate := true;
  phy_send := Some (fun _ data => zlen data);
  phy_recv_byte := Some (fun tr =>
    match script !! received tr with Some b => (1, b) | None => (0, 0) end);
  phy_set_cq_line := false;
  phy_get_voltage_mv := None;
  phy_is_short_circuit := None;
|}.

(** A port of [fix_config] on that PHY, in the given state. *)
Definition fix_port (script : list Z) (state : iolink_master_state_t)
    : iolink_master_port_state_t :=
  port_state_zero fix_config
    <| p_phy := Some (fix_phy script) |> <| p_state := state |>
    <| p_od_len := 2 |> <| p_pd_in_len := 2 |> <| p_pd_out_len := 2 |>.
