(* ===== verification/Parameters.v ===== *)
(** * Direct Parameter Page 1 ([src/master_parameters.c])

    Decoding of MinCycleTime, ProcessData descriptors and the M-sequence
    capability, the Master Command octet, and validation and derivation of a port
    configuration from the device information. *)

From S2P Require Import Prelude Iolinki Reference Types Fixtures.

Definition iolink_master_decode_min_cycle_time_100us (octet : Z) : Z :=
  let time_base := u8 (Z.land (Z.shiftr octet IOLINK_MASTER_MIN_CYCLE_BASE_SHIFT)
                              IOLINK_MASTER_MIN_CYCLE_BASE_MASK) in
  let multiplier := u8 (Z.land octet IOLINK_MASTER_MIN_CYCLE_MULT_MASK) in
  if time_base =? 0 then multiplier
  else if time_base =? 1 then u16 (64 + multiplier * 4)
  else if time_base =? 2 then u16 (320 + multiplier * 16)
  else octet.

Definition iolink_master_mc_channel_value (channel : iolink_master_mc_channel_t) : Z :=
  match channel with
  | IOLINK_MASTER_MC_CHANNEL_PROCESS => 0
  | IOLINK_MASTER_MC_CHANNEL_PAGE => 1
  | IOLINK_MASTER_MC_CHANNEL_DIAGNOSIS => 2
  | IOLINK_MASTER_MC_CHANNEL_ISDU => 3
  end.

(** The enumerator of a channel number; the C cast keeps the two-bit value. *)
Definition iolink_master_mc_channel_of_value (v : Z) : iolink_master_mc_channel_t :=
  if v =? 0 then IOLINK_MASTER_MC_CHANNEL_PROCESS
  else if v =? 1 then IOLINK_MASTER_MC_CHANNEL_PAGE
  else if v =? 2 then IOLINK_MASTER_MC_CHANNEL_DIAGNOSIS
  else IOLINK_MASTER_MC_CHANNEL_ISDU.

Section master_command.
Context {IO : Iolinki}.

Definition iolink_master_encode_master_command (read : bool)
    (channel : iolink_master_mc_channel_t) (address : Z) : Z :=
  let mc := u8 (Z.land address IOLINK_MC_ADDR_MASK) in
  let mc := u8 (Z.lor mc
    (Z.land (u8 (Z.shiftl (iolink_master_mc_channel_value channel)
                          IOLINK_MASTER_MC_COMM_CHANNEL_SHIFT))
            IOLINK_MC_COMM_CHANNEL_MASK)) in
  if read then u8 (Z.lor mc IOLINK_MC_RW_MASK) else mc.

Definition iolink_master_mc_is_read (mc : Z) : bool :=
  negb (Z.land mc IOLINK_MC_RW_MASK =? 0).

Definition iolink_master_mc_channel (mc : Z) : iolink_master_mc_channel_t :=
  iolink_master_mc_channel_of_value
    (Z.shiftr (Z.land mc IOLINK_MC_COMM_CHANNEL_MASK) IOLINK_MASTER_MC_COMM_CHANNEL_SHIFT).

Definition iolink_master_mc_address (mc : Z) : Z := u8 (Z.land mc IOLINK_MC_ADDR_MASK).
End master_command.

Definition iolink_master_decode_pd_descriptor (descriptor : Z) : Z :=
  let length := u8 (Z.land descriptor IOLINK_MASTER_PD_DESC_LENGTH_MASK) in
  if negb (Z.land descriptor IOLINK_MASTER_PD_DESC_BYTE_BIT =? 0)
  then u8 (length + 1)
  else u8 ((length + (IOLINK_MASTER_PD_DESC_BITS_PER_OCTET - 1))
           / IOLINK_MASTER_PD_DESC_BITS_PER_OCTET).

Definition iolink_master_pd_descriptor_is_reserved (descriptor : Z) : bool :=
  let length := u8 (Z.land descriptor IOLINK_MASTER_PD_DESC_LENGTH_MASK) in
  if negb (Z.land descriptor IOLINK_MASTER_PD_DESC_BYTE_BIT =? 0)
  then length <? 2
  else 17 <=? length.

Definition iolink_master_mseq_capability_code (type : iolink_master_m_seq_type_t)
    (od_len : Z) : Z :=
  match type with
  | IOLINK_MASTER_M_SEQ_TYPE_1_2 => 1
  | IOLINK_MASTER_M_SEQ_TYPE_1_V => if od_len =? 32 then 7 else 6
  | IOLINK_MASTER_M_SEQ_TYPE_2_V =>
      if od_len =? 1 then 4
      else if od_len =? 2 then 5
      else if od_len =? 8 then 6
      else if od_len =? 32 then 7
      else 0
  | _ => 0
  end.

Definition iolink_master_mseq_code_compatible (type : iolink_master_m_seq_type_t)
    (code : Z) : bool :=
  match type with
  | IOLINK_MASTER_M_SEQ_TYPE_1_1
  | IOLINK_MASTER_M_SEQ_TYPE_1_2 => (code =? 0) || (code =? 1)
  | IOLINK_MASTER_M_SEQ_TYPE_0
  | IOLINK_MASTER_M_SEQ_TYPE_2_1
  | IOLINK_MASTER_M_SEQ_TYPE_2_2 => code =? 0
  | IOLINK_MASTER_M_SEQ_TYPE_1_V => (code =? 6) || (code =? 7)
  | IOLINK_MASTER_M_SEQ_TYPE_2_V => (4 <=? code) && (code <=? 7)
  | IOLINK_MASTER_M_SEQ_TYPE_OTHER _ => false
  end.

(** [*type] is the result of a [true] return; the pointer is never NULL here. *)
Definition iolink_master_mseq_type_from_capability_code (code : Z) (isdu_supported : bool)
    (pd_in_len pd_out_len : Z) : option iolink_master_m_seq_type_t :=
  if code =? 0 then
    Some (if (pd_in_len =? 0) && (pd_out_len =? 0) then IOLINK_MASTER_M_SEQ_TYPE_0
          else if isdu_supported then IOLINK_MASTER_M_SEQ_TYPE_2_2
          else IOLINK_MASTER_M_SEQ_TYPE_2_1)
  else if code =? 1 then
    Some (if isdu_supported then IOLINK_MASTER_M_SEQ_TYPE_1_2
          else IOLINK_MASTER_M_SEQ_TYPE_1_1)
  else if (code =? 4) || (code =? 6) || (code =? 7) then
    Some IOLINK_MASTER_M_SEQ_TYPE_2_V
  else if code =? 5 then Some IOLINK_MASTER_M_SEQ_TYPE_2_V
  else None.

(** The state is [*info]. *)
Definition iolink_master_parse_direct_parameter_page1 (page : option (list Z)) (len : Z)
    (info : ptr) : M iolink_master_device_info_t Z :=
  match page with
  | None => mret IOLINK_MASTER_ERR_INVALID_ARG
  | Some page =>
    if ptr_null info then mret IOLINK_MASTER_ERR_INVALID_ARG
    else if len <? IOLINK_MASTER_DPP1_LEN then mret IOLINK_MASTER_PARAM_ERR_TOO_SHORT
    else
      pd_in ← mem (rd page IOLINK_MASTER_DPP1_OFF_PD_IN_DESC);
      pd_out ← mem (rd page IOLINK_MASTER_DPP1_OFF_PD_OUT_DESC);
      if iolink_master_pd_descriptor_is_reserved pd_in ||
         iolink_master_pd_descriptor_is_reserved pd_out
      then mret IOLINK_MASTER_PARAM_ERR_PD_DESCRIPTOR
      else
        min_cycle ← mem (rd page IOLINK_MASTER_DPP1_OFF_MIN_CYCLE_TIME);
        cap ← mem (rd page IOLINK_MASTER_DPP1_OFF_MSEQ_CAPABILITY);
        revision ← mem (rd page IOLINK_MASTER_DPP1_OFF_REVISION_ID);
        vid_hi ← mem (rd page IOLINK_MASTER_DPP1_OFF_VENDOR_ID_HI);
        vid_lo ← mem (rd page IOLINK_MASTER_DPP1_OFF_VENDOR_ID_LO);
        did_hi ← mem (rd page IOLINK_MASTER_DPP1_OFF_DEVICE_ID_HI);
        did_mid ← mem (rd page IOLINK_MASTER_DPP1_OFF_DEVICE_ID_MID);
        did_lo ← mem (rd page IOLINK_MASTER_DPP1_OFF_DEVICE_ID_LO);
        modify (fun _ => {|
          di_valid := true;
          di_min_cycle_time := min_cycle;
          di_min_cycle_time_100us := iolink_master_decode_min_cycle_time_100us min_cycle;
          di_mseq_capability := cap;
          di_isdu_supported := negb (Z.land cap IOLINK_MASTER_MSEQ_CAP_ISDU_BIT =? 0);
          di_operate_mseq_code :=
            u8 (Z.land (Z.shiftr cap IOLINK_MASTER_MSEQ_CAP_OPERATE_SHIFT)
                       IOLINK_MASTER_MSEQ_CAP_OPERATE_MASK);
          di_preoperate_mseq_code :=
            u8 (Z.land (Z.shiftr cap IOLINK_MASTER_MSEQ_CAP_PREOP_SHIFT)
                       IOLINK_MASTER_MSEQ_CAP_PREOP_MASK);
          di_revision_id := revision;
          di_pd_in_descriptor := pd_in;
          di_pd_out_descriptor := pd_out;
          di_pd_in_len := iolink_master_decode_pd_descriptor pd_in;
          di_pd_out_len := iolink_master_decode_pd_descriptor pd_out;
          di_vendor_id := u16 (Z.lor (u16 (Z.shiftl vid_hi 8)) vid_lo);
          di_device_id :=
            u32 (Z.lor (Z.lor (u32 (Z.shiftl did_hi 16)) (u32 (Z.shiftl did_mid 8))) did_lo);
        |});;
        mret IOLINK_MASTER_STATUS_OK
  end.

Definition iolink_master_apply_direct_parameter_page1 (port : ptr) (page : option (list Z))
    (len : Z) : M iolink_master_port_state_t Z :=
  if ptr_null port then mret IOLINK_MASTER_ERR_INVALID_ARG
  else zoom p_device_info (iolink_master_parse_direct_parameter_page1 page len PTR).

(** The result and the object [info] points to afterwards. *)
Definition iolink_master_get_device_info (port : option iolink_master_port_state_t)
    (info : option iolink_master_device_info_t) : Z * option iolink_master_device_info_t :=
  match port, info with
  | Some state, Some _ =>
      (if di_valid (p_device_info state) then IOLINK_MASTER_STATUS_OK
       else IOLINK_MASTER_STATUS_PENDING,
       Some (p_device_info state))
  | _, _ => (IOLINK_MASTER_ERR_INVALID_ARG, info)
  end.

Definition iolink_master_validate_config_against_device_info
    (info : option iolink_master_device_info_t) (config : option iolink_master_config_t) : Z :=
  match info, config with
  | Some info, Some config =>
      if negb (di_valid info) then IOLINK_MASTER_STATUS_PENDING
      else if negb (di_revision_id info =? IOLINK_MASTER_REVISION_1_0) &&
              negb (di_revision_id info =? IOLINK_MASTER_REVISION_1_1)
      then IOLINK_MASTER_PARAM_ERR_REVISION
      else if u16 (cfg_min_cycle_time config) <? di_min_cycle_time_100us info
      then IOLINK_MASTER_PARAM_ERR_CYCLE_TIME
      else if negb (cfg_pd_in_len config =? di_pd_in_len info) ||
              negb (cfg_pd_out_len config =? di_pd_out_len info)
      then IOLINK_MASTER_PARAM_ERR_PD_SIZE
      else if negb (iolink_master_mseq_code_compatible (cfg_m_seq_type config)
                      (di_operate_mseq_code info))
      then IOLINK_MASTER_PARAM_ERR_M_SEQUENCE
      else if cfg_inspection_level config <>e IOLINK_MASTER_INSPECTION_NO_CHECK then
        if negb (di_vendor_id info =? cfg_expected_vendor_id config)
        then IOLINK_MASTER_PARAM_ERR_VENDOR_ID
        else if negb (di_device_id info =? cfg_expected_device_id config)
        then IOLINK_MASTER_PARAM_ERR_DEVICE_ID
        else IOLINK_MASTER_STATUS_OK
      else IOLINK_MASTER_STATUS_OK
  | _, _ => IOLINK_MASTER_ERR_INVALID_ARG
  end.

Definition iolink_master_validate_device_info
    (port : option iolink_master_port_state_t) : Z :=
  match port with
  | None => IOLINK_MASTER_ERR_INVALID_ARG
  | Some state =>
      iolink_master_validate_config_against_device_info
        (Some (p_device_info state)) (Some (p_config state))
  end.

(** The result and [*config] afterwards. *)
Definition iolink_master_select_config_from_device_info
    (info : option iolink_master_device_info_t) (config : option iolink_master_config_t)
    : Z * option iolink_master_config_t :=
  match info, config with
  | Some info, Some c =>
      if negb (di_valid info) then (IOLINK_MASTER_STATUS_PENDING, config)
      else
        match iolink_master_mseq_type_from_capability_code (di_operate_mseq_code info)
                (di_isdu_supported info) (di_pd_in_len info) (di_pd_out_len info) with
        | None => (IOLINK_MASTER_PARAM_ERR_M_SEQUENCE, config)
        | Some m_seq_type =>
            (IOLINK_MASTER_STATUS_OK,
             Some (c <| cfg_m_seq_type := m_seq_type |>
                     <| cfg_min_cycle_time :=
                          if UINT8_MAX <? di_min_cycle_time_100us info then UINT8_MAX
                          else u8 (di_min_cycle_time_100us info) |>
                     <| cfg_pd_in_len := di_pd_in_len info |>
                     <| cfg_pd_out_len := di_pd_out_len info |>))
        end
  | _, _ => (IOLINK_MASTER_ERR_INVALID_ARG, config)
  end.

(** ** Specifications *)

(** MinCycleTime (Table B.3): time base and multiplier, in 100 us units. *)
Definition min_cycle_time_spec (octet : Z) : Z :=
  match octet / 64 with
  | 0 => octet mod 64
  | 1 => 64 + 4 * (octet mod 64)
  | 2 => 320 + 16 * (octet mod 64)
  | _ => octet
  end.

(** ProcessData descriptor (Table B.6): octets, and the reserved combinations. *)
Definition pd_octets_spec (descriptor : Z) : Z :=
  if 128 <=? descriptor then descriptor mod 32 + 1 else (descriptor mod 32 + 7) / 8.
Definition pd_reserved_spec (descriptor : Z) : bool :=
  if 128 <=? descriptor then descriptor mod 32 <? 2 else 16 <? descriptor mod 32.

Lemma decode_min_cycle_time_ok octet : is_u8 octet →
  iolink_master_decode_min_cycle_time_100us octet = min_cycle_time_spec octet.
Proof. by apply forall_u8_eq. Qed.

Lemma decode_pd_descriptor_ok d : is_u8 d →
  iolink_master_decode_pd_descriptor d = pd_octets_spec d.
Proof. by apply forall_u8_eq. Qed.

Lemma pd_descriptor_is_reserved_ok d : is_u8 d →
  iolink_master_pd_descriptor_is_reserved d = pd_reserved_spec d.
Proof. by apply forall_u8_eqb. Qed.

Lemma capability_bits_ok cap : is_u8 cap →
  negb (Z.land cap IOLINK_MASTER_MSEQ_CAP_ISDU_BIT =? 0) = Z.odd cap ∧
  u8 (Z.land (Z.shiftr cap IOLINK_MASTER_MSEQ_CAP_OPERATE_SHIFT)
             IOLINK_MASTER_MSEQ_CAP_OPERATE_MASK) = cap / 2 mod 8 ∧
  u8 (Z.land (Z.shiftr cap IOLINK_MASTER_MSEQ_CAP_PREOP_SHIFT)
             IOLINK_MASTER_MSEQ_CAP_PREOP_MASK) = cap / 16 mod 4.
Proof.
  intros Hcap. split_and!; revert cap Hcap; [by apply forall_u8_eqb|by apply forall_u8_eq..].
Qed.

Lemma device_id_ok hi mid lo : is_u8 hi → is_u8 mid → is_u8 lo →
  u32 (Z.lor (Z.lor (u32 (Z.shiftl hi 16)) (u32 (Z.shiftl mid 8))) lo) =
    hi * 65536 + mid * 256 + lo.
Proof.
  unfold is_u8. intros.
  rewrite (u32_small (Z.shiftl hi 16)), (u32_small (Z.shiftl mid 8))
    by (rewrite Z.shiftl_mul_pow2 by lia; unfold is_u32; lia).
  replace (Z.shiftl hi 16) with (Z.shiftl (Z.shiftl hi 8) 8) by (by rewrite Z.shiftl_shiftl).
  rewrite <- Z.shiftl_lor, !lor_shiftl_add by lia.
  rewrite u32_small; unfold is_u32; lia.
Qed.

(** The decoded page, field by field (Table B.1, Figures B.2 to B.5). *)
Definition dpp1_spec (min_cycle cap revision pd_in pd_out vid_hi vid_lo did_hi did_mid did_lo : Z)
    : iolink_master_device_info_t := {|
  di_valid := true;
  di_min_cycle_time := min_cycle;
  di_min_cycle_time_100us := min_cycle_time_spec min_cycle;
  di_mseq_capability := cap;
  di_isdu_supported := Z.odd cap;
  di_operate_mseq_code := cap / 2 mod 8;
  di_preoperate_mseq_code := cap / 16 mod 4;
  di_revision_id := revision;
  di_pd_in_descriptor := pd_in;
  di_pd_out_descriptor := pd_out;
  di_pd_in_len := pd_octets_spec pd_in;
  di_pd_out_len := pd_octets_spec pd_out;
  di_vendor_id := vid_hi * 256 + vid_lo;
  di_device_id := did_hi * 65536 + did_mid * 256 + did_lo;
|}.

(** The information a page encodes, and whether it holds a reserved descriptor. *)
Definition page_info (page : list Z) : iolink_master_device_info_t :=
  let octet i := nth i page 0 in
  dpp1_spec (octet 2%nat) (octet 3%nat) (octet 4%nat) (octet 5%nat) (octet 6%nat) (octet 7%nat) (octet 8%nat)
    (octet 9%nat) (octet 10%nat) (octet 11%nat).
Definition page_reserved (page : list Z) : bool :=
  pd_reserved_spec (nth 5 page 0) || pd_reserved_spec (nth 6 page 0).

(** ** Theorems *)

Lemma parse_page1_ok page len info :
  12 ≤ zlen page → Forall is_u8 (take 10 (drop 2 page)) → 16 ≤ len →
  iolink_master_parse_direct_parameter_page1 (Some page) len PTR info =
  if page_reserved page then Ok IOLINK_MASTER_PARAM_ERR_PD_DESCRIPTOR info
  else Ok IOLINK_MASTER_STATUS_OK (page_info page).
Proof.
  unfold zlen, page_reserved, page_info. intros Hpage Hu Hlen.
  do 12 (destruct page as [|? page]; [cbn in Hpage; lia|]). decompose_Forall_hyps.
  unfold iolink_master_parse_direct_parameter_page1, IOLINK_MASTER_DPP1_LEN. simpl.
  destruct (Z.ltb_spec len 16); [lia|].
  rewrite <- !pd_descriptor_is_reserved_ok by done.
  cbv [mem rd mbind M_bind mret M_ret modify]. simpl.
  case_match; [done|].
  unfold dpp1_spec. repeat f_equal.
  all: try by apply capability_bits_ok.
  all: auto using decode_min_cycle_time_ok, decode_pd_descriptor_ok, be16, device_id_ok.
Qed.

(** C15 (refinement). [iolink_master_parse_direct_parameter_page1] on a page of at
    least 16 octets: a reserved ProcessData descriptor is refused and leaves the
    device information as it was; otherwise every field is the one Annex B
    defines. *)
Theorem parse_page1_refines_annex_b b0 b1 b2 b3 b4 b5 b6 b7 b8 b9 b10 b11 rest len info :
  Forall is_u8 [b2; b3; b4; b5; b6; b7; b8; b9; b10; b11] → 16 ≤ len →
  iolink_master_parse_direct_parameter_page1
    (Some (b0 :: b1 :: b2 :: b3 :: b4 :: b5 :: b6 :: b7 :: b8 :: b9 :: b10 :: b11 :: rest))
    len PTR info =
  if pd_reserved_spec b5 || pd_reserved_spec b6
  then Ok IOLINK_MASTER_PARAM_ERR_PD_DESCRIPTOR info
  else Ok IOLINK_MASTER_STATUS_OK (dpp1_spec b2 b3 b4 b5 b6 b7 b8 b9 b10 b11).
Proof.
  intros Hu Hlen. rewrite (parse_page1_ok _ len info); [done|unfold zlen; cbn; lia|exact Hu|done].
Qed.

(** A page shorter than 16 octets is refused without touching the
    device information, whatever the buffer holds. *)
Theorem parse_page1_too_short page len info :
  len < 16 →
  iolink_master_parse_direct_parameter_page1 (Some page) len PTR info =
    Ok IOLINK_MASTER_PARAM_ERR_TOO_SHORT info.
Proof.
  intros. unfold iolink_master_parse_direct_parameter_page1, IOLINK_MASTER_DPP1_LEN. simpl.
  by destruct (Z.ltb_spec len 16); [|lia].
Qed.

Section master_command_theorems.
Context {IO : Iolinki} {LAWS : IolinkiLaws IO}.

(** The Master Command octet: the three decoders recover the
    direction, channel and 5-bit address from the composed octet, and every octet
    is the composition of its decoded fields. *)
Theorem master_command_roundtrip :
  (∀ read channel address, 0 ≤ address < 32 →
     let mc := iolink_master_encode_master_command read channel address in
     is_u8 mc ∧ iolink_master_mc_is_read mc = read ∧
     iolink_master_mc_channel mc = channel ∧ iolink_master_mc_address mc = address) ∧
  (∀ mc, is_u8 mc →
     iolink_master_encode_master_command (iolink_master_mc_is_read mc)
       (iolink_master_mc_channel mc) (iolink_master_mc_address mc) = mc).
Proof.
  unfold iolink_master_encode_master_command, iolink_master_mc_is_read,
    iolink_master_mc_channel, iolink_master_mc_address.
  rewrite law_mc_rw, law_mc_channel, law_mc_addr. split.
  - intros read channel address Ha. cbv zeta.
    assert (is_u8 address) as Hu by (unfold is_u8; lia). revert address Hu Ha.
    destruct read, channel; refine (forall_u8_dec _ _); vm_compute; reflexivity.
  - apply (forall_u8_eq _ (fun x => x)). vm_compute. reflexivity.
Qed.
End master_command_theorems.

Lemma master_command_roundtrip_witness :
  iolink_master_mc_address (iolink_master_encode_master_command true
    IOLINK_MASTER_MC_CHANNEL_PAGE 2) = 2.
Proof. refine (proj2 (proj2 (proj2 (proj1 master_command_roundtrip true _ 2 _)))). lia. Defined.

Lemma parse_page1_refines_annex_b_witness :
  iolink_master_parse_direct_parameter_page1
    (Some [0; 0; 0x41; 0x23; 0x11; 0x81; 0x82; 0x12; 0x34; 0xAB; 0xCD; 0xEF; 0; 0; 0; 0])
    16 PTR device_info_zero = Ok IOLINK_MASTER_PARAM_ERR_PD_DESCRIPTOR device_info_zero.
Proof.
  refine (parse_page1_refines_annex_b _ _ _ _ _ _ _ _ _ _ _ _ _ _ _ _ _); [|lia].
  repeat constructor; vm_compute; intuition discriminate.
Defined.

Lemma parse_page1_too_short_witness :
  iolink_master_parse_direct_parameter_page1 (Some [1; 2; 3]) 3 PTR device_info_zero =
    Ok IOLINK_MASTER_PARAM_ERR_TOO_SHORT device_info_zero.
Proof. apply parse_page1_too_short. lia. Defined.

(** ** Validation and selection *)

(** The configuration agrees with the device information. *)
Record config_fits (info : iolink_master_device_info_t) (config : iolink_master_config_t)
    : Prop := {
  fits_revision : di_revision_id info = 0x10 ∨ di_revision_id info = 0x11;
  fits_cycle : di_min_cycle_time_100us info ≤ cfg_min_cycle_time config;
  fits_pd_in : cfg_pd_in_len config = di_pd_in_len info;
  fits_pd_out : cfg_pd_out_len config = di_pd_out_len info;
  fits_m_seq : iolink_master_mseq_code_compatible (cfg_m_seq_type config)
                 (di_operate_mseq_code info) = true;
  fits_identity : cfg_inspection_level config ≠ IOLINK_MASTER_INSPECTION_NO_CHECK →
    di_vendor_id info = cfg_expected_vendor_id config ∧
    di_device_id info = cfg_expected_device_id config;
}.

(** C29 (functional). Validation succeeds exactly when the revision is supported, the
    cycle time is no shorter than the device's minimum, the process-data lengths
    and the M-sequence code agree, and, unless inspection is off, VendorID and
    DeviceID are the expected ones. *)
Theorem validate_ok_iff info config :
  di_valid info = true → is_u8 (cfg_min_cycle_time config) →
  iolink_master_validate_config_against_device_info (Some info) (Some config) =
    IOLINK_MASTER_STATUS_OK ↔ config_fits info config.
Proof.
  intros Hv Hc.
  unfold iolink_master_validate_config_against_device_info. rewrite Hv. simpl.
  rewrite u16_small by (unfold is_u8, is_u16 in *; lia).
  unfold IOLINK_MASTER_REVISION_1_0, IOLINK_MASTER_REVISION_1_1. split.
  - intros H. repeat (case_match; try discriminate); norm_bool;
      split; auto; try lia; try done.
  - intros [Hrev Hcyc Hin Hout Hmseq Hid].
    repeat case_match; norm_bool; try done; try lia;
      try (destruct Hid as [Hid1 Hid2]; [done|]; lia).
    congruence.
Qed.

Lemma type_from_code_compatible code isdu pin pout t :
  iolink_master_mseq_type_from_capability_code code isdu pin pout = Some t →
  iolink_master_mseq_code_compatible t code = true.
Proof.
  unfold iolink_master_mseq_type_from_capability_code. intros.
  repeat case_match; simplify_eq/=; norm_bool; subst; try done; try lia.
Qed.

(** A configuration selected from the device information fits it,
    apart from identity, whenever the revision is supported and the device's
    minimum cycle time is at most 25.5 ms; a longer minimum is clamped and the
    selected configuration then fails validation with a cycle-time error. *)
Theorem select_config_then_validate info config config' :
  cfg_inspection_level config = IOLINK_MASTER_INSPECTION_NO_CHECK →
  di_revision_id info = 0x10 ∨ di_revision_id info = 0x11 →
  0 ≤ di_min_cycle_time_100us info →
  iolink_master_select_config_from_device_info (Some info) (Some config) =
    (IOLINK_MASTER_STATUS_OK, Some config') →
  iolink_master_validate_config_against_device_info (Some info) (Some config') =
    if di_min_cycle_time_100us info <=? 255 then IOLINK_MASTER_STATUS_OK
    else IOLINK_MASTER_PARAM_ERR_CYCLE_TIME.
Proof.
  unfold iolink_master_select_config_from_device_info. intros Hl Hr Hc Hsel.
  destruct (di_valid info) eqn:Hv; simpl in Hsel; [|done].
  destruct iolink_master_mseq_type_from_capability_code as [t|] eqn:Ht; [|done].
  apply type_from_code_compatible in Ht. simplify_eq/=.
  unfold iolink_master_validate_config_against_device_info, UINT8_MAX. rewrite Hv. simpl.
  rewrite !Z.eqb_refl, Ht, Hl. simpl.
  unfold IOLINK_MASTER_REVISION_1_0, IOLINK_MASTER_REVISION_1_1.
  destruct (Z.leb_spec (di_min_cycle_time_100us info) 255),
    (Z.ltb_spec 255 (di_min_cycle_time_100us info)); try lia;
    destruct Hr as [-> | ->]; simpl.
  1,2: rewrite (u8_small (di_min_cycle_time_100us info)), u16_small
    by (unfold is_u8, is_u16; lia); by rewrite Z.ltb_irrefl.
  all: change (u16 255) with 255; by destruct (Z.ltb_spec 255 (di_min_cycle_time_100us info)); [|lia].
Qed.

(** The OD width that [iolink_master_init] derives from a selected
    M-sequence type is the width of the advertised OPERATE code (Table A.10) only
    for code 0, code 1 with ISDU, and code 5: for a device that advertises code 4,
    6 or 7 (1, 8 or 32 OD octets) the selected TYPE_2_V frames two. *)
Theorem selected_od_width_matches_code code isdu pin pout t :
  iolink_master_mseq_type_from_capability_code code isdu pin pout = Some t →
  iolink_master_mseq_capability_code t (iolink_master_od_len_for_type t) = code ↔
  code = 0 ∨ (code = 1 ∧ isdu = true) ∨ code = 5.
Proof.
  unfold iolink_master_mseq_type_from_capability_code. intros.
  repeat case_match; simplify_eq/=; norm_bool; subst; simpl;
    (split; intros; intuition (lia || congruence)).
Qed.

Lemma validate_ok_iff_witness :
  iolink_master_validate_config_against_device_info (Some fix_info) (Some fix_config) =
    IOLINK_MASTER_STATUS_OK ↔ config_fits fix_info fix_config.
Proof. apply validate_ok_iff; [reflexivity|vm_compute; intuition discriminate]. Defined.

Lemma select_config_then_validate_witness :
  ∃ config', iolink_master_validate_config_against_device_info (Some fix_info) (Some config') =
    IOLINK_MASTER_STATUS_OK.
Proof.
  eexists. refine (select_config_then_validate fix_info fix_config _ _ _ _ _).
  - reflexivity.
  - right. reflexivity.
  - simpl. lia.
  - reflexivity.
Defined.

Lemma selected_od_width_matches_code_witness :
  iolink_master_mseq_capability_code IOLINK_MASTER_M_SEQ_TYPE_2_V
    (iolink_master_od_len_for_type IOLINK_MASTER_M_SEQ_TYPE_2_V) = 6 ↔
  6 = 0 ∨ (6 = 1 ∧ true = true) ∨ 6 = 5.
Proof. apply (selected_od_width_matches_code 6 true 2 2). reflexivity. Defined.
