(* ===== verification/Isdu.v ===== *)
(** * ISDU transport and services ([src/master_isdu.c], first part)

    The in-flight ISDU state machine of a port: assembly of the request octet
    stream, its segmentation over M-sequences with FlowCTRL, collection and
    decoding of the response, and the read and write services.

    The transport functions own [isdu], so they are programs over
    [iolink_master_isdu_state_t]; the services run on the port. *)

From S2P Require Import Prelude Iolinki Types.

(** How a statement of a loop body ends. *)
Inductive flow : Type := Fall | Continue | Return.

Section transport.
Context {IO : Iolinki}.

Definition iolink_master_isdu_busy (isdu : iolink_master_isdu_state_t) : bool :=
  (isdu_op isdu <>e IOLINK_MASTER_ISDU_OP_NONE) && negb (isdu_done isdu).

Definition iolink_master_isdu_matches (isdu : iolink_master_isdu_state_t)
    (op : iolink_master_isdu_op_t) (index subindex : Z) : bool :=
  (isdu_op isdu =e op) && (isdu_index isdu =? index) && (isdu_subindex isdu =? subindex).

Definition iolink_master_isdu_clear : M iolink_master_isdu_state_t unit :=
  isdu_op <~ IOLINK_MASTER_ISDU_OP_NONE;;
  isdu_phase <~ IOLINK_MASTER_ISDU_PHASE_NONE;;
  isdu_index <~ 0;;
  isdu_subindex <~ 0;;
  isdu_request_len <~ 0;;
  isdu_request_pos <~ 0;;
  isdu_flowctrl <~ IOLINK_FLOWCTRL_IDLE;;
  isdu_chk <~ 0;;
  isdu_expected_len <~ 0;;
  isdu_response_len <~ 0;;
  isdu_response_pos <~ 0;;
  isdu_done <~ false;;
  isdu_idle_pending <~ false;;
  isdu_abort_pending <~ false;;
  isdu_error <~ IOLINK_ISDU_ERROR_NONE.

Definition iolink_master_isdu_start (op : iolink_master_isdu_op_t) (index subindex : Z)
    : M iolink_master_isdu_state_t unit :=
  isdu_op <~ op;;
  isdu_phase <~ IOLINK_MASTER_ISDU_PHASE_REQUEST;;
  isdu_index <~ index;;
  isdu_subindex <~ subindex;;
  isdu_request_pos <~ 0;;
  isdu_flowctrl <~ IOLINK_FLOWCTRL_START;;
  isdu_chk <~ 0;;
  isdu_expected_len <~ 0;;
  isdu_response_len <~ 0;;
  isdu_response_pos <~ 0;;
  isdu_done <~ false;;
  isdu_idle_pending <~ false;;
  isdu_abort_pending <~ false;;
  isdu_error <~ IOLINK_ISDU_ERROR_NONE.

(** XOR of the first [len] octets of [data]. *)
Definition iolink_master_isdu_chkpdu (data : list Z) (len : Z) : option Z :=
  ofold (fun chk i => b ← rd data i; Some (Z.lxor chk b)) 0 (upto len).

Definition iolink_master_isdu_index_len (index subindex : Z) : Z :=
  if index <=? 0xFF then (if subindex =? 0 then 1 else 2) else 3.

Definition iolink_master_isdu_service (read : bool) (index_len : Z) : Z :=
  if read then u8 (0x08 + index_len) else index_len.

(** [COUNT] increments 1..15 then wraps to 0 (Table 52). *)
Definition iolink_master_isdu_next_count (flowctrl : Z) : Z :=
  u8 (Z.land (flowctrl + 1) IOLINK_FLOWCTRL_COUNT_MASK).

(** The OD octets of an outgoing frame; the result is the buffer [od] afterwards. *)
Definition iolink_master_isdu_fill_od (port : ptr) (od : option (list Z)) (od_len : Z)
    : M iolink_master_isdu_state_t (option (list Z)) :=
  match od with
  | None => mret None
  | Some od =>
    if ptr_null port then mret (Some od) else
    od ← mem (blit od 0 (zeros od_len));
    isdu ← get;
    if isdu_op isdu =e IOLINK_MASTER_ISDU_OP_NONE then mret (Some od)
    else match isdu_phase isdu with
    | IOLINK_MASTER_ISDU_PHASE_REQUEST =>
        let remaining := u16 (isdu_request_len isdu - isdu_request_pos isdu) in
        let n := if remaining <? od_len then remaining else od_len in
        od ← mem (ofold (fun od i =>
               b ← rd (isdu_request isdu) (u16 (isdu_request_pos isdu + i));
               wr od i b) od (upto n));
        isdu_request_pos <~ u16 (isdu_request_pos isdu + n);;
        isdu ← get;
        (if isdu_request_len isdu <=? isdu_request_pos isdu then
           isdu_phase <~ IOLINK_MASTER_ISDU_PHASE_WAIT;;
           isdu_flowctrl <~ IOLINK_FLOWCTRL_START
         else if isdu_flowctrl isdu =? IOLINK_FLOWCTRL_START then
           isdu_flowctrl <~ 1
         else
           isdu_flowctrl <~ iolink_master_isdu_next_count (isdu_flowctrl isdu));;
        mret (Some od)
    | IOLINK_MASTER_ISDU_PHASE_WAIT =>
        isdu_flowctrl <~ IOLINK_FLOWCTRL_START;;
        mret (Some od)
    | IOLINK_MASTER_ISDU_PHASE_RESPONSE =>
        (if (isdu_flowctrl isdu =? IOLINK_FLOWCTRL_START) ||
            (isdu_flowctrl isdu =? IOLINK_FLOWCTRL_IDLE)
         then isdu_flowctrl <~ 1
         else isdu_flowctrl <~ iolink_master_isdu_next_count (isdu_flowctrl isdu));;
        mret (Some od)
    | IOLINK_MASTER_ISDU_PHASE_NONE => mret (Some od)
    end
  end.

(** The ErrorType of a negative response. *)
Definition decode_error : M iolink_master_isdu_state_t unit :=
  isdu ← get;
  (if 4 <=? isdu_response_len isdu then
     code ← mem (rd (isdu_response isdu) 1);
     additional ← mem (rd (isdu_response isdu) 2);
     isdu_error <~ u16 (Z.lor (u16 (Z.shiftl code 8)) additional)
   else
     isdu_error <~ IOLINK_ISDU_ERROR_SEGMENTATION);;
  isdu_done <~ true;;
  isdu_idle_pending <~ true;;
  isdu_phase <~ IOLINK_MASTER_ISDU_PHASE_NONE.

(** The Data octets of a positive response that starts with [head], moved to the front. *)
Definition decode_payload (head : Z) : M iolink_master_isdu_state_t unit :=
  isdu ← get;
  let payload_start := if Z.land head 0x0F =? 0x01 then 2 else 1 in
  let payload_len :=
    u16 (isdu_response_len isdu - payload_start - IOLINK_MASTER_ISDU_CHKPDU_LEN) in
  when (0 <? payload_len) (
    response ← mem (memcpy (isdu_response isdu) 0 (isdu_response isdu)
                           payload_start payload_len);
    isdu_response <~ response);;
  isdu_response_len <~ payload_len;;
  isdu_done <~ true;;
  isdu_idle_pending <~ true;;
  isdu_phase <~ IOLINK_MASTER_ISDU_PHASE_NONE.

(** Decode a complete response: CHKPDU, then a negative or a positive response. *)
Definition iolink_master_isdu_decode_response : M iolink_master_isdu_state_t unit :=
  isdu ← get;
  chk ← mem (iolink_master_isdu_chkpdu (isdu_response isdu) (isdu_response_len isdu));
  if negb (chk =? 0) then
    isdu_error <~ IOLINK_ISDU_ERROR_SEGMENTATION;;
    isdu_done <~ true;;
    isdu_abort_pending <~ true;;
    isdu_phase <~ IOLINK_MASTER_ISDU_PHASE_NONE
  else
    head ← mem (rd (isdu_response isdu) 0);
    let service := u8 (Z.shiftr head IOLINK_MASTER_ISDU_SERVICE_SHIFT) in
    if (service =? 0x4) || (service =? 0xC) then
      decode_error
    else decode_payload head.

(** [error] latched without an ABORT request, as [on_od] does. *)
Definition iolink_master_isdu_segmentation_error : M iolink_master_isdu_state_t unit :=
  isdu_error <~ IOLINK_ISDU_ERROR_SEGMENTATION;;
  isdu_done <~ true;;
  isdu_phase <~ IOLINK_MASTER_ISDU_PHASE_NONE.

(** The part of an iteration that learns the declared length (A.5.3): fall
    through, [continue], or [return]. *)
Definition iolink_master_isdu_learn_length : M iolink_master_isdu_state_t flow :=
  isdu ← get;
  if isdu_expected_len isdu =? 0 then
    head ← mem (rd (isdu_response isdu) 0);
    let len_nibble := u8 (Z.land head 0x0F) in
    if 2 <=? len_nibble then
      isdu_expected_len <~ len_nibble;; mret Fall
    else if len_nibble =? 1 then
      if isdu_response_len isdu <? 2 then mret Continue
      else
        ext ← mem (rd (isdu_response isdu) 1);
        isdu_expected_len <~ ext;; mret Fall
    else
      iolink_master_isdu_segmentation_error;; mret Return
  else mret Fall.

(** The rest of an iteration once the response has started: store the octet, learn
    the length, decode when complete; [true] leaves the loop. *)
Definition iolink_master_isdu_collect (byte : Z) : M iolink_master_isdu_state_t bool :=
  isdu ← get;
  if IOLINK_ISDU_BUFFER_SIZE <=? isdu_response_len isdu then
    iolink_master_isdu_segmentation_error;;
    mret true
  else
    response ← mem (wr (isdu_response isdu) (isdu_response_len isdu) byte);
    isdu_response <~ response;;
    isdu_response_len <~ u16 (isdu_response_len isdu + 1);;
    next ← iolink_master_isdu_learn_length;
    match next with
    | Continue => mret false
    | Return => mret true
    | Fall =>
        isdu ← get;
        if isdu_expected_len isdu <=? isdu_response_len isdu then
          iolink_master_isdu_decode_response;;
          mret true
        else mret false
    end.

(** One iteration of the octet loop of [iolink_master_isdu_on_od]. *)
Definition iolink_master_isdu_on_octet (byte : Z) : M iolink_master_isdu_state_t bool :=
  isdu ← get;
  if (isdu_phase isdu =e IOLINK_MASTER_ISDU_PHASE_WAIT) &&
     ((byte =? 0x00) || (byte =? 0x01))
  then mret false
  else
    when (isdu_phase isdu =e IOLINK_MASTER_ISDU_PHASE_WAIT) (
      isdu_phase <~ IOLINK_MASTER_ISDU_PHASE_RESPONSE;;
      isdu_response_len <~ 0;;
      isdu_response_pos <~ 0;;
      isdu_expected_len <~ 0;;
      isdu_flowctrl <~ 1);;
    iolink_master_isdu_collect byte.

Definition iolink_master_isdu_on_od (port : ptr) (od : option (list Z)) (od_len : Z)
    : M iolink_master_isdu_state_t unit :=
  match od with
  | None => mret tt
  | Some od =>
    if ptr_null port then mret tt else
    isdu ← get;
    if (isdu_op isdu =e IOLINK_MASTER_ISDU_OP_NONE) || isdu_done isdu ||
       (isdu_phase isdu =e IOLINK_MASTER_ISDU_PHASE_REQUEST) ||
       (isdu_phase isdu =e IOLINK_MASTER_ISDU_PHASE_NONE)
    then mret tt
    else
      for_loop (upto od_len) (fun i =>
        byte ← mem (rd od i);
        iolink_master_isdu_on_octet byte)
  end.

(** [Some (read, flowctrl)] when the C function returns [true]. *)
Definition iolink_master_isdu_channel_access (port : option iolink_master_isdu_state_t)
    : option (bool * Z) :=
  match port with
  | None => None
  | Some isdu =>
      if isdu_op isdu =e IOLINK_MASTER_ISDU_OP_NONE then None
      else if isdu_done isdu && negb (isdu_idle_pending isdu) then None
      else if isdu_done isdu then Some (true, IOLINK_FLOWCTRL_IDLE)
      else Some (isdu_phase isdu <>e IOLINK_MASTER_ISDU_PHASE_REQUEST, isdu_flowctrl isdu)
  end.

Definition iolink_master_isdu_take_idle (port : ptr) : M iolink_master_isdu_state_t bool :=
  if ptr_null port then mret false else
  isdu ← get;
  if negb (isdu_idle_pending isdu) then mret false
  else isdu_idle_pending <~ false;; mret true.

Definition iolink_master_isdu_take_abort (port : ptr) : M iolink_master_isdu_state_t bool :=
  if ptr_null port then mret false else
  isdu ← get;
  if negb (isdu_abort_pending isdu) then mret false
  else isdu_abort_pending <~ false;; mret true.
End transport.

Section services.
Context {IO : Iolinki}.

Definition iolink_master_service_result (ret : Z) : M iolink_master_port_state_t Z :=
  when (negb (ret =? IOLINK_MASTER_STATUS_PENDING))
    (zoom p_diagnostics (diag_last_service_result <~ ret));;
  mret ret.

(** Report a device error, keeping a pending ABORT (both [finish] functions). *)
Definition iolink_master_isdu_finish_error : M iolink_master_port_state_t Z :=
  state ← get;
  let aborted := isdu_abort_pending (p_isdu state) in
  zoom p_diagnostics (diag_last_isdu_error <~ isdu_error (p_isdu state));;
  zoom p_isdu (iolink_master_isdu_clear;; isdu_abort_pending <~ aborted);;
  iolink_master_service_result IOLINK_MASTER_ISDU_ERR_DEVICE.

(** The result, the caller's buffer and the caller's length afterwards. *)
Definition iolink_master_isdu_finish_read (data : list Z) (len : Z)
    : M iolink_master_port_state_t (Z * list Z * Z) :=
  state ← get;
  let result_len := isdu_response_len (p_isdu state) in
  if negb (isdu_error (p_isdu state) =? IOLINK_ISDU_ERROR_NONE) then
    ret ← iolink_master_isdu_finish_error;
    mret (ret, data, len)
  else if len <? result_len then
    ret ← iolink_master_service_result IOLINK_MASTER_ISDU_ERR_BUFFER_TOO_SMALL;
    mret (ret, data, if UINT8_MAX <? result_len then UINT8_MAX else u8 result_len)
  else
    data ← (if 0 <? result_len
            then mem (memcpy data 0 (isdu_response (p_isdu state)) 0 result_len)
            else mret data);
    zoom p_isdu iolink_master_isdu_clear;;
    ret ← iolink_master_service_result IOLINK_MASTER_STATUS_OK;
    mret (ret, data, u8 result_len).

Definition iolink_master_isdu_finish_write : M iolink_master_port_state_t Z :=
  state ← get;
  if negb (isdu_error (p_isdu state) =? IOLINK_ISDU_ERROR_NONE) then
    iolink_master_isdu_finish_error
  else
    zoom p_isdu iolink_master_isdu_clear;;
    iolink_master_service_result IOLINK_MASTER_STATUS_OK.

(** [isdu->request[pos++] = v] with a [uint8_t pos]. *)
Definition isdu_put (pos v : Z) : M iolink_master_isdu_state_t Z :=
  isdu ← get;
  request ← mem (wr (isdu_request isdu) pos v);
  isdu_request <~ request;;
  mret (u8 (pos + 1)).

(** The index octets in the format of [idx_len] (Table A.15). *)
Definition isdu_put_index (pos idx_len index subindex : Z)
    : M iolink_master_isdu_state_t Z :=
  if idx_len =? 3 then
    pos ← isdu_put pos (u8 (Z.shiftr index 8));
    pos ← isdu_put pos (u8 (Z.land index 0xFF));
    isdu_put pos subindex
  else if idx_len =? 2 then
    pos ← isdu_put pos (u8 (Z.land index 0xFF));
    isdu_put pos subindex
  else
    isdu_put pos (u8 (Z.land index 0xFF)).

(** The Read Request octets of [iolink_master_read_isdu]. *)
Definition iolink_master_isdu_build_read (index subindex : Z)
    : M iolink_master_isdu_state_t unit :=
  let idx_len := iolink_master_isdu_index_len index subindex in
  let total := u8 (1 + idx_len + IOLINK_MASTER_ISDU_CHKPDU_LEN) in
  iolink_master_isdu_start IOLINK_MASTER_ISDU_OP_READ index subindex;;
  pos ← isdu_put 0 (u8 (Z.lor
          (Z.shiftl (iolink_master_isdu_service true idx_len)
                    IOLINK_MASTER_ISDU_SERVICE_SHIFT)
          (Z.land total IOLINK_MASTER_ISDU_LENGTH_NIBBLE_MAX)));
  isdu_put_index pos idx_len index subindex;;
  isdu ← get;
  chk ← mem (iolink_master_isdu_chkpdu (isdu_request isdu) (u16 (total - 1)));
  isdu_put (total - 1) chk;;
  isdu_request_len <~ total.

Definition iolink_master_read_isdu (port : ptr) (index subindex : Z)
    (data : option (list Z)) (len : option Z)
    : M iolink_master_port_state_t (Z * option (list Z) * option Z) :=
  match data, len with
  | Some data', Some len' =>
    if ptr_null port then mret (IOLINK_MASTER_ERR_INVALID_ARG, data, len) else
    state ← get;
    if (p_state state <>e IOLINK_MASTER_STATE_OPERATE) &&
       (p_state state <>e IOLINK_MASTER_STATE_PREOPERATE)
    then mret (IOLINK_MASTER_ISDU_ERR_INVALID_STATE, data, len)
    else if iolink_master_isdu_busy (p_isdu state) then
      if iolink_master_isdu_matches (p_isdu state) IOLINK_MASTER_ISDU_OP_READ index subindex
      then mret (IOLINK_MASTER_STATUS_PENDING, data, len)
      else mret (IOLINK_MASTER_ISDU_ERR_BUSY, data, len)
    else if isdu_done (p_isdu state) then
      if negb (iolink_master_isdu_matches (p_isdu state) IOLINK_MASTER_ISDU_OP_READ
                 index subindex)
      then mret (IOLINK_MASTER_ISDU_ERR_BUSY, data, len)
      else
        '(ret, data', len') ← iolink_master_isdu_finish_read data' len';
        mret (ret, Some data', Some len')
    else
      zoom p_isdu (iolink_master_isdu_build_read index subindex);;
      mret (IOLINK_MASTER_STATUS_PENDING, data, len)
  | _, _ => mret (IOLINK_MASTER_ERR_INVALID_ARG, data, len)
  end.

(** I-Service and length of a Write Request, with ExtLength when [total] exceeds the nibble. *)
Definition isdu_put_write_header (idx_len total : Z) : M iolink_master_isdu_state_t Z :=
  if total <=? IOLINK_MASTER_ISDU_LENGTH_NIBBLE_MAX then
    isdu_put 0 (u8 (Z.lor
      (Z.shiftl (iolink_master_isdu_service false idx_len) IOLINK_MASTER_ISDU_SERVICE_SHIFT)
      (u8 (Z.land total IOLINK_MASTER_ISDU_LENGTH_NIBBLE_MAX))))
  else
    pos ← isdu_put 0 (u8 (Z.lor
      (Z.shiftl (iolink_master_isdu_service false idx_len) IOLINK_MASTER_ISDU_SERVICE_SHIFT)
      IOLINK_MASTER_ISDU_LENGTH_EXTENDED));
    isdu_put pos (u8 (total + 1)).

(** The Write Request octets of [iolink_master_write_isdu]. *)
Definition iolink_master_isdu_build_write (index subindex : Z) (data : list Z)
    (len total : Z) : M iolink_master_isdu_state_t unit :=
  let idx_len := iolink_master_isdu_index_len index subindex in
  iolink_master_isdu_start IOLINK_MASTER_ISDU_OP_WRITE index subindex;;
  pos ← isdu_put_write_header idx_len total;
  pos ← isdu_put_index pos idx_len index subindex;
  pos ← (if 0 <? len then
           isdu ← get;
           request ← mem (memcpy (isdu_request isdu) pos data 0 len);
           isdu_request <~ request;;
           mret (u8 (pos + len))
         else mret pos);
  isdu ← get;
  chk ← mem (iolink_master_isdu_chkpdu (isdu_request isdu) pos);
  isdu_put pos chk;;
  isdu_request_len <~ u8 (pos + IOLINK_MASTER_ISDU_CHKPDU_LEN).

(** The length guard of [iolink_master_write_isdu] (A.5.3). *)
Definition iolink_master_isdu_write_too_long (len total : Z) : bool :=
  (u8 (IOLINK_ISDU_BUFFER_SIZE - IOLINK_MASTER_ISDU_WRITE_HEADER_MAX) <? len) ||
  (IOLINK_MASTER_ISDU_EXT_MAX <? (if 15 <? total then total + 1 else total)) ||
  (total =? 16).

Definition iolink_master_write_isdu (port : ptr) (index subindex : Z)
    (data : option (list Z)) (len : Z) : M iolink_master_port_state_t Z :=
  if ptr_null port || (null data && (0 <? len)) then mret IOLINK_MASTER_ERR_INVALID_ARG
  else
  state ← get;
  if (p_state state <>e IOLINK_MASTER_STATE_OPERATE) &&
     (p_state state <>e IOLINK_MASTER_STATE_PREOPERATE)
  then mret IOLINK_MASTER_ISDU_ERR_INVALID_STATE
  else if iolink_master_isdu_busy (p_isdu state) then
    if iolink_master_isdu_matches (p_isdu state) IOLINK_MASTER_ISDU_OP_WRITE index subindex
    then mret IOLINK_MASTER_STATUS_PENDING
    else mret IOLINK_MASTER_ISDU_ERR_BUSY
  else if isdu_done (p_isdu state) then
    if negb (iolink_master_isdu_matches (p_isdu state) IOLINK_MASTER_ISDU_OP_WRITE
               index subindex)
    then mret IOLINK_MASTER_ISDU_ERR_BUSY
    else iolink_master_isdu_finish_write
  else
    let idx_len := iolink_master_isdu_index_len index subindex in
    let total := u16 (1 + idx_len + len + IOLINK_MASTER_ISDU_CHKPDU_LEN) in
    if iolink_master_isdu_write_too_long len total
    then mret IOLINK_MASTER_ISDU_ERR_BUFFER_TOO_SMALL
    else
      zoom p_isdu (iolink_master_isdu_build_write index subindex
                     (default [] data) len total);;
      mret IOLINK_MASTER_STATUS_PENDING.
End services.
