(* ===== verification/IsduResponse.v ===== *)
(** * ISDU responses: an abstract receiver and its refinement

    The response of a device arrives as OD octets over many M-sequences. [isdu_rx]
    describes what the transport promises on that octet stream, without buffers,
    counters or frame boundaries; [iolink_master_isdu_on_od] implements it for every
    division of the stream into frames. *)

From S2P Require Import Prelude Iolinki Reference Types Fixtures Isdu.

(** ** The abstract receiver *)

Definition xor_octets (l : list Z) : Z := foldl Z.lxor 0 l.

Lemma xor_octets_u8 l : Forall is_u8 l → is_u8 (xor_octets l).
Proof.
  unfold xor_octets. assert (is_u8 0) as H0 by done. revert H0. generalize 0.
  induction l as [|x l IH]; intros a Ha Hl; [done|]. inversion_clear Hl.
  apply IH; [by apply is_u8_lxor|done].
Qed.

(** The result of one service. *)
Inductive isdu_outcome : Type :=
| Payload (data : list Z)
| DeviceError (code : Z)
| Perturbed
| Malformed.

(** The length declared by the octets received so far (Table A.14). *)
Inductive declared : Type := Unknown | Known (n : Z) | Reserved.

Definition isdu_declared (r : list Z) : declared :=
  match r with
  | [] => Unknown
  | head :: rest =>
      if 2 <=? head mod 16 then Known (head mod 16)
      else if head mod 16 =? 1 then
        match rest with [] => Unknown | ext :: _ => Known ext end
      else Reserved
  end.

(** The octets between the header and CHKPDU. *)
Definition isdu_payload (r : list Z) : list Z :=
  match r with
  | [] => []
  | head :: rest =>
      let body := if head mod 16 =? 1 then drop 1 rest else rest in
      take (length body - 1)%nat body
  end.

Inductive isdu_rx : Type :=
| Waiting
| Collecting (r : list Z)
| Finished (o : isdu_outcome).

Section spec.
Context {IO : Iolinki}.

Definition isdu_decode (r : list Z) : isdu_outcome :=
  if negb (xor_octets r =? 0) then Perturbed
  else match r with
  | [] => Malformed
  | head :: rest =>
      if (head / 16 =? 0x4) || (head / 16 =? 0xC) then
        match rest with
        | code :: additional :: _ :: _ => DeviceError (code * 256 + additional)
        | _ => DeviceError IOLINK_ISDU_ERROR_SEGMENTATION
        end
      else Payload (isdu_payload r)
  end.

Definition rx_collect (r : list Z) (byte : Z) : isdu_rx :=
  let r := r ++ [byte] in
  match isdu_declared r with
  | Unknown => Collecting r
  | Reserved => Finished Malformed
  | Known n => if n <=? zlen r then Finished (isdu_decode r) else Collecting r
  end.

Definition rx_step (x : isdu_rx) (byte : Z) : isdu_rx :=
  match x with
  | Waiting => if (byte =? 0) || (byte =? 1) then Waiting else rx_collect [] byte
  | Collecting r =>
      if IOLINK_ISDU_BUFFER_SIZE <=? zlen r then Finished Malformed else rx_collect r byte
  | Finished o => Finished o
  end.
End spec.

(** ** Invariant of the transport state *)

Section invariant.
Context {IO : Iolinki}.
Implicit Types s : iolink_master_isdu_state_t.

Record wf_isdu s : Prop := {
  wf_request : zlen (isdu_request s) = IOLINK_ISDU_BUFFER_SIZE;
  wf_request_u8 : Forall is_u8 (isdu_request s);
  wf_request_pos : 0 ≤ isdu_request_pos s ≤ isdu_request_len s;
  wf_request_len : isdu_request_len s ≤ IOLINK_ISDU_BUFFER_SIZE;
  wf_flowctrl : 0 ≤ isdu_flowctrl s < 32;
  wf_response : zlen (isdu_response s) = IOLINK_ISDU_BUFFER_SIZE;
  wf_response_u8 : Forall is_u8 (isdu_response s);
  wf_response_len : 0 ≤ isdu_response_len s ≤ IOLINK_ISDU_BUFFER_SIZE;
  wf_error : is_u16 (isdu_error s);
  wf_index : is_u16 (isdu_index s);
  wf_subindex : is_u8 (isdu_subindex s);
}.

(** A service in flight has no outcome yet. *)
Definition in_flight s : Prop :=
  isdu_op s ≠ IOLINK_MASTER_ISDU_OP_NONE ∧ isdu_done s = false ∧
  isdu_error s = IOLINK_ISDU_ERROR_NONE ∧ isdu_idle_pending s = false ∧
  isdu_abort_pending s = false.

Definition outcome_is s (o : isdu_outcome) : Prop :=
  match o with
  | Payload d =>
      isdu_error s = IOLINK_ISDU_ERROR_NONE ∧ isdu_idle_pending s = true ∧
      isdu_abort_pending s = false ∧
      isdu_response_len s = zlen d ∧ take (length d) (isdu_response s) = d
  | DeviceError code =>
      isdu_error s = code ∧ isdu_idle_pending s = true ∧ isdu_abort_pending s = false
  | Perturbed =>
      isdu_error s = IOLINK_ISDU_ERROR_SEGMENTATION ∧ isdu_idle_pending s = false ∧
      isdu_abort_pending s = true
  | Malformed =>
      isdu_error s = IOLINK_ISDU_ERROR_SEGMENTATION ∧ isdu_idle_pending s = false ∧
      isdu_abort_pending s = false
  end.

(** [r] has started with an I-Service octet and is not complete. *)
Definition incomplete (r : list Z) : Prop :=
  (∃ head rest, r = head :: rest ∧ head ≠ 0 ∧ head ≠ 1) ∧
  match isdu_declared r with
  | Unknown => True
  | Known n => zlen r < n
  | Reserved => False
  end.

Definition represents s (x : isdu_rx) : Prop :=
  wf_isdu s ∧
  match x with
  | Waiting => in_flight s ∧ isdu_phase s = IOLINK_MASTER_ISDU_PHASE_WAIT
  | Collecting r =>
      in_flight s ∧ isdu_phase s = IOLINK_MASTER_ISDU_PHASE_RESPONSE ∧
      isdu_response_len s = zlen r ∧ take (length r) (isdu_response s) = r ∧
      incomplete r ∧
      isdu_expected_len s = match isdu_declared r with Known n => n | _ => 0 end
  | Finished o =>
      isdu_op s ≠ IOLINK_MASTER_ISDU_OP_NONE ∧ isdu_done s = true ∧
      isdu_phase s = IOLINK_MASTER_ISDU_PHASE_NONE ∧ outcome_is s o
  end.

(** Every state the transport reaches. *)
Definition isdu_inv s : Prop :=
  wf_isdu s ∧
  (isdu_op s = IOLINK_MASTER_ISDU_OP_NONE ∨
   (isdu_done s = true ∧ isdu_phase s = IOLINK_MASTER_ISDU_PHASE_NONE) ∨
   (in_flight s ∧ isdu_phase s = IOLINK_MASTER_ISDU_PHASE_REQUEST) ∨
   represents s Waiting ∨ ∃ r, represents s (Collecting r)).
End invariant.

(** ** Refinement *)

Ltac wf_solve := split; cbn; first [assumption | done | lia | unfold is_u16, is_u8 in *; slia].

Section refinement.
Context {IO : Iolinki} {laws : IolinkiLaws IO}.
Implicit Types s : iolink_master_isdu_state_t.

Lemma chkpdu_xor data len : 0 ≤ len ≤ zlen data →
  iolink_master_isdu_chkpdu data len = Some (xor_octets (take (Z.to_nat len) data)).
Proof. apply (ofold_rd Z.lxor). Qed.

Lemma blit_front {A} (dst src k : list A) :
  blit dst 0 src = Some k → take (length src) k = src.
Proof.
  unfold blit. intros H. case_match; simplify_eq. simpl. by rewrite take_app_length.
Qed.

Lemma xor_two a b : xor_octets [a; b] = 0 → a = b.
Proof. unfold xor_octets. simpl. rewrite Z.lxor_0_l. by intros ?%Z.lxor_eq. Qed.

(** A complete response is long enough for its header and CHKPDU, unless the
    checksum exposes it. *)
Lemma complete_length head rest n :
  is_u8 head → head ≠ 1 → isdu_declared (head :: rest) = Known n → n ≤ zlen (head :: rest) →
  xor_octets (head :: rest) = 0 →
  2 + (if head mod 16 =? 1 then 1 else 0) ≤ zlen (head :: rest).
Proof.
  intros Hu Hh Hd Hn Hx. simpl in Hd. destruct (Z.leb_spec 2 (head mod 16)); simplify_eq.
  - rewrite (proj2 (Z.eqb_neq _ 1)) by lia. lia.
  - destruct (Z.eqb_spec (head mod 16) 1) as [Hm|]; [|done].
    destruct rest as [|ext [|x rest]]; simplify_eq.
    + apply xor_two in Hx as <-. autorewrite with zlen in Hn. simpl in Hn.
      pose proof (Z.div_mod head 16). unfold is_u8 in *. lia.
    + pose proof (zlen_nonneg rest). slia.
Qed.

Lemma nibbles head : is_u8 head →
  u8 (Z.shiftr head 4) = head / 16 ∧ Z.land head 15 = head mod 16 ∧
  u8 (Z.land head 15) = head mod 16.
Proof. revert head. refine (forall_u8_dec _ _). vm_compute. reflexivity. Qed.

Lemma payload_slice head rest tail start :
  start = (if head mod 16 =? 1 then 2 else 1) → start + 1 ≤ zlen (head :: rest) →
  slice (head :: rest ++ tail) start (zlen (head :: rest) - start - 1)
    = Some (isdu_payload (head :: rest)).
Proof.
  intros Hs Hl. pose proof (zlen_nonneg tail).
  rewrite slice_Some by (case_match; slia). f_equal. simpl.
  set (body := if head mod 16 =? 1 then drop 1 rest else rest).
  assert (drop (Z.to_nat start) (head :: rest ++ tail) = body ++ tail ∧
          zlen (head :: rest) - start = zlen body) as [-> ->].
  { subst start body. destruct (head mod 16 =? 1).
    - destruct rest as [|x rest]; [cbn in Hl; slia|]. split; [done|]. cbn. slia.
    - split; [done|slia]. }
  replace (Z.to_nat (zlen body - 1)) with (length body - 1)%nat by (unfold zlen; lia).
  by rewrite take_app_le by lia.
Qed.

(** A complete response in the receive buffer. *)
Record buffered s (head : Z) (rest tail : list Z) : Prop := {
  buffered_wf : wf_isdu s;
  buffered_fl : in_flight s;
  buffered_len : isdu_response_len s = zlen (head :: rest);
  buffered_octets : isdu_response s = (head :: rest) ++ tail;
}.

Lemma decode_error_ok s head rest tail :
  buffered s head rest tail →
  wp decode_error (fun _ s' => represents s' (Finished
    match rest with
    | code :: additional :: _ :: _ => DeviceError (code * 256 + additional)
    | _ => DeviceError IOLINK_ISDU_ERROR_SEGMENTATION
    end)) s.
Proof.
  intros [[? ? ? ? ? Hresp Hru Hrl ? ? ?] (Hop & Hdone & Herr & Hidle & Habort) Hlen Hr].
  pose proof law_isdu_buffer. pose proof law_error_seg.
  assert (is_u16 IOLINK_ISDU_ERROR_SEGMENTATION) by (unfold is_u16; lia).
  pose proof Hru as Hu. rewrite Hr in Hu. apply Forall_app in Hu as [Hu _].
  apply wp_bind, wp_get. destruct s; cbn in *. subst.
  destruct rest as [|code [|add [|x more]]];
    try (rewrite ?zlen_cons, zlen_nil; wp_steps; try discriminate; split; [wf_solve|by repeat split]).
  pose proof (zlen_nonneg more). rewrite !zlen_cons, (proj2 (Z.leb_le 4 _)) by lia.
  apply Forall_cons_1 in Hu as [_ [Hcode [Hadd _]%Forall_cons_1]%Forall_cons_1].
  wp_steps. eapply wp_mem; [done|]. wp_steps. eapply wp_mem; [done|]. wp_steps.
  rewrite be16 by done. split; [wf_solve|]. by repeat split.
Qed.

Lemma decode_payload_ok s head rest tail :
  buffered s head rest tail → is_u8 head →
  (if head mod 16 =? 1 then 2 else 1) + 1 ≤ zlen (head :: rest) →
  wp (decode_payload head) (fun _ s' =>
    represents s' (Finished (Payload (isdu_payload (head :: rest))))) s.
Proof.
  intros [[? ? ? ? ? Hresp Hru Hrl ? ? ?] (Hop & Hdone & Herr & Hidle & Habort) Hlen Hr] Hu Hle.
  pose proof law_isdu_buffer. destruct (nibbles head Hu) as (_ & Hn2 & _).
  apply wp_bind, wp_get. unfold IOLINK_MASTER_ISDU_CHKPDU_LEN. cbv zeta. rewrite Hn2, Hlen.
  set (start := if head mod 16 =? 1 then 2 else 1) in *.
  assert (start = 1 ∨ start = 2) as Hst by (unfold start; case_match; auto).
  rewrite (u16_small (zlen (head :: rest) - start - 1)) by (unfold is_u16; lia).
  pose proof (payload_slice head rest tail start eq_refl Hle) as Hsl.
  pose proof (zlen_slice _ _ _ _ Hsl) as Hd. set (d := isdu_payload (head :: rest)) in *.
  rewrite <- Hd. pose proof (zlen_nonneg d). clearbody d start. destruct s; cbn in *. subst.
  apply wp_bind, wp_when; intros Hz.
  - apply Z.ltb_lt in Hz. apply wp_bind.
    destruct (blit (head :: rest ++ tail) 0 d) as [k|] eqn:Hb; cycle 1.
    { rewrite blit_Some in Hb; [done|lia|]. pose proof (zlen_nonneg tail). slia. }
    eapply wp_mem; [unfold memcpy; rewrite Hd, Hsl; exact Hb|].
    pose proof (zlen_blit _ _ _ _ Hb).
    assert (Forall is_u8 k) by (eapply blit_Forall; [| |exact Hb]; [done|]; eapply slice_Forall; [|exact Hsl]; done).
    wp_steps. split; [wf_solve|]. repeat split; try done. by eapply blit_front.
  - apply Z.ltb_ge in Hz. assert (d = []) as -> by (by apply nil_zlen).
    wp_steps. split; [wf_solve|]. by repeat split.
Qed.

Lemma decode_response_ok s head rest n :
  wf_isdu s → in_flight s →
  isdu_response_len s = zlen (head :: rest) →
  take (length (head :: rest)) (isdu_response s) = head :: rest →
  head ≠ 1 → isdu_declared (head :: rest) = Known n → n ≤ zlen (head :: rest) →
  wp iolink_master_isdu_decode_response
    (fun _ s' => represents s' (Finished (isdu_decode (head :: rest)))) s.
Proof.
  intros Hwf Hfl Hlen Htake Hh Hd Hn. pose proof law_isdu_buffer. pose proof law_error_seg.
  set (tail := drop (length (head :: rest)) (isdu_response s)).
  assert (buffered s head rest tail) as Hbuf.
  { split; try done. unfold tail. by rewrite <- Htake at 1; rewrite take_drop. }
  assert (is_u8 head) as Hu.
  { pose proof (wf_response_u8 _ Hwf) as Hru. rewrite (buffered_octets _ _ _ _ Hbuf) in Hru.
    by apply Forall_cons_1 in Hru as [? _]. }
  destruct (nibbles head Hu) as (Hn1 & _ & _).
  pose proof (complete_length head rest n Hu Hh Hd Hn) as Hcl.
  unfold iolink_master_isdu_decode_response, isdu_decode.
  apply wp_bind, wp_get, wp_bind. eapply wp_mem.
  { destruct Hwf. apply chkpdu_xor; lia. }
  replace (Z.to_nat (isdu_response_len s)) with (length (head :: rest))
    by (rewrite Hlen; unfold zlen; lia).
  rewrite Htake. apply wp_if; intros Hx; rewrite Hx.
  { destruct Hwf, Hfl as (? & ? & ? & ? & ?). wp_steps. destruct s; cbn in *. split; [wf_solve|]. by repeat split. }
  apply negb_false_iff, Z.eqb_eq in Hx. specialize (Hcl Hx).
  apply wp_bind. eapply wp_mem; [by rewrite (buffered_octets _ _ _ _ Hbuf)|].
  cbv zeta. unfold IOLINK_MASTER_ISDU_SERVICE_SHIFT. rewrite Hn1.
  apply wp_if; intros Hs; rewrite Hs; [by eapply decode_error_ok|].
  apply (decode_payload_ok _ _ _ tail); [done..|]. case_match; lia.
Qed.

(** [r] is what has been received. *)
Definition received_octets s (r : list Z) : Prop :=
  isdu_response_len s = zlen r ∧ take (length r) (isdu_response s) = r.

Lemma received_rd s r i x : received_octets s r → r !! i = Some x →
  rd (isdu_response s) (Z.of_nat i) = Some x.
Proof.
  intros [_ Ht] Hi. rewrite rd_lookup by lia. rewrite Nat2Z.id.
  rewrite <- (lookup_take_lt _ (length r)), Ht by (by eapply lookup_lt_Some). done.
Qed.

Lemma received_u8 s r : wf_isdu s → received_octets s r → Forall is_u8 r.
Proof. intros Hwf [_ <-]. apply Forall_take, Hwf. Qed.

Lemma segmentation_error_ok s :
  wf_isdu s → isdu_op s ≠ IOLINK_MASTER_ISDU_OP_NONE →
  isdu_idle_pending s = false → isdu_abort_pending s = false →
  wp iolink_master_isdu_segmentation_error
    (fun _ s' => represents s' (Finished Malformed)) s.
Proof.
  intros [] ???. pose proof law_error_seg. wp_steps. destruct s; cbn in *.
  split; [wf_solve|]. by repeat split.
Qed.

Definition learned s (r : list Z) (f : flow) s' : Prop :=
  match isdu_declared r with
  | Unknown => f = Continue ∧ s' = s
  | Known n => f = Fall ∧ s' = s <| isdu_expected_len := n |>
  | Reserved => f = Return ∧ represents s' (Finished Malformed)
  end.

Lemma learn_length_ok s head rest :
  wf_isdu s → in_flight s → received_octets s (head :: rest) →
  isdu_expected_len s = 0 ∨ isdu_declared (head :: rest) = Known (isdu_expected_len s) →
  wp iolink_master_isdu_learn_length (learned s (head :: rest)) s.
Proof.
  intros Hwf (Hop & Hdone & Herr & Hidle & Habort) Hr He. unfold learned.
  assert (is_u8 head) as Hu by (apply received_u8 in Hr; [by inversion Hr|done]).
  destruct (nibbles head Hu) as (_ & _ & Hn).
  apply wp_bind, wp_get. apply wp_if; intros Hz.
  - apply wp_bind. eapply wp_mem; [by apply (received_rd s _ 0%nat head Hr)|].
    cbv zeta. rewrite Hn. simpl.
    apply wp_if; intros H2; rewrite H2; [by wp_steps|].
    apply wp_if; intros H1; rewrite H1.
    + destruct Hr as [Hlen Ht]. rewrite Hlen. destruct rest as [|ext rest].
      * by apply wp_ret.
      * pose proof (zlen_nonneg rest).
        rewrite (proj2 (Z.ltb_ge _ 2)) by slia.
        apply wp_bind. eapply wp_mem; [by apply (received_rd s (head :: ext :: rest) 1%nat ext)|].
        by wp_steps.
    + apply wp_bind. eapply wp_mono; [by apply segmentation_error_ok|]. by wp_steps.
  - apply Z.eqb_neq in Hz. destruct He as [?|Hk]; [done|]. rewrite Hk. apply wp_ret.
    split; [done|]. by destruct s.
Qed.

Definition finished (x : isdu_rx) : bool := match x with Finished _ => true | _ => false end.

Lemma declared_app r x n : r ≠ [] → isdu_declared r = Known n → isdu_declared (r ++ [x]) = Known n.
Proof.
  destruct r as [|head [|ext rest]]; simpl; [done| |done].
  intros _. repeat case_match; done.
Qed.

(** An octet stored behind the octets received so far. *)
Definition stored s (byte : Z) : iolink_master_isdu_state_t :=
  s <| isdu_response := <[Z.to_nat (isdu_response_len s) := byte]> (isdu_response s) |>
    <| isdu_response_len := u16 (isdu_response_len s + 1) |>.

Lemma stored_ok s r byte :
  wf_isdu s → received_octets s r → is_u8 byte → zlen r < IOLINK_ISDU_BUFFER_SIZE →
  wf_isdu (stored s byte) ∧ received_octets (stored s byte) (r ++ [byte]).
Proof.
  intros Hwf [Hlen Ht] Hb HB. pose proof law_isdu_buffer. pose proof (zlen_nonneg r).
  pose proof (wf_response s Hwf) as HR. unfold stored. rewrite Hlen.
  split; split; cbn; try apply Hwf.
  - by rewrite zlen_insert.
  - apply Forall_insert; [apply (wf_response_u8 _ Hwf)|exact Hb].
  - rewrite u16_small; unfold is_u16; lia.
  - rewrite u16_small by (unfold is_u16; lia). slia.
  - replace (Z.to_nat (zlen r)) with (length r) by (unfold zlen; lia).
    apply take_insert_snoc; [done|]. unfold zlen in *. lia.
Qed.

Lemma collect_ok s r byte :
  wf_isdu s → in_flight s → isdu_phase s = IOLINK_MASTER_ISDU_PHASE_RESPONSE →
  received_octets s r → is_u8 byte → zlen r < IOLINK_ISDU_BUFFER_SIZE →
  (r = [] ∧ byte ≠ 0 ∧ byte ≠ 1 ∧ isdu_expected_len s = 0 ∨ incomplete r ∧
   isdu_expected_len s = match isdu_declared r with Known n => n | _ => 0 end) →
  wp (iolink_master_isdu_collect byte)
    (fun stop s' => represents s' (rx_collect r byte) ∧ stop = finished (rx_collect r byte)) s.
Proof.
  intros Hwf Hfl Hph Hr Hb HB Hcase.
  destruct (stored_ok s r byte Hwf Hr Hb HB) as [Hwf1 Hr1]. pose proof Hr as [Hlen _].
  pose proof (wf_response s Hwf) as HR. pose proof (zlen_nonneg r).
  apply wp_bind, wp_get. rewrite (proj2 (Z.leb_gt _ _)) by lia.
  apply wp_bind. eapply wp_mem; [apply wr_Some; lia|].
  apply wp_bind, wp_assign, wp_bind, wp_assign. fold (stored s byte).
  assert (in_flight (stored s byte) ∧ isdu_phase (stored s byte) = IOLINK_MASTER_ISDU_PHASE_RESPONSE ∧
    isdu_expected_len (stored s byte) = isdu_expected_len s) as (Hfl1 & Hph1 & He1) by by destruct s.
  set (s1 := stored s byte) in *.
  assert (∃ head rest, r ++ [byte] = head :: rest ∧ head ≠ 0 ∧ head ≠ 1)
    as (head & rest & Heq & Hh0 & Hh1).
  { destruct Hcase as [(-> & ? & ? & _)|[[(h & t & -> & ? & ?) _] _]]; simpl; eauto. }
  assert (isdu_expected_len s1 = 0 ∨
          isdu_declared (r ++ [byte]) = Known (isdu_expected_len s1)) as Hexp.
  { rewrite He1. destruct Hcase as [(_ & _ & _ & ?)|[Hinc Hk]]; [by left|].
    destruct (isdu_declared r) as [|n|] eqn:Hd; [by left| |by left]. right.
    rewrite Hk. apply declared_app; [|done].
    by destruct Hinc as [(h & t & -> & _) _]. }
  clear Hcase. unfold rx_collect. rewrite Heq in *. apply wp_bind.
  eapply wp_mono; [apply learn_length_ok; done|].
  unfold learned. intros f s' Hf. destruct (isdu_declared (head :: rest)) as [|n|] eqn:Hd.
  - destruct Hf as [-> ->]. apply wp_ret. split; [|done]. 
    destruct Hr1. split; [done|]. rewrite Hd. split_and!; try done.
    + split; [eauto|]. by rewrite Hd.
    + destruct Hexp as [?|Hk]; done.
  - destruct Hf as [-> ->].
    apply wp_bind, wp_get. destruct Hr1 as [Hl1 Ht1]. cbn [isdu_expected_len].
    change (isdu_response_len (set isdu_expected_len _ _)) with (isdu_response_len s1).
    change (isdu_expected_len (set isdu_expected_len _ _)) with n.
    rewrite Hl1. destruct (Z.leb_spec n (zlen (head :: rest))) as [Hn|Hn].
    + apply wp_bind. eapply wp_mono; [eapply decode_response_ok; [| |exact Hl1|exact Ht1|exact Hh1|exact Hd|exact Hn]|].
      * by destruct Hwf1.
      * by destruct Hfl1.
      * intros ? s2 Hs. by apply wp_ret.
    + apply wp_ret. split; [|done]. split; [by destruct Hwf1|]. rewrite Hd.
      split_and!; try done. split; [eauto|]. by rewrite Hd.
  - destruct Hf as [-> Hf]. by apply wp_ret.
Qed.

Lemma on_octet_ok s x byte :
  represents s x → finished x = false → is_u8 byte →
  wp (iolink_master_isdu_on_octet byte)
    (fun stop s' => represents s' (rx_step x byte) ∧ stop = finished (rx_step x byte)) s.
Proof.
  intros Hx Hf Hb. pose proof (law_isdu_buffer) as Hlaw.
  destruct x as [|r|o]; [| |done]; clear Hf; destruct Hx as [Hwf Hx].
  - destruct Hx as [Hfl Hph]. apply wp_bind, wp_get. rewrite Hph.
    rewrite bool_decide_eq_true_2, andb_true_l by done. unfold rx_step.
    apply wp_if; intros Hw; rewrite Hw; [by apply wp_ret|].
    apply orb_false_iff in Hw as [Hw0%Z.eqb_neq Hw1%Z.eqb_neq].
    apply wp_bind, wp_when; [intros _|done]. do 4 apply wp_bind, wp_assign. apply wp_assign.
    apply collect_ok; [|by destruct s..|done|slia|left; by destruct s].
    destruct s; destruct Hwf; cbn in *; wf_solve.
  - destruct Hx as (Hfl & Hph & Hl & Ht & Hinc & He).
    apply wp_bind, wp_get. rewrite Hph. rewrite bool_decide_eq_false_2 by done.
    rewrite andb_false_l. cbn [rx_step].
    apply wp_bind, wp_when; [done|intros _].
    destruct (Z.leb_spec IOLINK_ISDU_BUFFER_SIZE (zlen r)).
    + apply wp_bind, wp_get. rewrite Hl, (proj2 (Z.leb_le _ _)) by lia.
      destruct Hfl as (?&?&?&?&?).
      apply wp_bind. eapply wp_mono; [by apply segmentation_error_ok|].
      intros ? s' Hs. by apply wp_ret.
    + apply collect_ok; try done. by right.
Qed.

Lemma rx_fold_finished o l : foldl rx_step (Finished o) l = Finished o.
Proof. by induction l. Qed.

(** The octet loop refines the fold of the abstract receiver. *)
Lemma octet_loop_ok s x l :
  represents s x → finished x = false → Forall is_u8 l →
  wp (for_loop l iolink_master_isdu_on_octet)
    (fun _ s' => represents s' (foldl rx_step x l)) s.
Proof.
  revert s x. induction l as [|byte l IH]; intros s x Hx Hf Hl; [by apply wp_ret|].
  inversion_clear Hl. apply wp_bind. eapply wp_mono; [by apply on_octet_ok|].
  intros stop s' [Hs ->]. simpl. destruct (finished (rx_step x byte)) eqn:Hfin.
  - apply wp_ret. destruct (rx_step x byte); try done. by rewrite rx_fold_finished.
  - by apply IH.
Qed.

Lemma rx_fold_prefix_finished x l k o :
  foldl rx_step x l = Finished o → foldl rx_step x (l ++ k) = Finished o.
Proof. intros H. rewrite foldl_app, H. apply rx_fold_finished. Qed.

Lemma on_od_ok s x od od_len :
  represents s x → Forall is_u8 od → 0 ≤ od_len ≤ zlen od →
  wp (iolink_master_isdu_on_od PTR (Some od) od_len)
    (fun _ s' => represents s' (foldl rx_step x (take (Z.to_nat od_len) od))) s.
Proof.
  intros Hx Hod Hl. apply wp_bind, wp_get. destruct (finished x) eqn:Hf.
  - destruct x; try done. rewrite rx_fold_finished. pose proof Hx as (_ & ? & -> & _).
    rewrite orb_true_r. by apply wp_ret.
  - apply wp_if; intros Hc.
    + exfalso. revert Hc. destruct x; try done; destruct Hx as (_ & (? & -> & _) & Hrest);
        [rewrite Hrest|destruct Hrest as [-> _]]; rewrite !bool_decide_eq_false_2 by done; done.
    + unfold wp. rewrite for_loop_rd by done. apply octet_loop_ok; [done..|].
      by apply Forall_take.
Qed.
End refinement.

(** ** ISDU octet streams (Annex A.5)

    I-Service and length, ExtLength when the total does not fit the nibble, the body
    and CHKPDU, which makes the XOR of all octets zero. *)

Definition isdu_header (service total : Z) : list Z :=
  if total <=? 15 then [service * 16 + total] else [service * 16 + 1; total + 1].

Definition isdu_encode (service : Z) (body : list Z) : list Z :=
  let l := isdu_header service (zlen body + 2) ++ body in
  l ++ [xor_octets l].

(** The lengths A.5.3 allows. *)
Definition isdu_body_fits (body : list Z) : Prop := zlen body + 3 ≤ 238.

Section streams.
Context {IO : Iolinki} {laws : IolinkiLaws IO}.

(** A complete stream: its declared length is its length. *)
Definition isdu_pdu (r : list Z) : Prop :=
  zlen r ≤ IOLINK_ISDU_BUFFER_SIZE ∧ (∃ head rest, r = head :: rest ∧ head ≠ 0 ∧ head ≠ 1) ∧
  isdu_declared r = Known (zlen r).

Lemma xor_octets_app l k : xor_octets (l ++ k) = foldl Z.lxor (xor_octets l) k.
Proof. apply foldl_app. Qed.

Lemma isdu_encode_xor service body : xor_octets (isdu_encode service body) = 0.
Proof. unfold isdu_encode. cbv zeta. rewrite xor_octets_app. simpl. apply Z.lxor_nilpotent. Qed.

Lemma zlen_isdu_header service total :
  zlen (isdu_header service total) = if total <=? 15 then 1 else 2.
Proof. unfold isdu_header. by case_match. Qed.

(** The receiver reaches the outcome of a complete stream, whatever follows it. *)
Lemma rx_fold_pdu r trailing : isdu_pdu r →
  foldl rx_step Waiting (r ++ trailing) = Finished (isdu_decode r).
Proof.
  intros (HB & (head & rest & Hr & Hh0 & Hh1) & Hd).
  assert (∀ k l, k ++ l = r → incomplete k → l ≠ [] →
    foldl rx_step (Collecting k) l = Finished (isdu_decode r)) as Hcollect.
  { intros k l. revert k. induction l as [|x l IH]; intros k Hk Hi Hl; [done|]. simpl.
    assert (zlen k + 1 + zlen l = zlen r) as Hlen by (rewrite <- Hk; slia).
    pose proof (zlen_nonneg l). rewrite (proj2 (Z.leb_gt _ _)) by lia.
    unfold rx_collect.
    assert ((k ++ [x]) ++ l = r) as Hkx by (by rewrite <- app_assoc).
    destruct (isdu_declared (k ++ [x])) as [|n|] eqn:Hdx.
    - destruct l; [|apply IH; try done].
      + rewrite app_nil_r in Hkx. by rewrite Hkx, Hd in Hdx.
      + split; [|by rewrite Hdx]. destruct Hi as [(h & t & -> & ?) _]. simpl. eauto.
    - assert (n = zlen r) as ->.
      { destruct l as [|y l]; [by rewrite app_nil_r in Hkx; congruence|].
        enough (Known n = Known (zlen r)) by congruence. rewrite <- Hd, <- Hdx, <- Hkx.
        clear -Hdx. destruct k as [|? [|]]; simpl in *; repeat case_match; congruence. }
      destruct l as [|y l].
      + rewrite app_nil_r in Hkx. rewrite Hkx, Z.leb_refl. done.
      + rewrite (proj2 (Z.leb_gt _ _)).
        * apply IH; try done. split; [|rewrite Hdx; rewrite zlen_cons in *; pose proof (zlen_nonneg l); slia].
          destruct Hi as [(h & t & -> & ?) _]. simpl. eauto.
        * rewrite zlen_cons in *. pose proof (zlen_nonneg l). slia.
    - exfalso. revert Hdx. rewrite <- Hkx in Hd. clear -Hd. 
      destruct k as [|? [|]]; simpl in *; repeat case_match; congruence. }
  assert (rest ≠ [] ∧ incomplete [head]) as [Hne Hinc].
  { subst r. split.
    - intros ->. revert Hd. cbn [isdu_declared]. case_match; [|by case_match].
      intros [= Hd]. norm_bool. by rewrite zlen_cons, zlen_nil in Hd; lia.
    - split; [eauto|]. revert Hd. simpl. pose proof (zlen_nonneg rest).
      repeat case_match; try done. intros [= Heq]. norm_bool. rewrite !zlen_cons, zlen_nil in *. lia. }
  apply rx_fold_prefix_finished. rewrite <- (Hcollect [head] rest) by done.
  rewrite Hr. cbn [foldl rx_step].
  rewrite (proj2 (Z.eqb_neq head 0)), (proj2 (Z.eqb_neq head 1)) by done. cbn [orb].
  f_equal. unfold rx_collect. cbn [app].
  destruct Hinc as [_ Hinc]. destruct (isdu_declared [head]); [done| |done].
  by rewrite (proj2 (Z.leb_gt _ _)) by lia.
Qed.

(** The same after the "no service" and "busy" octets the device may send first. *)
Lemma rx_fold_busy busy l : Forall (fun b => b = 0 ∨ b = 1) busy →
  foldl rx_step Waiting (busy ++ l) = foldl rx_step Waiting l.
Proof.
  induction 1 as [|b busy Hb Hf IH]; simpl; [done|].
  by destruct Hb as [-> | ->].
Qed.

(** A positive response decodes to its data, a negative one to its ErrorType. *)
Lemma isdu_encode_pdu service body :
  0 < service < 16 → isdu_body_fits body → Forall is_u8 body →
  zlen body + 3 ≤ IOLINK_ISDU_BUFFER_SIZE → isdu_pdu (isdu_encode service body).
Proof.
  intros Hs Hfit Hu HB. unfold isdu_body_fits, isdu_pdu, isdu_encode in *. cbv zeta.
  pose proof (zlen_nonneg body).
  rewrite !zlen_app, zlen_isdu_header, zlen_cons, zlen_nil. unfold isdu_header.
  destruct (Z.leb_spec (zlen body + 2) 15); split_and!; try lia; cbn [app].
  - do 2 eexists; split; [done|]. lia.
  - cbn [isdu_declared]. rewrite Z.add_comm, Z_mod_plus_full, Z.mod_small by lia.
    rewrite (proj2 (Z.leb_le 2 _)) by lia. f_equal. lia.
  - do 2 eexists; split; [done|]. lia.
  - cbn [isdu_declared]. rewrite Z.add_comm, Z_mod_plus_full. cbn. f_equal. lia.
Qed.

Lemma isdu_encode_decode service body :
  0 < service < 16 → isdu_body_fits body → service ≠ 4 → service ≠ 12 →
  isdu_decode (isdu_encode service body) = Payload body.
Proof.
  intros Hs Hfit H4 H12. unfold isdu_decode. rewrite isdu_encode_xor. cbn [Z.eqb negb].
  pose proof (zlen_nonneg body). unfold isdu_encode, isdu_header. cbv zeta.
  set (x := xor_octets _). clearbody x.
  destruct (Z.leb_spec (zlen body + 2) 15); cbn [app].
  - replace ((service * 16 + (zlen body + 2)) / 16) with service by
      (rewrite Z.div_add_l, Z.div_small by lia; lia).
    rewrite (proj2 (Z.eqb_neq _ 4)), (proj2 (Z.eqb_neq _ 12)) by done. cbn [orb].
    f_equal. cbn [isdu_payload].
    rewrite Z.add_comm, Z_mod_plus_full, Z.mod_small by lia.
    rewrite (proj2 (Z.eqb_neq _ 1)) by lia. rewrite length_app, Nat.add_sub.
    apply take_app_length.
  - replace ((service * 16 + 1) / 16) with service by
      (rewrite Z.div_add_l, Z.div_small by lia; lia).
    rewrite (proj2 (Z.eqb_neq _ 4)), (proj2 (Z.eqb_neq _ 12)) by done. cbn [orb].
    f_equal. cbn [isdu_payload].
    rewrite Z.add_comm, Z_mod_plus_full. change (1 mod 16 =? 1) with true.
    unfold drop. rewrite length_app, Nat.add_sub. apply take_app_length.
Qed.

Lemma isdu_encode_negative service code additional : service = 4 ∨ service = 12 →
  isdu_decode (isdu_encode service [code; additional])
    = DeviceError (code * 256 + additional).
Proof.
  intros Hs. unfold isdu_decode. rewrite isdu_encode_xor. cbn [Z.eqb negb].
  by destruct Hs as [-> | ->].
Qed.
End streams.
