(* ===== verification/IsduRequest.v ===== *)
(** * ISDU requests: assembly, segmentation and the invariant of the transport

    The request octets are those of [isdu_encode]; [iolink_master_isdu_fill_od] sends
    them over as many M-sequences as the OD width needs, zero padded, with the FlowCTRL
    values of Table 52, and ends waiting for the response. Every operation of the
    transport keeps [isdu_inv]. *)

From S2P Require Import Prelude Iolinki Reference Types Fixtures Isdu IsduResponse.

Section fill.
Context {IO : Iolinki} {laws : IolinkiLaws IO}.
Implicit Types s : iolink_master_isdu_state_t.

(** The request octets not sent yet. *)
Definition pending s : list Z :=
  drop (Z.to_nat (isdu_request_pos s)) (take (Z.to_nat (isdu_request_len s)) (isdu_request s)).

Lemma zlen_pending s : wf_isdu s → zlen (pending s) = isdu_request_len s - isdu_request_pos s.
Proof. intros []. unfold pending. slia. Qed.

(** The FlowCTRL value after [flowctrl] (Table 52). *)
Definition next_flowctrl (flowctrl : Z) : Z :=
  if flowctrl =? IOLINK_FLOWCTRL_START then 1 else iolink_master_isdu_next_count flowctrl.

Lemma next_count_range flowctrl : 0 ≤ flowctrl < 32 →
  0 ≤ iolink_master_isdu_next_count flowctrl < 16 ∧
  iolink_master_isdu_next_count flowctrl = (flowctrl + 1) mod 16.
Proof.
  unfold iolink_master_isdu_next_count. rewrite law_count_mask. intros.
  change 0x0F with (Z.ones 4). rewrite Z.land_ones by lia. change (2 ^ 4) with 16.
  pose proof (Z.mod_pos_bound (flowctrl + 1) 16). rewrite u8_small; unfold is_u8; lia.
Qed.

Lemma next_flowctrl_range flowctrl : 0 ≤ flowctrl < 32 → 0 ≤ next_flowctrl flowctrl < 32.
Proof. intros H%next_count_range. unfold next_flowctrl. case_match; lia. Qed.

(** The OD octets that carry the pending octets: zero padded. *)
Definition segment s (od_len : Z) : list Z :=
  take (Z.to_nat od_len) (pending s ++ zeros od_len).

Lemma segment_split s od_len n :
  0 ≤ od_len → n = Z.min (zlen (pending s)) od_len →
  segment s od_len = take (Z.to_nat n) (pending s) ++ drop (Z.to_nat n) (zeros od_len).
Proof.
  intros Ho ->. unfold segment, zeros, zlen. rewrite take_app, take_replicate, drop_replicate.
  f_equal; [|f_equal; lia].
  destruct (Z.min_spec (Z.of_nat (length (pending s))) od_len) as [[? ->]|[? ->]]; [|done].
  rewrite !take_ge by lia. done.
Qed.

Lemma take_pending s n : wf_isdu s → 0 ≤ n ≤ zlen (pending s) →
  take (Z.to_nat n) (drop (Z.to_nat (isdu_request_pos s)) (isdu_request s))
    = take (Z.to_nat n) (pending s).
Proof.
  intros Hwf Hn. rewrite zlen_pending in Hn by done. destruct Hwf. unfold pending.
  rewrite skipn_firstn_comm, take_take. f_equal. lia.
Qed.

Lemma zlen_segment s od_len : 0 ≤ od_len → zlen (segment s od_len) = od_len.
Proof. intros. unfold segment. pose proof (zlen_nonneg (pending s)). slia. Qed.

Definition after_segment s (od_len : Z) : iolink_master_isdu_state_t :=
  if zlen (pending s) <=? od_len
  then s <| isdu_request_pos := isdu_request_len s |>
         <| isdu_phase := IOLINK_MASTER_ISDU_PHASE_WAIT |>
         <| isdu_flowctrl := IOLINK_FLOWCTRL_START |>
  else s <| isdu_request_pos := isdu_request_pos s + od_len |>
         <| isdu_flowctrl := next_flowctrl (isdu_flowctrl s) |>.

Lemma fill_od_request s od od_len :
  wf_isdu s → isdu_op s ≠ IOLINK_MASTER_ISDU_OP_NONE →
  isdu_phase s = IOLINK_MASTER_ISDU_PHASE_REQUEST →
  0 ≤ od_len ≤ zlen od → od_len ≤ IOLINK_ISDU_BUFFER_SIZE →
  wp (iolink_master_isdu_fill_od PTR (Some od) od_len)
    (fun r s' => r = Some (segment s od_len ++ drop (Z.to_nat od_len) od) ∧
                 s' = after_segment s od_len) s.
Proof.
  intros Hwf Hop Hph Hod HB. pose proof law_isdu_buffer as Hlaw.
  pose proof (zlen_pending s Hwf) as Hpl. destruct Hwf.
  assert (zlen (zeros od_len) = od_len) as Hz by (apply zlen_zeros; lia).
  unfold iolink_master_isdu_fill_od. cbn [ptr_null].
  apply wp_bind. eapply wp_mem; [apply blit_Some; lia|].
  apply wp_bind, wp_get. rewrite bool_decide_eq_false_2 by done. rewrite Hph.
  cbv zeta. rewrite (u16_small (isdu_request_len s - _)) by (unfold is_u16; lia).
  set (n := if _ <? od_len then _ else od_len).
  assert (0 ≤ n ≤ od_len ∧ n ≤ zlen (pending s) ∧ n = Z.min (zlen (pending s)) od_len)
    as (Hn1 & Hn2 & Hn3) by (unfold n; rewrite Hpl; case_match; norm_bool; lia).
  clearbody n.
  apply wp_bind. eapply wp_mem.
  { etransitivity; [apply (ofold_ext _ (fun dst i =>
      b ← rd (isdu_request s) (isdu_request_pos s + i); wr dst (0 + i) b))|].
    { intros b x Hx%elem_of_upto. by rewrite u16_small by (unfold is_u16; lia). }
    rewrite ofold_copy by slia. rewrite take_pending by (split; done || lia).
    apply blit_Some; slia. }
  rewrite (u16_small (_ + n)) by (unfold is_u16; lia).
  apply wp_bind, wp_assign, wp_bind, wp_get, wp_bind.
  eapply (wp_mono _ (fun _ s' => s' = after_segment s od_len)).
  - unfold after_segment, next_flowctrl. rewrite Hpl.
    apply wp_if; intros H1; cbn in H1; norm_bool.
    + rewrite (proj2 (Z.leb_le _ _)) by lia. 
      replace (isdu_request_pos s + n) with (isdu_request_len s) by lia. by wp_steps.
    + rewrite (proj2 (Z.leb_gt _ _)) by lia. replace n with od_len by lia.
      change (isdu_flowctrl (set isdu_request_pos _ s)) with (isdu_flowctrl s).
      destruct (_ =? _); by wp_steps.
  - intros _ s' ->. apply wp_ret. split; [|done]. f_equal.
    rewrite (segment_split s od_len n), <- app_assoc by lia.
    change (Z.to_nat 0) with 0%nat. rewrite !take_0, !app_nil_l, !Nat.add_0_l.
    assert (length (zeros od_len) = Z.to_nat od_len) as -> by (unfold zlen in *; lia).
    rewrite length_take_le by (unfold zlen in *; lia).
    by rewrite drop_app_le by (unfold zlen in *; lia).
Qed.

(** FlowCTRL after a read M-sequence. *)
Definition poll_flowctrl s : Z :=
  if isdu_op s =e IOLINK_MASTER_ISDU_OP_NONE then isdu_flowctrl s
  else match isdu_phase s with
  | IOLINK_MASTER_ISDU_PHASE_WAIT => IOLINK_FLOWCTRL_START
  | IOLINK_MASTER_ISDU_PHASE_RESPONSE =>
      if (isdu_flowctrl s =? IOLINK_FLOWCTRL_START) || (isdu_flowctrl s =? IOLINK_FLOWCTRL_IDLE)
      then 1 else iolink_master_isdu_next_count (isdu_flowctrl s)
  | _ => isdu_flowctrl s
  end.

Lemma poll_flowctrl_range s : 0 ≤ isdu_flowctrl s < 32 → 0 ≤ poll_flowctrl s < 32.
Proof.
  intros H. destruct (next_count_range _ H) as [? _]. pose proof law_start.
  unfold poll_flowctrl. repeat case_match; lia.
Qed.

(** Outside the request phase only FlowCTRL advances and the octets are zero. *)
Lemma fill_od_poll s od od_len :
  isdu_op s = IOLINK_MASTER_ISDU_OP_NONE ∨ isdu_phase s ≠ IOLINK_MASTER_ISDU_PHASE_REQUEST →
  0 ≤ od_len ≤ zlen od →
  wp (iolink_master_isdu_fill_od PTR (Some od) od_len)
    (fun r s' => r = Some (zeros od_len ++ drop (Z.to_nat od_len) od) ∧
                 s' = s <| isdu_flowctrl := poll_flowctrl s |>) s.
Proof.
  intros Hs Hod.
  assert (zlen (zeros od_len) = od_len) as Hz by (apply zlen_zeros; lia).
  unfold iolink_master_isdu_fill_od. cbn [ptr_null].
  apply wp_bind. eapply wp_mem; [apply blit_Some; lia|].
  change (Z.to_nat 0) with 0%nat. rewrite !take_0, !app_nil_l, !Nat.add_0_l.
  replace (length (zeros od_len)) with (Z.to_nat od_len) by (unfold zlen in *; lia).
  assert (s = s <| isdu_flowctrl := isdu_flowctrl s |>) as Hid by (by destruct s).
  unfold poll_flowctrl.
  apply wp_bind, wp_get. apply wp_if; intros Hop; rewrite Hop; [by apply wp_ret|].
  destruct (isdu_phase s) eqn:Hph.
  - by apply wp_ret.
  - norm_bool. by destruct Hs.
  - by apply wp_bind, wp_assign, wp_ret.
  - by apply wp_bind, wp_if; intros Hf; rewrite Hf; apply wp_assign, wp_ret.
Qed.

Lemma fill_od_idle s od od_len :
  isdu_op s = IOLINK_MASTER_ISDU_OP_NONE ∨ isdu_phase s ≠ IOLINK_MASTER_ISDU_PHASE_REQUEST →
  0 ≤ od_len ≤ zlen od → 0 ≤ isdu_flowctrl s < 32 →
  wp (iolink_master_isdu_fill_od PTR (Some od) od_len)
    (fun r s' => r = Some (zeros od_len ++ drop (Z.to_nat od_len) od) ∧
                 ∃ flowctrl, 0 ≤ flowctrl < 32 ∧ s' = s <| isdu_flowctrl := flowctrl |>) s.
Proof.
  intros Hs Hod Hf. eapply wp_mono; [by apply fill_od_poll|].
  intros r s' [-> ->]. split; [done|]. exists (poll_flowctrl s).
  split; [by apply poll_flowctrl_range|done].
Qed.

Lemma after_segment_wf s od_len :
  wf_isdu s → 0 ≤ od_len → wf_isdu (after_segment s od_len).
Proof.
  intros Hwf Hod. pose proof (zlen_pending s Hwf) as Hp.
  pose proof (next_flowctrl_range _ (wf_flowctrl s Hwf)). pose proof law_start.
  unfold after_segment. destruct (Z.leb_spec (zlen (pending s)) od_len);
    destruct Hwf; split; cbn; done || lia.
Qed.

Lemma after_segment_pending s od_len : wf_isdu s → 0 ≤ od_len →
  isdu_phase s = IOLINK_MASTER_ISDU_PHASE_REQUEST →
  isdu_phase (after_segment s od_len) = IOLINK_MASTER_ISDU_PHASE_REQUEST →
  pending (after_segment s od_len) = drop (Z.to_nat od_len) (pending s) ∧
  isdu_flowctrl (after_segment s od_len) = next_flowctrl (isdu_flowctrl s).
Proof.
  intros Hwf Hod Hph. unfold after_segment. case_match; [done|]. intros _.
  split; [|done]. unfold pending. cbn. rewrite drop_drop. f_equal.
  destruct Hwf. lia.
Qed.
End fill.

(** ** Segmentation *)

Section segmentation.
Context {IO : Iolinki} {laws : IolinkiLaws IO}.
Implicit Types s : iolink_master_isdu_state_t.

(** One M-sequence on the ISDU channel as the port sends it: the direction and
    FlowCTRL it carries, and its OD octets. *)
Definition isdu_send_frame (od_len : Z)
    : M iolink_master_isdu_state_t (option (bool * Z) * list Z) :=
  isdu ← get;
  od ← iolink_master_isdu_fill_od PTR (Some (zeros IOLINK_ISDU_BUFFER_SIZE)) od_len;
  mret (iolink_master_isdu_channel_access (Some isdu),
        take (Z.to_nat od_len) (default [] od)).

Fixpoint isdu_send_frames (n : nat) (od_len : Z)
    : M iolink_master_isdu_state_t (list (option (bool * Z) * list Z)) :=
  match n with
  | O => mret []
  | S n =>
      frame ← isdu_send_frame od_len;
      frames ← isdu_send_frames n od_len;
      mret (frame :: frames)
  end.

(** FlowCTRL of the [k]-th frame of a request: START, then COUNT 1..15, 0, 1, ... *)
Definition flowctrl_of (k : Z) : Z := if k =? 0 then IOLINK_FLOWCTRL_START else k mod 16.

Lemma flowctrl_of_succ k : 0 ≤ k → next_flowctrl (flowctrl_of k) = flowctrl_of (k + 1).
Proof.
  intros Hk. unfold next_flowctrl, flowctrl_of. rewrite law_start.
  rewrite (proj2 (Z.eqb_neq (k + 1) 0)) by lia.
  pose proof (Z.mod_pos_bound k 16).
  destruct (Z.eqb_spec k 0) as [->|Hne]; [done|].
  rewrite (proj2 (Z.eqb_neq (k mod 16) 0x10)) by lia.
  destruct (next_count_range (k mod 16)) as [_ ->]; [lia|].
  by rewrite Zplus_mod_idemp_l.
Qed.

Lemma send_frame_ok s k od_len :
  wf_isdu s → in_flight s → isdu_phase s = IOLINK_MASTER_ISDU_PHASE_REQUEST →
  isdu_flowctrl s = flowctrl_of k → 1 ≤ od_len ≤ IOLINK_ISDU_BUFFER_SIZE →
  wp (isdu_send_frame od_len)
    (fun frame s' => frame = (Some (false, flowctrl_of k), segment s od_len) ∧
                     s' = after_segment s od_len) s.
Proof.
  intros Hwf (Hop & Hdone & _) Hph Hf Hod. pose proof law_isdu_buffer.
  apply wp_bind, wp_get, wp_bind.
  eapply wp_mono; [apply fill_od_request; try done; [rewrite zlen_zeros|]; lia|].
  intros r s' [-> ->]. apply wp_ret. split; [|done]. f_equal.
  - unfold iolink_master_isdu_channel_access. rewrite Hdone, Hph, Hf.
    by rewrite bool_decide_eq_false_2 by done.
  - unfold default, from_option, id. rewrite take_app_length'; [done|].
    pose proof (zlen_segment s od_len). unfold zlen in *. lia.
Qed.

Lemma segment_zeros s od_len m : wf_isdu s → 0 ≤ od_len → 0 ≤ m →
  segment s od_len ++ (drop (Z.to_nat od_len) (pending s) ++ zeros m)
    = pending s ++ zeros (Z.max 0 (od_len - zlen (pending s)) + m).
Proof.
  intros Hwf Ho Hm. rewrite (segment_split s od_len _ Ho eq_refl).
  assert (zeros (Z.max 0 (od_len - zlen (pending s)) + m)
    = drop (Z.to_nat (Z.min (zlen (pending s)) od_len)) (zeros od_len) ++ zeros m) as ->.
  { unfold zeros. rewrite drop_replicate, <- replicate_add. f_equal. 
    pose proof (zlen_nonneg (pending s)). lia. }
  rewrite <- app_assoc.
  destruct (Z.min_spec (zlen (pending s)) od_len) as [[Hlt ->]|[Hle ->]].
  - rewrite !(take_ge (pending s)) by (unfold zlen in *; lia).
    rewrite (drop_ge (pending s)) by (unfold zlen in *; lia). done.
  - rewrite (drop_ge (zeros od_len)); [cbn [app]; by rewrite app_assoc, take_drop|].
    unfold zeros. rewrite length_replicate. lia.
Qed.

Lemma send_frames_ok n k s od_len :
  wf_isdu s → in_flight s → isdu_phase s = IOLINK_MASTER_ISDU_PHASE_REQUEST →
  0 ≤ k → isdu_flowctrl s = flowctrl_of k → 1 ≤ od_len ≤ IOLINK_ISDU_BUFFER_SIZE →
  Z.of_nat n * od_len < zlen (pending s) ≤ Z.of_nat (S n) * od_len →
  wp (isdu_send_frames (S n) od_len) (fun frames s' =>
    represents s' Waiting ∧
    map fst frames = map (fun j => Some (false, flowctrl_of (k + j))) (upto (Z.of_nat (S n))) ∧
    concat (map snd frames)
      = pending s ++ zeros (Z.of_nat (S n) * od_len - zlen (pending s))) s.
Proof.
  revert k s. induction n as [|n IH]; intros k s Hwf Hfl Hph Hk Hf Hod Hlen;
    apply wp_bind; (eapply wp_mono; [by apply (send_frame_ok s k)|]); intros frame s' [-> ->].
  - apply wp_ret. split.
    + split; [apply after_segment_wf; [done|lia]|]. unfold after_segment.
      rewrite (proj2 (Z.leb_le _ _)) by lia. split; [|done]. by destruct s.
    + cbn [map fst snd concat]. change (upto (Z.of_nat 1)) with [0]. cbn [map]. split; [by rewrite Z.add_0_r|].
      pose proof (segment_zeros s od_len 0 Hwf) as Hz.
      rewrite (drop_ge (pending s)) in Hz by (unfold zlen in *; lia).
      change (zeros 0) with (@nil Z) in Hz. rewrite app_nil_r in Hz |- *.
      rewrite Hz by lia. do 2 f_equal. lia.
  - assert (isdu_phase (after_segment s od_len) = IOLINK_MASTER_ISDU_PHASE_REQUEST) as Hph'.
    { unfold after_segment. rewrite (proj2 (Z.leb_gt _ _)) by lia. by destruct s. }
    destruct (after_segment_pending s od_len) as [Hp' Hf']; [done|lia|done..|].
    pose proof (after_segment_wf s od_len Hwf).
    apply wp_bind. eapply wp_mono; [apply (IH (k + 1))|].
    + apply after_segment_wf; [done|lia].
    + unfold after_segment. rewrite (proj2 (Z.leb_gt _ _)) by lia. by destruct s.
    + done.
    + lia.
    + by rewrite Hf', Hf, flowctrl_of_succ.
    + done.
    + rewrite Hp', zlen_drop. lia.
    + intros frames s' (Hs & Hfst & Hsnd). apply wp_ret. split; [done|].
      cbn [map fst snd concat]. rewrite Hfst, Hsnd, Hp'. split.
      * rewrite (upto_S (S n)). cbn [map]. rewrite Z.add_0_r, map_map. f_equal.
        apply map_ext. intros j. by rewrite Z.add_assoc.
      * rewrite segment_zeros by (done || lia || (rewrite zlen_drop; lia)).
        do 2 f_equal. rewrite zlen_drop. lia.
Qed.
End segmentation.

(** ** Assembly of the request octets *)

(** The Index and Subindex octets (Table A.15). *)
Definition index_octets (index subindex : Z) : list Z :=
  if index <=? 255 then (if subindex =? 0 then [index] else [index; subindex])
  else [index / 256; index mod 256; subindex].

Section assembly.
Context {IO : Iolinki} {laws : IolinkiLaws IO}.
Implicit Types s : iolink_master_isdu_state_t.

(** [s] is [s0] except that its request buffer starts with [l]. *)
Definition building s0 (l : list Z) s : Prop :=
  ∃ request, s = s0 <| isdu_request := request |> ∧
    zlen request = IOLINK_ISDU_BUFFER_SIZE ∧ Forall is_u8 request ∧
    take (length l) request = l.

Lemma building_nil s0 : wf_isdu s0 → building s0 [] s0.
Proof. intros []. exists (isdu_request s0). by destruct s0. Qed.

Lemma building_wf s0 l s : wf_isdu s0 → building s0 l s → wf_isdu s.
Proof. intros [] (request & -> & ? & ? & ?). by split. Qed.

Lemma isdu_put_ok s0 l s v :
  building s0 l s → is_u8 v → zlen l < IOLINK_ISDU_BUFFER_SIZE → zlen l < 255 →
  wp (isdu_put (zlen l) v) (fun pos s' => pos = zlen (l ++ [v]) ∧ building s0 (l ++ [v]) s') s.
Proof.
  intros (request & -> & HB & Hu & Ht) Hv Hl Hl'. pose proof (zlen_nonneg l).
  apply wp_bind, wp_get. cbn [isdu_request set].
  apply wp_bind. eapply wp_mem; [apply wr_Some; cbn; lia|].
  apply wp_bind, wp_assign, wp_ret. split.
  - rewrite u8_small by (unfold is_u8; lia). slia.
  - eexists. split; [reflexivity|]. cbn. rewrite zlen_insert. split; [done|].
    split; [by apply Forall_insert|].
    replace (Z.to_nat (zlen l)) with (length l) by (unfold zlen; lia).
    apply take_insert_snoc; [done|]. unfold zlen in *. lia.
Qed.

Lemma index_len_octets index subindex : is_u16 index → is_u8 subindex →
  iolink_master_isdu_index_len index subindex = zlen (index_octets index subindex) ∧
  1 ≤ zlen (index_octets index subindex) ≤ 3 ∧ Forall is_u8 (index_octets index subindex).
Proof.
  intros Hi Hsub. unfold iolink_master_isdu_index_len, index_octets.
  assert (is_u8 (index mod 256)) by (apply Z.mod_pos_bound; lia).
  assert (is_u8 (index / 256)).
  { unfold is_u8, is_u16 in *. split; [apply Z.div_pos; lia|]. apply Z.div_lt_upper_bound; lia. }
  repeat case_match; norm_bool; rewrite ?zlen_cons, zlen_nil; split_and!; try lia;
    repeat constructor; try done; unfold is_u8, is_u16 in *; lia.
Qed.

Lemma isdu_put_index_ok s0 l s index subindex :
  building s0 l s → is_u16 index → is_u8 subindex →
  zlen l + 3 ≤ IOLINK_ISDU_BUFFER_SIZE → zlen l + 3 ≤ 255 →
  wp (isdu_put_index (zlen l) (iolink_master_isdu_index_len index subindex) index subindex)
    (fun pos s' => pos = zlen (l ++ index_octets index subindex) ∧
                   building s0 (l ++ index_octets index subindex) s') s.
Proof.
  intros Hb Hi Hsub HB Hl.
  assert (u8 (Z.land index 0xFF) = index mod 256) as Hlo.
  { change 0xFF with (Z.ones 8). rewrite Z.land_ones by lia. apply u8_small, Z.mod_pos_bound. lia. }
  assert (is_u8 (index mod 256)) as Hm by (apply Z.mod_pos_bound; lia).
  assert (u8 (Z.shiftr index 8) = index / 256 ∧ is_u8 (index / 256)) as [Hhi Hd].
  { rewrite Z.shiftr_div_pow2 by lia. change (2 ^ 8) with 256.
    assert (is_u8 (index / 256)); [|split; [by apply u8_small|done]].
    unfold is_u8, is_u16 in *. split; [apply Z.div_pos; lia|]. apply Z.div_lt_upper_bound; lia. }
  unfold isdu_put_index, iolink_master_isdu_index_len, index_octets. rewrite Hlo, Hhi.
  destruct (Z.leb_spec index 0xFF) as [Hle|Hgt].
  - rewrite (Z.mod_small index) by (unfold is_u16 in *; lia).
    rewrite (Z.mod_small index) in Hm by (unfold is_u16 in *; lia).
    destruct (subindex =? 0); cbn [Z.eqb Pos.eqb].
    + apply isdu_put_ok; done || lia.
    + apply wp_bind. eapply wp_mono; [apply (isdu_put_ok s0 l); done || lia|].
      intros pos s1 [-> Hb1]. eapply wp_mono; [apply (isdu_put_ok s0); done || slia|].
      intros pos s2. by rewrite <- !app_assoc.
  - cbn [Z.eqb Pos.eqb].
    apply wp_bind. eapply wp_mono; [apply (isdu_put_ok s0 l); done || lia|].
    intros pos s1 [-> Hb1].
    apply wp_bind. eapply wp_mono; [apply (isdu_put_ok s0); done || slia|].
    intros pos s2 [-> Hb2]. eapply wp_mono; [apply (isdu_put_ok s0); done || slia|].
    intros pos s3. by rewrite <- !app_assoc.
Qed.

(** A request that is assembled and ready to be sent. *)
Definition request_ready s (op : iolink_master_isdu_op_t) (index subindex : Z)
    (request : list Z) : Prop :=
  wf_isdu s ∧ in_flight s ∧ isdu_phase s = IOLINK_MASTER_ISDU_PHASE_REQUEST ∧
  isdu_op s = op ∧ isdu_index s = index ∧ isdu_subindex s = subindex ∧
  isdu_request_pos s = 0 ∧ isdu_flowctrl s = IOLINK_FLOWCTRL_START ∧ pending s = request.

(** The state [iolink_master_isdu_start] leaves. *)
Definition started s op index subindex : iolink_master_isdu_state_t := {|
  isdu_op := op;
  isdu_phase := IOLINK_MASTER_ISDU_PHASE_REQUEST;
  isdu_index := index;
  isdu_subindex := subindex;
  isdu_request := isdu_request s;
  isdu_request_len := isdu_request_len s;
  isdu_request_pos := 0;
  isdu_flowctrl := IOLINK_FLOWCTRL_START;
  isdu_chk := 0;
  isdu_expected_len := 0;
  isdu_response := isdu_response s;
  isdu_response_len := 0;
  isdu_response_pos := 0;
  isdu_done := false;
  isdu_idle_pending := false;
  isdu_abort_pending := false;
  isdu_error := IOLINK_ISDU_ERROR_NONE;
|}.

Lemma started_wf s op index subindex : wf_isdu s → is_u16 index → is_u8 subindex →
  wf_isdu (started s op index subindex).
Proof.
  intros [] ??. pose proof law_start. pose proof law_isdu_buffer. pose proof law_error_none.
  split; cbn; try done; unfold is_u16; lia.
Qed.

Lemma pending_prefix s l :
  isdu_request_pos s = 0 → isdu_request_len s = zlen l →
  take (length l) (isdu_request s) = l → pending s = l.
Proof.
  intros Hp Hl Ht. unfold pending. rewrite Hp, Hl. unfold zlen. rewrite Nat2Z.id, Ht. done.
Qed.

Lemma building_chkpdu s0 s l : wf_isdu s0 → building s0 l s →
  zlen l < IOLINK_ISDU_BUFFER_SIZE →
  iolink_master_isdu_chkpdu (isdu_request s) (zlen l) = Some (xor_octets l) ∧
  is_u8 (xor_octets l).
Proof.
  intros Hwf Hb HB. pose proof (building_wf _ _ _ Hwf Hb) as Hwf'.
  destruct Hb as (request & -> & HB' & Hu & Ht). cbn [isdu_request set] in *.
  pose proof (zlen_nonneg l). split.
  - rewrite chkpdu_xor by lia. unfold zlen. by rewrite Nat2Z.id, Ht.
  - apply xor_octets_u8. rewrite <- Ht. by apply Forall_take.
Qed.

(** The request in the buffer of a started service is ready once its length is set. *)
Lemma building_ready s0 s l op index subindex :
  wf_isdu s0 → op ≠ IOLINK_MASTER_ISDU_OP_NONE → is_u16 index → is_u8 subindex →
  building (started s0 op index subindex) l s → zlen l ≤ IOLINK_ISDU_BUFFER_SIZE →
  request_ready (s <| isdu_request_len := zlen l |>) op index subindex l.
Proof.
  intros Hwf Hop Hi Hsub (request & -> & HB' & Hu & Ht) HB.
  pose proof (started_wf s0 op index subindex Hwf Hi Hsub) as [].
  pose proof (zlen_nonneg l).
  split; [|split; [by repeat split|]].
  - split; cbn; done || lia.
  - split_and!; try reflexivity. by apply pending_prefix.
Qed.

Lemma start_ok s op index subindex Q :
  Q tt (started s op index subindex) → wp (iolink_master_isdu_start op index subindex) Q s.
Proof. intros HQ. do 13 apply wp_bind, wp_assign. by apply wp_assign. Qed.

(** Both request builders end alike: CHKPDU after the octets [l], then the length. *)
Lemma chkpdu_ready s0 s l op index subindex (len : Z) :
  wf_isdu s0 → op ≠ IOLINK_MASTER_ISDU_OP_NONE → is_u16 index → is_u8 subindex →
  building (started s0 op index subindex) l s →
  zlen l < IOLINK_ISDU_BUFFER_SIZE → zlen l < 255 → len = zlen l + 1 →
  wp (isdu ← get;
      chk ← mem (iolink_master_isdu_chkpdu (isdu_request isdu) (zlen l));
      isdu_put (zlen l) chk;;
      isdu_request_len <~ len)
    (fun _ s' => request_ready s' op index subindex (l ++ [xor_octets l])) s.
Proof.
  intros Hwf Hop Hi Hsub Hb HB Hl ->.
  pose proof (started_wf s0 op index subindex Hwf Hi Hsub) as Hwf'.
  destruct (building_chkpdu _ _ _ Hwf' Hb) as [Hc Hx]; [done|].
  apply wp_bind, wp_get, wp_bind. eapply wp_mem; [exact Hc|].
  apply wp_bind. eapply wp_mono; [by eapply isdu_put_ok|].
  intros pos s' [_ Hb']. apply wp_assign.
  replace (zlen l + 1) with (zlen (l ++ [xor_octets l])) by slia.
  eapply building_ready; try done. slia.
Qed.

Lemma build_read_ok s index subindex :
  wf_isdu s → is_u16 index → is_u8 subindex →
  wp (iolink_master_isdu_build_read index subindex) (fun _ s' =>
    request_ready s' IOLINK_MASTER_ISDU_OP_READ index subindex
      (isdu_encode (8 + zlen (index_octets index subindex)) (index_octets index subindex))) s.
Proof.
  intros Hwf Hi Hsub. pose proof law_isdu_buffer.
  destruct (index_len_octets index subindex Hi Hsub) as (Hlen & Hr & Hu).
  unfold iolink_master_isdu_build_read, IOLINK_MASTER_ISDU_CHKPDU_LEN,
    IOLINK_MASTER_ISDU_SERVICE_SHIFT, IOLINK_MASTER_ISDU_LENGTH_NIBBLE_MAX. cbv zeta.
  apply wp_bind, start_ok. set (s0 := started _ _ _ _).
  pose proof (building_nil s0 (started_wf s _ _ _ Hwf Hi Hsub)) as Hb.
  set (l := index_octets index subindex) in *.
  assert (u8 (1 + iolink_master_isdu_index_len index subindex + 1) = zlen l + 2) as ->.
  { rewrite Hlen, u8_small by (unfold is_u8; lia). lia. }
  set (head := u8 (Z.lor _ _)).
  assert (head = (8 + zlen l) * 16 + (zlen l + 2) ∧ is_u8 head) as [Hh Hhu].
  { unfold head. rewrite Hlen. assert (zlen l = 1 ∨ zlen l = 2 ∨ zlen l = 3) as [Hx|[Hx|Hx]] by lia;
      rewrite Hx; vm_compute; split; done. }
  apply wp_bind. eapply wp_mono; [apply (isdu_put_ok s0 [] s0); done || slia|].
  intros pos s1 [-> Hb1]. cbn [app] in Hb1.
  apply wp_bind. eapply wp_mono; [apply (isdu_put_index_ok s0 [head]); done || slia|].
  intros pos s2 [_ Hb2]. cbn [app] in Hb2.
  replace (u16 (zlen l + 2 - 1)) with (zlen (head :: l)); cycle 1.
  { rewrite u16_small by (unfold is_u16; lia). slia. }
  replace (zlen l + 2 - 1) with (zlen (head :: l)) by slia.
  eapply wp_mono; [apply (chkpdu_ready s s2 (head :: l) IOLINK_MASTER_ISDU_OP_READ index subindex); done || slia|].
  intros ? s3. unfold isdu_encode, isdu_header. rewrite (proj2 (Z.leb_le _ _)) by lia.
  cbv zeta. by rewrite <- Hh.
Qed.

Lemma building_memcpy s0 s l data n :
  building s0 l s → Forall is_u8 data → 0 ≤ n ≤ zlen data →
  zlen l + n ≤ IOLINK_ISDU_BUFFER_SIZE →
  ∃ request, memcpy (isdu_request s) (zlen l) data 0 n = Some request ∧
    building s0 (l ++ take (Z.to_nat n) data) (s <| isdu_request := request |>).
Proof.
  intros (request & -> & HB & Hu & Ht) Hd Hn Hl. pose proof (zlen_nonneg l).
  cbn [isdu_request set]. set (d := take (Z.to_nat n) data).
  assert (zlen d = n) as Hdn by (unfold d; slia).
  assert (memcpy request (zlen l) data 0 n = Some (l ++ d ++ drop (length l + length d) request))
    as Hc.
  { unfold memcpy. rewrite slice_Some by lia. change (Z.to_nat 0) with 0%nat.
    rewrite drop_0. fold d. cbn [mbind option_bind]. rewrite blit_Some by lia.
    unfold zlen at 1 2. by rewrite Nat2Z.id, Ht. }
  eexists. split; [exact Hc|]. eexists. split; [reflexivity|].
  assert (Forall is_u8 l) as Hlu by (rewrite <- Ht; by apply Forall_take).
  split_and!.
  - rewrite !zlen_app, zlen_drop. unfold zlen in *. lia.
  - rewrite !Forall_app. split_and!; [done|by apply Forall_take|by apply Forall_drop].
  - by rewrite app_assoc, take_app_length.
Qed.

(** The header octets of a write request. *)
Lemma write_header idx_len total : 1 ≤ idx_len ≤ 3 → 0 ≤ total →
  (total ≤ 15 →
   u8 (Z.lor (Z.shiftl (iolink_master_isdu_service false idx_len) 4) (u8 (Z.land total 15)))
     = idx_len * 16 + total) ∧
  u8 (Z.lor (Z.shiftl (iolink_master_isdu_service false idx_len) 4) 1) = idx_len * 16 + 1.
Proof.
  intros Hi Ht. cbn [iolink_master_isdu_service]. split.
  - intros Hle. change 15 with (Z.ones 4). rewrite Z.land_ones by lia.
    change (2 ^ 4) with 16. rewrite (Z.mod_small total) by lia.
    rewrite (u8_small total), lor_shiftl_add by (unfold is_u8; lia).
    apply u8_small. unfold is_u8. lia.
  - rewrite lor_shiftl_add by lia. apply u8_small. unfold is_u8. lia.
Qed.

Lemma put_write_header_ok s0 s idx_len total :
  building s0 [] s → 1 ≤ idx_len ≤ 3 → 2 ≤ total ≤ 237 →
  wp (isdu_put_write_header idx_len total) (fun pos s' =>
    pos = zlen (isdu_header idx_len total) ∧ building s0 (isdu_header idx_len total) s') s.
Proof.
  intros Hb Hi Ht. pose proof law_isdu_buffer. destruct (write_header idx_len total) as [Hh1 Hh2]; [lia..|].
  unfold isdu_put_write_header, isdu_header, IOLINK_MASTER_ISDU_SERVICE_SHIFT,
    IOLINK_MASTER_ISDU_LENGTH_NIBBLE_MAX, IOLINK_MASTER_ISDU_LENGTH_EXTENDED.
  apply wp_if; intros Hc; rewrite Hc; norm_bool.
  - rewrite Hh1 by done. apply (isdu_put_ok s0 []); [done|unfold is_u8; lia|slia..].
  - rewrite Hh2. apply wp_bind. eapply wp_mono.
    { apply (isdu_put_ok s0 []); [done|unfold is_u8; lia|slia..]. }
    intros pos s1 [-> Hb1]. rewrite u8_small by (unfold is_u8; lia).
    apply (isdu_put_ok s0 ([] ++ [idx_len * 16 + 1])); [done|unfold is_u8; lia|slia..].
Qed.

Lemma build_write_ok s index subindex data len :
  wf_isdu s → is_u16 index → is_u8 subindex → Forall is_u8 data → 0 ≤ len ≤ zlen data →
  let body := index_octets index subindex ++ take (Z.to_nat len) data in
  iolink_master_isdu_write_too_long len (zlen body + 2) = false →
  wp (iolink_master_isdu_build_write index subindex data len (zlen body + 2)) (fun _ s' =>
    request_ready s' IOLINK_MASTER_ISDU_OP_WRITE index subindex
      (isdu_encode (zlen (index_octets index subindex)) body)) s.
Proof.
  intros Hwf Hi Hsub Hd Hl. cbv zeta. pose proof law_isdu_buffer as HB.
  destruct (index_len_octets index subindex Hi Hsub) as (Hlen & Hr & Hu).
  set (l := index_octets index subindex) in *.
  assert (zlen (l ++ take (Z.to_nat len) data) = zlen l + len) as -> by slia.
  set (total := zlen l + len + 2).
  unfold iolink_master_isdu_write_too_long, IOLINK_MASTER_ISDU_EXT_MAX. intros Hg.
  assert (len ≤ IOLINK_ISDU_BUFFER_SIZE - 7 ∧ total ≤ 237 ∧ total ≠ 16) as (HlB & Ht & H16).
  { apply orb_false_iff in Hg as [[Hg1%Z.ltb_ge Hg2%Z.ltb_ge]%orb_false_iff Hg3%Z.eqb_neq].
    unfold IOLINK_MASTER_ISDU_WRITE_HEADER_MAX in Hg1.
    pose proof (Z.mod_le (IOLINK_ISDU_BUFFER_SIZE - 7) 256). unfold u8 in Hg1.
    destruct (Z.ltb_spec 15 total); lia. }
  clear Hg. unfold iolink_master_isdu_build_write, IOLINK_MASTER_ISDU_CHKPDU_LEN. cbv zeta. rewrite Hlen.
  apply wp_bind, start_ok. set (s0 := started _ _ _ _).
  pose proof (building_nil s0 (started_wf s _ _ _ Hwf Hi Hsub)) as Hb.
  set (h := isdu_header (zlen l) total).
  assert (zlen h ≤ 2) as Hhl by (unfold h; rewrite zlen_isdu_header; case_match; lia).
  pose proof (zlen_nonneg h).
  apply wp_bind. eapply wp_mono; [apply (put_write_header_ok s0); [done|lia|unfold total in *; lia]|].
  fold h.
  intros pos s1 [-> Hb1]. apply wp_bind. rewrite <- Hlen.
  eapply wp_mono; [apply (isdu_put_index_ok s0 h); done || lia|].
  intros pos s2 [-> Hb2]. fold l in Hb2 |- *. apply wp_bind.
  eapply (wp_mono _ (fun pos s3 => pos = zlen (h ++ l ++ take (Z.to_nat len) data) ∧
                        building s0 (h ++ l ++ take (Z.to_nat len) data) s3)).
  { apply wp_if; intros Hc; norm_bool.
    - apply wp_bind, wp_get, wp_bind.
      destruct (building_memcpy s0 s2 (h ++ l) data len) as (request & Hm & Hb3); [done..|slia|].
      eapply wp_mem; [exact Hm|]. apply wp_bind, wp_assign, wp_ret.
      rewrite <- app_assoc in Hb3. split; [|done].
      unfold total in *. rewrite u8_small by (unfold is_u8; slia). slia.
    - assert (len = 0) as -> by lia. apply wp_ret. change (take (Z.to_nat 0) data) with (@nil Z).
      by rewrite app_nil_r. }
  intros pos s3 [-> Hb3].
  set (octets := h ++ l ++ take (Z.to_nat len) data) in *.
  assert (zlen octets = zlen h + zlen l + len) as Ho by (unfold octets; slia).
  eapply wp_mono.
  { apply (chkpdu_ready s s3 octets IOLINK_MASTER_ISDU_OP_WRITE index subindex);
      try done; unfold total in *; try lia. apply u8_small. unfold is_u8. lia. }
  intros ? s4. unfold isdu_encode. cbv zeta.
  replace (zlen (l ++ take (Z.to_nat len) data) + 2) with total by (unfold total; slia).
  by rewrite Hlen.
Qed.
End assembly.

(** ** The identity of the service is kept by the transport *)

Definition isdu_id (s : iolink_master_isdu_state_t) : iolink_master_isdu_op_t * Z * Z :=
  (isdu_op s, isdu_index s, isdu_subindex s).

Lemma fill_od_keeps `{Iolinki} od od_len :
  keeps isdu_id (iolink_master_isdu_fill_od PTR od od_len).
Proof. unfold iolink_master_isdu_fill_od. keeps_auto. Qed.

Lemma on_od_keeps `{Iolinki} od od_len :
  keeps isdu_id (iolink_master_isdu_on_od PTR od od_len).
Proof. keeps_deep. Qed.
#[export] Hint Resolve fill_od_keeps on_od_keeps : keeps.

(** ** The invariant *)

Section invariant.
Context {IO : Iolinki} {laws : IolinkiLaws IO}.
Implicit Types s : iolink_master_isdu_state_t.

Lemma represents_inv s x : represents s x → isdu_inv s.
Proof.
  intros Hx. pose proof Hx as [Hwf Hrest]. split; [done|].
  destruct x as [|r|o]; [by auto|eauto 6|]. right. left. by destruct Hrest as (_ & ? & ? & _).
Qed.

Lemma request_ready_inv s op index subindex request :
  request_ready s op index subindex request → isdu_inv s.
Proof. intros (? & ? & ? & _). split; auto. Qed.

Lemma isdu_zero_inv : isdu_inv isdu_state_zero.
Proof.
  pose proof law_isdu_buffer. split; [|by left].
  assert (zlen (zeros IOLINK_ISDU_BUFFER_SIZE) = IOLINK_ISDU_BUFFER_SIZE)
    by (apply zlen_zeros; lia).
  assert (Forall is_u8 (zeros IOLINK_ISDU_BUFFER_SIZE)) by (by apply zeros_Forall).
  split; cbn; done || lia.
Qed.

Lemma clear_ok s (Q : unit → iolink_master_isdu_state_t → Prop) : wf_isdu s →
  (∀ s', wf_isdu s' → isdu_op s' = IOLINK_MASTER_ISDU_OP_NONE →
     isdu_done s' = false → isdu_abort_pending s' = false → isdu_idle_pending s' = false →
     Q tt s') →
  wp iolink_master_isdu_clear Q s.
Proof.
  intros [] HQ. pose proof law_isdu_buffer. pose proof law_idle. pose proof law_error_none.
  unfold iolink_master_isdu_clear. wp_steps. apply HQ; [|done..].
  destruct s. cbn in *. split; cbn; try done; unfold is_u16, is_u8; lia.
Qed.

(** Latching or dropping a pending request leaves the rest of the state alone. *)
Lemma idle_inv s b : isdu_inv s → (b = true → isdu_idle_pending s = true) →
  isdu_inv (s <| isdu_idle_pending := b |>).
Proof.
  intros [Hwf Hx] Hb. split; [by destruct Hwf|].
  assert (in_flight s → b = false) as Hf.
  { intros (_ & _ & _ & Hi & _). destruct b; [|done]. by rewrite Hb in Hi. }
  destruct Hx as [?|[?|[[Hfl ?]|[[_ [Hfl ?]]|[r [_ (Hfl & Hr)]]]]]].
  - by left.
  - by right; left.
  - right; right; left. rewrite Hf by done. split; [|done]. by destruct Hfl as (?&?&?&?&?).
  - right; right; right; left. rewrite Hf by done. split; [by destruct Hwf|].
    split; [|done]. by destruct Hfl as (?&?&?&?&?).
  - right; right; right; right. exists r. rewrite Hf by done. split; [by destruct Hwf|].
    split; [|done]. by destruct Hfl as (?&?&?&?&?).
Qed.

Lemma abort_inv s b : isdu_inv s →
  (b = true → isdu_abort_pending s = true ∨ isdu_op s = IOLINK_MASTER_ISDU_OP_NONE) →
  isdu_inv (s <| isdu_abort_pending := b |>).
Proof.
  intros [Hwf Hx] Hb. split; [by destruct Hwf|].
  assert (in_flight s → b = false) as Hf.
  { intros (Ho & _ & _ & _ & Hi). destruct b; [|done]. destruct Hb; congruence. }
  destruct Hx as [?|[?|[[Hfl ?]|[[_ [Hfl ?]]|[r [_ (Hfl & Hr)]]]]]].
  - by left.
  - by right; left.
  - right; right; left. rewrite Hf by done. split; [|done]. by destruct Hfl as (?&?&?&?&?).
  - right; right; right; left. rewrite Hf by done. split; [by destruct Hwf|].
    split; [|done]. by destruct Hfl as (?&?&?&?&?).
  - right; right; right; right. exists r. rewrite Hf by done. split; [by destruct Hwf|].
    split; [|done]. by destruct Hfl as (?&?&?&?&?).
Qed.

Lemma take_idle_inv s : isdu_inv s →
  wp (iolink_master_isdu_take_idle PTR) (fun _ s' => isdu_inv s') s.
Proof. intros. apply wp_bind, wp_get. apply wp_if; intros _; wp_steps; [done|by apply idle_inv]. Qed.

Lemma take_abort_inv s : isdu_inv s →
  wp (iolink_master_isdu_take_abort PTR) (fun _ s' => isdu_inv s') s.
Proof. intros. apply wp_bind, wp_get. apply wp_if; intros _; wp_steps; [done|by apply abort_inv]. Qed.

Lemma flowctrl_represents s x f : represents s x → 0 ≤ f < 32 →
  represents (s <| isdu_flowctrl := f |>) x.
Proof. intros [[] Hx] ?. split; [by split|]. by destruct x. Qed.

Lemma flowctrl_inv s f : isdu_inv s → 0 ≤ f < 32 → isdu_inv (s <| isdu_flowctrl := f |>).
Proof.
  intros [Hwf Hx] Hf. split; [by destruct Hwf|].
  destruct Hx as [?|[?|[?|[?|[r ?]]]]]; [by left|by right; left|by right; right; left| |].
  - right; right; right; left. by apply flowctrl_represents.
  - right; right; right; right. exists r. by apply flowctrl_represents.
Qed.

Lemma after_segment_inv s od_len : wf_isdu s → in_flight s → 0 ≤ od_len →
  isdu_phase s = IOLINK_MASTER_ISDU_PHASE_REQUEST → isdu_inv (after_segment s od_len).
Proof.
  intros Hwf Hfl Hod Hph. pose proof (after_segment_wf s od_len Hwf Hod) as Hwf'.
  split; [done|]. right; right. unfold after_segment in *. case_match.
  - right; left. split; [done|]. by destruct s.
  - left. by destruct s.
Qed.

Lemma fill_od_inv s od od_len :
  isdu_inv s → 0 ≤ od_len ≤ zlen od → od_len ≤ IOLINK_ISDU_BUFFER_SIZE → Forall is_u8 od →
  wp (iolink_master_isdu_fill_od PTR (Some od) od_len) (fun r s' =>
    isdu_inv s' ∧ ∃ od', r = Some od' ∧ zlen od' = zlen od ∧ Forall is_u8 od') s.
Proof.
  intros Hinv Hod HB Hu. pose proof Hinv as [Hwf Hx].
  destruct (decide (isdu_op s ≠ IOLINK_MASTER_ISDU_OP_NONE ∧
                    isdu_phase s = IOLINK_MASTER_ISDU_PHASE_REQUEST)) as [[Hop Hph]|Hno].
  - eapply wp_mono; [by apply fill_od_request|]. intros r s' [-> ->]. split.
    + apply after_segment_inv; try done; [|lia].
      destruct Hx as [?|[[_ ?]|[[? _]|[[_ [_ ?]]|[r [_ (_ & ? & _)]]]]]]; done || congruence.
    + eexists. split; [done|]. pose proof (zlen_segment s od_len). split.
      * rewrite zlen_app, zlen_drop. lia.
      * apply Forall_app. split; [|by apply Forall_drop]. apply Forall_take, Forall_app.
        split; [|by apply zeros_Forall]. apply Forall_drop, Forall_take, Hwf.
  - eapply wp_mono; [apply fill_od_idle; [|done|apply Hwf]|].
    { destruct (decide (isdu_op s = IOLINK_MASTER_ISDU_OP_NONE)); [by left|right; tauto]. }
    intros r s' (-> & f & Hf & ->). split; [by apply flowctrl_inv|].
    eexists. split; [done|]. split; [rewrite zlen_app, zlen_drop, zlen_zeros by lia; lia|].
    apply Forall_app. split; [by apply zeros_Forall|by apply Forall_drop].
Qed.

Lemma on_od_inv s od od_len :
  isdu_inv s → Forall is_u8 od → 0 ≤ od_len ≤ zlen od →
  wp (iolink_master_isdu_on_od PTR (Some od) od_len) (fun _ s' => isdu_inv s') s.
Proof.
  intros Hinv Hu Hl. pose proof Hinv as [Hwf Hx].
  destruct Hx as [Hx|[[Hx _]|[[_ Hx]|[Hx|[r Hx]]]]].
  - apply wp_bind, wp_get. rewrite Hx. by apply wp_ret.
  - apply wp_bind, wp_get. rewrite Hx, orb_true_r. by apply wp_ret.
  - apply wp_bind, wp_get. rewrite Hx, orb_true_r. by apply wp_ret.
  - eapply wp_mono; [by apply (on_od_ok _ _ _ _ Hx)|]. intros ? s'. apply represents_inv.
  - eapply wp_mono; [by apply (on_od_ok _ _ _ _ Hx)|]. intros ? s'. apply represents_inv.
Qed.
End invariant.
