(* ===== verification/IsduService.v ===== *)
(** * The ISDU transport and services: theorems

    What a caller of [iolink_master_read_isdu] and [iolink_master_write_isdu] and the
    device on the other side of the OD channel see. *)

From S2P Require Import Prelude Iolinki Reference Types Fixtures Isdu IsduResponse IsduRequest.

(** ** Safety of the transport for every history *)

(** What the port can do to the transport, with arbitrary received octets. *)
Inductive isdu_call : Type :=
| CallFill (od_len : Z)
| CallOd (od : list Z)
| CallTakeIdle
| CallTakeAbort
| CallRead (index subindex : Z)
| CallWrite (index subindex : Z) (data : list Z).

Section transport_theorems.
Context {IO : Iolinki}.

Definition isdu_idle (s : iolink_master_isdu_state_t) : bool :=
  (isdu_op s =e IOLINK_MASTER_ISDU_OP_NONE).

Definition isdu_call_valid (c : isdu_call) : Prop :=
  match c with
  | CallFill od_len => 0 ≤ od_len ≤ IOLINK_ISDU_BUFFER_SIZE
  | CallOd od => Forall is_u8 od
  | CallRead index subindex => is_u16 index ∧ is_u8 subindex
  | CallWrite index subindex data => is_u16 index ∧ is_u8 subindex ∧ Forall is_u8 data
  | _ => True
  end.

(** A service starts only when none is active and, for a write, when the length is
    accepted: the guards of the two entry points. *)
Definition isdu_run_call (c : isdu_call) : M iolink_master_isdu_state_t unit :=
  match c with
  | CallFill od_len =>
      iolink_master_isdu_fill_od PTR (Some (zeros IOLINK_ISDU_BUFFER_SIZE)) od_len;; mret tt
  | CallOd od => iolink_master_isdu_on_od PTR (Some od) (zlen od)
  | CallTakeIdle => iolink_master_isdu_take_idle PTR;; mret tt
  | CallTakeAbort => iolink_master_isdu_take_abort PTR;; mret tt
  | CallRead index subindex =>
      isdu ← get;
      when (isdu_idle isdu) (iolink_master_isdu_build_read index subindex)
  | CallWrite index subindex data =>
      isdu ← get;
      let total := zlen (index_octets index subindex) + zlen data + 2 in
      when (isdu_idle isdu && negb (iolink_master_isdu_write_too_long (zlen data) total))
        (iolink_master_isdu_build_write index subindex data (zlen data) total)
  end.

Fixpoint isdu_run (calls : list isdu_call) : M iolink_master_isdu_state_t unit :=
  match calls with
  | [] => mret tt
  | c :: calls => isdu_run_call c;; isdu_run calls
  end.

(** One read M-sequence of the port: poll, then take the OD octets of the reply. *)
Definition isdu_read_frame (od : list Z) : M iolink_master_isdu_state_t unit :=
  iolink_master_isdu_fill_od PTR (Some (zeros IOLINK_ISDU_BUFFER_SIZE)) (zlen od);;
  iolink_master_isdu_on_od PTR (Some od) (zlen od).

Fixpoint isdu_read_frames (replies : list (list Z)) : M iolink_master_isdu_state_t unit :=
  match replies with
  | [] => mret tt
  | od :: replies => isdu_read_frame od;; isdu_read_frames replies
  end.
End transport_theorems.

Section transport_lemmas.
Context {IO : Iolinki} {laws : IolinkiLaws IO}.
Implicit Types s : iolink_master_isdu_state_t.

Lemma isdu_run_call_inv c s :
  isdu_inv s → isdu_call_valid c → wp (isdu_run_call c) (fun _ s' => isdu_inv s') s.
Proof.
  intros Hs Hc. pose proof law_isdu_buffer.
  destruct c as [od_len|od| | |index subindex|index subindex data]; cbn in Hc |- *.
  - apply wp_bind. eapply wp_mono; [apply fill_od_inv; try done|].
    + rewrite zlen_zeros by lia. lia.
    + lia.
    + by apply zeros_Forall.
    + intros ? s' [? _]. by apply wp_ret.
  - apply on_od_inv; [done..|]. pose proof (zlen_nonneg od). lia.
  - apply wp_bind. eapply wp_mono; [by apply take_idle_inv|]. intros ? s' ?. by apply wp_ret.
  - apply wp_bind. eapply wp_mono; [by apply take_abort_inv|]. intros ? s' ?. by apply wp_ret.
  - apply wp_bind, wp_get, wp_when; intros _; [|done]. destruct Hc.
    eapply wp_mono; [by apply build_read_ok; [apply Hs|..]|].
    intros ? s'. apply request_ready_inv.
  - apply wp_bind, wp_get. cbv zeta. apply wp_when; intros Hg; [|done].
    apply andb_true_iff in Hg as [_ Hg%negb_true_iff].
    destruct Hc as (? & ? & ?).
    replace (zlen (index_octets index subindex) + zlen data + 2)
      with (zlen (index_octets index subindex ++ take (Z.to_nat (zlen data)) data) + 2) in *
      by slia.
    eapply wp_mono; [apply build_write_ok; try done; [apply Hs|]|].
    + pose proof (zlen_nonneg data). lia.
    + intros ? s'. apply request_ready_inv.
Qed.

Lemma read_frame_ok s x od :
  represents s x → Forall is_u8 od → zlen od ≤ IOLINK_ISDU_BUFFER_SIZE →
  wp (isdu_read_frame od) (fun _ s' => represents s' (foldl rx_step x od)) s.
Proof.
  intros Hx Hu Hl. pose proof (zlen_nonneg od). apply wp_bind.
  eapply wp_mono.
  { apply fill_od_idle; [|rewrite zlen_zeros; lia|by apply Hx]. right.
    destruct Hx as [_ Hx]. destruct x; [destruct Hx as [_ ->]|destruct Hx as (_ & -> & _)|
      destruct Hx as (_ & _ & -> & _)]; done. }
  intros r s' (_ & f & Hf & ->).
  eapply wp_mono; [apply on_od_ok; [by apply flowctrl_represents|done|lia]|].
  intros ? s'. unfold zlen. rewrite Nat2Z.id, take_ge by done. done.
Qed.
End transport_lemmas.

Section transport_lemmas2.
Context {IO : Iolinki} {laws : IolinkiLaws IO}.
Implicit Types s : iolink_master_isdu_state_t.

Lemma read_frames_ok s x replies :
  represents s x → Forall (Forall is_u8) replies →
  Forall (fun od => zlen od ≤ IOLINK_ISDU_BUFFER_SIZE) replies →
  wp (isdu_read_frames replies)
    (fun _ s' => represents s' (foldl rx_step x (concat replies))) s.
Proof.
  intros Hx Hu Hl. revert s x Hx.
  induction replies as [|od replies IH]; intros s x Hx; [by apply wp_ret|].
  inversion_clear Hu. inversion_clear Hl. apply wp_bind.
  eapply wp_mono; [by apply read_frame_ok|]. intros ? s' Hs. cbn [concat].
  rewrite foldl_app. by apply IH.
Qed.

Lemma isdu_run_inv calls s :
  isdu_inv s → Forall isdu_call_valid calls → wp (isdu_run calls) (fun _ s' => isdu_inv s') s.
Proof.
  intros Hs Hc. revert s Hs. induction Hc as [|c calls Hc _ IH]; intros s Hs; [by apply wp_ret|].
  apply wp_bind. eapply wp_mono; [by apply isdu_run_call_inv|]. intros ? s'. apply IH.
Qed.
End transport_lemmas2.

(** ** The services on a port *)

(** The states in which the acyclic services run. *)
Definition acyclic_state (state : iolink_master_state_t) : Prop :=
  state = IOLINK_MASTER_STATE_OPERATE ∨ state = IOLINK_MASTER_STATE_PREOPERATE.

Section service_lemmas.
Context {IO : Iolinki} {laws : IolinkiLaws IO}.
Implicit Types p : iolink_master_port_state_t.

(** No service is active. *)
Definition isdu_free (s : iolink_master_isdu_state_t) : Prop :=
  isdu_inv s ∧ isdu_op s = IOLINK_MASTER_ISDU_OP_NONE ∧ isdu_done s = false.

Lemma acyclic_guard p : acyclic_state (p_state p) →
  (p_state p <>e IOLINK_MASTER_STATE_OPERATE) &&
  (p_state p <>e IOLINK_MASTER_STATE_PREOPERATE) = false.
Proof. by intros [-> | ->]. Qed.

Lemma free_not_busy s : isdu_free s → iolink_master_isdu_busy s = false.
Proof. intros (_ & Hop & _). unfold iolink_master_isdu_busy. by rewrite Hop. Qed.

Lemma read_isdu_starts p index subindex data len :
  acyclic_state (p_state p) → isdu_free (p_isdu p) → is_u16 index → is_u8 subindex →
  wp (iolink_master_read_isdu PTR index subindex (Some data) (Some len)) (fun r p' =>
    r = (IOLINK_MASTER_STATUS_PENDING, Some data, Some len) ∧
    ∃ isdu, p' = p <| p_isdu := isdu |> ∧
      request_ready isdu IOLINK_MASTER_ISDU_OP_READ index subindex
        (isdu_encode (8 + zlen (index_octets index subindex)) (index_octets index subindex))) p.
Proof.
  intros Hst Hfree Hi Hsub. apply wp_bind, wp_get.
  rewrite acyclic_guard, free_not_busy by done. destruct Hfree as (Hinv & _ & ->).
  apply wp_bind, wp_zoom. eapply wp_mono; [by apply build_read_ok; [apply Hinv|..]|].
  intros ? isdu Hr. apply wp_ret. eauto.
Qed.

(** The result of a completed read, by outcome. *)
Lemma read_isdu_finishes p index subindex data len payload :
  acyclic_state (p_state p) → represents (p_isdu p) (Finished (Payload payload)) →
  isdu_op (p_isdu p) = IOLINK_MASTER_ISDU_OP_READ →
  isdu_index (p_isdu p) = index → isdu_subindex (p_isdu p) = subindex →
  zlen payload ≤ len → len ≤ 255 → zlen payload ≤ zlen data →
  wp (iolink_master_read_isdu PTR index subindex (Some data) (Some len)) (fun r p' =>
    r = (IOLINK_MASTER_STATUS_OK, Some (payload ++ drop (length payload) data),
         Some (zlen payload)) ∧
    isdu_free (p_isdu p') ∧
    diag_last_service_result (p_diagnostics p') = IOLINK_MASTER_STATUS_OK) p.
Proof.
  intros Hst (Hwf & Hop & Hdone & _ & Herr & Hidle & Habort & Hlen & Htake) Hrd Hi Hsub Hle Hl Hd.
  pose proof (zlen_nonneg payload) as Hpos.
  apply wp_bind, wp_get. rewrite acyclic_guard by done.
  unfold iolink_master_isdu_busy, iolink_master_isdu_matches.
  rewrite Hdone, andb_false_r, Hrd, Hi, Hsub, bool_decide_eq_true_2, !Z.eqb_refl by done.
  cbn [andb negb].
  apply wp_bind. unfold iolink_master_isdu_finish_read.
  apply wp_bind, wp_get. cbv zeta. rewrite Herr, Z.eqb_refl. cbn [negb].
  rewrite Hlen, (proj2 (Z.ltb_ge _ _)) by done.
  apply wp_bind.
  eapply (wp_mono _ (fun d p' => d = payload ++ drop (length payload) data ∧ p' = p)).
  { apply wp_if; intros Hz; norm_bool.
    - eapply wp_mem; [|done]. rewrite memcpy_prefix; [|lia..|].
      + unfold zlen. by rewrite Nat2Z.id, Htake.
      + destruct Hwf. lia.
    - apply wp_ret. by rewrite (nil_zlen payload) by done. }
  intros d p' [-> ->]. apply wp_bind, wp_zoom, clear_ok; [done|].
  intros isdu Hwf' Hop' Hdone' _ _. unfold iolink_master_service_result.
  wp_steps; [|done]. rewrite u8_small by (unfold is_u8; lia).
  split; [done|]. split; [|done]. split; [|done]. split; [done|by left].
Qed.
End service_lemmas.

Lemma send_frames_keeps `{Iolinki} n od_len : keeps isdu_id (isdu_send_frames n od_len).
Proof. induction n; cbn [isdu_send_frames]; unfold isdu_send_frame; keeps_auto. Qed.

Lemma read_frames_keeps `{Iolinki} replies : keeps isdu_id (isdu_read_frames replies).
Proof. induction replies; cbn [isdu_read_frames]; unfold isdu_read_frame; keeps_auto. Qed.

Section segmented.
Context {IO : Iolinki} {laws : IolinkiLaws IO}.
Implicit Types s : iolink_master_isdu_state_t.

Lemma request_segmented s op index subindex request od_len :
  request_ready s op index subindex request → request ≠ [] →
  1 ≤ od_len ≤ IOLINK_ISDU_BUFFER_SIZE →
  let n := (zlen request + od_len - 1) / od_len in
  wp (isdu_send_frames (Z.to_nat n) od_len) (fun frames s' =>
    represents s' Waiting ∧
    map fst frames = map (fun k => Some (false, flowctrl_of k)) (upto n) ∧
    concat (map snd frames) = request ++ zeros (n * od_len - zlen request)) s.
Proof.
  intros (Hwf & Hfl & Hph & _ & _ & _ & Hpos & Hf & Hp) Hne Hod n.
  assert (0 < zlen request) as Hlen by (destruct request; [done|]; pose proof (zlen_nonneg request); slia).
  assert (1 ≤ n ∧ (n - 1) * od_len < zlen request ≤ n * od_len) as [Hn Hb].
  { pose proof (Z.div_mod (zlen request + od_len - 1) od_len).
    pose proof (Z.mod_pos_bound (zlen request + od_len - 1) od_len). fold n in H. nia. }
  clearbody n. replace (Z.to_nat n) with (S (Z.to_nat (n - 1))) by lia.
  eapply wp_mono; [apply (send_frames_ok (Z.to_nat (n - 1)) 0); try done; rewrite ?Hp|].
  - nia.
  - intros frames s' (Hs & Hfst & Hsnd). split; [done|].
    replace (Z.of_nat (S (Z.to_nat (n - 1)))) with n in * by lia.
    rewrite Hfst, Hsnd, Hp. split; [|done]. apply map_ext. intros k. done.
Qed.

Lemma response_reassembled s busy r trailing replies :
  represents s Waiting → isdu_pdu r → Forall (fun b => b = 0 ∨ b = 1) busy →
  concat replies = busy ++ r ++ trailing → Forall (Forall is_u8) replies →
  Forall (fun od => zlen od ≤ IOLINK_ISDU_BUFFER_SIZE) replies →
  wp (isdu_read_frames replies)
    (fun _ s' => represents s' (Finished (isdu_decode r))) s.
Proof.
  intros Hs Hr Hb Hc Hu Hl. eapply wp_mono; [by apply read_frames_ok|].
  intros ? s'. by rewrite Hc, rx_fold_busy, rx_fold_pdu.
Qed.
End segmented.

(** ** Theorems *)

Section transport_claims.
Context {IO : Iolinki} {laws : IolinkiLaws IO}.
Implicit Types s : iolink_master_isdu_state_t.

(** C9: whatever octets a device returns and however the port interleaves its calls,
    the transport never accesses memory outside its buffers, and it stays in a state
    of its invariant: the cursors are inside the buffers, FlowCTRL is a FlowCTRL
    value, and a response in progress is shorter than its declared length. *)
Theorem isdu_transport_safe calls :
  Forall isdu_call_valid calls →
  wp (isdu_run calls) (fun _ s' => isdu_inv s') isdu_state_zero.
Proof. apply isdu_run_inv, isdu_zero_inv. Qed.

(** C14: the transport refines the abstract receiver: from a state that represents
    [x], the octets of a reply lead to a state that represents the fold of [rx_step]
    over them, for every division of the response into frames. *)
Theorem isdu_on_od_refines s x od od_len :
  represents s x → Forall is_u8 od → 0 ≤ od_len ≤ zlen od →
  wp (iolink_master_isdu_on_od PTR (Some od) od_len)
    (fun _ s' => represents s' (foldl rx_step x (take (Z.to_nat od_len) od))) s.
Proof. apply on_od_ok. Qed.

(** C25: an assembled request goes out in [ceil (length / od_len)] write M-sequences
    whose OD octets are the request, zero padded, under FlowCTRL START, 1, .., 15, 0,
    ..; then the transport waits for the response. *)
Theorem isdu_request_segmented s op index subindex request od_len :
  request_ready s op index subindex request → request ≠ [] →
  1 ≤ od_len ≤ IOLINK_ISDU_BUFFER_SIZE →
  let n := (zlen request + od_len - 1) / od_len in
  wp (isdu_send_frames (Z.to_nat n) od_len) (fun frames s' =>
    represents s' Waiting ∧
    map fst frames = map (fun k => Some (false, flowctrl_of k)) (upto n) ∧
    concat (map snd frames) = request ++ zeros (n * od_len - zlen request)) s.
Proof. apply request_segmented. Qed.

(** A device's response, preceded by any number of "busy" and "no service"
    octets and cut into read M-sequences of any widths, ends the service with the
    outcome its octets encode: the data of a positive response, the ErrorType of a
    negative one, an ABORT for a wrong CHKPDU. *)
Theorem isdu_response_reassembled s busy r trailing replies :
  represents s Waiting → isdu_pdu r → Forall (fun b => b = 0 ∨ b = 1) busy →
  concat replies = busy ++ r ++ trailing → Forall (Forall is_u8) replies →
  Forall (fun od => zlen od ≤ IOLINK_ISDU_BUFFER_SIZE) replies →
  wp (isdu_read_frames replies)
    (fun _ s' => represents s' (Finished (isdu_decode r))) s.
Proof. apply response_reassembled. Qed.
End transport_claims.

Section service_claims.
Context {IO : Iolinki} {laws : IolinkiLaws IO}.
Implicit Types p : iolink_master_port_state_t.

(** The octets of the read request for a parameter. *)
Definition read_request (index subindex : Z) : list Z :=
  isdu_encode (8 + zlen (index_octets index subindex)) (index_octets index subindex).

(** A read as the application and the port carry it out together: start it, send
    the request, take the replies, call again for the result. *)
Definition isdu_read_transaction (index subindex : Z) (data : list Z) (len od_len : Z)
    (replies : list (list Z))
    : M iolink_master_port_state_t
        (Z * list (option (bool * Z) * list Z) * (Z * option (list Z) * option Z)) :=
  let n := (zlen (read_request index subindex) + od_len - 1) / od_len in
  '(ret, _, _) ← iolink_master_read_isdu PTR index subindex (Some data) (Some len);
  frames ← zoom p_isdu (isdu_send_frames (Z.to_nat n) od_len);
  zoom p_isdu (isdu_read_frames replies);;
  result ← iolink_master_read_isdu PTR index subindex (Some data) (Some len);
  mret (ret, frames, result).

Lemma read_request_ne index subindex : read_request index subindex ≠ [].
Proof. unfold read_request, isdu_encode, isdu_header. by case_match. Qed.

(** C8: a read over the wire. The call starts the service and returns PENDING; the
    request octets go out in order; when the device returns a positive response with
    [payload], in any frames and after any busy octets, the next call returns OK with
    exactly that data and the transport is free again. *)
Theorem read_isdu_end_to_end p index subindex data len od_len service payload busy
    trailing replies :
  acyclic_state (p_state p) → isdu_free (p_isdu p) → is_u16 index → is_u8 subindex →
  1 ≤ od_len ≤ IOLINK_ISDU_BUFFER_SIZE →
  0 < service < 16 → service ≠ 4 → service ≠ 12 →
  zlen payload + 3 ≤ 238 → zlen payload + 3 ≤ IOLINK_ISDU_BUFFER_SIZE →
  Forall is_u8 payload → zlen payload ≤ len → len ≤ 255 → len ≤ zlen data →
  Forall (fun b => b = 0 ∨ b = 1) busy →
  concat replies = busy ++ isdu_encode service payload ++ trailing →
  Forall (Forall is_u8) replies →
  Forall (fun od => zlen od ≤ IOLINK_ISDU_BUFFER_SIZE) replies →
  wp (isdu_read_transaction index subindex data len od_len replies)
    (fun '(ret, frames, result) p' =>
      ret = IOLINK_MASTER_STATUS_PENDING ∧
      take (length (read_request index subindex)) (concat (map snd frames))
        = read_request index subindex ∧
      result = (IOLINK_MASTER_STATUS_OK, Some (payload ++ drop (length payload) data),
                Some (zlen payload)) ∧
      isdu_free (p_isdu p')) p.
Proof.
  intros Hst Hfree Hi Hsub Hod Hs H4 H12 Hfit HB Hpu Hpl Hl Hd Hb Hc Hru Hrl.
  apply wp_bind. eapply wp_mono; [by apply read_isdu_starts|].
  intros [[? ?] ?] p1 [[= -> -> ->] (isdu & -> & Hr)].
  fold (read_request index subindex) in Hr.
  apply wp_bind, wp_zoom. cbn [p_isdu set].
  eapply wp_mono.
  { apply (wp_keeps isdu_id); [|apply send_frames_keeps].
    apply (request_segmented _ _ _ _ _ _ Hr (read_request_ne index subindex) Hod). }
  intros frames isdu1 [(Hw & _ & Hsnd) Hid1].
  apply wp_bind, wp_zoom. cbn [p_isdu set].
  eapply wp_mono.
  { apply (wp_keeps isdu_id); [|apply read_frames_keeps].
    eapply (response_reassembled _ busy (isdu_encode service payload)); try done.
    by apply isdu_encode_pdu. }
  intros ? isdu2 [Hfin Hid2]. rewrite isdu_encode_decode in Hfin by done.
  destruct Hr as (_ & _ & _ & Hop & Hix & Hsb & _). unfold isdu_id in *.
  rewrite Hid1, Hop, Hix, Hsb in Hid2. injection Hid2 as Hop2 Hix2 Hsb2.
  apply wp_bind. eapply wp_mono; [apply read_isdu_finishes; (done || lia)|].
  intros result p' (-> & Hfree' & _). apply wp_ret. split_and!; try done.
  rewrite Hsnd. apply take_app_length.
Qed.

(** The ErrorType an outcome reports; 0 stands for success. *)
Definition outcome_error (o : isdu_outcome) : Z :=
  match o with
  | Payload _ => IOLINK_ISDU_ERROR_NONE
  | DeviceError code => code
  | Perturbed | Malformed => IOLINK_ISDU_ERROR_SEGMENTATION
  end.

Lemma outcome_error_ok s o : represents s (Finished o) → isdu_error s = outcome_error o.
Proof. intros (_ & _ & _ & _ & Ho). by destruct o; destruct Ho. Qed.

Lemma read_isdu_fails p index subindex data len o :
  acyclic_state (p_state p) → represents (p_isdu p) (Finished o) →
  outcome_error o ≠ IOLINK_ISDU_ERROR_NONE →
  isdu_op (p_isdu p) = IOLINK_MASTER_ISDU_OP_READ →
  isdu_index (p_isdu p) = index → isdu_subindex (p_isdu p) = subindex →
  wp (iolink_master_read_isdu PTR index subindex (Some data) (Some len)) (fun r p' =>
    r = (IOLINK_MASTER_ISDU_ERR_DEVICE, Some data, Some len) ∧
    diag_last_isdu_error (p_diagnostics p') = outcome_error o ∧
    diag_last_service_result (p_diagnostics p') = IOLINK_MASTER_ISDU_ERR_DEVICE ∧
    isdu_free (p_isdu p') ∧
    isdu_abort_pending (p_isdu p') = match o with Perturbed => true | _ => false end) p.
Proof.
  intros Hst Hr Ho Hrd Hi Hsub. pose proof (outcome_error_ok _ _ Hr) as He.
  destruct Hr as (Hwf & Hop & Hdone & _ & Hout).
  apply wp_bind, wp_get. rewrite acyclic_guard by done.
  unfold iolink_master_isdu_busy, iolink_master_isdu_matches.
  rewrite Hdone, andb_false_r, Hrd, Hi, Hsub, bool_decide_eq_true_2, !Z.eqb_refl by done.
  cbn [andb negb]. apply wp_bind. unfold iolink_master_isdu_finish_read.
  apply wp_bind, wp_get. cbv zeta. rewrite (proj2 (Z.eqb_neq _ _)) by congruence. cbn [negb].
  unfold iolink_master_isdu_finish_error.
  apply wp_bind, wp_bind, wp_get, wp_bind, wp_zoom, wp_assign, wp_bind, wp_zoom, wp_bind.
  apply clear_ok; [done|]. intros isdu Hwf' Hop' Hdone' _ _.
  apply wp_assign. unfold iolink_master_service_result. wp_steps; [|done].
  cbn. split_and!; try done.
  - split; [split; [by destruct isdu, Hwf'|by left]|done].
  - destruct o; cbn in Ho, Hout; intuition congruence.
Qed.

(** C26: a failed read. A negative response, a perturbed or a malformed one makes the
    next call return ERR_DEVICE, records the ErrorType in the diagnostics, frees the
    transport, and leaves an ABORT to be sent exactly when CHKPDU was wrong; the
    caller's buffer and length are untouched. The code sends the ABORT for a wrong CHKPDU
    alone; the plan of the wire master wants it on any error and the comments of the sender
    on every transport error. *)
Theorem read_isdu_reports_error p index subindex data len o :
  acyclic_state (p_state p) → represents (p_isdu p) (Finished o) →
  outcome_error o ≠ IOLINK_ISDU_ERROR_NONE →
  isdu_op (p_isdu p) = IOLINK_MASTER_ISDU_OP_READ →
  isdu_index (p_isdu p) = index → isdu_subindex (p_isdu p) = subindex →
  wp (iolink_master_read_isdu PTR index subindex (Some data) (Some len)) (fun r p' =>
    r = (IOLINK_MASTER_ISDU_ERR_DEVICE, Some data, Some len) ∧
    diag_last_isdu_error (p_diagnostics p') = outcome_error o ∧
    diag_last_service_result (p_diagnostics p') = IOLINK_MASTER_ISDU_ERR_DEVICE ∧
    isdu_op (p_isdu p') = IOLINK_MASTER_ISDU_OP_NONE ∧ isdu_done (p_isdu p') = false ∧
    isdu_abort_pending (p_isdu p') = match o with Perturbed => true | _ => false end) p.
Proof.
  intros. eapply wp_mono; [by apply (read_isdu_fails p index subindex data len o)|].
  intros r p' (-> & ? & ? & (_ & ? & ?) & ?). by split_and!.
Qed.

Definition write_request (index subindex : Z) (data : list Z) : list Z :=
  isdu_encode (zlen (index_octets index subindex)) (index_octets index subindex ++ data).

(** The payload lengths [iolink_master_write_isdu] accepts, for [n] octets of header,
    index, data and CHKPDU without ExtLength. *)
Definition write_accepts (len n : Z) : Prop :=
  len ≤ u8 (IOLINK_ISDU_BUFFER_SIZE - 7) ∧ (n ≤ 15 ∨ 17 ≤ n ≤ 237).

Lemma write_too_long_spec len n :
  iolink_master_isdu_write_too_long len n = false ↔ write_accepts len n.
Proof.
  unfold iolink_master_isdu_write_too_long, write_accepts, IOLINK_MASTER_ISDU_EXT_MAX,
    IOLINK_MASTER_ISDU_WRITE_HEADER_MAX.
  rewrite !orb_false_iff, !Z.ltb_ge, Z.eqb_neq. destruct (Z.ltb_spec 15 n); lia.
Qed.

Lemma write_starts p index subindex data len :
  acyclic_state (p_state p) → isdu_free (p_isdu p) → is_u16 index → is_u8 subindex →
  Forall is_u8 data → 0 ≤ len ≤ 255 → len ≤ zlen data →
  let n := zlen (index_octets index subindex) + len + 2 in
  wp (iolink_master_write_isdu PTR index subindex (Some data) len) (fun r p' =>
    (write_accepts len n ∧ r = IOLINK_MASTER_STATUS_PENDING ∧
     ∃ isdu, p' = p <| p_isdu := isdu |> ∧
       request_ready isdu IOLINK_MASTER_ISDU_OP_WRITE index subindex
         (write_request index subindex (take (Z.to_nat len) data))) ∨
    (¬ write_accepts len n ∧ r = IOLINK_MASTER_ISDU_ERR_BUFFER_TOO_SMALL ∧ p' = p)) p.
Proof.
  intros Hst Hfree Hi Hsub Hu Hl Hd. cbv zeta.
  destruct (index_len_octets index subindex Hi Hsub) as (Hlen & Hr & _).
  apply wp_bind, wp_get.
  rewrite acyclic_guard, free_not_busy by done. destruct Hfree as (Hinv & _ & ->). cbv zeta.
  rewrite Hlen. unfold IOLINK_MASTER_ISDU_CHKPDU_LEN. rewrite u16_small by (unfold is_u16; lia).
  replace (1 + zlen (index_octets index subindex) + len + 1)
    with (zlen (index_octets index subindex) + len + 2) by lia.
  apply wp_if; intros Hg.
  - apply wp_ret. right. split; [|done]. intros Ha%write_too_long_spec. congruence.
  - apply write_too_long_spec in Hg as Ha. apply wp_bind, wp_zoom.
    replace (zlen (index_octets index subindex) + len + 2) with
      (zlen (index_octets index subindex ++ take (Z.to_nat len) data) + 2) in * by slia.
    eapply wp_mono; [apply build_write_ok; [apply Hinv|done|done|done|lia|exact Hg]|].
    intros ? isdu Hready. apply wp_ret. left. eauto.
Qed.

(** Starting a write. With the transport free, an accepted length assembles the
    request octets of Annex A.5 and returns PENDING; any other length returns
    BUFFER_TOO_SMALL and changes nothing. *)
Theorem write_isdu_starts p index subindex data len :
  acyclic_state (p_state p) → isdu_free (p_isdu p) → is_u16 index → is_u8 subindex →
  Forall is_u8 data → 0 ≤ len ≤ 255 → len ≤ zlen data →
  let n := zlen (index_octets index subindex) + len + 2 in
  wp (iolink_master_write_isdu PTR index subindex (Some data) len) (fun r p' =>
    (write_accepts len n ∧ r = IOLINK_MASTER_STATUS_PENDING ∧
     ∃ isdu, p' = p <| p_isdu := isdu |> ∧
       request_ready isdu IOLINK_MASTER_ISDU_OP_WRITE index subindex
         (write_request index subindex (take (Z.to_nat len) data))) ∨
    (¬ write_accepts len n ∧ r = IOLINK_MASTER_ISDU_ERR_BUFFER_TOO_SMALL ∧ p' = p)) p.
Proof. apply write_starts. Qed.

(** C38: a write whose request would take ExtLength 17, the smallest value A.5.3
    allows, is refused as too long, although its octets are a complete ISDU stream:
    payloads of 13, 12 or 11 octets, by index format, cannot be written. *)
Theorem write_isdu_refuses_extlength_17 p index subindex data len :
  acyclic_state (p_state p) → isdu_free (p_isdu p) → is_u16 index → is_u8 subindex →
  Forall is_u8 data → len = zlen data →
  zlen (index_octets index subindex) + len + 2 = 16 →
  (isdu_pdu (write_request index subindex data) ∧ zlen (write_request index subindex data) = 17) ∧
  wp (iolink_master_write_isdu PTR index subindex (Some data) len) (fun r p' =>
    r = IOLINK_MASTER_ISDU_ERR_BUFFER_TOO_SMALL ∧ p' = p) p.
Proof.
  intros Hst Hfree Hi Hsub Hu -> Hn. pose proof law_isdu_buffer.
  destruct (index_len_octets index subindex Hi Hsub) as (_ & Hr & Hiu).
  pose proof (zlen_nonneg data). split; [split|].
  - apply isdu_encode_pdu; unfold isdu_body_fits; try lia; [slia| |slia].
    by apply Forall_app.
  - unfold write_request, isdu_encode. cbv zeta.
    rewrite !zlen_app, zlen_isdu_header, zlen_cons, zlen_nil.
    rewrite (proj2 (Z.leb_gt _ _)) by lia. lia.
  - eapply wp_mono; [apply write_starts; done || lia|].
    intros r p' [([_ Ha] & _)|(_ & Hres)]; [lia|done].
Qed.
End service_claims.

(** ** Witnesses *)

Lemma isdu_zero_free `{laws : IolinkiLaws} : isdu_free isdu_state_zero.
Proof. split; [apply isdu_zero_inv|done]. Qed.


(** The device answers "no service", "busy", then a positive response with two octets,
    in frames of two OD octets. *)
Definition wit_replies : list (list Z) := [[0; 0]; [1; 0]; [0xD4; 65]; [66; 0xD7]].

Lemma read_isdu_end_to_end_witness :
  wp (isdu_read_transaction 0x10 0 (zeros 8) 8 2 wit_replies)
    (fun '(ret, frames, result) p' =>
      ret = IOLINK_MASTER_STATUS_PENDING ∧
      take (length (read_request 0x10 0)) (concat (map snd frames)) = read_request 0x10 0 ∧
      result = (IOLINK_MASTER_STATUS_OK, Some ([65; 66] ++ drop (length [65; 66]) (zeros 8)),
                Some (zlen [65; 66])) ∧
      isdu_free (p_isdu p')) (fix_port [] IOLINK_MASTER_STATE_OPERATE).
Proof.
  apply (read_isdu_end_to_end _ 0x10 0 (zeros 8) 8 2 13 [65; 66] [0; 0; 1; 0] []);
    try apply isdu_zero_free; try (by left); try lia; try decide_here; try (vm_compute; done).
Defined.

Lemma isdu_transport_safe_witness :
  wp (isdu_run [CallRead 0x10 0; CallFill 2; CallOd [0xFF; 0x03]; CallTakeAbort])
    (fun _ s' => isdu_inv s') isdu_state_zero.
Proof.
  apply (isdu_transport_safe [CallRead 0x10 0; CallFill 2; CallOd [0xFF; 0x03]; CallTakeAbort]).
  repeat constructor; done.
Defined.

(** A transport that waits for a response. *)
Definition wit_waiting : iolink_master_isdu_state_t :=
  started isdu_state_zero IOLINK_MASTER_ISDU_OP_READ 0x10 0
    <| isdu_phase := IOLINK_MASTER_ISDU_PHASE_WAIT |>.

Lemma wit_waiting_represents : represents wit_waiting Waiting.
Proof.
  assert (wf_isdu (started isdu_state_zero IOLINK_MASTER_ISDU_OP_READ 0x10 0)) as []
    by (apply started_wf; [apply isdu_zero_inv|done..]).
  split; [by split|]. by repeat split.
Qed.

Lemma isdu_on_od_refines_witness :
  wp (iolink_master_isdu_on_od PTR (Some [0xD4; 65]) 2)
    (fun _ s' => represents s' (foldl rx_step Waiting (take (Z.to_nat 2) [0xD4; 65]))) wit_waiting.
Proof.
  apply (isdu_on_od_refines wit_waiting Waiting [0xD4; 65] 2);
    [exact wit_waiting_represents|decide_here|vm_compute; split; discriminate].
Defined.

Lemma isdu_response_reassembled_witness :
  wp (isdu_read_frames wit_replies)
    (fun _ s' => represents s' (Finished (isdu_decode (isdu_encode 13 [65; 66])))) wit_waiting.
Proof.
  apply (isdu_response_reassembled wit_waiting [0; 0; 1; 0] (isdu_encode 13 [65; 66]) [] wit_replies);
    [exact wit_waiting_represents| |decide_here|reflexivity|decide_here|decide_here].
  split; [vm_compute; discriminate|]. split; [|reflexivity].
  exists 0xD4, [65; 66; 0xD7]. repeat split; discriminate.
Defined.

(** A read request that is ready to be sent. *)
Definition wit_ready : iolink_master_isdu_state_t :=
  final (iolink_master_isdu_build_read 0x10 0) isdu_state_zero.

Lemma wit_ready_ok :
  request_ready wit_ready IOLINK_MASTER_ISDU_OP_READ 0x10 0
    (isdu_encode (8 + zlen (index_octets 0x10 0)) (index_octets 0x10 0)).
Proof.
  unfold wit_ready. pattern (final (iolink_master_isdu_build_read 0x10 0) isdu_state_zero).
  apply wp_final, build_read_ok; [apply isdu_zero_inv|done..].
Qed.

Lemma isdu_request_segmented_witness :
  let request := [0x93; 0x10; 0x83] in
  let n := (zlen request + 2 - 1) / 2 in
  wp (isdu_send_frames (Z.to_nat n) 2) (fun frames s' =>
    represents s' Waiting ∧
    map fst frames = map (fun k => Some (false, flowctrl_of k)) (upto n) ∧
    concat (map snd frames) = request ++ zeros (n * 2 - zlen request)) wit_ready.
Proof.
  apply (isdu_request_segmented wit_ready IOLINK_MASTER_ISDU_OP_READ 0x10 0 [0x93; 0x10; 0x83] 2);
    [exact wit_ready_ok|discriminate|vm_compute; split; discriminate].
Defined.

(** A port whose read has ended with the outcome [o] of the octets [r]. *)
Definition wit_finished (replies : list (list Z)) : iolink_master_port_state_t :=
  fix_port [] IOLINK_MASTER_STATE_OPERATE
    <| p_isdu := final (isdu_read_frames replies) wit_waiting |>.

Lemma wit_finished_ok replies r trailing busy :
  isdu_pdu r → Forall (fun b => b = 0 ∨ b = 1) busy →
  concat replies = busy ++ r ++ trailing → Forall (Forall is_u8) replies →
  Forall (fun od => zlen od ≤ IOLINK_ISDU_BUFFER_SIZE) replies →
  represents (p_isdu (wit_finished replies)) (Finished (isdu_decode r)).
Proof.
  intros Hr Hb Hc Hu Hl.
  change (p_isdu (wit_finished replies)) with (final (isdu_read_frames replies) wit_waiting).
  pattern (final (isdu_read_frames replies) wit_waiting).
  apply wp_final. by apply (response_reassembled _ busy _ trailing _ wit_waiting_represents).
Qed.

(** A negative response with ErrorType 0x8011. *)
Definition wit_negative : list (list Z) := [[0xC4; 0x80]; [0x11; 0x55]].

Lemma read_isdu_reports_error_witness :
  wp (iolink_master_read_isdu PTR 0x10 0 (Some (zeros 8)) (Some 8)) (fun r p' =>
    r = (IOLINK_MASTER_ISDU_ERR_DEVICE, Some (zeros 8), Some 8) ∧
    diag_last_isdu_error (p_diagnostics p') = outcome_error (DeviceError 0x8011) ∧
    diag_last_service_result (p_diagnostics p') = IOLINK_MASTER_ISDU_ERR_DEVICE ∧
    isdu_op (p_isdu p') = IOLINK_MASTER_ISDU_OP_NONE ∧ isdu_done (p_isdu p') = false ∧
    isdu_abort_pending (p_isdu p') = false) (wit_finished wit_negative).
Proof.
  apply (read_isdu_reports_error (wit_finished wit_negative) 0x10 0 (zeros 8) 8
           (DeviceError 0x8011)); [by left| |discriminate|reflexivity..].
  apply (wit_finished_ok _ [0xC4; 0x80; 0x11; 0x55] [] []); try decide_here.
  split; [vm_compute; discriminate|]. split; [|reflexivity].
  exists 0xC4, [0x80; 0x11; 0x55]. repeat split; discriminate.
Defined.

Lemma write_isdu_starts_witness :
  let n := zlen (index_octets 0x18 0) + 3 + 2 in
  wp (iolink_master_write_isdu PTR 0x18 0 (Some [1; 2; 3]) 3) (fun r p' =>
    (write_accepts 3 n ∧ r = IOLINK_MASTER_STATUS_PENDING ∧
     ∃ isdu, p' = fix_port [] IOLINK_MASTER_STATE_OPERATE <| p_isdu := isdu |> ∧
       request_ready isdu IOLINK_MASTER_ISDU_OP_WRITE 0x18 0
         (write_request 0x18 0 (take (Z.to_nat 3) [1; 2; 3]))) ∨
    (¬ write_accepts 3 n ∧ r = IOLINK_MASTER_ISDU_ERR_BUFFER_TOO_SMALL ∧
     p' = fix_port [] IOLINK_MASTER_STATE_OPERATE)) (fix_port [] IOLINK_MASTER_STATE_OPERATE).
Proof.
  apply (write_isdu_starts (fix_port [] IOLINK_MASTER_STATE_OPERATE) 0x18 0 [1; 2; 3] 3);
    [by left|exact isdu_zero_free|decide_here..].
Defined.

Lemma write_isdu_refuses_extlength_17_witness :
  (isdu_pdu (write_request 0x18 0 (zeros 13)) ∧ zlen (write_request 0x18 0 (zeros 13)) = 17) ∧
  wp (iolink_master_write_isdu PTR 0x18 0 (Some (zeros 13)) 13) (fun r p' =>
    r = IOLINK_MASTER_ISDU_ERR_BUFFER_TOO_SMALL ∧
    p' = fix_port [] IOLINK_MASTER_STATE_OPERATE) (fix_port [] IOLINK_MASTER_STATE_OPERATE).
Proof.
  apply (write_isdu_refuses_extlength_17 (fix_port [] IOLINK_MASTER_STATE_OPERATE)
           0x18 0 (zeros 13) 13);
    [by left|exact isdu_zero_free|decide_here|decide_here|decide_here|reflexivity..].
Defined.

(** A device that answers a read with a negative response whose ErrorType is
    0x0000 is taken for a success: the call returns OK and hands the application the
    four octets of the error response as parameter data. *)
Theorem negative_response_zero_error_is_success :
  wp (isdu_read_transaction 0x10 0 (zeros 8) 8 2 [[0xC4; 0]; [0; 0xC4]])
    (fun '(_, _, result) _ =>
      result = (IOLINK_MASTER_STATUS_OK, Some [0xC4; 0; 0; 0xC4; 0; 0; 0; 0], Some 4))
    (fix_port [] IOLINK_MASTER_STATE_OPERATE).
Proof. vm_compute. reflexivity. Qed.

(** ** FlowCTRL while the response is read *)

Section polling.
Context {IO : Iolinki} {laws : IolinkiLaws IO}.
Implicit Types s : iolink_master_isdu_state_t.

(** The direction and FlowCTRL of the next M-sequence. *)
Definition poll_access (x : isdu_rx) (count : Z) : option (bool * Z) :=
  match x with
  | Waiting => Some (true, IOLINK_FLOWCTRL_START)
  | Collecting _ => Some (true, count)
  | Finished (Payload _) | Finished (DeviceError _) => Some (true, IOLINK_FLOWCTRL_IDLE)
  | Finished _ => None
  end.

(** START until the response starts, then COUNT 1, 2, .., 15, 0, .., then IDLE. *)
Fixpoint poll_trace (x : isdu_rx) (count : Z) (replies : list (list Z))
    : list (option (bool * Z)) :=
  match replies with
  | [] => [poll_access x count]
  | od :: replies =>
      poll_access x count ::
      poll_trace (foldl rx_step x od)
        (match x with Waiting => 1 | _ => (count + 1) mod 16 end) replies
  end.

(** The read M-sequences with the access each one makes, and the access after them. *)
Fixpoint isdu_poll_frames (replies : list (list Z))
    : M iolink_master_isdu_state_t (list (option (bool * Z))) :=
  access ← gets (fun isdu => iolink_master_isdu_channel_access (Some isdu));
  match replies with
  | [] => mret [access]
  | od :: replies =>
      isdu_read_frame od;;
      rest ← isdu_poll_frames replies;
      mret (access :: rest)
  end.

Definition counts s (x : isdu_rx) (count : Z) : Prop :=
  represents s x ∧
  match x with
  | Waiting => isdu_flowctrl s = IOLINK_FLOWCTRL_START
  | Collecting _ => isdu_flowctrl s = count ∧ 0 ≤ count < 16
  | Finished _ => True
  end.

Lemma collect_keeps_flowctrl byte : keeps isdu_flowctrl (iolink_master_isdu_collect byte).
Proof. keeps_deep. Qed.

Lemma on_octet_flowctrl byte s stop s' :
  iolink_master_isdu_on_octet byte s = Ok stop s' →
  isdu_flowctrl s' =
    if (isdu_phase s =e IOLINK_MASTER_ISDU_PHASE_WAIT) && negb ((byte =? 0) || (byte =? 1))
    then 1 else isdu_flowctrl s.
Proof.
  unfold iolink_master_isdu_on_octet, mbind at 1, M_bind at 1, get.
  destruct (bool_decide _); cbn [andb]; [destruct ((byte =? 0) || (byte =? 1)); cbn [negb]|].
  - by intros [= _ <-].
  - unfold mbind at 1, M_bind at 1. cbn. intros H. by apply collect_keeps_flowctrl in H.
  - unfold mbind at 1, M_bind at 1. cbn. intros H. by apply collect_keeps_flowctrl in H.
Qed.

(** The effect of the octets of a reply on FlowCTRL. *)
Definition flow_after (x x' : isdu_rx) (flowctrl : Z) : Z :=
  match x, x' with
  | Waiting, Waiting => flowctrl
  | Waiting, _ => 1
  | _, _ => flowctrl
  end.

Lemma rx_step_started x byte : x ≠ Waiting → rx_step x byte ≠ Waiting.
Proof. destruct x; [done| |done]. intros _. cbn. unfold rx_collect. by repeat case_match. Qed.

Lemma rx_fold_started l x : x ≠ Waiting → foldl rx_step x l ≠ Waiting.
Proof. revert x. induction l; [done|]. intros. by apply IHl, rx_step_started. Qed.

Lemma octet_loop_flowctrl s x l :
  represents s x → finished x = false → Forall is_u8 l →
  wp (for_loop l iolink_master_isdu_on_octet) (fun _ s' =>
    represents s' (foldl rx_step x l) ∧
    isdu_flowctrl s' = flow_after x (foldl rx_step x l) (isdu_flowctrl s)) s.
Proof.
  revert s x. induction l as [|byte l IH]; intros s x Hx Hf Hl.
  { apply wp_ret. split; [done|]. by destruct x. }
  inversion_clear Hl. apply wp_bind. eapply wp_mono.
  { apply (wp_partial _ _ (fun _ s' => isdu_flowctrl s' =
      if (isdu_phase s =e IOLINK_MASTER_ISDU_PHASE_WAIT) && negb ((byte =? 0) || (byte =? 1))
      then 1 else isdu_flowctrl s) _ (on_octet_ok s x byte Hx Hf ltac:(done))).
    intros stop s' Hok. exact (on_octet_flowctrl _ _ _ _ Hok). }
  intros stop s' [[Hs ->] Hflow]. cbn [foldl].
  assert (isdu_flowctrl s' = flow_after x (rx_step x byte) (isdu_flowctrl s)) as Hstep.
  { rewrite Hflow. destruct x as [|r|o]; [| |done].
    - destruct Hx as (_ & _ & ->). rewrite bool_decide_eq_true_2 by done. cbn [andb rx_step].
      destruct (_ || _); cbn [negb flow_after]; [done|]. unfold rx_collect. by repeat case_match.
    - by destruct Hx as (_ & _ & -> & _). }
  destruct (finished (rx_step x byte)) eqn:Hfin.
  - apply wp_ret. destruct (rx_step x byte) eqn:Hx'; try done. rewrite rx_fold_finished.
    split; [done|]. by destruct x.
  - eapply wp_mono; [by apply IH|]. intros ? s2 [Hs2 Hf2]. split; [done|].
    rewrite Hf2, Hstep. destruct x as [|r|o]; [| |done].
    + destruct (rx_step Waiting byte) as [|r|o]; [done| |done].
      assert (Collecting r ≠ Waiting) as Hc by done.
      pose proof (rx_fold_started l _ Hc). by destruct (foldl rx_step (Collecting r) l).
    + assert (Collecting r ≠ Waiting) as Hc by done.
      pose proof (rx_step_started _ byte Hc) as Hne.
      by destruct (rx_step (Collecting r) byte).
Qed.

Lemma read_frame_counts s x count od :
  counts s x count → Forall is_u8 od → zlen od ≤ IOLINK_ISDU_BUFFER_SIZE →
  wp (isdu_read_frame od) (fun _ s' =>
    counts s' (foldl rx_step x od) (match x with Waiting => 1 | _ => (count + 1) mod 16 end)) s.
Proof.
  intros [Hx Hc] Hu Hl. pose proof (zlen_nonneg od). pose proof law_start as HS.
  pose proof law_idle as HI. apply wp_bind.
  assert (wp (iolink_master_isdu_fill_od PTR (Some (zeros IOLINK_ISDU_BUFFER_SIZE)) (zlen od))
    (fun _ s' => represents s' x ∧ match x with
      | Waiting => isdu_flowctrl s' = IOLINK_FLOWCTRL_START
      | Collecting _ => isdu_flowctrl s' = (count + 1) mod 16
      | Finished _ => True end) s) as Hfill.
  { eapply wp_mono.
    { apply fill_od_poll; [|rewrite zlen_zeros; lia]. right. destruct Hx as [_ Hx].
      destruct x; [destruct Hx as [_ ->]|destruct Hx as (_ & -> & _)|
        destruct Hx as (_ & _ & -> & _)]; done. }
    intros r s' [_ ->]. pose proof (poll_flowctrl_range s (wf_flowctrl s (proj1 Hx))).
    split; [by apply flowctrl_represents|]. destruct x as [|r'|o]; [| |done]; cbn.
    - destruct Hx as (_ & (Hop & _) & Hph). unfold poll_flowctrl.
      by rewrite Hph, bool_decide_eq_false_2 by done.
    - destruct Hx as (_ & (Hop & _) & Hph & _). destruct Hc as [Hc Hr]. unfold poll_flowctrl.
      rewrite Hph, bool_decide_eq_false_2, Hc, HS, HI by done.
      rewrite (proj2 (Z.eqb_neq count 0x10)), (proj2 (Z.eqb_neq count 0x11)) by lia.
      apply next_count_range. lia. }
  eapply wp_mono; [exact Hfill|]. clear Hfill Hx Hc. intros ? s1 [Hx Hc].
  apply wp_bind, wp_get. destruct (finished x) eqn:Hf.
  - destruct x as [|r|o]; [done|done|]. rewrite rx_fold_finished.
    pose proof Hx as (_ & _ & Hd & _). rewrite Hd, orb_true_r. by apply wp_ret.
  - apply wp_if; intros Hg.
    { exfalso. revert Hg. destruct x; try done; destruct Hx as (_ & (? & -> & _) & Hrest);
        [rewrite Hrest|destruct Hrest as [-> _]]; rewrite !bool_decide_eq_false_2 by done; done. }
    unfold wp. rewrite for_loop_rd by lia.
    replace (take (Z.to_nat (zlen od)) od) with od by (unfold zlen; rewrite Nat2Z.id, take_ge; done).
    eapply wp_mono; [by apply octet_loop_flowctrl|]. intros ? s2 [Hs Hflow].
    split; [done|]. rewrite Hflow. destruct x as [|r|o]; [| |done].
    + destruct (foldl rx_step Waiting od); cbn [flow_after]; [done|lia|done].
    + assert (Collecting r ≠ Waiting) as Hne by done.
      pose proof (rx_fold_started od _ Hne). pose proof (Z.mod_pos_bound (count + 1) 16).
      destruct (foldl rx_step (Collecting r) od); cbn [flow_after]; [done|lia|done].
Qed.

Lemma poll_access_ok s x count : counts s x count →
  iolink_master_isdu_channel_access (Some s) = poll_access x count.
Proof.
  intros [Hx Hc]. unfold iolink_master_isdu_channel_access.
  destruct x as [|r|o].
  - destruct Hx as (_ & (Hop & Hdone & _) & Hph).
    by rewrite Hdone, Hph, Hc, bool_decide_eq_false_2 by done.
  - destruct Hx as (_ & (Hop & Hdone & _) & Hph & _). destruct Hc as [Hc _].
    by rewrite Hdone, Hph, Hc, bool_decide_eq_false_2 by done.
  - destruct Hx as (_ & Hop & Hdone & _ & Ho). rewrite Hdone, bool_decide_eq_false_2 by done.
    destruct o; destruct Ho as (_ & Hi & _); rewrite Hi; done.
Qed.

Lemma poll_frames_ok s x count replies :
  counts s x count → Forall (Forall is_u8) replies →
  Forall (fun od => zlen od ≤ IOLINK_ISDU_BUFFER_SIZE) replies →
  wp (isdu_poll_frames replies) (fun trace s' =>
    trace = poll_trace x count replies ∧
    represents s' (foldl rx_step x (concat replies))) s.
Proof.
  intros Hc Hu Hl. revert s x count Hc.
  induction replies as [|od replies IH]; intros s x count Hc;
    apply wp_bind, wp_gets; rewrite (poll_access_ok _ _ _ Hc).
  - apply wp_ret. split; [done|exact (proj1 Hc)].
  - inversion_clear Hu. inversion_clear Hl.
    apply wp_bind. eapply wp_mono; [by apply read_frame_counts|]. intros ? s1 Hc1.
    apply wp_bind. eapply wp_mono; [eapply IH; [done|done|exact Hc1]|]. intros trace s2 [-> Hs2].
    apply wp_ret. split; [done|]. cbn [concat]. by rewrite foldl_app.
Qed.

(** While it waits the transport polls with FlowCTRL START; from the first frame
    after the response has started it reads with COUNT 1, 2, .., 15, 0, .., so no
    segment is fetched twice or skipped; a decoded response is concluded with IDLE. *)
Theorem isdu_polling_flowctrl s replies :
  represents s Waiting → isdu_flowctrl s = IOLINK_FLOWCTRL_START →
  Forall (Forall is_u8) replies →
  Forall (fun od => zlen od ≤ IOLINK_ISDU_BUFFER_SIZE) replies →
  wp (isdu_poll_frames replies) (fun trace s' =>
    trace = poll_trace Waiting 0 replies ∧
    represents s' (foldl rx_step Waiting (concat replies))) s.
Proof.
  intros. by apply poll_frames_ok.
Qed.
End polling.

Lemma isdu_polling_flowctrl_witness :
  wp (isdu_poll_frames wit_replies) (fun trace s' =>
    trace = poll_trace Waiting 0 wit_replies ∧
    represents s' (foldl rx_step Waiting (concat wit_replies))) wit_waiting.
Proof.
  apply (isdu_polling_flowctrl wit_waiting wit_replies);
    [exact wit_waiting_represents|reflexivity|decide_here|decide_here].
Defined.

(** On these replies the port polls twice with START, reads with COUNT 1 and ends with
    IDLE. *)
Example wit_poll_trace :
  poll_trace Waiting 0 wit_replies =
    [Some (true, 0x10); Some (true, 0x10); Some (true, 0x10); Some (true, 1); Some (true, 0x11)].
Proof. reflexivity. Qed.
