(* ===== verification/Services.v ===== *)
(** * Services on top of the ISDU transport ([src/master_isdu.c])

    Device identification, Data Storage images, verification by readback, the
    SystemCommand services and the parameter block download. *)

From S2P Require Import Prelude Iolinki Reference Types Fixtures Parameters Isdu.

(** [memcmp(&a[aoff], &b[boff], n) == 0] *)
Definition memcmp_eq (a : list Z) (aoff : Z) (b : list Z) (boff n : Z) : option bool :=
  x ← slice a aoff n;
  y ← slice b boff n;
  Some (octets_eqb x y).

(** ** Data Storage images

    The parsers touch no state; a [while] loop takes the fuel [len], which is
    enough because every record has at least four octets. *)

Section data_storage.
Context {St : Type}.

(** [Some (record, record_len, pos)] when the C function returns [true]: the offset
    and length of the record and the advanced cursor. *)
Definition iolink_master_ds_next_record (data : option (list Z)) (len pos : Z)
    : M St (option (Z * Z * Z)) :=
  match data with
  | None => mret None
  | Some data =>
    if (len <? pos) || (u8 (len - pos) <? IOLINK_MASTER_DS_RECORD_HEADER_LEN)
    then mret None
    else
      value_len ← mem (rd data (u8 (pos + (IOLINK_MASTER_DS_RECORD_HEADER_LEN - 1))));
      if u8 (len - pos - IOLINK_MASTER_DS_RECORD_HEADER_LEN) <? value_len
      then mret None
      else
        let record_len := u8 (IOLINK_MASTER_DS_RECORD_HEADER_LEN + value_len) in
        mret (Some (pos, record_len, u8 (pos + record_len)))
  end.

(** The inner loop of [contains_records]: [Some found], or [None] when a record of
    the actual image is malformed. *)
Fixpoint iolink_master_ds_find_record (fuel : nat) (actual : option (list Z))
    (actual_len actual_pos : Z) (expected : list Z) (record record_len : Z)
    : M St (option bool) :=
  if actual_pos <? actual_len then
    match fuel with
    | O => nofuel
    | S fuel =>
      next ← iolink_master_ds_next_record actual actual_len actual_pos;
      match next with
      | None => mret None
      | Some (actual_record, actual_record_len, actual_pos) =>
          same ← (if actual_record_len =? record_len
                  then mem (memcmp_eq (default [] actual) actual_record
                                      expected record record_len)
                  else mret false);
          if (same : bool) then mret (Some true)
          else iolink_master_ds_find_record fuel actual actual_len actual_pos
                 expected record record_len
      end
    end
  else mret (Some false).

Fixpoint iolink_master_ds_contains_loop (fuel : nat) (actual : option (list Z))
    (actual_len : Z) (expected : option (list Z)) (expected_len expected_pos : Z)
    : M St bool :=
  if expected_pos <? expected_len then
    match fuel with
    | O => nofuel
    | S fuel =>
      next ← iolink_master_ds_next_record expected expected_len expected_pos;
      match next with
      | None => mret false
      | Some (record, record_len, expected_pos) =>
          found ← iolink_master_ds_find_record (Z.to_nat actual_len) actual actual_len 0
                    (default [] expected) record record_len;
          match found with
          | Some true =>
              iolink_master_ds_contains_loop fuel actual actual_len expected
                expected_len expected_pos
          | _ => mret false
          end
      end
    end
  else mret true.

Definition iolink_master_ds_image_contains_records (actual : option (list Z))
    (actual_len : Z) (expected : option (list Z)) (expected_len : Z) : M St bool :=
  if null expected && (0 <? expected_len) then mret false
  else iolink_master_ds_contains_loop (Z.to_nat expected_len) actual actual_len
         expected expected_len 0.

Fixpoint iolink_master_ds_valid_loop (fuel : nat) (data : option (list Z)) (len pos : Z)
    : M St bool :=
  if pos <? len then
    match fuel with
    | O => nofuel
    | S fuel =>
      next ← iolink_master_ds_next_record data len pos;
      match next with
      | None => mret false
      | Some (_, _, pos) => iolink_master_ds_valid_loop fuel data len pos
      end
    end
  else mret true.

Definition iolink_master_ds_image_is_valid (data : option (list Z)) (len : Z)
    : M St bool :=
  if null data && (0 <? len) then mret false
  else iolink_master_ds_valid_loop (Z.to_nat len) data len 0.
End data_storage.

(** ** Services *)

Section services.
Context {IO : Iolinki}.

(** [iolink_master_read_isdu] into a local buffer: the result, the buffer and the
    length afterwards. *)
Definition read_isdu_local (port : ptr) (index subindex : Z) (data : list Z) (len : Z)
    : M iolink_master_port_state_t (Z * list Z * Z) :=
  '(ret, data', len') ← iolink_master_read_isdu port index subindex (Some data) (Some len);
  mret (ret, default data data', default len len').

Definition iolink_master_read_device_info (port : ptr) : M iolink_master_port_state_t Z :=
  if ptr_null port then mret IOLINK_MASTER_ERR_INVALID_ARG else
  '(ret, page, len) ← read_isdu_local port IOLINK_IDX_DIRECT_PARAMETERS_1 0
                        (zeros IOLINK_MASTER_DPP1_LEN) IOLINK_MASTER_DPP1_LEN;
  if negb (ret =? 0) then mret ret else
  ret ← iolink_master_apply_direct_parameter_page1 port (Some page) len;
  if negb (ret =? 0) then mret ret else
  state ← get;
  mret (iolink_master_validate_device_info (Some state)).

Definition iolink_master_read_data_storage (port : ptr) (data : option (list Z))
    (len : option Z) : M iolink_master_port_state_t (Z * option (list Z) * option Z) :=
  iolink_master_read_isdu port IOLINK_IDX_DATA_STORAGE 0 data len.

Definition iolink_master_write_data_storage (port : ptr) (data : option (list Z))
    (len : Z) : M iolink_master_port_state_t Z :=
  iolink_master_write_isdu port IOLINK_IDX_DATA_STORAGE 0 data len.

(** [(read_len != len) || ((len > 0) && (memcmp(data, expected, len) != 0))] *)
Definition readback_differs (data : list Z) (read_len : Z) (expected : option (list Z))
    (len : Z) : M iolink_master_port_state_t bool :=
  if negb (read_len =? len) then mret true
  else if 0 <? len then
    same ← mem (memcmp_eq data 0 (default [] expected) 0 len);
    mret (negb same)
  else mret false.

Definition iolink_master_verify_isdu (port : ptr) (index subindex : Z)
    (expected : option (list Z)) (len : Z) : M iolink_master_port_state_t Z :=
  if null expected && (0 <? len) then mret IOLINK_MASTER_ERR_INVALID_ARG else
  '(ret, data, read_len) ← read_isdu_local port index subindex
                             (zeros IOLINK_ISDU_BUFFER_SIZE) UINT8_MAX;
  if negb (ret =? IOLINK_MASTER_STATUS_OK) then mret ret else
  differs ← readback_differs data read_len expected len;
  if (differs : bool)
  then iolink_master_service_result IOLINK_MASTER_ISDU_ERR_VERIFY_FAILED
  else iolink_master_service_result IOLINK_MASTER_STATUS_OK.

Definition iolink_master_verify_data_storage (port : ptr) (expected : option (list Z))
    (len : Z) : M iolink_master_port_state_t Z :=
  if null expected && (0 <? len) then mret IOLINK_MASTER_ERR_INVALID_ARG else
  '(ret, data, read_len) ← read_isdu_local port IOLINK_IDX_DATA_STORAGE 0
                             (zeros IOLINK_ISDU_BUFFER_SIZE) UINT8_MAX;
  if negb (ret =? IOLINK_MASTER_STATUS_OK) then mret ret else
  valid ← iolink_master_ds_image_is_valid expected len;
  valid ← (if (valid : bool)
           then iolink_master_ds_image_is_valid (Some data) read_len
           else mret false);
  failed ← (if (valid : bool) then
              contains ← iolink_master_ds_image_contains_records (Some data) read_len
                           expected len;
              mret (negb contains)
            else readback_differs data read_len expected len);
  if (failed : bool)
  then iolink_master_service_result IOLINK_MASTER_ISDU_ERR_VERIFY_FAILED
  else iolink_master_service_result IOLINK_MASTER_STATUS_OK.

Definition iolink_master_read_detailed_device_status (port : ptr)
    (data : option (list Z)) (len : option Z)
    : M iolink_master_port_state_t (Z * option (list Z) * option Z) :=
  iolink_master_read_isdu port IOLINK_IDX_DETAILED_DEVICE_STATUS 0 data len.

Definition iolink_master_write_system_command (port : ptr) (command : Z)
    : M iolink_master_port_state_t Z :=
  iolink_master_write_isdu port IOLINK_IDX_SYSTEM_COMMAND 0 (Some [command]) 1.

Definition iolink_master_begin_parameter_download (port : ptr)
    : M iolink_master_port_state_t Z :=
  iolink_master_write_system_command port IOLINK_CMD_PARAM_DOWNLOAD_START.

Definition iolink_master_end_parameter_download (port : ptr)
    : M iolink_master_port_state_t Z :=
  iolink_master_write_system_command port IOLINK_CMD_PARAM_DOWNLOAD_END.

Definition iolink_master_begin_parameter_upload (port : ptr)
    : M iolink_master_port_state_t Z :=
  iolink_master_write_system_command port IOLINK_CMD_PARAM_UPLOAD_START.

Definition iolink_master_end_parameter_upload (port : ptr)
    : M iolink_master_port_state_t Z :=
  iolink_master_write_system_command port IOLINK_CMD_PARAM_UPLOAD_END.

Definition iolink_master_store_parameter_download (port : ptr)
    : M iolink_master_port_state_t Z :=
  iolink_master_write_system_command port IOLINK_CMD_PARAM_DOWNLOAD_STORE.

(** ** Parameter block download *)

Definition iolink_master_block_matches (index subindex : Z) (data : option (list Z))
    (len : Z) : M iolink_master_port_state_t bool :=
  state ← get;
  let block := p_block state in
  if (blk_index block =? index) && (blk_subindex block =? subindex) &&
     (blk_len block =? len)
  then if len =? 0 then mret true
       else mem (memcmp_eq (blk_data block) 0 (default [] data) 0 len)
  else mret false.

Definition iolink_master_block_clear : M iolink_master_port_state_t unit :=
  p_block <~ block_state_zero.

(** [block->step = step] *)
Definition block_goto (step : iolink_master_block_step_t)
    : M iolink_master_port_state_t unit :=
  zoom p_block (blk_step <~ step).

(** Latch a new transfer, or check that the call resumes the latched one; [false]
    when another transfer is active. *)
Definition block_open (index subindex : Z) (data : option (list Z)) (len : Z)
    : M iolink_master_port_state_t bool :=
  state ← get;
  if blk_step (p_block state) =e IOLINK_MASTER_BLOCK_STEP_NONE then
    block_goto IOLINK_MASTER_BLOCK_STEP_BEGIN_DOWNLOAD;;
    zoom p_block (blk_index <~ index);;
    zoom p_block (blk_subindex <~ subindex);;
    zoom p_block (blk_len <~ len);;
    when (0 <? len) (
      buf ← mem (memcpy (blk_data (p_block state)) 0 (default [] data) 0 len);
      zoom p_block (blk_data <~ buf));;
    mret true
  else iolink_master_block_matches index subindex data len.

(** One stage of the transfer: in step [this], run [service]; on success go to step
    [next], otherwise return its result. [None] continues with the next stage. *)
Definition block_stage (this next : iolink_master_block_step_t)
    (service : iolink_master_block_state_t → M iolink_master_port_state_t Z)
    : M iolink_master_port_state_t (option Z) :=
  state ← get;
  if blk_step (p_block state) =e this then
    ret ← service (p_block state);
    if negb (ret =? IOLINK_MASTER_STATUS_OK) then mret (Some ret)
    else block_goto next;; mret None
  else mret None.

(** The readback at the end of the transfer. *)
Definition block_verify (port : ptr) : M iolink_master_port_state_t Z :=
  state ← get;
  let block := p_block state in
  ret ← (if (blk_index block =? IOLINK_IDX_DATA_STORAGE) && (blk_subindex block =? 0)
         then iolink_master_verify_data_storage port (Some (blk_data block)) (blk_len block)
         else iolink_master_verify_isdu port (blk_index block) (blk_subindex block)
                (Some (blk_data block)) (blk_len block));
  (if ret =? IOLINK_MASTER_STATUS_OK then iolink_master_block_clear
   else when (ret <? 0) iolink_master_block_clear);;
  iolink_master_service_result ret.

Definition iolink_master_write_parameter_block (port : ptr) (index subindex : Z)
    (data : option (list Z)) (len : Z) : M iolink_master_port_state_t Z :=
  if ptr_null port || (null data && (0 <? len)) then mret IOLINK_MASTER_ERR_INVALID_ARG
  else if u8 (IOLINK_ISDU_BUFFER_SIZE - IOLINK_MASTER_ISDU_WRITE_HEADER_MAX) <? len
  then mret IOLINK_MASTER_ISDU_ERR_BUFFER_TOO_SMALL
  else
    mine ← block_open index subindex data len;
    if negb mine then iolink_master_service_result IOLINK_MASTER_ISDU_ERR_BUSY
    else
      stop ← block_stage IOLINK_MASTER_BLOCK_STEP_BEGIN_DOWNLOAD
               IOLINK_MASTER_BLOCK_STEP_WRITE
               (fun _ => iolink_master_begin_parameter_download port);
      match stop with Some ret => mret ret | None =>
      stop ← block_stage IOLINK_MASTER_BLOCK_STEP_WRITE
               IOLINK_MASTER_BLOCK_STEP_END_DOWNLOAD
               (fun block => iolink_master_write_isdu port (blk_index block)
                  (blk_subindex block) (Some (blk_data block)) (blk_len block));
      match stop with Some ret => mret ret | None =>
      stop ← block_stage IOLINK_MASTER_BLOCK_STEP_END_DOWNLOAD
               IOLINK_MASTER_BLOCK_STEP_VERIFY
               (fun _ => iolink_master_end_parameter_download port);
      match stop with Some ret => mret ret | None => block_verify port end end end.

Definition iolink_master_restore_data_storage (port : ptr) (data : option (list Z))
    (len : Z) : M iolink_master_port_state_t Z :=
  iolink_master_write_parameter_block port IOLINK_IDX_DATA_STORAGE 0 data len.
End services.
