(* ===== verification/DataStorage.v ===== *)
(** * Data Storage images

    What the image parsers of [Services] compute: an image is a sequence of records of
    a header (index, subindex, value length) and a value, and the verification after a
    restore compares records regardless of their order. *)

From stdpp Require Import sets.
From S2P Require Import Prelude Iolinki Reference Types Fixtures Parameters Isdu IsduResponse IsduRequest IsduService Services.

(** A record: three octets, the length of the value, the value. *)
Definition ds_record (r : list Z) : Prop :=
  ∃ a b c value, r = a :: b :: c :: zlen value :: value ∧ zlen value ≤ 251.

(** The octets of an image from the cursor on. *)
Definition ds_rest (data : list Z) (len pos : Z) : list Z :=
  drop (Z.to_nat pos) (take (Z.to_nat len) data).

Definition ds_image (image : list Z) : Prop :=
  ∃ records, Forall ds_record records ∧ image = concat records.

Lemma zlen_ds_rest data len pos :
  0 ≤ pos ≤ len → len ≤ zlen data → zlen (ds_rest data len pos) = len - pos.
Proof. intros. unfold ds_rest. slia. Qed.

Lemma ds_rest_advance data len pos n :
  0 ≤ pos → 0 ≤ n → ds_rest data len (pos + n) = drop (Z.to_nat n) (ds_rest data len pos).
Proof.
  intros. unfold ds_rest. rewrite drop_drop. f_equal. lia.
Qed.

Lemma rd_ds_rest data len pos i :
  0 ≤ pos → 0 ≤ i → pos + i < len → rd data (pos + i) = rd (ds_rest data len pos) i.
Proof.
  intros. unfold ds_rest. rewrite !rd_lookup by lia.
  rewrite lookup_drop, lookup_take_lt by lia. f_equal. lia.
Qed.

Lemma zlen_record r : ds_record r → 4 ≤ zlen r ≤ 255.
Proof.
  intros (a & b & c & v & -> & Hv). autorewrite with zlen. pose proof (zlen_nonneg v). lia.
Qed.

(** Cutting a record off: the octets start with a record exactly when four octets and
    the announced value are there. *)
Lemma record_prefix l v :
  zlen l ≤ 255 → rd l 3 = Some v → 0 ≤ v → 4 + v ≤ zlen l →
  ds_record (take (Z.to_nat (4 + v)) l).
Proof.
  intros Hl H3 Hv Hle. destruct l as [|a [|b [|c [|d l]]]]; try done.
  rewrite rd_lookup in H3 by lia. simpl in H3. injection H3 as ->.
  autorewrite with zlen in *. exists a, b, c, (take (Z.to_nat v) l).
  replace (Z.to_nat (4 + v)) with (S (S (S (S (Z.to_nat v))))) by lia. simpl.
  rewrite zlen_take. split; [do 4 f_equal; lia|lia].
Qed.

Lemma record_head r k : ds_record r →
  ∃ v, rd (r ++ k) 3 = Some v ∧ zlen r = 4 + v ∧ 0 ≤ v.
Proof.
  intros (a & b & c & v & -> & Hv). exists (zlen v).
  split_and!; [done|autorewrite with zlen; lia|apply zlen_nonneg].
Qed.

Lemma ds_image_cons l : ds_image l ↔ l = [] ∨ ∃ r k, l = r ++ k ∧ ds_record r ∧ ds_image k.
Proof.
  split.
  - intros ([|r rs] & HF & ->); [by left|]. inversion HF; subst. right.
    exists r, (concat rs). split_and!; [done..|]. by exists rs.
  - intros [->|(r & k & -> & Hr & rs & Hrs & ->)]; [by exists []|].
    exists (r :: rs). split; [by constructor|done].
Qed.

(** The first record of an image is determined by its octets. *)
Lemma records_app_inj r r' k k' :
  ds_record r → ds_record r' → r ++ k = r' ++ k' → r = r' ∧ k = k'.
Proof.
  intros Hr Hr' Heq.
  destruct (record_head r k Hr) as (v & Hv & Hl & _), (record_head r' k' Hr') as (v' & Hv' & Hl' & _).
  rewrite Heq, Hv' in Hv. simplify_eq. apply app_inj_1; [unfold zlen in *; lia|done].
Qed.

Lemma ds_image_app r k : ds_record r → ds_image (r ++ k) ↔ ds_image k.
Proof.
  intros Hr. rewrite (ds_image_cons (r ++ k)). split; [|naive_solver].
  intros [Hnil|(r' & k' & Heq & Hr' & Hk)].
  - apply app_nil in Hnil as [-> _]. apply zlen_record in Hr. rewrite zlen_nil in Hr. lia.
  - by destruct (records_app_inj _ _ _ _ Hr Hr' Heq) as [_ ->].
Qed.

Lemma concat_records_nil rs : Forall ds_record rs → concat rs = [] → rs = [].
Proof.
  intros [|r rs' Hr _]; [done|]. simpl. intros [-> _]%app_nil.
  apply zlen_record in Hr. rewrite zlen_nil in Hr. lia.
Qed.

Lemma concat_records_inj rs rs' :
  Forall ds_record rs → Forall ds_record rs' → concat rs = concat rs' → rs = rs'.
Proof.
  intros Hrs. revert rs'. induction Hrs as [|r rs Hr Hrs IH]; intros rs' Hrs' Heq.
  - symmetry. by apply concat_records_nil.
  - destruct Hrs' as [|r' rs' Hr' Hrs'].
    + by apply concat_records_nil in Heq; [|constructor].
    + simpl in Heq. destruct (records_app_inj _ _ _ _ Hr Hr' Heq) as [-> Heq'].
      f_equal. by apply IH.
Qed.

Section parsers.
Context {St : Type}.
Implicit Types s : St.

(** One record at the cursor, or the end of what parses. *)
Lemma next_record_ok s data len pos :
  Forall is_u8 data → 0 ≤ pos ≤ len → len ≤ 255 → len ≤ zlen data →
  let rest := ds_rest data len pos in
  wp (iolink_master_ds_next_record (Some data) len pos) (fun next s' => s' = s ∧
    match next with
    | None => ∀ r k, rest = r ++ k → ¬ ds_record r
    | Some (record, n, pos') =>
        record = pos ∧ pos' = pos + n ∧ pos' ≤ len ∧ slice data pos n = Some (take (Z.to_nat n) rest) ∧
        zlen (take (Z.to_nat n) rest) = n ∧
        ds_record (take (Z.to_nat n) rest)
    end) s.
Proof.
  intros Hu Hpos Hlen Hz rest.
  assert (zlen rest = len - pos) as Hr by (by apply zlen_ds_rest).
  unfold iolink_master_ds_next_record, IOLINK_MASTER_DS_RECORD_HEADER_LEN.
  rewrite (u8_small (len - pos)) by (unfold is_u8; lia).
  apply wp_if; intros Hc; norm_bool.
  { apply wp_ret. split; [done|]. intros r k Hk Hrec. pose proof (zlen_record _ Hrec).
    rewrite Hk, zlen_app in Hr. pose proof (zlen_nonneg k). lia. }
  destruct (rd_Some rest 3) as [v Hv]; [lia|].
  rewrite (u8_small (pos + _)) by (unfold is_u8; lia).
  apply wp_bind. eapply wp_mem; [rewrite (rd_ds_rest _ len) by lia; exact Hv|].
  assert (is_u8 v) as Hvu.
  { eapply (rd_Forall is_u8); [|exact Hv]. by apply Forall_drop, Forall_take. }
  unfold is_u8 in Hvu. rewrite (u8_small (len - pos - 4)) by (unfold is_u8; lia).
  apply wp_if; intros Hc2; norm_bool.
  { apply wp_ret. split; [done|]. intros r k Hk Hrec.
    destruct (record_head r k Hrec) as (v' & Hv' & Hlr & _).
    rewrite <- Hk, Hv in Hv'. simplify_eq. rewrite Hk, zlen_app in Hr.
    pose proof (zlen_nonneg k). lia. }
  apply wp_ret. rewrite (u8_small (4 + v)) by (unfold is_u8; lia).
  rewrite u8_small by (unfold is_u8; lia).
  split_and!; [done..|lia| | |].
  - rewrite slice_Some by lia. unfold rest, ds_rest.
    rewrite !take_drop_commute, take_take. do 3 f_equal. lia.
  - rewrite zlen_take. lia.
  - apply record_prefix; [lia|done|lia|lia].
Qed.

Lemma valid_loop_ok fuel s data len pos :
  Forall is_u8 data → 0 ≤ pos ≤ len → len ≤ 255 → len ≤ zlen data →
  len - pos ≤ Z.of_nat fuel →
  wp (iolink_master_ds_valid_loop fuel (Some data) len pos) (fun b s' =>
    s' = s ∧ (b = true ↔ ds_image (ds_rest data len pos))) s.
Proof.
  intros Hu. revert pos. induction fuel as [|fuel IH]; intros pos Hpos Hlen Hz Hf; simpl.
  all: assert (zlen (ds_rest data len pos) = len - pos) as Hr by (by apply zlen_ds_rest).
  all: apply wp_if; intros Hc; norm_bool.
  2, 4: apply wp_ret; split; [done|]; rewrite (nil_zlen (ds_rest _ _ _)) by lia;
    by split; [exists []|].
  { lia. }
  apply wp_bind. eapply wp_mono; [by apply next_record_ok|].
  intros next s' [-> Hnext]. destruct next as [[[rec n] pos']|].
  - destruct Hnext as (-> & -> & Hle & _ & Hn & Hrec). pose proof (zlen_record _ Hrec).
    eapply wp_mono; [apply IH; lia|]. intros b s' [-> Hb]. split; [done|]. rewrite Hb.
    rewrite ds_rest_advance by lia.
    rewrite <- (take_drop (Z.to_nat n) (ds_rest data len pos)) at 2.
    symmetry. by apply ds_image_app.
  - apply wp_ret. split; [done|]. split; [done|]. intros Himg.
    apply ds_image_cons in Himg as [Hnil|(r & k & Heq & Hrec & _)].
    + rewrite Hnil, zlen_nil in Hr. lia.
    + by destruct (Hnext r k).
Qed.

(** The cursor at the first of the records [r :: rs]. *)
Lemma next_record_seq s data len pos r rs :
  Forall is_u8 data → 0 ≤ pos ≤ len → len ≤ 255 → len ≤ zlen data →
  Forall ds_record (r :: rs) → ds_rest data len pos = concat (r :: rs) →
  wp (iolink_master_ds_next_record (Some data) len pos) (fun next s' =>
    s' = s ∧ next = Some (pos, zlen r, pos + zlen r) ∧ slice data pos (zlen r) = Some r ∧
    pos + zlen r ≤ len ∧ ds_rest data len (pos + zlen r) = concat rs) s.
Proof.
  intros Hu Hpos Hlen Hz HF Heq. inversion HF as [|? ? Hr Hrs]; subst. simpl in Heq.
  eapply wp_mono; [by apply next_record_ok|].
  intros next s' [-> Hnext]. destruct next as [[[rec n] pos']|].
  - destruct Hnext as (-> & -> & Hle & Hsl & Hn & Hrec).
    rewrite <- (take_drop (Z.to_nat n) (ds_rest data len pos)) in Heq.
    destruct (records_app_inj _ _ _ _ Hrec Hr Heq) as [Ht Hd].
    rewrite Ht in Hn, Hsl. subst n. split_and!; [done..|].
    rewrite ds_rest_advance by (pose proof (zlen_nonneg r); lia). exact Hd.
  - by destruct (Hnext r (concat rs)).
Qed.

Lemma rest_end data len pos : 0 ≤ pos ≤ len → len ≤ zlen data →
  ds_rest data len pos = [] ↔ pos = len.
Proof.
  intros Hpos Hz. pose proof (zlen_ds_rest data len pos Hpos Hz). split; intros He.
  - rewrite He, zlen_nil in *. lia.
  - apply nil_zlen. lia.
Qed.

Lemma find_record_ok fuel s actual alen pos ra expected rec er :
  Forall is_u8 actual → 0 ≤ pos ≤ alen → alen ≤ 255 → alen ≤ zlen actual →
  Forall ds_record ra → ds_rest actual alen pos = concat ra →
  slice expected rec (zlen er) = Some er → alen - pos ≤ Z.of_nat fuel →
  wp (iolink_master_ds_find_record fuel (Some actual) alen pos expected rec (zlen er))
    (fun found s' => s' = s ∧ found = Some (bool_decide (er ∈ ra))) s.
Proof.
  intros Hu. revert pos ra. induction fuel as [|fuel IH];
    intros pos ra Hpos Hlen Hz HF Heq Hsl Hf; simpl.
  all: apply wp_if; intros Hc; norm_bool.
  2, 4: apply wp_ret; split; [done|];
    rewrite (concat_records_nil ra) by (done || rewrite <- Heq; apply rest_end; lia);
    by rewrite bool_decide_false by set_solver.
  { lia. }
  destruct ra as [|r ra]. { apply rest_end in Heq; lia. }
  apply wp_bind. eapply wp_mono; [by eapply next_record_seq|].
  intros next s' (-> & -> & Hr & Hle & Hrest). inversion HF as [|? ? Hrec HF']; subst.
  pose proof (zlen_record _ Hrec).
  apply wp_bind. eapply (wp_mono _ (fun same s' => s' = s ∧ same = bool_decide (er = r))).
  - apply wp_if; intros Hn; norm_bool.
    + eapply wp_mem; [unfold memcmp_eq; simpl; rewrite <- Hn, Hr; simpl; rewrite Hn, Hsl; done|].
      split; [done|]. apply eq_bool_prop_intro. rewrite !Is_true_true, octets_eqb_eq, bool_decide_eq_true. done.
    + apply wp_ret. split; [done|]. rewrite bool_decide_false; [done|]. by intros ->.
  - intros same s' [-> ->]. case_bool_decide as He.
    + apply wp_ret. split; [done|]. rewrite bool_decide_true; [done|]. subst. by left.
    + eapply wp_mono; [apply (IH (pos + zlen r) ra); (done || lia)|].
      intros found s' [-> ->]. split; [done|]. do 2 f_equal. apply bool_decide_ext. set_solver.
Qed.

Lemma contains_loop_ok fuel s actual alen ra expected elen pos re :
  Forall is_u8 actual → 0 ≤ alen ≤ 255 → alen ≤ zlen actual →
  Forall ds_record ra → ds_rest actual alen 0 = concat ra →
  Forall is_u8 expected → 0 ≤ pos ≤ elen → elen ≤ 255 → elen ≤ zlen expected →
  Forall ds_record re → ds_rest expected elen pos = concat re → elen - pos ≤ Z.of_nat fuel →
  wp (iolink_master_ds_contains_loop fuel (Some actual) alen (Some expected) elen pos)
    (fun b s' => s' = s ∧ b = bool_decide (re ⊆ ra)) s.
Proof.
  intros Hu Halen Hza Hra Ha Hue. revert pos re.
  induction fuel as [|fuel IH]; intros pos re Hpos Hlen Hz HF Heq Hf; simpl.
  all: apply wp_if; intros Hc; norm_bool.
  2, 4: apply wp_ret; split; [done|];
    rewrite (concat_records_nil re) by (done || rewrite <- Heq; apply rest_end; lia);
    by rewrite bool_decide_true by set_solver.
  { lia. }
  destruct re as [|r re]. { apply rest_end in Heq; lia. }
  apply wp_bind. eapply wp_mono; [by eapply next_record_seq|].
  intros next s' (-> & -> & Hr & Hle & Hrest). inversion HF as [|? ? Hrec HF']; subst.
  pose proof (zlen_record _ Hrec).
  apply wp_bind. eapply wp_mono; [apply (find_record_ok _ _ _ _ _ ra _ _ r); (done || lia)|].
  intros found s' [-> ->]. case_bool_decide as Hin.
  - eapply wp_mono; [apply (IH (pos + zlen r) re); (done || lia)|].
    intros b s' [-> ->]. split; [done|]. apply bool_decide_ext. set_solver.
  - apply wp_ret. split; [done|]. rewrite bool_decide_false; [done|]. set_solver.
Qed.
End parsers.

(** ** Verification by readback *)

Section verification.
Context {IO : Iolinki} {laws : IolinkiLaws IO}.
Implicit Types p : iolink_master_port_state_t.

(** A read of [index], [subindex] that the device has answered with [payload]. *)
Definition read_answered p (index subindex : Z) (payload : list Z) : Prop :=
  acyclic_state (p_state p) ∧ represents (p_isdu p) (Finished (Payload payload)) ∧
  isdu_op (p_isdu p) = IOLINK_MASTER_ISDU_OP_READ ∧
  isdu_index (p_isdu p) = index ∧ isdu_subindex (p_isdu p) = subindex ∧
  zlen payload ≤ 255.

Lemma read_local_ok p index subindex payload :
  read_answered p index subindex payload →
  wp (read_isdu_local PTR index subindex (zeros IOLINK_ISDU_BUFFER_SIZE) UINT8_MAX)
    (fun r p' => ∃ tail, r = (IOLINK_MASTER_STATUS_OK, payload ++ tail, zlen payload) ∧
       Forall is_u8 tail ∧ isdu_free (p_isdu p')) p.
Proof.
  intros (Hst & Hr & Hop & Hi & Hs & Hlen). pose proof law_isdu_buffer.
  assert (zlen payload ≤ IOLINK_ISDU_BUFFER_SIZE) as Hb.
  { destruct Hr as (Hwf & _ & _ & _ & _ & _ & _ & Hl & _). destruct Hwf. lia. }
  apply wp_bind. eapply wp_mono.
  - apply (read_isdu_finishes p index subindex _ _ payload); try done; slia.
  - intros ? p' (-> & Hf & _). apply wp_ret. eexists. split_and!; [done| |done].
    by apply Forall_drop, zeros_Forall.
Qed.

Lemma readback_differs_ok p payload tail expected len :
  0 ≤ len ≤ zlen expected →
  wp (readback_differs (payload ++ tail) (zlen payload) (Some expected) len)
    (fun differs p' => p' = p ∧
       differs = negb (bool_decide (payload = take (Z.to_nat len) expected))) p.
Proof.
  intros Hlen. unfold readback_differs.
  apply wp_if; intros Hc; norm_bool.
  - apply wp_ret. split; [done|]. rewrite bool_decide_false; [done|].
    intros ->. apply Hc. slia.
  - apply wp_if; intros Hz; norm_bool.
    + apply wp_bind. eapply wp_mem.
      * unfold memcmp_eq. rewrite <- Hc.
        rewrite (slice_Some (payload ++ tail)) by (autorewrite with zlen; pose proof (zlen_nonneg tail); lia).
        rewrite (slice_Some (default [] (Some expected))) by (simpl; lia). done.
      * apply wp_ret. split; [done|]. f_equal. rewrite !drop_0. simpl.
        unfold zlen at 1. rewrite Nat2Z.id, take_app_length.
        apply eq_bool_prop_intro. by rewrite !Is_true_true, octets_eqb_eq, bool_decide_eq_true, Hc.
    + apply wp_ret. split; [done|]. rewrite bool_decide_true; [done|].
      replace (Z.to_nat len) with 0%nat by lia. apply nil_zlen. lia.
Qed.

(** The result of a verification, recorded in the diagnostics. *)
Definition verify_result (same : bool) : Z :=
  if same then IOLINK_MASTER_STATUS_OK else IOLINK_MASTER_ISDU_ERR_VERIFY_FAILED.

Lemma service_result_ok p ret (Q : Z → iolink_master_port_state_t → Prop) :
  ret ≠ IOLINK_MASTER_STATUS_PENDING →
  (∀ p', p_isdu p' = p_isdu p → p_block p' = p_block p → p_state p' = p_state p →
     diag_last_service_result (p_diagnostics p') = ret → Q ret p') →
  wp (iolink_master_service_result ret) Q p.
Proof.
  intros Hp HQ. unfold iolink_master_service_result.
  wp_steps; [|norm_bool; by destruct Hp]. by apply HQ.
Qed.

Lemma verdict_ok p failed (Q : Z → iolink_master_port_state_t → Prop) :
  (∀ p', p_isdu p' = p_isdu p →
     diag_last_service_result (p_diagnostics p') = verify_result (negb failed) →
     Q (verify_result (negb failed)) p') →
  wp (if (failed : bool) then iolink_master_service_result IOLINK_MASTER_ISDU_ERR_VERIFY_FAILED
      else iolink_master_service_result IOLINK_MASTER_STATUS_OK) Q p.
Proof. intros HQ. destruct failed; apply service_result_ok; (done || auto). Qed.

Lemma verify_isdu_ok p index subindex expected len payload :
  read_answered p index subindex payload → 0 ≤ len ≤ zlen expected →
  wp (iolink_master_verify_isdu PTR index subindex (Some expected) len) (fun r p' =>
    r = verify_result (bool_decide (payload = take (Z.to_nat len) expected)) ∧
    diag_last_service_result (p_diagnostics p') = r ∧ isdu_free (p_isdu p')) p.
Proof.
  intros Hans Hlen. unfold iolink_master_verify_isdu. cbn [null andb].
  apply wp_bind. eapply wp_mono; [by apply read_local_ok|].
  intros ? p' (tail & -> & _ & Hf). cbn [negb Z.eqb IOLINK_MASTER_STATUS_OK].
  apply wp_bind. eapply wp_mono; [by apply readback_differs_ok|].
  intros differs ? (-> & ->). apply verdict_ok. rewrite negb_involutive.
  intros p'' Hi Hd. rewrite Hi. done.
Qed.

(** Verification by readback succeeds exactly when the device holds the expected
    octets; the verdict is recorded and the transport is free again. *)
Theorem verify_isdu_compares p index subindex expected len payload :
  read_answered p index subindex payload → 0 ≤ len ≤ zlen expected →
  wp (iolink_master_verify_isdu PTR index subindex (Some expected) len) (fun r p' =>
    r = verify_result (bool_decide (payload = take (Z.to_nat len) expected)) ∧
    diag_last_service_result (p_diagnostics p') = r ∧ isdu_free (p_isdu p')) p.
Proof. apply verify_isdu_ok. Qed.

(** The verdict on a Data Storage readback: every expected record is present, when both
    images are record sequences; otherwise the octets are equal. *)
Definition ds_verdict (image payload : list Z) (same : bool) : Prop :=
  (∀ re ra, Forall ds_record re → Forall ds_record ra → image = concat re →
     payload = concat ra → same = bool_decide (re ⊆ ra)) ∧
  (¬ (ds_image image ∧ ds_image payload) → same = bool_decide (payload = image)).

Lemma image_rest data len : ds_rest data len 0 = take (Z.to_nat len) data.
Proof. done. Qed.

Lemma image_valid_ok {St} (s : St) data len :
  Forall is_u8 data → 0 ≤ len ≤ 255 → len ≤ zlen data →
  wp (iolink_master_ds_image_is_valid (Some data) len) (fun b s' =>
    s' = s ∧ (b = true ↔ ds_image (take (Z.to_nat len) data))) s.
Proof.
  intros. unfold iolink_master_ds_image_is_valid. cbn [null andb].
  rewrite <- image_rest. apply valid_loop_ok; (done || lia).
Qed.

Lemma image_contains_ok {St} (s : St) actual alen ra expected elen re :
  Forall is_u8 actual → 0 ≤ alen ≤ 255 → alen ≤ zlen actual →
  Forall is_u8 expected → 0 ≤ elen ≤ 255 → elen ≤ zlen expected →
  Forall ds_record ra → take (Z.to_nat alen) actual = concat ra →
  Forall ds_record re → take (Z.to_nat elen) expected = concat re →
  wp (iolink_master_ds_image_contains_records (Some actual) alen (Some expected) elen)
    (fun b s' => s' = s ∧ b = bool_decide (re ⊆ ra)) s.
Proof.
  intros. unfold iolink_master_ds_image_contains_records. cbn [null andb].
  eapply contains_loop_ok; rewrite ?image_rest; (done || lia).
Qed.

(** C28: an image is accepted exactly when it is a sequence of well-formed records; the
    scan terminates inside the buffer for every content. *)
Theorem ds_image_is_valid_iff_records (s : iolink_master_port_state_t) data len :
  Forall is_u8 data → 0 ≤ len ≤ 255 → len ≤ zlen data →
  wp (iolink_master_ds_image_is_valid (Some data) len) (fun b s' =>
    s' = s ∧ (b = true ↔ ds_image (take (Z.to_nat len) data))) s.
Proof. apply image_valid_ok. Qed.

(** The comparison of two images is inclusion of their records, in any order. *)
Theorem ds_contains_is_inclusion (s : iolink_master_port_state_t) actual alen ra expected elen re :
  Forall is_u8 actual → 0 ≤ alen ≤ 255 → alen ≤ zlen actual →
  Forall is_u8 expected → 0 ≤ elen ≤ 255 → elen ≤ zlen expected →
  Forall ds_record ra → take (Z.to_nat alen) actual = concat ra →
  Forall ds_record re → take (Z.to_nat elen) expected = concat re →
  wp (iolink_master_ds_image_contains_records (Some actual) alen (Some expected) elen)
    (fun b s' => s' = s ∧ b = bool_decide (re ⊆ ra)) s.
Proof. apply image_contains_ok. Qed.

Lemma verify_data_storage_ok p expected len payload :
  read_answered p IOLINK_IDX_DATA_STORAGE 0 payload → Forall is_u8 payload →
  Forall is_u8 expected → 0 ≤ len ≤ 255 → len ≤ zlen expected →
  wp (iolink_master_verify_data_storage PTR (Some expected) len) (fun r p' =>
    (∃ same, r = verify_result same ∧ ds_verdict (take (Z.to_nat len) expected) payload same) ∧
    diag_last_service_result (p_diagnostics p') = r ∧ isdu_free (p_isdu p')) p.
Proof.
  intros Hans Hup Hue Hlen Hle. unfold iolink_master_verify_data_storage. cbn [null andb].
  set (image := take (Z.to_nat len) expected).
  assert (0 ≤ zlen payload ≤ 255) as Hpl by (split; [apply zlen_nonneg|apply Hans]).
  apply wp_bind. eapply wp_mono; [by apply read_local_ok|].
  intros ? p' (tail & -> & Ht & Hf).
  assert (Forall is_u8 (payload ++ tail)) as Hu by by apply Forall_app_2.
  cbn [negb Z.eqb IOLINK_MASTER_STATUS_OK].
  apply wp_bind. eapply wp_mono; [by apply image_valid_ok|].
  intros ve ? (-> & Hve). fold image in Hve. apply wp_bind.
  assert (take (Z.to_nat (zlen payload)) (payload ++ tail) = payload) as Htake.
  { unfold zlen. by rewrite Nat2Z.id, take_app_length. }
  eapply (wp_mono _ (fun valid s' => s' = p' ∧ (valid = true ↔ ds_image image ∧ ds_image payload))).
  { destruct ve.
    - eapply wp_mono; [apply image_valid_ok; [done|done|autorewrite with zlen; pose proof (zlen_nonneg tail); lia]|].
      intros vp ? (-> & Hvp). rewrite Htake in Hvp. split; [done|]. rewrite Hvp. naive_solver.
    - apply wp_ret. split; [done|]. naive_solver. }
  intros valid ? (-> & Hv). apply wp_bind.
  eapply (wp_mono _ (fun failed s' => s' = p' ∧ ds_verdict image payload (negb failed))).
  { destruct valid.
    - destruct (proj1 Hv eq_refl) as [(re & Hre & Hie) (ra & Hra & Hia)].
      apply wp_bind. eapply wp_mono.
      { apply (image_contains_ok p' _ _ ra _ _ re); rewrite ?Htake; try done.
        autorewrite with zlen. pose proof (zlen_nonneg tail). lia. }
      intros b ? (-> & ->). apply wp_ret. split; [done|]. rewrite negb_involutive. split.
      + intros re' ra' Hre' Hra' He Ha. apply bool_decide_ext.
        by rewrite (concat_records_inj re re' Hre Hre' (eq_trans (eq_sym Hie) He)),
          (concat_records_inj ra ra' Hra Hra' (eq_trans (eq_sym Hia) Ha)).
      + intros Hn. destruct Hn. by apply Hv.
    - eapply wp_mono; [apply readback_differs_ok; lia|].
      intros d ? (-> & ->). split; [done|]. rewrite negb_involutive. split; [|done].
      intros re ra Hre Hra He Ha. exfalso. cut (false = true); [done|]. apply Hv.
      split; [by exists re|by exists ra]. }
  intros failed ? (-> & Hverd). apply verdict_ok.
  intros p'' Hi Hd. rewrite Hi. split_and!; eauto.
Qed.

(** C27: after a restore, a Data Storage image is verified by its records: all expected
    ones are in the readback, in any order. When one side is not a record sequence,
    the octets are compared. *)
Theorem verify_data_storage_compares_records p expected len payload :
  read_answered p IOLINK_IDX_DATA_STORAGE 0 payload → Forall is_u8 payload →
  Forall is_u8 expected → 0 ≤ len ≤ 255 → len ≤ zlen expected →
  wp (iolink_master_verify_data_storage PTR (Some expected) len) (fun r p' =>
    (∃ same, r = verify_result same ∧ ds_verdict (take (Z.to_nat len) expected) payload same) ∧
    diag_last_service_result (p_diagnostics p') = r ∧ isdu_free (p_isdu p')) p.
Proof. apply verify_data_storage_ok. Qed.
End verification.

(** ** Witnesses *)

(** Two records: index 0x10 with one octet, index 0x12 with two. *)
Definition wit_record_a : list Z := [0; 0x10; 0; 1; 7].
Definition wit_record_b : list Z := [0; 0x12; 0; 2; 8; 9].

Lemma wit_records : Forall ds_record [wit_record_a; wit_record_b].
Proof.
  repeat constructor; [exists 0, 0x10, 0, [7]|exists 0, 0x12, 0, [8; 9]]; decide_here.
Qed.

(** A port whose read of [index] the device has answered with [payload]. *)
Definition wit_reading (index : Z) : iolink_master_isdu_state_t :=
  started isdu_state_zero IOLINK_MASTER_ISDU_OP_READ index 0
    <| isdu_phase := IOLINK_MASTER_ISDU_PHASE_WAIT |>.

Definition wit_answered (index : Z) (payload : list Z) : iolink_master_port_state_t :=
  fix_port [] IOLINK_MASTER_STATE_OPERATE
    <| p_isdu := final (isdu_read_frames [isdu_encode 13 payload]) (wit_reading index) |>.

Lemma wit_answered_ok index payload :
  is_u16 index → Forall is_u8 payload → Forall is_u8 (isdu_encode 13 payload) →
  zlen (isdu_encode 13 payload) ≤ 256 → zlen payload ≤ 235 →
  read_answered (wit_answered index payload) index 0 payload.
Proof.
  intros Hi Hu Hue Hle Hl.
  assert (represents (wit_reading index) Waiting) as Hw.
  { assert (wf_isdu (started isdu_state_zero IOLINK_MASTER_ISDU_OP_READ index 0)) as []
      by (apply started_wf; [apply isdu_zero_inv|done..]).
    split; [by split|]. by repeat split. }
  assert (isdu_body_fits payload) as Hfit by (unfold isdu_body_fits; lia).
  assert (isdu_pdu (isdu_encode 13 payload)) as Hpdu.
  { apply isdu_encode_pdu; try done. simpl. lia. }
  set (frames := isdu_read_frames [isdu_encode 13 payload]).
  assert (represents (final frames (wit_reading index)) (Finished (Payload payload)) ∧
          isdu_id (final frames (wit_reading index)) = isdu_id (wit_reading index)) as [Hr Hid].
  { pattern (final frames (wit_reading index)).
    apply wp_final, (wp_keeps isdu_id _ (fun _ s' => represents s' (Finished (Payload payload))));
      [|apply read_frames_keeps].
    rewrite <- (isdu_encode_decode 13 payload) by (done || lia).
    apply (response_reassembled _ [] _ []); try done.
    - by constructor.
    - by constructor. }
  unfold isdu_id in Hid. injection Hid as Hop Hix Hsb. unfold read_answered.
  change (p_isdu (wit_answered index payload)) with (final frames (wit_reading index)).
  split_and!; [by left|done..|lia].
Qed.

Lemma verify_isdu_compares_witness :
  wp (iolink_master_verify_isdu PTR 0x10 0 (Some [65; 66; 67]) 2) (fun r p' =>
    r = verify_result (bool_decide ([65; 66] = take (Z.to_nat 2) [65; 66; 67])) ∧
    diag_last_service_result (p_diagnostics p') = r ∧ isdu_free (p_isdu p'))
    (wit_answered 0x10 [65; 66]).
Proof.
  apply (verify_isdu_compares _ 0x10 0 [65; 66; 67] 2 [65; 66]).
  - apply wit_answered_ok; decide_here.
  - split; vm_compute; discriminate.
Defined.

Lemma ds_image_is_valid_iff_records_witness :
  wp (iolink_master_ds_image_is_valid (Some wit_record_a) 5) (fun b s' =>
    s' = fix_port [] IOLINK_MASTER_STATE_OPERATE ∧
    (b = true ↔ ds_image (take (Z.to_nat 5) wit_record_a)))
    (fix_port [] IOLINK_MASTER_STATE_OPERATE).
Proof. apply (ds_image_is_valid_iff_records _ wit_record_a 5); decide_here. Defined.

Lemma ds_contains_is_inclusion_witness :
  wp (iolink_master_ds_image_contains_records (Some (wit_record_b ++ wit_record_a)) 11
        (Some wit_record_a) 5) (fun b s' =>
    s' = fix_port [] IOLINK_MASTER_STATE_OPERATE ∧
    b = bool_decide ([wit_record_a] ⊆ [wit_record_b; wit_record_a]))
    (fix_port [] IOLINK_MASTER_STATE_OPERATE).
Proof.
  pose proof wit_records as Hw. inversion_clear Hw as [|? ? Ha Hb'].
  inversion_clear Hb' as [|? ? Hb _].
  apply (ds_contains_is_inclusion _ _ 11 [wit_record_b; wit_record_a] _ 5 [wit_record_a]);
    try decide_here; by repeat constructor.
Defined.

Lemma verify_data_storage_compares_records_witness :
  wp (iolink_master_verify_data_storage PTR (Some wit_record_a) 5) (fun r p' =>
    (∃ same, r = verify_result same ∧
       ds_verdict (take (Z.to_nat 5) wit_record_a) (wit_record_b ++ wit_record_a) same) ∧
    diag_last_service_result (p_diagnostics p') = r ∧ isdu_free (p_isdu p'))
    (wit_answered IOLINK_IDX_DATA_STORAGE (wit_record_b ++ wit_record_a)).
Proof.
  apply (verify_data_storage_compares_records _ wit_record_a 5 (wit_record_b ++ wit_record_a));
    [apply wit_answered_ok; decide_here|decide_here..].
Defined.
