(* ===== verification/Events.v ===== *)
(** * Event readout ([src/master_isdu.c], second half)

    The event memory of the device (Table 58) is read octet by octet over the
    DIAGNOSIS channel into [event.memory]; a confirmation writes the StatusCode. The
    transport owns [event]; the services run on the port, and the one that calls the
    application's [event_handler] on the port and its environment. *)

From S2P Require Import Prelude Iolinki Reference Types Fixtures.

Section transport.
Context {IO : Iolinki}.

Definition iolink_master_event_finish (result : Z) : M iolink_master_event_state_t unit :=
  ev_result <~ result;;
  ev_phase <~ IOLINK_MASTER_EVENT_PHASE_NONE;;
  ev_od_expected <~ false.

Definition iolink_master_event_start (request : iolink_master_event_req_t)
    : M iolink_master_event_state_t unit :=
  modify (fun _ => event_state_zero);;
  ev_request <~ request;;
  ev_phase <~ IOLINK_MASTER_EVENT_PHASE_READ;;
  ev_addr <~ 0;;
  ev_needed <~ 1;;
  ev_result <~ IOLINK_MASTER_STATUS_PENDING.

(** [Some (read, addr, od_len)] when the C function returns [true]. *)
Definition iolink_master_event_channel_access (port : option iolink_master_port_state_t)
    : option (bool * Z * Z) :=
  match port with
  | None => None
  | Some state =>
      let ev := p_event state in
      if ev_phase ev =e IOLINK_MASTER_EVENT_PHASE_NONE then None
      else Some (ev_phase ev =e IOLINK_MASTER_EVENT_PHASE_READ, ev_addr ev, p_od_len state)
  end.

(** The loop over the six slots that finds the highest active one. *)
Definition event_highest_slot (active : Z) : Z :=
  foldl (fun last slot =>
    if negb (Z.land active (u8 (Z.shiftl 1 slot)) =? 0) then u8 (slot + 1) else last)
    0 (upto IOLINK_MASTER_EVENT_SLOT_MAX).

(** Decode the StatusCode once it has arrived. *)
Definition event_decode_status : M iolink_master_event_state_t unit :=
  ev ← get;
  when (negb (ev_status_seen ev) && (1 <=? ev_len ev)) (
    status ← mem (rd (ev_memory ev) 0);
    let last_slot := event_highest_slot (u8 (Z.land status 0x3F)) in
    ev_status_seen <~ true;;
    ev_last_slot <~ last_slot;;
    ev_needed <~ (if last_slot =? 0 then 1
                  else u8 (IOLINK_MASTER_EVENT_ENTRY_LEN * last_slot + 1))).

(** One iteration of the octet loop of [iolink_master_event_on_od]. *)
Definition iolink_master_event_on_octet (od : list Z) (i : Z)
    : M iolink_master_event_state_t bool :=
  ev ← get;
  when ((ev_addr ev <? IOLINK_MASTER_EVENT_MEMORY_LEN) &&
        (ev_len ev <? IOLINK_MASTER_EVENT_MEMORY_LEN)) (
    byte ← mem (rd od i);
    memory ← mem (wr (ev_memory ev) (ev_addr ev) byte);
    ev_memory <~ memory;;
    ev_addr <~ u8 (ev_addr ev + 1);;
    ev_len <~ u8 (ev_len ev + 1));;
  event_decode_status;;
  mret false.

Definition iolink_master_event_on_od (port : ptr) (od : option (list Z)) (od_len : Z)
    : M iolink_master_event_state_t unit :=
  match od with
  | None => mret tt
  | Some od =>
    if ptr_null port then mret tt else
    ev ← get;
    if ev_phase ev <>e IOLINK_MASTER_EVENT_PHASE_READ then mret tt
    else
      for_loop (upto od_len) (iolink_master_event_on_octet od);;
      ev ← get;
      when (ev_status_seen ev && (ev_needed ev <=? ev_len ev) && (1 <=? ev_len ev)) (
        if ev_request ev =e IOLINK_MASTER_EVENT_REQ_ACK then
          ev_phase <~ IOLINK_MASTER_EVENT_PHASE_WRITE;;
          ev_addr <~ 0
        else iolink_master_event_finish IOLINK_MASTER_STATUS_OK)
  end.

Definition iolink_master_event_on_written (port : ptr)
    : M iolink_master_event_state_t unit :=
  if ptr_null port then mret tt else
  ev ← get;
  when (ev_phase ev =e IOLINK_MASTER_EVENT_PHASE_WRITE)
    (iolink_master_event_finish IOLINK_MASTER_STATUS_OK).

Definition iolink_master_event_complete (ev : iolink_master_event_state_t) : bool :=
  (ev_phase ev =e IOLINK_MASTER_EVENT_PHASE_NONE) &&
  (ev_request ev <>e IOLINK_MASTER_EVENT_REQ_NONE).

(** The 16-bit EventCode stored at [base + 1] and [base + 2]. *)
Definition event_code_at (memory : list Z) (base : Z) : option Z :=
  hi ← rd memory (u8 (base + 1));
  lo ← rd memory (u8 (base + 2));
  Some (u16 (Z.lor (u16 (Z.shiftl hi 8)) lo)).

Definition event_slot_base (slot : Z) : Z := u8 (1 + IOLINK_MASTER_EVENT_ENTRY_LEN * slot).

Fixpoint event_first_code_loop (memory : list Z) (active : Z) (slots : list Z)
    : option Z :=
  match slots with
  | [] => Some 0
  | slot :: slots =>
      if negb (Z.land active (u8 (Z.shiftl 1 slot)) =? 0)
      then event_code_at memory (event_slot_base slot)
      else event_first_code_loop memory active slots
  end.

Definition iolink_master_event_first_code (memory : list Z) : option Z :=
  status ← rd memory 0;
  event_first_code_loop memory (u8 (Z.land status 0x3F))
    (upto IOLINK_MASTER_EVENT_SLOT_MAX).
End transport.

Definition iolink_master_event_type_from_qualifier (qualifier : Z)
    : iolink_master_event_type_t :=
  let mode := u8 (Z.land (Z.shiftr qualifier IOLINK_MASTER_EVENT_QUALIFIER_MODE_SHIFT)
                         IOLINK_MASTER_EVENT_QUALIFIER_MODE_MASK) in
  if mode =? IOLINK_MASTER_EVENT_MODE_NOTIFICATION then IOLINK_MASTER_EVENT_TYPE_NOTIFICATION
  else if mode =? IOLINK_MASTER_EVENT_MODE_WARNING then IOLINK_MASTER_EVENT_TYPE_WARNING
  else if mode =? IOLINK_MASTER_EVENT_MODE_ERROR then IOLINK_MASTER_EVENT_TYPE_ERROR
  else IOLINK_MASTER_EVENT_TYPE_UNKNOWN.

Section services.
Context {IO : Iolinki}.

(** The guards the three event services share: the result to return at once, or
    [None] when a completed readout is to be consumed. *)
Definition event_service_gate (request : iolink_master_event_req_t)
    : M iolink_master_port_state_t (option Z) :=
  state ← get;
  if (p_state state <>e IOLINK_MASTER_STATE_OPERATE) &&
     (p_state state <>e IOLINK_MASTER_STATE_PREOPERATE)
  then mret (Some IOLINK_MASTER_ISDU_ERR_INVALID_STATE)
  else if ev_phase (p_event state) <>e IOLINK_MASTER_EVENT_PHASE_NONE
  then mret (Some IOLINK_MASTER_STATUS_PENDING)
  else if negb (iolink_master_event_complete (p_event state)) then
    zoom p_event (iolink_master_event_start request);;
    mret (Some IOLINK_MASTER_STATUS_PENDING)
  else mret None.

(** The result and [*event_code] afterwards. *)
Definition iolink_master_read_event_code (port : ptr) (event_code : option Z)
    : M iolink_master_port_state_t (Z * option Z) :=
  if ptr_null port || null event_code
  then mret (IOLINK_MASTER_ERR_INVALID_ARG, event_code) else
  gate ← event_service_gate IOLINK_MASTER_EVENT_REQ_CODE;
  match gate with
  | Some ret => mret (ret, event_code)
  | None =>
      state ← get;
      code ← mem (iolink_master_event_first_code (ev_memory (p_event state)));
      zoom p_diagnostics (diag_last_event_code <~ code);;
      when (1 <=? ev_last_slot (p_event state))
        (zoom p_diagnostics (diag_last_event_count <~ 1));;
      zoom p_event (ev_request <~ IOLINK_MASTER_EVENT_REQ_NONE);;
      mret (IOLINK_MASTER_STATUS_OK, Some code)
  end.

Definition iolink_master_ack_event (port : ptr) (event_code : option Z)
    : M iolink_master_port_state_t (Z * option Z) :=
  if ptr_null port || null event_code
  then mret (IOLINK_MASTER_ERR_INVALID_ARG, event_code) else
  gate ← event_service_gate IOLINK_MASTER_EVENT_REQ_ACK;
  match gate with
  | Some ret => mret (ret, event_code)
  | None =>
      state ← get;
      code ← mem (iolink_master_event_first_code (ev_memory (p_event state)));
      zoom p_diagnostics (diag_last_event_code <~ code);;
      zoom p_event (ev_request <~ IOLINK_MASTER_EVENT_REQ_NONE);;
      mret (IOLINK_MASTER_STATUS_OK, Some code)
  end.

(** The loop that decodes the active slots into the caller's [events]: the array and
    [count] afterwards, [None] for an access outside an array. *)
Fixpoint event_decode_slots (memory : list Z) (active max_events : Z) (slots : list Z)
    (events : list iolink_master_event_t) (count : Z)
    : option (list iolink_master_event_t * Z) :=
  match slots with
  | [] => Some (events, count)
  | slot :: slots =>
      if Z.land active (u8 (Z.shiftl 1 slot)) =? 0
      then event_decode_slots memory active max_events slots events count
      else
        let base := event_slot_base slot in
        qualifier ← rd memory base;
        code ← event_code_at memory base;
        events ← wr events count {|
          evt_qualifier := qualifier;
          evt_type := iolink_master_event_type_from_qualifier qualifier;
          evt_code := code |};
        let count := u8 (count + 1) in
        if max_events <=? count then Some (events, count)
        else event_decode_slots memory active max_events slots events count
  end.

(** [event_handler(event_user, &events[i])] for the [count] decoded events. *)
Definition event_dispatch (user : Z) (events : list iolink_master_event_t) (count : Z)
    : M world unit :=
  for_loop (upto count) (fun i =>
    event ← mem (rd events i);
    world ← get;
    w_io <~ w_io world ++ [IoEvent user event];;
    mret false).

(** The result, the caller's array and [*out_count] afterwards. *)
Definition iolink_master_read_event_details (port : ptr)
    (events : option (list iolink_master_event_t)) (max_events : Z)
    (out_count : option Z)
    : M world (Z * option (list iolink_master_event_t) * option Z) :=
  match events with
  | None => mret (IOLINK_MASTER_ERR_INVALID_ARG, events, out_count)
  | Some array =>
    if ptr_null port || null out_count
    then mret (IOLINK_MASTER_ERR_INVALID_ARG, events, out_count) else
    gate ← zoom w_port (event_service_gate IOLINK_MASTER_EVENT_REQ_DETAILS);
    match gate with
    | Some ret => mret (ret, events, out_count)
    | None =>
        world ← get;
        let state := w_port world in
        let memory := ev_memory (p_event state) in
        status ← mem (rd memory 0);
        '(array, count) ← mem (event_decode_slots memory (u8 (Z.land status 0x3F))
                                 max_events (upto IOLINK_MASTER_EVENT_SLOT_MAX) array 0);
        last_code ← (if 0 <? count then
                       event ← mem (rd array (count - 1));
                       mret (evt_code event)
                     else mret 0);
        zoom w_port (
          zoom p_diagnostics (diag_last_event_count <~ count);;
          zoom p_diagnostics (diag_last_event_code <~ last_code));;
        when (cfg_event_handler (p_config state))
          (event_dispatch (cfg_event_user (p_config state)) array count);;
        zoom w_port (zoom p_event (ev_request <~ IOLINK_MASTER_EVENT_REQ_NONE));;
        mret (IOLINK_MASTER_STATUS_OK, Some array, Some count)
    end
  end.
End services.
