(* ===== verification/EventReadout.v ===== *)
(** * Event readout: what it computes

    The event memory of the device (Table 58) is a StatusCode, whose bits 0-5 mark the
    active slots, and six entries of a qualifier and a 16-bit EventCode. The readout
    fetches the octets up to the last active slot, in frames of any widths, and the
    services decode the active entries in slot order. *)

From S2P Require Import Prelude Iolinki Reference Types Fixtures Events Isdu IsduResponse IsduRequest IsduService.

(** ** The event memory *)

Definition octet (memory : list Z) (i : Z) : Z := default 0 (rd memory i).

(** The active slots of a StatusCode, lowest first. *)
Definition active_slots (status : Z) : list Z := filter (fun slot => Z.testbit status slot) (upto 6).

(** The number of the last active slot, counted from 1; 0 when none is active. *)
Definition last_active (status : Z) : Z := foldl (fun _ slot => slot + 1) 0 (active_slots status).

(** The octets of the readout: StatusCode and the entries up to the last active one. *)
Definition readout_len (status : Z) : Z := 3 * last_active status + 1.

Definition event_entry (memory : list Z) (slot : Z) : iolink_master_event_t := {|
  evt_qualifier := octet memory (1 + 3 * slot);
  evt_type := iolink_master_event_type_from_qualifier (octet memory (1 + 3 * slot));
  evt_code := octet memory (2 + 3 * slot) * 256 + octet memory (3 + 3 * slot);
|}.

Definition event_entries (memory : list Z) : list iolink_master_event_t :=
  map (event_entry memory) (active_slots (octet memory 0)).

(** The slot tests of the code, for every StatusCode. *)
Lemma slot_active status slot :
  is_u8 status → 0 ≤ slot < 6 →
  (Z.land (u8 (Z.land status 0x3F)) (u8 (Z.shiftl 1 slot)) =? 0) = negb (Z.testbit status slot).
Proof.
  intros Hs Hslot. revert status Hs.
  assert (slot = 0 ∨ slot = 1 ∨ slot = 2 ∨ slot = 3 ∨ slot = 4 ∨ slot = 5) as Hc by lia.
  destruct Hc as [-> |[-> |[-> |[-> |[-> | ->]]]]]; apply forall_u8_eqb; vm_compute; reflexivity.
Qed.

Lemma highest_slot_ok status :
  is_u8 status → event_highest_slot (u8 (Z.land status 0x3F)) = last_active status.
Proof. revert status. apply forall_u8_eq. vm_compute. reflexivity. Qed.

Lemma last_active_range status : is_u8 status → 0 ≤ last_active status ≤ 6.
Proof. revert status. refine (forall_u8_dec _ _). vm_compute. reflexivity. Qed.

Lemma active_slots_range status slot :
  slot ∈ active_slots status → 0 ≤ slot < 6.
Proof. unfold active_slots. rewrite list_elem_of_filter, elem_of_upto. lia. Qed.

Lemma active_slots_last status slot :
  is_u8 status → slot ∈ active_slots status → slot < last_active status.
Proof.
  intros Hs. revert slot. apply list.Forall_forall. revert status Hs.
  refine (forall_u8_dec _ _). vm_compute. reflexivity.
Qed.

Lemma octet_u8 memory i : Forall is_u8 memory → is_u8 (octet memory i).
Proof.
  intros Hu. unfold octet. destruct (rd memory i) eqn:Hr; [by eapply (rd_Forall is_u8)|].
  unfold is_u8. simpl. lia.
Qed.

Lemma rd_octet memory i : 0 ≤ i < zlen memory → rd memory i = Some (octet memory i).
Proof. intros Hi. destruct (rd_Some memory i Hi) as [x Hx]. unfold octet. by rewrite Hx. Qed.

(** Entries depend only on the octets of the readout. *)
Lemma octet_prefix memory octets n i :
  take (Z.to_nat n) memory = take (Z.to_nat n) octets → 0 ≤ i < n → octet memory i = octet octets i.
Proof.
  intros Ht Hi. unfold octet. rewrite !rd_lookup by lia.
  rewrite <- (lookup_take_lt memory (Z.to_nat n)), Ht by lia. by rewrite lookup_take_lt by lia.
Qed.

Lemma event_entries_prefix memory octets :
  Forall is_u8 octets →
  let n := readout_len (octet octets 0) in
  take (Z.to_nat n) memory = take (Z.to_nat n) octets → event_entries memory = event_entries octets.
Proof.
  intros Hu n Ht. unfold event_entries. pose proof (octet_u8 octets 0 Hu) as H0.
  pose proof (last_active_range _ H0). unfold readout_len in n.
  rewrite (octet_prefix memory octets n 0) by (done || lia).
  apply map_ext_in. intros slot Hin%list_elem_of_In.
  pose proof (active_slots_range _ _ Hin). pose proof (active_slots_last _ _ H0 Hin).
  unfold event_entry. by rewrite !(octet_prefix memory octets n) by (done || lia).
Qed.

(** ** Decoding *)

Lemma slot_base_ok slot : 0 ≤ slot < 6 → event_slot_base slot = 1 + 3 * slot.
Proof. intros. unfold event_slot_base, IOLINK_MASTER_EVENT_ENTRY_LEN. apply u8_small. unfold is_u8. lia. Qed.

Lemma code_at_ok memory slot :
  Forall is_u8 memory → zlen memory = 19 → 0 ≤ slot < 6 →
  event_code_at memory (event_slot_base slot) = Some (evt_code (event_entry memory slot)).
Proof.
  intros Hu Hl Hs. rewrite slot_base_ok by done. unfold event_code_at.
  rewrite !u8_small by (unfold is_u8; lia). rewrite !rd_octet by lia.
  cbn [mbind option_bind evt_code event_entry]. rewrite be16 by auto using octet_u8.
  by replace (1 + 3 * slot + 1) with (2 + 3 * slot) by lia;
    replace (1 + 3 * slot + 2) with (3 + 3 * slot) by lia.
Qed.

Lemma first_code_loop_ok memory slots :
  Forall is_u8 memory → zlen memory = 19 → Forall (fun slot => 0 ≤ slot < 6) slots →
  event_first_code_loop memory (u8 (Z.land (octet memory 0) 0x3F)) slots =
    Some (match filter (fun slot => Z.testbit (octet memory 0) slot) slots with
          | [] => 0
          | slot :: _ => evt_code (event_entry memory slot)
          end).
Proof.
  intros Hu Hl Hs. induction Hs as [|slot slots Hslot Hs IH]; [done|]. simpl.
  rewrite slot_active, negb_involutive by auto using octet_u8. rewrite filter_cons.
  destruct (Z.testbit (octet memory 0) slot); simpl; [by apply code_at_ok|exact IH].
Qed.

Lemma upto_slots : Forall (fun slot => 0 ≤ slot < 6) (upto 6).
Proof. apply list.Forall_forall. intros slot. rewrite elem_of_upto. lia. Qed.

(** The code of the lowest active slot, 0 when none is active. *)
Definition first_code (entries : list iolink_master_event_t) : Z :=
  match entries with [] => 0 | entry :: _ => evt_code entry end.

Lemma first_code_ok memory :
  Forall is_u8 memory → zlen memory = 19 →
  iolink_master_event_first_code memory = Some (first_code (event_entries memory)).
Proof.
  intros Hu Hl. unfold iolink_master_event_first_code.
  rewrite rd_octet by lia. cbn [mbind option_bind].
  rewrite first_code_loop_ok by auto using upto_slots.
  unfold event_entries, active_slots. by destruct (filter _ _).
Qed.

Lemma decode_slots_ok memory max_events slots array count :
  Forall is_u8 memory → zlen memory = 19 → Forall (fun slot => 0 ≤ slot < 6) slots →
  0 ≤ count < max_events → max_events ≤ zlen array → max_events ≤ 255 →
  let entries := take (Z.to_nat (max_events - count))
    (map (event_entry memory) (filter (fun slot => Z.testbit (octet memory 0) slot) slots)) in
  event_decode_slots memory (u8 (Z.land (octet memory 0) 0x3F)) max_events slots array count =
    array' ← blit array count entries; Some (array', count + zlen entries).
Proof.
  intros Hu Hl Hs. revert array count.
  induction Hs as [|slot slots Hslot Hs IH]; intros array count Hc Ha Hm; simpl.
  - rewrite firstn_nil, blit_Some by slia. simpl. rewrite Nat.add_0_r, take_drop.
    by rewrite zlen_nil, Z.add_0_r.
  - rewrite slot_active by auto using octet_u8. rewrite filter_cons.
    destruct (Z.testbit (octet memory 0) slot); cbn [negb]; [|by apply IH].
    rewrite decide_True by done. rewrite code_at_ok by done. rewrite slot_base_ok by done.
    rewrite rd_octet by lia. cbn [mbind option_bind].
    change ({| evt_qualifier := _; evt_type := _; evt_code := _ |}) with (event_entry memory slot).
    rewrite (u8_small (count + 1)) by (unfold is_u8; lia).
    replace (Z.to_nat (max_events - count)) with (S (Z.to_nat (max_events - (count + 1)))) by lia.
    simpl. rewrite zlen_cons.
    destruct (Z.leb_spec max_events (count + 1)).
    + replace (Z.to_nat (max_events - (count + 1))) with 0%nat by lia.
      rewrite take_0, zlen_nil, <- wr_then_blit by (rewrite ?zlen_nil; lia).
      rewrite wr_Some by lia. cbn [mbind option_bind].
      rewrite blit_Some by (rewrite ?zlen_insert, ?zlen_nil; lia). simpl.
      by rewrite Nat.add_0_r, take_drop, Z.add_0_r.
    + rewrite <- wr_then_blit.
      * rewrite wr_Some by lia. cbn [mbind option_bind].
        rewrite IH by (rewrite ?zlen_insert; lia). by rewrite Z.add_assoc.
      * lia.
      * rewrite zlen_take. lia.
Qed.

(** Without room for an entry the first active slot is written out of bounds. *)
Lemma decode_slots_overrun memory slots :
  Forall is_u8 memory → zlen memory = 19 → Forall (fun slot => 0 ≤ slot < 6) slots →
  filter (fun slot => Z.testbit (octet memory 0) slot) slots ≠ [] →
  event_decode_slots memory (u8 (Z.land (octet memory 0) 0x3F)) 0 slots [] 0 = None.
Proof.
  intros Hu Hl Hs. induction Hs as [|slot slots Hslot Hs IH]; [done|]. simpl.
  rewrite slot_active, filter_cons by auto using octet_u8.
  destruct (Z.testbit (octet memory 0) slot); cbn [negb]; [intros _|exact IH].
  rewrite code_at_ok, slot_base_ok, rd_octet by (done || lia). done.
Qed.

(** ** Collecting the octets *)

Section collecting.
Context {IO : Iolinki}.
Implicit Types s : iolink_master_event_state_t.

(** The readout holds the octets [l]: they are at the start of the memory, and the
    StatusCode, once there, has fixed how many are needed. *)
Record ev_holds s (l : list Z) : Prop := {
  hold_memory : zlen (ev_memory s) = IOLINK_MASTER_EVENT_MEMORY_LEN;
  hold_u8 : Forall is_u8 (ev_memory s);
  hold_addr : ev_addr s = zlen l;
  hold_len : ev_len s = zlen l;
  hold_octets : take (length l) (ev_memory s) = l;
  hold_max : zlen l ≤ IOLINK_MASTER_EVENT_MEMORY_LEN;
  hold_status : match l with
    | [] => ev_status_seen s = false
    | status :: _ => ev_status_seen s = true ∧ ev_last_slot s = last_active status ∧
                     ev_needed s = readout_len status
    end;
}.

(** The octets a readout keeps of [l]: as many as the memory holds. *)
Definition kept (l : list Z) : list Z := take (Z.to_nat IOLINK_MASTER_EVENT_MEMORY_LEN) l.

(** Enough octets have arrived. *)
Definition readout_complete (l : list Z) : Prop :=
  match l with [] => False | status :: _ => readout_len status ≤ zlen l end.

Lemma holds_head s status l : ev_holds s (status :: l) → rd (ev_memory s) 0 = Some status.
Proof.
  intros [? ? ? ? Ht _ _]. rewrite rd_lookup by lia.
  rewrite <- (lookup_take_lt _ (length (status :: l))) by (simpl; lia). by rewrite Ht.
Qed.

(** The StatusCode is decoded with the first octet, and only then. *)
Lemma decode_status_ok s l (Q : unit → iolink_master_event_state_t → Prop) :
  Forall is_u8 l →
  zlen (ev_memory s) = 19 → Forall is_u8 (ev_memory s) → ev_addr s = zlen l →
  ev_len s = zlen l → take (length l) (ev_memory s) = l → zlen l ≤ 19 →
  match l with
  | [] => ev_status_seen s = false
  | [_] => True
  | status :: _ => ev_status_seen s = true ∧ ev_last_slot s = last_active status ∧
                   ev_needed s = readout_len status
  end →
  (length l = 1%nat → ev_status_seen s = false) →
  (∀ s', ev_holds s' l → ev_phase s' = ev_phase s → ev_request s' = ev_request s → Q tt s') →
  wp event_decode_status Q s.
Proof.
  intros Hul Hm Hu Ha Hl Ht Hmax Hst Hone HQ. unfold event_decode_status.
  apply wp_bind, wp_get, wp_when; intros Hc; norm_bool.
  - destruct l as [|status [|b l]]; [|clear Hst|].
    + rewrite zlen_nil in Hl. lia.
    + assert (rd (ev_memory s) 0 = Some status) as Hrd.
      { rewrite rd_lookup by lia. rewrite <- (lookup_take_lt _ (length [status])) by (simpl; lia).
        by rewrite Ht. }
      inversion Hul as [|? ? Hsu _]; subst. pose proof (last_active_range _ Hsu).
      apply wp_bind. eapply wp_mem; [exact Hrd|].
      rewrite highest_slot_ok by done. wp_steps. apply HQ; [|done..].
      split; cbn; try done. split_and!; [done..|]. unfold readout_len.
      destruct (Z.eqb_spec (last_active status) 0) as [->|]; [done|].
      unfold IOLINK_MASTER_EVENT_ENTRY_LEN. apply u8_small. unfold is_u8. lia.
    + destruct Hst as [Hst _]. congruence.
  - apply HQ; [|done..]. split; try done. destruct l as [|status [|b l]]; try done.
    exfalso. rewrite Hone, Hl in Hc by done. cbn in Hc. autorewrite with zlen in Hc. destruct Hc; [done|lia].
Qed.

Lemma readout_octet_ok s od i l b :
  ev_holds s l → Forall is_u8 l → rd od i = Some b → is_u8 b →
  wp (iolink_master_event_on_octet od i) (fun stop s' =>
    stop = false ∧ ev_holds s' (kept (l ++ [b])) ∧ ev_phase s' = ev_phase s ∧
    ev_request s' = ev_request s) s.
Proof.
  intros Hh Hul Hrd Hb. destruct Hh as [Hm Hu Ha Hl Ht Hmax Hst].
  unfold IOLINK_MASTER_EVENT_MEMORY_LEN in *.
  assert (zlen l = 19 ∨ zlen l < 19) as [He|Hlt] by lia.
  - assert (kept (l ++ [b]) = l) as ->.
    { unfold kept, IOLINK_MASTER_EVENT_MEMORY_LEN. rewrite take_app_le by (unfold zlen in He; lia).
      apply take_ge. unfold zlen in He. lia. }
    unfold iolink_master_event_on_octet. apply wp_bind, wp_get, wp_bind.
    apply wp_when; intros Hc; norm_bool; [unfold IOLINK_MASTER_EVENT_MEMORY_LEN in *; lia|].
    apply wp_bind, (decode_status_ok s l); try done.
    + by destruct l as [|? [|]].
    + intros Hone. unfold zlen in He. lia.
  - assert (kept (l ++ [b]) = l ++ [b]) as ->.
    { apply take_ge. rewrite length_app. unfold zlen, IOLINK_MASTER_EVENT_MEMORY_LEN in *. simpl. lia. }
    pose proof (zlen_nonneg l).
    unfold iolink_master_event_on_octet. apply wp_bind, wp_get, wp_bind.
    apply wp_when; intros Hc; norm_bool; [|unfold IOLINK_MASTER_EVENT_MEMORY_LEN in *; lia].
    apply wp_bind. eapply wp_mem; [exact Hrd|].
    apply wp_bind. eapply wp_mem; [apply wr_Some; lia|].
    apply wp_bind, wp_assign, wp_bind, wp_assign, wp_assign, wp_bind. cbn.
    rewrite Ha, Hl, !u8_small by (unfold is_u8; lia).
    apply (decode_status_ok _ (l ++ [b])); cbn.
    + by apply Forall_app_2; [|constructor].
    + by rewrite zlen_insert.
    + by apply Forall_insert.
    + slia.
    + slia.
    + replace (Z.to_nat (zlen l)) with (length l) by (unfold zlen; lia).
      apply take_insert_snoc; [done|]. unfold zlen in *. lia.
    + slia.
    + by destruct l as [|? [|]].
    + intros Hone. rewrite length_app in Hone. simpl in Hone.
      destruct l; [exact Hst|simpl in Hone; lia].
    + intros s' ? ? ?. by apply wp_ret.
Qed.

Lemma kept_app l k : kept (kept l ++ k) = kept (l ++ k).
Proof.
  unfold kept. generalize (Z.to_nat IOLINK_MASTER_EVENT_MEMORY_LEN). intros n.
  rewrite !take_app, take_take, Nat.min_id, length_take.
  destruct (Nat.le_gt_cases n (length l)).
  - by replace (n - n `min` length l)%nat with (n - length l)%nat by lia.
  - by replace (n `min` length l)%nat with (length l) by lia.
Qed.

(** The state after the last octet that was needed: the memory, and the phase, by the
    service that asked. *)
Definition readout_done s (l : list Z) : Prop :=
  zlen (ev_memory s) = IOLINK_MASTER_EVENT_MEMORY_LEN ∧ Forall is_u8 (ev_memory s) ∧
  take (length l) (ev_memory s) = l ∧
  ev_last_slot s = last_active (octet l 0) ∧
  (ev_request s = IOLINK_MASTER_EVENT_REQ_ACK → ev_addr s = 0) ∧
  ev_phase s = if ev_request s =e IOLINK_MASTER_EVENT_REQ_ACK
               then IOLINK_MASTER_EVENT_PHASE_WRITE else IOLINK_MASTER_EVENT_PHASE_NONE.

Lemma event_on_od_ok s l od od_len :
  ev_phase s = IOLINK_MASTER_EVENT_PHASE_READ → ev_holds s l → Forall is_u8 l →
  Forall is_u8 od → 0 ≤ od_len ≤ zlen od →
  let l' := kept (l ++ take (Z.to_nat od_len) od) in
  wp (iolink_master_event_on_od PTR (Some od) od_len) (fun _ s' =>
    ev_request s' = ev_request s ∧
    ((readout_complete l' ∧ readout_done s' l') ∨
     (¬ readout_complete l' ∧ ev_phase s' = IOLINK_MASTER_EVENT_PHASE_READ ∧ ev_holds s' l'))) s.
Proof.
  intros Hph Hh Hul Huod Hlen l'. apply wp_bind, wp_get. rewrite Hph. cbn [ptr_null].
  apply wp_if; intros Hc; [done|]. clear Hc. apply wp_bind.
  eapply (wp_for_loop _ _ (fun n s' => ev_holds s' (kept (l ++ take n od)) ∧
    ev_phase s' = ev_phase s ∧ ev_request s' = ev_request s)).
  - rewrite take_0, app_nil_r. split; [|done].
    destruct Hh as [? ? ? ? ? Hmax ?]. unfold kept. rewrite take_ge; [by split|].
    unfold zlen in Hmax. lia.
  - intros n i s1 Hi (Hh1 & Hp1 & Hr1). apply lookup_upto in Hi as [-> Hi].
    destruct (rd_Some od (Z.of_nat n)) as [b Hb]; [lia|].
    eapply wp_mono; [apply (readout_octet_ok s1 od _ (kept (l ++ take n od)) b); try done|].
    + by apply Forall_take, Forall_app_2, Forall_take.
    + by eapply (rd_Forall is_u8).
    + intros stop s2 (-> & Hh2 & Hp2 & Hr2). rewrite rd_lookup, Nat2Z.id in Hb by lia.
      rewrite (take_S_r _ _ b Hb). rewrite kept_app, <- app_assoc in Hh2. split_and!; congruence || done.
  - intros s1 (Hh1 & Hp1 & Hr1). apply wp_bind, wp_get.
    replace (length (upto od_len)) with (Z.to_nat od_len) in Hh1
      by (unfold upto; by rewrite length_seqZ). fold l' in Hh1. clearbody l'.
    pose proof Hh1 as [Hm Hu Ha Hl Ht Hmax Hst].
    apply wp_when; intros Hc; norm_bool.
    + destruct l' as [|status l']; [congruence|]. destruct Hst as (_ & Hlast & Hneed).
      unfold iolink_master_event_finish. apply wp_if; intros Hack; norm_bool; wp_steps; cbn.
      all: split; [done|]; left; split; [simpl; lia|].
      all: unfold readout_done; cbn; split_and!; try done.
      * by rewrite bool_decide_eq_true_2.
      * by rewrite bool_decide_eq_false_2.
    + split; [done|]. right. split; [|split; [congruence|done]].
      destruct l' as [|status l']; [naive_solver|]. destruct Hst as (Hs & _ & Hneed).
      rewrite Hs in Hc. simpl. rewrite zlen_cons in *. pose proof (zlen_nonneg l').
      destruct Hc as [[?|Hc]|Hc]; [done| |]; lia.
Qed.

(** A device's replies to the diagnosis reads, one frame each. *)
Fixpoint event_receive (replies : list (list Z)) : M iolink_master_event_state_t unit :=
  match replies with
  | [] => mret tt
  | od :: replies =>
      iolink_master_event_on_od PTR (Some od) (zlen od);;
      event_receive replies
  end.

Lemma event_receive_idle s replies :
  ev_phase s ≠ IOLINK_MASTER_EVENT_PHASE_READ → event_receive replies s = Ok tt s.
Proof.
  intros Hp. induction replies as [|od replies IH]; [done|]. simpl.
  unfold mbind, M_bind. simpl. unfold mbind, M_bind. simpl.
  by rewrite bool_decide_eq_false_2.
Qed.

(** StatusCode and entries fit the memory. *)
Lemma complete_kept l : Forall is_u8 l → ¬ readout_complete (kept l) → kept l = l.
Proof.
  intros Hu Hn. unfold kept, IOLINK_MASTER_EVENT_MEMORY_LEN in *. apply take_ge.
  destruct l as [|status l]; [simpl; lia|]. inversion Hu as [|? ? Hs _]; subst.
  pose proof (last_active_range _ Hs). simpl in Hn. rewrite zlen_cons, zlen_take in Hn.
  unfold readout_len, zlen in Hn. simpl. lia.
Qed.

Lemma complete_app l k : readout_complete l → readout_complete (l ++ k).
Proof. destruct l; [done|]. simpl. autorewrite with zlen. pose proof (zlen_nonneg k). lia. Qed.

Lemma receive_ok s l replies :
  ev_phase s = IOLINK_MASTER_EVENT_PHASE_READ → ev_holds s l → Forall is_u8 l →
  Forall (Forall is_u8) replies → ¬ readout_complete l →
  readout_complete (l ++ concat replies) →
  wp (event_receive replies) (fun _ s' =>
    ev_request s' = ev_request s ∧
    ∃ l', l' `prefix_of` l ++ concat replies ∧ readout_complete l' ∧ readout_done s' l') s.
Proof.
  intros Hp Hh Hul Hur. revert s l Hp Hh Hul.
  induction Hur as [|od replies Hod Hur IH]; intros s l Hp Hh Hul Hn Hc; simpl.
  { simpl in Hc. by rewrite app_nil_r in Hc. }
  apply wp_bind. eapply wp_mono; [apply (event_on_od_ok s l); try done|].
  { pose proof (zlen_nonneg od). lia. }
  intros ? s1 (Hreq & Hcase).
  assert (take (Z.to_nat (zlen od)) od = od) as Htake by (apply take_ge; unfold zlen; lia).
  rewrite Htake in Hcase. destruct Hcase as [[Hc1 Hd]|(Hn1 & Hp1 & Hh1)].
  - unfold wp. rewrite event_receive_idle; [|].
    + split; [done|]. exists (kept (l ++ od)). split_and!; [|done..].
      unfold kept. simpl. rewrite app_assoc. apply prefix_app_r, prefix_take.
    + destruct Hd as (_ & _ & _ & _ & _ & ->). by case_bool_decide.
  - assert (Forall is_u8 (l ++ od)) as Hua by by apply Forall_app_2.
    pose proof (complete_kept _ Hua Hn1) as Hk. rewrite Hk in Hn1, Hh1.
    simpl in Hc |- *. rewrite app_assoc in Hc |- *.
    eapply wp_mono; [by apply (IH s1 (l ++ od))|].
    intros ? s2 (-> & Hl'). done.
Qed.
End collecting.

(** ** The services *)

Section services.
Context {IO : Iolinki}.
Implicit Types p : iolink_master_port_state_t.

(** No readout is active and none is waiting to be consumed. *)
Definition event_idle (ev : iolink_master_event_state_t) : Prop :=
  ev_phase ev = IOLINK_MASTER_EVENT_PHASE_NONE ∧ ev_request ev = IOLINK_MASTER_EVENT_REQ_NONE.

Lemma start_holds ev request :
  let ev' := final (iolink_master_event_start request) ev in
  iolink_master_event_start request ev = Ok tt ev' ∧ ev_holds ev' [] ∧
  ev_phase ev' = IOLINK_MASTER_EVENT_PHASE_READ ∧ ev_request ev' = request.
Proof. by repeat split; try (apply zeros_Forall; unfold is_u8; lia). Qed.

Lemma gate_starts p request :
  acyclic_state (p_state p) → event_idle (p_event p) →
  wp (event_service_gate request) (fun r p' => r = Some IOLINK_MASTER_STATUS_PENDING ∧
    p' = p <| p_event := final (iolink_master_event_start request) (p_event p) |>) p.
Proof.
  intros Hst (Hp & Hr). apply wp_bind, wp_get. rewrite acyclic_guard, Hp by done.
  unfold iolink_master_event_complete. rewrite Hp, Hr. cbn [negb].
  apply wp_bind, wp_zoom. destruct (start_holds (p_event p) request) as (Heq & _).
  eapply wp_ok; [exact Heq|]. by apply wp_ret.
Qed.

Lemma gate_done p request :
  acyclic_state (p_state p) → ev_phase (p_event p) = IOLINK_MASTER_EVENT_PHASE_NONE →
  ev_request (p_event p) ≠ IOLINK_MASTER_EVENT_REQ_NONE →
  event_service_gate request p = Ok None p.
Proof.
  intros Hst Hp Hr. unfold event_service_gate, mbind, M_bind. simpl.
  rewrite acyclic_guard, Hp by done. unfold iolink_master_event_complete. rewrite Hp.
  by rewrite (bool_decide_eq_false_2 _ Hr).
Qed.

(** A readout of [octets] as the services find it. *)
Definition readout_memory (ev : iolink_master_event_state_t) (octets : list Z) : Prop :=
  Forall is_u8 (ev_memory ev) ∧ zlen (ev_memory ev) = 19 ∧
  event_entries (ev_memory ev) = event_entries octets ∧
  ev_last_slot ev = last_active (octet octets 0).

Definition readout_ready (ev : iolink_master_event_state_t) (octets : list Z) : Prop :=
  ev_phase ev = IOLINK_MASTER_EVENT_PHASE_NONE ∧ readout_memory ev octets.

Lemma readout_complete_entries memory l octets :
  Forall is_u8 octets → l `prefix_of` octets → readout_complete l →
  take (length l) memory = l →
  event_entries memory = event_entries octets ∧ octet octets 0 = octet l 0.
Proof.
  intros Hu [k ->] Hc Ht. destruct l as [|status l]; [done|]. split; [|done].
  apply event_entries_prefix; [done|]. change (octet ((status :: l) ++ k) 0) with status.
  simpl in Hc.
  rewrite take_app_le by (unfold zlen in Hc; lia). rewrite <- Ht.
  rewrite take_take. f_equal. unfold zlen in Hc. lia.
Qed.

(** The device answers a readout that has just been started. *)
Lemma event_readout p request replies :
  Forall (Forall is_u8) replies → readout_complete (concat replies) →
  wp (event_receive replies) (fun _ ev => ev_request ev = request ∧
    readout_memory ev (concat replies) ∧
    (request = IOLINK_MASTER_EVENT_REQ_ACK → ev_addr ev = 0) ∧
    ev_phase ev = if request =e IOLINK_MASTER_EVENT_REQ_ACK
                  then IOLINK_MASTER_EVENT_PHASE_WRITE else IOLINK_MASTER_EVENT_PHASE_NONE)
    (final (iolink_master_event_start request) (p_event p)).
Proof.
  intros Hu Hc. destruct (start_holds (p_event p) request) as (_ & Hh & Hp & Hr).
  eapply wp_mono; [apply (receive_ok _ []); try done; by intros []|].
  intros ? ev (Hr' & l & Hpre & Hcl & Hm & Hum & Ht & Hlast & Haddr & Hph). split; [congruence|].
  assert (Forall is_u8 (concat replies)) as Huc by by apply Forall_concat.
  destruct (readout_complete_entries _ _ _ Huc Hpre Hcl Ht) as [He H0].
  rewrite Hr', Hr in Hph, Haddr. rewrite <- H0 in Hlast. by split.
Qed.
End services.

(** The calls of the handler, in order. *)
Lemma dispatch_ok user events count w :
  0 ≤ count ≤ zlen events →
  event_dispatch user events count w =
    Ok tt (w <| w_io := w_io w ++ map (IoEvent user) (take (Z.to_nat count) events) |>).
Proof.
  intros Hc. unfold event_dispatch.
  rewrite (for_loop_rd events count (fun event => world ← get;
    w_io <~ w_io world ++ [IoEvent user event];; mret false)) by done.
  revert w. induction (take (Z.to_nat count) events) as [|e l IH]; intros [port tr]; simpl.
  - cbn. by rewrite app_nil_r.
  - unfold mbind, M_bind. simpl. rewrite IH. cbn. by rewrite <- app_assoc.
Qed.

(** An array with room for every entry. *)
Lemma take_all_entries (entries : list iolink_master_event_t) max_events :
  zlen entries ≤ max_events → take (Z.to_nat max_events) entries = entries.
Proof. intros H. apply take_ge. unfold zlen in H. lia. Qed.

(** ** Whole readouts *)

Section transactions.
Context {IO : Iolinki}.
Implicit Types (p : iolink_master_port_state_t) (w : world).

(** The application asks for the event details, the device answers the diagnosis reads
    with [replies], the application asks again. *)
Definition event_details_transaction (replies : list (list Z))
    (array : list iolink_master_event_t) (max_events : Z)
    : M world (Z * (Z * option (list iolink_master_event_t) * option Z)) :=
  '(ret, _, _) ← iolink_master_read_event_details PTR (Some array) max_events (Some 0);
  zoom w_port (zoom p_event (event_receive replies));;
  result ← iolink_master_read_event_details PTR (Some array) max_events (Some 0);
  mret (ret, result).

Lemma details_start w array max_events :
  acyclic_state (p_state (w_port w)) → event_idle (p_event (w_port w)) →
  wp (iolink_master_read_event_details PTR (Some array) max_events (Some 0)) (fun r w' =>
    r = (IOLINK_MASTER_STATUS_PENDING, Some array, Some 0) ∧ w_io w' = w_io w ∧
    w_port w' = w_port w <| p_event := final
      (iolink_master_event_start IOLINK_MASTER_EVENT_REQ_DETAILS) (p_event (w_port w)) |>) w.
Proof.
  intros Hst Hid. unfold iolink_master_read_event_details. cbn [ptr_null null orb].
  apply wp_bind, wp_zoom. eapply wp_mono; [by apply gate_starts|].
  intros r p' [-> ->]. by apply wp_ret.
Qed.

Lemma details_ok w octets array max_events :
  acyclic_state (p_state (w_port w)) → readout_ready (p_event (w_port w)) octets →
  ev_request (p_event (w_port w)) = IOLINK_MASTER_EVENT_REQ_DETAILS →
  1 ≤ max_events ≤ 255 → max_events ≤ zlen array →
  let entries := take (Z.to_nat max_events) (event_entries octets) in
  wp (iolink_master_read_event_details PTR (Some array) max_events (Some 0)) (fun r w' =>
    r = (IOLINK_MASTER_STATUS_OK, Some (entries ++ drop (length entries) array),
         Some (zlen entries)) ∧
    w_io w' = w_io w ++ (if cfg_event_handler (p_config (w_port w))
                         then map (IoEvent (cfg_event_user (p_config (w_port w)))) entries
                         else []) ∧
    event_idle (p_event (w_port w')) ∧
    diag_last_event_count (p_diagnostics (w_port w')) = zlen entries) w.
Proof.
  intros Hst (Hph & Hu & Hl & He & Hlast) Hreq Hmax Harr entries.
  unfold iolink_master_read_event_details. cbn [ptr_null null orb].
  apply wp_bind, wp_zoom.
  eapply wp_ok; [apply gate_done; try done; by rewrite Hreq|].
  replace (w <| w_port := w_port w |>) with w by (by destruct w).
  apply wp_bind, wp_get. cbv zeta.
  apply wp_bind. eapply wp_mem; [apply rd_octet; lia|].
  assert (entries = take (Z.to_nat (max_events - 0))
    (map (event_entry (ev_memory (p_event (w_port w))))
       (filter (fun slot => Z.testbit (octet (ev_memory (p_event (w_port w))) 0) slot) (upto 6))))
    as Hent.
  { unfold entries. rewrite <- He, Z.sub_0_r. done. }
  assert (zlen entries ≤ zlen array) as Hfit by (unfold entries; rewrite zlen_take; lia).
  apply wp_bind. eapply wp_mem.
  { unfold IOLINK_MASTER_EVENT_SLOT_MAX.
    rewrite decode_slots_ok by (auto using upto_slots; lia). rewrite <- Hent.
    rewrite blit_Some by lia. done. }
  cbn [mbind option_bind fst snd]. rewrite take_0, Z.add_0_l. cbn [app].
  set (array' := entries ++ _).
  assert (0 ≤ zlen entries ≤ zlen array') as Hca.
  { unfold array'. rewrite zlen_app, zlen_drop. pose proof (zlen_nonneg entries). lia. }
  assert (take (Z.to_nat (zlen entries)) array' = entries) as Htake.
  { unfold array', zlen. by rewrite Nat2Z.id, take_app_length. }
  apply wp_bind.
  eapply (wp_mono _ (fun code w' => w' = w)).
  { apply wp_if; intros Hc; norm_bool; [|by apply wp_ret].
    destruct (rd_Some array' (zlen entries - 1)) as [e Hrd]; [lia|].
    apply wp_bind. eapply wp_mem; [exact Hrd|]. by apply wp_ret. }
  intros code ? ->. apply wp_bind, wp_zoom, wp_bind, wp_zoom, wp_assign, wp_zoom, wp_assign.
  apply wp_bind.
  eapply (wp_mono _ (fun _ w' => w_io w' = w_io w ++ (if cfg_event_handler (p_config (w_port w))
      then map (IoEvent (cfg_event_user (p_config (w_port w)))) entries else []) ∧
      p_event (w_port w') = p_event (w_port w) ∧
      diag_last_event_count (p_diagnostics (w_port w')) = zlen entries)).
  { apply wp_when; intros Hh; rewrite Hh; cbn.
    - eapply wp_ok; [by apply dispatch_ok|]. cbn. by rewrite Htake.
    - by rewrite app_nil_r. }
  intros ? w' (Hio & Hev & Hd). apply wp_bind, wp_zoom, wp_zoom, wp_assign, wp_ret. cbn.
  split; [done|]. split; [done|]. split; [|done]. split; cbn; [by rewrite Hev|done].
Qed.

(** A readout into an array of any size: at most the first [max_events] entries. *)
Lemma details_readout w replies array max_events :
  acyclic_state (p_state (w_port w)) → event_idle (p_event (w_port w)) →
  Forall (Forall is_u8) replies → readout_complete (concat replies) →
  1 ≤ max_events ≤ 255 → max_events ≤ zlen array →
  let entries := take (Z.to_nat max_events) (event_entries (concat replies)) in
  wp (event_details_transaction replies array max_events) (fun '(ret, result) w' =>
    ret = IOLINK_MASTER_STATUS_PENDING ∧
    result = (IOLINK_MASTER_STATUS_OK, Some (entries ++ drop (length entries) array),
              Some (zlen entries)) ∧
    w_io w' = w_io w ++ (if cfg_event_handler (p_config (w_port w))
                         then map (IoEvent (cfg_event_user (p_config (w_port w)))) entries
                         else []) ∧
    event_idle (p_event (w_port w'))) w.
Proof.
  intros Hst Hid Hu Hc Hmax Harr entries. apply wp_bind.
  eapply wp_mono; [by apply details_start|]. intros ? w1 (-> & Hio1 & Hp1).
  apply wp_bind, wp_zoom, wp_zoom. rewrite Hp1. cbn [p_event set].
  eapply wp_mono; [by apply event_readout|]. intros ? ev (Hreq & Hm & _ & Hph).
  apply wp_bind. eapply wp_mono; [by apply (details_ok _ (concat replies))|].
  intros result w2 (-> & Hio2 & Hid2 & _). apply wp_ret. cbn in Hio2. rewrite Hio1 in Hio2. done.
Qed.

(** C24: a readout of the event details into an array with room for every active entry.
    The first call returns PENDING; once the device has returned the StatusCode and the
    entries up to the last active slot, in frames of any widths, the second call returns
    OK with all active entries in slot order, leaves the rest of the array alone, and
    hands each entry to the application's handler, in order and once. *)
Theorem read_event_details_end_to_end w replies array max_events :
  acyclic_state (p_state (w_port w)) → event_idle (p_event (w_port w)) →
  Forall (Forall is_u8) replies → readout_complete (concat replies) →
  1 ≤ max_events ≤ 255 → max_events ≤ zlen array →
  let entries := event_entries (concat replies) in
  zlen entries ≤ max_events →
  wp (event_details_transaction replies array max_events) (fun '(ret, result) w' =>
    ret = IOLINK_MASTER_STATUS_PENDING ∧
    result = (IOLINK_MASTER_STATUS_OK, Some (entries ++ drop (length entries) array),
              Some (zlen entries)) ∧
    w_io w' = w_io w ++ (if cfg_event_handler (p_config (w_port w))
                         then map (IoEvent (cfg_event_user (p_config (w_port w)))) entries
                         else []) ∧
    event_idle (p_event (w_port w'))) w.
Proof.
  intros Hst Hid Hu Hc Hmax Harr entries Hfit. unfold entries in *. clear entries.
  pose proof (details_readout w replies array max_events Hst Hid Hu Hc Hmax Harr) as H.
  cbv zeta in H. by rewrite (take_all_entries _ _ Hfit) in H.
Qed.

(** An array that is too small for the active entries is filled with the first of them and
    the call returns OK: the caller is not told that entries are missing, although the
    documentation of the function promises [IOLINK_MASTER_ERR_BUFFER_TOO_SMALL] and a
    comment at the break wants the overflow signalled. *)
Theorem read_event_details_cut_short w replies array max_events :
  acyclic_state (p_state (w_port w)) → event_idle (p_event (w_port w)) →
  Forall (Forall is_u8) replies → readout_complete (concat replies) →
  1 ≤ max_events ≤ 255 → max_events ≤ zlen array →
  max_events < zlen (event_entries (concat replies)) →
  wp (event_details_transaction replies array max_events) (fun '(ret, result) _ =>
    ret = IOLINK_MASTER_STATUS_PENDING ∧
    result = (IOLINK_MASTER_STATUS_OK,
              Some (take (Z.to_nat max_events) (event_entries (concat replies)) ++ drop (Z.to_nat max_events) array),
              Some max_events)) w.
Proof.
  intros Hst Hid Hu Hc Hmax Harr Hmore.
  pose proof (details_readout w replies array max_events Hst Hid Hu Hc Hmax Harr) as H. cbv zeta in H.
  assert (length (take (Z.to_nat max_events) (event_entries (concat replies))) = Z.to_nat max_events) as Hl.
  { rewrite length_take. unfold zlen in Hmore. lia. }
  eapply wp_mono; [exact H|]. intros [ret result] w' (-> & -> & _). split; [done|].
  unfold zlen. rewrite Hl. by rewrite Z2Nat.id by lia.
Qed.

(** The application acknowledges the events: the device answers the diagnosis reads,
    the confirmation is written, the application asks again. The third component is the
    channel access the transmitter sees for the confirmation. *)
Definition event_ack_transaction (replies : list (list Z))
    : M iolink_master_port_state_t (Z * option (bool * Z * Z) * (Z * option Z)) :=
  '(ret, _) ← iolink_master_ack_event PTR (Some 0);
  zoom p_event (event_receive replies);;
  access ← gets (fun state => iolink_master_event_channel_access (Some state));
  zoom p_event (iolink_master_event_on_written PTR);;
  result ← iolink_master_ack_event PTR (Some 0);
  mret (ret, access, result).

Lemma ack_done p octets :
  acyclic_state (p_state p) → readout_ready (p_event p) octets →
  ev_request (p_event p) = IOLINK_MASTER_EVENT_REQ_ACK →
  wp (iolink_master_ack_event PTR (Some 0)) (fun r p' =>
    r = (IOLINK_MASTER_STATUS_OK, Some (first_code (event_entries octets))) ∧
    event_idle (p_event p') ∧
    diag_last_event_code (p_diagnostics p') = first_code (event_entries octets)) p.
Proof.
  intros Hst (Hph & Hu & Hl & He & _) Hreq.
  unfold iolink_master_ack_event. cbn [ptr_null null orb].
  apply wp_bind. eapply wp_ok; [apply gate_done; try done; by rewrite Hreq|].
  apply wp_bind, wp_get, wp_bind. eapply wp_mem; [by apply first_code_ok|]. rewrite He.
  apply wp_bind, wp_zoom, wp_assign, wp_bind, wp_zoom, wp_assign, wp_ret. cbn.
  split; [done|]. by split; [split|].
Qed.

(** Acknowledging events. The first call returns PENDING; when the event memory has
    been read the transport asks for a write to address 0, the confirmation that lets
    the device release the events, and only then the second call returns OK with the
    EventCode of the lowest active slot, 0 when the device reported none. *)
Theorem ack_event_end_to_end p replies :
  acyclic_state (p_state p) → event_idle (p_event p) →
  Forall (Forall is_u8) replies → readout_complete (concat replies) →
  wp (event_ack_transaction replies) (fun '(ret, access, result) p' =>
    ret = IOLINK_MASTER_STATUS_PENDING ∧ access = Some (false, 0, p_od_len p) ∧
    result = (IOLINK_MASTER_STATUS_OK, Some (first_code (event_entries (concat replies)))) ∧
    event_idle (p_event p') ∧
    diag_last_event_code (p_diagnostics p') = first_code (event_entries (concat replies))) p.
Proof.
  intros Hst Hid Hu Hc. apply wp_bind. unfold iolink_master_ack_event at 1.
  cbn [ptr_null null orb]. apply wp_bind. eapply wp_mono; [by apply gate_starts|].
  intros r p1 [-> ->]. apply wp_ret. apply wp_bind, wp_zoom. cbn [p_event set].
  eapply wp_mono; [by apply event_readout|]. intros ? ev (Hreq & Hm & Haddr & Hph).
  apply wp_bind, wp_gets. cbn. rewrite Hph, Haddr by done. cbn.
  apply wp_bind, wp_zoom, wp_bind, wp_get. cbn. rewrite Hph.
  unfold iolink_master_event_finish. apply wp_bind, wp_assign, wp_bind, wp_assign, wp_assign.
  apply wp_bind. eapply wp_mono; [by apply (ack_done _ (concat replies))|].
  intros result p2 (-> & Hid2 & Hd). by apply wp_ret.
Qed.

(** C39: a caller that offers no room for events gets the first one written past its
    array all the same: with [max_events] 0 and an active slot the call writes
    [events[0]]. *)
Theorem read_event_details_zero_capacity_overruns w octets :
  acyclic_state (p_state (w_port w)) → readout_ready (p_event (w_port w)) octets →
  ev_request (p_event (w_port w)) = IOLINK_MASTER_EVENT_REQ_DETAILS →
  event_entries octets ≠ [] →
  iolink_master_read_event_details PTR (Some []) 0 (Some 0) w = Ub.
Proof.
  intros Hst (Hph & Hu & Hl & He & _) Hreq Hne.
  unfold iolink_master_read_event_details, mbind, M_bind, zoom. cbn [ptr_null null orb].
  rewrite gate_done by (done || by rewrite Hreq).
  replace (w <| w_port := w_port w |>) with w by (by destruct w).
  cbn [get]. rewrite rd_octet by lia. cbn [mem mret M_ret].
  unfold IOLINK_MASTER_EVENT_SLOT_MAX. rewrite decode_slots_overrun; [done|done..|apply upto_slots|].
  intros Hnil. apply Hne. rewrite <- He. unfold event_entries, active_slots.
  by rewrite Hnil.
Qed.
End transactions.

(** ** Witnesses *)

(** Slots 1 and 3 are active: a notification 0x1234 and a warning 0x5678; the entry of
    slot 2 is transferred but not active. *)
Definition wit_event_replies : list (list Z) :=
  [[0x85; 0x14]; [0x12; 0x34]; [0; 0]; [0; 0x24]; [0x56; 0x78]].

Definition wit_event_world : world := {|
  w_port := fix_port [] IOLINK_MASTER_STATE_OPERATE
    <| p_config := fix_config <| cfg_event_handler := true |> <| cfg_event_user := 7 |> |>;
  w_io := [] |}.

Definition wit_no_event : iolink_master_event_t := {|
  evt_qualifier := 0; evt_type := IOLINK_MASTER_EVENT_TYPE_UNKNOWN; evt_code := 0 |}.

Example wit_event_entries : event_entries (concat wit_event_replies) = [
  {| evt_qualifier := 0x14; evt_type := IOLINK_MASTER_EVENT_TYPE_NOTIFICATION; evt_code := 0x1234 |};
  {| evt_qualifier := 0x24; evt_type := IOLINK_MASTER_EVENT_TYPE_WARNING; evt_code := 0x5678 |}].
Proof. vm_compute. reflexivity. Qed.

Lemma read_event_details_end_to_end_witness :
  let entries := event_entries (concat wit_event_replies) in
  wp (event_details_transaction wit_event_replies (replicate 4 wit_no_event) 4)
    (fun '(ret, result) w' =>
      ret = IOLINK_MASTER_STATUS_PENDING ∧
      result = (IOLINK_MASTER_STATUS_OK,
                Some (entries ++ drop (length entries) (replicate 4 wit_no_event)),
                Some (zlen entries)) ∧
      w_io w' = w_io wit_event_world ++ map (IoEvent 7) entries ∧
      event_idle (p_event (w_port w'))) wit_event_world.
Proof.
  apply (read_event_details_end_to_end wit_event_world wit_event_replies
           (replicate 4 wit_no_event) 4);
    [by left|by split|decide_here| |split; vm_compute; discriminate|vm_compute; discriminate..].
  vm_compute. discriminate.
Defined.

(** Two entries are active, the array holds one. *)
Lemma read_event_details_cut_short_witness :
  wp (event_details_transaction wit_event_replies [wit_no_event] 1) (fun '(ret, result) _ =>
    ret = IOLINK_MASTER_STATUS_PENDING ∧
    result = (IOLINK_MASTER_STATUS_OK, Some (take 1 (event_entries (concat wit_event_replies))), Some 1))
    wit_event_world.
Proof.
  apply (read_event_details_cut_short wit_event_world wit_event_replies [wit_no_event] 1);
    [by left|by split|decide_here|vm_compute; discriminate|split; vm_compute; discriminate|
     vm_compute; discriminate|vm_compute; reflexivity].
Defined.

Lemma ack_event_end_to_end_witness :
  wp (event_ack_transaction wit_event_replies) (fun '(ret, access, result) p' =>
    ret = IOLINK_MASTER_STATUS_PENDING ∧ access = Some (false, 0, 2) ∧
    result = (IOLINK_MASTER_STATUS_OK, Some (first_code (event_entries (concat wit_event_replies)))) ∧
    event_idle (p_event p') ∧
    diag_last_event_code (p_diagnostics p') = first_code (event_entries (concat wit_event_replies)))
    (fix_port [] IOLINK_MASTER_STATE_OPERATE).
Proof.
  apply (ack_event_end_to_end (fix_port [] IOLINK_MASTER_STATE_OPERATE) wit_event_replies);
    [by left|by split|decide_here|vm_compute; discriminate].
Defined.

(** A port whose readout of [wit_event_replies] is complete. *)
Definition wit_readout : iolink_master_event_state_t :=
  final (event_receive wit_event_replies)
    (final (iolink_master_event_start IOLINK_MASTER_EVENT_REQ_DETAILS) event_state_zero).

Lemma wit_readout_ready : readout_ready wit_readout (concat wit_event_replies).
Proof.
  assert (wp (event_receive wit_event_replies)
    (fun _ ev => readout_ready ev (concat wit_event_replies))
    (final (iolink_master_event_start IOLINK_MASTER_EVENT_REQ_DETAILS) event_state_zero)) as Hwp.
  { eapply wp_mono.
    - apply (event_readout (fix_port [] IOLINK_MASTER_STATE_OPERATE)
               IOLINK_MASTER_EVENT_REQ_DETAILS wit_event_replies);
        [decide_here|vm_compute; discriminate].
    - intros ? ev (_ & Hm & _ & Hph). by split. }
  exact (wp_final _ _ _ Hwp).
Qed.

Lemma read_event_details_zero_capacity_overruns_witness :
  iolink_master_read_event_details PTR (Some []) 0 (Some 0) {|
    w_port := fix_port [] IOLINK_MASTER_STATE_OPERATE <| p_event := wit_readout |>;
    w_io := [] |} = Ub.
Proof.
  apply (read_event_details_zero_capacity_overruns _ (concat wit_event_replies));
    [by left|exact wit_readout_ready|vm_compute; reflexivity|vm_compute; discriminate].
Defined.
