(* ===== verification/Hal.v ===== *)
(** * Timing conversions and PHY access ([src/master_port.c], first part)

    Bit times and deadlines in 100 us ticks, and the functions that drive the PHY
    through the checked configuration hooks or the raw [iolink_phy_api_t]. They run
    on a [world]: the port and the trace of the calls made to its environment. *)

From S2P Require Import Prelude Iolinki Reference Types Fixtures.

(** Call a function pointer: its answer may depend on every earlier call. *)
Definition call {A : Type} (f : list io → A) (entry : A → io) : M world A :=
  w ← get;
  let a := f (w_io w) in
  w_io <~ w_io w ++ [entry a];;
  mret a.

Definition emit (entry : io) : M world unit :=
  w ← get;
  w_io <~ w_io w ++ [entry].

(** [port->state = state] *)
Definition goto (state : iolink_master_state_t) : M world unit :=
  zoom w_port (p_state <~ state).

(** [port->startup.step = step] *)
Definition startup_goto (step : iolink_master_startup_step_t) : M world unit :=
  zoom w_port (zoom p_startup (su_step <~ step)).

(** [port->diagnostics.counter++] on a [uint32_t]. *)
Definition count_up (counter : iolink_master_diagnostics_t → Z) `{!Setter counter}
    : M world unit :=
  zoom w_port (zoom p_diagnostics (
    diagnostics ← get;
    counter <~ u32 (counter diagnostics + 1))).

(** ** Timing *)

(** COM3, COM2, COM1: the test-message rates in the order of the scan. *)
Definition g_iolink_master_baudrate_scan : list iolink_baudrate_t :=
  [IOLINK_BAUDRATE_COM3; IOLINK_BAUDRATE_COM2; IOLINK_BAUDRATE_COM1].

Definition iolink_master_startup_validation_required (config : iolink_master_config_t)
    : bool :=
  cfg_validate_device_info config ||
  (cfg_inspection_level config <>e IOLINK_MASTER_INSPECTION_NO_CHECK).

(** [None] is a read outside the scan table. *)
Definition iolink_master_startup_baudrate (state : iolink_master_port_state_t)
    : option iolink_baudrate_t :=
  if cfg_auto_baudrate (p_config state)
  then rd g_iolink_master_baudrate_scan (su_baudrate_index (p_startup state))
  else Some (cfg_baudrate (p_config state)).

Definition iolink_master_t_bit_ns (baudrate : iolink_baudrate_t) : Z :=
  match baudrate with
  | IOLINK_BAUDRATE_COM1 => IOLINK_MASTER_T_BIT_COM1_NS
  | IOLINK_BAUDRATE_COM2 => IOLINK_MASTER_T_BIT_COM2_NS
  | _ => IOLINK_MASTER_T_BIT_COM3_NS
  end.

Definition iolink_master_tbit_to_100us (baudrate : iolink_baudrate_t) (t_bit : Z) : Z :=
  let ns := u64 (iolink_master_t_bit_ns baudrate * t_bit) in
  u32 (u64 (ns + IOLINK_MASTER_NS_PER_100US - 1) / IOLINK_MASTER_NS_PER_100US).

Definition iolink_master_response_timeout_100us (state : iolink_master_port_state_t)
    : option Z :=
  baudrate ← iolink_master_startup_baudrate state;
  let frame_100us := iolink_master_tbit_to_100us baudrate
                       (IOLINK_MASTER_UART_FRAME_TBIT + IOLINK_MASTER_T_A_MAX_TBIT) in
  let configured := cfg_response_timeout_100us (p_config state) in
  let configured := if configured <? frame_100us then frame_100us else configured in
  Some (if configured =? 0 then 1 else configured).

Definition iolink_master_t_dmt_100us (state : iolink_master_port_state_t)
    (baudrate : iolink_baudrate_t) : Z :=
  let t_dmt := cfg_t_dmt_tbit (p_config state) in
  let t_dmt := if t_dmt =? 0 then IOLINK_MASTER_DEFAULT_T_DMT_TBIT else t_dmt in
  iolink_master_tbit_to_100us baudrate t_dmt.

Definition iolink_master_test_message_timeout_100us (state : iolink_master_port_state_t)
    : option Z :=
  baudrate ← iolink_master_startup_baudrate state;
  let window := iolink_master_tbit_to_100us baudrate IOLINK_MASTER_TYPE0_M_SEQ_MAX_TBIT in
  let window := if window <? cfg_response_timeout_100us (p_config state)
                then cfg_response_timeout_100us (p_config state) else window in
  Some (if window =? 0 then 1 else window).

Definition iolink_master_wake_retry_limit (state : iolink_master_port_state_t) : Z :=
  if cfg_wake_retry_limit (p_config state) =? 0
  then IOLINK_MASTER_DEFAULT_WAKE_RETRY_LIMIT
  else cfg_wake_retry_limit (p_config state).

Definition iolink_master_t_dwu_100us (state : iolink_master_port_state_t) : Z :=
  if cfg_t_dwu_100us (p_config state) =? 0
  then IOLINK_MASTER_DEFAULT_T_DWU_100US else cfg_t_dwu_100us (p_config state).

Definition iolink_master_t_sd_100us (state : iolink_master_port_state_t) : Z :=
  if cfg_t_sd_100us (p_config state) =? 0
  then IOLINK_MASTER_DEFAULT_T_SD_100US else cfg_t_sd_100us (p_config state).

(** ** PHY access *)

Definition iolink_master_set_mode (mode : iolink_phy_mode_t) : M world Z :=
  state ← gets w_port;
  match cfg_set_mode_checked (p_config state) with
  | Some set_mode_checked =>
      call (fun tr => set_mode_checked tr mode) (IoSetModeChecked mode)
  | None =>
      match p_phy state with
      | Some phy => when (phy_set_mode phy) (emit (IoSetMode (phy_user phy) mode))
      | None => mret tt
      end;;
      mret IOLINK_MASTER_STATUS_OK
  end.

Definition iolink_master_set_baudrate (baudrate : iolink_baudrate_t) : M world Z :=
  state ← gets w_port;
  match cfg_set_baudrate_checked (p_config state) with
  | Some set_baudrate_checked =>
      call (fun tr => set_baudrate_checked tr baudrate) (IoSetBaudrateChecked baudrate)
  | None =>
      match p_phy state with
      | Some phy => when (phy_set_baudrate phy) (emit (IoSetBaudrate (phy_user phy) baudrate))
      | None => mret tt
      end;;
      mret IOLINK_MASTER_STATUS_OK
  end.

(** [set_baudrate(port, startup_baudrate(port))] *)
Definition set_startup_baudrate : M world Z :=
  state ← gets w_port;
  baudrate ← mem (iolink_master_startup_baudrate state);
  iolink_master_set_baudrate baudrate.

Definition iolink_master_flush_rx : M world Z :=
  zoom w_port (zoom p_rx (rx_len <~ 0));;
  state ← gets w_port;
  match cfg_flush_rx (p_config state) with
  | None => mret IOLINK_MASTER_STATUS_OK
  | Some flush_rx => call flush_rx IoFlushRx
  end.

Definition iolink_master_reset_rate_scan : M world Z :=
  state ← gets w_port;
  if negb (cfg_auto_baudrate (p_config state)) || (su_baudrate_index (p_startup state) =? 0)
  then mret IOLINK_MASTER_STATUS_OK
  else
    zoom w_port (zoom p_startup (su_baudrate_index <~ 0));;
    set_startup_baudrate.

(** The gate opens [delay_100us] after [now_100us]; untimed callers leave it alone. *)
Definition iolink_master_arm_send_gate (now_100us delay_100us : Z) (timed : bool)
    : M world unit :=
  when timed (
    zoom w_port (
      p_send_ready_at_100us <~ u32 (now_100us + delay_100us);;
      p_send_ready_valid <~ true)).

Section send.
Context {IO : Iolinki}.

(** A transmission failure: count it and latch ERROR. *)
Definition send_failed : M world bool :=
  count_up diag_send_errors;;
  goto IOLINK_MASTER_STATE_ERROR;;
  mret false.

(** A prepare hook: [true] when absent or successful. *)
Definition prepare (hook : option (list io → Z)) (entry : Z → io) : M world bool :=
  match hook with
  | None => mret true
  | Some f => ret ← call f entry; mret (ret =? IOLINK_MASTER_STATUS_OK)
  end.

(** Send the first [len] octets of [data]. *)
Definition iolink_master_send_full (data : list Z) (len : Z) : M world bool :=
  state ← gets w_port;
  mc ← mem (rd data 0);
  let od_expected := negb (Z.land mc IOLINK_MC_RW_MASK =? 0) in
  ready ← prepare (cfg_prepare_tx (p_config state)) IoPrepareTx;
  if negb ready then send_failed else
  phy ← mem (p_phy state);
  send ← mem (phy_send phy);
  frame ← mem (slice data 0 len);
  sent ← call (fun tr => send tr frame) (IoSend (phy_user phy) frame);
  ready ← prepare (cfg_prepare_rx (p_config state)) IoPrepareRx;
  if negb ready then send_failed else
  if sent =? len then
    zoom w_port (p_rx_od_expected <~ od_expected);;
    mret true
  else send_failed.

(** [send_full(port, state->tx_buf, len)] *)
Definition send_tx_buf (len : Z) : M world bool :=
  state ← gets w_port;
  iolink_master_send_full (p_tx_buf state) len.

Definition iolink_master_wake_up : M world bool :=
  state ← gets w_port;
  match cfg_wake_up (p_config state) with
  | None =>
      tx_buf ← mem (wr (p_tx_buf state) 0 IOLINK_MASTER_WAKEUP_BYTE);
      zoom w_port (p_tx_buf <~ tx_buf);;
      send_tx_buf 1
  | Some wake_up =>
      ret ← call wake_up IoWakeUp;
      if ret =? IOLINK_MASTER_STATUS_OK then mret true else send_failed
  end.
End send.
