(* ===== verification/Transmit.v ===== *)
(** * Acyclic M-sequences ([src/master_port.c], ISDU and event frames)

    The frames on the ISDU and DIAGNOSIS channels: assembly in [tx_buf] with the
    M-sequence type bits and the A.1.6 checksum in CKT, and the functions that send
    one frame when a service is active. *)

From S2P Require Import Prelude Iolinki Reference Types Fixtures Parameters Isdu Events Hal.

Section transmit.
Context {IO : Iolinki}.

(** [for (i = 0; i < n; i++) tx_buf[pos + i] = od[i]] *)
Definition copy_od (tx_buf : list Z) (pos : Z) (od : list Z) (n : Z) : option (list Z) :=
  ofold (fun tx_buf i => b ← rd od i; wr tx_buf (pos + i) b) tx_buf (upto n).

(** [memcpy(&tx_buf[HEADER_LEN], pd_out, pd_out_len)] *)
Definition copy_pd_out (state : iolink_master_port_state_t) (tx_buf : list Z)
    : option (list Z) :=
  if 0 <? p_pd_out_len state
  then memcpy tx_buf IOLINK_M_SEQ_HEADER_LEN (p_pd_out state) 0 (p_pd_out_len state)
  else Some tx_buf.

(** [tx_buf[1] |= checksum6(tx_buf, pos)] *)
Definition fold_checksum (tx_buf : list Z) (pos : Z) : option (list Z) :=
  ckt ← rd tx_buf 1;
  msg ← slice tx_buf 0 pos;
  wr tx_buf 1 (u8 (Z.lor ckt (iolink_checksum6 msg))).

(** The frame length; the frame is in [tx_buf]. *)
Definition iolink_master_build_isdu_frame (mc : Z) (od : option (list Z)) (multi : bool)
    : M iolink_master_port_state_t Z :=
  state ← get;
  if negb multi then
    match od with
    | None =>
        let '(len, tx_buf) := iolink_frame_encode_type0 mc (p_tx_buf state) in
        p_tx_buf <~ tx_buf;;
        mret len
    | Some od =>
        tx_buf ← mem (wr (p_tx_buf state) 0 mc);
        tx_buf ← mem (wr tx_buf 1 0);
        tx_buf ← mem (copy_od tx_buf IOLINK_M_SEQ_HEADER_LEN od (p_od_len state));
        let pos := IOLINK_M_SEQ_HEADER_LEN + p_od_len state in
        tx_buf ← mem (fold_checksum tx_buf pos);
        p_tx_buf <~ tx_buf;;
        mret pos
    end
  else
    let od_octets := if null od then 0 else p_od_len state in
    tx_buf ← mem (wr (p_tx_buf state) 0 mc);
    tx_buf ← mem (wr tx_buf 1 (iolink_master_ckt_type_bits (cfg_m_seq_type (p_config state))));
    tx_buf ← mem (copy_pd_out state tx_buf);
    let pos := IOLINK_M_SEQ_HEADER_LEN + p_pd_out_len state in
    tx_buf ← mem (copy_od tx_buf pos (default [] od) od_octets);
    let pos := pos + od_octets in
    tx_buf ← mem (fold_checksum tx_buf pos);
    p_tx_buf <~ tx_buf;;
    mret pos.

(** Send the frame in [tx_buf]; the result says whether there was one. *)
Definition send_frame (frame_len : Z) : M world bool :=
  when (0 <? frame_len) (send_tx_buf frame_len;; mret tt);;
  mret (0 <? frame_len).

(** A read on the ISDU channel that carries no service data. *)
Definition send_isdu_control (flowctrl : Z) (multi : bool) : M world bool :=
  let mc := iolink_master_encode_master_command true IOLINK_MASTER_MC_CHANNEL_ISDU flowctrl in
  frame_len ← zoom w_port (iolink_master_build_isdu_frame mc None multi);
  send_frame frame_len.

Definition iolink_master_send_isdu : M world bool :=
  state ← gets w_port;
  let multi := (p_state state =e IOLINK_MASTER_STATE_OPERATE) &&
               (cfg_m_seq_type (p_config state) <>e IOLINK_MASTER_M_SEQ_TYPE_0) in
  aborted ← zoom w_port (zoom p_isdu (iolink_master_isdu_take_abort PTR));
  if (aborted : bool) then send_isdu_control IOLINK_FLOWCTRL_ABORT multi else
  idle ← zoom w_port (zoom p_isdu (iolink_master_isdu_take_idle PTR));
  if (idle : bool) then send_isdu_control IOLINK_FLOWCTRL_IDLE multi else
  state ← gets w_port;
  match iolink_master_isdu_channel_access (Some (p_isdu state)) with
  | None => mret false
  | Some (read, flowctrl) =>
      let mc := iolink_master_encode_master_command read IOLINK_MASTER_MC_CHANNEL_ISDU
                  flowctrl in
      od ← zoom w_port (zoom p_isdu (
             iolink_master_isdu_fill_od PTR (Some (zeros IOLINK_ISDU_BUFFER_SIZE))
               (p_od_len state)));
      frame_len ← zoom w_port (
             iolink_master_build_isdu_frame mc (if (read : bool) then None else od) multi);
      send_frame frame_len
  end.

(** The diagnosis frame: its length; the frame is in [tx_buf]. *)
Definition build_event_frame (read : bool) (addr od_len : Z)
    : M iolink_master_port_state_t Z :=
  state ← get;
  let mc := iolink_master_encode_master_command read IOLINK_MASTER_MC_CHANNEL_DIAGNOSIS
              addr in
  if cfg_m_seq_type (p_config state) =e IOLINK_MASTER_M_SEQ_TYPE_0 then
    let '(len, tx_buf) :=
      if read then iolink_frame_encode_type0 mc (p_tx_buf state)
      else iolink_frame_encode_type0_write mc 0 (p_tx_buf state) in
    p_tx_buf <~ tx_buf;;
    mret len
  else
    let frame_len := IOLINK_M_SEQ_HEADER_LEN + p_pd_out_len state
                     + (if read then 0 else od_len) in
    tx_buf ← mem (wr (p_tx_buf state) 0 mc);
    tx_buf ← mem (wr tx_buf 1 0);
    tx_buf ← mem (copy_pd_out state tx_buf);
    let od_pos := IOLINK_M_SEQ_HEADER_LEN + p_pd_out_len state in
    tx_buf ← mem (if read then Some tx_buf
                  else ofold (fun tx_buf i => wr tx_buf (od_pos + i) 0) tx_buf (upto od_len));
    tx_buf ← mem (wr tx_buf 1 (iolink_master_ckt_type_bits (cfg_m_seq_type (p_config state))));
    tx_buf ← mem (fold_checksum tx_buf frame_len);
    p_tx_buf <~ tx_buf;;
    mret frame_len.

Definition iolink_master_send_event : M world bool :=
  state ← gets w_port;
  match iolink_master_event_channel_access (Some state) with
  | None => mret false
  | Some (read, addr, od_len) =>
      frame_len ← zoom w_port (build_event_frame read addr od_len);
      when (0 <? frame_len) (
        sent ← send_tx_buf frame_len;
        when (sent && read) (zoom w_port (zoom p_event (ev_od_expected <~ true))));;
      when (negb read) (zoom w_port (zoom p_event (iolink_master_event_on_written PTR)));;
      mret (0 <? frame_len)
  end.
End transmit.
