(* ===== verification/Port.v ===== *)
(** * The port state machine ([src/master_port.c])

    Initialisation, the establish-communication sequence, the cyclic exchange,
    reception, timeouts, the tick engine and the accessors of a port. *)

From S2P Require Import Prelude Iolinki Reference Types Fixtures Parameters Isdu Services Events Hal Transmit.

(** Is a configuration value inside its enumeration? *)
Definition m_seq_type_in_range (type : iolink_master_m_seq_type_t) : bool :=
  match type with IOLINK_MASTER_M_SEQ_TYPE_OTHER _ => false | _ => true end.
Definition baudrate_in_range (baudrate : iolink_baudrate_t) : bool :=
  match baudrate with IOLINK_BAUDRATE_OTHER _ => false | _ => true end.
Definition port_mode_in_range (mode : iolink_master_port_mode_t) : bool :=
  match mode with IOLINK_MASTER_PORT_MODE_OTHER _ => false | _ => true end.
Definition tick_event_in_range (event : iolink_master_tick_event_t) : bool :=
  match event with IOLINK_MASTER_TICK_OTHER _ => false | _ => true end.

(** ** Cycle timing and the next deadline *)

Definition cycle_unpaced (state : iolink_master_port_state_t) : bool :=
  (p_state state <>e IOLINK_MASTER_STATE_OPERATE) ||
  (cfg_min_cycle_time (p_config state) =? 0) || negb (p_cycle_timer_valid state).

Definition iolink_master_cycle_due_at (state : iolink_master_port_state_t)
    (now_100us : Z) : bool :=
  if cycle_unpaced state then true
  else cfg_min_cycle_time (p_config state)
         <=? u32 (now_100us - p_last_cycle_start_100us state).

Definition iolink_master_cycle_slipped_at (state : iolink_master_port_state_t)
    (now_100us : Z) : bool :=
  if cycle_unpaced state then false
  else cfg_min_cycle_time (p_config state)
         <? u32 (now_100us - p_last_cycle_start_100us state).

Definition iolink_master_cycle_jitter_at (state : iolink_master_port_state_t)
    (now_100us : Z) : Z :=
  if cycle_unpaced state then 0
  else
    let elapsed := u32 (now_100us - p_last_cycle_start_100us state) in
    if elapsed <=? cfg_min_cycle_time (p_config state) then 0
    else u32 (elapsed - cfg_min_cycle_time (p_config state)).

(** The result and [*out_next_100us] afterwards. *)
Definition iolink_master_get_next_tick_time (port : option iolink_master_port_state_t)
    (now_100us : Z) (out_next_100us : option Z) : Z * option Z :=
  match port, out_next_100us with
  | Some state, Some _ =>
    (IOLINK_MASTER_STATUS_OK, Some (
      if (p_state state =e IOLINK_MASTER_STATE_INACTIVE) ||
         (p_state state =e IOLINK_MASTER_STATE_ERROR)
      then now_100us
      else if p_awaiting_response state then
        if p_response_deadline_100us state <=? now_100us then now_100us
        else p_response_deadline_100us state
      else if (p_state state =e IOLINK_MASTER_STATE_STARTUP) && p_send_ready_valid state &&
              (now_100us <? p_send_ready_at_100us state)
      then p_send_ready_at_100us state
      else if cycle_unpaced state then now_100us
      else
        let cycle_due := u32 (p_last_cycle_start_100us state
                              + cfg_min_cycle_time (p_config state)) in
        if cycle_due <=? now_100us then now_100us else cycle_due))
  | _, _ => (IOLINK_MASTER_ERR_INVALID_ARG, out_next_100us)
  end.

(** ** Establishing communication *)

Section establish.
(** A failed hook call: latch ERROR and return its code. *)
Definition fail_with (ret : Z) : M world Z :=
  goto IOLINK_MASTER_STATE_ERROR;;
  mret ret.

Definition iolink_master_restart_establish (now_100us : Z) (timed : bool) : M world Z :=
  goto IOLINK_MASTER_STATE_STARTUP;;
  startup_goto IOLINK_MASTER_STARTUP_STEP_WAKE;;
  zoom w_port (
    zoom p_startup (su_wake_attempts <~ 0);;
    zoom p_diagnostics (diag_rx_retry_count <~ 0);;
    p_awaiting_response <~ false);;
  ret ← iolink_master_reset_rate_scan;
  if negb (ret =? IOLINK_MASTER_STATUS_OK) then fail_with ret
  else
    state ← gets w_port;
    iolink_master_arm_send_gate now_100us (iolink_master_t_dwu_100us state) timed;;
    mret IOLINK_MASTER_STATUS_PENDING.

(** The next rate of the scan, without a new wake-up. *)
Definition establish_next_rate (now_100us : Z) (timed : bool) : M world Z :=
  zoom w_port (zoom p_startup (
    startup ← get;
    su_baudrate_index <~ u8 (su_baudrate_index startup + 1)));;
  ret ← set_startup_baudrate;
  if negb (ret =? IOLINK_MASTER_STATUS_OK) then fail_with ret
  else
    startup_goto IOLINK_MASTER_STARTUP_STEP_SEND_TYPE0;;
    state ← gets w_port;
    baudrate ← mem (iolink_master_startup_baudrate state);
    iolink_master_arm_send_gate now_100us (iolink_master_t_dmt_100us state baudrate) timed;;
    mret IOLINK_MASTER_STATUS_PENDING.

(** The wake-up retry sequence failed: report it and wait T_SD. *)
Definition establish_sequence_failed (now_100us : Z) (timed : bool) : M world Z :=
  zoom w_port (zoom p_startup (su_wake_attempts <~ 0));;
  count_up diag_establish_failures;;
  ret ← iolink_master_set_mode IOLINK_PHY_MODE_INACTIVE;
  if negb (ret =? IOLINK_MASTER_STATUS_OK) then fail_with ret
  else
    startup_goto IOLINK_MASTER_STARTUP_STEP_INACTIVE;;
    state ← gets w_port;
    iolink_master_arm_send_gate now_100us (iolink_master_t_sd_100us state) timed;;
    mret IOLINK_MASTER_ERR_RETRY_LIMIT.

Definition iolink_master_establish_attempt_failed (now_100us : Z) (timed : bool)
    : M world Z :=
  let last_rate := u8 (zlen g_iolink_master_baudrate_scan - 1) in
  zoom w_port (p_awaiting_response <~ false);;
  state ← gets w_port;
  if cfg_auto_baudrate (p_config state) && (su_baudrate_index (p_startup state) <? last_rate)
  then establish_next_rate now_100us timed
  else
    zoom w_port (zoom p_startup (
      startup ← get;
      su_wake_attempts <~ u8 (su_wake_attempts startup + 1)));;
    ret ← iolink_master_reset_rate_scan;
    if negb (ret =? IOLINK_MASTER_STATUS_OK) then fail_with ret
    else
      state ← gets w_port;
      if su_wake_attempts (p_startup state) <=? iolink_master_wake_retry_limit state then
        startup_goto IOLINK_MASTER_STARTUP_STEP_WAKE;;
        iolink_master_arm_send_gate now_100us (iolink_master_t_dwu_100us state) timed;;
        mret IOLINK_MASTER_STATUS_PENDING
      else establish_sequence_failed now_100us timed.

Definition iolink_master_on_timeout_at (port : ptr) (now_100us : Z) (timed : bool)
    : M world Z :=
  if ptr_null port then mret IOLINK_MASTER_ERR_INVALID_ARG else
  ret ← iolink_master_flush_rx;
  if negb (ret =? IOLINK_MASTER_STATUS_OK) then fail_with ret else
  state ← gets w_port;
  if p_state state <>e IOLINK_MASTER_STATE_STARTUP then
    if p_state state =e IOLINK_MASTER_STATE_OPERATE then
      count_up diag_response_timeouts;;
      if diag_rx_retry_count (p_diagnostics state) <? IOLINK_MASTER_RX_RETRY_LIMIT then
        zoom w_port (zoom p_diagnostics (
          diag_rx_retry_count <~ u8 (diag_rx_retry_count (p_diagnostics state) + 1)));;
        mret IOLINK_MASTER_STATUS_PENDING
      else iolink_master_restart_establish now_100us timed
    else mret IOLINK_MASTER_STATUS_OK
  else if null (p_phy state) then mret IOLINK_MASTER_ERR_INVALID_ARG
  else if su_step (p_startup state) =e IOLINK_MASTER_STARTUP_STEP_INACTIVE
  then mret IOLINK_MASTER_STATUS_PENDING
  else iolink_master_establish_attempt_failed now_100us timed.

Definition iolink_master_on_timeout (port : ptr) : M world Z :=
  iolink_master_on_timeout_at port 0 false.
End establish.

(** ** Initialisation *)

Section init.
Context {IO : Iolinki}.

(** The argument check of [iolink_master_init] on the configuration. *)
Definition config_rejected (config : iolink_master_config_t) : bool :=
  (IOLINK_PD_IN_MAX_SIZE <? cfg_pd_in_len config) ||
  (IOLINK_PD_OUT_MAX_SIZE <? cfg_pd_out_len config) ||
  negb (m_seq_type_in_range (cfg_m_seq_type config)) ||
  negb (baudrate_in_range (cfg_baudrate config)) ||
  negb (port_mode_in_range (cfg_port_mode config)) ||
  ((cfg_m_seq_type config =e IOLINK_MASTER_M_SEQ_TYPE_0) &&
   ((0 <? cfg_pd_in_len config) || (0 <? cfg_pd_out_len config))).

(** The port storage after the assignments of [iolink_master_init]. *)
Definition port_initial (phy : iolink_phy_api_t) (config : iolink_master_config_t)
    : iolink_master_port_state_t :=
  port_state_zero config
    <| p_phy := Some phy |>
    <| p_od_len := iolink_master_od_len_for_type (cfg_m_seq_type config) |>
    <| p_pd_in_len := cfg_pd_in_len config |>
    <| p_pd_out_len := cfg_pd_out_len config |>
    <| p_diagnostics := diagnostics_zero
         <| diag_device_status := IOLINK_DEVICE_STATUS_FAILURE |> |>
    <| p_state := if cfg_port_mode config =e IOLINK_MASTER_PORT_MODE_IOLINK
                  then IOLINK_MASTER_STATE_STARTUP else IOLINK_MASTER_STATE_INACTIVE |>.

(** Run a hook call; latch ERROR when it fails, otherwise go on. *)
Definition or_fail (m : M world Z) (k : M world Z) : M world Z :=
  ret ← m;
  if negb (ret =? IOLINK_MASTER_STATUS_OK) then fail_with ret else k.

(** [phy->init(phy->user)], which is optional. *)
Definition phy_initialise (phy : iolink_phy_api_t) : M world Z :=
  match phy_init phy with
  | Some init => call init (IoInit (phy_user phy))
  | None => mret 0
  end.

Definition iolink_master_init (port : ptr) (phy : option iolink_phy_api_t)
    (config : option iolink_master_config_t) : M world Z :=
  match phy, config with
  | Some phy, Some config =>
    if ptr_null port || config_rejected config then mret IOLINK_MASTER_ERR_INVALID_ARG
    else
      w_port <~ port_initial phy config;;
      or_fail (phy_initialise phy) (
      if cfg_port_mode config =e IOLINK_MASTER_PORT_MODE_DEACTIVATED then
        or_fail (iolink_master_set_mode IOLINK_PHY_MODE_INACTIVE)
          (mret IOLINK_MASTER_STATUS_OK)
      else if (cfg_port_mode config =e IOLINK_MASTER_PORT_MODE_DI) ||
              (cfg_port_mode config =e IOLINK_MASTER_PORT_MODE_DQ) then
        or_fail (iolink_master_set_mode IOLINK_PHY_MODE_SIO)
          (mret IOLINK_MASTER_STATUS_OK)
      else
        or_fail iolink_master_flush_rx (
        or_fail set_startup_baudrate (
        or_fail (iolink_master_set_mode IOLINK_PHY_MODE_SDCI) (
        mret IOLINK_MASTER_STATUS_OK))))
  | _, _ => mret IOLINK_MASTER_ERR_INVALID_ARG
  end.

Definition iolink_master_restart (port : ptr) : M world Z :=
  if ptr_null port then mret IOLINK_MASTER_ERR_INVALID_ARG else
  state ← gets w_port;
  if null (p_phy state) then mret IOLINK_MASTER_ERR_INVALID_ARG
  else iolink_master_init PTR (p_phy state) (Some (p_config state)).
End init.

Definition iolink_master_validate_phy_contract (phy : option iolink_phy_api_t)
    (config : option iolink_master_config_t) : Z :=
  match phy, config with
  | Some phy, Some config =>
    match cfg_port_mode config with
    | IOLINK_MASTER_PORT_MODE_IOLINK =>
        if null (phy_send phy) || null (phy_recv_byte phy) ||
           null (cfg_set_mode_checked config) || null (cfg_set_baudrate_checked config) ||
           null (cfg_flush_rx config) || null (cfg_prepare_tx config) ||
           null (cfg_prepare_rx config) || null (cfg_wake_up config)
        then IOLINK_MASTER_ERR_UNSUPPORTED_PHY else IOLINK_MASTER_STATUS_OK
    | IOLINK_MASTER_PORT_MODE_DI =>
        if null (cfg_set_mode_checked config) || null (cfg_read_cq_line_checked config)
        then IOLINK_MASTER_ERR_UNSUPPORTED_PHY else IOLINK_MASTER_STATUS_OK
    | IOLINK_MASTER_PORT_MODE_DQ =>
        if null (cfg_set_mode_checked config) || negb (phy_set_cq_line phy)
        then IOLINK_MASTER_ERR_UNSUPPORTED_PHY else IOLINK_MASTER_STATUS_OK
    | IOLINK_MASTER_PORT_MODE_DEACTIVATED =>
        if null (cfg_set_mode_checked config)
        then IOLINK_MASTER_ERR_UNSUPPORTED_PHY else IOLINK_MASTER_STATUS_OK
    | IOLINK_MASTER_PORT_MODE_OTHER _ => IOLINK_MASTER_ERR_INVALID_ARG
    end
  | _, _ => IOLINK_MASTER_ERR_INVALID_ARG
  end.

(** ** Transmission: one step of the state machine *)

Section process.
Context {IO : Iolinki}.

(** A TYPE_0 frame into [tx_buf]: its length. *)
Definition encode_type0 (mc : Z) : M iolink_master_port_state_t Z :=
  state ← get;
  let '(len, tx_buf) := iolink_frame_encode_type0 mc (p_tx_buf state) in
  p_tx_buf <~ tx_buf;;
  mret len.

Definition encode_type0_write (mc od : Z) : M iolink_master_port_state_t Z :=
  state ← get;
  let '(len, tx_buf) := iolink_frame_encode_type0_write mc od (p_tx_buf state) in
  p_tx_buf <~ tx_buf;;
  mret len.

(** [if (frame_len > 0 && send_full(port, tx_buf, frame_len)) { sent }] *)
Definition send_then (frame_len : Z) (sent : M world unit) : M world unit :=
  when (0 <? frame_len) (
    ok ← send_tx_buf frame_len;
    when ok sent).

Definition count_cycle : M world unit :=
  zoom w_port (
    state ← get;
    p_cycle_count <~ u32 (p_cycle_count state + 1)).

(** The WAKE step. *)
Definition startup_wake (now_100us : Z) (timed : bool) : M world unit :=
  woken ← iolink_master_wake_up;
  when woken (
    startup_goto IOLINK_MASTER_STARTUP_STEP_SEND_TYPE0;;
    state ← gets w_port;
    baudrate ← mem (iolink_master_startup_baudrate state);
    iolink_master_arm_send_gate now_100us
      (u32 (IOLINK_MASTER_T_REN_MAX_100US + iolink_master_t_dmt_100us state baudrate)) timed).

(** The SEND_TYPE0 step: the test message. *)
Definition startup_send_type0 (now_100us : Z) (timed : bool) : M world unit :=
  frame_len ← zoom w_port (encode_type0
    (iolink_master_encode_master_command true IOLINK_MASTER_MC_CHANNEL_PAGE
       IOLINK_MASTER_DPP1_OFF_MIN_CYCLE_TIME));
  send_then frame_len (
    startup_goto IOLINK_MASTER_STARTUP_STEP_AWAIT_RESPONSE;;
    when timed (
      state ← gets w_port;
      timeout ← mem (iolink_master_test_message_timeout_100us state);
      zoom w_port (
        p_response_deadline_100us <~ u32 (now_100us + timeout);;
        p_awaiting_response <~ true))).

Definition process_startup (now_100us : Z) (timed : bool) : M world unit :=
  state ← gets w_port;
  ok ← (if su_step (p_startup state) =e IOLINK_MASTER_STARTUP_STEP_INACTIVE then
          ret ← iolink_master_set_mode IOLINK_PHY_MODE_SDCI;
          if negb (ret =? IOLINK_MASTER_STATUS_OK)
          then goto IOLINK_MASTER_STATE_ERROR;; mret false
          else startup_goto IOLINK_MASTER_STARTUP_STEP_WAKE;; mret true
        else mret true);
  if negb ok then mret tt else
  state ← gets w_port;
  if su_step (p_startup state) =e IOLINK_MASTER_STARTUP_STEP_WAKE
  then startup_wake now_100us timed
  else when (su_step (p_startup state) =e IOLINK_MASTER_STARTUP_STEP_SEND_TYPE0)
         (startup_send_type0 now_100us timed).

(** The device information check before OPERATE; [false] ends the step. *)
Definition preoperate_validate : M world bool :=
  state ← gets w_port;
  let required := iolink_master_startup_validation_required (p_config state) in
  go ← (if required && negb (di_valid (p_device_info state)) then
          ret ← zoom w_port (iolink_master_read_device_info PTR);
          if ret =? IOLINK_MASTER_STATUS_PENDING then mret false
          else if ret <? 0 then goto IOLINK_MASTER_STATE_ERROR;; mret false
          else mret true
        else mret true);
  if negb go then mret false else
  state ← gets w_port;
  if required && negb (iolink_master_validate_device_info (Some state) =? 0)
  then goto IOLINK_MASTER_STATE_ERROR;; mret false
  else mret true.

Definition process_preoperate : M world unit :=
  sent ← iolink_master_send_event;
  if (sent : bool) then mret tt else
  sent ← iolink_master_send_isdu;
  if (sent : bool) then mret tt else
  go ← preoperate_validate;
  when go (
    frame_len ← zoom w_port (encode_type0_write
      (iolink_master_encode_master_command false IOLINK_MASTER_MC_CHANNEL_PAGE
         IOLINK_MASTER_DPP1_OFF_MASTER_COMMAND)
      IOLINK_CMD_DEVICE_OPERATE);
    send_then frame_len (startup_goto IOLINK_MASTER_STARTUP_STEP_AWAIT_OPERATE_ACK)).

(** A TYPE_0 port without process data. *)
Definition type0_operate (state : iolink_master_port_state_t) : bool :=
  (cfg_m_seq_type (p_config state) =e IOLINK_MASTER_M_SEQ_TYPE_0) &&
  (cfg_pd_in_len (p_config state) =? 0) && (p_pd_out_len state =? 0).

Definition operate_type0 : M world unit :=
  frame_len ← zoom w_port (
    od ← zoom p_isdu (iolink_master_isdu_fill_od PTR (Some [0]) 1);
    mc ← mem (rd (default [] od) 0);
    encode_type0 mc);
  send_then frame_len count_cycle.

(** MC, CKT, PD-out, OD into [tx_buf]: the frame length. *)
Definition build_cyclic_frame : M iolink_master_port_state_t Z :=
  state ← get;
  let frame_len := IOLINK_M_SEQ_HEADER_LEN + p_pd_out_len state + p_od_len state in
  tx_buf ← mem (wr (p_tx_buf state) 0
             (iolink_master_encode_master_command false IOLINK_MASTER_MC_CHANNEL_PROCESS 0));
  tx_buf ← mem (wr tx_buf 1 0);
  let od_pos := IOLINK_M_SEQ_HEADER_LEN + p_pd_out_len state in
  tx_buf ← mem (copy_pd_out state tx_buf);
  tail ← mem (slice tx_buf od_pos (IOLINK_MASTER_FRAME_BUF_SIZE - od_pos));
  tail ← zoom p_isdu (iolink_master_isdu_fill_od PTR (Some tail) (p_od_len state));
  tx_buf ← mem (blit tx_buf od_pos (default [] tail));
  tx_buf ← mem (wr tx_buf 1 (iolink_master_ckt_type_bits (cfg_m_seq_type (p_config state))));
  tx_buf ← mem (fold_checksum tx_buf frame_len);
  p_tx_buf <~ tx_buf;;
  mret frame_len.

Definition process_operate : M world unit :=
  sent ← iolink_master_send_event;
  if (sent : bool) then mret tt else
  sent ← iolink_master_send_isdu;
  if (sent : bool) then mret tt else
  state ← gets w_port;
  if type0_operate state then operate_type0
  else
    frame_len ← zoom w_port build_cyclic_frame;
    sent ← send_tx_buf frame_len;
    when sent count_cycle.

Definition iolink_master_process_at (port : ptr) (now_100us : Z) (timed : bool)
    : M world unit :=
  if ptr_null port then mret tt else
  state ← gets w_port;
  match p_phy state with
  | None => mret tt
  | Some phy =>
    if null (phy_send phy) then mret tt
    else if timed && p_send_ready_valid state && (now_100us <? p_send_ready_at_100us state)
    then mret tt
    else match p_state state with
    | IOLINK_MASTER_STATE_STARTUP => process_startup now_100us timed
    | IOLINK_MASTER_STATE_PREOPERATE => process_preoperate
    | IOLINK_MASTER_STATE_OPERATE => process_operate
    | _ => mret tt
    end
  end.

Definition iolink_master_process (port : ptr) : M world unit :=
  iolink_master_process_at port 0 false.
End process.

(** ** Reception *)

Section receive.
Context {IO : Iolinki}.

Definition iolink_master_type0_reply_ok (frame : list Z) : option bool :=
  od ← rd frame 0;
  cks ← rd frame 1;
  Some (iolink_checksum6 [od; u8 (Z.land cks 0xC0)] =? u8 (Z.land cks 0x3F)).

Definition iolink_master_route_od (od : option (list Z)) (od_len : Z) : M world unit :=
  state ← gets w_port;
  match iolink_master_event_channel_access (Some state) with
  | Some (read, _, _) =>
      when (read && ev_od_expected (p_event state)) (
        zoom w_port (zoom p_event (
          ev_od_expected <~ false;;
          iolink_master_event_on_od PTR od od_len)))
  | None => zoom w_port (zoom p_isdu (iolink_master_isdu_on_od PTR od od_len))
  end.

(** A reply with a wrong checksum: retry, or COMLOST once the retries are used up. *)
Definition checksum_failed : M world Z :=
  count_up diag_checksum_errors;;
  state ← gets w_port;
  (if diag_rx_retry_count (p_diagnostics state) <? IOLINK_MASTER_RX_RETRY_LIMIT then
     zoom w_port (zoom p_diagnostics (
       diag_rx_retry_count <~ u8 (diag_rx_retry_count (p_diagnostics state) + 1)))
   else iolink_master_restart_establish 0 false;; mret tt);;
  mret IOLINK_MASTER_ERR_CHECKSUM.

(** The outstanding request is answered. *)
Definition reply_accepted : M world unit :=
  zoom w_port (
    zoom p_diagnostics (diag_rx_retry_count <~ 0);;
    p_awaiting_response <~ false).

(** The reply to a startup test message. *)
Definition on_rx_startup (data : list Z) (len : Z) : M world Z :=
  state ← gets w_port;
  if su_step (p_startup state) <>e IOLINK_MASTER_STARTUP_STEP_AWAIT_RESPONSE
  then mret IOLINK_MASTER_ERR_FRAME
  else if negb (len =? IOLINK_M_SEQ_TYPE0_LEN) then mret IOLINK_MASTER_ERR_FRAME
  else
    ok ← mem (iolink_master_type0_reply_ok data);
    if negb ok then
      count_up diag_checksum_errors;;
      mret IOLINK_MASTER_ERR_CHECKSUM
    else
      zoom w_port (
        zoom p_diagnostics (diag_rx_retry_count <~ 0);;
        zoom p_startup (su_wake_attempts <~ 0);;
        p_awaiting_response <~ false;;
        min_cycle_time ← mem (rd data 0);
        zoom p_device_info (di_min_cycle_time <~ min_cycle_time));;
      goto IOLINK_MASTER_STATE_PREOPERATE;;
      mret IOLINK_MASTER_STATUS_OK.

(** The CKS reply to the DeviceOperate write. *)
Definition on_rx_operate_ack (data : list Z) (len : Z) : M world Z :=
  cks ← mem (rd data 0);
  let flags := u8 (Z.land cks 0xC0) in
  if negb (len =? 1) then mret IOLINK_MASTER_ERR_FRAME
  else if negb (iolink_checksum6 [flags] =? u8 (Z.land cks 0x3F)) then checksum_failed
  else
    reply_accepted;;
    zoom w_port (zoom p_diagnostics
      (diag_event_pending <~ negb (Z.land cks 0x80 =? 0)));;
    goto IOLINK_MASTER_STATE_OPERATE;;
    mret IOLINK_MASTER_STATUS_OK.

(** The reply to a TYPE_0 message, in PREOPERATE and on a TYPE_0 port. *)
Definition on_rx_type0 (data : list Z) (len : Z) : M world Z :=
  if negb (len =? IOLINK_M_SEQ_TYPE0_LEN) then mret IOLINK_MASTER_ERR_FRAME
  else
    ok ← mem (iolink_master_type0_reply_ok data);
    if negb ok then checksum_failed
    else
      reply_accepted;;
      iolink_master_route_od (Some data) 1;;
      mret IOLINK_MASTER_STATUS_OK.

(** Take over a decoded reply with a correct checksum. *)
Definition operate_reply (resp : iolink_frame_operate_response_t) : M world Z :=
  reply_accepted;;
  zoom w_port (zoom p_diagnostics (diag_od_status <~ resp_status resp));;
  state ← gets w_port;
  when (resp_event_pending resp && negb (diag_event_pending (p_diagnostics state)) &&
        cfg_event_pending_handler (p_config state))
    (emit (IoEventPending (cfg_event_user (p_config state))));;
  zoom w_port (
    zoom p_diagnostics (diag_event_pending <~ resp_event_pending resp);;
    when (resp_pd_valid resp) (
      state ← get;
      pd_in ← mem (memcpy (p_pd_in state) 0 (resp_pd resp) 0 (resp_pd_len resp));
      p_pd_in <~ pd_in;;
      p_pd_in_len <~ resp_pd_len resp;;
      p_pd_valid <~ true));;
  iolink_master_route_od (Some (resp_od resp)) (resp_od_len resp);;
  mret IOLINK_MASTER_STATUS_OK.

(** Every other reply: decoded with the layout of the configured M-sequence. *)
Definition on_rx_operate (data : list Z) (len : Z) : M world Z :=
  state ← gets w_port;
  frame ← mem (slice data 0 len);
  match iolink_frame_decode_operate_response frame (cfg_pd_in_len (p_config state))
          (if p_rx_od_expected state then p_od_len state else 0) with
  | None => mret IOLINK_MASTER_ERR_FRAME
  | Some resp =>
      if negb (resp_checksum_ok resp) then checksum_failed else operate_reply resp
  end.

Definition iolink_master_on_rx (port : ptr) (data : option (list Z)) (len : Z)
    : M world Z :=
  match data with
  | None => mret IOLINK_MASTER_ERR_INVALID_ARG
  | Some data =>
    if ptr_null port || (len =? 0) then mret IOLINK_MASTER_ERR_INVALID_ARG else
    state ← gets w_port;
    if p_state state =e IOLINK_MASTER_STATE_STARTUP then on_rx_startup data len
    else if (p_state state =e IOLINK_MASTER_STATE_PREOPERATE) &&
            (su_step (p_startup state) =e IOLINK_MASTER_STARTUP_STEP_AWAIT_OPERATE_ACK)
    then on_rx_operate_ack data len
    else if (p_state state =e IOLINK_MASTER_STATE_PREOPERATE) ||
            ((p_state state =e IOLINK_MASTER_STATE_OPERATE) && type0_operate state)
    then on_rx_type0 data len
    else on_rx_operate data len
  end.

(** The octets of the expected reply; [None] when the port takes no replies. *)
Definition rx_expected_len (state : iolink_master_port_state_t) : option Z :=
  match p_state state with
  | IOLINK_MASTER_STATE_STARTUP =>
      if su_step (p_startup state) =e IOLINK_MASTER_STARTUP_STEP_AWAIT_RESPONSE
      then Some IOLINK_M_SEQ_TYPE0_LEN else None
  | IOLINK_MASTER_STATE_PREOPERATE =>
      Some (if su_step (p_startup state) =e IOLINK_MASTER_STARTUP_STEP_AWAIT_OPERATE_ACK
            then 1 else IOLINK_M_SEQ_TYPE0_LEN)
  | IOLINK_MASTER_STATE_OPERATE =>
      let od_octets := if type0_operate state || p_rx_od_expected state
                       then p_od_len state else 0 in
      Some (u8 (cfg_pd_in_len (p_config state) + od_octets + 1))
  | _ => None
  end.

(** Latch ERROR and drop the receive buffer. *)
Definition rx_fault (ret : Z) : M world Z :=
  goto IOLINK_MASTER_STATE_ERROR;;
  zoom w_port (zoom p_rx (rx_len <~ 0));;
  mret ret.

(** The receive loop: [fuel] bounds the calls to [recv_byte]. *)
Fixpoint poll_loop (fuel : nat) (user : Z) (recv_byte : list io → Z * Z)
    (expected_len frames : Z) : M world Z :=
  match fuel with
  | O => nofuel
  | S fuel =>
    '(recv_ret, byte) ← call recv_byte (fun a => IoRecvByte user a.1 a.2);
    if recv_ret <=? 0 then
      if recv_ret <? 0 then rx_fault IOLINK_MASTER_ERR_FRAME else mret frames
    else
      state ← gets w_port;
      if IOLINK_MASTER_FRAME_BUF_SIZE <=? rx_len (p_rx state)
      then rx_fault IOLINK_MASTER_ERR_CHECKSUM
      else
        buf ← mem (wr (rx_buf (p_rx state)) (rx_len (p_rx state)) byte);
        let len := u8 (rx_len (p_rx state) + 1) in
        zoom w_port (zoom p_rx (rx_buf <~ buf;; rx_len <~ len));;
        if expected_len <=? len then
          frame_ret ← iolink_master_on_rx PTR (Some buf) len;
          zoom w_port (zoom p_rx (rx_len <~ 0));;
          if negb (frame_ret =? 0) then mret frame_ret
          else poll_loop fuel user recv_byte expected_len (frames + 1)
        else poll_loop fuel user recv_byte expected_len frames
  end.

Definition iolink_master_poll_rx (fuel : nat) (port : ptr) : M world Z :=
  if ptr_null port then mret IOLINK_MASTER_ERR_INVALID_ARG else
  state ← gets w_port;
  match p_phy state with
  | None => mret IOLINK_MASTER_ERR_INVALID_ARG
  | Some phy =>
    match phy_recv_byte phy with
    | None => mret IOLINK_MASTER_STATUS_OK
    | Some recv_byte =>
      match rx_expected_len state with
      | None => mret IOLINK_MASTER_STATUS_OK
      | Some expected_len => poll_loop fuel (phy_user phy) recv_byte expected_len 0
      end
    end
  end.
End receive.

(** ** The tick engine *)

Section tick.
Context {IO : Iolinki}.

(** The bookkeeping of a cycle that was sent at [now_100us]. *)
Definition tick_record_cycle (now_100us : Z) : M world unit :=
  state ← gets w_port;
  let jitter_100us := iolink_master_cycle_jitter_at state now_100us in
  when (iolink_master_cycle_slipped_at state now_100us) (count_up diag_cycle_slips);;
  zoom w_port (
    zoom p_diagnostics (
      diag_last_cycle_jitter_100us <~ jitter_100us;;
      diagnostics ← get;
      when (diag_max_cycle_jitter_100us diagnostics <? jitter_100us)
        (diag_max_cycle_jitter_100us <~ jitter_100us));;
    p_last_cycle_start_100us <~ now_100us;;
    state ← get;
    timeout ← mem (iolink_master_response_timeout_100us state);
    p_response_deadline_100us <~ u32 (now_100us + timeout);;
    p_cycle_timer_valid <~ true;;
    p_awaiting_response <~ true).

(** The part of a tick that transmits. *)
Definition tick_transmit (pace_cycles : bool) (now_100us : Z) : M world unit :=
  state ← gets w_port;
  if p_awaiting_response state then mret tt
  else if pace_cycles && negb (iolink_master_cycle_due_at state now_100us) then mret tt
  else
    let cycle_count_before := p_cycle_count state in
    iolink_master_process_at PTR now_100us pace_cycles;;
    state ← gets w_port;
    when (pace_cycles && negb (p_cycle_count state =? cycle_count_before))
      (tick_record_cycle now_100us).

(** The part of a tick that handles a response timeout: the result that ends the
    tick, if any. *)
Definition tick_timeout (pace_cycles : bool) (now_100us rx_ret : Z)
    : M world (option Z) :=
  state ← gets w_port;
  if pace_cycles && negb (p_awaiting_response state) then mret (Some rx_ret)
  else
    when (p_awaiting_response state) (iolink_master_flush_rx;; mret tt);;
    zoom w_port (p_awaiting_response <~ false);;
    timeout_ret ← iolink_master_on_timeout_at PTR now_100us pace_cycles;
    if negb (timeout_ret =? IOLINK_MASTER_STATUS_OK) then mret (Some timeout_ret)
    else mret None.

Definition iolink_master_tick_common (fuel : nat) (port : ptr)
    (event : iolink_master_tick_event_t) (pace_cycles : bool) (now_100us : Z)
    : M world Z :=
  if ptr_null port || negb (tick_event_in_range event)
  then mret IOLINK_MASTER_ERR_INVALID_ARG else
  rx_ret ← iolink_master_poll_rx fuel PTR;
  if rx_ret <? 0 then mret rx_ret else
  stop ← (if event =e IOLINK_MASTER_TICK_RESPONSE_TIMEOUT
          then tick_timeout pace_cycles now_100us rx_ret else mret None);
  match stop with
  | Some ret => mret ret
  | None =>
      when (event =e IOLINK_MASTER_TICK_CYCLE_DUE) (tick_transmit pace_cycles now_100us);;
      mret rx_ret
  end.

Definition iolink_master_tick_event (fuel : nat) (port : ptr)
    (event : iolink_master_tick_event_t) : M world Z :=
  iolink_master_tick_common fuel port event false 0.

Definition iolink_master_tick_at (fuel : nat) (port : ptr)
    (event : iolink_master_tick_event_t) (now_100us : Z) : M world Z :=
  iolink_master_tick_common fuel port event true now_100us.

Definition iolink_master_tick (fuel : nat) (port : ptr) (response_timeout : bool)
    : M world Z :=
  iolink_master_tick_event fuel port
    (if response_timeout then IOLINK_MASTER_TICK_RESPONSE_TIMEOUT
     else IOLINK_MASTER_TICK_CYCLE_DUE).
End tick.

(** ** Accessors *)

Section accessors.
Context {IO : Iolinki}.

Definition iolink_master_get_state (port : option iolink_master_port_state_t)
    : iolink_master_state_t :=
  match port with None => IOLINK_MASTER_STATE_ERROR | Some state => p_state state end.

(** [None] is an access outside an array; otherwise the result, the caller's buffer
    and [*out_len] afterwards. *)
Definition iolink_master_get_pd_in (port : option iolink_master_port_state_t)
    (buffer : option (list Z)) (buffer_len : Z) (out_len : option Z)
    : option (Z * option (list Z) * option Z) :=
  match port, buffer, out_len with
  | Some state, Some buf, Some _ =>
      if buffer_len <? p_pd_in_len state then
        Some (IOLINK_MASTER_ERR_BUFFER_TOO_SMALL, buffer, Some (p_pd_in_len state))
      else if negb (p_pd_valid state) then
        Some (IOLINK_MASTER_STATUS_PENDING, buffer, Some (p_pd_in_len state))
      else
        buf ← memcpy buf 0 (p_pd_in state) 0 (p_pd_in_len state);
        Some (IOLINK_MASTER_STATUS_OK, Some buf, Some (p_pd_in_len state))
  | _, _, _ => Some (IOLINK_MASTER_ERR_INVALID_ARG, buffer, out_len)
  end.

Definition iolink_master_get_od_status (port : option iolink_master_port_state_t)
    (status : option Z) : Z * option Z :=
  match port, status with
  | Some state, Some _ =>
      (IOLINK_MASTER_STATUS_OK, Some (diag_od_status (p_diagnostics state)))
  | _, _ => (IOLINK_MASTER_ERR_INVALID_ARG, status)
  end.

Definition iolink_master_get_device_status (port : option iolink_master_port_state_t)
    : Z :=
  match port with
  | None => IOLINK_DEVICE_STATUS_FAILURE
  | Some state => diag_device_status (p_diagnostics state)
  end.

(** The link quality of [cycle_count] cycles and [error_count] errors. *)
Definition link_quality (cycle_count error_count : Z) : Z :=
  let total_count := u32 (cycle_count + error_count) in
  if total_count =? 0 then 100
  else u8 (u32 (cycle_count * 100) / total_count).

Definition iolink_master_get_diagnostics (port : ptr)
    (diagnostics : option iolink_master_diagnostics_t)
    : M world (Z * option iolink_master_diagnostics_t) :=
  if ptr_null port || null diagnostics
  then mret (IOLINK_MASTER_ERR_INVALID_ARG, diagnostics) else
  state ← gets w_port;
  mv ← (match p_phy state with
        | Some phy => match phy_get_voltage_mv phy with
                      | Some get_voltage_mv =>
                          call get_voltage_mv (IoGetVoltage (phy_user phy))
                      | None => mret 0
                      end
        | None => mret 0
        end);
  short ← (match p_phy state with
           | Some phy => match phy_is_short_circuit phy with
                         | Some is_short_circuit =>
                             call is_short_circuit (IoIsShortCircuit (phy_user phy))
                         | None => mret false
                         end
           | None => mret false
           end);
  let d := p_diagnostics state in
  let error_count := u32 (u32 (diag_checksum_errors d + diag_send_errors d)
                          + diag_response_timeouts d) in
  mret (IOLINK_MASTER_STATUS_OK, Some (
    d <| diag_supply_voltage_mv := mv |> <| diag_short_circuit := short |>
      <| diag_link_quality_percent := link_quality (p_cycle_count state) error_count |>)).

Definition iolink_master_get_timing (port : option iolink_master_port_state_t)
    (timing : option iolink_master_timing_t) : Z * option iolink_master_timing_t :=
  match port, timing with
  | Some state, Some _ =>
      (IOLINK_MASTER_STATUS_OK, Some {|
         tm_cycle_timer_valid := p_cycle_timer_valid state;
         tm_awaiting_response := p_awaiting_response state;
         tm_min_cycle_time_100us := cfg_min_cycle_time (p_config state);
         tm_last_cycle_start_100us := p_last_cycle_start_100us state;
         tm_response_deadline_100us := p_response_deadline_100us state |})
  | _, _ => (IOLINK_MASTER_ERR_INVALID_ARG, timing)
  end.

Definition iolink_master_set_pd_out (port : ptr) (data : option (list Z)) (len : Z)
    : M iolink_master_port_state_t Z :=
  if ptr_null port || (null data && (0 <? len)) then mret IOLINK_MASTER_ERR_INVALID_ARG
  else
  state ← get;
  if (IOLINK_PD_OUT_MAX_SIZE <? len) || negb (len =? cfg_pd_out_len (p_config state))
  then mret IOLINK_MASTER_ERR_BUFFER_TOO_SMALL
  else
    when (0 <? len) (
      pd_out ← mem (memcpy (p_pd_out state) 0 (default [] data) 0 len);
      p_pd_out <~ pd_out);;
    p_pd_out_len <~ len;;
    mret IOLINK_MASTER_STATUS_OK.
End accessors.
