(* ===== verification/PortInvariant.v ===== *)
(** * The invariant of a port

    [port_ok phy config p]: the port was initialised with [phy] and [config], every
    array has its size and holds octets, every cursor is inside its array, and the
    components satisfy their own invariants. Each function of the stack is shown to
    keep it without undefined behaviour. *)

From S2P Require Import Prelude Iolinki Reference Types Fixtures Parameters Isdu IsduResponse IsduRequest IsduService Services Events Hal Transmit Port.

Section invariant.
Context {IO : Iolinki} {laws : IolinkiLaws IO}.

(** The configurations [iolink_master_init] accepts; lengths are unsigned. *)
Record config_ok (config : iolink_master_config_t) : Prop := {
  cfg_accepted : config_rejected config = false;
  cfg_pd_in_nonneg : 0 ≤ cfg_pd_in_len config;
  cfg_pd_out_nonneg : 0 ≤ cfg_pd_out_len config;
}.

(** [recv_byte] delivers octets. *)
Definition phy_ok (phy : iolink_phy_api_t) : Prop :=
  ∀ recv_byte tr, phy_recv_byte phy = Some recv_byte → is_u8 (recv_byte tr).2.

Record event_ok (ev : iolink_master_event_state_t) : Prop := {
  ev_ok_memory : zlen (ev_memory ev) = IOLINK_MASTER_EVENT_MEMORY_LEN;
  ev_ok_u8 : Forall is_u8 (ev_memory ev);
  ev_ok_addr : 0 ≤ ev_addr ev;
}.

Record block_ok (block : iolink_master_block_state_t) : Prop := {
  blk_ok_data : zlen (blk_data block) = IOLINK_ISDU_BUFFER_SIZE;
  blk_ok_u8 : Forall is_u8 (blk_data block);
  blk_ok_len : 0 ≤ blk_len block ≤ IOLINK_ISDU_BUFFER_SIZE;
  blk_ok_max : blk_len block ≤ 255;
  blk_ok_index : is_u16 (blk_index block);
  blk_ok_subindex : is_u8 (blk_subindex block);
}.

Record rx_ok (rx : iolink_master_rx_state_t) : Prop := {
  rx_ok_buf : zlen (rx_buf rx) = IOLINK_MASTER_FRAME_BUF_SIZE;
  rx_ok_u8 : Forall is_u8 (rx_buf rx);
  rx_ok_len : 0 ≤ rx_len rx ≤ IOLINK_MASTER_FRAME_BUF_SIZE;
}.

Record port_ok (phy : iolink_phy_api_t) (config : iolink_master_config_t)
    (p : iolink_master_port_state_t) : Prop := {
  ok_phy : p_phy p = Some phy;
  ok_config : p_config p = config;
  ok_od_len : p_od_len p = iolink_master_od_len_for_type (cfg_m_seq_type config);
  ok_tx_buf : zlen (p_tx_buf p) = IOLINK_MASTER_FRAME_BUF_SIZE;
  ok_tx_u8 : Forall is_u8 (p_tx_buf p);
  ok_pd_in : zlen (p_pd_in p) = IOLINK_PD_IN_MAX_SIZE;
  ok_pd_in_u8 : Forall is_u8 (p_pd_in p);
  ok_pd_in_len : p_pd_in_len p = cfg_pd_in_len config;
  ok_pd_out : zlen (p_pd_out p) = IOLINK_PD_OUT_MAX_SIZE;
  ok_pd_out_u8 : Forall is_u8 (p_pd_out p);
  ok_pd_out_len : p_pd_out_len p = cfg_pd_out_len config;
  ok_baudrate_index : 0 ≤ su_baudrate_index (p_startup p) ≤ 2;
  ok_isdu : isdu_inv (p_isdu p);
  ok_event : event_ok (p_event p);
  ok_block : block_ok (p_block p);
  ok_rx : rx_ok (p_rx p);
}.

(** [m] keeps the invariant, from every state and whatever the hooks answer. *)
Definition safe {A : Type} phy config (m : M world A) : Prop :=
  ∀ w, port_ok phy config (w_port w) → wp m (fun _ w' => port_ok phy config (w_port w')) w.

(** The same for a function on the port alone. *)
Definition psafe {A : Type} phy config (m : M iolink_master_port_state_t A) : Prop :=
  ∀ p, port_ok phy config p → wp m (fun _ p' => port_ok phy config p') p.
End invariant.

(** ** Assignments *)

Ltac ok_set := intros []; split; cbn; done || assumption.

Section assignments.
Context {IO : Iolinki} {laws : IolinkiLaws IO}.
Context (phy : iolink_phy_api_t) (config : iolink_master_config_t).
Implicit Types p : iolink_master_port_state_t.
Notation ok := (port_ok phy config).

(** Fields the invariant does not constrain. *)
Lemma ok_set_state p x : ok p → ok (p <| p_state := x |>). Proof. ok_set. Qed.
Lemma ok_set_pd_valid p x : ok p → ok (p <| p_pd_valid := x |>). Proof. ok_set. Qed.
Lemma ok_set_diagnostics p x : ok p → ok (p <| p_diagnostics := x |>). Proof. ok_set. Qed.
Lemma ok_set_device_info p x : ok p → ok (p <| p_device_info := x |>). Proof. ok_set. Qed.
Lemma ok_set_cycle_count p x : ok p → ok (p <| p_cycle_count := x |>). Proof. ok_set. Qed.
Lemma ok_set_cycle_start p x : ok p → ok (p <| p_last_cycle_start_100us := x |>).
Proof. ok_set. Qed.
Lemma ok_set_deadline p x : ok p → ok (p <| p_response_deadline_100us := x |>).
Proof. ok_set. Qed.
Lemma ok_set_ready_at p x : ok p → ok (p <| p_send_ready_at_100us := x |>). Proof. ok_set. Qed.
Lemma ok_set_ready_valid p x : ok p → ok (p <| p_send_ready_valid := x |>). Proof. ok_set. Qed.
Lemma ok_set_timer_valid p x : ok p → ok (p <| p_cycle_timer_valid := x |>). Proof. ok_set. Qed.
Lemma ok_set_awaiting p x : ok p → ok (p <| p_awaiting_response := x |>). Proof. ok_set. Qed.
Lemma ok_set_od_expected p x : ok p → ok (p <| p_rx_od_expected := x |>). Proof. ok_set. Qed.

(** Fields it does constrain. *)
Lemma ok_set_tx_buf p x : ok p → zlen x = IOLINK_MASTER_FRAME_BUF_SIZE → Forall is_u8 x →
  ok (p <| p_tx_buf := x |>).
Proof. intros [] ??. split; cbn; done. Qed.
Lemma ok_set_pd_in p x : ok p → zlen x = IOLINK_PD_IN_MAX_SIZE → Forall is_u8 x →
  ok (p <| p_pd_in := x |>).
Proof. intros [] ??. split; cbn; done. Qed.
Lemma ok_set_pd_in_len p x : ok p → x = cfg_pd_in_len config → ok (p <| p_pd_in_len := x |>).
Proof. intros [] ?. split; cbn; done. Qed.
Lemma ok_set_pd_out p x : ok p → zlen x = IOLINK_PD_OUT_MAX_SIZE → Forall is_u8 x →
  ok (p <| p_pd_out := x |>).
Proof. intros [] ??. split; cbn; done. Qed.
Lemma ok_set_pd_out_len p x : ok p → x = cfg_pd_out_len config → ok (p <| p_pd_out_len := x |>).
Proof. intros [] ?. split; cbn; done. Qed.
Lemma ok_set_startup p x : ok p → 0 ≤ su_baudrate_index x ≤ 2 → ok (p <| p_startup := x |>).
Proof. intros [] ?. split; cbn; done. Qed.
Lemma ok_set_isdu p x : ok p → isdu_inv x → ok (p <| p_isdu := x |>).
Proof. intros [] ?. split; cbn; done. Qed.
Lemma ok_set_event p x : ok p → event_ok x → ok (p <| p_event := x |>).
Proof. intros [] ?. split; cbn; done. Qed.
Lemma ok_set_block p x : ok p → block_ok x → ok (p <| p_block := x |>).
Proof. intros [] ?. split; cbn; done. Qed.
Lemma ok_set_rx p x : ok p → rx_ok x → ok (p <| p_rx := x |>).
Proof. intros [] ?. split; cbn; done. Qed.

Lemma ok_set_startup_step p x : ok p → ok (p <| p_startup := p_startup p <| su_step := x |> |>).
Proof. intros []. by apply ok_set_startup. Qed.
Lemma ok_set_wake p x : ok p → ok (p <| p_startup := p_startup p <| su_wake_attempts := x |> |>).
Proof. intros []. by apply ok_set_startup. Qed.
Lemma ok_set_rx_len p x : ok p → 0 ≤ x ≤ IOLINK_MASTER_FRAME_BUF_SIZE →
  ok (p <| p_rx := p_rx p <| rx_len := x |> |>).
Proof. intros Hok ?. apply ok_set_rx; [done|]. destruct Hok as [_ _ _ _ _ _ _ _ _ _ _ _ _ _ _ []]. by split. Qed.
Lemma ok_set_rx_empty p : ok p → ok (p <| p_rx := p_rx p <| rx_len := 0 |> |>).
Proof. intros. by apply ok_set_rx_len. Qed.
End assignments.

Create HintDb port_ok.
#[export] Hint Resolve ok_set_state ok_set_pd_valid ok_set_diagnostics ok_set_device_info
  ok_set_cycle_count ok_set_cycle_start ok_set_deadline ok_set_ready_at ok_set_ready_valid
  ok_set_timer_valid ok_set_awaiting ok_set_od_expected ok_set_tx_buf ok_set_pd_in
  ok_set_pd_in_len ok_set_pd_out ok_set_pd_out_len ok_set_startup ok_set_isdu ok_set_event
  ok_set_block ok_set_rx ok_set_startup_step ok_set_wake ok_set_rx_len
  ok_set_rx_empty : port_ok.

(** ** Composition *)

Section rules.
Context {IO : Iolinki} {laws : IolinkiLaws IO}.
Context (phy : iolink_phy_api_t) (config : iolink_master_config_t).
Notation safe := (safe phy config).
Notation psafe := (psafe phy config).
Notation ok := (port_ok phy config).

Lemma safe_ret {A} (a : A) : safe (mret a).
Proof. by intros w Hw. Qed.

Lemma safe_bind {A B} (m : M world A) (k : A → M world B) :
  safe m → (∀ a, safe (k a)) → safe (mbind k m).
Proof.
  intros Hm Hk w Hw. apply wp_bind. eapply wp_mono; [by apply Hm|]. intros a w' Hw'. by apply Hk.
Qed.

(** Reading the port: the continuation may rely on its invariant. *)
Lemma safe_state {B} (k : iolink_master_port_state_t → M world B) :
  (∀ p, ok p → safe (k p)) → safe (mbind k (gets w_port)).
Proof. intros Hk w Hw. apply wp_bind, wp_gets. by apply Hk. Qed.

Lemma safe_get {B} (k : world → M world B) :
  (∀ w, ok (w_port w) → safe (k w)) → safe (mbind k get).
Proof. intros Hk w Hw. apply wp_bind, wp_get. by apply Hk. Qed.

Lemma safe_mem {A B} (o : option A) (k : A → M world B) a :
  o = Some a → safe (k a) → safe (mbind k (mem o)).
Proof. intros -> Hk w Hw. by apply wp_bind, wp_ret, Hk. Qed.

Lemma safe_when b (m : M world unit) : (b = true → safe m) → safe (when b m).
Proof. destruct b; intros Hm; [by apply Hm|apply safe_ret]. Qed.

Lemma safe_io (f : list io → list io) : safe (w ← get; w_io <~ f (w_io w)).
Proof. by intros w Hw. Qed.

Lemma safe_emit entry : safe (emit entry).
Proof. by intros w Hw. Qed.

Lemma safe_call {A} (f : list io → A) entry : safe (call f entry).
Proof. by intros w Hw. Qed.

Lemma safe_zoom {A} (m : M iolink_master_port_state_t A) : psafe m → safe (zoom w_port m).
Proof. intros Hm w Hw. apply wp_zoom. eapply wp_mono; [by apply Hm|]. by intros a p Hp. Qed.

Lemma psafe_ret {A} (a : A) : psafe (mret a).
Proof. by intros p Hp. Qed.

Lemma psafe_bind {A B} (m : M iolink_master_port_state_t A) (k : A → M iolink_master_port_state_t B) :
  psafe m → (∀ a, psafe (k a)) → psafe (mbind k m).
Proof.
  intros Hm Hk p Hp. apply wp_bind. eapply wp_mono; [by apply Hm|]. intros a p' Hp'. by apply Hk.
Qed.

Lemma psafe_get {B} (k : iolink_master_port_state_t → M iolink_master_port_state_t B) :
  (∀ p, ok p → psafe (k p)) → psafe (mbind k get).
Proof. intros Hk p Hp. apply wp_bind, wp_get. by apply Hk. Qed.

Lemma psafe_mem {A B} (o : option A) (k : A → M iolink_master_port_state_t B) a :
  o = Some a → psafe (k a) → psafe (mbind k (mem o)).
Proof. intros -> Hk p Hp. by apply wp_bind, wp_ret, Hk. Qed.

Lemma psafe_when b (m : M iolink_master_port_state_t unit) : (b = true → psafe m) → psafe (when b m).
Proof. destruct b; intros Hm; [by apply Hm|apply psafe_ret]. Qed.

Lemma psafe_assign {E} (proj : iolink_master_port_state_t → E) `{!Setter proj} v :
  (∀ p, ok p → ok (p <| proj := v |>)) → psafe (proj <~ v).
Proof. intros H p Hp. by apply wp_assign, H. Qed.

Lemma psafe_zoom {T A} (proj : iolink_master_port_state_t → T) `{!Setter proj} (m : M T A) :
  (∀ p, ok p → wp m (fun _ t => ok (p <| proj := t |>)) (proj p)) → psafe (zoom proj m).
Proof. intros H p Hp. by apply wp_zoom, H. Qed.
End rules.

(** One step of a safety proof; a known function is looked up in the database. *)
Create HintDb safe.
Ltac safe_step :=
  lazymatch goal with
  | |- safe _ _ (mret _) => apply safe_ret
  | |- safe _ _ (mbind _ (gets w_port)) => apply safe_state; intros ? ?
  | |- safe _ _ (mbind _ get) => apply safe_get; intros ? ?
  | |- safe _ _ (mbind _ (mem _)) => fail
  | |- safe _ _ (mbind _ _) => apply safe_bind; [|intros ?]
  | |- safe _ _ (when _ _) => apply safe_when; intros ?
  | |- safe _ _ (zoom w_port _) => apply safe_zoom
  | |- psafe _ _ (mret _) => apply psafe_ret
  | |- psafe _ _ (mbind _ get) => apply psafe_get; intros ? ?
  | |- psafe _ _ (mbind _ (mem _)) => fail
  | |- psafe _ _ (mbind _ _) => apply psafe_bind; [|intros ?]
  | |- psafe _ _ (when _ _) => apply psafe_when; intros ?
  | |- psafe _ _ (assign _ _) => apply psafe_assign; intros ? ?; solve [auto with port_ok]
  | |- psafe _ _ (zoom _ _) =>
      apply psafe_zoom; intros ? ?; wp_steps; solve [auto with port_ok]
  | |- _ _ _ (if ?b then _ else _) => destruct b eqn:?
  | |- _ _ _ (match ?x with _ => _ end) => destruct x eqn:?
  | |- _ _ _ (let _ := _ in _) => cbv zeta
  end.
Ltac safe_auto := repeat (first [solve [auto with safe nocore] | safe_step]; cbv beta).
#[export] Hint Resolve safe_ret psafe_ret safe_emit safe_call : safe.

(** ** PHY access *)

Section hal.
Context {IO : Iolinki} {laws : IolinkiLaws IO}.
Context (phy : iolink_phy_api_t) (config : iolink_master_config_t).
Notation safe := (safe phy config).
Notation ok := (port_ok phy config).

Lemma goto_safe state : safe (goto state).
Proof. unfold goto. safe_auto. Qed.

Lemma startup_goto_safe step : safe (startup_goto step).
Proof. unfold startup_goto. safe_auto. Qed.

Lemma count_up_safe counter `{!Setter counter} : safe (count_up counter).
Proof. unfold count_up. safe_auto. Qed.

Lemma set_mode_safe mode : safe (iolink_master_set_mode mode).
Proof. unfold iolink_master_set_mode. safe_auto. Qed.

Lemma set_baudrate_safe baudrate : safe (iolink_master_set_baudrate baudrate).
Proof. unfold iolink_master_set_baudrate. safe_auto. Qed.

(** The rate index is inside the scan table. *)
Lemma startup_baudrate_ok p : ok p → ∃ b, iolink_master_startup_baudrate p = Some b.
Proof.
  intros Hp. pose proof (ok_baudrate_index _ _ _ Hp). unfold iolink_master_startup_baudrate.
  destruct (cfg_auto_baudrate _); [|eauto]. apply rd_Some.
  change (zlen g_iolink_master_baudrate_scan) with 3. lia.
Qed.
End hal.
#[export] Hint Resolve goto_safe startup_goto_safe count_up_safe set_mode_safe
  set_baudrate_safe : safe.

Section hal2.
Context {IO : Iolinki} {laws : IolinkiLaws IO}.
Context (phy : iolink_phy_api_t) (config : iolink_master_config_t).
Notation safe := (safe phy config).
Notation ok := (port_ok phy config).

Lemma set_startup_baudrate_safe : safe set_startup_baudrate.
Proof.
  unfold set_startup_baudrate. safe_auto.
  destruct (startup_baudrate_ok phy config p) as [b Hb]; [done|].
  eapply safe_mem; [exact Hb|]. safe_auto.
Qed.

Lemma flush_rx_safe : safe iolink_master_flush_rx.
Proof.
  unfold iolink_master_flush_rx. safe_auto.
Qed.

Lemma arm_send_gate_safe now delay timed : safe (iolink_master_arm_send_gate now delay timed).
Proof. unfold iolink_master_arm_send_gate. safe_auto. Qed.

Lemma reset_rate_scan_safe : safe iolink_master_reset_rate_scan.
Proof.
  unfold iolink_master_reset_rate_scan. safe_auto.
  - apply psafe_zoom. intros p' []. wp_steps. apply ok_set_startup; [by split|cbn; lia].
  - apply set_startup_baudrate_safe.
Qed.

Lemma send_failed_safe : safe send_failed.
Proof. unfold send_failed. safe_auto. Qed.

Lemma prepare_safe hook entry : safe (prepare hook entry).
Proof. unfold prepare. safe_auto. Qed.
End hal2.
#[export] Hint Resolve set_startup_baudrate_safe flush_rx_safe arm_send_gate_safe
  reset_rate_scan_safe send_failed_safe prepare_safe : safe.

(** A port whose PHY can send, with an accepted configuration. *)
Section send.
Context {IO : Iolinki} {laws : IolinkiLaws IO}.
Context (phy : iolink_phy_api_t) (config : iolink_master_config_t).
Context (send : list io → list Z → Z) (Hsend : phy_send phy = Some send).
Notation safe := (safe phy config).
Notation ok := (port_ok phy config).

Lemma send_full_safe data len :
  1 ≤ zlen data → 0 ≤ len ≤ zlen data → safe (iolink_master_send_full data len).
Proof.
  intros Hd Hl. unfold iolink_master_send_full. apply safe_state. intros p Hp.
  destruct (rd_Some data 0) as [mc Hmc]; [lia|]. eapply safe_mem; [exact Hmc|].
  safe_auto.
  eapply safe_mem; [by apply (ok_phy _ _ _ Hp)|]. eapply safe_mem; [exact Hsend|].
  eapply safe_mem; [by apply slice_Some; lia|]. safe_auto.
Qed.

Lemma send_tx_buf_safe len : 0 ≤ len ≤ 64 → safe (send_tx_buf len).
Proof.
  intros Hl. unfold send_tx_buf. apply safe_state. intros p Hp.
  pose proof (ok_tx_buf _ _ _ Hp) as Htx. unfold IOLINK_MASTER_FRAME_BUF_SIZE in Htx.
  apply send_full_safe; lia.
Qed.

Lemma wake_up_safe : safe iolink_master_wake_up.
Proof.
  unfold iolink_master_wake_up. apply safe_state. intros p Hp. safe_auto.
  pose proof (ok_tx_buf _ _ _ Hp) as Htx. unfold IOLINK_MASTER_FRAME_BUF_SIZE in Htx.
  eapply safe_mem; [apply wr_Some; lia|]. safe_auto; [|by apply send_tx_buf_safe].
  apply psafe_assign. intros p' Hp'. apply ok_set_tx_buf; [done| |].
  - by rewrite zlen_insert.
  - apply Forall_insert; [by eapply ok_tx_u8|done].
Qed.
End send.

(** ** Frames *)

Section transmit.
Context {IO : Iolinki} {laws : IolinkiLaws IO}.
Context (phy : iolink_phy_api_t) (config : iolink_master_config_t) (Hcfg : config_ok config).
Context (send : list io → list Z → Z) (Hsend : phy_send phy = Some send).
Notation safe := (safe phy config).
Notation psafe := (psafe phy config).
Notation ok := (port_ok phy config).

Lemma safe_bind_post {A B} (m : M world A) (k : A → M world B) (R : A → Prop) :
  (∀ w, ok (w_port w) → wp m (fun a w' => ok (w_port w') ∧ R a) w) →
  (∀ a, R a → safe (k a)) → safe (mbind k m).
Proof.
  intros Hm Hk w Hw. apply wp_bind. eapply wp_mono; [by apply Hm|].
  intros a w' [Hw' HR]. by apply Hk.
Qed.

Lemma zoom_post {A} (m : M iolink_master_port_state_t A) (R : A → Prop) :
  (∀ p, ok p → wp m (fun a p' => ok p' ∧ R a) p) →
  ∀ w, ok (w_port w) → wp (zoom w_port m) (fun a w' => ok (w_port w') ∧ R a) w.
Proof. intros Hm w Hw. apply wp_zoom. eapply wp_mono; [by apply Hm|]. by intros a p []. Qed.

Lemma od_len_range : 1 ≤ iolink_master_od_len_for_type (cfg_m_seq_type config) ≤ 8.
Proof. destruct (cfg_m_seq_type config); simpl; lia. Qed.

Lemma pd_len_range :
  0 ≤ cfg_pd_in_len config ≤ IOLINK_PD_IN_MAX_SIZE ∧
  0 ≤ cfg_pd_out_len config ≤ IOLINK_PD_OUT_MAX_SIZE.
Proof.
  destruct Hcfg as [Ha]. unfold config_rejected in Ha. repeat (apply orb_false_iff in Ha as [Ha ?]).
  norm_bool. lia.
Qed.

(** A transmit buffer: its size, and octets. *)
Definition tx_ok (tx : list Z) : Prop := zlen tx = 64 ∧ Forall is_u8 tx.

Lemma ok_tx p : ok p → tx_ok (p_tx_buf p).
Proof. by intros []. Qed.

Lemma set_tx_psafe tx : tx_ok tx → psafe (p_tx_buf <~ tx).
Proof. intros [] p Hp. apply wp_assign. by apply ok_set_tx_buf. Qed.

Lemma wr_tx tx i x : tx_ok tx → 0 ≤ i < 64 → is_u8 x → ∃ tx', wr tx i x = Some tx' ∧ tx_ok tx'.
Proof.
  intros [Hl Hu] Hi Hx. eexists. split; [apply wr_Some; lia|]. split; [by rewrite zlen_insert|].
  by apply Forall_insert.
Qed.

Lemma blit_tx tx off l : tx_ok tx → 0 ≤ off → off + zlen l ≤ 64 → Forall is_u8 l →
  ∃ tx', blit tx off l = Some tx' ∧ tx_ok tx'.
Proof.
  intros [Hl Hu] Ho Hle Hul. assert (∃ tx', blit tx off l = Some tx') as [tx' Htx']
    by (eexists; apply blit_Some; lia).
  exists tx'. split; [done|]. split; [by rewrite (zlen_blit _ _ _ _ Htx')|].
  by apply (blit_Forall _ _ _ _ _ Hu Hul Htx').
Qed.

Lemma copy_od_tx tx pos od n : tx_ok tx → 0 ≤ pos → 0 ≤ n → pos + n ≤ 64 → n ≤ zlen od →
  Forall is_u8 od → ∃ tx', copy_od tx pos od n = Some tx' ∧ tx_ok tx'.
Proof.
  intros Htx Hp Hn Hle Hod Hu. unfold copy_od. pose proof Htx as [Hl _].
  rewrite (ofold_ext _ (fun tx i => b ← rd od (0 + i); wr tx (pos + i) b)) by done.
  rewrite (ofold_copy tx od pos 0 n) by lia.
  apply blit_tx; [done..|rewrite zlen_take, zlen_drop; lia|by apply Forall_take, Forall_drop].
Qed.

Lemma copy_pd_tx p tx : ok p → tx_ok tx → ∃ tx', copy_pd_out p tx = Some tx' ∧ tx_ok tx'.
Proof.
  intros Hp Htx. destruct pd_len_range as [_ Hr]. pose proof law_pd_out_max.
  unfold copy_pd_out. rewrite (ok_pd_out_len _ _ _ Hp), law_header_len.
  destruct (0 <? cfg_pd_out_len config); [|eauto]. unfold memcpy.
  rewrite slice_Some; [|lia..|rewrite (ok_pd_out _ _ _ Hp); lia]. cbn [mbind option_bind].
  apply blit_tx; [done|lia|rewrite zlen_take; lia|].
  apply Forall_take, Forall_drop. by eapply ok_pd_out_u8.
Qed.

Lemma checksum_u8 msg b : is_u8 (u8 (Z.lor b (iolink_checksum6 msg))).
Proof. apply u8_range. Qed.

Lemma fold_checksum_tx tx pos : tx_ok tx → 0 ≤ pos ≤ 64 →
  ∃ tx', fold_checksum tx pos = Some tx' ∧ tx_ok tx'.
Proof.
  intros Htx Hpos. pose proof Htx as [Hl Hu]. unfold fold_checksum.
  destruct (rd_Some tx 1) as [ckt ->]; [lia|]. cbn [mbind option_bind].
  rewrite slice_Some by lia. cbn [mbind option_bind].
  apply wr_tx; [done|lia|apply u8_range].
Qed.

Lemma type_bits_u8 type : is_u8 (iolink_master_ckt_type_bits type).
Proof. by destruct type. Qed.

Lemma master_command_u8 read channel address :
  is_u8 (iolink_master_encode_master_command read channel address).
Proof. unfold iolink_master_encode_master_command. destruct read; apply u8_range. Qed.

Lemma encode_type0_tx mc tx : tx_ok tx → is_u8 mc →
  ∃ tx', iolink_frame_encode_type0 mc tx = (2, tx') ∧ tx_ok tx'.
Proof.
  intros [Hl Hu] Hmc. rewrite law_encode_type0 by lia. eexists. split; [done|].
  pose proof (law_checksum6 [mc; 0]). split; [slia|].
  constructor; [done|]. constructor; [unfold is_u8; lia|]. by apply Forall_drop.
Qed.

Lemma encode_type0_write_tx mc od tx : tx_ok tx → is_u8 mc → is_u8 od →
  ∃ tx', iolink_frame_encode_type0_write mc od tx = (3, tx') ∧ tx_ok tx'.
Proof.
  intros [Hl Hu] Hmc Hod. rewrite law_encode_type0_write by lia. eexists. split; [done|].
  pose proof (law_checksum6 [mc; 0; od]). split; [slia|].
  constructor; [done|]. constructor; [unfold is_u8; lia|]. constructor; [done|].
  by apply Forall_drop.
Qed.
End transmit.
