(* ===== verification/PortServices.v ===== *)
(** * The transmitter and the services keep the invariant of a port

    Memory safety of frame assembly, of the acyclic M-sequences and of the ISDU services,
    function by function. *)

From S2P Require Import Prelude Iolinki Reference Types Fixtures Parameters Isdu IsduResponse IsduRequest IsduService Services DataStorage Events Hal Transmit Port PortInvariant.

(** Take the array a checked write returns. *)
Ltac tx_step H tx Htx :=
  eapply wp_bind; destruct H as (tx & Heq & Htx); eapply wp_mem; [exact Heq|]; clear Heq.

Section frames.
Context {IO : Iolinki} {laws : IolinkiLaws IO}.
Context (phy : iolink_phy_api_t) (config : iolink_master_config_t) (Hcfg : config_ok config).
Notation psafe := (psafe phy config).
Notation ok := (port_ok phy config).
Implicit Types p : iolink_master_port_state_t.

(** A frame builder: the frame has a header and is inside the transmit buffer. *)
Definition builds (m : M iolink_master_port_state_t Z) : Prop :=
  ∀ p, ok p → wp m (fun len p' => ok p' ∧ 2 ≤ len ≤ 64) p.

(** Finish a builder that has assembled [tx]. *)
Lemma builds_tx p tx len :
  ok p → tx_ok tx → 2 ≤ len ≤ 64 →
  wp (p_tx_buf <~ tx;; mret len) (fun len p' => ok p' ∧ 2 ≤ len ≤ 64) p.
Proof. intros Hp [Hl Hu] Hlen. split; [by apply ok_set_tx_buf|done]. Qed.

(** Header, PD-out and OD fit the buffer. *)
Lemma frame_fits : 2 + cfg_pd_out_len config + iolink_master_od_len_for_type (cfg_m_seq_type config) ≤ 64.
Proof.
  pose proof (od_len_range config). destruct (pd_len_range config Hcfg).
  pose proof law_pd_out_max. lia.
Qed.

Lemma ofold_inv {A B} (I : B → Prop) (f : B → A → option B) b l :
  (∀ b x, x ∈ l → I b → ∃ b', f b x = Some b' ∧ I b') → I b →
  ∃ b', ofold f b l = Some b' ∧ I b'.
Proof.
  revert b. induction l as [|x l IH]; intros b Hf Hb; simpl; [eauto|].
  destruct (Hf b x) as (b' & -> & Hb'); [by left|done|]. simpl. apply IH; [|done].
  intros b2 y Hy. apply Hf. by right.
Qed.

Lemma zero_fill_tx tx pos n : tx_ok tx → 0 ≤ pos → pos + n ≤ 64 →
  ∃ tx', ofold (fun tx i => wr tx (pos + i) 0) tx (upto n) = Some tx' ∧ tx_ok tx'.
Proof.
  intros Htx Hp Hn. apply ofold_inv; [|done].
  intros tx1 i Hi%elem_of_upto Htx1. apply wr_tx; [done|lia|done].
Qed.

Lemma build_isdu_frame_builds mc od multi :
  is_u8 mc →
  match od with
  | Some od => Forall is_u8 od ∧ iolink_master_od_len_for_type (cfg_m_seq_type config) ≤ zlen od
  | None => True
  end → builds (iolink_master_build_isdu_frame mc od multi).
Proof.
  intros Hmc Hod p Hp. pose proof frame_fits as Hfit. pose proof (od_len_range config) as Hod_r.
  destruct (pd_len_range config Hcfg) as [_ Hpd_r]. pose proof law_pd_out_max as Hmax.
  pose proof (ok_tx _ _ _ Hp) as Htx0.
  assert (is_u8 0) as H0 by done.
  apply wp_bind, wp_get. rewrite law_header_len, (ok_od_len _ _ _ Hp), (ok_pd_out_len _ _ _ Hp).
  apply wp_if; intros Hm.
  - destruct od as [od|].
    + destruct Hod as [Hu Hl].
      tx_step (wr_tx _ 0 mc Htx0 ltac:(lia) Hmc) tx1 Htx1.
      tx_step (wr_tx _ 1 0 Htx1 ltac:(lia) H0) tx2 Htx2.
      tx_step (copy_od_tx _ 2 od (iolink_master_od_len_for_type (cfg_m_seq_type config)) Htx2
                 ltac:(lia) ltac:(lia) ltac:(lia) Hl Hu) tx3 Htx3.
      tx_step (fold_checksum_tx _ (2 + iolink_master_od_len_for_type (cfg_m_seq_type config)) Htx3 ltac:(lia)) tx4 Htx4.
      apply builds_tx; [done..|lia].
    + destruct (encode_type0_tx mc _ Htx0 Hmc) as (tx & -> & Htx). by apply builds_tx.
  - set (od_octets := if null od then 0 else _).
    assert (0 ≤ od_octets ≤ zlen (default [] od) ∧ 2 + cfg_pd_out_len config + od_octets ≤ 64)
      as [Ho Ho2].
    { unfold od_octets. pose proof (@zlen_nil Z). destruct od as [od|]; cbn; [destruct Hod|]; lia. }
    assert (Forall is_u8 (default [] od)) as Hu by (destruct od; simpl; [apply Hod|constructor]).
    tx_step (wr_tx _ 0 mc Htx0 ltac:(lia) Hmc) tx1 Htx1.
    tx_step (wr_tx _ 1 _ Htx1 ltac:(lia) (type_bits_u8 (cfg_m_seq_type (p_config p)))) tx2 Htx2.
    tx_step (copy_pd_tx _ _ Hcfg _ _ Hp Htx2) tx3 Htx3.
    tx_step (copy_od_tx _ (2 + cfg_pd_out_len config) (default [] od) od_octets Htx3
               ltac:(lia) ltac:(lia) ltac:(lia) ltac:(lia) Hu) tx4 Htx4.
    tx_step (fold_checksum_tx _ (2 + cfg_pd_out_len config + od_octets) Htx4 ltac:(lia)) tx5 Htx5.
    apply builds_tx; [done..|lia].
Qed.

Lemma build_event_frame_builds read addr od_len :
  0 ≤ od_len ≤ iolink_master_od_len_for_type (cfg_m_seq_type config) →
  builds (build_event_frame read addr od_len).
Proof.
  intros Hod p Hp. pose proof frame_fits as Hfit. pose proof (od_len_range config).
  destruct (pd_len_range config Hcfg) as [_ Hpd_r].
  pose proof (ok_tx _ _ _ Hp) as Htx0. assert (is_u8 0) as H0 by done.
  apply wp_bind, wp_get. cbv zeta.
  set (mc := iolink_master_encode_master_command _ _ _).
  assert (is_u8 mc) as Hmc by apply master_command_u8. clearbody mc.
  apply wp_if; intros Ht.
  - destruct read.
    + destruct (encode_type0_tx mc _ Htx0 Hmc) as (tx & -> & Htx). by apply builds_tx.
    + destruct (encode_type0_write_tx mc 0 _ Htx0 Hmc H0) as (tx & -> & Htx). by apply builds_tx.
  - rewrite law_header_len, (ok_pd_out_len _ _ _ Hp).
    set (frame_len := 2 + cfg_pd_out_len config + _).
    assert (2 ≤ frame_len ≤ 64) as Hf by (unfold frame_len; destruct read; lia).
    tx_step (wr_tx _ 0 mc Htx0 ltac:(lia) Hmc) tx1 Htx1.
    tx_step (wr_tx _ 1 0 Htx1 ltac:(lia) H0) tx2 Htx2.
    tx_step (copy_pd_tx _ _ Hcfg _ _ Hp Htx2) tx3 Htx3.
    apply wp_bind.
    eapply (wp_mono _ (fun tx p' => tx_ok tx ∧ p' = p)).
    { destruct read; [by apply wp_ret|].
      destruct (zero_fill_tx tx3 (2 + cfg_pd_out_len config) od_len Htx3)
        as (tx & Heq & Htx); [lia..|].
      by eapply wp_mem. }
    intros tx4 ? [Htx4 ->].
    tx_step (wr_tx _ 1 _ Htx4 ltac:(lia) (type_bits_u8 (cfg_m_seq_type (p_config p)))) tx5 Htx5.
    tx_step (fold_checksum_tx _ frame_len Htx5 ltac:(lia)) tx6 Htx6.
    apply builds_tx; [done..|lia].
Qed.
End frames.

(** ** Transmission *)

Section transmission.
Context {IO : Iolinki} {laws : IolinkiLaws IO}.
Context (phy : iolink_phy_api_t) (config : iolink_master_config_t) (Hcfg : config_ok config).
Context (send : list io → list Z → Z) (Hsend : phy_send phy = Some send).
Notation safe := (safe phy config).
Notation psafe := (psafe phy config).
Notation ok := (port_ok phy config).
Notation builds := (builds phy config).
Implicit Types p : iolink_master_port_state_t.

Lemma build_then {B} m (k : Z → M world B) :
  builds m → (∀ len, 0 ≤ len ≤ 64 → safe (k len)) → safe (mbind k (zoom w_port m)).
Proof.
  intros Hm Hk. apply (safe_bind_post phy config _ _ (fun len => 2 ≤ len ≤ 64)).
  - by apply zoom_post.
  - intros len Hlen. apply Hk. lia.
Qed.

Lemma send_frame_safe len : 0 ≤ len ≤ 64 → safe (send_frame len).
Proof.
  intros Hl. unfold send_frame. safe_auto. by eapply send_tx_buf_safe.
Qed.

Lemma send_isdu_control_safe flowctrl multi : safe (send_isdu_control flowctrl multi).
Proof.
  unfold send_isdu_control. cbv zeta. apply build_then.
  - apply build_isdu_frame_builds; [done|apply master_command_u8|done].
  - apply send_frame_safe.
Qed.

Lemma take_abort_psafe : psafe (zoom p_isdu (iolink_master_isdu_take_abort PTR)).
Proof.
  apply psafe_zoom. intros p Hp. eapply wp_mono; [apply take_abort_inv; by eapply ok_isdu|].
  intros ? s Hs. by apply ok_set_isdu.
Qed.

Lemma take_idle_psafe : psafe (zoom p_isdu (iolink_master_isdu_take_idle PTR)).
Proof.
  apply psafe_zoom. intros p Hp. eapply wp_mono; [apply take_idle_inv; by eapply ok_isdu|].
  intros ? s Hs. by apply ok_set_isdu.
Qed.

(** The OD octets of a frame, for a buffer with room for them. *)
Lemma fill_od_post od od_len p :
  0 ≤ od_len ≤ 64 → od_len ≤ zlen od → Forall is_u8 od → ok p →
  wp (zoom p_isdu (iolink_master_isdu_fill_od PTR (Some od) od_len)) (fun r p' => ok p' ∧
    ∃ od', r = Some od' ∧ zlen od' = zlen od ∧ Forall is_u8 od') p.
Proof.
  intros Hl Hle Hu Hp. pose proof law_isdu_buffer. apply wp_zoom.
  eapply wp_mono; [apply fill_od_inv; (by eapply ok_isdu) || done || lia|].
  intros r s [Hs Hr]. split; [by apply ok_set_isdu|done].
Qed.

Lemma send_isdu_safe : safe iolink_master_send_isdu.
Proof.
  pose proof law_isdu_buffer. pose proof (od_len_range config).
  unfold iolink_master_send_isdu. apply safe_state. intros p Hp. cbv zeta.
  apply safe_bind; [apply safe_zoom, take_abort_psafe|]. intros [].
  { apply send_isdu_control_safe. }
  apply safe_bind; [apply safe_zoom, take_idle_psafe|]. intros [].
  { apply send_isdu_control_safe. }
  apply safe_state. intros p' Hp'.
  destruct (iolink_master_isdu_channel_access _) as [[read flowctrl]|]; [|apply safe_ret].
  rewrite (ok_od_len _ _ _ Hp'). cbv zeta.
  eapply (safe_bind_post phy config).
  { apply zoom_post. intros p2 Hp2. apply fill_od_post; [lia| | |exact Hp2].
    - rewrite zlen_zeros; lia.
    - by apply zeros_Forall. }
  intros r (od & -> & Hl & Hu). rewrite zlen_zeros in Hl by lia.
  apply build_then; [|apply send_frame_safe].
  apply build_isdu_frame_builds; [done|apply master_command_u8|].
  destruct read; [done|]. split; [done|lia].
Qed.

Lemma event_written_psafe : psafe (zoom p_event (iolink_master_event_on_written PTR)).
Proof.
  apply psafe_zoom. intros p Hp. pose proof (ok_event _ _ _ Hp) as [].
  unfold iolink_master_event_on_written, iolink_master_event_finish. wp_steps.
  all: apply ok_set_event; [done|by split].
Qed.

Lemma event_expected_psafe b : psafe (zoom p_event (ev_od_expected <~ b)).
Proof.
  apply psafe_zoom. intros p Hp. pose proof (ok_event _ _ _ Hp) as []. wp_steps.
  by apply ok_set_event.
Qed.

Lemma send_event_safe : safe iolink_master_send_event.
Proof.
  pose proof (od_len_range config).
  unfold iolink_master_send_event. apply safe_state. intros p Hp.
  destruct (iolink_master_event_channel_access (Some p)) as [[[read addr] od_len]|] eqn:Ha;
    [|apply safe_ret].
  assert (od_len = iolink_master_od_len_for_type (cfg_m_seq_type config)) as ->.
  { rewrite <- (ok_od_len _ _ _ Hp). unfold iolink_master_event_channel_access in Ha.
    case_match; by simplify_eq. }
  apply build_then; [apply build_event_frame_builds; [done|lia]|]. intros len Hlen.
  apply safe_bind.
  { apply safe_when. intros _. apply safe_bind; [by eapply send_tx_buf_safe|]. intros sent.
    apply safe_when. intros _. apply safe_zoom, event_expected_psafe. }
  intros ?. apply safe_bind; [|intros ?; apply safe_ret].
  apply safe_when. intros _. apply safe_zoom, event_written_psafe.
Qed.
End transmission.

(** ** Services *)

Section services.
Context {IO : Iolinki} {laws : IolinkiLaws IO}.
Context (phy : iolink_phy_api_t) (config : iolink_master_config_t).
Notation psafe := (psafe phy config).
Notation ok := (port_ok phy config).
Implicit Types p : iolink_master_port_state_t.

Lemma service_result_psafe ret : psafe (iolink_master_service_result ret).
Proof. unfold iolink_master_service_result. safe_auto. Qed.

(** Clearing the transport, with the ABORT request kept or not. *)
Lemma clear_psafe : psafe (zoom p_isdu iolink_master_isdu_clear).
Proof.
  apply psafe_zoom. intros p Hp. pose proof (ok_isdu _ _ _ Hp) as [Hwf _].
  apply clear_ok; [done|]. intros s Hs Hop _ _ _. apply ok_set_isdu; [done|]. split; [done|by left].
Qed.

Lemma finish_error_psafe : psafe iolink_master_isdu_finish_error.
Proof.
  unfold iolink_master_isdu_finish_error. apply psafe_get. intros p0 _. cbv zeta.
  apply psafe_bind; [safe_auto|]. intros ?. apply psafe_bind; [|intros ?; apply service_result_psafe].
  apply psafe_zoom. intros p Hp. pose proof (ok_isdu _ _ _ Hp) as [Hwf _].
  apply wp_bind, clear_ok; [done|]. intros s Hs Hop _ _ _. apply wp_assign.
  apply ok_set_isdu; [done|]. apply abort_inv; [split; [done|by left]|]. auto.
Qed.

Lemma finish_error_ret p (Hp : ok p) :
  wp iolink_master_isdu_finish_error (fun ret _ => ret = IOLINK_MASTER_ISDU_ERR_DEVICE) p.
Proof.
  pose proof (ok_isdu _ _ _ Hp) as [Hwf _].
  apply wp_bind, wp_get, wp_bind, wp_zoom, wp_assign, wp_bind, wp_zoom, wp_bind, clear_ok;
    [exact Hwf|].
  intros s _ _ _ _ _. apply wp_assign. unfold iolink_master_service_result. by wp_steps.
Qed.

(** What a read leaves in the caller's buffer and length. *)
Definition read_post (data : list Z) (len : Z) (r : Z * list Z * Z) : Prop :=
  zlen r.1.2 = zlen data ∧ (Forall is_u8 data → Forall is_u8 r.1.2) ∧
  (r.1.1 = IOLINK_MASTER_STATUS_OK → 0 ≤ r.2 ≤ len ∧ r.2 ≤ zlen data).

Lemma finish_read_post data len p :
  ok p → Z.min len IOLINK_ISDU_BUFFER_SIZE ≤ zlen data → len ≤ 255 →
  wp (iolink_master_isdu_finish_read data len) (fun r p' => ok p' ∧ read_post data len r) p.
Proof.
  intros Hp Hl H255. unfold iolink_master_isdu_finish_read. apply wp_bind, wp_get. cbv zeta.
  pose proof (ok_isdu _ _ _ Hp) as [Hwf _]. destruct Hwf as [_ _ _ _ _ Hresp Hu Hlen _ _ _].
  apply wp_if; intros He.
  - apply wp_bind. eapply wp_mono.
    { apply wp_and; [by apply finish_error_psafe|by apply finish_error_ret]. }
    intros ret p' [Hp' ->]. apply wp_ret. by split; [|split_and!].
  - apply wp_if; intros Hs; norm_bool.
    + apply wp_bind. unfold iolink_master_service_result. wp_steps; [|done].
      split; [auto with port_ok|]. by split_and!.
    + apply wp_bind.
      eapply (wp_mono _ (fun d p' => p' = p ∧ zlen d = zlen data ∧ (Forall is_u8 data → Forall is_u8 d))).
      { apply wp_if; intros Hz; norm_bool; [|by apply wp_ret].
        destruct (memcpy_Some data (isdu_response (p_isdu p)) 0 0 (isdu_response_len (p_isdu p)))
          as (d & Hd & Hdl); [lia..|].
        eapply wp_mem; [exact Hd|]. split_and!; [done..|]. intros Hdu.
        exact (memcpy_Forall is_u8 _ _ _ _ _ _ Hdu Hu Hd). }
      intros d ? (-> & Hdl & Hdu). apply wp_bind. eapply wp_mono; [by apply clear_psafe|].
      intros ? p' Hp'. apply wp_bind. unfold iolink_master_service_result. wp_steps; [|done].
      split; [auto with port_ok|]. split_and!; [done..|]. intros _. cbn.
      rewrite u8_small by (unfold is_u8; lia). lia.
Qed.

Lemma read_isdu_post p index subindex data len :
  ok p → is_u16 index → is_u8 subindex → Z.min len IOLINK_ISDU_BUFFER_SIZE ≤ zlen data →
  len ≤ 255 →
  wp (iolink_master_read_isdu PTR index subindex (Some data) (Some len)) (fun r p' => ok p' ∧
    ∃ ret data' len', r = (ret, Some data', Some len') ∧ read_post data len (ret, data', len')) p.
Proof.
  intros Hp Hi Hsub Hl H255.
  assert (∀ ret, ret ≠ IOLINK_MASTER_STATUS_OK → ∃ ret' data' len',
    (ret, Some data, Some len) = (ret', Some data', Some len') ∧ read_post data len (ret', data', len'))
    as Hsame.
  { intros ret Hret. do 3 eexists. split; [done|]. by split_and!. }
  apply wp_bind, wp_get. apply wp_if; intros Hst; [by apply wp_ret; auto|].
  apply wp_if; intros Hb.
  { apply wp_if; intros Hm; apply wp_ret; auto. }
  apply wp_if; intros Hd.
  - apply wp_if; intros Hm; [by apply wp_ret; auto|].
    apply wp_bind. eapply wp_mono; [by apply finish_read_post|].
    intros [[ret data'] len'] p' [Hp' Hr]. apply wp_ret. split; [done|]. eauto.
  - apply wp_bind, wp_zoom. pose proof (ok_isdu _ _ _ Hp) as [Hwf _].
    eapply wp_mono; [apply build_read_ok; [exact Hwf|exact Hi|exact Hsub]|]. intros ? s Hs. apply wp_ret.
    split; [|auto]. apply ok_set_isdu; [done|]. exact (request_ready_inv _ _ _ _ _ Hs).
Qed.

Lemma finish_write_psafe : psafe iolink_master_isdu_finish_write.
Proof.
  unfold iolink_master_isdu_finish_write. apply psafe_get. intros p Hp.
  destruct (negb _); [apply finish_error_psafe|].
  apply psafe_bind; [apply clear_psafe|]. intros ?. apply service_result_psafe.
Qed.

Lemma write_isdu_psafe index subindex data len :
  is_u16 index → is_u8 subindex → Forall is_u8 data → 0 ≤ len ≤ 255 → len ≤ zlen data →
  psafe (iolink_master_write_isdu PTR index subindex (Some data) len).
Proof.
  intros Hi Hsub Hu Hlen Hle p Hp. unfold iolink_master_write_isdu. cbn [ptr_null null orb andb].
  apply wp_bind, wp_get. apply wp_if; intros Hst; [by apply wp_ret|].
  apply wp_if; intros Hb. { apply wp_if; intros Hm; by apply wp_ret. }
  apply wp_if; intros Hd. { apply wp_if; intros Hm; [by apply wp_ret|by apply finish_write_psafe]. }
  cbv zeta. destruct (index_len_octets index subindex Hi Hsub) as (-> & Hr & _).
  unfold IOLINK_MASTER_ISDU_CHKPDU_LEN. rewrite u16_small by (unfold is_u16; lia).
  replace (1 + zlen (index_octets index subindex) + len + 1)
    with (zlen (index_octets index subindex ++ take (Z.to_nat len) data) + 2) by slia.
  apply wp_if; intros Hlong; [by apply wp_ret|].
  apply wp_bind, wp_zoom. pose proof (ok_isdu _ _ _ Hp) as [Hwf _].
  eapply wp_mono; [apply build_write_ok; (done || lia)|]. intros ? s Hs. apply wp_ret.
  apply ok_set_isdu; [done|]. exact (request_ready_inv _ _ _ _ _ Hs).
Qed.

Lemma read_local_post p index subindex data len :
  ok p → is_u16 index → is_u8 subindex → Z.min len IOLINK_ISDU_BUFFER_SIZE ≤ zlen data →
  len ≤ 255 →
  wp (read_isdu_local PTR index subindex data len) (fun r p' => ok p' ∧ read_post data len r) p.
Proof.
  intros. apply wp_bind. eapply wp_mono; [by apply read_isdu_post|].
  intros ? p' (Hp' & ret & d & l & -> & Hr). by apply wp_ret.
Qed.

(** Read an octet of an array of known length. *)
Ltac rd_step Hl :=
  lazymatch goal with
  | |- wp (mbind _ (mem (rd ?l ?i))) _ _ =>
      let Hrd := fresh in
      destruct (rd_Some l i) as [? Hrd]; [rewrite Hl; split; vm_compute; congruence|];
      apply wp_bind; eapply wp_mem; [exact Hrd|]; clear Hrd; cbv beta
  end.

Lemma parse_page_total info page len :
  zlen page = 16 → wp (iolink_master_parse_direct_parameter_page1 (Some page) len PTR)
    (fun _ _ => True) info.
Proof.
  intros Hl. unfold iolink_master_parse_direct_parameter_page1. cbn [ptr_null].
  apply wp_if; intros Hc; [done|].
  do 2 rd_step Hl. apply wp_if; intros Hr; [done|]. do 8 rd_step Hl. done.
Qed.

Lemma read_device_info_psafe : psafe (iolink_master_read_device_info PTR).
Proof.
  intros p Hp. unfold iolink_master_read_device_info. cbn [ptr_null].
  apply wp_bind. eapply wp_mono.
  { apply read_local_post; [done|apply law_idx_dpp1|done| |done].
    unfold IOLINK_MASTER_DPP1_LEN. rewrite zlen_zeros; lia. }
  intros [[ret page] len] p' [Hp' (Hl & _ & _)]. cbn in Hl.
  apply wp_if; intros Hret; [by apply wp_ret|].
  apply wp_bind. unfold iolink_master_apply_direct_parameter_page1. cbn [ptr_null].
  apply wp_zoom. eapply wp_mono; [by apply parse_page_total|]. intros ret2 info _.
  apply wp_if; intros Hret2; [by apply wp_ret, ok_set_device_info|].
  apply wp_bind, wp_get, wp_ret. by apply ok_set_device_info.
Qed.

Lemma readback_psafe data read_len expected len :
  0 ≤ len → (read_len = len → len ≤ zlen data) → (0 < len → len ≤ zlen (default [] expected)) →
  psafe (readback_differs data read_len expected len).
Proof.
  intros H0 Hd He. unfold readback_differs. intros p Hp.
  apply wp_if; intros Hc; norm_bool; [by apply wp_ret|].
  apply wp_if; intros Hz; norm_bool; [|by apply wp_ret].
  apply wp_bind. unfold memcmp_eq. specialize (Hd Hc). specialize (He Hz).
  eapply wp_mem; [rewrite !slice_Some by lia; done|]. by apply wp_ret.
Qed.

Lemma verdict_psafe (failed : bool) a b :
  psafe (if failed then iolink_master_service_result a else iolink_master_service_result b).
Proof. destruct failed; apply service_result_psafe. Qed.

(** An array argument with its length. *)
Definition array_ok (data : option (list Z)) (len : Z) : Prop :=
  0 ≤ len ≤ 255 ∧ Forall is_u8 (default [] data) ∧ (0 < len → len ≤ zlen (default [] data)).

Lemma read_ds_post p index subindex : ok p → is_u16 index → is_u8 subindex →
  wp (read_isdu_local PTR index subindex (zeros IOLINK_ISDU_BUFFER_SIZE) UINT8_MAX)
    (fun r p' => ok p' ∧ Forall is_u8 r.1.2 ∧
       (r.1.1 = IOLINK_MASTER_STATUS_OK → 0 ≤ r.2 ≤ 255 ∧ r.2 ≤ zlen r.1.2)) p.
Proof.
  intros Hp Hi Hs. pose proof law_isdu_buffer. eapply wp_mono.
  - apply read_local_post; [done..|rewrite zlen_zeros; lia|done].
  - intros r p' [Hp' (Hl & Hu & Hr)]. split; [done|]. split; [by apply Hu, zeros_Forall|].
    intros Hret. destruct (Hr Hret). unfold UINT8_MAX in *. lia.
Qed.

Lemma verify_isdu_psafe index subindex expected len :
  is_u16 index → is_u8 subindex → array_ok expected len →
  psafe (iolink_master_verify_isdu PTR index subindex expected len).
Proof.
  intros Hi Hs (Hlen & Hu & He) p Hp. unfold iolink_master_verify_isdu.
  apply wp_if; intros Hn; [by apply wp_ret|].
  apply wp_bind. eapply wp_mono; [by apply read_ds_post|].
  intros [[ret data] read_len] p' [Hp' (Hdu & Hr)]. cbn in Hr, Hdu.
  apply wp_if; intros Hret; [by apply wp_ret|]. norm_bool.
  destruct (Hr Hret) as [Hrl Hrd].
  apply wp_bind. eapply wp_mono; [apply readback_psafe; try done; lia|].
  intros differs p2 Hp2. by apply verdict_psafe.
Qed.

(** The image scans, for any array argument. *)
Lemma image_valid_total {St} (s : St) data len :
  array_ok data len → null data && (0 <? len) = false →
  wp (iolink_master_ds_image_is_valid data len) (fun b s' => s' = s ∧
    (b = true → ds_image (take (Z.to_nat len) (default [] data)))) s.
Proof.
  intros (Hlen & Hu & Hl) Hn. destruct data as [data|].
  - simpl in Hu, Hl. destruct (decide (0 < len)).
    + eapply wp_mono; [apply image_valid_ok; [done|lia|lia]|]. intros b ? [-> Hb].
      split; [done|]. apply Hb.
    + replace len with 0 by lia. split; [done|]. intros _. by exists [].
  - norm_bool. destruct Hn as [?|Hn]; [done|]. replace len with 0 by lia.
    split; [done|]. intros _. by exists [].
Qed.

Lemma image_contains_total {St} (s : St) actual alen expected elen :
  Forall is_u8 actual → 0 ≤ alen ≤ 255 → alen ≤ zlen actual → array_ok expected elen →
  ds_image (take (Z.to_nat alen) actual) →
  ds_image (take (Z.to_nat elen) (default [] expected)) →
  wp (iolink_master_ds_image_contains_records (Some actual) alen expected elen)
    (fun _ s' => s' = s) s.
Proof.
  intros Hu Hl Hz (He & Hue & Hle) (ra & Hra & Ha) (re & Hre & Hee).
  destruct (decide (0 < elen)) as [Hp|Hp].
  - specialize (Hle Hp). destruct expected as [expected|]; simpl in *; [|rewrite zlen_nil in Hle; lia].
    eapply wp_mono; [by apply (image_contains_ok s actual alen ra expected elen re)|]. by intros ? ? [-> _].
  - replace elen with 0 by lia. by destruct expected.
Qed.

Lemma verify_data_storage_psafe expected len :
  array_ok expected len → psafe (iolink_master_verify_data_storage PTR expected len).
Proof.
  intros Harr p Hp. pose proof Harr as (Hlen & Hu & He). unfold iolink_master_verify_data_storage.
  apply wp_if; intros Hn; [by apply wp_ret|].
  apply wp_bind. eapply wp_mono; [apply read_ds_post; [done|apply law_idx_ds|done]|].
  intros [[ret data] read_len] p' [Hp' (Hdu & Hr)]. cbn in Hr, Hdu.
  apply wp_if; intros Hret; [by apply wp_ret|].
  apply negb_false_iff, Z.eqb_eq in Hret. destruct (Hr Hret) as [Hrl Hrd].
  apply wp_bind. eapply wp_mono; [by apply image_valid_total|]. intros ve ? [-> Hve].
  apply wp_bind.
  eapply (wp_mono _ (fun v p2 => p2 = p' ∧ (v = true →
    ds_image (take (Z.to_nat len) (default [] expected)) ∧ ds_image (take (Z.to_nat read_len) data)))).
  { destruct ve; [|by apply wp_ret].
    eapply wp_mono; [apply (image_valid_total p' (Some data) read_len); [split_and!; done || lia|done]|].
    intros vd ? [-> Hvd]. auto. }
  intros valid ? [-> Hv]. apply wp_bind.
  eapply (wp_mono _ (fun _ p2 => p2 = p')).
  { destruct valid.
    - apply wp_bind. destruct (Hv eq_refl).
      eapply wp_mono; [by apply image_contains_total|]. intros b ? ->. by apply wp_ret.
    - unfold readback_differs. apply wp_if; intros Hc; norm_bool; [by apply wp_ret|].
      apply wp_if; intros Hz; norm_bool; [|by apply wp_ret]. specialize (He Hz).
      apply wp_bind. unfold memcmp_eq. eapply wp_mem; [rewrite !slice_Some by lia; done|].
      by apply wp_ret. }
  intros failed ? ->. by apply verdict_psafe.
Qed.

Lemma write_array_psafe index subindex data len :
  is_u16 index → is_u8 subindex → array_ok data len → null data && (0 <? len) = false →
  psafe (iolink_master_write_isdu PTR index subindex data len).
Proof.
  intros Hi Hs (Hl & Hu & Hle) Hn. destruct data as [data|]; simpl in Hu, Hle.
  - destruct (decide (0 < len)).
    + by apply write_isdu_psafe; [..|lia].
    + apply write_isdu_psafe; try done. pose proof (zlen_nonneg data). lia.
  - norm_bool. destruct Hn as [?|Hn]; [done|]. replace len with 0 by lia.
    exact (write_isdu_psafe index subindex [] 0 Hi Hs Hu ltac:(lia) ltac:(done)).
Qed.

Lemma write_system_command_psafe command :
  is_u8 command → psafe (iolink_master_write_system_command PTR command).
Proof.
  intros Hc. unfold iolink_master_write_system_command.
  apply write_isdu_psafe; [apply law_idx_cmd|done|by constructor|lia|done].
Qed.

Lemma block_goto_psafe step : psafe (block_goto step).
Proof.
  apply psafe_zoom. intros p Hp. pose proof (ok_block _ _ _ Hp) as []. wp_steps.
  apply ok_set_block; [done|by split].
Qed.

Lemma block_clear_psafe : psafe iolink_master_block_clear.
Proof.
  pose proof law_isdu_buffer. apply psafe_assign. intros p Hp. apply ok_set_block; [done|].
  split; cbn; try done; try lia; [by apply zlen_zeros; lia|by apply zeros_Forall].
Qed.

Lemma block_fits len : len ≤ u8 (IOLINK_ISDU_BUFFER_SIZE - IOLINK_MASTER_ISDU_WRITE_HEADER_MAX) →
  len ≤ IOLINK_ISDU_BUFFER_SIZE.
Proof.
  pose proof law_isdu_buffer. unfold IOLINK_MASTER_ISDU_WRITE_HEADER_MAX.
  destruct (decide (IOLINK_ISDU_BUFFER_SIZE - 7 < 256)).
  - rewrite u8_small by (unfold is_u8; lia). lia.
  - pose proof (u8_range (IOLINK_ISDU_BUFFER_SIZE - 7)) as Hr. unfold is_u8 in Hr. lia.
Qed.

Lemma block_open_psafe index subindex data len :
  is_u16 index → is_u8 subindex → array_ok data len → len ≤ IOLINK_ISDU_BUFFER_SIZE →
  psafe (block_open index subindex data len).
Proof.
  intros Hi Hs (Hl & Hu & Hle) Hb p Hp. pose proof (ok_block _ _ _ Hp) as [Hd Hdu _ _ _ _].
  apply wp_bind, wp_get. apply wp_if; intros Hc.
  - unfold block_goto. do 4 apply wp_bind, wp_zoom, wp_assign.
    apply wp_bind. apply wp_when; intros Hz; norm_bool.
    + specialize (Hle Hz).
      destruct (memcpy_Some (blk_data (p_block p)) (default [] data) 0 0 len) as (d & Hm & Hdl);
        [lia..|].
      apply wp_bind. eapply wp_mem; [exact Hm|]. apply wp_zoom, wp_assign, wp_ret.
      pose proof (memcpy_Forall is_u8 _ _ _ _ _ _ Hdu Hu Hm).
      change (ok (p <| p_block := {| blk_step := IOLINK_MASTER_BLOCK_STEP_BEGIN_DOWNLOAD;
        blk_index := index; blk_subindex := subindex; blk_data := d; blk_len := len |} |>)).
      apply ok_set_block; [done|]. split; cbn; try done; try lia; congruence.
    + change (ok (p <| p_block := {| blk_step := IOLINK_MASTER_BLOCK_STEP_BEGIN_DOWNLOAD;
        blk_index := index; blk_subindex := subindex; blk_data := blk_data (p_block p);
        blk_len := len |} |>)).
      apply ok_set_block; [done|]. split; cbn; try done; lia.
  - unfold iolink_master_block_matches. apply wp_bind, wp_get. cbv zeta.
    apply wp_if; intros Hm; [|by apply wp_ret]. norm_bool.
    apply wp_if; intros Hz; norm_bool; [by apply wp_ret|].
    eapply wp_mem; [|done]. unfold memcmp_eq. rewrite !slice_Some by lia. done.
Qed.

Lemma block_stage_psafe this next service :
  (∀ block, block_ok block → psafe (service block)) → psafe (block_stage this next service).
Proof.
  intros Hs. unfold block_stage. apply psafe_get. intros p Hp.
  destruct (_ =e _); [|apply psafe_ret].
  apply psafe_bind; [apply Hs; by eapply ok_block|]. intros ret.
  destruct (negb _); [apply psafe_ret|].
  apply psafe_bind; [apply block_goto_psafe|]. intros ?. apply psafe_ret.
Qed.

Lemma block_array block : block_ok block → array_ok (Some (blk_data block)) (blk_len block).
Proof. intros []. split_and!; simpl; done || lia. Qed.

Lemma block_verify_psafe : psafe (block_verify PTR).
Proof.
  unfold block_verify. apply psafe_get. intros p Hp. cbv zeta.
  pose proof (ok_block _ _ _ Hp) as Hb. pose proof (block_array _ Hb) as Ha.
  destruct Hb as [_ _ _ _ Hi Hs].
  apply psafe_bind.
  { destruct (_ && _); [by apply verify_data_storage_psafe|by apply verify_isdu_psafe]. }
  intros ret. apply psafe_bind; [|intros ?; apply service_result_psafe].
  destruct (ret =? _); [apply block_clear_psafe|]. apply psafe_when. intros _. apply block_clear_psafe.
Qed.

Lemma write_parameter_block_psafe index subindex data len :
  is_u16 index → is_u8 subindex → array_ok data len →
  psafe (iolink_master_write_parameter_block PTR index subindex data len).
Proof.
  intros Hi Hs Ha. unfold iolink_master_write_parameter_block. cbn [ptr_null orb].
  destruct (null data && (0 <? len)); [apply psafe_ret|].
  destruct (_ <? len) eqn:Hlen; [apply psafe_ret|]. apply Z.ltb_ge, block_fits in Hlen.
  apply psafe_bind; [by apply block_open_psafe|]. intros mine.
  destruct (negb mine); [apply service_result_psafe|].
  apply psafe_bind.
  { apply block_stage_psafe. intros _ _. apply write_system_command_psafe, law_cmd_download. }
  intros [ret|]; [apply psafe_ret|]. apply psafe_bind.
  { apply block_stage_psafe. intros block Hb. apply write_array_psafe; try apply Hb;
      [by apply block_array|done]. }
  intros [ret|]; [apply psafe_ret|]. apply psafe_bind.
  { apply block_stage_psafe. intros _ _. apply write_system_command_psafe, law_cmd_download_end. }
  intros [ret|]; [apply psafe_ret|]. apply block_verify_psafe.
Qed.

Lemma set_pd_out_psafe data len :
  array_ok data len → null data && (0 <? len) = false →
  psafe (iolink_master_set_pd_out PTR data len).
Proof.
  intros (Hl & Hu & Hle) Hn p Hp. unfold iolink_master_set_pd_out. cbn [ptr_null orb]. rewrite Hn.
  apply wp_bind, wp_get. apply wp_if; intros Hc; [by apply wp_ret|]. norm_bool.
  rewrite (ok_config _ _ _ Hp) in *.
  apply wp_bind. eapply (wp_mono _ (fun _ p' => ok p')).
  - apply wp_when; intros Hz; [|done]. norm_bool. specialize (Hle Hz).
    pose proof (ok_pd_out _ _ _ Hp) as Hpd.
    destruct (memcpy_Some (p_pd_out p) (default [] data) 0 0 len) as (d & Hm & Hdl); [lia..|].
    apply wp_bind. eapply wp_mem; [exact Hm|]. apply wp_assign, ok_set_pd_out; [done|congruence|].
    pose proof (ok_pd_out_u8 _ _ _ Hp) as Hpu. exact (memcpy_Forall is_u8 _ _ _ _ _ _ Hpu Hu Hm).
  - intros ? p' Hp'. apply wp_bind, wp_assign, wp_ret. by apply ok_set_pd_out_len.
Qed.
End services.
