(* ===== verification/ParameterBlock.v ===== *)
(** * The download of a parameter block

    [iolink_master_write_parameter_block] as a transfer in four services: start of the
    download, write, end of the download, readback. One call starts each service; the
    transfer is complete when the readback has been compared. *)

From S2P Require Import Prelude Iolinki Reference Types Fixtures Isdu IsduResponse IsduRequest IsduService Services DataStorage PortInvariant PortServices.

Section transfer.
Context {IO : Iolinki} {laws : IolinkiLaws IO}.
Implicit Types p : iolink_master_port_state_t.

(** ** Writes *)

(** The part of the port the services leave alone. *)
Definition outside (p : iolink_master_port_state_t)
    : iolink_master_block_state_t * iolink_master_state_t := (p_block p, p_state p).

Lemma free_isdu isdu : wf_isdu isdu → isdu_op isdu = IOLINK_MASTER_ISDU_OP_NONE →
  isdu_done isdu = false → isdu_free isdu.
Proof. intros Hwf Hop Hd. split; [split; [done|by left]|done]. Qed.

(** The write of [index], [subindex] has ended with outcome [o]. *)
Definition write_answered p (index subindex : Z) (o : isdu_outcome) : Prop :=
  represents (p_isdu p) (Finished o) ∧ isdu_op (p_isdu p) = IOLINK_MASTER_ISDU_OP_WRITE ∧
  isdu_index (p_isdu p) = index ∧ isdu_subindex (p_isdu p) = subindex.

Lemma write_isdu_finishes p index subindex data len o :
  acyclic_state (p_state p) → write_answered p index subindex o →
  wp (iolink_master_write_isdu PTR index subindex (Some data) len) (fun r p' =>
    r = (if outcome_error o =? IOLINK_ISDU_ERROR_NONE then IOLINK_MASTER_STATUS_OK
         else IOLINK_MASTER_ISDU_ERR_DEVICE) ∧
    isdu_free (p_isdu p') ∧ outside p' = outside p) p.
Proof.
  intros Hst (Hr & Hop & Hi & Hs). pose proof (outcome_error_ok _ _ Hr) as He.
  destruct Hr as (Hwf & _ & Hdone & _ & _).
  apply wp_bind, wp_get. rewrite acyclic_guard by done.
  unfold iolink_master_isdu_busy, iolink_master_isdu_matches.
  rewrite Hdone, andb_false_r, Hop, Hi, Hs, bool_decide_eq_true_2, !Z.eqb_refl by done.
  cbn [andb negb]. unfold iolink_master_isdu_finish_write, iolink_master_isdu_finish_error.
  apply wp_bind, wp_get. rewrite He.
  destruct (outcome_error o =? IOLINK_ISDU_ERROR_NONE); cbn [negb].
  - apply wp_bind, wp_zoom, clear_ok; [done|]. intros isdu Hwf' Hop' Hdone' _ _.
    unfold iolink_master_service_result. wp_steps; [|done]. by split_and!; [|apply free_isdu|].
  - apply wp_bind, wp_get, wp_bind, wp_zoom, wp_assign, wp_bind, wp_zoom, wp_bind, clear_ok; [done|].
    intros isdu Hwf' Hop' Hdone' _ _. apply wp_assign. unfold iolink_master_service_result.
    wp_steps; [|done]. split_and!; [done| |done]. apply free_isdu; [|done..].
    by destruct isdu, Hwf'.
Qed.

(** ** The latched transfer *)

Record latched p (step : iolink_master_block_step_t) (index subindex : Z) (data : list Z) : Prop := {
  latched_step : blk_step (p_block p) = step;
  latched_index : blk_index (p_block p) = index;
  latched_subindex : blk_subindex (p_block p) = subindex;
  latched_len : blk_len (p_block p) = zlen data;
  latched_data : take (length data) (blk_data (p_block p)) = data;
  latched_size : zlen (blk_data (p_block p)) = IOLINK_ISDU_BUFFER_SIZE;
  latched_u8 : Forall is_u8 (blk_data (p_block p));
}.

Lemma latched_fits p step index subindex data :
  latched p step index subindex data → zlen data ≤ IOLINK_ISDU_BUFFER_SIZE.
Proof.
  intros [_ _ _ _ Hd Hs _]. apply (f_equal zlen) in Hd. rewrite zlen_take, Hs in Hd.
  unfold zlen in *. lia.
Qed.

Lemma latched_outside p p' step index subindex data :
  outside p' = outside p → latched p step index subindex data → latched p' step index subindex data.
Proof. unfold outside. intros [= Hb _] []. by split; rewrite Hb. Qed.

Lemma latched_goto p step index subindex data next :
  latched p step index subindex data →
  latched (p <| p_block := p_block p <| blk_step := next |> |>) next index subindex data.
Proof. intros []. by split. Qed.

(** A call for a transfer compares the caller's octets with the latched ones. *)
Lemma block_matches_ok p step index subindex data index' subindex' data' :
  latched p step index subindex data →
  wp (iolink_master_block_matches index' subindex' (Some data') (zlen data')) (fun r p' =>
    p' = p ∧ r = bool_decide ((index', subindex', data') = (index, subindex, data))) p.
Proof.
  intros [Hst Hi Hs Hl Hd Hsz _]. pose proof (f_equal zlen Hd) as Hz. rewrite zlen_take in Hz.
  apply wp_bind, wp_get. cbv zeta. rewrite Hi, Hs, Hl. apply wp_if; intros Hm.
  - norm_bool. subst. destruct (Z.eqb_spec (zlen data') 0) as [Hz0|Hz0].
    + apply wp_ret. split; [done|].
      assert (data' = []) as -> by (apply nil_zlen; lia). assert (data = []) as -> by (apply nil_zlen; lia).
      by rewrite bool_decide_true.
    + eapply wp_mem.
      * unfold memcmp_eq. cbn [default]. unfold id.
        rewrite slice_0, slice_Some by (unfold zlen in *; lia). done.
      * split; [done|]. cbn. rewrite drop_0.
        replace (Z.to_nat (zlen data')) with (length data) by (unfold zlen in *; lia). rewrite Hd.
        apply eq_bool_prop_intro. rewrite !Is_true_true, octets_eqb_eq, bool_decide_eq_true.
        naive_solver.
  - apply wp_ret. split; [done|]. symmetry. apply bool_decide_eq_false. intros [= -> -> ->].
    by rewrite !Z.eqb_refl in Hm.
Qed.

Lemma block_open_latched p step index subindex data index' subindex' data' :
  latched p step index subindex data → step ≠ IOLINK_MASTER_BLOCK_STEP_NONE →
  wp (block_open index' subindex' (Some data') (zlen data')) (fun r p' =>
    p' = p ∧ r = bool_decide ((index', subindex', data') = (index, subindex, data))) p.
Proof.
  intros Hl Hne. apply wp_bind, wp_get. rewrite (latched_step _ _ _ _ _ Hl), bool_decide_false by done.
  by eapply block_matches_ok.
Qed.

Lemma block_open_new p index subindex data :
  block_ok (p_block p) → blk_step (p_block p) = IOLINK_MASTER_BLOCK_STEP_NONE →
  Forall is_u8 data → zlen data ≤ IOLINK_ISDU_BUFFER_SIZE →
  wp (block_open index subindex (Some data) (zlen data)) (fun r p' =>
    r = true ∧ p_isdu p' = p_isdu p ∧ p_state p' = p_state p ∧
    latched p' IOLINK_MASTER_BLOCK_STEP_BEGIN_DOWNLOAD index subindex data) p.
Proof.
  intros [Hsz Hu _ _ _ _] Hst Hud Hle. pose proof (zlen_nonneg data).
  apply wp_bind, wp_get. rewrite Hst, bool_decide_true by done.
  apply wp_bind, wp_zoom, wp_assign, wp_bind, wp_zoom, wp_assign, wp_bind, wp_zoom, wp_assign,
    wp_bind, wp_zoom, wp_assign, wp_bind, wp_when; intros Hz.
  - apply wp_bind. eapply wp_mem; [apply (memcpy_prefix _ data); lia|].
    apply wp_zoom, wp_assign, wp_ret. split_and!; [done..|]. cbn [default]. unfold id.
    replace (Z.to_nat (zlen data)) with (length data) by (unfold zlen; lia). rewrite firstn_all.
    split; cbn; try done.
    + apply take_app_length.
    + rewrite zlen_app, zlen_drop. unfold zlen in *. lia.
    + apply Forall_app_2; [done|]. by apply Forall_drop.
  - norm_bool. apply wp_ret. split_and!; [done..|]. rewrite (nil_zlen data) by lia. by split.
Qed.

(** ** The stages *)

(** Parameter and octets written in a step. *)
Definition stage_write (step : iolink_master_block_step_t) (index subindex : Z) (data : list Z)
    : Z * Z * list Z :=
  match step with
  | IOLINK_MASTER_BLOCK_STEP_WRITE => (index, subindex, data)
  | IOLINK_MASTER_BLOCK_STEP_END_DOWNLOAD => (IOLINK_IDX_SYSTEM_COMMAND, 0, [IOLINK_CMD_PARAM_DOWNLOAD_END])
  | _ => (IOLINK_IDX_SYSTEM_COMMAND, 0, [IOLINK_CMD_PARAM_DOWNLOAD_START])
  end.

Definition step_next (step : iolink_master_block_step_t) : iolink_master_block_step_t :=
  match step with
  | IOLINK_MASTER_BLOCK_STEP_BEGIN_DOWNLOAD => IOLINK_MASTER_BLOCK_STEP_WRITE
  | IOLINK_MASTER_BLOCK_STEP_WRITE => IOLINK_MASTER_BLOCK_STEP_END_DOWNLOAD
  | _ => IOLINK_MASTER_BLOCK_STEP_VERIFY
  end.

Definition writing (step : iolink_master_block_step_t) : Prop :=
  step = IOLINK_MASTER_BLOCK_STEP_BEGIN_DOWNLOAD ∨ step = IOLINK_MASTER_BLOCK_STEP_WRITE ∨
  step = IOLINK_MASTER_BLOCK_STEP_END_DOWNLOAD.

(** The service of a stage, as [iolink_master_write_parameter_block] passes it. *)
Definition stage_service (step : iolink_master_block_step_t)
    (block : iolink_master_block_state_t) : M iolink_master_port_state_t Z :=
  match step with
  | IOLINK_MASTER_BLOCK_STEP_WRITE =>
      iolink_master_write_isdu PTR (blk_index block) (blk_subindex block) (Some (blk_data block))
        (blk_len block)
  | IOLINK_MASTER_BLOCK_STEP_END_DOWNLOAD => iolink_master_end_parameter_download PTR
  | _ => iolink_master_begin_parameter_download PTR
  end.

Definition stage (step : iolink_master_block_step_t) : M iolink_master_port_state_t (option Z) :=
  block_stage step (step_next step) (stage_service step).

(** The service of the latched step is a write, whose octets are the stage's. *)
Lemma stage_is_write p step index subindex data :
  latched p step index subindex data → writing step →
  let '(i, s, d) := stage_write step index subindex data in
  ∃ buf, stage_service step (p_block p) = iolink_master_write_isdu PTR i s (Some buf) (zlen d) ∧
    Forall is_u8 buf ∧ zlen d ≤ zlen buf ∧ take (length d) buf = d.
Proof.
  intros Hl Hw. pose proof (latched_fits _ _ _ _ _ Hl).
  pose proof law_cmd_download. pose proof law_cmd_download_end.
  destruct Hl as [_ Hi Hs Hlen Hd Hsz Hu].
  destruct Hw as [->|[->| ->]]; cbn [stage_write stage_service].
  - by exists [IOLINK_CMD_PARAM_DOWNLOAD_START]; split_and!; [|constructor| |].
  - exists (blk_data (p_block p)). rewrite Hi, Hs, Hlen. split_and!; [done..|lia|done].
  - by exists [IOLINK_CMD_PARAM_DOWNLOAD_END]; split_and!; [|constructor| |].
Qed.

Lemma stage_skips p step index subindex data this (Q : option Z → iolink_master_port_state_t → Prop) :
  latched p step index subindex data → step ≠ this → Q None p → wp (stage this) Q p.
Proof.
  intros Hl Hne HQ. apply wp_bind, wp_get.
  by rewrite (latched_step _ _ _ _ _ Hl), bool_decide_false by done.
Qed.

(** The write of the step is under way: its request is ready to be sent. *)
Definition asking p step index subindex data : Prop :=
  let '(i, s, d) := stage_write step index subindex data in
  request_ready (p_isdu p) IOLINK_MASTER_ISDU_OP_WRITE i s (write_request i s d).

Definition answered p step index subindex data (o : isdu_outcome) : Prop :=
  let '(i, s, _) := stage_write step index subindex data in write_answered p i s o.

(** The length of the write of a step is one [iolink_master_write_isdu] takes. *)
Definition acceptable (step : iolink_master_block_step_t) (index subindex : Z) (data : list Z)
    : Prop :=
  let '(i, s, d) := stage_write step index subindex data in
  is_u16 i ∧ is_u8 s ∧ write_accepts (zlen d) (zlen (index_octets i s) + zlen d + 2).

Lemma stage_starts p step index subindex data :
  latched p step index subindex data → writing step → acyclic_state (p_state p) →
  isdu_free (p_isdu p) → acceptable step index subindex data →
  wp (stage step) (fun o p' => o = Some IOLINK_MASTER_STATUS_PENDING ∧
    outside p' = outside p ∧ asking p' step index subindex data) p.
Proof.
  intros Hl Hw Hst Hf Ha. pose proof (stage_is_write _ _ _ _ _ Hl Hw) as Hserv.
  unfold asking, acceptable in *. destruct (stage_write step index subindex data) as [[i s] d].
  destruct Hserv as (buf & Hserv & Hu & Hle & Htake). destruct Ha as (Hi & Hs & Ha).
  apply wp_bind, wp_get. rewrite (latched_step _ _ _ _ _ Hl), bool_decide_true, Hserv by done.
  pose proof (zlen_nonneg d). assert (zlen d ≤ 255) by (destruct Ha as [Ha _]; pose proof (u8_range (IOLINK_ISDU_BUFFER_SIZE - 7)) as Hr; unfold is_u8 in Hr; lia).
  apply wp_bind. eapply wp_mono; [by apply write_starts|].
  intros r p' [(_ & -> & isdu & -> & Hr)|[Hn _]]; [|by destruct Hn]. apply wp_ret.
  split_and!; [done..|]. replace (Z.to_nat (zlen d)) with (length d) in Hr by (unfold zlen; lia).
  by rewrite Htake in Hr.
Qed.

Lemma stage_finishes p step index subindex data o :
  latched p step index subindex data → writing step → acyclic_state (p_state p) →
  answered p step index subindex data o →
  wp (stage step) (fun result p' => isdu_free (p_isdu p') ∧ p_state p' = p_state p ∧
    if outcome_error o =? IOLINK_ISDU_ERROR_NONE
    then result = None ∧ latched p' (step_next step) index subindex data
    else result = Some IOLINK_MASTER_ISDU_ERR_DEVICE ∧ latched p' step index subindex data) p.
Proof.
  intros Hl Hw Hst Ha. pose proof (stage_is_write _ _ _ _ _ Hl Hw) as Hserv.
  unfold answered in *. destruct (stage_write step index subindex data) as [[i s] d].
  destruct Hserv as (buf & Hserv & _).
  apply wp_bind, wp_get. rewrite (latched_step _ _ _ _ _ Hl), bool_decide_true, Hserv by done.
  apply wp_bind. eapply wp_mono; [by apply write_isdu_finishes|].
  intros r p' (-> & Hf & Ho). pose proof (latched_outside _ _ _ _ _ _ Ho Hl) as Hl'.
  injection Ho as _ Hs. destruct (outcome_error o =? IOLINK_ISDU_ERROR_NONE).
  - cbn [negb Z.eqb IOLINK_MASTER_STATUS_OK]. apply wp_bind, wp_zoom, wp_assign, wp_ret.
    split_and!; [done..|]. by apply latched_goto with step.
  - by apply wp_ret.
Qed.

(** ** The readback *)

Definition reads_data_storage (index subindex : Z) : bool :=
  (index =? IOLINK_IDX_DATA_STORAGE) && (subindex =? 0).

(** What the readback decides: a Data Storage image by its records, anything else by its
    octets. *)
Definition readback_verdict (index subindex : Z) (data payload : list Z) (same : bool) : Prop :=
  if reads_data_storage index subindex then ds_verdict data payload same
  else same = bool_decide (payload = data).

Lemma read_local_starts p index subindex :
  acyclic_state (p_state p) → isdu_free (p_isdu p) → is_u16 index → is_u8 subindex →
  wp (read_isdu_local PTR index subindex (zeros IOLINK_ISDU_BUFFER_SIZE) UINT8_MAX) (fun r p' =>
    r.1.1 = IOLINK_MASTER_STATUS_PENDING ∧ outside p' = outside p ∧
    request_ready (p_isdu p') IOLINK_MASTER_ISDU_OP_READ index subindex (read_request index subindex)) p.
Proof.
  intros Hst Hf Hi Hs. apply wp_bind. eapply wp_mono; [by apply read_isdu_starts|].
  intros ? p' (-> & isdu & -> & Hr). by apply wp_ret.
Qed.

Lemma verify_starts p index subindex data :
  latched p IOLINK_MASTER_BLOCK_STEP_VERIFY index subindex data → acyclic_state (p_state p) →
  isdu_free (p_isdu p) → is_u16 index → is_u8 subindex →
  wp (block_verify PTR) (fun r p' => r = IOLINK_MASTER_STATUS_PENDING ∧ outside p' = outside p ∧
    request_ready (p_isdu p') IOLINK_MASTER_ISDU_OP_READ index subindex (read_request index subindex)) p.
Proof.
  intros Hl Hst Hf Hi Hs. apply wp_bind, wp_get. cbv zeta.
  rewrite (latched_index _ _ _ _ _ Hl), (latched_subindex _ _ _ _ _ Hl).
  apply wp_bind.
  eapply (wp_mono _ (fun r p' => r = IOLINK_MASTER_STATUS_PENDING ∧ outside p' = outside p ∧
    request_ready (p_isdu p') IOLINK_MASTER_ISDU_OP_READ index subindex (read_request index subindex))).
  - apply wp_if; intros Hds; norm_bool; subst; [unfold iolink_master_verify_data_storage|unfold iolink_master_verify_isdu];
      cbn [null andb]; apply wp_bind; (eapply wp_mono; [by apply read_local_starts|]);
      intros [[ret d] n] p' (Hret & Ho & Hr); cbn [fst] in Hret; subst ret; by apply wp_ret.
  - intros r p' (-> & Ho & Hr).
    change (IOLINK_MASTER_STATUS_PENDING =? IOLINK_MASTER_STATUS_OK) with false.
    change (IOLINK_MASTER_STATUS_PENDING <? 0) with false.
    change (iolink_master_service_result IOLINK_MASTER_STATUS_PENDING)
      with (when (S := iolink_master_port_state_t) false (zoom p_diagnostics (diag_last_service_result <~ IOLINK_MASTER_STATUS_PENDING));;
            mret IOLINK_MASTER_STATUS_PENDING).
    by apply wp_bind, wp_ret, wp_bind, wp_ret, wp_ret.
Qed.

Lemma verify_finishes p index subindex data payload :
  latched p IOLINK_MASTER_BLOCK_STEP_VERIFY index subindex data → zlen data ≤ 255 →
  read_answered p index subindex payload → Forall is_u8 payload →
  wp (block_verify PTR) (fun r p' =>
    (∃ same, r = verify_result same ∧ readback_verdict index subindex data payload same) ∧
    isdu_free (p_isdu p') ∧ p_block p' = block_state_zero) p.
Proof.
  intros Hl Hlen Hans Hu. pose proof (latched_fits _ _ _ _ _ Hl) as Hfit. pose proof (zlen_nonneg data).
  destruct Hl as [_ Hi Hs Hln Hd Hsz Hbu].
  apply wp_bind, wp_get. cbv zeta. rewrite Hi, Hs, Hln.
  assert (take (Z.to_nat (zlen data)) (blk_data (p_block p)) = data) as Htake.
  { by replace (Z.to_nat (zlen data)) with (length data) by (unfold zlen; lia). }
  apply wp_bind.
  eapply (wp_mono _ (fun r p' => (∃ same, r = verify_result same ∧ readback_verdict index subindex data payload same) ∧
    isdu_free (p_isdu p'))).
  - unfold readback_verdict, reads_data_storage. apply wp_if; intros Hds; rewrite Hds.
    + apply andb_true_iff in Hds as [->%Z.eqb_eq ->%Z.eqb_eq].
      eapply wp_mono; [by apply verify_data_storage_ok; [| | | |]; (done || lia)|].
      intros r p' (Hr & _ & Hf). by rewrite Htake in Hr.
    + eapply wp_mono; [by apply verify_isdu_ok; [|lia]|].
      intros r p' (-> & _ & Hf). rewrite Htake. eauto.
  - intros r p' ((same & -> & Hv) & Hf). apply wp_bind.
    eapply (wp_mono _ (fun _ p2 => p_isdu p2 = p_isdu p' ∧ p_block p2 = block_state_zero)).
    { destruct same; by apply wp_assign. }
    intros ? p2 [Hi2 Hb2]. apply service_result_ok; [by destruct same|].
    intros p3 Hi3 Hb3 _ _. rewrite Hi3, Hi2, Hb3. eauto.
Qed.

(** ** A call in each step *)

Definition requested p step index subindex data : Prop :=
  match step with
  | IOLINK_MASTER_BLOCK_STEP_VERIFY =>
      request_ready (p_isdu p) IOLINK_MASTER_ISDU_OP_READ index subindex (read_request index subindex)
  | _ => asking p step index subindex data
  end.

(** The transfer of [data] waits in [step] for the device. *)
Definition waiting p step index subindex data : Prop :=
  acyclic_state (p_state p) ∧ latched p step index subindex data ∧
  requested p step index subindex data.

Lemma waiting_outside p p' step index subindex data :
  outside p' = outside p → acyclic_state (p_state p) → latched p step index subindex data →
  requested p' step index subindex data → waiting p' step index subindex data.
Proof.
  intros Ho Hst Hl Hr. split; [injection Ho as _ ->; done|]. split; [by eapply latched_outside|done].
Qed.

Context (index subindex : Z) (data : list Z).
Context (Haccept : ∀ step, writing step → acceptable step index subindex data).
Notation call := (iolink_master_write_parameter_block PTR index subindex (Some data) (zlen data)).

(** The stages after the transfer has been opened. *)
Definition stages : M iolink_master_port_state_t Z :=
  stop ← stage IOLINK_MASTER_BLOCK_STEP_BEGIN_DOWNLOAD;
  match stop with Some ret => mret ret | None =>
  stop ← stage IOLINK_MASTER_BLOCK_STEP_WRITE;
  match stop with Some ret => mret ret | None =>
  stop ← stage IOLINK_MASTER_BLOCK_STEP_END_DOWNLOAD;
  match stop with Some ret => mret ret | None => block_verify PTR end end end.

Lemma data_short : zlen data ≤ u8 (IOLINK_ISDU_BUFFER_SIZE - 7) ∧ zlen data ≤ 255.
Proof.
  destruct (Haccept IOLINK_MASTER_BLOCK_STEP_WRITE) as (_ & _ & Hd & _); [by right; left|].
  pose proof (u8_range (IOLINK_ISDU_BUFFER_SIZE - 7)) as Hr.
  unfold is_u8 in Hr. lia.
Qed.

Lemma call_open p (Q : Z → iolink_master_port_state_t → Prop) :
  wp (block_open index subindex (Some data) (zlen data)) (fun r p' => r = true ∧ wp stages Q p') p →
  wp call Q p.
Proof.
  intros H. destruct data_short as [Hs _]. unfold iolink_master_write_parameter_block.
  cbn [ptr_null null orb andb]. unfold IOLINK_MASTER_ISDU_WRITE_HEADER_MAX.
  rewrite (proj2 (Z.ltb_ge _ _)) by done.
  apply wp_bind. eapply wp_mono; [exact H|]. intros r p' [-> HQ]. exact HQ.
Qed.

Lemma call_resumes p step (Q : Z → iolink_master_port_state_t → Prop) :
  latched p step index subindex data → step ≠ IOLINK_MASTER_BLOCK_STEP_NONE →
  wp stages Q p → wp call Q p.
Proof.
  intros Hl Hne HQ. apply call_open. eapply wp_mono; [by apply (block_open_latched _ _ _ _ _ index subindex data Hl)|].
  intros r p' [-> ->]. by rewrite bool_decide_true.
Qed.

(** Stages that do not belong to the step are passed over. *)
Lemma stages_at p step (Q : Z → iolink_master_port_state_t → Prop) :
  latched p step index subindex data → writing step →
  wp (stop ← stage step; match stop with Some ret => mret ret | None =>
        match step with
        | IOLINK_MASTER_BLOCK_STEP_BEGIN_DOWNLOAD =>
            stop ← stage IOLINK_MASTER_BLOCK_STEP_WRITE;
            match stop with Some ret => mret ret | None =>
            stop ← stage IOLINK_MASTER_BLOCK_STEP_END_DOWNLOAD;
            match stop with Some ret => mret ret | None => block_verify PTR end end
        | IOLINK_MASTER_BLOCK_STEP_WRITE =>
            stop ← stage IOLINK_MASTER_BLOCK_STEP_END_DOWNLOAD;
            match stop with Some ret => mret ret | None => block_verify PTR end
        | _ => block_verify PTR
        end end) Q p →
  wp stages Q p.
Proof.
  intros Hl Hw H. unfold stages. destruct Hw as [->|[->| ->]]; [exact H|..].
  - apply wp_bind. by eapply stage_skips.
  - apply wp_bind. eapply stage_skips; [done..|]. apply wp_bind. by eapply stage_skips.
Qed.

Lemma stage_opens p step (k : option Z → M iolink_master_port_state_t Z) :
  latched p step index subindex data → writing step → acyclic_state (p_state p) →
  isdu_free (p_isdu p) → (∀ ret, k (Some ret) = mret ret) →
  wp (mbind k (stage step)) (fun r p' =>
    r = IOLINK_MASTER_STATUS_PENDING ∧ waiting p' step index subindex data) p.
Proof.
  intros Hl Hw Hst Hf Hk. apply wp_bind. eapply wp_mono; [by apply stage_starts; auto|].
  intros o p' (-> & Ho & Hr). rewrite Hk. apply wp_ret. split; [done|].
  eapply waiting_outside; [done..|]. by destruct Hw as [->|[->| ->]].
Qed.

(** The first call latches the transfer and starts the download. *)
Lemma call_begins p :
  block_ok (p_block p) → blk_step (p_block p) = IOLINK_MASTER_BLOCK_STEP_NONE →
  acyclic_state (p_state p) → isdu_free (p_isdu p) → Forall is_u8 data →
  wp call (fun r p' => r = IOLINK_MASTER_STATUS_PENDING ∧
    waiting p' IOLINK_MASTER_BLOCK_STEP_BEGIN_DOWNLOAD index subindex data) p.
Proof.
  intros Hb Hn Hst Hf Hu. destruct data_short as [Hs _]. apply block_fits in Hs.
  apply call_open. eapply wp_mono; [by apply block_open_new|].
  intros r p' (-> & Hi & Hs' & Hl). split; [done|].
  eapply stages_at; [done|by left|]. apply stage_opens; [done|by left|congruence..|done].
Qed.

(** A call after the device has accepted a write starts the next service. *)
Lemma call_advances p step o :
  writing step → acyclic_state (p_state p) → latched p step index subindex data →
  answered p step index subindex data o → outcome_error o = IOLINK_ISDU_ERROR_NONE →
  wp call (fun r p' => r = IOLINK_MASTER_STATUS_PENDING ∧
    waiting p' (step_next step) index subindex data) p.
Proof.
  intros Hw Hst Hl Ha Ho. apply (call_resumes p step); [done|by destruct Hw as [->|[->| ->]]|].
  eapply stages_at; [done..|]. apply wp_bind. eapply wp_mono; [by apply stage_finishes|].
  intros result p' (Hf & Hs & Hr). rewrite Ho, Z.eqb_refl in Hr. destruct Hr as [-> Hl'].
  rewrite <- Hs in Hst. destruct Hw as [->|[->| ->]]; cbn [step_next] in *.
  - apply stage_opens; [done|by right; left|done..].
  - apply stage_opens; [done|by right; right|done..].
  - destruct (Haccept IOLINK_MASTER_BLOCK_STEP_WRITE) as (Hi & Hsub & _); [by right; left|].
    eapply wp_mono; [by eapply verify_starts|]. intros r p2 (-> & Ho2 & Hr2).
    split; [done|]. by eapply waiting_outside.
Qed.

(** The call after the readback ends the transfer. *)
Lemma call_ends p payload :
  latched p IOLINK_MASTER_BLOCK_STEP_VERIFY index subindex data →
  read_answered p index subindex payload → Forall is_u8 payload →
  wp call (fun r p' =>
    (∃ same, r = verify_result same ∧ readback_verdict index subindex data payload same) ∧
    isdu_free (p_isdu p') ∧ p_block p' = block_state_zero) p.
Proof.
  intros Hl Ha Hu. apply (call_resumes p IOLINK_MASTER_BLOCK_STEP_VERIFY); [done..|].
  unfold stages. do 3 (apply wp_bind; eapply stage_skips; [done..|]).
  apply verify_finishes; [done|apply data_short|done..].
Qed.

(** ** The device's turns *)

(** The octets of the request of a step. *)
Definition step_request (step : iolink_master_block_step_t) : list Z :=
  match step with
  | IOLINK_MASTER_BLOCK_STEP_VERIFY => read_request index subindex
  | _ => let '(i, s, d) := stage_write step index subindex data in write_request i s d
  end.

(** The device answers with [payload], in any frames, after any busy octets. *)
Definition device_replies (replies : list (list Z)) (payload : list Z) : Prop :=
  ∃ service busy trailing,
    0 < service < 16 ∧ service ≠ 4 ∧ service ≠ 12 ∧ isdu_body_fits payload ∧
    Forall is_u8 payload ∧ zlen payload + 3 ≤ IOLINK_ISDU_BUFFER_SIZE ∧
    Forall (fun b => b = 0 ∨ b = 1) busy ∧
    concat replies = busy ++ isdu_encode service payload ++ trailing ∧
    Forall (Forall is_u8) replies ∧ Forall (fun od => zlen od ≤ IOLINK_ISDU_BUFFER_SIZE) replies.

(** A call, then the exchange of its service over the wire. *)
Definition block_turn (od_len : Z) (step : iolink_master_block_step_t) (replies : list (list Z))
    : M iolink_master_port_state_t (Z * list Z) :=
  ret ← call;
  frames ← zoom p_isdu (isdu_send_frames
    (Z.to_nat ((zlen (step_request step) + od_len - 1) / od_len)) od_len);
  zoom p_isdu (isdu_read_frames replies);;
  mret (ret, concat (map snd frames)).

(** The service of a step: its operation and parameter. *)
Definition step_id (step : iolink_master_block_step_t) : iolink_master_isdu_op_t * Z * Z :=
  match step with
  | IOLINK_MASTER_BLOCK_STEP_VERIFY => (IOLINK_MASTER_ISDU_OP_READ, index, subindex)
  | _ => let '(i, s, _) := stage_write step index subindex data in
         (IOLINK_MASTER_ISDU_OP_WRITE, i, s)
  end.

Lemma requested_ready p step : requested p step index subindex data →
  request_ready (p_isdu p) (step_id step).1.1 (step_id step).1.2 (step_id step).2 (step_request step).
Proof. unfold requested, asking, step_id, step_request. by destruct step. Qed.

Lemma step_request_ne step : step_request step ≠ [].
Proof.
  assert (∀ service body, isdu_encode service body ≠ []) as H.
  { intros. unfold isdu_encode, isdu_header. by case_match. }
  unfold step_request. destruct step; apply H.
Qed.

(** The device has answered the service of a step with [payload]. *)
Definition step_answered p step (payload : list Z) : Prop :=
  acyclic_state (p_state p) ∧ latched p step index subindex data ∧
  represents (p_isdu p) (Finished (Payload payload)) ∧ isdu_id (p_isdu p) = step_id step.

(** What a turn answers and sends. *)
Definition turn_result (step : iolink_master_block_step_t) (turn : Z * list Z) : Prop :=
  turn.1 = IOLINK_MASTER_STATUS_PENDING ∧
  take (length (step_request step)) turn.2 = step_request step.

Lemma turn_ok p od_len step replies payload :
  wp call (fun r p' => r = IOLINK_MASTER_STATUS_PENDING ∧ waiting p' step index subindex data) p →
  device_replies replies payload → 1 ≤ od_len ≤ IOLINK_ISDU_BUFFER_SIZE →
  wp (block_turn od_len step replies) (fun turn p' =>
    turn_result step turn ∧ step_answered p' step payload) p.
Proof.
  intros Hcall (service & busy & trailing & Hs & H4 & H12 & Hfit & Hu & HB & Hb & Hc & Hru & Hrl) Hod.
  apply wp_bind. eapply wp_mono; [exact Hcall|].
  intros r p1 (-> & Hst & Hl & Hreq%requested_ready).
  apply wp_bind, wp_zoom. eapply wp_mono.
  { apply (wp_keeps isdu_id); [|apply send_frames_keeps].
    apply (request_segmented _ _ _ _ _ _ Hreq (step_request_ne step) Hod). }
  intros frames isdu1 [(Hw & _ & Hsnd) Hid1]. apply wp_bind, wp_zoom. cbn [p_isdu set].
  eapply wp_mono.
  { apply (wp_keeps isdu_id); [|apply read_frames_keeps].
    eapply (response_reassembled _ busy (isdu_encode service payload)); try done.
    by apply isdu_encode_pdu. }
  intros ? isdu2 [Hfin Hid2]. rewrite isdu_encode_decode in Hfin by done.
  apply wp_ret. split; [split; [done|]|].
  - cbn [snd]. rewrite Hsnd. apply take_app_length.
  - split_and!; [done| |done|].
    + by eapply latched_outside; [|exact Hl].
    + cbn. rewrite Hid2, Hid1. destruct Hreq as (_ & _ & _ & Ho & Hi & Hsub & _).
      unfold isdu_id. rewrite Ho, Hi, Hsub. by destruct (step_id step) as [[]].
Qed.

(** A whole transfer: four services, and the call that gives the result. *)
Definition block_transaction (od_len : Z) (begun written ended readback : list (list Z))
    : M iolink_master_port_state_t (list (Z * list Z) * Z) :=
  t1 ← block_turn od_len IOLINK_MASTER_BLOCK_STEP_BEGIN_DOWNLOAD begun;
  t2 ← block_turn od_len IOLINK_MASTER_BLOCK_STEP_WRITE written;
  t3 ← block_turn od_len IOLINK_MASTER_BLOCK_STEP_END_DOWNLOAD ended;
  t4 ← block_turn od_len IOLINK_MASTER_BLOCK_STEP_VERIFY readback;
  ret ← call;
  mret ([t1; t2; t3; t4], ret).

Lemma step_advances p step payload : writing step → step_answered p step payload →
  wp call (fun r p' => r = IOLINK_MASTER_STATUS_PENDING ∧
    waiting p' (step_next step) index subindex data) p.
Proof.
  intros Hw (Hst & Hl & Hr & Hid). apply (call_advances p step (Payload payload)); try done.
  unfold isdu_id in Hid. unfold answered, write_answered.
  destruct Hw as [->|[->| ->]]; by injection Hid as -> -> ->.
Qed.

Lemma next_turn p od_len step payload replies payload' :
  writing step → step_answered p step payload → device_replies replies payload' →
  1 ≤ od_len ≤ IOLINK_ISDU_BUFFER_SIZE →
  wp (block_turn od_len (step_next step) replies) (fun turn p' =>
    turn_result (step_next step) turn ∧ step_answered p' (step_next step) payload') p.
Proof. intros Hw Ha. apply turn_ok. by eapply step_advances. Qed.

(** C20: the download of a parameter block. Five calls carry it out: they send the start
    of the download, the write, the end of the download and the readback request, octet
    by octet as Annex A.5 encodes them, answering PENDING, and when the device has
    answered all four the last call returns OK or VERIFY_FAILED according to the
    readback; the transfer is then closed and the transport free. *)
Theorem parameter_block_end_to_end p od_len begun written ended readback d1 d2 d3 payload :
  block_ok (p_block p) → blk_step (p_block p) = IOLINK_MASTER_BLOCK_STEP_NONE →
  acyclic_state (p_state p) → isdu_free (p_isdu p) → Forall is_u8 data →
  1 ≤ od_len ≤ IOLINK_ISDU_BUFFER_SIZE →
  device_replies begun d1 → device_replies written d2 → device_replies ended d3 →
  device_replies readback payload →
  wp (block_transaction od_len begun written ended readback) (fun '(turns, ret) p' =>
    Forall2 turn_result [IOLINK_MASTER_BLOCK_STEP_BEGIN_DOWNLOAD; IOLINK_MASTER_BLOCK_STEP_WRITE;
      IOLINK_MASTER_BLOCK_STEP_END_DOWNLOAD; IOLINK_MASTER_BLOCK_STEP_VERIFY] turns ∧
    (∃ same, ret = verify_result same ∧ readback_verdict index subindex data payload same) ∧
    isdu_free (p_isdu p') ∧ p_block p' = block_state_zero) p.
Proof.
  intros Hb Hn Hst Hf Hu Hod H1 H2 H3 H4.
  apply wp_bind. eapply wp_mono; [by apply turn_ok; [apply call_begins|..]|].
  intros t1 p1 (Ht1 & Ha1).
  apply wp_bind. eapply wp_mono; [apply (next_turn p1 _ IOLINK_MASTER_BLOCK_STEP_BEGIN_DOWNLOAD d1); [by left|done..]|].
  intros t2 p2 (Ht2 & Ha2).
  apply wp_bind. eapply wp_mono; [apply (next_turn p2 _ IOLINK_MASTER_BLOCK_STEP_WRITE d2); [by right; left|done..]|].
  intros t3 p3 (Ht3 & Ha3).
  apply wp_bind. eapply wp_mono; [apply (next_turn p3 _ IOLINK_MASTER_BLOCK_STEP_END_DOWNLOAD d3); [by right; right|done..]|].
  intros t4 p4 (Ht4 & Hst4 & Hl4 & Hr4 & Hid4).
  destruct H4 as (service & busy & trailing & _ & _ & _ & Hfit & Hup & _).
  injection Hid4 as Hop Hi Hs.
  apply wp_bind. eapply wp_mono; [eapply call_ends; [done|split_and!; try done|done]|].
  - unfold isdu_body_fits in Hfit. lia.
  - intros ret p5 (Hv & Hf5 & Hb5). apply wp_ret. split_and!; try done.
    repeat (apply Forall2_cons_2; [done|]). apply Forall2_nil_2.
Qed.

(** C36: a rejected service leaves the transfer open. When the device answers the start,
    the write or the end of a download with an error, the call reports it and frees the
    transport, but the transfer stays latched in its step; every other transfer is then
    answered BUSY without effect, however often it is tried. *)
Theorem parameter_block_error_stays_latched p step o :
  writing step → acyclic_state (p_state p) → latched p step index subindex data →
  answered p step index subindex data o → outcome_error o ≠ IOLINK_ISDU_ERROR_NONE →
  wp call (fun r p' => r = IOLINK_MASTER_ISDU_ERR_DEVICE ∧ isdu_free (p_isdu p') ∧
    latched p' step index subindex data ∧
    ∀ index' subindex' data', (index', subindex', data') ≠ (index, subindex, data) →
      zlen data' ≤ u8 (IOLINK_ISDU_BUFFER_SIZE - 7) →
      wp (iolink_master_write_parameter_block PTR index' subindex' (Some data') (zlen data'))
        (fun r' p'' => r' = IOLINK_MASTER_ISDU_ERR_BUSY ∧
           p_block p'' = p_block p' ∧ p_isdu p'' = p_isdu p') p') p.
Proof.
  intros Hw Hst Hl Ha Ho. assert (step ≠ IOLINK_MASTER_BLOCK_STEP_NONE) as Hne by (by destruct Hw as [->|[->| ->]]).
  apply (call_resumes p step); [done..|]. eapply stages_at; [done..|]. apply wp_bind.
  eapply wp_mono; [by eapply stage_finishes|]. intros result p' (Hf & _ & Hr).
  rewrite (proj2 (Z.eqb_neq _ _)) in Hr by done. destruct Hr as [-> Hl'].
  apply wp_ret. split_and!; [done..|]. intros index' subindex' data' Hdiff Hlen.
  unfold iolink_master_write_parameter_block, IOLINK_MASTER_ISDU_WRITE_HEADER_MAX.
  cbn [ptr_null null orb andb]. rewrite (proj2 (Z.ltb_ge _ _)) by done.
  apply wp_bind. eapply wp_mono; [by apply (block_open_latched _ _ _ _ _ index' subindex' data' Hl')|].
  intros r p'' [-> ->]. rewrite bool_decide_false by done. cbn [negb].
  by apply service_result_ok.
Qed.
End transfer.

(** ** Witnesses *)

Lemma wit_acceptable step : writing step → acceptable step 0x40 1 [7; 9].
Proof.
  intros [->|[->| ->]]; (split; [decide_here|split; [decide_here|]]); split; vm_compute; try (by left); discriminate.
Qed.

(** The device answers in one frame. *)
Lemma wit_device_replies service payload :
  0 < service < 16 → service ≠ 4 → service ≠ 12 → isdu_body_fits payload →
  Forall is_u8 payload → zlen payload + 3 ≤ 256 →
  Forall is_u8 (isdu_encode service payload) → zlen (isdu_encode service payload) ≤ 256 →
  device_replies [isdu_encode service payload] payload.
Proof.
  intros. exists service, [], []. split_and!; try done; try by constructor; try (by cbn; rewrite app_nil_r).
  all: try (simpl; lia). all: by repeat constructor.
Qed.

Lemma parameter_block_end_to_end_witness :
  wp (block_transaction 0x40 1 [7; 9] 2 [isdu_encode 5 []] [isdu_encode 5 []] [isdu_encode 5 []]
        [isdu_encode 13 [7; 9]]) (fun '(turns, ret) p' =>
    Forall2 (turn_result 0x40 1 [7; 9])
      [IOLINK_MASTER_BLOCK_STEP_BEGIN_DOWNLOAD; IOLINK_MASTER_BLOCK_STEP_WRITE;
       IOLINK_MASTER_BLOCK_STEP_END_DOWNLOAD; IOLINK_MASTER_BLOCK_STEP_VERIFY] turns ∧
    (∃ same, ret = verify_result same ∧ readback_verdict 0x40 1 [7; 9] [7; 9] same) ∧
    isdu_free (p_isdu p') ∧ p_block p' = block_state_zero) (fix_port [] IOLINK_MASTER_STATE_OPERATE).
Proof.
  apply (parameter_block_end_to_end 0x40 1 [7; 9] wit_acceptable
    (fix_port [] IOLINK_MASTER_STATE_OPERATE) 2 _ _ _ _ [] [] [] [7; 9]).
  - split; try decide_here; try done; vm_compute; split; discriminate.
  - done.
  - by left.
  - apply isdu_zero_free.
  - decide_here.
  - vm_compute; split; discriminate.
  - apply wit_device_replies; try done; decide_here.
  - apply wit_device_replies; try done; decide_here.
  - apply wit_device_replies; try done; decide_here.
  - apply wit_device_replies; try done; decide_here.
Defined.

(** A transfer whose write the device has refused with ErrorType 0x8030. *)
Definition wit_refused : iolink_master_port_state_t :=
  fix_port [] IOLINK_MASTER_STATE_OPERATE
    <| p_block := {| blk_step := IOLINK_MASTER_BLOCK_STEP_WRITE; blk_index := 0x40;
         blk_subindex := 1; blk_data := [7; 9] ++ zeros 254; blk_len := 2 |} |>
    <| p_isdu := final (isdu_read_frames [[0x44; 0x80; 0x30; 0xF4]])
         (started isdu_state_zero IOLINK_MASTER_ISDU_OP_WRITE 0x40 1
            <| isdu_phase := IOLINK_MASTER_ISDU_PHASE_WAIT |>) |>.

Lemma wit_refused_answered : write_answered wit_refused 0x40 1 (DeviceError 0x8030).
Proof.
  set (s := started isdu_state_zero IOLINK_MASTER_ISDU_OP_WRITE 0x40 1
            <| isdu_phase := IOLINK_MASTER_ISDU_PHASE_WAIT |>).
  assert (represents s Waiting) as Hw.
  { assert (wf_isdu (started isdu_state_zero IOLINK_MASTER_ISDU_OP_WRITE 0x40 1)) as []
      by (apply started_wf; [apply isdu_zero_inv|done..]).
    split; [by split|]. by repeat split. }
  split; [|by vm_compute].
  change (p_isdu wit_refused) with (final (isdu_read_frames [[0x44; 0x80; 0x30; 0xF4]]) s).
  pattern (final (isdu_read_frames [[0x44; 0x80; 0x30; 0xF4]]) s). apply wp_final.
  apply (response_reassembled s [] [0x44; 0x80; 0x30; 0xF4] [] [[0x44; 0x80; 0x30; 0xF4]] Hw); try decide_here.
  split; [vm_compute; discriminate|]. split; [|reflexivity].
  exists 0x44, [0x80; 0x30; 0xF4]. repeat split; discriminate.
Qed.

Lemma parameter_block_error_stays_latched_witness :
  wp (iolink_master_write_parameter_block PTR 0x40 1 (Some [7; 9]) (zlen [7; 9])) (fun r p' =>
    r = IOLINK_MASTER_ISDU_ERR_DEVICE ∧ isdu_free (p_isdu p') ∧
    latched p' IOLINK_MASTER_BLOCK_STEP_WRITE 0x40 1 [7; 9] ∧
    ∀ index' subindex' data', (index', subindex', data') ≠ (0x40, 1, [7; 9]) →
      zlen data' ≤ u8 (IOLINK_ISDU_BUFFER_SIZE - 7) →
      wp (iolink_master_write_parameter_block PTR index' subindex' (Some data') (zlen data'))
        (fun r' p'' => r' = IOLINK_MASTER_ISDU_ERR_BUSY ∧
           p_block p'' = p_block p' ∧ p_isdu p'' = p_isdu p') p') wit_refused.
Proof.
  apply (parameter_block_error_stays_latched 0x40 1 [7; 9] wit_acceptable wit_refused
    IOLINK_MASTER_BLOCK_STEP_WRITE (DeviceError 0x8030)).
  - by right; left.
  - by left.
  - split; try done. decide_here.
  - exact wit_refused_answered.
  - done.
Defined.
