(* ===== verification/PortSafety.v ===== *)
(** * The port machine keeps the invariant: memory safety of the stack

    The event services, the establish sequence, the cyclic exchange, the receiver and
    the tick engine; then every sequence of calls on a port. *)

From S2P Require Import Prelude Iolinki Reference Types Fixtures Parameters Isdu IsduResponse IsduRequest IsduService Services DataStorage Events EventReadout Hal Transmit Port PortInvariant PortServices.

(** ** Event services *)

Section events.
Context {IO : Iolinki} {laws : IolinkiLaws IO}.
Context (phy : iolink_phy_api_t) (config : iolink_master_config_t).
Notation safe := (safe phy config).
Notation psafe := (psafe phy config).
Notation ok := (port_ok phy config).
Implicit Types p : iolink_master_port_state_t.

Lemma event_start_ok request ev :
  wp (iolink_master_event_start request) (fun _ ev' => event_ok ev') ev.
Proof.
  unfold iolink_master_event_start. wp_steps. by repeat split; try apply zeros_Forall.
Qed.

Lemma event_on_octet_ok ev od i :
  event_ok ev → Forall is_u8 od → 0 ≤ i < zlen od →
  wp (iolink_master_event_on_octet od i) (fun stop ev' => stop = false ∧ event_ok ev') ev.
Proof.
  intros [Hm Hu Ha] Hod Hi. destruct (rd_Some od i Hi) as [b Hb].
  unfold IOLINK_MASTER_EVENT_MEMORY_LEN in *.
  unfold iolink_master_event_on_octet. apply wp_bind, wp_get, wp_bind.
  eapply (wp_mono _ (fun _ ev' => event_ok ev')).
  - unfold IOLINK_MASTER_EVENT_MEMORY_LEN. apply wp_when; intros Hc; [|by split]. norm_bool.
    apply wp_bind. eapply wp_mem; [exact Hb|]. apply wp_bind. eapply wp_mem; [apply wr_Some; lia|].
    wp_steps. split; cbn; [by rewrite zlen_insert| |apply u8_range].
    apply Forall_insert; [done|]. exact (rd_Forall is_u8 _ _ _ Hod Hb).
  - intros ? ev' Hev'. apply wp_bind. unfold event_decode_status.
    apply wp_bind, wp_get, wp_when; intros Hc; [|by apply wp_ret].
    destruct Hev' as [Hm' Hu' Ha']. destruct (rd_Some (ev_memory ev') 0) as [st Hst].
    { rewrite Hm'. by split. }
    apply wp_bind. eapply wp_mem; [exact Hst|]. wp_steps. by repeat split.
Qed.

Lemma event_on_od_inv ev od od_len :
  event_ok ev → Forall is_u8 od → 0 ≤ od_len ≤ zlen od →
  wp (iolink_master_event_on_od PTR (Some od) od_len) (fun _ ev' => event_ok ev') ev.
Proof.
  intros Hev Hod Hl. apply wp_bind, wp_get. apply wp_if; intros Hp; [by apply wp_ret|].
  apply wp_bind. apply (wp_for_loop _ _ (fun _ ev' => event_ok ev')); [done| |].
  - intros n i ev1 Hi Hev1. apply lookup_upto in Hi as [_ Hi].
    eapply wp_mono; [apply event_on_octet_ok; done || lia|]. by intros stop ev2 [-> ?].
  - intros ev1 [Hm Hu Ha]. unfold iolink_master_event_finish.
    apply wp_bind, wp_get, wp_when; intros Hc; [|by split]. by apply wp_if; intros ?; wp_steps.
Qed.

Lemma gate_psafe request : psafe (event_service_gate request).
Proof.
  unfold event_service_gate. apply psafe_get. intros p Hp.
  destruct (_ && _); [apply psafe_ret|]. destruct (_ <>e _); [apply psafe_ret|].
  destruct (negb _); [|apply psafe_ret]. apply psafe_bind; [|intros ?; apply psafe_ret].
  apply psafe_zoom. intros p' Hp'. eapply wp_mono; [apply event_start_ok|].
  intros ? ev Hev. by apply ok_set_event.
Qed.

Lemma first_code_total p : ok p →
  ∃ code, iolink_master_event_first_code (ev_memory (p_event p)) = Some code.
Proof.
  intros Hp. destruct (ok_event _ _ _ Hp) as [Hm Hu _]. eexists. by apply first_code_ok.
Qed.

Lemma request_done_psafe : psafe (zoom p_event (ev_request <~ IOLINK_MASTER_EVENT_REQ_NONE)).
Proof.
  apply psafe_zoom. intros p Hp. destruct (ok_event _ _ _ Hp). wp_steps. by apply ok_set_event.
Qed.

Lemma read_event_code_psafe code : psafe (iolink_master_read_event_code PTR code).
Proof.
  unfold iolink_master_read_event_code. destruct (_ || _); [apply psafe_ret|].
  apply psafe_bind; [apply gate_psafe|]. intros [ret|]; [apply psafe_ret|].
  apply psafe_get. intros p Hp. destruct (first_code_total p Hp) as [c Hc].
  eapply psafe_mem; [exact Hc|]. safe_auto. apply request_done_psafe.
Qed.

Lemma ack_event_psafe code : psafe (iolink_master_ack_event PTR code).
Proof.
  unfold iolink_master_ack_event. destruct (_ || _); [apply psafe_ret|].
  apply psafe_bind; [apply gate_psafe|]. intros [ret|]; [apply psafe_ret|].
  apply psafe_get. intros p Hp. destruct (first_code_total p Hp) as [c Hc].
  eapply psafe_mem; [exact Hc|]. safe_auto. apply request_done_psafe.
Qed.

Lemma read_event_details_safe events max_events count :
  1 ≤ max_events ≤ 255 → max_events ≤ zlen events →
  safe (iolink_master_read_event_details PTR (Some events) max_events count).
Proof.
  intros Hmax Hle. unfold iolink_master_read_event_details.
  destruct (_ || _); [apply safe_ret|].
  apply safe_bind; [apply safe_zoom, gate_psafe|]. intros [ret|]; [apply safe_ret|].
  apply safe_get. intros w Hw. cbv zeta. destruct (ok_event _ _ _ Hw) as [Hm Hu _].
  unfold IOLINK_MASTER_EVENT_MEMORY_LEN in Hm.
  eapply safe_mem; [apply rd_octet; lia|].
  set (entries := take (Z.to_nat (max_events - 0)) (map (event_entry (ev_memory (p_event (w_port w))))
    (filter (fun slot => Z.testbit (octet (ev_memory (p_event (w_port w))) 0) slot) (upto 6)))).
  assert (zlen entries ≤ zlen events) as Hfit by (unfold entries; rewrite zlen_take; lia).
  pose proof (zlen_nonneg entries) as Hnn.
  eapply safe_mem.
  { unfold IOLINK_MASTER_EVENT_SLOT_MAX.
    rewrite decode_slots_ok by (auto using upto_slots; lia). fold entries.
    rewrite blit_Some by lia. cbn [mbind option_bind]. done. }
  cbv beta iota. set (array := _ ++ _). rewrite Z.add_0_l.
  assert (zlen entries ≤ zlen array) as Ha.
  { unfold array. rewrite !zlen_app, zlen_take, zlen_drop. lia. }
  apply safe_bind.
  { destruct (Z.ltb_spec 0 (zlen entries)); [|apply safe_ret].
    destruct (rd_Some array (zlen entries - 1)) as [e He]; [lia|].
    eapply safe_mem; [exact He|]. apply safe_ret. }
  intros code. apply safe_bind; [safe_auto|]. intros ?. apply safe_bind.
  { apply safe_when. intros _ w1 Hw1. eapply wp_ok; [apply dispatch_ok; lia|]. done. }
  intros ?. apply safe_bind; [|intros ?; apply safe_ret]. apply safe_zoom, request_done_psafe.
Qed.
End events.
#[export] Hint Resolve service_result_psafe : safe.

(** ** Transmission and establishing communication *)

Section process.
Context {IO : Iolinki} {laws : IolinkiLaws IO}.
Context (phy : iolink_phy_api_t) (config : iolink_master_config_t) (Hcfg : config_ok config).
Notation safe := (safe phy config).
Notation psafe := (psafe phy config).
Notation ok := (port_ok phy config).
Implicit Types p : iolink_master_port_state_t.

Lemma fail_with_safe ret : safe (fail_with ret).
Proof. unfold fail_with. safe_auto. Qed.

Lemma baudrate_safe {B} p (k : iolink_baudrate_t → M world B) :
  ok p → (∀ b, safe (k b)) → safe (mbind k (mem (iolink_master_startup_baudrate p))).
Proof.
  intros Hp Hk. destruct (startup_baudrate_ok _ _ _ Hp) as [b Hb]. by eapply safe_mem.
Qed.

Lemma restart_establish_safe now timed : safe (iolink_master_restart_establish now timed).
Proof. unfold iolink_master_restart_establish. pose proof fail_with_safe. safe_auto. Qed.

(** The scan moves on only while a rate is left. *)
Lemma establish_next_rate_wp now timed w :
  ok (w_port w) → su_baudrate_index (p_startup (w_port w)) < 2 →
  wp (establish_next_rate now timed) (fun _ w' => ok (w_port w')) w.
Proof.
  intros Hw Hi. pose proof (ok_baudrate_index _ _ _ Hw).
  apply wp_bind, wp_zoom, wp_zoom, wp_bind, wp_get, wp_assign.
  match goal with |- wp ?m ?Q ?w => refine ((_ : safe m) w _) end.
  - apply safe_bind; [apply set_startup_baudrate_safe|]. intros ret.
    destruct (negb _); [apply fail_with_safe|].
    apply safe_bind; [apply startup_goto_safe|]. intros _. apply safe_state. intros p Hp.
    apply baudrate_safe; [done|]. intros b. safe_auto.
  - apply ok_set_startup; [done|]. cbn. rewrite u8_small by (unfold is_u8; lia). lia.
Qed.

Lemma establish_sequence_failed_safe now timed : safe (establish_sequence_failed now timed).
Proof. pose proof fail_with_safe. unfold establish_sequence_failed. safe_auto. Qed.

Lemma establish_attempt_failed_safe now timed :
  safe (iolink_master_establish_attempt_failed now timed).
Proof.
  pose proof fail_with_safe. pose proof establish_sequence_failed_safe.
  unfold iolink_master_establish_attempt_failed. cbv zeta.
  apply safe_bind; [safe_auto|]. intros _ w Hw. apply wp_bind, wp_gets.
  apply wp_if; intros Hc.
  - apply establish_next_rate_wp; [done|]. norm_bool.
    by change (u8 (zlen g_iolink_master_baudrate_scan - 1)) with 2 in *.
  - match goal with |- wp ?m ?Q ?w => refine ((_ : safe m) w Hw) end. safe_auto.
Qed.

Lemma on_timeout_at_safe now timed : safe (iolink_master_on_timeout_at PTR now timed).
Proof.
  pose proof fail_with_safe. pose proof establish_attempt_failed_safe.
  pose proof restart_establish_safe. unfold iolink_master_on_timeout_at. safe_auto.
Qed.

(** The transmitter: nothing is sent without [phy->send]. *)
Section with_send.
Context (send : list io → list Z → Z) (Hsend : phy_send phy = Some send).

Lemma send_then_safe frame_len sent : 0 ≤ frame_len ≤ 64 → safe sent → safe (send_then frame_len sent).
Proof.
  intros Hl Hs. unfold send_then. apply safe_when. intros _.
  apply safe_bind; [by eapply send_tx_buf_safe|]. intros sent_ok. by apply safe_when.
Qed.

Lemma count_cycle_safe : safe count_cycle.
Proof. unfold count_cycle. safe_auto. Qed.

Lemma encode_type0_builds mc : is_u8 mc → builds phy config (encode_type0 mc).
Proof.
  intros Hmc p Hp. apply wp_bind, wp_get.
  destruct (encode_type0_tx mc _ (ok_tx _ _ _ Hp) Hmc) as (tx & -> & Htx). by apply builds_tx.
Qed.

Lemma encode_type0_write_builds mc od : is_u8 mc → is_u8 od →
  builds phy config (encode_type0_write mc od).
Proof.
  intros Hmc Hod p Hp. apply wp_bind, wp_get.
  destruct (encode_type0_write_tx mc od _ (ok_tx _ _ _ Hp) Hmc Hod) as (tx & -> & Htx).
  by apply builds_tx.
Qed.

Lemma startup_wake_safe now timed : safe (startup_wake now timed).
Proof.
  unfold startup_wake. apply safe_bind; [by eapply wake_up_safe|]. intros woken.
  apply safe_when. intros _. apply safe_bind; [apply startup_goto_safe|]. intros _.
  apply safe_state. intros p Hp. apply baudrate_safe; [done|]. intros b. safe_auto.
Qed.

Lemma test_message_timeout_ok p : ok p →
  ∃ t, iolink_master_test_message_timeout_100us p = Some t.
Proof.
  intros Hp. destruct (startup_baudrate_ok _ _ _ Hp) as [b Hb].
  unfold iolink_master_test_message_timeout_100us. rewrite Hb. eexists. done.
Qed.

Lemma response_timeout_ok p : ok p → ∃ t, iolink_master_response_timeout_100us p = Some t.
Proof.
  intros Hp. destruct (startup_baudrate_ok _ _ _ Hp) as [b Hb].
  unfold iolink_master_response_timeout_100us. rewrite Hb. eexists. done.
Qed.

Lemma startup_send_type0_safe now timed : safe (startup_send_type0 now timed).
Proof.
  unfold startup_send_type0. apply build_then; [apply encode_type0_builds, master_command_u8|].
  intros len Hlen. apply send_then_safe; [done|].
  apply safe_bind; [apply startup_goto_safe|]. intros _. apply safe_when. intros _.
  apply safe_state. intros p Hp. destruct (test_message_timeout_ok p Hp) as [t Ht].
  eapply safe_mem; [exact Ht|]. safe_auto.
Qed.

Lemma process_startup_safe now timed : safe (process_startup now timed).
Proof.
  pose proof startup_wake_safe. pose proof startup_send_type0_safe.
  unfold process_startup. safe_auto.
Qed.

Lemma preoperate_validate_safe : safe preoperate_validate.
Proof. pose proof read_device_info_psafe phy config. unfold preoperate_validate. safe_auto. Qed.

Lemma process_preoperate_safe : safe process_preoperate.
Proof.
  unfold process_preoperate.
  apply safe_bind; [by eapply send_event_safe|]. intros []; [apply safe_ret|].
  apply safe_bind; [by eapply send_isdu_safe|]. intros []; [apply safe_ret|].
  apply safe_bind; [apply preoperate_validate_safe|]. intros go. apply safe_when. intros _.
  apply build_then.
  - apply encode_type0_write_builds; [apply master_command_u8|]. by rewrite law_cmd_operate.
  - intros len Hlen. apply send_then_safe; [done|apply startup_goto_safe].
Qed.

Lemma operate_type0_safe : safe operate_type0.
Proof.
  unfold operate_type0. apply build_then.
  - intros p Hp. apply wp_bind. eapply wp_mono; [apply (fill_od_post phy config [0] 1); try done|].
    + by constructor.
    + intros r p' [Hp' (od & -> & Hl & Hu)]. simpl.
      destruct (rd_Some od 0) as [mc Hmc]; [rewrite Hl; by split|].
      apply wp_bind. eapply wp_mem; [exact Hmc|].
      apply encode_type0_builds; [exact (rd_Forall is_u8 _ _ _ Hu Hmc)|done].
  - intros len Hlen. apply send_then_safe; [done|apply count_cycle_safe].
Qed.

Lemma build_cyclic_frame_builds : builds phy config build_cyclic_frame.
Proof.
  intros p Hp. pose proof (frame_fits config Hcfg) as Hfit. pose proof (od_len_range config) as Hod_r.
  destruct (pd_len_range config Hcfg) as [_ Hpd_r].
  pose proof (ok_tx _ _ _ Hp) as Htx0. assert (is_u8 0) as H0 by done.
  apply wp_bind, wp_get. cbv zeta. rewrite law_header_len, (ok_od_len _ _ _ Hp), (ok_pd_out_len _ _ _ Hp).
  tx_step (wr_tx _ 0 (iolink_master_encode_master_command false IOLINK_MASTER_MC_CHANNEL_PROCESS 0)
    Htx0 ltac:(lia) (master_command_u8 _ _ _)) tx1 Htx1.
  tx_step (wr_tx _ 1 0 Htx1 ltac:(lia) H0) tx2 Htx2.
  tx_step (copy_pd_tx _ _ Hcfg _ _ Hp Htx2) tx3 Htx3.
  pose proof Htx3 as [Hl3 Hu3].
  unfold IOLINK_MASTER_FRAME_BUF_SIZE.
  assert (∃ tail, slice tx3 (2 + cfg_pd_out_len config) (64 - (2 + cfg_pd_out_len config)) = Some tail)
    as [tail Htail] by (eexists; apply slice_Some; lia).
  pose proof (zlen_slice _ _ _ _ Htail) as Htl.
  apply wp_bind. eapply wp_mem; [exact Htail|].
  apply wp_bind. eapply wp_mono; [apply (fill_od_post phy config tail); try done; try lia|].
  { exact (slice_Forall _ _ _ _ _ Hu3 Htail). }
  intros r p' [Hp' (od & -> & Hl & Hu)]. cbn [default].
  tx_step (blit_tx tx3 (2 + cfg_pd_out_len config) od Htx3 ltac:(lia) ltac:(lia) Hu) tx4 Htx4.
  tx_step (wr_tx _ 1 _ Htx4 ltac:(lia) (type_bits_u8 (cfg_m_seq_type (p_config p)))) tx5 Htx5.
  tx_step (fold_checksum_tx _ (2 + cfg_pd_out_len config +
    iolink_master_od_len_for_type (cfg_m_seq_type config)) Htx5 ltac:(lia)) tx6 Htx6.
  apply builds_tx; [done..|lia].
Qed.

Lemma process_operate_safe : safe process_operate.
Proof.
  unfold process_operate.
  apply safe_bind; [by eapply send_event_safe|]. intros []; [apply safe_ret|].
  apply safe_bind; [by eapply send_isdu_safe|]. intros []; [apply safe_ret|].
  apply safe_state. intros p Hp. destruct (type0_operate p); [apply operate_type0_safe|].
  apply build_then; [apply build_cyclic_frame_builds|]. intros len Hlen.
  apply safe_bind; [by eapply send_tx_buf_safe|]. intros sent. apply safe_when. intros _.
  apply count_cycle_safe.
Qed.
End with_send.

Lemma process_at_safe port now timed : safe (iolink_master_process_at port now timed).
Proof.
  unfold iolink_master_process_at. destruct (ptr_null port); [apply safe_ret|].
  apply safe_state. intros p Hp. rewrite (ok_phy _ _ _ Hp).
  destruct (phy_send phy) as [send|] eqn:Hsend; [|apply safe_ret]. cbn [null].
  destruct (_ && _); [apply safe_ret|].
  destruct (p_state p); try apply safe_ret.
  - by eapply process_startup_safe.
  - by eapply process_preoperate_safe.
  - by eapply process_operate_safe.
Qed.
End process.

(** ** Reception *)

Section receive.
Context {IO : Iolinki} {laws : IolinkiLaws IO}.
Context (phy : iolink_phy_api_t) (config : iolink_master_config_t) (Hcfg : config_ok config).
Context (pending : list io → nat).
Context (Hquiet : ∀ tr user, (pending (tr ++ [IoEventPending user]) ≤ pending tr)%nat).
Notation safe := (safe phy config).
Notation psafe := (psafe phy config).
Notation ok := (port_ok phy config).
Implicit Types p : iolink_master_port_state_t.

Lemma route_od_safe od od_len :
  Forall is_u8 od → 0 ≤ od_len ≤ zlen od → safe (iolink_master_route_od (Some od) od_len).
Proof.
  intros Hu Hl. unfold iolink_master_route_od. apply safe_state. intros p Hp.
  destruct (iolink_master_event_channel_access _) as [[[read addr] n]|].
  - apply safe_when. intros _. apply safe_zoom, psafe_zoom. intros p' Hp'.
    apply wp_bind, wp_assign. eapply wp_mono; [apply event_on_od_inv; try done|].
    + destruct (ok_event _ _ _ Hp'). by split.
    + intros ? ev Hev. by apply ok_set_event.
  - apply safe_zoom, psafe_zoom. intros p' Hp'.
    eapply wp_mono; [apply on_od_inv; [by eapply ok_isdu|done..]|]. intros ? s Hs. by apply ok_set_isdu.
Qed.

Lemma reply_accepted_safe : safe reply_accepted.
Proof. unfold reply_accepted. safe_auto. Qed.

Lemma route_od_quiet od od_len : keeps w_io (iolink_master_route_od od od_len).
Proof. unfold iolink_master_route_od. keeps_auto. Qed.

(** The reception of a frame: safe, and a frame that is accepted calls nothing but the
    notification handler. *)
Definition rx_safe (m : M world Z) : Prop :=
  ∀ w, ok (w_port w) → wp m (fun ret w' => ok (w_port w') ∧
    (ret = 0 → (pending (w_io w') ≤ pending (w_io w))%nat)) w.

Lemma rx_ret ret : rx_safe (mret ret).
Proof. by intros w Hw. Qed.

Lemma rx_fails {A} (m : M world A) ret : safe m → ret ≠ 0 → rx_safe (m;; mret ret).
Proof.
  intros Hm Hr w Hw. apply wp_bind. eapply wp_mono; [by apply Hm|]. intros ? w' Hw'. by apply wp_ret.
Qed.

Lemma rx_safe_step {A} (m : M world A) (k : A → M world Z) :
  safe m → keeps w_io m → (∀ a, rx_safe (k a)) → rx_safe (mbind k m).
Proof.
  intros Hm Hio Hk w Hw. apply wp_bind.
  eapply wp_mono; [apply (wp_keeps w_io); [by apply Hm|exact Hio]|]. intros a w' [Hw' Heq].
  rewrite <- Heq. by apply Hk.
Qed.

Lemma rx_state (k : iolink_master_port_state_t → M world Z) :
  (∀ p, ok p → rx_safe (k p)) → rx_safe (mbind k (gets w_port)).
Proof. intros Hk w Hw. apply wp_bind, wp_gets. by apply Hk. Qed.

Lemma rx_mem {A} (o : option A) (k : A → M world Z) a :
  o = Some a → rx_safe (k a) → rx_safe (mbind k (mem o)).
Proof. intros -> Hk w Hw. by apply wp_bind, wp_ret, Hk. Qed.

Lemma rx_notify b (k : unit → M world Z) user :
  rx_safe (k tt) → rx_safe (mbind k (when b (emit (IoEventPending user)))).
Proof.
  intros Hk w Hw. apply wp_bind. apply wp_when; intros Hb; [|by apply Hk].
  unfold emit. apply wp_bind, wp_get, wp_assign. eapply wp_mono; [by apply Hk|].
  intros ret w' [Hw' Hp]. split; [done|]. intros Hr. specialize (Hp Hr). cbn in Hp.
  pose proof (Hquiet (w_io w) user). lia.
Qed.

(** A failure owes nothing to the queue. *)
Lemma rx_fails_then {A} (m : M world A) (k : A → M world Z) :
  safe m → (∀ a w, ok (w_port w) → wp (k a) (fun ret w' => ok (w_port w') ∧ ret ≠ 0) w) →
  ∀ w, ok (w_port w) → wp (mbind k m) (fun ret w' => ok (w_port w') ∧ ret ≠ 0) w.
Proof. intros Hm Hk w Hw. apply wp_bind. eapply wp_mono; [by apply Hm|]. intros a w' Hw'. by apply Hk. Qed.

Lemma checksum_failed_rx : rx_safe checksum_failed.
Proof.
  pose proof restart_establish_safe phy config as Hr. intros w Hw.
  apply (wp_mono _ (fun ret w' => ok (w_port w') ∧ ret ≠ 0)); [|by intros ret w' [Hw' Hne]]. revert w Hw. unfold checksum_failed.
  apply rx_fails_then; [safe_auto|]. intros ?. apply rx_fails_then; [by intros ??|]. intros p.
  apply rx_fails_then; [safe_auto|]. intros ? w Hw. by apply wp_ret.
Qed.

Lemma type0_reply_total data : 2 ≤ zlen data → ∃ b, iolink_master_type0_reply_ok data = Some b.
Proof.
  intros Hl. unfold iolink_master_type0_reply_ok.
  destruct (rd_Some data 0) as [? ->]; [lia|]. destruct (rd_Some data 1) as [? ->]; [lia|]. eauto.
Qed.

(** The octets a reply is in. *)
Context (data : list Z) (len : Z) (Hu : Forall is_u8 data) (Hlen : 1 ≤ len ≤ zlen data).

Lemma on_rx_startup_rx : rx_safe (on_rx_startup data len).
Proof.
  unfold on_rx_startup. apply rx_state. intros p Hp. destruct (_ <>e _); [apply rx_ret|].
  rewrite law_type0_len. destruct (Z.eqb_spec len 2); [|apply rx_ret]. cbn [negb].
  destruct (type0_reply_total data) as [good Hgood]; [lia|]. eapply rx_mem; [exact Hgood|].
  destruct good; cbn [negb].
  - destruct (rd_Some data 0) as [b Hb]; [lia|].
    apply rx_safe_step; [|keeps_auto|].
    + apply safe_zoom. apply psafe_bind; [safe_auto|]. intros ?. apply psafe_bind.
      { apply psafe_zoom. intros p' Hp'. apply wp_assign. by apply ok_set_wake. }
      intros ?. apply psafe_bind; [safe_auto|]. intros ?. eapply psafe_mem; [exact Hb|]. safe_auto.
    + intros _. apply rx_safe_step; [apply goto_safe|unfold goto; keeps_auto|]. intros _. apply rx_ret.
  - apply rx_fails; [apply count_up_safe|done].
Qed.

Lemma accept_then k : rx_safe k → rx_safe (reply_accepted;; k).
Proof. intros Hk. apply rx_safe_step; [apply reply_accepted_safe|unfold reply_accepted; keeps_auto|done]. Qed.

Lemma on_rx_operate_ack_rx : rx_safe (on_rx_operate_ack data len).
Proof.
  unfold on_rx_operate_ack. destruct (rd_Some data 0) as [b Hb]; [lia|]. eapply rx_mem; [exact Hb|].
  cbv zeta. destruct (negb _); [apply rx_ret|]. destruct (negb _); [apply checksum_failed_rx|].
  apply accept_then. apply rx_safe_step; [safe_auto|keeps_auto|]. intros _.
  apply rx_safe_step; [apply goto_safe|unfold goto; keeps_auto|]. intros _. apply rx_ret.
Qed.

Lemma on_rx_type0_rx : rx_safe (on_rx_type0 data len).
Proof.
  unfold on_rx_type0. rewrite law_type0_len. destruct (Z.eqb_spec len 2); [|apply rx_ret]. cbn [negb].
  destruct (type0_reply_total data) as [good Hgood]; [lia|]. eapply rx_mem; [exact Hgood|].
  destruct good; cbn [negb]; [|apply checksum_failed_rx].
  apply accept_then. apply rx_safe_step; [apply route_od_safe; done || lia|apply route_od_quiet|].
  intros _. apply rx_ret.
Qed.

Lemma on_rx_operate_rx : rx_safe (on_rx_operate data len).
Proof.
  unfold on_rx_operate. apply rx_state. intros p Hp.
  assert (∃ frame, slice data 0 len = Some frame) as [frame Hf] by (eexists; apply slice_Some; lia).
  eapply rx_mem; [exact Hf|].
  pose proof (slice_Forall _ _ _ _ _ Hu Hf) as Hfu.
  destruct (iolink_frame_decode_operate_response _ _ _) as [resp|] eqn:Hd; [|apply rx_ret].
  destruct (law_decode _ _ _ _ Hfu Hd) as (_ & Hpl & Hpz & Hpu & Hol & Hoz & Hou & Hst).
  rewrite (ok_config _ _ _ Hp) in *. destruct (pd_len_range config Hcfg) as [Hr _].
  destruct (negb _); [apply checksum_failed_rx|]. unfold operate_reply. apply accept_then.
  apply rx_safe_step; [safe_auto|keeps_auto|]. intros _. apply rx_state. intros p' Hp'.
  apply rx_notify. apply rx_safe_step; [|keeps_auto|].
  - apply safe_zoom. apply psafe_bind; [safe_auto|]. intros _. apply psafe_when. intros Hv.
    apply psafe_get. intros p2 Hp2. pose proof (ok_pd_in _ _ _ Hp2) as Hin.
    destruct (memcpy_Some (p_pd_in p2) (resp_pd resp) 0 0 (resp_pd_len resp)) as (pd & Hpd & Hpdl); [lia..|].
    pose proof (memcpy_Forall is_u8 _ _ _ _ _ _ (ok_pd_in_u8 _ _ _ Hp2) Hpu Hpd) as Hpdu.
    eapply psafe_mem; [exact Hpd|].
    intros p3 Hp3. apply wp_bind, wp_assign, wp_bind, wp_assign, wp_assign.
    apply ok_set_pd_valid, ok_set_pd_in_len; [apply ok_set_pd_in; [done|congruence|done]|done].
  - intros _. apply rx_safe_step; [apply route_od_safe; [done|]|apply route_od_quiet|intros _; apply rx_ret].
    rewrite Hol, Hoz. destruct (p_rx_od_expected p); [|lia].
    pose proof (od_len_range config). rewrite (ok_od_len _ _ _ Hp). lia.
Qed.

Lemma on_rx_rx : rx_safe (iolink_master_on_rx PTR (Some data) len).
Proof.
  pose proof on_rx_startup_rx. pose proof on_rx_operate_ack_rx. pose proof on_rx_type0_rx.
  pose proof on_rx_operate_rx.
  unfold iolink_master_on_rx. cbn [ptr_null orb]. destruct (len =? 0); [apply rx_ret|].
  apply rx_state. intros p Hp. by repeat case_match.
Qed.
End receive.
