(* ===== verification/Sio.v ===== *)
(** * Standard I/O mode ([src/master_sio.c])

    Driving C/Q as a digital output, sensing it as a digital input and switching the
    port mode. *)

From S2P Require Import Prelude Iolinki Reference Types Fixtures Hal Port.

Section sio.
Context {IO : Iolinki}.

Definition iolink_master_set_dq (port : ptr) (level : bool) : M world Z :=
  if ptr_null port then mret IOLINK_MASTER_ERR_INVALID_ARG else
  state ← gets w_port;
  if cfg_port_mode (p_config state) <>e IOLINK_MASTER_PORT_MODE_DQ
  then mret IOLINK_MASTER_SIO_ERR_WRONG_MODE
  else match p_phy state with
  | None => mret IOLINK_MASTER_SIO_ERR_UNSUPPORTED_PHY
  | Some phy =>
      if negb (phy_set_cq_line phy) then mret IOLINK_MASTER_SIO_ERR_UNSUPPORTED_PHY
      else
        emit (IoSetCqLine (phy_user phy) (if level then 1 else 0));;
        mret IOLINK_MASTER_STATUS_OK
  end.

(** The result and [*level] afterwards. *)
Definition iolink_master_get_di (port : ptr) (level : option bool)
    : M world (Z * option bool) :=
  if ptr_null port || null level then mret (IOLINK_MASTER_ERR_INVALID_ARG, level) else
  state ← gets w_port;
  if cfg_port_mode (p_config state) <>e IOLINK_MASTER_PORT_MODE_DI
  then mret (IOLINK_MASTER_SIO_ERR_WRONG_MODE, level)
  else
    let config := p_config state in
    let read := match cfg_read_cq_line_checked config with
                | Some f => Some (call f IoReadCqLineChecked)
                | None => match cfg_read_cq_line config with
                          | Some f => Some (call f IoReadCqLine)
                          | None => None
                          end
                end in
    match read with
    | None => mret (IOLINK_MASTER_SIO_ERR_UNSUPPORTED_PHY, level)
    | Some read =>
        cq_level ← read;
        if cq_level <? 0 then mret (IOLINK_MASTER_SIO_ERR_UNSUPPORTED_PHY, level)
        else mret (IOLINK_MASTER_STATUS_OK, Some (negb (cq_level =? 0)))
    end.

Definition iolink_master_set_port_mode (port : ptr) (mode : iolink_master_port_mode_t)
    : M world Z :=
  if ptr_null port || negb (port_mode_in_range mode)
  then mret IOLINK_MASTER_ERR_INVALID_ARG else
  state ← gets w_port;
  if null (p_phy state) then mret IOLINK_MASTER_ERR_INVALID_ARG
  else iolink_master_init PTR (p_phy state)
         (Some (p_config state <| cfg_port_mode := mode |>)).
End sio.
