(* ===== verification/PortCalls.v ===== *)
(** * Every sequence of calls on a port is safe

    The receive loop under a bounded receive queue, the tick engine, initialisation,
    and the calls of [include/iolinki_master/master.h] as a data type: from a port that
    [iolink_master_init] has set up, no sequence of calls leaves the invariant, accesses
    memory outside an object or fails to return, whatever the PHY and the hooks answer. *)

From S2P Require Import Prelude Iolinki Reference Types Fixtures Parameters Isdu IsduResponse IsduRequest IsduService Services DataStorage Events EventReadout Hal Transmit Port PortInvariant PortServices PortSafety Sio.

(** What an adapter promises: it delivers octets, and its receive queue holds fewer
    than [fuel] of them. [pending tr] is the number of octets in the queue after the
    calls [tr]; a successful [recv_byte] takes one, and the application's notification
    handler adds none. *)
Record adapter_ok (phy : iolink_phy_api_t) (fuel : nat) (pending : list io → nat) : Prop := {
  adapter_octets : phy_ok phy;
  adapter_bound : ∀ tr, (pending tr < fuel)%nat;
  adapter_take : ∀ recv_byte tr, phy_recv_byte phy = Some recv_byte →
    0 < (recv_byte tr).1 →
    (pending (tr ++ [IoRecvByte (phy_user phy) (recv_byte tr).1 (recv_byte tr).2]) < pending tr)%nat;
  adapter_quiet : ∀ tr user, (pending (tr ++ [IoEventPending user]) ≤ pending tr)%nat;
}.

(** ** The calls *)

Inductive port_call : Type :=
| CallRestart
| CallProcess
| CallPollRx
| CallOnRx (data : option (list Z)) (len : Z)
| CallOnTimeout
| CallTick (response_timeout : bool)
| CallTickEvent (event : iolink_master_tick_event_t)
| CallTickAt (event : iolink_master_tick_event_t) (now_100us : Z)
| CallSetDq (level : bool)
| CallGetDi (level : option bool)
| CallSetPortMode (mode : iolink_master_port_mode_t)
| CallSetPdOut (data : option (list Z)) (len : Z)
| CallGetDiagnostics (diagnostics : option iolink_master_diagnostics_t)
| CallReadIsdu (index subindex : Z) (data : list Z) (len : Z)
| CallWriteIsdu (index subindex : Z) (data : option (list Z)) (len : Z)
| CallReadDeviceInfo
| CallVerifyIsdu (index subindex : Z) (expected : option (list Z)) (len : Z)
| CallVerifyDataStorage (expected : option (list Z)) (len : Z)
| CallSystemCommand (command : Z)
| CallWriteParameterBlock (index subindex : Z) (data : option (list Z)) (len : Z)
| CallReadEventCode (code : option Z)
| CallAckEvent (code : option Z)
| CallReadEventDetails (events : list iolink_master_event_t) (max_events : Z) (count : option Z).

(** What the caller owes: arrays at least as long as the length passed with them, values
    of the parameter types, and room for one event. *)
Definition call_valid (c : port_call) : Prop :=
  match c with
  | CallOnRx data len => array_ok data len
  | CallSetPdOut data len => array_ok data len
  | CallReadIsdu index subindex data len =>
      is_u16 index ∧ is_u8 subindex ∧ is_u8 len ∧ len ≤ zlen data
  | CallWriteIsdu index subindex data len | CallVerifyIsdu index subindex data len
  | CallWriteParameterBlock index subindex data len =>
      is_u16 index ∧ is_u8 subindex ∧ array_ok data len
  | CallVerifyDataStorage data len => array_ok data len
  | CallSystemCommand command => is_u8 command
  | CallReadEventDetails events max_events _ => 1 ≤ max_events ≤ 255 ∧ max_events ≤ zlen events
  | _ => True
  end.

Section calls.
Context {IO : Iolinki}.

Definition port_call_run (fuel : nat) (c : port_call) : M world unit :=
  match c with
  | CallRestart => iolink_master_restart PTR;; mret tt
  | CallProcess => iolink_master_process PTR
  | CallPollRx => iolink_master_poll_rx fuel PTR;; mret tt
  | CallOnRx data len => iolink_master_on_rx PTR data len;; mret tt
  | CallOnTimeout => iolink_master_on_timeout PTR;; mret tt
  | CallTick timeout => iolink_master_tick fuel PTR timeout;; mret tt
  | CallTickEvent event => iolink_master_tick_event fuel PTR event;; mret tt
  | CallTickAt event now => iolink_master_tick_at fuel PTR event now;; mret tt
  | CallSetDq level => iolink_master_set_dq PTR level;; mret tt
  | CallGetDi level => iolink_master_get_di PTR level;; mret tt
  | CallSetPortMode mode => iolink_master_set_port_mode PTR mode;; mret tt
  | CallSetPdOut data len => zoom w_port (iolink_master_set_pd_out PTR data len);; mret tt
  | CallGetDiagnostics d => iolink_master_get_diagnostics PTR d;; mret tt
  | CallReadIsdu index subindex data len =>
      zoom w_port (iolink_master_read_isdu PTR index subindex (Some data) (Some len));; mret tt
  | CallWriteIsdu index subindex data len =>
      zoom w_port (iolink_master_write_isdu PTR index subindex data len);; mret tt
  | CallReadDeviceInfo => zoom w_port (iolink_master_read_device_info PTR);; mret tt
  | CallVerifyIsdu index subindex expected len =>
      zoom w_port (iolink_master_verify_isdu PTR index subindex expected len);; mret tt
  | CallVerifyDataStorage expected len =>
      zoom w_port (iolink_master_verify_data_storage PTR expected len);; mret tt
  | CallSystemCommand command =>
      zoom w_port (iolink_master_write_system_command PTR command);; mret tt
  | CallWriteParameterBlock index subindex data len =>
      zoom w_port (iolink_master_write_parameter_block PTR index subindex data len);; mret tt
  | CallReadEventCode code => zoom w_port (iolink_master_read_event_code PTR code);; mret tt
  | CallAckEvent code => zoom w_port (iolink_master_ack_event PTR code);; mret tt
  | CallReadEventDetails events max_events count =>
      iolink_master_read_event_details PTR (Some events) max_events count;; mret tt
  end.

Fixpoint port_run (fuel : nat) (calls : list port_call) : M world unit :=
  match calls with
  | [] => mret tt
  | c :: calls => port_call_run fuel c;; port_run fuel calls
  end.
End calls.

(** ** The engine *)

Section engine.
Context {IO : Iolinki} {laws : IolinkiLaws IO}.
Context (phy : iolink_phy_api_t) (config : iolink_master_config_t) (Hcfg : config_ok config).
Context (fuel : nat) (pending : list io → nat) (Hadapter : adapter_ok phy fuel pending).
Notation safe := (safe phy config).
Notation psafe := (psafe phy config).
Notation ok := (port_ok phy config).
Implicit Types p : iolink_master_port_state_t.

Lemma rx_fault_safe ret : safe (rx_fault ret).
Proof. unfold rx_fault. safe_auto. Qed.

(** The receive loop returns: every iteration takes an octet from the queue. *)
Lemma poll_loop_ok recv_byte n expected frames w :
  phy_recv_byte phy = Some recv_byte → (pending (w_io w) < n)%nat → ok (w_port w) →
  wp (poll_loop n (phy_user phy) recv_byte expected frames) (fun _ w' => ok (w_port w')) w.
Proof.
  intros Hrecv. revert frames w. induction n as [|n IH]; intros frames w Hn Hw; [lia|].
  destruct Hadapter as [Hoct _ Htake Hquiet].
  specialize (Htake recv_byte (w_io w) Hrecv). specialize (Hoct recv_byte (w_io w) Hrecv).
  apply wp_bind. unfold call. apply wp_bind, wp_get, wp_bind, wp_assign, wp_ret.
  destruct (recv_byte (w_io w)) as [ret byte] eqn:Hr. cbn [fst snd] in *.
  apply wp_if; intros Hret.
  { apply wp_if; intros Hneg; [by apply rx_fault_safe|by apply wp_ret]. }
  apply Z.leb_gt in Hret. specialize (Htake Hret).
  apply wp_bind, wp_gets. apply wp_if; intros Hfull; [by apply rx_fault_safe|].
  apply Z.leb_gt in Hfull. unfold IOLINK_MASTER_FRAME_BUF_SIZE in *. cbn [w_port set] in Hfull |- *.
  destruct (ok_rx _ _ _ Hw) as [Hb Hbu Hbl]. unfold IOLINK_MASTER_FRAME_BUF_SIZE in *.
  apply wp_bind. eapply wp_mem; [apply wr_Some; lia|]. cbv zeta.
  rewrite u8_small by (unfold is_u8; lia).
  set (buf := <[_ := byte]> _). set (len := rx_len (p_rx (w_port w)) + 1).
  assert (zlen buf = 64) as Hbuf by (unfold buf; by rewrite zlen_insert).
  assert (Forall is_u8 buf) as Hbufu by (by apply Forall_insert).
  apply wp_bind, wp_zoom, wp_zoom, wp_bind, wp_assign, wp_assign.
  match goal with |- wp _ _ ?s => set (w1 := s) end.
  assert (ok (w_port w1)) as Hw1 by (apply ok_set_rx; [done|split; cbn; unfold IOLINK_MASTER_FRAME_BUF_SIZE; done || lia]).
  assert (pending (w_io w1) < n)%nat as Hn1 by (cbn; lia). clearbody w1.
  apply wp_if; intros He; [|by apply IH].
  apply wp_bind. eapply wp_mono; [eapply (on_rx_rx phy config Hcfg pending Hquiet buf len Hbufu); [lia|done]|].
  intros fret w2 [Hw2 Hp2]. apply wp_bind, wp_zoom, wp_zoom, wp_assign.
  apply wp_if; intros Hf; norm_bool.
  - apply wp_ret. by apply ok_set_rx_empty.
  - apply IH; [|by apply ok_set_rx_empty]. cbn. specialize (Hp2 Hf). lia.
Qed.

Lemma poll_rx_safe port : safe (iolink_master_poll_rx fuel port).
Proof.
  unfold iolink_master_poll_rx. destruct (ptr_null port); [apply safe_ret|].
  apply safe_state. intros p Hp. rewrite (ok_phy _ _ _ Hp).
  destruct (phy_recv_byte phy) as [recv|] eqn:Hrecv; [|apply safe_ret].
  destruct (rx_expected_len p) as [expected|]; [|apply safe_ret].
  intros w Hw. apply poll_loop_ok; [done|apply (adapter_bound _ _ _ Hadapter)|done].
Qed.

Lemma tick_record_cycle_safe now : safe (tick_record_cycle now).
Proof.
  unfold tick_record_cycle. apply safe_state. intros p Hp. cbv zeta.
  apply safe_bind; [safe_auto|]. intros _. apply safe_zoom. apply psafe_bind.
  { apply psafe_zoom. intros p' Hp'. wp_steps; auto with port_ok. }
  intros _. apply psafe_bind; [safe_auto|]. intros _. apply psafe_get. intros p' Hp'.
  destruct (response_timeout_ok _ _ p' Hp') as [t Ht]. eapply psafe_mem; [exact Ht|]. safe_auto.
Qed.

Lemma tick_transmit_safe pace now : safe (tick_transmit pace now).
Proof.
  pose proof (process_at_safe phy config Hcfg PTR now). pose proof tick_record_cycle_safe.
  unfold tick_transmit. safe_auto.
Qed.

Lemma tick_timeout_safe pace now rx_ret : safe (tick_timeout pace now rx_ret).
Proof.
  pose proof (on_timeout_at_safe phy config now pace). unfold tick_timeout. safe_auto.
Qed.

Lemma tick_common_safe port event pace now :
  safe (iolink_master_tick_common fuel port event pace now).
Proof.
  unfold iolink_master_tick_common. destruct (_ || _); [apply safe_ret|].
  apply safe_bind; [apply poll_rx_safe|]. intros rx_ret. destruct (rx_ret <? 0); [apply safe_ret|].
  apply safe_bind.
  { destruct (_ =e _); [apply tick_timeout_safe|apply safe_ret]. }
  intros [ret|]; [apply safe_ret|]. apply safe_bind; [|intros ?; apply safe_ret].
  apply safe_when. intros _. apply tick_transmit_safe.
Qed.

(** ** Initialisation *)

Lemma port_initial_ok : ok (port_initial phy config).
Proof.
  pose proof law_pd_in_max. pose proof law_pd_out_max. pose proof law_isdu_buffer.
  split; cbn; try done; try (by apply zlen_zeros; lia); try (by apply zeros_Forall).
  - apply isdu_zero_inv.
  - split; cbn; [done|by apply zeros_Forall|done].
  - split; cbn; try done; try lia; [by apply zlen_zeros; lia|by apply zeros_Forall].
  - split; cbn; [done|by apply zeros_Forall|done].
Qed.

Lemma or_fail_safe (m k : M world Z) : safe m → safe k → safe (or_fail m k).
Proof.
  intros Hm Hk. unfold or_fail. apply safe_bind; [done|]. intros ret.
  destruct (negb _); [apply fail_with_safe|done].
Qed.

Lemma phy_initialise_safe : safe (phy_initialise phy).
Proof. unfold phy_initialise. safe_auto. Qed.

(** Initialisation sets the invariant up, from any state. *)
Lemma init_ok w :
  wp (iolink_master_init PTR (Some phy) (Some config)) (fun _ w' => ok (w_port w')) w.
Proof.
  unfold iolink_master_init. rewrite (cfg_accepted _ Hcfg). cbn [ptr_null orb].
  apply wp_bind, wp_assign.
  match goal with |- wp ?m ?Q ?s => refine ((_ : safe m) s port_initial_ok) end.
  apply or_fail_safe; [apply phy_initialise_safe|].
  destruct (_ =e _); [apply or_fail_safe; safe_auto|].
  destruct (_ || _); [apply or_fail_safe; safe_auto|].
  repeat (apply or_fail_safe; [safe_auto|]). apply safe_ret.
Qed.
End engine.

(** ** The calls keep the invariant *)

Section run.
Context {IO : Iolinki} {laws : IolinkiLaws IO}.
Context (phy : iolink_phy_api_t).
Context (fuel : nat) (pending : list io → nat) (Hadapter : adapter_ok phy fuel pending).

(** A port on [phy] that was initialised; [set_port_mode] may change its mode. *)
Definition initialised (w : world) : Prop :=
  ∃ config, config_ok config ∧ port_ok phy config (w_port w).

(** Initialising again, with the configuration in another mode. *)
Lemma reinit_ok config w :
  config_rejected config = true ∨ config_ok config → initialised w →
  wp (iolink_master_init PTR (Some phy) (Some config);; mret tt) (fun _ w' => initialised w') w.
Proof.
  intros Hc Hw. apply wp_bind. destruct Hc as [Hrej|Hcfg].
  - unfold iolink_master_init. rewrite Hrej. by apply wp_ret, wp_ret.
  - eapply wp_mono; [by apply init_ok|]. intros ? w' Hw'. apply wp_ret. by exists config.
Qed.

Lemma mode_config config mode : config_ok config →
  config_rejected (config <| cfg_port_mode := mode |>) = true ∨
  config_ok (config <| cfg_port_mode := mode |>).
Proof.
  intros [Ha Hin Hout]. destruct (config_rejected (config <| cfg_port_mode := mode |>)) eqn:Hr; [by left|].
  right. by split.
Qed.

Lemma set_dq_safe config level : safe phy config (iolink_master_set_dq PTR level).
Proof. unfold iolink_master_set_dq. safe_auto. Qed.

Lemma get_di_safe config level : safe phy config (iolink_master_get_di PTR level).
Proof.
  unfold iolink_master_get_di. cbv zeta. destruct (_ || _); [apply safe_ret|].
  apply safe_state. intros p Hp. destruct (_ <>e _); [apply safe_ret|].
  destruct (cfg_read_cq_line_checked _); [|destruct (cfg_read_cq_line _); [|apply safe_ret]]; safe_auto.
Qed.

Lemma get_diagnostics_safe config d : safe phy config (iolink_master_get_diagnostics PTR d).
Proof. unfold iolink_master_get_diagnostics. cbv zeta. safe_auto. Qed.

Lemma read_isdu_psafe config index subindex data len :
  is_u16 index → is_u8 subindex → is_u8 len → len ≤ zlen data →
  psafe phy config (iolink_master_read_isdu PTR index subindex (Some data) (Some len)).
Proof.
  intros Hi Hs Hl Hle p Hp. unfold is_u8 in Hl.
  eapply wp_mono; [apply (read_isdu_post phy config p index subindex data len Hp Hi Hs); lia|].
  by intros ? p' [Hp' _].
Qed.

Lemma write_isdu_any_psafe config index subindex data len :
  is_u16 index → is_u8 subindex → array_ok data len →
  psafe phy config (iolink_master_write_isdu PTR index subindex data len).
Proof.
  intros Hi Hs Ha. destruct (null data && (0 <? len)) eqn:Hn.
  - unfold iolink_master_write_isdu. cbn [ptr_null orb]. rewrite Hn. apply psafe_ret.
  - by apply write_array_psafe.
Qed.

Lemma set_pd_out_any_psafe config data len :
  array_ok data len → psafe phy config (iolink_master_set_pd_out PTR data len).
Proof.
  intros Ha. destruct (null data && (0 <? len)) eqn:Hn.
  - unfold iolink_master_set_pd_out. cbn [ptr_null orb]. rewrite Hn. apply psafe_ret.
  - by apply set_pd_out_psafe.
Qed.

Lemma on_rx_safe config data len : config_ok config → array_ok data len →
  safe phy config (iolink_master_on_rx PTR data len).
Proof.
  intros Hcfg (Hl & Hu & Hle). destruct data as [data|]; [|apply safe_ret]. simpl in Hu, Hle.
  destruct (decide (len = 0)) as [->|Hne]; [apply safe_ret|].
  intros w Hw. eapply wp_mono.
  { apply (on_rx_rx phy config Hcfg pending (adapter_quiet _ _ _ Hadapter) data len Hu);
      [specialize (Hle ltac:(lia)); lia|done]. }
  by intros ? w' [Hw' _].
Qed.

(** A call other than a new initialisation is safe for the configuration in force. *)
Definition reinitialises (c : port_call) : bool :=
  match c with CallRestart | CallSetPortMode _ => true | _ => false end.

Ltac call_safe := solve
  [ by apply tick_common_safe with pending | by apply poll_rx_safe with pending
  | by apply on_timeout_at_safe | by apply on_rx_safe | apply set_dq_safe | apply get_di_safe
  | apply get_diagnostics_safe | by apply read_isdu_psafe | by apply write_isdu_any_psafe
  | by apply set_pd_out_any_psafe | by apply verify_isdu_psafe
  | by apply verify_data_storage_psafe | by apply write_system_command_psafe
  | by apply write_parameter_block_psafe | apply read_device_info_psafe
  | apply read_event_code_psafe | apply ack_event_psafe | by apply read_event_details_safe ].

(** A call other than an initialisation keeps the invariant of its configuration. *)
Lemma port_call_safe c config :
  call_valid c → reinitialises c = false → config_ok config → safe phy config (port_call_run fuel c).
Proof.
  intros Hc Hre Hcfg. destruct c; try done; cbn [call_valid port_call_run] in *; destruct_and?.
  all: try (apply safe_bind; [try apply safe_zoom; call_safe|intros ?; apply safe_ret]).
  by apply process_at_safe.
Qed.

Lemma port_call_ok c w :
  call_valid c → initialised w → wp (port_call_run fuel c) (fun _ w' => initialised w') w.
Proof.
  intros Hc Hw. destruct (reinitialises c) eqn:Hre.
  - pose proof Hw as (config & Hcfg & Hok). destruct c; try done; cbn [port_call_run].
    + unfold iolink_master_restart. cbn [ptr_null].
      apply wp_bind, wp_bind, wp_gets. rewrite (ok_phy _ _ _ Hok), (ok_config _ _ _ Hok). cbn [null].
      eapply wp_bind_inv, (reinit_ok config); auto.
    + unfold iolink_master_set_port_mode. cbn [ptr_null orb].
      apply wp_bind, wp_if; intros Hm; [by apply wp_ret, wp_ret|].
      apply wp_bind, wp_gets. rewrite (ok_phy _ _ _ Hok), (ok_config _ _ _ Hok). cbn [null].
      eapply wp_bind_inv, (reinit_ok (config <| cfg_port_mode := mode |>)), Hw. by apply mode_config.
  - destruct Hw as (config & Hcfg & Hok). eapply wp_mono; [by apply port_call_safe|].
    intros ? w' Hw'. by exists config.
Qed.

Lemma port_run_ok calls w :
  Forall call_valid calls → initialised w → wp (port_run fuel calls) (fun _ w' => initialised w') w.
Proof.
  intros Hc. revert w. induction Hc as [|c calls Hc _ IH]; intros w Hw; [by apply wp_ret|].
  apply wp_bind. eapply wp_mono; [by apply port_call_ok|]. intros ? w'. apply IH.
Qed.
End run.

(** ** Enough fuel *)

Section fuel.
Context {IO : Iolinki}.

(** A loop that has returned returns the same with more fuel. *)
Lemma poll_loop_more n k user recv_byte expected frames w a w' :
  poll_loop n user recv_byte expected frames w = Ok a w' → (n ≤ k)%nat →
  poll_loop k user recv_byte expected frames w = Ok a w'.
Proof.
  revert k frames w. induction n as [|n IH]; intros k frames w H Hk; [done|].
  destruct k as [|k]; [lia|]. revert H. cbn [poll_loop]. unfold mbind, M_bind.
  destruct (call recv_byte _ w) as [[ret byte] w1| |]; [|done..].
  destruct (ret <=? 0); [done|].
  cbn [gets]. unfold gets. destruct (_ <=? rx_len _); [done|].
  destruct (wr _ _ _) as [buf|]; cbn [mem]; [|done]. unfold mret, M_ret. cbv zeta.
  destruct (zoom w_port _ w1) as [[] w2| |]; [|done..].
  destruct (expected <=? _); [|intros; apply IH; [done|lia]].
  destruct (iolink_master_on_rx PTR _ _ w2) as [fret w3| |]; [|done..].
  destruct (zoom w_port _ w3) as [[] w4| |]; [|done..].
  destruct (negb _); [done|]. intros. apply IH; [done|lia].
Qed.

Lemma poll_rx_more n k port w a w' :
  iolink_master_poll_rx n port w = Ok a w' → (n ≤ k)%nat →
  iolink_master_poll_rx k port w = Ok a w'.
Proof.
  unfold iolink_master_poll_rx, mbind, M_bind, gets. destruct (ptr_null port); [done|].
  destruct (p_phy _) as [phy|]; [|done]. destruct (phy_recv_byte phy); [|done].
  destruct (rx_expected_len _); [|done]. apply poll_loop_more.
Qed.
End fuel.

Section claims.
Context {IO : Iolinki} {laws : IolinkiLaws IO}.

(** C1: memory safety and termination of the stack. After [iolink_master_init] with an
    accepted configuration, every sequence of calls of the public interface returns
    without an access outside an object and keeps the invariant of the port, whatever
    octets arrive and whatever the PHY and the application hooks answer; the only
    assumption on the adapter is that it delivers octets from a bounded queue. *)
Theorem port_safe phy config fuel pending calls w :
  adapter_ok phy fuel pending → config_ok config → Forall call_valid calls →
  wp (iolink_master_init PTR (Some phy) (Some config);; port_run fuel calls)
    (fun _ w' => initialised phy w') w.
Proof.
  intros Ha Hcfg Hc. apply wp_bind. eapply wp_mono; [by apply init_ok|].
  intros ? w' Hw'. eapply port_run_ok; [done..|]. by exists config.
Qed.

(** C21: [poll_rx] ends: on an initialised port whose adapter queues fewer than [fuel]
    octets it returns, and its result and effect are the same for every larger fuel. *)
Theorem poll_rx_terminates phy fuel pending w :
  adapter_ok phy fuel pending → initialised phy w →
  ∃ ret w', initialised phy w' ∧
    ∀ k, (fuel ≤ k)%nat → iolink_master_poll_rx k PTR w = Ok ret w'.
Proof.
  intros Ha (config & Hcfg & Hw).
  destruct (wp_inv _ _ _ (poll_rx_safe phy config Hcfg fuel pending Ha PTR w Hw)) as (ret & w' & Hr & Hw').
  exists ret, w'. split; [by exists config|]. intros k Hk. by eapply poll_rx_more.
Qed.
End claims.

(** ** Witnesses *)

(** The adapter of the fixtures keeps the promise. *)
Lemma received_snoc tr e : received (tr ++ [e]) =
  (received tr + match e with IoRecvByte _ ret _ => if (0 <? ret)%Z then 1 else 0 | _ => 0 end)%nat.
Proof.
  induction tr as [|x tr IH]; [by destruct e as [| | | |? ret| | | | | | | | | | | | |]; cbn; try done; destruct (0 <? ret)|].
  destruct x; cbn; try done. destruct (0 <? ret); cbn; lia.
Qed.

Lemma fix_adapter script : Forall is_u8 script →
  adapter_ok (fix_phy script) (S (length script)) (fun tr => length script - received tr)%nat.
Proof.
  intros Hu. split.
  - intros recv tr [= <-]. destruct (script !! received tr) as [b|] eqn:Hb; [|done].
    exact (Forall_lookup_1 _ _ _ _ Hu Hb).
  - intros. lia.
  - intros recv tr [= <-]. rewrite received_snoc.
    destruct (script !! received tr) as [b|] eqn:Hb; cbn; [|lia]. apply lookup_lt_Some in Hb. lia.
  - intros. rewrite received_snoc. lia.
Qed.

Lemma fix_config_ok : config_ok fix_config.
Proof. by split. Qed.

(** A start-up in which the device answers, a garbled octet, and services in between. *)
Definition wit_calls : list port_call :=
  [CallTickAt IOLINK_MASTER_TICK_CYCLE_DUE 0; CallTickAt IOLINK_MASTER_TICK_CYCLE_DUE 100;
   CallTickAt IOLINK_MASTER_TICK_NONE 101; CallReadIsdu 0x10 0 [0; 0; 0; 0] 4;
   CallTickAt IOLINK_MASTER_TICK_CYCLE_DUE 102; CallReadEventCode (Some 0);
   CallTick true; CallSetPortMode IOLINK_MASTER_PORT_MODE_DI; CallRestart; CallProcess].
Definition wit_world (script : list Z) : world :=
  {| w_port := fix_port script IOLINK_MASTER_STATE_INACTIVE; w_io := [] |}.

Lemma port_safe_witness :
  wp (iolink_master_init PTR (Some (fix_phy [0x14; 0x2D; 7; 255])) (Some fix_config);;
      port_run 5 wit_calls)
    (fun _ w' => initialised (fix_phy [0x14; 0x2D; 7; 255]) w') (wit_world []).
Proof.
  apply (port_safe _ fix_config 5 _ wit_calls (wit_world []) (fix_adapter [0x14; 0x2D; 7; 255] ltac:(decide_here)) fix_config_ok).
  repeat constructor; cbn; try done; try lia; try decide_here.
Defined.

Lemma poll_rx_terminates_witness :
  ∃ ret w', initialised (fix_phy [0x14; 0x2D]) w' ∧
    ∀ k, (3 ≤ k)%nat → iolink_master_poll_rx k PTR
      (final (iolink_master_init PTR (Some (fix_phy [0x14; 0x2D])) (Some fix_config)) (wit_world [])) = Ok ret w'.
Proof.
  apply (poll_rx_terminates _ 3 _ _ (fix_adapter [0x14; 0x2D] ltac:(decide_here))).
  apply wp_final. eapply wp_mono; [by apply init_ok, fix_config_ok|]. intros ? w' Hw'.
  exists fix_config. split; [exact fix_config_ok|done].
Defined.
