(* ===== verification/PortTransitions.v ===== *)
(** * How the state of a port changes

    Which calls change [p_state] and the step of the start-up, and when: services,
    timeouts, initialisation and most of the transmitter neither enter OPERATE nor begin
    to wait for the acknowledgement of DeviceOperate, and a received frame enters OPERATE
    only from a port that waits, as the acknowledgement. *)

From S2P Require Import Prelude Iolinki Reference Types Fixtures Parameters Isdu IsduResponse IsduRequest IsduService Services DataStorage Events EventReadout Hal Transmit Port PortInvariant PortServices PortSafety Sio PortCalls.

Lemma bind_ok {S A B} (m : M S A) (k : A → M S B) s b s' :
  mbind k m s = Ok b s' → ∃ a s1, m s = Ok a s1 ∧ k a s1 = Ok b s'.
Proof. unfold mbind, M_bind. destruct (m s) as [a s1| |]; [eauto|done..]. Qed.

(** A CKS octet whose checksum covers its flags (Figure A.5). *)
Definition cks_valid {IO : Iolinki} (cks : Z) : bool :=
  iolink_checksum6 [u8 (Z.land cks 0xC0)] =? u8 (Z.land cks 0x3F).

(** Where the port stands: its state and the step of its start-up. *)
Definition phase (p : iolink_master_port_state_t) : iolink_master_state_t * iolink_master_startup_step_t :=
  (p_state p, su_step (p_startup p)).

(** The port has written DeviceOperate and waits for the acknowledgement. *)
Definition awaits_operate_ack (p : iolink_master_port_state_t) : Prop :=
  phase p = (IOLINK_MASTER_STATE_PREOPERATE, IOLINK_MASTER_STARTUP_STEP_AWAIT_OPERATE_ACK).

(** A step that calls the environment; the port neither enters OPERATE nor begins to wait
    for the acknowledgement. *)
Definition passive (w w' : world) : Prop :=
  (∃ new, w_io w' = w_io w ++ new) ∧
  (p_state (w_port w') = IOLINK_MASTER_STATE_OPERATE →
   p_state (w_port w) = IOLINK_MASTER_STATE_OPERATE) ∧
  (awaits_operate_ack (w_port w') → awaits_operate_ack (w_port w)).

(** A valid CKS octet came from the adapter. *)
Definition cks_octet {IO : Iolinki} (new : list io) : Prop :=
  ∃ user ret cks, IoRecvByte user ret cks ∈ new ∧ 0 < ret ∧ cks_valid cks = true.

(** A step that enters OPERATE only from a port that waits for the acknowledgement, with a
    valid CKS octet among those received. *)
Definition acknowledged {IO : Iolinki} (w w' : world) : Prop :=
  ∃ new, w_io w' = w_io w ++ new ∧
  (p_state (w_port w') = IOLINK_MASTER_STATE_OPERATE →
   p_state (w_port w) = IOLINK_MASTER_STATE_OPERATE ∨ awaits_operate_ack (w_port w) ∧ cks_octet new) ∧
  (awaits_operate_ack (w_port w') → awaits_operate_ack (w_port w)).

#[export] Instance passive_preorder : PreOrder passive.
Proof.
  split.
  - intros w. split; [|done]. exists []. by rewrite app_nil_r.
  - intros w1 w2 w3 ([n1 H1] & Hs1 & Ha1) ([n2 H2] & Hs2 & Ha2). split; [|by auto].
    exists (n1 ++ n2). by rewrite H2, H1, app_assoc.
Qed.

Lemma cks_octet_app `{Iolinki} n1 n2 : cks_octet n1 ∨ cks_octet n2 → cks_octet (n1 ++ n2).
Proof. intros [(u & r & c & Hin & Hc)|(u & r & c & Hin & Hc)]; exists u, r, c; split; [|done| |done]; apply elem_of_app; auto. Qed.

#[export] Instance acknowledged_preorder `{Iolinki} : PreOrder acknowledged.
Proof.
  split.
  - intros w. exists []. rewrite app_nil_r. auto.
  - intros w1 w2 w3 (n1 & H1 & Hs1 & Ha1) (n2 & H2 & Hs2 & Ha2). exists (n1 ++ n2).
    split; [by rewrite H2, H1, app_assoc|]. split; [|auto]. intros Ho.
    destruct (Hs2 Ho) as [Ho2|[Ha Hc]]; [destruct (Hs1 Ho2) as [|[Ha Hc]]; [by left|]|];
      right; auto using cks_octet_app.
Qed.

Lemma passive_acknowledged `{Iolinki} w w' : passive w w' → acknowledged w w'.
Proof. intros ([new Hn] & Hs & Ha). exists new. auto. Qed.

(** Only the state and the start-up step matter. *)
Lemma passive_same_phase w w' :
  (∃ new, w_io w' = w_io w ++ new) → phase (w_port w') = phase (w_port w) → passive w w'.
Proof. unfold passive, awaits_operate_ack, phase. intros Hn [= -> ->]. auto. Qed.

(** ** Passive steps *)

Section passive_steps.
Context {IO : Iolinki}.
Notation quiet := (relates passive).

Lemma phase_zoom_startup {A} (m : M iolink_master_startup_state_t A) :
  keeps su_step m → keeps phase (zoom p_startup m).
Proof.
  intros Hm p a p'. unfold zoom. destruct (m (p_startup p)) as [b s| |] eqn:Hms; [|done..].
  intros [= _ <-]. unfold phase. cbn. by rewrite (Hm _ _ _ Hms).
Qed.

Lemma zoom_phase {A} (m : M iolink_master_port_state_t A) w a w' :
  keeps phase m → zoom w_port m w = Ok a w' →
  w_io w' = w_io w ∧ phase (w_port w') = phase (w_port w).
Proof.
  intros Hm. unfold zoom. destruct (m (w_port w)) as [b p| |] eqn:Hmp; [|done..].
  intros [= _ <-]. split; [done|]. by eapply Hm.
Qed.

Lemma quiet_zoom {A} (m : M iolink_master_port_state_t A) :
  keeps phase m → quiet (zoom w_port m).
Proof.
  intros Hm w a w' [Hn Hp]%zoom_phase; [|done].
  apply passive_same_phase; [exists []; by rewrite app_nil_r|done].
Qed.

Lemma quiet_goto state :
  state ≠ IOLINK_MASTER_STATE_OPERATE → state ≠ IOLINK_MASTER_STATE_PREOPERATE → quiet (goto state).
Proof.
  intros Hs Hp w a w' [= _ <-]. split; [exists []; by rewrite app_nil_r|]. split; [done|]. by intros [= ?].
Qed.

Lemma quiet_startup_goto step :
  step ≠ IOLINK_MASTER_STARTUP_STEP_AWAIT_OPERATE_ACK → quiet (startup_goto step).
Proof.
  intros Hs w a w' [= _ <-]. split; [exists []; by rewrite app_nil_r|]. split; [done|]. by intros [= ?].
Qed.

Lemma quiet_call {A} (f : list io → A) entry : quiet (call f entry).
Proof. intros w a w' [= _ <-]. split; [by eexists|done]. Qed.

Lemma quiet_emit entry : quiet (emit entry).
Proof. intros w [] w' H. injection H as <-. split; [by eexists|done]. Qed.
End passive_steps.
#[export] Hint Resolve quiet_call quiet_emit : relates.
#[export] Hint Extern 2 (keeps phase (zoom p_startup _)) => apply phase_zoom_startup; solve [keeps_deep] : keeps.
#[export] Hint Extern 2 (relates passive (zoom w_port _)) => apply quiet_zoom; solve [keeps_deep] : relates.
#[export] Hint Extern 2 (relates passive (goto _)) => apply quiet_goto; discriminate : relates.
#[export] Hint Extern 2 (relates passive (startup_goto _)) => apply quiet_startup_goto; discriminate : relates.
Ltac quiet := relates_deep.

Section functions.
Context {IO : Iolinki}.
Notation quiet := (relates passive).

Lemma send_full_quiet data len : quiet (iolink_master_send_full data len).
Proof. quiet. Qed.
End functions.
#[export] Hint Resolve send_full_quiet : relates.

(** ** Services do not touch the phase of the port *)

Section services.
Context {IO : Iolinki}.
Notation still := (keeps phase).

Lemma read_isdu_still index subindex data len : still (iolink_master_read_isdu PTR index subindex data len).
Proof. keeps_deep. Qed.
Lemma write_isdu_still index subindex data len : still (iolink_master_write_isdu PTR index subindex data len).
Proof. keeps_deep. Qed.
Hint Resolve read_isdu_still write_isdu_still : keeps.
Lemma block_stage_still this next service : (∀ b, still (service b)) → still (block_stage this next service).
Proof. intros Hs. unfold block_stage. keeps_deep. Qed.

(** The image scans change nothing at all. *)
Section scans.
Context {St F : Type} (f : St → F).

Lemma next_record_keeps data len pos : keeps f (iolink_master_ds_next_record data len pos).
Proof. keeps_deep. Qed.
Hint Resolve next_record_keeps : keeps.
Lemma find_record_keeps fuel actual alen pos expected record rlen :
  keeps f (iolink_master_ds_find_record fuel actual alen pos expected record rlen).
Proof. revert pos. induction fuel as [|fuel IH]; intros pos; cbn; keeps_auto. Qed.
Hint Resolve find_record_keeps : keeps.
Lemma contains_loop_keeps fuel actual alen expected elen pos :
  keeps f (iolink_master_ds_contains_loop fuel actual alen expected elen pos).
Proof. revert pos. induction fuel as [|fuel IH]; intros pos; cbn [iolink_master_ds_contains_loop]; keeps_auto. Qed.
Lemma valid_loop_keeps fuel data len pos : keeps f (iolink_master_ds_valid_loop fuel data len pos).
Proof. revert pos. induction fuel as [|fuel IH]; intros pos; cbn; keeps_auto. Qed.
End scans.
Hint Resolve contains_loop_keeps valid_loop_keeps : keeps.
Lemma verify_ds_still expected len : still (iolink_master_verify_data_storage PTR expected len).
Proof. keeps_deep. Qed.
Hint Resolve verify_ds_still : keeps.
Lemma write_parameter_block_still index subindex data len :
  still (iolink_master_write_parameter_block PTR index subindex data len).
Proof.
  unfold iolink_master_write_parameter_block. cbn [ptr_null orb].
  repeat first [solve [auto with keeps nocore] | apply block_stage_still; intros ? | keeps_step | keeps_unfold].
Qed.
End services.
#[export] Hint Resolve read_isdu_still write_isdu_still verify_ds_still write_parameter_block_still : keeps.

(** ** The transmitter and the timeouts *)

Section process.
Context {IO : Iolinki}.
Notation quiet := (relates passive).

(** The transmitter, apart from the DeviceOperate write itself. *)
Lemma process_startup_quiet now timed : quiet (process_startup now timed).
Proof. quiet. Qed.
Lemma process_operate_quiet : quiet process_operate.
Proof. quiet. Qed.
Lemma send_event_quiet : quiet iolink_master_send_event.
Proof. quiet. Qed.
Lemma send_isdu_quiet : quiet iolink_master_send_isdu.
Proof. quiet. Qed.
Lemma preoperate_validate_quiet : quiet preoperate_validate.
Proof. quiet. Qed.
Lemma restart_establish_quiet now timed : quiet (iolink_master_restart_establish now timed).
Proof. quiet. Qed.
Hint Resolve restart_establish_quiet : relates.
Lemma on_timeout_at_quiet now timed : quiet (iolink_master_on_timeout_at PTR now timed).
Proof. quiet. Qed.
Lemma checksum_failed_quiet : quiet checksum_failed.
Proof. quiet. Qed.
(** A port that enters PREOPERATE has not written DeviceOperate yet. *)
Lemma on_rx_startup_quiet data len : quiet (on_rx_startup data len).
Proof.
  intros w a w'. unfold on_rx_startup.
  intros (p & w1 & [= <- <-] & H)%bind_ok. revert H.
  destruct (_ <>e _) eqn:Hs; [by intros [= _ <-]|]. norm_bool.
  destruct (negb _); [by intros [= _ <-]|].
  intros (ok & w1 & Hm & H)%bind_ok. destruct (iolink_master_type0_reply_ok data); [|done].
  injection Hm as -> ->. destruct (negb ok).
  - revert H. match goal with |- ?m _ = _ → _ => assert (quiet m) as Hq by quiet; apply Hq end.
  - apply bind_ok in H as (u1 & w2 & Hz & H). injection H as _ <-.
    apply zoom_phase in Hz as [Hn Hph]; [|keeps_deep]. injection Hph as _ Hst.
    split; [exists []; by rewrite app_nil_r|]. split; [done|]. intros [= Hst']. congruence.
Qed.
Lemma on_rx_type0_quiet data len : quiet (on_rx_type0 data len).
Proof. quiet. Qed.
Lemma on_rx_operate_quiet data len : quiet (on_rx_operate data len).
Proof. quiet. Qed.

Lemma set_initial_quiet phy config : quiet (w_port <~ port_initial phy config).
Proof.
  intros w a w' H. injection H as _ <-. split; [exists []; by rewrite app_nil_r|].
  cbn. by destruct (_ =e _).
Qed.
Hint Resolve set_initial_quiet : relates.

Lemma init_quiet phy config : quiet (iolink_master_init PTR phy config).
Proof. quiet. Qed.
Hint Resolve on_timeout_at_quiet init_quiet : relates.

Lemma tick_record_cycle_quiet now : quiet (tick_record_cycle now).
Proof. quiet. Qed.
Lemma tick_timeout_quiet pace now rx_ret : quiet (tick_timeout pace now rx_ret).
Proof. quiet. Qed.
Lemma set_dq_quiet level : quiet (iolink_master_set_dq PTR level).
Proof. quiet. Qed.
Lemma get_di_quiet level : quiet (iolink_master_get_di PTR level).
Proof.
  unfold iolink_master_get_di. cbv zeta.
  destruct (_ || _); [quiet|]. apply relates_bind; [apply _|quiet|intros p].
  destruct (_ <>e _); [quiet|].
  destruct (cfg_read_cq_line_checked _); [|destruct (cfg_read_cq_line _)]; quiet.
Qed.
Lemma get_diagnostics_quiet d : quiet (iolink_master_get_diagnostics PTR d).
Proof. quiet. Qed.
Lemma event_dispatch_quiet user events count : quiet (event_dispatch user events count).
Proof.
  apply relates_for_loop; [apply _|]. intros i. apply relates_bind; [apply _|quiet|].
  intros event w a w' H. injection H as _ <-. split; [by eexists|done].
Qed.
Hint Resolve event_dispatch_quiet : relates.
Lemma read_event_details_quiet events max_events count :
  quiet (iolink_master_read_event_details PTR events max_events count).
Proof. quiet. Qed.
End process.
#[export] Hint Resolve process_startup_quiet process_operate_quiet send_event_quiet send_isdu_quiet
  preoperate_validate_quiet on_timeout_at_quiet init_quiet tick_record_cycle_quiet tick_timeout_quiet set_dq_quiet get_di_quiet get_diagnostics_quiet read_event_details_quiet
  checksum_failed_quiet on_rx_startup_quiet on_rx_type0_quiet
  on_rx_operate_quiet : relates.

(** ** Reception *)

Section reception.
Context {IO : Iolinki}.
Notation acked := (relates acknowledged).
Notation quiet := (relates passive).

Lemma quiet_acked {A} (m : M world A) : quiet m → acked m.
Proof. intros Hm w a w' H. by eapply passive_acknowledged, Hm. Qed.

(** The step of [iolink_master_on_rx] that enters OPERATE. *)
Definition takes_acknowledgement (data : list Z) (len : Z) (w w' : world) : Prop :=
  w_io w' = w_io w ∧ awaits_operate_ack (w_port w) ∧
  p_state (w_port w') = IOLINK_MASTER_STATE_OPERATE ∧
  len = 1 ∧ ∃ cks, rd data 0 = Some cks ∧ cks_valid cks = true.

(** A frame brings a port into OPERATE only as the acknowledgement it waits for. *)
Lemma on_rx_enters_operate data len w ret w' :
  iolink_master_on_rx PTR (Some data) len w = Ok ret w' →
  passive w w' ∨ takes_acknowledgement data len w w'.
Proof.
  unfold iolink_master_on_rx. cbn [ptr_null orb].
  destruct (len =? 0); [intros [= _ <-]; by left|].
  unfold mbind at 1, M_bind at 1, gets.
  destruct (_ =e _); [intros H; left; by eapply on_rx_startup_quiet|].
  destruct (_ && _) eqn:Hwait.
  - apply andb_prop in Hwait as [Hst Hstep]. norm_bool. unfold on_rx_operate_ack. unfold mbind at 1, M_bind at 1.
    destruct (rd data 0) as [cks|] eqn:Hd; [|done]. cbn [mem mret M_ret].
    destruct (Z.eqb_spec len 1) as [->|]; cbn [negb]; [|intros [= _ <-]; by left].
    destruct (_ =? _) eqn:Hc; cbn [negb]; [|intros H; left; by eapply checksum_failed_quiet].
    intros [= _ <-]. right. split; [done|]. split; [unfold awaits_operate_ack, phase; by rewrite Hst, Hstep|].
    split; [done|]. split; [done|eauto].
  - destruct (_ || _); intros H; left; [by eapply on_rx_type0_quiet|by eapply on_rx_operate_quiet].
Qed.

(** Receiving an octet and then taking it as the frame. *)
Lemma recv_then_frame w w1 w2 user ret byte data len :
  w_io w1 = w_io w ++ [IoRecvByte user ret byte] → 0 < ret → phase (w_port w1) = phase (w_port w) →
  (∀ cks, len = 1 → rd data 0 = Some cks → cks = byte) →
  passive w1 w2 ∨ takes_acknowledgement data len w1 w2 →
  acknowledged w w2.
Proof.
  intros Hio Hret Hph Hbyte [Hp|(Hn & Ha & Ho & Hlen & cks & Hrd & Hc)].
  - transitivity w1; [|by apply passive_acknowledged].
    apply passive_acknowledged, passive_same_phase; [by eexists|done].
  - rewrite (Hbyte _ Hlen Hrd) in Hc. unfold awaits_operate_ack in Ha. rewrite Hph in Ha.
    exists [IoRecvByte user ret byte]. split; [by rewrite Hn|]. split; [|done].
    intros _. right. split; [done|]. exists user, ret, byte. split; [by left|done].
Qed.

Lemma rx_fault_quiet ret : quiet (rx_fault ret).
Proof. unfold rx_fault. quiet. Qed.

(** The first octet of a buffer that has received one. *)
Lemma wr_first (buf : list Z) i byte buf' cks :
  i < IOLINK_MASTER_FRAME_BUF_SIZE → wr buf i byte = Some buf' → u8 (i + 1) = 1 →
  rd buf' 0 = Some cks → cks = byte.
Proof.
  unfold wr, IOLINK_MASTER_FRAME_BUF_SIZE. intros Hi Hw Hu Hrd.
  destruct (Z.leb_spec 0 i), (Z.ltb_spec i (zlen buf)); simplify_eq/=.
  rewrite u8_small in Hu by (unfold is_u8; lia). replace i with 0 in * by lia.
  rewrite rd_lookup in Hrd by done.
  rewrite list_lookup_insert_eq in Hrd by (unfold zlen in *; lia). by simplify_eq.
Qed.

Lemma poll_loop_acked n user recv_byte expected frames :
  acked (poll_loop n user recv_byte expected frames).
Proof.
  revert frames. induction n as [|n IH]; intros frames; [done|].
  intros w a w'. cbn [poll_loop]. unfold call, mbind, M_bind, get, assign, modify. cbn [w_io set].
  destruct (recv_byte (w_io w)) as [ret byte] eqn:Hr. cbn [fst snd mret M_ret].
  match goal with |- context [set w_io ?f w] => set (w1 := set w_io f w) end.
  assert (w_io w1 = w_io w ++ [IoRecvByte user ret byte]) as Hio by done.
  assert (w_port w1 = w_port w) as Hport by done. clearbody w1.
  assert (∀ w2, passive w1 w2 → acknowledged w w2) as Hq.
  { intros w2 H2. apply passive_acknowledged. transitivity w1; [|done].
    apply passive_same_phase; [by eexists|by rewrite Hport]. }
  destruct (Z.leb_spec ret 0) as [Hle|Hgt].
  { destruct (ret <? 0); [|by intros [= _ <-]; apply Hq]. intros H. by eapply Hq, rx_fault_quiet. }
  unfold gets. destruct (Z.leb_spec IOLINK_MASTER_FRAME_BUF_SIZE (rx_len (p_rx (w_port w1)))) as [Hfull|Hroom];
    [intros H; by eapply Hq, rx_fault_quiet|].
  destruct (wr (rx_buf (p_rx (w_port w1))) _ byte) as [buf|] eqn:Hw; cbn [mem]; [|done]. unfold mret, M_ret. cbv zeta.
  destruct (zoom w_port _ w1) as [[] w2| |] eqn:Hz; [|done..].
  assert (w_io w2 = w_io w1 ∧ phase (w_port w2) = phase (w_port w1)) as [Hio2 Hst2].
  { injection Hz as <-. by split. }
  assert (passive w1 w2) as H12.
  { apply passive_same_phase; [exists []; by rewrite app_nil_r|done]. }
  destruct (expected <=? _).
  2:{ intros H. transitivity w2; [by apply Hq|by eapply IH]. }
  destruct (iolink_master_on_rx PTR _ _ w2) as [fret w3| |] eqn:Hon; [|done..].
  assert (acknowledged w w3) as H13.
  { eapply (recv_then_frame w w2 w3 user ret byte buf); [by rewrite Hio2|done|by rewrite Hst2, Hport| |].
    - intros cks Hlen Hrd. by eapply wr_first.
    - by eapply on_rx_enters_operate. }
  destruct (zoom w_port _ w3) as [[] w4| |] eqn:Hz4; [|done..].
  assert (acknowledged w w4) as H14.
  { transitivity w3; [done|]. apply passive_acknowledged. injection Hz4 as <-.
    apply passive_same_phase; [exists []; by rewrite app_nil_r|done]. }
  destruct (negb _); [by intros [= _ <-]|]. intros H. transitivity w4; [done|by eapply IH].
Qed.

Lemma poll_rx_acked fuel port : acked (iolink_master_poll_rx fuel port).
Proof.
  unfold iolink_master_poll_rx. pose proof poll_loop_acked.
  repeat (first [done | relates_step]; cbv beta).
Qed.

(** ** Calls that start neither the cyclic exchange nor the wait for it *)

Lemma restart_quiet : quiet (iolink_master_restart PTR).
Proof. unfold iolink_master_restart. quiet. Qed.
Lemma set_port_mode_quiet mode : quiet (iolink_master_set_port_mode PTR mode).
Proof. unfold iolink_master_set_port_mode. quiet. Qed.

(** The calls that transmit or receive. *)
Definition drives (c : port_call) : bool :=
  match c with
  | CallProcess | CallPollRx | CallOnRx _ _ | CallTick _ | CallTickEvent _ | CallTickAt _ _ => true
  | _ => false
  end.

Lemma port_call_quiet fuel c : drives c = false → quiet (port_call_run fuel c).
Proof.
  intros Hc. destruct c; try done; cbn [port_call_run].
  all: apply relates_bind; [apply _| |intros ?; apply relates_ret; apply _].
  all: try solve [apply quiet_zoom; auto with keeps].
  all: try solve [auto using restart_quiet, set_port_mode_quiet with relates].
  all: unfold iolink_master_on_timeout; auto with relates.
Qed.

(** A port that has just been initialised neither exchanges data nor waits to. *)
Lemma init_starts phy config w ret w' :
  config_rejected config = false →
  iolink_master_init PTR (Some phy) (Some config) w = Ok ret w' →
  p_state (w_port w') ≠ IOLINK_MASTER_STATE_OPERATE ∧ ¬ awaits_operate_ack (w_port w').
Proof.
  intros Hc. unfold iolink_master_init. rewrite Hc. cbn [ptr_null orb].
  intros ([] & w1 & Hset & H)%bind_ok. injection Hset as <-.
  match type of H with ?m ?s = _ =>
    assert (quiet m) as Hm by (unfold or_fail, phy_initialise; quiet);
    destruct (Hm s _ _ H) as (_ & Ho & Ha) end.
  split; [intros He; specialize (Ho He)|intros He; specialize (Ha He); revert Ha; unfold awaits_operate_ack, phase].
  - cbn in Ho. by case_match.
  - cbn. by case_match.
Qed.
End reception.
