(* ===== verification/PortWidths.v ===== *)
(** * Integers stay in their C types

    The model has integers of arbitrary size and writes out the conversions of the source.
    Here is that they are all there: every integer of a port, counter, instant, length,
    cursor, code or octet, stays inside the type of its field whatever calls are made. What
    the buffers and lengths need is in [port_ok]; the rest is an invariant of its own, and
    the two together give the range of every field. *)

From S2P Require Import Prelude Iolinki Reference Types Fixtures Parameters Isdu IsduResponse IsduRequest IsduService Services DataStorage Events EventReadout Hal Transmit Port PortInvariant PortServices PortSafety Sio PortCalls PortTransitions.

(** A program keeps the types. *)
Notation stable P := (relates (preserved P)).

(** ** The types of the fields *)

Definition is_i32 (x : Z) : Prop := -2147483648 ≤ x < 2147483648.

Record diagnostics_typed (d : iolink_master_diagnostics_t) : Prop := {
  ty_od_status : is_u8 (diag_od_status d);
  ty_device_status : is_u8 (diag_device_status d);
  ty_retry_count : is_u8 (diag_rx_retry_count d);
  ty_checksum_errors : is_u32 (diag_checksum_errors d);
  ty_send_errors : is_u32 (diag_send_errors d);
  ty_response_timeouts : is_u32 (diag_response_timeouts d);
  ty_cycle_slips : is_u32 (diag_cycle_slips d);
  ty_last_jitter : is_u32 (diag_last_cycle_jitter_100us d);
  ty_max_jitter : is_u32 (diag_max_cycle_jitter_100us d);
  ty_supply_voltage : is_i32 (diag_supply_voltage_mv d);
  ty_link_quality : is_u8 (diag_link_quality_percent d);
  ty_service_result : is_i32 (diag_last_service_result d);
  ty_event_count : is_u8 (diag_last_event_count d);
  ty_event_code : is_u16 (diag_last_event_code d);
  ty_last_error : is_u16 (diag_last_isdu_error d);
  ty_establish_failures : is_u32 (diag_establish_failures d);
}.

Record device_info_typed (info : iolink_master_device_info_t) : Prop := {
  ty_min_cycle_octet : is_u8 (di_min_cycle_time info);
  ty_min_cycle_100us : is_u16 (di_min_cycle_time_100us info);
  ty_capability : is_u8 (di_mseq_capability info);
  ty_operate_code : is_u8 (di_operate_mseq_code info);
  ty_preoperate_code : is_u8 (di_preoperate_mseq_code info);
  ty_revision : is_u8 (di_revision_id info);
  ty_pd_in_descriptor : is_u8 (di_pd_in_descriptor info);
  ty_pd_out_descriptor : is_u8 (di_pd_out_descriptor info);
  ty_pd_in_octets : is_u8 (di_pd_in_len info);
  ty_pd_out_octets : is_u8 (di_pd_out_len info);
  ty_vendor_id : is_u16 (di_vendor_id info);
  ty_device_id : is_u32 (di_device_id info);
}.

Record event_typed (ev : iolink_master_event_state_t) : Prop := {
  ty_addr : is_u8 (ev_addr ev);
  ty_needed : is_u8 (ev_needed ev);
  ty_len : is_u8 (ev_len ev);
  ty_last_slot : is_u8 (ev_last_slot ev);
  ty_result : is_i32 (ev_result ev);
}.

Record isdu_typed (s : iolink_master_isdu_state_t) : Prop := {
  ty_chk : is_u8 (isdu_chk s);
  ty_expected_len : is_u16 (isdu_expected_len s);
  ty_response_pos : is_u16 (isdu_response_pos s);
  ty_error : is_u16 (isdu_error s);
  ty_response : Forall is_u8 (isdu_response s);
}.

(** The configuration is the caller's. *)
Record config_typed (config : iolink_master_config_t) : Prop := {
  ty_min_cycle_time : is_u8 (cfg_min_cycle_time config);
  ty_cfg_pd_in_len : is_u8 (cfg_pd_in_len config);
  ty_cfg_pd_out_len : is_u8 (cfg_pd_out_len config);
  ty_expected_vendor_id : is_u16 (cfg_expected_vendor_id config);
  ty_expected_device_id : is_u32 (cfg_expected_device_id config);
  ty_response_timeout : is_u8 (cfg_response_timeout_100us config);
  ty_isdu_timeout : is_u32 (cfg_isdu_timeout_100us config);
  ty_t_dmt : is_u8 (cfg_t_dmt_tbit config);
  ty_t_dwu : is_u32 (cfg_t_dwu_100us config);
  ty_wake_retry_limit : is_u8 (cfg_wake_retry_limit config);
  ty_t_sd : is_u32 (cfg_t_sd_100us config);
}.

(** The part that is preserved by itself. Octets that arrive are octets when the adapter
    delivers octets, and what is decoded from them is typed when they are. *)
Record port_typed (p : iolink_master_port_state_t) : Prop := {
  ty_phy : ∀ phy, p_phy p = Some phy → phy_ok phy;
  ty_config : config_typed (p_config p);
  ty_wake_attempts : is_u8 (su_wake_attempts (p_startup p));
  ty_diagnostics : diagnostics_typed (p_diagnostics p);
  ty_device_info : device_info_typed (p_device_info p);
  ty_isdu : isdu_typed (p_isdu p);
  ty_event : event_typed (p_event p);
  ty_rx : Forall is_u8 (rx_buf (p_rx p));
  ty_cycle_count : is_u32 (p_cycle_count p);
  ty_last_cycle_start : is_u32 (p_last_cycle_start_100us p);
  ty_response_deadline : is_u32 (p_response_deadline_100us p);
  ty_send_ready : is_u32 (p_send_ready_at_100us p);
}.

(** Every integer and every array of octets of a port. *)
Record port_integers (p : iolink_master_port_state_t) : Prop := {
  int_config : config_typed (p_config p);
  int_od_len : is_u8 (p_od_len p);
  int_tx_buf : Forall is_u8 (p_tx_buf p);
  int_pd_in : Forall is_u8 (p_pd_in p);
  int_pd_in_len : is_u8 (p_pd_in_len p);
  int_pd_out : Forall is_u8 (p_pd_out p);
  int_pd_out_len : is_u8 (p_pd_out_len p);
  int_baudrate_index : is_u8 (su_baudrate_index (p_startup p));
  int_wake_attempts : is_u8 (su_wake_attempts (p_startup p));
  int_diagnostics : diagnostics_typed (p_diagnostics p);
  int_device_info : device_info_typed (p_device_info p);
  int_isdu_index : is_u16 (isdu_index (p_isdu p));
  int_isdu_subindex : is_u8 (isdu_subindex (p_isdu p));
  int_isdu_request : Forall is_u8 (isdu_request (p_isdu p));
  int_isdu_request_len : is_u16 (isdu_request_len (p_isdu p));
  int_isdu_request_pos : is_u16 (isdu_request_pos (p_isdu p));
  int_isdu_flowctrl : is_u8 (isdu_flowctrl (p_isdu p));
  int_isdu_response_len : is_u16 (isdu_response_len (p_isdu p));
  int_isdu : isdu_typed (p_isdu p);
  int_event_memory : Forall is_u8 (ev_memory (p_event p));
  int_event : event_typed (p_event p);
  int_block_index : is_u16 (blk_index (p_block p));
  int_block_subindex : is_u8 (blk_subindex (p_block p));
  int_block_data : Forall is_u8 (blk_data (p_block p));
  int_block_len : is_u8 (blk_len (p_block p));
  int_rx_buf : Forall is_u8 (rx_buf (p_rx p));
  int_rx_len : is_u8 (rx_len (p_rx p));
  int_cycle_count : is_u32 (p_cycle_count p);
  int_last_cycle_start : is_u32 (p_last_cycle_start_100us p);
  int_response_deadline : is_u32 (p_response_deadline_100us p);
  int_send_ready : is_u32 (p_send_ready_at_100us p);
}.

Lemma u8_or_one (b : bool) x : is_u8 (if b then 1 else u8 x).
Proof. by destruct b. Qed.

(** Octets of octet arrays. *)
Lemma rd_u8 (l : list Z) i x : Forall is_u8 l → rd l i = Some x → is_u8 x.
Proof. apply rd_Forall. Qed.
Lemma u8_u16 x : is_u8 x → is_u16 x.
Proof. unfold is_u8, is_u16. lia. Qed.
Lemma wr_typed (l l' : list Z) i x : Forall is_u8 l → is_u8 x → wr l i x = Some l' → Forall is_u8 l'.
Proof. unfold wr. intros Hl Hx. case_match; [|done]. intros [= <-]. by apply Forall_insert. Qed.
Lemma memcpy_typed (dst src k : list Z) doff soff n :
  Forall is_u8 dst → Forall is_u8 src → memcpy dst doff src soff n = Some k → Forall is_u8 k.
Proof. apply memcpy_Forall. Qed.
Lemma slice_typed (l k : list Z) off n : Forall is_u8 l → slice l off n = Some k → Forall is_u8 k.
Proof. apply slice_Forall. Qed.

(** What a typed state says of the values read from it, and of those computed from them. *)
Create HintDb typed.
#[export] Hint Resolve ty_diagnostics ty_device_info ty_isdu ty_event ty_rx ty_config ty_error ty_response : typed.
Ltac typed_value :=
  first
  [ assumption
  | lazymatch goal with
    | |- is_u8 (u8 _) => apply u8_range
    | |- is_u16 (u16 _) => apply u16_range
    | |- is_u32 (u32 _) => apply u32_range
    | |- is_u16 (u8 _) => apply u8_u16, u8_range
    | |- is_u8 (if _ then 1 else u8 _) => apply u8_or_one
    | H : rd _ _ = Some ?x |- is_u8 ?x => eapply rd_u8; [|exact H]; typed_value
    | H : rd _ _ = Some ?x |- is_u16 ?x => apply u8_u16; eapply rd_u8; [|exact H]; typed_value
    | H : wr _ _ _ = Some ?x |- Forall is_u8 ?x => eapply wr_typed; [| |exact H]; typed_value
    | H : memcpy _ _ _ _ _ = Some ?x |- Forall is_u8 ?x => eapply memcpy_typed; [| |exact H]; typed_value
    | H : slice _ _ _ = Some ?x |- Forall is_u8 ?x => eapply slice_typed; [|exact H]; typed_value
    end
  | solve [auto with typed]
  | done ].

(** Reading: the state that was read is typed, and so is what follows from it. *)
Section reading.
Context {S : Type} (P : S → Prop).

Lemma stable_get {A} (k : S → M S A) : (∀ s, P s → stable P (k s)) → stable P (mbind k get).
Proof. intros Hk s a s' H Hs. exact (Hk s Hs s a s' H Hs). Qed.

Lemma stable_gets {A B} (f : S → B) (k : B → M S A) :
  (∀ s, P s → stable P (k (f s))) → stable P (mbind k (gets f)).
Proof. intros Hk s a s' H Hs. exact (Hk s Hs s a s' H Hs). Qed.

Lemma stable_mem {A B} (o : option B) (k : B → M S A) :
  (∀ x, o = Some x → stable P (k x)) → stable P (mbind k (mem o)).
Proof. intros Hk. destruct o as [x|]; [|done]. exact (Hk x eq_refl). Qed.

(** What a step returns, for the rest. *)
Lemma stable_bind {A B} (Q : A → Prop) (m : M S A) (k : A → M S B) :
  stable P m → (∀ s a s', m s = Ok a s' → P s → Q a) → (∀ a, Q a → stable P (k a)) → stable P (mbind k m).
Proof.
  intros Hm HQ Hk s b s' (a & s1 & H1 & H2)%bind_ok Hs.
  exact (Hk a (HQ _ _ _ H1 Hs) _ _ _ H2 (Hm _ _ _ H1 Hs)).
Qed.
End reading.

(** Assignments: a field of another type, or a value of the type of the field. *)
Ltac stable_assign :=
  let Hs := fresh "Hs" in
  apply stable_assign; intros ? Hs; cbn;
  first [exact Hs|solve [typed_value]|destruct Hs; split; cbn; solve [typed_value]].
#[export] Hint Extern 3 (relates (preserved _) (_ <~ _)) => stable_assign : relates.

(** The parts of a port. *)
Section parts.
Context {A : Type}.

Lemma stable_diagnostics (m : M iolink_master_diagnostics_t A) :
  stable diagnostics_typed m → stable port_typed (zoom p_diagnostics m).
Proof. apply stable_zoom; [by intros p []|by intros p x [] ?; split]. Qed.

Lemma stable_device_info (m : M iolink_master_device_info_t A) :
  stable device_info_typed m → stable port_typed (zoom p_device_info m).
Proof. apply stable_zoom; [by intros p []|by intros p x [] ?; split]. Qed.

Lemma stable_isdu (m : M iolink_master_isdu_state_t A) :
  stable isdu_typed m → stable port_typed (zoom p_isdu m).
Proof. apply stable_zoom; [by intros p []|by intros p x [] ?; split]. Qed.

Lemma stable_event (m : M iolink_master_event_state_t A) :
  stable event_typed m → stable port_typed (zoom p_event m).
Proof. apply stable_zoom; [by intros p []|by intros p x [] ?; split]. Qed.

Lemma stable_rx (m : M iolink_master_rx_state_t A) :
  stable (fun rx => Forall is_u8 (rx_buf rx)) m → stable port_typed (zoom p_rx m).
Proof. apply stable_zoom; [by intros p []|by intros p x [] ?; split]. Qed.

Lemma stable_startup (m : M iolink_master_startup_state_t A) :
  stable (fun su => is_u8 (su_wake_attempts su)) m → stable port_typed (zoom p_startup m).
Proof. apply stable_zoom; [by intros p []|by intros p x [] ?; split]. Qed.

Lemma stable_port (m : M iolink_master_port_state_t A) :
  stable port_typed m → stable (fun w => port_typed (w_port w)) (zoom w_port m).
Proof. by apply (stable_zoom (fun w => port_typed (w_port w)) port_typed). Qed.

Lemma stable_block (m : M iolink_master_block_state_t A) : stable port_typed (zoom p_block m).
Proof. apply (stable_zoom _ (fun _ => True)); [done|by intros p x [] _; split|by repeat intro]. Qed.
End parts.

#[export] Hint Resolve stable_block : relates.

Ltac stable_step :=
  lazymatch goal with
  | |- relates _ (mbind _ get) => apply stable_get; intros ? ?
  | |- relates _ (mbind _ (gets _)) => apply stable_gets; intros ? ?
  | |- relates _ (mbind _ (mem _)) => apply stable_mem; intros ? ?
  | |- relates _ (zoom w_port _) => apply stable_port
  | |- relates _ (zoom p_diagnostics _) => apply stable_diagnostics
  | |- relates _ (zoom p_device_info _) => apply stable_device_info
  | |- relates _ (zoom p_isdu _) => apply stable_isdu
  | |- relates _ (zoom p_event _) => apply stable_event
  | |- relates _ (zoom p_rx _) => apply stable_rx
  | |- relates _ (zoom p_startup _) => apply stable_startup
  end.
Ltac stable_deep :=
  repeat (first [solve [auto with relates nocore] | stable_step | relates_step | relates_unfold]; cbv beta).

(** ** The transport and the event memory *)

Lemma highest_slot_typed active : is_u8 (event_highest_slot active).
Proof.
  unfold event_highest_slot. set (step := fun last slot => _).
  assert (∀ slots last, is_u8 last → is_u8 (foldl step last slots)) as H by
    (induction slots as [|slot slots IH]; intros last Hl; [done|]; apply IH; unfold step; by case_match).
  by apply H.
Qed.
#[export] Hint Resolve highest_slot_typed : typed.

Section transport.
Context {IO : Iolinki} {laws : IolinkiLaws IO}.

Lemma segmentation_u16 : is_u16 IOLINK_ISDU_ERROR_SEGMENTATION.
Proof. pose proof law_error_seg. unfold is_u16. lia. Qed.
Lemma no_error_u16 : is_u16 IOLINK_ISDU_ERROR_NONE.
Proof. by rewrite law_error_none. Qed.
Hint Resolve segmentation_u16 no_error_u16 : typed.

Lemma isdu_on_od_typed od od_len : Forall is_u8 od →
  stable isdu_typed (iolink_master_isdu_on_od PTR (Some od) od_len).
Proof. intros Hu. stable_deep. Qed.

Lemma event_on_od_typed od od_len : stable event_typed (iolink_master_event_on_od PTR (Some od) od_len).
Proof. stable_deep. Qed.
Lemma event_start_typed request : stable event_typed (iolink_master_event_start request).
Proof.
  unfold iolink_master_event_start. apply relates_bind; [apply _| |intros _; stable_deep].
  intros ev a ev' H _. injection H as _ <-. by split.
Qed.
End transport.
#[export] Hint Resolve segmentation_u16 no_error_u16 : typed.
#[export] Hint Resolve isdu_on_od_typed event_on_od_typed event_start_typed : relates.

(** ** What the services decode *)

Section decoding.
Context {IO : Iolinki} {laws : IolinkiLaws IO}.

Lemma min_cycle_typed octet : is_u8 octet → is_u16 (iolink_master_decode_min_cycle_time_100us octet).
Proof.
  intros Ho. unfold iolink_master_decode_min_cycle_time_100us. cbv zeta.
  repeat case_match; auto using u16_range, u8_u16, u8_range.
Qed.

Lemma pd_descriptor_typed d : is_u8 (iolink_master_decode_pd_descriptor d).
Proof. unfold iolink_master_decode_pd_descriptor. case_match; apply u8_range. Qed.

(** The page is decoded into typed fields. *)
Lemma parse_page1_typed page len : Forall is_u8 page →
  stable device_info_typed (iolink_master_parse_direct_parameter_page1 (Some page) len PTR).
Proof.
  intros Hu. unfold iolink_master_parse_direct_parameter_page1. cbn [ptr_null].
  repeat first [apply stable_mem; intros ? ? | relates_step].
  intros info a info' H' _. injection H' as _ <-. split; cbn;
    first [apply pd_descriptor_typed|apply min_cycle_typed|idtac]; typed_value.
Qed.

(** A read leaves octets in the buffer. *)
Lemma read_isdu_octets index subindex data len p r p' :
  port_typed p → Forall is_u8 data →
  iolink_master_read_isdu PTR index subindex (Some data) (Some len) p = Ok r p' →
  Forall is_u8 (default data r.1.2).
Proof.
  intros Hp Hd. unfold iolink_master_read_isdu. cbn [ptr_null].
  intros (s & p1 & [= <- <-] & H)%bind_ok. revert H.
  destruct (_ && _); [by intros [= <- _]|].
  destruct (iolink_master_isdu_busy _); [destruct (iolink_master_isdu_matches _ _ _ _); by intros [= <- _]|].
  destruct (isdu_done _); [destruct (negb _); [by intros [= <- _]|]|by intros (u & p2 & _ & [= <- _])%bind_ok].
  intros ([[ret d] l] & p2 & Hf & [= <- _])%bind_ok. cbn. revert Hf. unfold iolink_master_isdu_finish_read.
  intros (s & p3 & [= <- <-] & H)%bind_ok. revert H.
  destruct (negb _); [by intros (? & ? & _ & [= _ <- _ _])%bind_ok|].
  destruct (_ <? _); [by intros (? & ? & _ & [= _ <- _ _])%bind_ok|].
  intros (d' & p4 & Hf & (u & p5 & _ & (? & p6 & _ & [= _ <- _ _])%bind_ok)%bind_ok)%bind_ok.
  destruct (0 <? _); [|by injection Hf as <- _].
  destruct (memcpy _ _ _ _ _) as [k|] eqn:Hm; [|done]. injection Hf as <- _.
  eapply memcpy_typed; [exact Hd| |exact Hm]. apply Hp.
Qed.

Lemma wr_inv {A} (l l' : list A) i x : wr l i x = Some l' → 0 ≤ i < zlen l ∧ l' = <[Z.to_nat i := x]> l.
Proof.
  unfold wr. destruct (Z.leb_spec 0 i), (Z.ltb_spec i (zlen l)); cbn; try done. intros [= <-]. by split.
Qed.

(** The codes of the decoded events. *)
Definition codes_typed (events : list iolink_master_event_t) (count : Z) : Prop :=
  ∀ i e, 0 ≤ i < count → rd events i = Some e → is_u16 (evt_code e).

Lemma decode_slots_typed memory active max_events slots events count events' count' :
  is_u8 count → codes_typed events count →
  event_decode_slots memory active max_events slots events count = Some (events', count') →
  is_u8 count' ∧ codes_typed events' count'.
Proof.
  revert events count. induction slots as [|slot slots IH]; intros events count Hc He; cbn.
  { by intros [= <- <-]. }
  destruct (_ =? 0); [by apply IH|].
  intros (q & _ & (code & Hcode & (ev1 & Hw & H)%bind_Some)%bind_Some)%bind_Some.
  assert (is_u16 code) as Hcu.
  { unfold event_code_at in Hcode. apply bind_Some in Hcode as (hi & _ & (lo & _ & [= <-])%bind_Some). apply u16_range. }
  assert (codes_typed ev1 (u8 (count + 1))) as He1.
  { intros i e Hi Hrd. pose proof (wr_inv _ _ _ _ Hw) as [Hb ->].
    rewrite rd_lookup in Hrd by lia. apply list_lookup_insert_Some in Hrd as [(Hi' & <- & _)|[Hne Hrd]]; [done|].
    apply (He i e); [|by rewrite rd_lookup by lia]. pose proof (Z.mod_le (count + 1) 256).
    unfold u8, is_u8 in *. lia. }
  destruct (_ <=? _); [injection H as <- <-; split; [apply u8_range|exact He1]|]. eapply IH; [apply u8_range|exact He1|exact H].
Qed.

Lemma first_code_typed memory code : iolink_master_event_first_code memory = Some code → is_u16 code.
Proof.
  unfold iolink_master_event_first_code. intros (status & _ & H)%bind_Some. revert H.
  generalize (upto IOLINK_MASTER_EVENT_SLOT_MAX). induction l as [|slot l IH]; cbn; [by intros [= <-]|].
  case_match; [|done]. intros (hi & _ & (lo & _ & [= <-])%bind_Some)%bind_Some. apply u16_range.
Qed.
End decoding.
#[export] Hint Extern 1 (is_u16 ?code) =>
  match goal with H : iolink_master_event_first_code _ = Some code |- _ => exact (first_code_typed _ _ H) end : typed.

(** ** The functions of the port *)

Section functions.
Context {IO : Iolinki} {laws : IolinkiLaws IO}.
Notation typed := (fun w => port_typed (w_port w)).

Lemma typed_call {A} (f : list io → A) entry : stable typed (call f entry).
Proof. intros w a w' H. injection H as _ <-. exact id. Qed.
Lemma typed_emit entry : stable typed (emit entry).
Proof. intros w a w' H. injection H as _ <-. exact id. Qed.
Hint Resolve typed_call typed_emit : relates.

(** The image scans change nothing at all. *)
Lemma stable_unchanged {S A} (P : S → Prop) (m : M S A) : keeps id m → stable P m.
Proof. intros Hm s a s' H. rewrite <- (Hm s a s' H : s' = s). exact id. Qed.
Lemma valid_loop_typed fuel data len pos :
  stable port_typed (iolink_master_ds_valid_loop fuel data len pos).
Proof. apply stable_unchanged, valid_loop_keeps. Qed.
Lemma contains_loop_typed fuel actual alen expected elen pos :
  stable port_typed (iolink_master_ds_contains_loop fuel actual alen expected elen pos).
Proof. apply stable_unchanged, contains_loop_keeps. Qed.
Hint Resolve valid_loop_typed contains_loop_typed : relates.

(** The services. *)
Lemma service_result_typed ret : is_i32 ret → stable port_typed (iolink_master_service_result ret).
Proof. intros Hr. stable_deep. Qed.
Hint Extern 2 (relates _ (iolink_master_service_result _)) => apply service_result_typed; done : relates.
Lemma read_isdu_typed index subindex data len : stable port_typed (iolink_master_read_isdu PTR index subindex data len).
Proof. stable_deep. Qed.
Lemma write_isdu_typed index subindex data len : stable port_typed (iolink_master_write_isdu PTR index subindex data len).
Proof. stable_deep. Qed.
Hint Resolve read_isdu_typed write_isdu_typed : relates.

Lemma read_device_info_typed : stable port_typed (iolink_master_read_device_info PTR).
Proof.
  unfold iolink_master_read_device_info, read_isdu_local. cbn [ptr_null].
  apply (stable_bind _ (fun r => Forall is_u8 r.1.2)); [stable_deep| |].
  - intros p r p' (r0 & p1 & H1 & H2)%bind_ok Hp.
    apply read_isdu_octets in H1; [|done|by apply zeros_Forall].
    destruct r0 as [[? d] ?]. injection H2 as <- _. exact H1.
  - intros [[ret page] len] Hpage. cbn in Hpage. unfold iolink_master_apply_direct_parameter_page1. cbn [ptr_null].
    pose proof (parse_page1_typed page len Hpage). stable_deep.
Qed.
Hint Resolve read_device_info_typed : relates.

(** The results of the services are small. *)
Definition gives {S A} (Q : A → Prop) (m : M S A) : Prop := ∀ s a s', m s = Ok a s' → Q a.

Lemma gives_ret {S A} (Q : A → Prop) (a : A) : Q a → gives Q (mret a : M S A).
Proof. by intros Hq s a' s' [= <- _]. Qed.
Lemma gives_bind {S A B} (Q : A → Prop) (m : M S B) (k : B → M S A) :
  (∀ b, gives Q (k b)) → gives Q (mbind k m).
Proof. intros Hk s a s' (b & s1 & _ & H)%bind_ok. by eapply Hk. Qed.
Lemma gives_known {S A B} (R : B → Prop) (Q : A → Prop) (m : M S B) (k : B → M S A) :
  gives R m → (∀ b, R b → gives Q (k b)) → gives Q (mbind k m).
Proof. intros Hm Hk s a s' (b & s1 & H1 & H)%bind_ok. eapply Hk; [by eapply Hm|done]. Qed.

Ltac gives_step :=
  lazymatch goal with
  | |- gives _ (mret _) => apply gives_ret; first [done|assumption]
  | |- gives _ (mbind _ _) => apply gives_bind; intros ?
  | |- gives _ (if ?b then _ else _) => destruct b
  | |- gives _ (match ?x with _ => _ end) => destruct x
  end.
Ltac gives_auto := repeat (first [solve [auto] | gives_step]; cbv beta zeta).

Lemma service_result_gives ret : is_i32 ret → gives is_i32 (iolink_master_service_result ret).
Proof. intros Hr. unfold iolink_master_service_result. gives_auto. Qed.
Lemma finish_read_gives data len : gives (fun r => is_i32 r.1.1) (iolink_master_isdu_finish_read data len).
Proof.
  unfold iolink_master_isdu_finish_read, iolink_master_isdu_finish_error. apply gives_bind. intros s. cbv zeta.
  destruct (negb _); [|destruct (_ <? _)].
  - apply (gives_known is_i32); [|intros ret Hr; by apply gives_ret].
    do 3 (apply gives_bind; intros ?). by apply service_result_gives.
  - apply (gives_known is_i32); [by apply service_result_gives|intros ret Hr; by apply gives_ret].
  - do 2 (apply gives_bind; intros ?).
    apply (gives_known is_i32); [by apply service_result_gives|intros ret Hr; by apply gives_ret].
Qed.
Lemma read_isdu_gives index subindex data len :
  gives (fun r => is_i32 r.1.1) (iolink_master_read_isdu PTR index subindex data len).
Proof.
  unfold iolink_master_read_isdu. cbn [ptr_null].
  destruct data as [data|], len as [len|]; try by apply gives_ret.
  apply gives_bind. intros p. destruct (_ && _); [by apply gives_ret|].
  destruct (iolink_master_isdu_busy _); [destruct (iolink_master_isdu_matches _ _ _ _); by apply gives_ret|].
  destruct (isdu_done _); [destruct (negb _); [by apply gives_ret|]|apply gives_bind; intros ?; by apply gives_ret].
  apply (gives_known (fun r => is_i32 r.1.1)); [apply finish_read_gives|]. intros [[ret d] l] Hr. by apply gives_ret.
Qed.
Lemma read_local_gives index subindex data len :
  gives (fun r => is_i32 r.1.1) (read_isdu_local PTR index subindex data len).
Proof.
  apply (gives_known (fun r => is_i32 r.1.1)); [apply read_isdu_gives|]. intros [[ret d] l] Hr. by apply gives_ret.
Qed.
Lemma verify_isdu_gives index subindex expected len :
  gives is_i32 (iolink_master_verify_isdu PTR index subindex expected len).
Proof.
  pose proof service_result_gives. unfold iolink_master_verify_isdu. destruct (_ && _); [by apply gives_ret|].
  apply (gives_known (fun r => is_i32 r.1.1)); [apply read_local_gives|]. intros [[ret d] l] Hr. gives_auto; by apply service_result_gives.
Qed.
Lemma verify_ds_gives expected len : gives is_i32 (iolink_master_verify_data_storage PTR expected len).
Proof.
  unfold iolink_master_verify_data_storage. destruct (_ && _); [by apply gives_ret|].
  apply (gives_known (fun r => is_i32 r.1.1)); [apply read_local_gives|]. intros [[ret d] l] Hr.
  destruct (negb _); [by apply gives_ret|]. do 3 (apply gives_bind; intros ?).
  case_match; by apply service_result_gives.
Qed.

Lemma verify_isdu_typed index subindex expected len :
  stable port_typed (iolink_master_verify_isdu PTR index subindex expected len).
Proof. stable_deep. Qed.
Lemma verify_data_storage_typed expected len :
  stable port_typed (iolink_master_verify_data_storage PTR expected len).
Proof. stable_deep. Qed.
Hint Resolve verify_isdu_typed verify_data_storage_typed : relates.
Lemma block_verify_typed : stable port_typed (block_verify PTR).
Proof.
  unfold block_verify. apply stable_get. intros p _. cbv zeta. apply (stable_bind _ is_i32); [stable_deep| |].
  - intros p1 ret p2 H _. revert H. case_match; [apply verify_ds_gives|apply verify_isdu_gives].
  - intros ret Hr. apply relates_bind; [apply _|stable_deep|]. intros _. by apply service_result_typed.
Qed.
Hint Resolve block_verify_typed : relates.
Lemma block_stage_typed this next service :
  (∀ block, stable port_typed (service block)) → stable port_typed (block_stage this next service).
Proof. intros Hs. stable_deep. Qed.
Lemma write_parameter_block_typed index subindex data len :
  stable port_typed (iolink_master_write_parameter_block PTR index subindex data len).
Proof.
  unfold iolink_master_write_parameter_block.
  repeat (first [solve [auto with relates nocore] | apply block_stage_typed; intros ? | stable_step | relates_step | relates_unfold]; cbv beta).
Qed.
Hint Resolve write_parameter_block_typed : relates.

(** The transmitter. *)
Lemma send_full_typed data len : stable typed (iolink_master_send_full data len).
Proof. stable_deep. Qed.
Hint Resolve send_full_typed : relates.
Lemma process_at_typed now timed : stable typed (iolink_master_process_at PTR now timed).
Proof. stable_deep. Qed.
Lemma restart_establish_typed now timed : stable typed (iolink_master_restart_establish now timed).
Proof. stable_deep. Qed.
Hint Resolve process_at_typed restart_establish_typed : relates.
Lemma on_timeout_at_typed now timed : stable typed (iolink_master_on_timeout_at PTR now timed).
Proof. stable_deep. Qed.
Hint Resolve on_timeout_at_typed : relates.
(** Reception of octets. *)
Lemma on_rx_startup_typed data len : Forall is_u8 data → stable typed (on_rx_startup data len).
Proof. intros Hu. stable_deep. Qed.
Lemma checksum_failed_typed : stable typed checksum_failed.
Proof. stable_deep. Qed.
Hint Resolve checksum_failed_typed : relates.
Lemma route_od_typed od od_len : Forall is_u8 od → stable typed (iolink_master_route_od (Some od) od_len).
Proof. intros Hu. stable_deep. Qed.
Hint Resolve route_od_typed : relates.
Lemma operate_reply_typed resp : is_u8 (resp_status resp) → Forall is_u8 (resp_od resp) → stable typed (operate_reply resp).
Proof. intros Hs Ho. stable_deep. Qed.
Lemma on_rx_operate_typed data len : Forall is_u8 data → stable typed (on_rx_operate data len).
Proof.
  intros Hu. unfold on_rx_operate. apply stable_gets. intros w _. apply stable_mem. intros frame Hf.
  destruct (iolink_frame_decode_operate_response _ _ _) as [resp|] eqn:Hd; [|stable_deep].
  apply law_decode in Hd as (_ & _ & _ & _ & _ & _ & Ho & Hs); [|by eapply slice_typed].
  pose proof (operate_reply_typed resp Hs Ho). stable_deep.
Qed.
Lemma on_rx_typed data len : (∀ octets, data = Some octets → Forall is_u8 octets) →
  stable typed (iolink_master_on_rx PTR data len).
Proof.
  intros Hd. destruct data as [data|]; [|stable_deep]. specialize (Hd data eq_refl).
  pose proof (on_rx_startup_typed data len Hd). pose proof (on_rx_operate_typed data len Hd).
  unfold iolink_master_on_rx, on_rx_operate_ack, on_rx_type0. stable_deep.
Qed.
Lemma poll_loop_typed fuel user recv_byte expected frames : (∀ tr, is_u8 (recv_byte tr).2) →
  stable typed (poll_loop fuel user recv_byte expected frames).
Proof.
  intros Hr. revert frames. induction fuel as [|fuel IH]; intros frames; cbn [poll_loop]; [stable_deep|].
  apply (stable_bind _ (fun r => is_u8 r.2)); [stable_deep|by intros w a w' [= <- _] _|].
  intros [ret byte] Hb. cbn in Hb. destruct (_ <=? 0); [stable_deep|]. apply stable_gets. intros w Hw.
  destruct (_ <=? _); [stable_deep|]. apply stable_mem. intros buf Hbuf.
  assert (Forall is_u8 buf) as Hu by (eapply wr_typed; [exact (ty_rx _ Hw)|exact Hb|exact Hbuf]).
  assert (∀ len, stable typed (iolink_master_on_rx PTR (Some buf) len)) as Hon by (intros len; apply on_rx_typed; by intros ? [= <-]).
  cbv zeta. stable_deep.
Qed.
Lemma poll_rx_typed fuel : stable typed (iolink_master_poll_rx fuel PTR).
Proof.
  unfold iolink_master_poll_rx. cbn [ptr_null]. apply stable_gets. intros w Hw.
  destruct (p_phy (w_port w)) as [phy|] eqn:Hp; [|stable_deep].
  destruct (phy_recv_byte phy) as [recv|] eqn:Hr; [|stable_deep].
  destruct (rx_expected_len _); [|stable_deep]. apply poll_loop_typed.
  intros tr. exact (ty_phy _ Hw _ Hp recv tr Hr).
Qed.
Hint Resolve poll_rx_typed : relates.

(** Initialisation makes every field well typed, whatever the storage held. *)
Lemma zeros_typed n : Forall is_u8 (zeros n).
Proof. by apply zeros_Forall. Qed.
Lemma port_initial_typed phy config : phy_ok phy → config_typed config → port_typed (port_initial phy config).
Proof.
  intros Hp Hc. split; cbn; try done.
  - by intros ? [= <-].
  - split; cbn; try done. by rewrite law_status_failure.
  - split; cbn; try done; rewrite ?law_error_none; try done. apply zeros_typed.
  - apply zeros_typed.
Qed.
Lemma set_initial_typed phy config : phy_ok phy → config_typed config →
  stable typed (w_port <~ port_initial phy config).
Proof. intros Hp Hc w a w' H _. injection H as _ <-. by apply port_initial_typed. Qed.
Lemma init_typed phy config : (∀ p, phy = Some p → phy_ok p) → (∀ c, config = Some c → config_typed c) →
  stable typed (iolink_master_init PTR phy config).
Proof.
  intros Hp Hc. destruct phy as [phy|], config as [config|]; try (unfold iolink_master_init; stable_deep).
  pose proof (set_initial_typed phy config (Hp phy eq_refl) (Hc config eq_refl)). stable_deep.
Qed.
Lemma restart_typed : stable typed (iolink_master_restart PTR).
Proof.
  unfold iolink_master_restart. cbn [ptr_null]. apply stable_gets. intros w Hw.
  destruct (null _); [stable_deep|]. apply init_typed; [apply Hw|intros ? [= <-]; apply Hw].
Qed.
Lemma set_port_mode_typed mode : stable typed (iolink_master_set_port_mode PTR mode).
Proof.
  unfold iolink_master_set_port_mode. destruct (_ || _); [stable_deep|]. apply stable_gets. intros w Hw.
  destruct (null _); [stable_deep|]. apply init_typed; [apply Hw|intros ? [= <-]].
  by destruct (ty_config _ Hw); split.
Qed.
Lemma init_makes_typed phy config w ret w' : phy_ok phy → config_typed config → config_rejected config = false →
  iolink_master_init PTR (Some phy) (Some config) w = Ok ret w' → port_typed (w_port w').
Proof.
  intros Hp Hct Hc. unfold iolink_master_init. rewrite Hc. cbn [ptr_null orb].
  intros ([] & w1 & Hset & H)%bind_ok. injection Hset as <-.
  match type of H with ?m ?s = _ =>
    assert (stable typed m) as Hm by (unfold or_fail, phy_initialise; stable_deep);
    exact (Hm s _ _ H (port_initial_typed phy config Hp Hct)) end.
Qed.

(** Ticks and events. *)
Lemma cycle_jitter_typed p now : is_u32 (iolink_master_cycle_jitter_at p now).
Proof. unfold iolink_master_cycle_jitter_at. by repeat case_match. Qed.
Hint Resolve cycle_jitter_typed : typed.
Lemma tick_record_cycle_typed now : is_u32 now → stable typed (tick_record_cycle now).
Proof. intros Hnow. stable_deep. Qed.
Hint Resolve tick_record_cycle_typed : relates.
Lemma tick_common_typed fuel event pace now : is_u32 now →
  stable typed (iolink_master_tick_common fuel PTR event pace now).
Proof. intros Hnow. stable_deep. Qed.
Lemma get_di_typed level : stable typed (iolink_master_get_di PTR level).
Proof.
  unfold iolink_master_get_di. cbv zeta.
  destruct (_ || _); [stable_deep|]. apply relates_bind; [apply _|stable_deep|intros p].
  destruct (_ <>e _); [stable_deep|].
  destruct (cfg_read_cq_line_checked _); [|destruct (cfg_read_cq_line _)]; stable_deep.
Qed.
Lemma read_event_code_typed code : stable port_typed (iolink_master_read_event_code PTR code).
Proof. stable_deep. Qed.
Lemma ack_event_typed code : stable port_typed (iolink_master_ack_event PTR code).
Proof. stable_deep. Qed.
Lemma read_event_details_typed events max_events count :
  stable typed (iolink_master_read_event_details PTR events max_events count).
Proof.
  unfold iolink_master_read_event_details. destruct events as [events|]; [|stable_deep]. cbn [ptr_null orb].
  destruct (null count); [stable_deep|]. apply relates_bind; [apply _|stable_deep|].
  intros [ret|]; [stable_deep|]. apply stable_get. intros w _. cbv zeta.
  apply stable_mem. intros status _. apply stable_mem. intros [array n] Hd.
  apply decode_slots_typed in Hd as [Hn Hcodes]; [|done|intros i e Hi; lia].
  apply (stable_bind _ is_u16).
  - stable_deep.
  - intros w1 code w2 H _. destruct (Z.ltb_spec 0 n); [|by injection H as <- _].
    apply bind_ok in H as (e & w3 & He & H). injection H as <- _.
    destruct (rd array (n - 1)) as [e'|] eqn:Hrd; [|done]. injection He as <- _. apply (Hcodes (n - 1)); [lia|done].
  - intros code Hcode. stable_deep.
Qed.
Hint Resolve tick_common_typed get_di_typed read_event_details_typed restart_typed set_port_mode_typed
  read_event_code_typed ack_event_typed : relates.

(** A call whose instant is a 32-bit one. *)
Definition instant_typed (c : port_call) : Prop :=
  match c with CallTickAt _ now => is_u32 now | _ => True end.

Lemma port_call_typed fuel c : call_valid c → instant_typed c → stable typed (port_call_run fuel c).
Proof.
  assert (is_u32 0) by done. intros Hv Hc.
  destruct c; cbn [port_call_run instant_typed call_valid] in *; try (stable_deep; fail).
  apply relates_bind; [apply _| |intros ?; apply relates_ret; apply _].
  apply on_rx_typed. intros octets ->. apply Hv.
Qed.

Lemma port_run_typed fuel calls : Forall call_valid calls → Forall instant_typed calls →
  stable typed (port_run fuel calls).
Proof.
  intros Hv Hi. induction calls as [|c calls IH]; cbn [port_run]; [apply relates_ret; apply _|].
  apply Forall_cons_1 in Hv as [Hv Hvs]. apply Forall_cons_1 in Hi as [Hi His].
  apply relates_bind; [apply _|by apply port_call_typed|intros _; by apply IH].
Qed.
End functions.

(** ** Every field *)

Section claim.
Context {IO : Iolinki} {laws : IolinkiLaws IO}.

Lemma typed_integers phy config p : config_ok config → port_ok phy config p → port_typed p → port_integers p.
Proof.
  intros Hcfg Hok Hty. pose proof law_isdu_buffer. pose proof (od_len_range config) as Hod.
  pose proof (ty_config _ Hty) as Hct. pose proof Hct as [_ Hin Hout _ _ _ _ _ _ _ _].
  destruct Hok as [_ Hc Hl _ Htx _ Hpi Hpil _ Hpo Hpol Hbi [[] _] [_ Hem _] [_ Hbd Hbl Hbm Hbx Hbs] [_ Hrx Hrl]].
  destruct Hty as [_ _ Hwa Hd Hdi His Hev _ Hcc Hls Hrd Hsr]. rewrite Hc in Hin, Hout.
  unfold IOLINK_MASTER_FRAME_BUF_SIZE in *.
  split; try done; rewrite ?Hl, ?Hpil, ?Hpol; try done; unfold is_u8, is_u16 in *; try lia.
Qed.

(** C19: the integers of a port stay in their C types. After initialisation with a
    configuration whose integers are typed, and any sequence of valid calls whose instants
    are 32-bit values, every integer of the port, in the configuration, the diagnostics, the
    device information, the transport, the event readout, the block transfer, the receive
    buffer and the timing, and every octet of its buffers, is in the range of the type of
    its C field: every conversion the source performs is in the model, and no operation
    leaves a value behind that its field cannot hold. *)
Theorem port_integers_stay_typed phy config fuel pending calls w :
  adapter_ok phy fuel pending → config_ok config → config_typed config →
  Forall call_valid calls → Forall instant_typed calls →
  wp (iolink_master_init PTR (Some phy) (Some config);; port_run fuel calls)
    (fun _ w' => port_integers (w_port w')) w.
Proof.
  intros Ha Hcfg Hct Hc Hi. apply wp_bind.
  eapply wp_mono; [apply wp_partial; [by apply init_ok|]|].
  { intros ret w1. apply init_makes_typed; [|done|apply Hcfg]. intros recv tr. apply Ha. }
  intros ret w1 [Hok Hty]. eapply wp_mono.
  { apply (wp_relates (preserved (fun w => port_typed (w_port w)))); [|by apply port_run_typed].
    eapply port_run_ok; [done..|]. by exists config. }
  intros ? w2 [(config' & Hcfg' & Hok2) Hty2]. eapply typed_integers; [done|done|by apply Hty2].
Qed.
End claim.

Lemma port_integers_stay_typed_witness :
  wp (iolink_master_init PTR (Some (fix_phy [0x14; 0x2D; 7; 255])) (Some fix_config);; port_run 5 wit_calls)
    (fun _ w' => port_integers (w_port w')) (wit_world []).
Proof.
  apply (port_integers_stay_typed _ fix_config 5 _ wit_calls (wit_world [])
    (fix_adapter [0x14; 0x2D; 7; 255] ltac:(decide_here)) fix_config_ok);
    [by split|repeat constructor; cbn; try done; try lia; try decide_here..].
Defined.
