(* ===== verification/Carrier.v ===== *)
(** * Carrying frames

    What the transmitting functions do to the port and in which order they send, for any
    link that takes the frames. A link is given by two predicate transformers over the
    trace of calls: [T frame K tr] says that [frame] can be sent after the calls [tr] and
    that the trace then satisfies [K]; [W K tr] says the same of the wake-up request. *)

From S2P Require Import Prelude Iolinki Reference Types Fixtures Parameters Isdu IsduResponse IsduRequest IsduService Services DataStorage Events EventReadout Hal Transmit Port PortInvariant PortServices PortSafety PortCalls PortTransitions.

(** A port on [phy] with [config]. *)
Definition on_link (phy : iolink_phy_api_t) (config : iolink_master_config_t) (w : world) : Prop :=
  p_phy (w_port w) = Some phy ∧ p_config (w_port w) = config.

(** The reply to this M-sequence carries OD octets: the read bit of MC. *)
Definition expects_od {IO : Iolinki} (data : list Z) : bool :=
  negb (Z.land (default 0 (rd data 0)) IOLINK_MC_RW_MASK =? 0).

Record carrier {IO : Iolinki} (phy : iolink_phy_api_t) (config : iolink_master_config_t)
    (T : list Z → (list io → Prop) → list io → Prop) (W : (list io → Prop) → list io → Prop) : Prop := {
  carrier_ptr : null (phy_send phy) = false;
  carrier_send : ∀ data len frame K w, on_link phy config w → 1 ≤ zlen data →
    slice data 0 len = Some frame → T frame K (w_io w) →
    wp (iolink_master_send_full data len) (fun sent w' => sent = true ∧ K (w_io w') ∧
      w_port w' = w_port w <| p_rx_od_expected := expects_od data |>) w;
  carrier_wake : ∀ K w, port_ok phy config (w_port w) → W K (w_io w) →
    wp iolink_master_wake_up (fun woken w' => woken = true ∧ K (w_io w') ∧
      ∃ tx b, w_port w' = w_port w <| p_tx_buf := tx |> <| p_rx_od_expected := b |>) w;
}.

(** No service wants a frame. *)
Definition no_service (p : iolink_master_port_state_t) : Prop :=
  isdu_op (p_isdu p) = IOLINK_MASTER_ISDU_OP_NONE ∧ isdu_idle_pending (p_isdu p) = false ∧
  isdu_abort_pending (p_isdu p) = false ∧ ev_phase (p_event p) = IOLINK_MASTER_EVENT_PHASE_NONE.

(** What the transmitter leaves alone in STARTUP. *)
Definition same_attempt (p p' : iolink_master_port_state_t) : Prop :=
  p_state p' = p_state p ∧ p_config p' = p_config p ∧ p_phy p' = p_phy p ∧
  su_baudrate_index (p_startup p') = su_baudrate_index (p_startup p) ∧
  su_wake_attempts (p_startup p') = su_wake_attempts (p_startup p) ∧
  p_diagnostics p' = p_diagnostics p ∧ p_isdu p' = p_isdu p ∧ p_event p' = p_event p ∧
  p_rx p' = p_rx p ∧
  (su_step (p_startup p) ≠ IOLINK_MASTER_STARTUP_STEP_INACTIVE →
   su_step (p_startup p') ≠ IOLINK_MASTER_STARTUP_STEP_INACTIVE).

(** The test message: a TYPE_0 read of MinCycleTime. *)
Definition test_message {IO : Iolinki} : list Z := [0xA2; iolink_checksum6 [0xA2; 0]].

(** The DeviceOperate write. *)
Definition device_operate {IO : Iolinki} : list Z := [0x20; iolink_checksum6 [0x20; 0; 0x99]; 0x99].

(** ** The octets of the acyclic start-up frames *)

Section encode.
Context {IO : Iolinki} {laws : IolinkiLaws IO}.
Context (phy : iolink_phy_api_t) (config : iolink_master_config_t).
Notation ok := (port_ok phy config).
Implicit Types (p : iolink_master_port_state_t) (w : world).

Lemma ok_on_link w : ok (w_port w) → on_link phy config w.
Proof. by intros []. Qed.

Lemma encode_type0_wp mc p : ok p →
  wp (encode_type0 mc) (fun len p' => len = 2 ∧
    p' = p <| p_tx_buf := mc :: iolink_checksum6 [mc; 0] :: drop 2 (p_tx_buf p) |>) p.
Proof.
  intros Hp. pose proof (ok_tx_buf _ _ _ Hp) as Htx. unfold IOLINK_MASTER_FRAME_BUF_SIZE in Htx.
  apply wp_bind, wp_get. rewrite law_encode_type0 by lia. by apply wp_bind, wp_assign, wp_ret.
Qed.

Lemma encode_type0_write_wp mc od p : ok p →
  wp (encode_type0_write mc od) (fun len p' => len = 3 ∧
    p' = p <| p_tx_buf := mc :: iolink_checksum6 [mc; 0; od] :: od :: drop 3 (p_tx_buf p) |>) p.
Proof.
  intros Hp. pose proof (ok_tx_buf _ _ _ Hp) as Htx. unfold IOLINK_MASTER_FRAME_BUF_SIZE in Htx.
  apply wp_bind, wp_get. rewrite law_encode_type0_write by lia. by apply wp_bind, wp_assign, wp_ret.
Qed.

Lemma test_message_mc :
  iolink_master_encode_master_command true IOLINK_MASTER_MC_CHANNEL_PAGE
    IOLINK_MASTER_DPP1_OFF_MIN_CYCLE_TIME = 0xA2.
Proof.
  unfold iolink_master_encode_master_command.
  by rewrite law_mc_rw, law_mc_channel, law_mc_addr.
Qed.

Lemma device_operate_mc :
  iolink_master_encode_master_command false IOLINK_MASTER_MC_CHANNEL_PAGE
    IOLINK_MASTER_DPP1_OFF_MASTER_COMMAND = 0x20.
Proof.
  unfold iolink_master_encode_master_command. by rewrite law_mc_channel, law_mc_addr.
Qed.

(** Opening the gate again changes none of the observed fields. *)
Lemma arm_gate_wp now delay timed (Q : unit → world → Prop) w :
  (∀ t v, Q tt (w <| w_port := w_port w <| p_send_ready_at_100us := t |> <| p_send_ready_valid := v |> |>)) →
  wp (iolink_master_arm_send_gate now delay timed) Q w.
Proof.
  intros HQ. destruct timed; [by apply HQ|].
  specialize (HQ (p_send_ready_at_100us (w_port w)) (p_send_ready_valid (w_port w))).
  apply wp_ret. clear -HQ. destruct w as [[]]. cbn in HQ. exact HQ.
Qed.
End encode.

(** ** The services that have nothing to send *)

Section silent_services.
Context {IO : Iolinki}.
Implicit Types w : world.

Lemma send_event_none w : ev_phase (p_event (w_port w)) = IOLINK_MASTER_EVENT_PHASE_NONE →
  wp iolink_master_send_event (fun sent w' => sent = false ∧ w' = w) w.
Proof.
  intros Hp. apply wp_bind, wp_gets.
  unfold iolink_master_event_channel_access. rewrite Hp. by apply wp_ret.
Qed.

Lemma send_isdu_none w : no_service (w_port w) →
  wp iolink_master_send_isdu (fun sent w' => sent = false ∧ w_port w' = w_port w ∧ w_io w' = w_io w) w.
Proof.
  intros (Hop & Hi & Ha & _). unfold iolink_master_send_isdu.
  apply wp_bind, wp_gets. cbv zeta. apply wp_bind, wp_zoom, wp_zoom.
  unfold iolink_master_isdu_take_abort. cbn [ptr_null]. apply wp_bind, wp_get. rewrite Ha.
  apply wp_ret, wp_bind, wp_zoom, wp_zoom.
  unfold iolink_master_isdu_take_idle. cbn [ptr_null]. apply wp_bind, wp_get. cbn. rewrite Hi.
  apply wp_ret, wp_bind, wp_gets. cbn. unfold iolink_master_isdu_channel_access. rewrite Hop.
  apply wp_ret. split; [done|]. cbn. split; [|done]. by destruct (w_port w).
Qed.
End silent_services.

(** ** The start-up on a link *)

Section startup.
Context {IO : Iolinki} {laws : IolinkiLaws IO}.
Context (phy : iolink_phy_api_t) (config : iolink_master_config_t).
Context (T : list Z → (list io → Prop) → list io → Prop) (W : (list io → Prop) → list io → Prop).
Context (Hcar : carrier phy config T W).
Notation ok := (port_ok phy config).
Implicit Types (p : iolink_master_port_state_t) (w : world) (K : list io → Prop).

(** The frame in [tx_buf]. *)
Lemma send_tx_buf_carried len frame K w : ok (w_port w) →
  slice (p_tx_buf (w_port w)) 0 len = Some frame → T frame K (w_io w) →
  wp (send_tx_buf len) (fun sent w' => sent = true ∧ K (w_io w') ∧
    w_port w' = w_port w <| p_rx_od_expected := expects_od (p_tx_buf (w_port w)) |>) w.
Proof.
  intros Hok Hs HT. pose proof (ok_tx_buf _ _ _ Hok) as Htx. unfold IOLINK_MASTER_FRAME_BUF_SIZE in Htx.
  apply wp_bind, wp_gets. eapply carrier_send; [exact Hcar|by apply ok_on_link|lia|exact Hs|exact HT].
Qed.

(** The wake-up request. *)
Lemma startup_wake_carried now timed K w : ok (w_port w) → W K (w_io w) →
  wp (startup_wake now timed) (fun _ w' => K (w_io w') ∧ same_attempt (w_port w) (w_port w') ∧
    p_awaiting_response (w_port w') = p_awaiting_response (w_port w) ∧
    su_step (p_startup (w_port w')) = IOLINK_MASTER_STARTUP_STEP_SEND_TYPE0) w.
Proof.
  intros Hok HW. apply wp_bind. eapply wp_mono; [by eapply carrier_wake|].
  intros woken w1 (-> & HK & tx & b & Hw1). cbn [when]. unfold startup_goto.
  apply wp_bind, wp_zoom, wp_zoom, wp_assign, wp_bind, wp_gets, wp_bind.
  assert (∃ b, iolink_master_startup_baudrate (w_port w) = Some b) as [br Hb].
  { by eapply startup_baudrate_ok. }
  eapply wp_mem; [rewrite Hw1; exact Hb|]. apply arm_gate_wp. intros t v. cbn. rewrite Hw1.
  by split_and!.
Qed.

(** The test message. *)
Lemma startup_send_type0_carried now timed K w : ok (w_port w) → T test_message K (w_io w) →
  wp (startup_send_type0 now timed) (fun _ w' => K (w_io w') ∧ same_attempt (w_port w) (w_port w') ∧
    p_awaiting_response (w_port w') = timed || p_awaiting_response (w_port w) ∧
    su_step (p_startup (w_port w')) = IOLINK_MASTER_STARTUP_STEP_AWAIT_RESPONSE) w.
Proof.
  intros Hok HT. pose proof (ok_tx_buf _ _ _ Hok) as Htx. unfold IOLINK_MASTER_FRAME_BUF_SIZE in Htx.
  unfold startup_send_type0. rewrite test_message_mc.
  apply wp_bind, wp_zoom. eapply wp_mono.
  { apply wp_and; [by apply (encode_type0_wp phy config)|].
    apply (encode_type0_builds phy config); [done|exact Hok]. }
  intros len p1 [[-> Hp1] [Hok1 _]]. unfold send_then. cbn [when Z.ltb Z.compare].
  apply wp_bind. eapply wp_mono.
  { eapply (send_tx_buf_carried 2 test_message); [exact Hok1| |exact HT]. rewrite Hp1. exact (slice_app [] test_message _). }
  intros sent w2 (-> & HK & Hw2). cbn [w_port set] in Hw2. cbn [when].
  unfold startup_goto. apply wp_bind, wp_zoom, wp_zoom, wp_assign. apply wp_when; intros Ht; subst.
  - apply wp_bind, wp_gets, wp_bind.
    destruct (test_message_timeout_ok phy config (w_port w) Hok) as [t Ht].
    eapply wp_mem; [rewrite Hw2; exact Ht|]. apply wp_zoom, wp_bind, wp_assign, wp_assign.
    split; [done|]. rewrite Hw2. by split_and!.
  - split; [done|]. rewrite Hw2. by split_and!.
Qed.

(** What the port does in STARTUP, step by step. *)
Lemma process_startup_carried now timed (K : iolink_master_startup_step_t → list io → Prop) w :
  ok (w_port w) → su_step (p_startup (w_port w)) ≠ IOLINK_MASTER_STARTUP_STEP_INACTIVE →
  (su_step (p_startup (w_port w)) = IOLINK_MASTER_STARTUP_STEP_WAKE →
   W (K IOLINK_MASTER_STARTUP_STEP_SEND_TYPE0) (w_io w)) →
  (su_step (p_startup (w_port w)) = IOLINK_MASTER_STARTUP_STEP_SEND_TYPE0 →
   T test_message (K IOLINK_MASTER_STARTUP_STEP_AWAIT_RESPONSE) (w_io w)) →
  (su_step (p_startup (w_port w)) ≠ IOLINK_MASTER_STARTUP_STEP_WAKE →
   su_step (p_startup (w_port w)) ≠ IOLINK_MASTER_STARTUP_STEP_SEND_TYPE0 →
   K (su_step (p_startup (w_port w))) (w_io w)) →
  wp (process_startup now timed) (fun _ w' => same_attempt (w_port w) (w_port w') ∧
    p_awaiting_response (w_port w') =
      timed && (su_step (p_startup (w_port w)) =e IOLINK_MASTER_STARTUP_STEP_SEND_TYPE0) ||
      p_awaiting_response (w_port w) ∧
    su_step (p_startup (w_port w')) =
      match su_step (p_startup (w_port w)) with
      | IOLINK_MASTER_STARTUP_STEP_WAKE => IOLINK_MASTER_STARTUP_STEP_SEND_TYPE0
      | IOLINK_MASTER_STARTUP_STEP_SEND_TYPE0 => IOLINK_MASTER_STARTUP_STEP_AWAIT_RESPONSE
      | step => step
      end ∧
    K (su_step (p_startup (w_port w'))) (w_io w')) w.
Proof.
  intros Hok Hstep HW HT HK. apply wp_bind, wp_gets, wp_bind. rewrite bool_decide_false by done.
  apply wp_ret. cbn [negb]. apply wp_bind, wp_gets. apply wp_if; intros Hwake; norm_bool.
  - rewrite Hwake in *. rewrite bool_decide_false, andb_false_r by done.
    eapply wp_mono; [apply startup_wake_carried; [done|by apply HW]|].
    intros ? w' (HK' & Hs & Ha & Hst). rewrite Hst. by split_and!.
  - apply wp_when; intros Hs; norm_bool.
    + rewrite Hs in *. rewrite bool_decide_true, andb_true_r by done.
      eapply wp_mono; [apply startup_send_type0_carried; [done|by apply HT]|].
      intros ? w' (HK' & Hsame & Ha & Hst). rewrite Hst. by split_and!.
    + rewrite bool_decide_false, andb_false_r by done. split; [by split_and!|]. split; [done|].
      split; [by destruct (su_step (p_startup (w_port w)))|by apply HK].
Qed.

(** The DeviceOperate write of a port without a service and without a pending check of
    the device information. *)
Lemma process_preoperate_carried K w :
  ok (w_port w) → no_service (w_port w) →
  iolink_master_startup_validation_required config = false → T device_operate K (w_io w) →
  wp process_preoperate (fun _ w' => K (w_io w') ∧
    ∃ tx, w_port w' = w_port w <| p_tx_buf := tx |>
      <| p_rx_od_expected := false |>
      <| p_startup := p_startup (w_port w) <| su_step := IOLINK_MASTER_STARTUP_STEP_AWAIT_OPERATE_ACK |> |>) w.
Proof.
  intros Hok Hno Hval HT. unfold process_preoperate.
  apply wp_bind. eapply wp_mono; [apply send_event_none, Hno|]. intros ? ? [-> ->].
  apply wp_bind. eapply wp_mono; [by apply send_isdu_none|]. intros ? w1 (-> & Hw1 & Hio1).
  apply wp_bind. unfold preoperate_validate. apply wp_bind, wp_gets.
  rewrite Hw1, (ok_config _ _ _ Hok), Hval. cbn [andb].
  apply wp_bind, wp_ret. cbn [negb]. apply wp_bind, wp_gets, wp_ret. cbn [when].
  rewrite device_operate_mc, law_cmd_operate. apply wp_bind, wp_zoom. rewrite Hw1.
  eapply wp_mono.
  { apply wp_and; [by apply (encode_type0_write_wp phy config)|].
    apply (encode_type0_write_builds phy config); [done|done|exact Hok]. }
  intros len p2 [[-> Hp2] [Hok2 _]]. unfold send_then. cbn [when Z.ltb Z.compare].
  apply wp_bind. eapply wp_mono.
  { eapply (send_tx_buf_carried 3 device_operate); [exact Hok2|rewrite Hp2; exact (slice_app [] device_operate _)|].
    cbn [w_io set]. rewrite Hio1. exact HT. }
  intros sent w3 (-> & HK & Hw3). cbn [w_port set] in Hw3. cbn [when].
  unfold startup_goto. apply wp_zoom, wp_zoom, wp_assign. split; [done|]. eexists. cbn. rewrite Hw3, Hp2.
  unfold expects_od. rewrite law_mc_rw. reflexivity.
Qed.
End startup.
