(* ===== verification/Handshake.v ===== *)
(** * The handshake that starts the cyclic exchange

    A port enters OPERATE only through the DeviceOperate handshake: a call writes the
    DeviceOperate frame completely, the port waits in PREOPERATE through every call after
    it, and a call then receives the acknowledgement. The property is stated on the runs of
    a port: the calls of its user, the state after each of them and the trace of the calls
    to the adapter. *)

From S2P Require Import Prelude Iolinki Reference Types Fixtures Parameters Isdu IsduResponse IsduRequest IsduService Services DataStorage Events EventReadout Hal Transmit Port PortInvariant PortServices PortSafety Sio PortCalls PortTransitions Carrier.

(** The adapter took the whole DeviceOperate frame. *)
Definition operate_sent {IO : Iolinki} (new : list io) : Prop :=
  ∃ user, IoSend user device_operate 3 ∈ new.

(** The call brings the acknowledgement: one octet with a valid checksum, handed over by
    the user or received from the adapter. *)
Definition acknowledges {IO : Iolinki} (c : port_call) (new : list io) : Prop :=
  match c with
  | CallOnRx data len =>
      len = 1 ∧ ∃ octets cks, data = Some octets ∧ rd octets 0 = Some cks ∧ cks_valid cks = true
  | _ => cks_octet new
  end.

(** What one call does to the handshake. *)
Definition handshake_step {IO : Iolinki} (c : port_call) (w w' : world) : Prop :=
  ∃ new, w_io w' = w_io w ++ new ∧
  (p_state (w_port w') = IOLINK_MASTER_STATE_OPERATE →
   p_state (w_port w) = IOLINK_MASTER_STATE_OPERATE ∨
   awaits_operate_ack (w_port w) ∧ acknowledges c new) ∧
  (awaits_operate_ack (w_port w') → awaits_operate_ack (w_port w) ∨ operate_sent new).

(** The part of it that transmits. *)
Definition asks {IO : Iolinki} (w w' : world) : Prop :=
  ∃ new, w_io w' = w_io w ++ new ∧
  (p_state (w_port w') = IOLINK_MASTER_STATE_OPERATE → p_state (w_port w) = IOLINK_MASTER_STATE_OPERATE) ∧
  (awaits_operate_ack (w_port w') → awaits_operate_ack (w_port w) ∨ operate_sent new).

Section steps.
Context {IO : Iolinki}.

Lemma passive_asks w w' : passive w w' → asks w w'.
Proof. intros ([new Hn] & Ho & Ha). exists new. auto. Qed.

Lemma operate_sent_app n1 n2 : operate_sent n1 ∨ operate_sent n2 → operate_sent (n1 ++ n2).
Proof. intros [[u H]|[u H]]; exists u; apply elem_of_app; auto. Qed.

#[export] Instance asks_preorder : PreOrder asks.
Proof.
  split.
  - intros w. by apply passive_asks.
  - intros w1 w2 w3 (n1 & H1 & Hs1 & Ha1) (n2 & H2 & Hs2 & Ha2). exists (n1 ++ n2).
    split; [by rewrite H2, H1, app_assoc|]. split; [auto|]. intros H.
    destruct (Ha2 H) as [Hw|]; [destruct (Ha1 Hw)|]; auto using operate_sent_app.
Qed.

Lemma asks_step c w w' : asks w w' → handshake_step c w w'.
Proof. intros (new & Hn & Ho & Ha). exists new. auto. Qed.

Lemma acknowledged_then_asks c w w1 w' :
  (∀ new1 new2, cks_octet new1 → acknowledges c (new1 ++ new2)) →
  acknowledged w w1 → asks w1 w' → handshake_step c w w'.
Proof.
  intros Hc (n1 & H1 & Hs1 & Ha1) (n2 & H2 & Hs2 & Ha2). exists (n1 ++ n2).
  split; [by rewrite H2, H1, app_assoc|]. split.
  - intros Ho. destruct (Hs1 (Hs2 Ho)) as [|[]]; auto.
  - intros Ha. destruct (Ha2 Ha); auto using operate_sent_app.
Qed.

Lemma acknowledges_app c new1 new2 :
  (∀ data len, c ≠ CallOnRx data len) → cks_octet new1 → acknowledges c (new1 ++ new2).
Proof. intros Hc Hn. destruct c; try (apply cks_octet_app; by left). by destruct (Hc data len). Qed.

Lemma prepare_quiet hook entry : relates passive (prepare hook entry).
Proof. unfold prepare. relates_auto. Qed.

Lemma send_tx_buf_quiet len : relates passive (send_tx_buf len).
Proof. unfold send_tx_buf. relates_auto. Qed.

Lemma send_failed_false w w' : send_failed w ≠ Ok true w'.
Proof. intros ([] & w1 & _ & ([] & w2 & _ & [=])%bind_ok)%bind_ok. Qed.

(** A frame that was sent is on the trace. *)
Lemma send_full_sends data len w w' :
  iolink_master_send_full data len w = Ok true w' →
  ∃ new user frame, slice data 0 len = Some frame ∧ w_io w' = w_io w ++ new ∧ IoSend user frame len ∈ new.
Proof.
  intros (p & w1 & [= <- <-] & H)%bind_ok. apply bind_ok in H as (mc & w1 & Hm & H).
  destruct (rd data 0); [|done]. injection Hm as <- <-. cbv zeta in H.
  apply bind_ok in H as (ready & w2 & ([n1 Hn1] & _)%prepare_quiet & H).
  destruct (negb ready); [by apply send_failed_false in H|].
  apply bind_ok in H as (phy & w3 & Hm & H). destruct (p_phy _); [|done]. injection Hm as <- <-.
  apply bind_ok in H as (send & w3 & Hm & H). destruct (phy_send _); [|done]. injection Hm as <- <-.
  apply bind_ok in H as (frame & w3 & Hm & H). destruct (slice data 0 len) eqn:Hs; [|done]. injection Hm as <- <-.
  apply bind_ok in H as (sent & w4 & Hc & H). injection Hc as Hsent <-.
  apply bind_ok in H as (ready2 & w5 & ([n2 Hn2] & _)%prepare_quiet & H). cbn in Hn2.
  destruct (negb ready2); [by apply send_failed_false in H|].
  destruct (Z.eqb_spec sent len) as [Heq|]; [|by apply send_failed_false in H].
  apply bind_ok in H as (u & w6 & Hz & H). injection H as <-. injection Hz as _ <-. cbn.
  rewrite Hn2, Hsent, Heq, Hn1, <- !app_assoc. eexists _, _, _. split; [done|]. split; [done|].
  apply elem_of_app. right. by left.
Qed.
End steps.

(** ** What the transmitter asks *)

Section asking.
Context {IO : Iolinki} {laws : IolinkiLaws IO}.
Context (phy : iolink_phy_api_t) (config : iolink_master_config_t) (Hcfg : config_ok config).
Notation ok := (port_ok phy config).
Implicit Types w : world.

(** A safe passive step, then the rest. *)
Lemma ask_after {A B} (m : M world A) (k : A → M world B) w :
  ok (w_port w) → safe phy config m → relates passive m →
  (∀ a w1, ok (w_port w1) → wp (k a) (fun _ w' => asks w1 w') w1) →
  wp (mbind k m) (fun _ w' => asks w w') w.
Proof.
  intros Hw Hs Hq Hk. apply wp_bind. eapply wp_mono.
  { apply wp_relates; [by apply Hs|exact Hq]. }
  intros a w1 [Hw1 Hp]. eapply wp_mono; [by apply Hk|]. intros ? w2 Ha.
  transitivity w1; [by apply passive_asks|done].
Qed.

Lemma ask_quiet {A} (m : M world A) w :
  ok (w_port w) → safe phy config m → relates passive m → wp m (fun _ w' => asks w w') w.
Proof.
  intros Hw Hs Hq. eapply wp_mono; [apply wp_relates; [by apply Hs|exact Hq]|].
  intros a w1 [_ Hp]. by apply passive_asks.
Qed.

(** The DeviceOperate write. *)
Lemma operate_write_asks send w : phy_send phy = Some send → ok (w_port w) →
  wp (frame_len ← zoom w_port (encode_type0_write
        (iolink_master_encode_master_command false IOLINK_MASTER_MC_CHANNEL_PAGE
           IOLINK_MASTER_DPP1_OFF_MASTER_COMMAND)
        IOLINK_CMD_DEVICE_OPERATE);
      send_then frame_len (startup_goto IOLINK_MASTER_STARTUP_STEP_AWAIT_OPERATE_ACK))
    (fun _ w' => asks w w') w.
Proof.
  intros Hsend Hw. rewrite device_operate_mc, law_cmd_operate. apply wp_bind, wp_zoom.
  eapply wp_mono.
  { apply wp_and; [by apply (encode_type0_write_wp phy config)|].
    by apply (encode_type0_write_builds phy config). }
  intros len p1 [[-> Hp1] [Hok1 _]]. unfold send_then. cbn [when Z.ltb Z.compare].
  match goal with |- wp _ _ ?s => set (w1 := s) end.
  assert (phase (w_port w1) = phase (w_port w)) as Hph by (unfold w1; cbn; by rewrite Hp1).
  assert (w_io w1 = w_io w) as Hio by done.
  apply wp_bind. eapply wp_mono.
  { apply wp_partial.
    - apply (wp_relates passive); [by apply (send_tx_buf_safe phy config send)|apply send_tx_buf_quiet].
    - intros sent w2. exact (fun H => H). }
  intros sent w2 [[Hok2 Hp2] Hrun].
  assert (asks w w2) as Hask.
  { transitivity w1; apply passive_asks; [|done]. apply passive_same_phase; [|done]. exists []. by rewrite app_nil_r. }
  destruct sent; cbn [when]; [|by apply wp_ret].
  apply bind_ok in Hrun as (p & w3 & [= <- <-] & Hrun).
  apply send_full_sends in Hrun as (new & user & frame & Hs & Hn & Hin).
  replace (p_tx_buf (w_port w1)) with (p_tx_buf p1) in Hs by done. rewrite Hp1 in Hs. cbn in Hs.
  pose proof (slice_app [] device_operate (drop 3 (p_tx_buf (w_port w)))) as Hs'.
  assert (frame = device_operate) as -> by exact (Some_inj _ _ (eq_trans (eq_sym Hs) Hs')).
  unfold startup_goto. apply wp_zoom, wp_zoom, wp_assign.
  destruct Hask as (n2 & Hn2 & Ho & _). rewrite Hio in Hn.
  exists new. split; [done|]. split; [exact Ho|]. intros _. right. by exists user.
Qed.

Lemma process_preoperate_asks send w : phy_send phy = Some send → ok (w_port w) →
  wp process_preoperate (fun _ w' => asks w w') w.
Proof.
  intros Hsend Hw. apply ask_after; [done|by eapply send_event_safe|auto with relates|]. intros [] w1 Hw1; [by apply wp_ret|].
  apply ask_after; [done|by eapply send_isdu_safe|auto with relates|]. intros [] w2 Hw2; [by apply wp_ret|].
  apply ask_after; [done|apply preoperate_validate_safe|auto with relates|]. intros [] w3 Hw3; [|by apply wp_ret].
  by eapply operate_write_asks.
Qed.

Lemma process_at_asks now timed w : ok (w_port w) →
  wp (iolink_master_process_at PTR now timed) (fun _ w' => asks w w') w.
Proof.
  intros Hw. unfold iolink_master_process_at. cbn [ptr_null]. apply wp_bind, wp_gets.
  rewrite (ok_phy _ _ _ Hw).
  destruct (phy_send phy) as [send|] eqn:Hsend; [|by apply wp_ret]. cbn [null].
  destruct (_ && _); [by apply wp_ret|].
  destruct (p_state (w_port w)); try by apply wp_ret.
  - apply ask_quiet; [done|by eapply process_startup_safe|auto with relates].
  - by eapply process_preoperate_asks.
  - apply ask_quiet; [done|by eapply process_operate_safe|auto with relates].
Qed.

Lemma tick_transmit_asks pace now w : ok (w_port w) →
  wp (tick_transmit pace now) (fun _ w' => asks w w') w.
Proof.
  intros Hw. apply wp_bind, wp_gets. apply wp_if; intros _; [by apply wp_ret|].
  apply wp_if; intros _; [by apply wp_ret|]. cbv zeta. apply wp_bind. eapply wp_mono.
  { apply wp_and; [by apply process_at_asks|by apply process_at_safe]. }
  intros ? w1 [Ha Hw1]. apply wp_bind, wp_gets. apply wp_when; intros _; [|done].
  eapply wp_mono; [apply ask_quiet; [done|by apply tick_record_cycle_safe|auto with relates]|].
  intros ? w2 Ha2. by transitivity w1.
Qed.
End asking.

(** ** What a call does to the handshake *)

Section calls.
Context {IO : Iolinki} {laws : IolinkiLaws IO}.
Context (phy : iolink_phy_api_t).
Context (fuel : nat) (pending : list io → nat) (Hadapter : adapter_ok phy fuel pending).
Implicit Types (w : world) (c : port_call).

Lemma tick_common_step config c event pace now w :
  config_ok config → port_ok phy config (w_port w) → (∀ data len, c ≠ CallOnRx data len) →
  wp (iolink_master_tick_common fuel PTR event pace now) (fun _ w' => handshake_step c w w') w.
Proof.
  intros Hcfg Hw Hc. unfold iolink_master_tick_common. cbn [ptr_null orb].
  apply wp_if; intros _; [by apply wp_ret, asks_step|].
  apply wp_bind. eapply wp_mono.
  { apply (wp_relates acknowledged); [by apply (poll_rx_safe phy config Hcfg fuel pending)|apply poll_rx_acked]. }
  intros rx_ret w1 [Hw1 Hack].
  cut (wp (if rx_ret <? 0 then mret rx_ret else
    stop ← (if event =e IOLINK_MASTER_TICK_RESPONSE_TIMEOUT
            then tick_timeout pace now rx_ret else mret None);
    match stop with
    | Some ret => mret ret
    | None => when (event =e IOLINK_MASTER_TICK_CYCLE_DUE) (tick_transmit pace now);; mret rx_ret
    end) (fun _ w' => asks w1 w') w1).
  { intros H. eapply wp_mono; [exact H|]. intros ? w2. apply acknowledged_then_asks; [|done].
    intros. by apply acknowledges_app. }
  apply wp_if; intros _; [by apply wp_ret|].
  apply (ask_after phy config); [done| | |].
  - destruct (_ =e _); [apply (tick_timeout_safe phy config)|apply safe_ret].
  - destruct (_ =e _); [auto with relates|apply relates_ret; apply _].
  - intros [ret|] w2 Hw2; [by apply wp_ret|]. apply wp_bind. eapply (wp_mono _ (fun _ w' => asks w2 w')).
    { apply wp_when; intros _; [by apply (tick_transmit_asks phy config)|done]. }
    intros ? w3 Ha. by apply wp_ret.
Qed.

Lemma on_rx_step config data len w :
  config_ok config → port_ok phy config (w_port w) → array_ok data len →
  wp (iolink_master_on_rx PTR data len) (fun _ w' => handshake_step (CallOnRx data len) w w') w.
Proof.
  intros Hcfg Hw Ha. destruct data as [data|]; [|by apply wp_ret, asks_step].
  eapply wp_mono.
  { apply wp_partial; [by apply (on_rx_safe phy fuel pending Hadapter config)|]. apply on_rx_enters_operate. }
  intros ret w' [_ [Hp|(Hn & Hwait & Ho & Hlen & Hcks)]]; [by apply asks_step, passive_asks|].
  exists []. rewrite app_nil_r. split; [done|]. split.
  - intros _. right. split; [done|]. destruct Hcks as (cks & ? & ?). cbn. split; [done|]. by exists data, cks.
  - intros Haw. unfold awaits_operate_ack, phase in Haw. congruence.
Qed.

Lemma port_call_step c w : call_valid c → initialised phy w →
  wp (port_call_run fuel c) (fun _ w' => initialised phy w' ∧ handshake_step c w w') w.
Proof.
  intros Hc Hw. apply wp_and; [by eapply port_call_ok|]. destruct (drives c) eqn:Hd.
  - destruct Hw as (config & Hcfg & Hw). destruct c; try done; cbn [port_call_run].
    all: try solve [lazymatch goal with |- wp _ (fun _ s' => handshake_step ?c _ s') _ =>
      apply wp_bind; eapply wp_mono;
        [by first [apply (on_rx_step config)|apply (tick_common_step config c)]|intros ? w1 H1; by apply wp_ret] end].
    + eapply wp_mono; [by apply (process_at_asks phy config Hcfg)|]. intros ? w1. apply asks_step.
    + apply wp_bind. eapply wp_mono.
      { apply (wp_relates acknowledged); [by apply (poll_rx_safe phy config Hcfg fuel pending)|apply poll_rx_acked]. }
      intros ? w1 [_ Hack]. apply wp_ret. eapply acknowledged_then_asks; [|done|done].
      intros. by apply acknowledges_app.
  - eapply wp_mono.
    { apply (wp_relates passive); [by eapply port_call_ok|by apply port_call_quiet]. }
    intros ? w1 [_ Hp]. by apply asks_step, passive_asks.
Qed.
End calls.

(** ** The history of a port in OPERATE *)

Section history.
Context {IO : Iolinki}.

(** Every state of the run has [P]: before the first call and after each one. *)
Definition stays (P : iolink_master_port_state_t → Prop) (fuel : nat) (calls : list port_call)
    (w w' : world) : Prop :=
  port_run fuel calls w = Ok tt w' ∧
  ∀ some rest, calls = some ++ rest → ∃ w1, port_run fuel some w = Ok tt w1 ∧ P (w_port w1).

(** Some call of the run has the adapter take the whole DeviceOperate frame; from then on
    the port waits for the acknowledgement, up to [w']. *)
Definition asked (fuel : nat) (calls : list port_call) (w w' : world) : Prop :=
  ∃ before s mid w1 w2 new,
    calls = before ++ s :: mid ∧ port_run fuel before w = Ok tt w1 ∧
    ¬ awaits_operate_ack (w_port w1) ∧ port_call_run fuel s w1 = Ok tt w2 ∧
    w_io w2 = w_io w1 ++ new ∧ operate_sent new ∧
    stays awaits_operate_ack fuel mid w2 w'.

(** The port asked, a call brought the acknowledgement while it waited, and it has been in
    OPERATE since. *)
Definition handshake (fuel : nat) (calls : list port_call) (w w' : world) : Prop :=
  ∃ before c after w1 w2 new,
    calls = before ++ c :: after ∧ asked fuel before w w1 ∧
    port_call_run fuel c w1 = Ok tt w2 ∧ w_io w2 = w_io w1 ++ new ∧ acknowledges c new ∧
    stays (fun p => p_state p = IOLINK_MASTER_STATE_OPERATE) fuel after w2 w'.

Lemma port_run_app fuel cs1 cs2 w w1 w2 :
  port_run fuel cs1 w = Ok tt w1 → port_run fuel cs2 w1 = Ok tt w2 → port_run fuel (cs1 ++ cs2) w = Ok tt w2.
Proof.
  revert w. induction cs1 as [|c cs1 IH]; intros w H1 H2; [by injection H1 as ->|].
  apply bind_ok in H1 as ([] & w3 & Hc & H1). cbn. unfold mbind, M_bind. rewrite Hc. auto.
Qed.

Lemma port_run_one fuel c w w' : port_call_run fuel c w = Ok tt w' → port_run fuel [c] w = Ok tt w'.
Proof. intros H. cbn. unfold mbind, M_bind. by rewrite H. Qed.

Lemma stays_nil (P : iolink_master_port_state_t → Prop) fuel w : P (w_port w) → stays P fuel [] w w.
Proof. intros H. split; [done|]. intros some rest [-> ->]%eq_sym%app_eq_nil. by exists w. Qed.

Lemma stays_snoc (P : iolink_master_port_state_t → Prop) fuel calls c w w1 w2 :
  stays P fuel calls w w1 → port_call_run fuel c w1 = Ok tt w2 → P (w_port w2) →
  stays P fuel (calls ++ [c]) w w2.
Proof.
  intros [Hr Hs] Hc%port_run_one HP. assert (port_run fuel (calls ++ [c]) w = Ok tt w2) as Hall by (by eapply port_run_app).
  split; [done|]. intros some rest Heq.
  destruct rest as [|x rest _] using rev_ind; [rewrite app_nil_r in Heq; subst; eauto|].
  rewrite app_assoc in Heq. apply app_inj_tail in Heq as [-> _]. by eapply Hs.
Qed.

Lemma asked_snoc fuel calls c w w1 w2 :
  asked fuel calls w w1 → port_call_run fuel c w1 = Ok tt w2 → awaits_operate_ack (w_port w2) →
  asked fuel (calls ++ [c]) w w2.
Proof.
  intros (before & s & mid & v1 & v2 & new & -> & Hb & Hn & Hs & Hio & Hop & Hst) Hc Ha.
  exists before, s, (mid ++ [c]), v1, v2, new. split_and!; try done; [by rewrite <- app_assoc|by eapply stays_snoc].
Qed.

Lemma handshake_snoc fuel calls c w w1 w2 :
  handshake fuel calls w w1 → port_call_run fuel c w1 = Ok tt w2 →
  p_state (w_port w2) = IOLINK_MASTER_STATE_OPERATE → handshake fuel (calls ++ [c]) w w2.
Proof.
  intros (before & a & after & v1 & v2 & new & -> & Hb & Ha & Hio & Hk & Hst) Hc Ho.
  exists before, a, (after ++ [c]), v1, v2, new. split_and!; try done; [by rewrite <- app_assoc|by eapply stays_snoc].
Qed.
End history.

Section claims.
Context {IO : Iolinki} {laws : IolinkiLaws IO}.

(** A port that waits has asked, and a port in OPERATE has the handshake behind it. *)
Lemma run_history phy fuel pending calls w :
  adapter_ok phy fuel pending → Forall call_valid calls → initialised phy w →
  p_state (w_port w) ≠ IOLINK_MASTER_STATE_OPERATE → ¬ awaits_operate_ack (w_port w) →
  ∃ w', port_run fuel calls w = Ok tt w' ∧ initialised phy w' ∧
    (awaits_operate_ack (w_port w') → asked fuel calls w w') ∧
    (p_state (w_port w') = IOLINK_MASTER_STATE_OPERATE → handshake fuel calls w w').
Proof.
  intros Ha Hc Hi Ho Hn. induction calls as [|c calls IH] using rev_ind; [by exists w|].
  apply Forall_app in Hc as [Hc [Hv _]%Forall_cons_1].
  destruct (IH Hc) as (w1 & Hr & Hi1 & Hask & Hhand).
  destruct (wp_inv _ _ _ (port_call_step phy fuel pending Ha c w1 Hv Hi1)) as ([] & w2 & Hr2 & Hi2 & new & Hnew & Hop & Haw).
  exists w2. split; [by eapply port_run_app, port_run_one|]. split; [done|]. split.
  - intros H2. destruct (decide (awaits_operate_ack (w_port w1))) as [H1|H1]; [by eapply asked_snoc; auto|].
    destruct (Haw H2) as [|Hsent]; [done|]. exists calls, c, [], w1, w2, new.
    split_and!; try done. by apply stays_nil.
  - intros H2. destruct (Hop H2) as [H1|[H1 Hk]]; [by eapply handshake_snoc; auto|].
    exists calls, c, [], w1, w2, new. split_and!; try done; [by apply Hask|]. by apply stays_nil.
Qed.

(** C2: a port is in OPERATE only through the DeviceOperate handshake. After
    initialisation and any sequence of calls, a port in OPERATE has the following behind
    it: in one of the calls the adapter took the whole DeviceOperate frame; the port waited
    for the acknowledgement in PREOPERATE after that call and after every call that
    followed, up to the call that brought the acknowledgement, one CKS octet with a correct
    checksum handed over by the user or received from the adapter; and the port has been in
    OPERATE after each call since. Noise, timeouts, service calls and frames that answer
    something else never start the cyclic exchange. *)
Theorem operate_needs_acknowledgement phy config fuel pending calls w :
  adapter_ok phy fuel pending → config_ok config → Forall call_valid calls →
  ∃ ret w1 w2, iolink_master_init PTR (Some phy) (Some config) w = Ok ret w1 ∧
    port_run fuel calls w1 = Ok tt w2 ∧
    (p_state (w_port w2) = IOLINK_MASTER_STATE_OPERATE → handshake fuel calls w1 w2).
Proof.
  intros Ha Hcfg Hc.
  destruct (wp_inv _ _ _ (init_ok phy config Hcfg w)) as (ret & w1 & Hr & Hok).
  destruct (init_starts _ _ _ _ _ (cfg_accepted _ Hcfg) Hr) as [Ho Hn].
  destruct (run_history phy fuel pending calls w1) as (w2 & Hr2 & _ & _ & Hh); [done|done|by exists config|done..|].
  by exists ret, w1, w2.
Qed.
End claims.

(** A start-up with a checksum failure, a service call and a repeated DeviceOperate write
    before the acknowledgement. *)
Definition wit_startup_calls : list port_call :=
  [CallProcess; CallProcess; CallOnRx (Some [0x14; 0x2B]) 2; CallProcess;
   CallOnRx (Some [0x2C]) 1; CallTickEvent IOLINK_MASTER_TICK_CYCLE_DUE; CallTickEvent IOLINK_MASTER_TICK_NONE;
   CallOnRx (Some [0x2D]) 1; CallReadIsdu 0x10 0 [0; 0; 0; 0] 4].

Lemma operate_needs_acknowledgement_witness :
  ∃ ret w1 w2, iolink_master_init PTR (Some (fix_phy [])) (Some fix_config) (wit_world []) = Ok ret w1 ∧
    port_run 1 wit_startup_calls w1 = Ok tt w2 ∧ 
    p_state (w_port w2) = IOLINK_MASTER_STATE_OPERATE ∧ handshake 1 wit_startup_calls w1 w2.
Proof.
  destruct (operate_needs_acknowledgement (fix_phy []) fix_config 1 _ wit_startup_calls (wit_world [])
    (fix_adapter [] ltac:(decide_here)) fix_config_ok) as (ret & w1 & w2 & H1 & H2 & H).
  - repeat constructor; cbn; try done; try lia; try decide_here.
  - assert (p_state (w_port w2) = IOLINK_MASTER_STATE_OPERATE) as Ho.
    { vm_compute in H1. injection H1 as <- <-. vm_compute in H2. injection H2 as <-. reflexivity. }
    exists ret, w1, w2. split; [done|]. split; [done|]. split; [done|]. by apply H.
Defined.
