(* ===== verification/PortLink.v ===== *)
(** * Communication with a cooperative adapter

    When every hook succeeds: what the establish sequence puts on the wire, how many
    attempts it makes, and when a port in OPERATE gives its device up. *)

From S2P Require Import Prelude Iolinki Reference Types Fixtures Parameters Isdu IsduResponse IsduRequest IsduService Services DataStorage Events EventReadout Hal Transmit Port PortInvariant PortServices PortSafety PortCalls PortTransitions Carrier.

(** Every hook the configuration has reports success, and [send] takes whole frames. *)
Record cooperative (phy : iolink_phy_api_t) (config : iolink_master_config_t) : Prop := {
  coop_init : ∀ f, phy_init phy = Some f → ∀ tr, f tr = 0;
  coop_send : ∃ send, phy_send phy = Some send ∧ ∀ tr data, send tr data = zlen data;
  coop_mode : ∀ f, cfg_set_mode_checked config = Some f → ∀ tr mode, f tr mode = 0;
  coop_baudrate : ∀ f, cfg_set_baudrate_checked config = Some f → ∀ tr b, f tr b = 0;
  coop_flush : ∀ f, cfg_flush_rx config = Some f → ∀ tr, f tr = 0;
  coop_prepare_tx : ∀ f, cfg_prepare_tx config = Some f → ∀ tr, f tr = 0;
  coop_prepare_rx : ∀ f, cfg_prepare_rx config = Some f → ∀ tr, f tr = 0;
  coop_wake_up : ∀ f, cfg_wake_up config = Some f → ∀ tr, f tr = 0;
}.

(** The hooks that reception and the establish sequence use report success. *)
Record obliging (config : iolink_master_config_t) : Prop := {
  obl_mode : ∀ f, cfg_set_mode_checked config = Some f → ∀ tr mode, f tr mode = 0;
  obl_baudrate : ∀ f, cfg_set_baudrate_checked config = Some f → ∀ tr b, f tr b = 0;
  obl_flush : ∀ f, cfg_flush_rx config = Some f → ∀ tr, f tr = 0;
}.

Lemma cooperative_obliging phy config : cooperative phy config → obliging config.
Proof. intros []. by split. Qed.

(** The frames handed to [send], in order. *)
Definition sent_frame (e : io) : option (list Z) :=
  match e with IoSend _ data _ => Some data | _ => None end.
Definition frames (tr : list io) : list (list Z) := omap sent_frame tr.

(** The requests on the line: the frames, and the wake-up request of the hook as the octet
    that stands for it on an adapter without a hook. *)
Definition request_of (e : io) : option (list Z) :=
  match e with
  | IoSend _ data _ => Some data
  | IoWakeUp _ => Some [IOLINK_MASTER_WAKEUP_BYTE]
  | _ => None
  end.
Definition on_wire (w : world) : list (list Z) := omap request_of (w_io w).

Arguments frames : simpl never.

Lemma frames_app tr tr' : frames (tr ++ tr') = frames tr ++ frames tr'.
Proof. apply omap_app. Qed.

(** ** The PHY functions *)

Section hooks.
Context {IO : Iolinki} {laws : IolinkiLaws IO}.
Context (phy : iolink_phy_api_t) (config : iolink_master_config_t) (Hobl : obliging config).
Implicit Types w : world.

(** The port is as given, and nothing was sent. *)
Definition silent w (p : iolink_master_port_state_t) w' : Prop :=
  w_port w' = p ∧ frames (w_io w') = frames (w_io w).

Lemma set_mode_coop mode w : on_link phy config w →
  wp (iolink_master_set_mode mode) (fun ret w' => ret = 0 ∧ silent w (w_port w) w') w.
Proof.
  intros [Hp Hc]. apply wp_bind, wp_gets. rewrite Hc, Hp.
  destruct (cfg_set_mode_checked config) as [f|] eqn:Hf.
  - unfold call. wp_steps. split; [by eapply obl_mode|]. split; [done|]. cbn.
    by rewrite frames_app, app_nil_r.
  - unfold emit. wp_steps; (split; [done|split; [done|]]); cbn; by rewrite ?frames_app, ?app_nil_r.
Qed.

Lemma set_baudrate_coop baudrate w : on_link phy config w →
  wp (iolink_master_set_baudrate baudrate) (fun ret w' => ret = 0 ∧ silent w (w_port w) w') w.
Proof.
  intros [Hp Hc]. apply wp_bind, wp_gets. rewrite Hc, Hp.
  destruct (cfg_set_baudrate_checked config) as [f|] eqn:Hf.
  - unfold call. wp_steps. split; [by eapply obl_baudrate|]. split; [done|]. cbn.
    by rewrite frames_app, app_nil_r.
  - unfold emit. wp_steps; (split; [done|split; [done|]]); cbn; by rewrite ?frames_app, ?app_nil_r.
Qed.

Lemma set_startup_baudrate_coop w :
  on_link phy config w → 0 ≤ su_baudrate_index (p_startup (w_port w)) ≤ 2 →
  wp set_startup_baudrate (fun ret w' => ret = 0 ∧ silent w (w_port w) w') w.
Proof.
  intros Hw Hi. apply wp_bind, wp_gets. apply wp_bind.
  assert (∃ b, iolink_master_startup_baudrate (w_port w) = Some b) as [b Hb].
  { unfold iolink_master_startup_baudrate. destruct (cfg_auto_baudrate _); [|eauto].
    apply rd_Some. change (zlen g_iolink_master_baudrate_scan) with 3. lia. }
  eapply wp_mem; [exact Hb|]. by apply set_baudrate_coop.
Qed.

Lemma flush_rx_coop w : on_link phy config w →
  wp iolink_master_flush_rx (fun ret w' => ret = 0 ∧
    silent w (w_port w <| p_rx := p_rx (w_port w) <| rx_len := 0 |> |>) w') w.
Proof.
  intros [Hp Hc]. apply wp_bind, wp_zoom, wp_zoom, wp_assign, wp_bind, wp_gets. cbn. rewrite Hc.
  destruct (cfg_flush_rx config) as [f|] eqn:Hf; [|by apply wp_ret].
  unfold call. wp_steps. split; [by eapply obl_flush|]. split; [done|]. cbn.
  by rewrite frames_app, app_nil_r.
Qed.

(** The rate scan starts over. *)
Lemma rates_scan w : on_link phy config w → 0 ≤ su_baudrate_index (p_startup (w_port w)) ≤ 2 →
  wp iolink_master_reset_rate_scan (fun ret w' => ret = 0 ∧ frames (w_io w') = frames (w_io w) ∧
    w_port w' = if cfg_auto_baudrate config
      then w_port w <| p_startup := p_startup (w_port w) <| su_baudrate_index := 0 |> |>
      else w_port w) w.
Proof.
  intros [Hp Hc] Hi. apply wp_bind, wp_gets. rewrite Hc.
  destruct (cfg_auto_baudrate config) eqn:Ha; cbn [negb orb]; [|by apply wp_ret].
  destruct (Z.eqb_spec (su_baudrate_index (p_startup (w_port w))) 0) as [H0|H0].
  - apply wp_ret. split_and!; [done..|]. clear -H0. destruct w as [[] ?]; cbn in *.
    f_equal. match goal with s : iolink_master_startup_state_t |- _ => destruct s end. cbn in *. by subst.
  - apply wp_bind, wp_zoom, wp_zoom, wp_assign.
    eapply wp_mono; [apply set_startup_baudrate_coop; [by split|cbn; lia]|].
    intros ret w' (-> & Hw' & Hf). split_and!; done.
Qed.

End hooks.

(** What is observed of the calls to the adapter: the frames it takes, and whatever else
    the observer makes of the other calls. *)
Class Observer (obs : io → option (list Z)) : Prop := {
  obs_send : ∀ user data ret, obs (IoSend user data ret) = Some data;
  obs_prepare_tx : ∀ ret, obs (IoPrepareTx ret) = None;
  obs_prepare_rx : ∀ ret, obs (IoPrepareRx ret) = None;
}.

Section hal.
Context {IO : Iolinki} {laws : IolinkiLaws IO}.
Context (phy : iolink_phy_api_t) (config : iolink_master_config_t) (Hcoop : cooperative phy config).
Context (obs : io → option (list Z)) `{!Observer obs}.
Notation seen tr := (omap obs tr).
Implicit Types w : world.

Lemma seen_app tr tr' : seen (tr ++ tr') = seen tr ++ seen tr'.
Proof. apply omap_app. Qed.

Lemma prepare_coop hook entry w : (∀ f, hook = Some f → ∀ tr, f tr = 0) →
  (∀ ret, obs (entry ret) = None) →
  wp (prepare hook entry) (fun ok w' => ok = true ∧ w_port w' = w_port w ∧ seen (w_io w') = seen (w_io w)) w.
Proof.
  intros Hh He. destruct hook as [f|]; [|by apply wp_ret].
  unfold prepare, call. wp_steps. rewrite (Hh f eq_refl). split; [done|]. split; [done|]. cbn [w_io set].
  rewrite seen_app. cbn. by rewrite He, app_nil_r.
Qed.

(** A frame goes out whole. *)
Lemma send_full_seen data len frame w : on_link phy config w → 1 ≤ zlen data → slice data 0 len = Some frame →
  wp (iolink_master_send_full data len) (fun ok w' => ok = true ∧
    seen (w_io w') = seen (w_io w) ++ [frame] ∧
    w_port w' = w_port w <| p_rx_od_expected := expects_od data |>) w.
Proof.
  intros [Hp Hc] Hd Hl. destruct (coop_send _ _ Hcoop) as (send & Hs & Hsend).
  apply wp_bind, wp_gets. unfold expects_od. destruct (rd_Some data 0) as [mc Hmc]; [lia|].
  apply wp_bind. eapply wp_mem; [exact Hmc|]. rewrite Hmc, Hc. cbn [default]. cbv zeta.
  apply wp_bind. eapply wp_mono; [apply prepare_coop; [apply Hcoop|apply obs_prepare_tx]|].
  intros ? w1 (-> & Hw1 & Hf1). cbn [negb]. rewrite Hp. apply wp_bind, wp_ret, wp_bind.
  eapply wp_mem; [exact Hs|]. apply wp_bind. eapply wp_mem; [exact Hl|].
  apply wp_bind. unfold call. apply wp_bind, wp_get, wp_bind, wp_assign, wp_ret. rewrite Hsend.
  apply wp_bind. eapply wp_mono; [apply prepare_coop; [apply Hcoop|apply obs_prepare_rx]|].
  intros ? w2 (-> & Hw2 & Hf2). cbn [negb]. cbn in Hw2, Hf2. rewrite (zlen_slice _ _ _ _ Hl) in *.
  rewrite Z.eqb_refl. apply wp_bind, wp_zoom, wp_assign, wp_ret. split; [done|]. cbn. split.
  - rewrite Hf2, seen_app, Hf1. cbn. by rewrite obs_send.
  - by rewrite Hw2, Hw1.
Qed.

(** Such an adapter carries every frame. *)
Definition seen_takes (frame : list Z) (K : list io → Prop) (tr : list io) : Prop :=
  ∀ tr', seen tr' = seen tr ++ [frame] → K tr'.
Definition seen_wakes (K : list io → Prop) (tr : list io) : Prop :=
  ∀ tr', seen tr' = seen tr ++
    (if null (cfg_wake_up config) then [[IOLINK_MASTER_WAKEUP_BYTE]] else option_list (obs (IoWakeUp 0))) → K tr'.

Lemma seen_carrier : carrier phy config seen_takes seen_wakes.
Proof.
  split.
  - by destruct (coop_send _ _ Hcoop) as (send & -> & _).
  - intros data len frame K w Hl Hd Hs HT. eapply wp_mono; [by apply (send_full_seen data len frame)|].
    intros sent w' (-> & Hf & Hw'). split_and!; [done|by apply HT|done].
  - intros K w Hok HW. pose proof (ok_tx_buf _ _ _ Hok) as Htx. unfold IOLINK_MASTER_FRAME_BUF_SIZE in Htx.
    apply wp_bind, wp_gets. unfold seen_wakes in HW. rewrite (ok_config _ _ _ Hok).
    destruct (cfg_wake_up config) as [f|] eqn:Hf.
    + unfold call. apply wp_bind, wp_bind, wp_get, wp_bind, wp_assign, wp_ret.
      rewrite (coop_wake_up _ _ Hcoop f Hf). apply wp_ret. split; [done|].
      split; [apply HW; cbn; rewrite seen_app; cbn; by destruct (obs (IoWakeUp 0))|].
      exists (p_tx_buf (w_port w)), (p_rx_od_expected (w_port w)). by destruct w as [[]].
    + apply wp_bind. eapply wp_mem; [apply wr_Some; lia|]. apply wp_bind, wp_zoom, wp_assign.
      apply wp_bind, wp_gets. cbn [p_tx_buf set w_port].
      destruct (p_tx_buf (w_port w)) as [|x l]; [by cbn in Htx|].
      eapply wp_mono.
      { apply (send_full_seen _ 1 [IOLINK_MASTER_WAKEUP_BYTE]); [by destruct Hok| |].
        - rewrite zlen_insert. lia.
        - exact (slice_app [] [IOLINK_MASTER_WAKEUP_BYTE] l). }
      intros sent w' (-> & Hfr & Hw'). split; [done|]. split; [by apply HW|]. do 2 eexists. exact Hw'.
Qed.
End hal.

(** The frames alone. *)
Section coop_frames.
Context {IO : Iolinki} {laws : IolinkiLaws IO}.
Context (phy : iolink_phy_api_t) (config : iolink_master_config_t) (Hcoop : cooperative phy config).

#[export] Instance sent_frame_observer : Observer sent_frame.
Proof. by split. Qed.

Lemma send_full_coop data len frame w : on_link phy config w → 1 ≤ zlen data → slice data 0 len = Some frame →
  wp (iolink_master_send_full data len) (fun ok w' => ok = true ∧
    frames (w_io w') = frames (w_io w) ++ [frame] ∧
    w_port w' = w_port w <| p_rx_od_expected := expects_od data |>) w.
Proof. apply (send_full_seen phy config Hcoop sent_frame). Qed.

Definition coop_takes (frame : list Z) (K : list io → Prop) (tr : list io) : Prop :=
  ∀ tr', frames tr' = frames tr ++ [frame] → K tr'.
Definition coop_wakes (K : list io → Prop) (tr : list io) : Prop :=
  ∀ tr', frames tr' = frames tr ++
    (if null (cfg_wake_up config) then [[IOLINK_MASTER_WAKEUP_BYTE]] else []) → K tr'.

Lemma coop_carrier : carrier phy config coop_takes coop_wakes.
Proof. exact (seen_carrier phy config Hcoop sent_frame). Qed.
End coop_frames.

(** ** The attempts of the establish sequence *)

Section attempts.
Context {IO : Iolinki} {laws : IolinkiLaws IO}.
Context (phy : iolink_phy_api_t) (config : iolink_master_config_t) (Hcfg : config_ok config)
  (Hcoop : cooperative phy config).
Notation ok := (port_ok phy config).
Implicit Types (p : iolink_master_port_state_t) (w : world).

(** Rates tried for one wake-up request. *)
Definition rates : Z := if cfg_auto_baudrate config then 3 else 1.

(** Failed attempts since the sequence began. *)
Definition attempts p : Z :=
  su_wake_attempts (p_startup p) * rates
  + (if cfg_auto_baudrate config then su_baudrate_index (p_startup p) else 0).

(** Wake-up requests before the sequence counts as failed. *)
Definition wake_requests : Z :=
  (if cfg_wake_retry_limit config =? 0 then 2 else cfg_wake_retry_limit config) + 1.

Record establishing p : Prop := {
  est_ok : ok p;
  est_state : p_state p = IOLINK_MASTER_STATE_STARTUP;
  est_step : su_step (p_startup p) ≠ IOLINK_MASTER_STARTUP_STEP_INACTIVE;
  est_wake : 0 ≤ su_wake_attempts (p_startup p) < wake_requests;
}.

(** The outcome of one more failed attempt. *)
Definition attempt_outcome p (ret : Z) p' : Prop :=
  let a := attempts p + 1 in
  p_state p' = IOLINK_MASTER_STATE_STARTUP ∧ p_awaiting_response p' = false ∧
  if a <? rates * wake_requests then
    ret = IOLINK_MASTER_STATUS_PENDING ∧ attempts p' = a ∧
    0 ≤ su_wake_attempts (p_startup p') < wake_requests ∧
    su_step (p_startup p') = (if a mod rates =? 0 then IOLINK_MASTER_STARTUP_STEP_WAKE
                              else IOLINK_MASTER_STARTUP_STEP_SEND_TYPE0) ∧
    diag_establish_failures (p_diagnostics p') = diag_establish_failures (p_diagnostics p)
  else
    ret = IOLINK_MASTER_ERR_RETRY_LIMIT ∧ attempts p' = 0 ∧
    su_step (p_startup p') = IOLINK_MASTER_STARTUP_STEP_INACTIVE ∧
    diag_establish_failures (p_diagnostics p') =
      u32 (diag_establish_failures (p_diagnostics p) + 1).

Lemma wake_limit p : p_config p = config →
  iolink_master_wake_retry_limit p = wake_requests - 1.
Proof.
  intros Hc. unfold iolink_master_wake_retry_limit, wake_requests. rewrite Hc.
  unfold IOLINK_MASTER_DEFAULT_WAKE_RETRY_LIMIT. destruct (_ =? 0); lia.
Qed.

Lemma next_rate_outcome now timed w :
  establishing (w_port w) → cfg_auto_baudrate config = true → p_awaiting_response (w_port w) = false →
  su_baudrate_index (p_startup (w_port w)) < 2 →
  wp (establish_next_rate now timed) (fun ret w' => attempt_outcome (w_port w) ret (w_port w') ∧
    frames (w_io w') = frames (w_io w)) w.
Proof.
  intros [Hok Hst Hstep Hwake] Ha Haw Hi. pose proof (ok_baudrate_index _ _ _ Hok).
  apply wp_bind, wp_zoom, wp_zoom, wp_bind, wp_get, wp_assign.
  rewrite u8_small by (unfold is_u8; lia).
  apply wp_bind. eapply wp_mono.
  { apply (set_startup_baudrate_coop phy config (cooperative_obliging phy config Hcoop)); [by destruct Hok|cbn; lia]. }
  intros ret w1 (-> & Hw1 & Hf1). cbn [negb Z.eqb IOLINK_MASTER_STATUS_OK].
  apply wp_bind. unfold startup_goto. apply wp_zoom, wp_zoom, wp_assign, wp_bind, wp_gets.
  apply wp_bind.
  assert (∃ b, iolink_master_startup_baudrate (w_port w1 <| p_startup := p_startup (w_port w1)
    <| su_step := IOLINK_MASTER_STARTUP_STEP_SEND_TYPE0 |> |>) = Some b) as [b Hb].
  { unfold iolink_master_startup_baudrate. rewrite Hw1. cbn. rewrite (ok_config _ _ _ Hok), Ha.
    apply rd_Some. change (zlen g_iolink_master_baudrate_scan) with 3. lia. }
  eapply wp_mem; [exact Hb|]. apply wp_bind, arm_gate_wp. intros t v. apply wp_ret.
  split; [|by cbn]. unfold attempt_outcome. cbn. rewrite Hw1. cbn.
  unfold attempts, rates in *. rewrite Ha in *.
  destruct (Z.ltb_spec (su_wake_attempts (p_startup (w_port w)) * 3 +
    su_baudrate_index (p_startup (w_port w)) + 1) (3 * wake_requests)); [|lia].
  split_and!; cbn; try done; try lia.
  rewrite <- (Z.mod_unique_pos _ 3 (su_wake_attempts (p_startup (w_port w)))
    (su_baudrate_index (p_startup (w_port w)) + 1)) by lia.
  by destruct (Z.eqb_spec (su_baudrate_index (p_startup (w_port w)) + 1) 0); [lia|].
Qed.

(** The retry sequence is over: the port waits T_SD in INACTIVE. *)
Lemma sequence_failed_outcome now timed w :
  on_link phy config w →
  wp (establish_sequence_failed now timed) (fun ret w' =>
    ret = IOLINK_MASTER_ERR_RETRY_LIMIT ∧ frames (w_io w') = frames (w_io w) ∧
    p_state (w_port w') = p_state (w_port w) ∧
    p_awaiting_response (w_port w') = p_awaiting_response (w_port w) ∧
    su_wake_attempts (p_startup (w_port w')) = 0 ∧
    su_baudrate_index (p_startup (w_port w')) = su_baudrate_index (p_startup (w_port w)) ∧
    su_step (p_startup (w_port w')) = IOLINK_MASTER_STARTUP_STEP_INACTIVE ∧
    diag_establish_failures (p_diagnostics (w_port w')) =
      u32 (diag_establish_failures (p_diagnostics (w_port w)) + 1)) w.
Proof.
  intros Hw. apply wp_bind, wp_zoom, wp_zoom, wp_assign, wp_bind.
  unfold count_up. apply wp_zoom, wp_zoom, wp_bind, wp_get, wp_assign.
  apply wp_bind. eapply wp_mono; [by apply (set_mode_coop phy config (cooperative_obliging phy config Hcoop))|].
  intros ret w1 (-> & Hw1 & Hf1). cbn [negb Z.eqb IOLINK_MASTER_STATUS_OK].
  apply wp_bind. unfold startup_goto. apply wp_zoom, wp_zoom, wp_assign, wp_bind, wp_gets.
  apply wp_bind, arm_gate_wp. intros t v. apply wp_ret. cbn. rewrite Hw1. by cbn.
Qed.

(** The last rate has been tried: the wake-up request counts as failed. *)
Definition attempt_counted p : iolink_master_port_state_t :=
  p <| p_awaiting_response := false |>
    <| p_startup := p_startup p
         <| su_wake_attempts := u8 (su_wake_attempts (p_startup p) + 1) |>
         <| su_baudrate_index := if cfg_auto_baudrate config then 0 else su_baudrate_index (p_startup p) |> |>.

Lemma count_attempt now timed Q w :
  on_link phy config w → 0 ≤ su_baudrate_index (p_startup (w_port w)) ≤ 2 →
  cfg_auto_baudrate config && (su_baudrate_index (p_startup (w_port w)) <? 2) = false →
  (∀ w1, w_port w1 = attempt_counted (w_port w) → frames (w_io w1) = frames (w_io w) →
   wp (if u8 (su_wake_attempts (p_startup (w_port w)) + 1) <=? wake_requests - 1 then
         startup_goto IOLINK_MASTER_STARTUP_STEP_WAKE;;
         iolink_master_arm_send_gate now (iolink_master_t_dwu_100us (w_port w1)) timed;;
         mret IOLINK_MASTER_STATUS_PENDING
       else establish_sequence_failed now timed) Q w1) →
  wp (iolink_master_establish_attempt_failed now timed) Q w.
Proof.
  intros [Hp Hc] Hi Hrate HQ. unfold iolink_master_establish_attempt_failed. cbv zeta.
  change (u8 (zlen g_iolink_master_baudrate_scan - 1)) with 2.
  apply wp_bind, wp_zoom, wp_assign, wp_bind, wp_gets. cbn. rewrite Hc, Hrate.
  apply wp_bind, wp_zoom, wp_zoom, wp_bind, wp_get, wp_assign. cbn.
  apply wp_bind. eapply wp_mono; [by apply (rates_scan phy config (cooperative_obliging phy config Hcoop))|].
  intros ret w1 (-> & Hf1 & Hw1). cbn [negb Z.eqb IOLINK_MASTER_STATUS_OK]. apply wp_bind, wp_gets.
  assert (w_port w1 = attempt_counted (w_port w)) as Hw1'.
  { rewrite Hw1. unfold attempt_counted. destruct (cfg_auto_baudrate config); by destruct w as [[] ?]. }
  rewrite wake_limit by (by rewrite Hw1').
  replace (su_wake_attempts (p_startup (w_port w1))) with (u8 (su_wake_attempts (p_startup (w_port w)) + 1))
    by (by rewrite Hw1').
  by apply HQ.
Qed.

(** The next rate of the scan. *)
Lemma next_attempt now timed w :
  establishing (w_port w) →
  cfg_auto_baudrate config && (su_baudrate_index (p_startup (w_port w)) <? 2) = true →
  wp (iolink_master_establish_attempt_failed now timed) (fun ret w' =>
    attempt_outcome (w_port w) ret (w_port w') ∧ frames (w_io w') = frames (w_io w)) w.
Proof.
  intros [Hok Hst Hstep Hwake] Hrate. unfold iolink_master_establish_attempt_failed. cbv zeta.
  change (u8 (zlen g_iolink_master_baudrate_scan - 1)) with 2.
  apply wp_bind, wp_zoom, wp_assign, wp_bind, wp_gets. cbn. rewrite (ok_config _ _ _ Hok), Hrate. norm_bool.
  eapply wp_mono; [apply next_rate_outcome; try done|done].
  split; cbn; [by apply ok_set_awaiting|done..].
Qed.

Lemma attempt_failed_outcome now timed w :
  establishing (w_port w) → wake_requests ≤ 255 →
  wp (iolink_master_establish_attempt_failed now timed) (fun ret w' =>
    attempt_outcome (w_port w) ret (w_port w') ∧ frames (w_io w') = frames (w_io w)) w.
Proof.
  intros [Hok Hst Hstep Hwake] Hlim. pose proof (ok_baudrate_index _ _ _ Hok) as Hi.
  pose proof (ok_on_link _ _ _ Hok) as Hl. pose proof (ok_config _ _ _ Hok) as Hc.
  destruct (cfg_auto_baudrate config && (su_baudrate_index (p_startup (w_port w)) <? 2)) eqn:Hrate.
  { by apply next_attempt. }
  assert (attempts (w_port w) + 1 = (su_wake_attempts (p_startup (w_port w)) + 1) * rates) as Ha.
  { unfold attempts, rates. destruct (cfg_auto_baudrate config); [|lia]. cbn in Hrate. norm_bool. lia. }
  assert (0 < rates) as Hr by (unfold rates; destruct (cfg_auto_baudrate config); lia).
  apply count_attempt; [done..|]. intros w1 Hw1 Hf1. rewrite u8_small by (unfold is_u8; lia).
  unfold attempt_outcome. cbv zeta. rewrite Ha. apply wp_if; intros Hle; norm_bool.
  - apply wp_bind. unfold startup_goto. apply wp_zoom, wp_zoom, wp_assign, wp_bind, arm_gate_wp.
    intros t v. apply wp_ret. cbn. rewrite Hw1. unfold attempt_counted. cbn. rewrite u8_small by (unfold is_u8; lia).
    destruct (Z.ltb_spec ((su_wake_attempts (p_startup (w_port w)) + 1) * rates) (rates * wake_requests)); [|nia].
    rewrite Z.mod_mul by lia. unfold attempts. cbn. split_and!; try done; try lia.
    destruct (cfg_auto_baudrate config); lia.
  - eapply wp_mono; [apply sequence_failed_outcome; unfold on_link; by rewrite Hw1|].
    intros ret w2 (-> & Hf2 & Hst2 & Haw2 & Hwa2 & Hi2 & Hs2 & Hd2). rewrite Hw1 in *. cbn in *.
    destruct (Z.ltb_spec ((su_wake_attempts (p_startup (w_port w)) + 1) * rates) (rates * wake_requests)); [nia|].
    split_and!; [congruence..| |done|congruence|congruence].
    unfold attempts. rewrite Hwa2, Hi2. destruct (cfg_auto_baudrate config); lia.
Qed.

(** The retry counter is an octet, and no octet exceeds a configured limit of 255: with
    that limit no failed attempt ends the establish sequence. Every one is answered PENDING
    and leaves the port establishing, so the sequence is repeated for ever and never
    reported as failed. *)
Theorem retry_limit_255_never_reached now timed w :
  establishing (w_port w) → cfg_wake_retry_limit config = 255 →
  wp (iolink_master_establish_attempt_failed now timed) (fun ret w' => ret = IOLINK_MASTER_STATUS_PENDING ∧
    establishing (w_port w')) w.
Proof.
  intros Hest H255. pose proof Hest as [Hok Hst Hstep Hwake]. pose proof (ok_baudrate_index _ _ _ Hok) as Hi.
  assert (wake_requests = 256) as Hreq by (unfold wake_requests; by rewrite H255).
  eapply wp_mono.
  { apply wp_and; [by apply (establish_attempt_failed_safe phy config)|].
    instantiate (1 := fun ret w' => ret = IOLINK_MASTER_STATUS_PENDING ∧ p_state (w_port w') = IOLINK_MASTER_STATE_STARTUP ∧
      su_step (p_startup (w_port w')) ≠ IOLINK_MASTER_STARTUP_STEP_INACTIVE ∧
      0 ≤ su_wake_attempts (p_startup (w_port w')) < wake_requests).
    destruct (cfg_auto_baudrate config && (su_baudrate_index (p_startup (w_port w)) <? 2)) eqn:Hrate.
    - eapply wp_mono; [by apply next_attempt|]. intros ret w' [(Hs & _ & Ho) _].
      destruct (Z.ltb_spec (attempts (w_port w) + 1) (rates * wake_requests)) as [_|Hge].
      + destruct Ho as (-> & _ & Hw & Hs' & _). split_and!; try done; try lia. rewrite Hs'. by case_match.
      + unfold attempts, rates in Hge. norm_bool. rewrite Hreq in *. destruct (cfg_auto_baudrate config); [lia|done].
    - apply count_attempt; [by apply ok_on_link|done..|]. intros w1 Hw1 Hf1. rewrite Hreq.
      pose proof (u8_range (su_wake_attempts (p_startup (w_port w)) + 1)) as Hu.
      rewrite (proj2 (Z.leb_le _ _)) by (unfold is_u8 in Hu; lia).
      apply wp_bind. unfold startup_goto. apply wp_zoom, wp_zoom, wp_assign, wp_bind, arm_gate_wp.
      intros t v. apply wp_ret. cbn. rewrite Hw1. unfold is_u8 in Hu. cbn. split_and!; done || lia. }
  intros ret w' (Hok' & -> & Hs & Hstep' & Hw). by split.
Qed.

(** What the transmitter puts on the line at a step of the start-up, and the next step. *)
Definition step_request (step : iolink_master_startup_step_t) : list (list Z) :=
  match step with
  | IOLINK_MASTER_STARTUP_STEP_WAKE => [[IOLINK_MASTER_WAKEUP_BYTE]]
  | IOLINK_MASTER_STARTUP_STEP_SEND_TYPE0 => [test_message]
  | _ => []
  end.
Definition step_after (step : iolink_master_startup_step_t) : iolink_master_startup_step_t :=
  match step with
  | IOLINK_MASTER_STARTUP_STEP_WAKE => IOLINK_MASTER_STARTUP_STEP_SEND_TYPE0
  | IOLINK_MASTER_STARTUP_STEP_SEND_TYPE0 => IOLINK_MASTER_STARTUP_STEP_AWAIT_RESPONSE
  | step => step
  end.

(** The attempt is the same. *)
Definition attempt_continues p p' : Prop :=
  establishing p' ∧ attempts p' = attempts p ∧
  diag_establish_failures (p_diagnostics p') = diag_establish_failures (p_diagnostics p).

#[local] Instance request_observer : Observer request_of.
Proof. by split. Qed.

(** A transmission between two attempts. *)
Lemma process_establishing w :
  establishing (w_port w) →
  wp (iolink_master_process PTR) (fun _ w' => attempt_continues (w_port w) (w_port w') ∧
    su_step (p_startup (w_port w')) = step_after (su_step (p_startup (w_port w))) ∧
    on_wire w' = on_wire w ++ step_request (su_step (p_startup (w_port w)))) w.
Proof.
  intros He. pose proof He as [Hok Hst Hstep Hwake]. set (step := su_step (p_startup (w_port w))) in *.
  eapply wp_mono.
  { apply wp_and; [by apply (process_at_safe phy config Hcfg PTR 0 false)|].
    instantiate (1 := fun _ w' => same_attempt (w_port w) (w_port w') ∧
      su_step (p_startup (w_port w')) = step_after step ∧ on_wire w' = on_wire w ++ step_request step).
    unfold iolink_master_process_at. cbn [ptr_null andb]. apply wp_bind, wp_gets.
    rewrite (ok_phy _ _ _ Hok), (carrier_ptr _ _ _ _ (coop_carrier phy config Hcoop)), Hst.
    eapply wp_mono.
    { apply (process_startup_carried phy config _ _ (seen_carrier phy config Hcoop request_of) 0 false
        (fun _ tr' => omap request_of tr' = on_wire w ++ step_request step) w Hok Hstep).
      - unfold step. intros -> tr' ->. by destruct (cfg_wake_up config).
      - unfold step. by intros -> tr' ->.
      - unfold step. intros H1 H2. destruct (su_step (p_startup (w_port w))); by rewrite ?app_nil_r. }
    intros ? w' (Hs & _ & Hst' & Hw'). split; [exact Hs|]. split; [|exact Hw'].
    rewrite Hst'. unfold step. by destruct (su_step (p_startup (w_port w))). }
  intros ? w' (Hok' & (Hst' & Hc' & Hp' & Hi' & Hw' & Hd' & _ & _ & _ & Hs') & Hstep' & Hwire).
  split; [|done]. split; [split; [done|congruence|auto|by rewrite Hw']|].
  unfold attempts. by rewrite Hi', Hw', Hd'.
Qed.

(** A failed attempt. *)
Lemma timeout_establishing now timed w :
  establishing (w_port w) → wake_requests ≤ 255 →
  wp (iolink_master_on_timeout_at PTR now timed) (fun ret w' =>
    attempt_outcome (w_port w) ret (w_port w') ∧ frames (w_io w') = frames (w_io w) ∧
    ok (w_port w')) w.
Proof.
  intros He Hlim. pose proof He as [Hok Hst Hstep Hwake].
  eapply wp_mono.
  { apply wp_and; [by apply (on_timeout_at_safe phy config)|].
    instantiate (1 := fun ret w' => attempt_outcome (w_port w) ret (w_port w') ∧
      frames (w_io w') = frames (w_io w)).
    unfold iolink_master_on_timeout_at. cbn [ptr_null].
    apply wp_bind. eapply wp_mono; [apply (flush_rx_coop phy config (cooperative_obliging phy config Hcoop)); by apply ok_on_link|].
    intros ret w1 (-> & Hw1 & Hf1). cbn [negb Z.eqb IOLINK_MASTER_STATUS_OK].
    assert (establishing (w_port w1)) as He1.
    { rewrite Hw1. split; [by apply ok_set_rx_empty|done..]. }
    apply wp_bind, wp_gets. destruct He1 as [Hok1 Hst1 Hstep1 Hwake1].
    rewrite Hst1, (ok_phy _ _ _ Hok1). rewrite (bool_decide_true (IOLINK_MASTER_STATE_STARTUP = _)) by done.
    cbn [negb null]. rewrite bool_decide_false by done.
    eapply wp_mono; [apply attempt_failed_outcome; [by split|done]|].
    intros ret w2 [Ho Hf2]. split; [by rewrite Hw1 in Ho|congruence]. }
  intros ret w' (Hok' & Ho & Hf). done.
Qed.

(** The response timeout itself puts nothing on the line. *)
Lemma unseen_call {A} (f : list io → A) entry : (∀ a, request_of (entry a) = None) → keeps on_wire (call f entry).
Proof. intros He w a w' [= _ <-]. unfold on_wire. cbn. rewrite seen_app. cbn. by rewrite He, app_nil_r. Qed.
Lemma unseen_emit entry : request_of entry = None → keeps on_wire (emit entry).
Proof. intros He w a w' H. injection H as _ <-. unfold on_wire. cbn. rewrite seen_app. cbn. by rewrite He, app_nil_r. Qed.
#[local] Hint Extern 2 (keeps on_wire (call _ _)) => apply unseen_call; done : keeps.
#[local] Hint Extern 2 (keeps on_wire (emit _)) => apply unseen_emit; done : keeps.

Lemma on_timeout_unseen now timed : keeps on_wire (iolink_master_on_timeout_at PTR now timed).
Proof. keeps_deep. Qed.

Fixpoint processes (n : nat) : M world unit :=
  match n with O => mret tt | S n => iolink_master_process PTR;; processes n end.

(** An attempt that nobody answers: some transmissions, then the response timeout. *)
Definition unanswered (n : nat) : M world Z :=
  processes n;; iolink_master_on_timeout PTR.

Fixpoint unanswered_run (ns : list nat) : M world (list Z) :=
  match ns with
  | [] => mret []
  | n :: ns => ret ← unanswered n; rets ← unanswered_run ns; mret (ret :: rets)
  end.

(** The requests of the attempt that begins at [step]. *)
Definition attempt_requests (step : iolink_master_startup_step_t) : list (list Z) :=
  (if step =e IOLINK_MASTER_STARTUP_STEP_WAKE then [[IOLINK_MASTER_WAKEUP_BYTE]] else []) ++ [test_message].

(** The step at which the attempt after [a] failed ones begins. *)
Definition first_step (a : Z) : iolink_master_startup_step_t :=
  if a mod rates =? 0 then IOLINK_MASTER_STARTUP_STEP_WAKE else IOLINK_MASTER_STARTUP_STEP_SEND_TYPE0.

Lemma processes_waiting n w :
  establishing (w_port w) → su_step (p_startup (w_port w)) = IOLINK_MASTER_STARTUP_STEP_AWAIT_RESPONSE →
  wp (processes n) (fun _ w' => attempt_continues (w_port w) (w_port w') ∧ on_wire w' = on_wire w) w.
Proof.
  revert w. induction n as [|n IH]; intros w Hw Hs; [by apply wp_ret|].
  apply wp_bind. eapply wp_mono; [by apply process_establishing|].
  intros ? w1 ((H1 & Ha & Hd) & Hs1 & Hw1). rewrite Hs in Hs1, Hw1. cbn in Hs1, Hw1. rewrite app_nil_r in Hw1.
  eapply wp_mono; [by apply IH|]. intros ? w2 ((H2 & Ha2 & Hd2) & Hw2).
  split; [|congruence]. split; [done|]. by rewrite Ha2, Hd2.
Qed.

Lemma processes_attempt n step w :
  establishing (w_port w) → (2 ≤ n)%nat → su_step (p_startup (w_port w)) = step →
  step = IOLINK_MASTER_STARTUP_STEP_WAKE ∨ step = IOLINK_MASTER_STARTUP_STEP_SEND_TYPE0 →
  wp (processes n) (fun _ w' => attempt_continues (w_port w) (w_port w') ∧
    on_wire w' = on_wire w ++ attempt_requests step) w.
Proof.
  intros Hw Hn <- Hstep. destruct n as [|[|n]]; [lia|lia|].
  apply wp_bind. eapply wp_mono; [by apply process_establishing|].
  intros ? w1 ((H1 & Ha1 & Hd1) & Hs1 & Hw1). destruct Hstep as [Hs|Hs]; rewrite Hs in *; cbn in Hs1, Hw1.
  - apply wp_bind. eapply wp_mono; [by apply process_establishing|].
    intros ? w2 ((H2 & Ha2 & Hd2) & Hs2 & Hw2). rewrite Hs1 in Hs2, Hw2. cbn in Hs2, Hw2.
    eapply wp_mono; [by apply processes_waiting|]. intros ? w3 ((H3 & Ha3 & Hd3) & Hw3).
    split; [split; [done|by rewrite Ha3, Ha2, Hd3, Hd2]|]. by rewrite Hw3, Hw2, Hw1, <- app_assoc.
  - eapply wp_mono; [by apply (processes_waiting (S n))|]. intros ? w3 ((H3 & Ha3 & Hd3) & Hw3).
    split; [split; [done|by rewrite Ha3, Hd3]|]. by rewrite Hw3, Hw1.
Qed.

Lemma unanswered_outcome n w :
  establishing (w_port w) → wake_requests ≤ 255 → (2 ≤ n)%nat →
  su_step (p_startup (w_port w)) = first_step (attempts (w_port w)) →
  wp (unanswered n) (fun ret w' => attempt_outcome (w_port w) ret (w_port w') ∧ ok (w_port w') ∧
    on_wire w' = on_wire w ++ attempt_requests (first_step (attempts (w_port w)))) w.
Proof.
  intros Hw Hlim Hn Hs. apply wp_bind. eapply wp_mono.
  { apply (processes_attempt n _ w Hw Hn Hs). unfold first_step. case_match; auto. }
  intros ? w1 ((H1 & Ha & Hd) & Hw1). eapply wp_mono.
  { apply (wp_keeps on_wire); [by apply timeout_establishing|apply on_timeout_unseen]. }
  intros ret w2 [(Ho & _ & Hok) Hw2]. unfold attempt_outcome in *. rewrite Ha, Hd in Ho.
  split; [done|]. split; [done|]. congruence.
Qed.

(** The requests of [n] attempts after [a] failed ones. *)
Fixpoint requests_from (a : Z) (n : nat) : list (list Z) :=
  match n with
  | O => []
  | S n => attempt_requests (first_step a) ++ requests_from (a + 1) n
  end.

Lemma unanswered_sequence ns w :
  establishing (w_port w) → wake_requests ≤ 255 → ns ≠ [] → Forall (fun n => 2 ≤ n)%nat ns →
  su_step (p_startup (w_port w)) = first_step (attempts (w_port w)) →
  attempts (w_port w) + zlen ns = rates * wake_requests →
  wp (unanswered_run ns) (fun rets w' =>
    rets = replicate (length ns - 1) IOLINK_MASTER_STATUS_PENDING ++ [IOLINK_MASTER_ERR_RETRY_LIMIT] ∧
    on_wire w' = on_wire w ++ requests_from (attempts (w_port w)) (length ns) ∧
    p_state (w_port w') = IOLINK_MASTER_STATE_STARTUP ∧
    su_step (p_startup (w_port w')) = IOLINK_MASTER_STARTUP_STEP_INACTIVE ∧
    attempts (w_port w') = 0 ∧
    diag_establish_failures (p_diagnostics (w_port w')) =
      u32 (diag_establish_failures (p_diagnostics (w_port w)) + 1)) w.
Proof.
  intros Hw Hlim Hne Hns. revert w Hw. induction Hns as [|n ns Hn _ IH]; intros w Hw Hs Hlen; [done|].
  apply wp_bind. eapply wp_mono; [by apply unanswered_outcome|].
  intros ret w1 ((Hst & _ & Ho) & Hok & Hw1). rewrite zlen_cons in Hlen.
  destruct ns as [|n2 ns].
  - rewrite zlen_nil in Hlen. destruct (Z.ltb_spec (attempts (w_port w) + 1) (rates * wake_requests)); [lia|].
    destruct Ho as (-> & ? & ? & ?). apply wp_bind, wp_ret, wp_ret. cbn. by rewrite app_nil_r.
  - pose proof (zlen_nonneg ns). rewrite zlen_cons in Hlen.
    destruct (Z.ltb_spec (attempts (w_port w) + 1) (rates * wake_requests)); [|lia].
    destruct Ho as (-> & Ha & Hwa & Hs1 & Hd).
    apply wp_bind. eapply wp_mono.
    { apply IH; [done|split; try done; rewrite Hs1; by case_match|by rewrite Ha|rewrite zlen_cons; lia]. }
    intros rets w2 (-> & Hw2 & ? & ? & ? & Hd2). apply wp_ret. rewrite Hd in Hd2. rewrite Ha, Hw1, <- app_assoc in Hw2.
    split; [|done]. simpl. by rewrite Nat.sub_0_r.
Qed.

(** A wake-up request and the test message at every rate. *)
Definition wake_up_sequence : list (list Z) :=
  [IOLINK_MASTER_WAKEUP_BYTE] :: replicate (Z.to_nat rates) test_message.

Lemma first_step_within m i : 0 ≤ i < rates →
  first_step (rates * m + i) =
    if i =? 0 then IOLINK_MASTER_STARTUP_STEP_WAKE else IOLINK_MASTER_STARTUP_STEP_SEND_TYPE0.
Proof. intros Hi. unfold first_step. by rewrite Z.add_comm, Z.mul_comm, Z_mod_plus_full, Z.mod_small by lia. Qed.

Lemma requests_of_sequence k m :
  requests_from (rates * m) (Z.to_nat rates * k) = concat (replicate k wake_up_sequence).
Proof.
  revert m. induction k as [|k IH]; intros m; [by rewrite Nat.mul_0_r|].
  cbn [replicate concat]. rewrite <- (IH (m + 1)), Nat.mul_succ_r, Nat.add_comm, Z.mul_add_distr_l, Z.mul_1_r.
  pose proof (first_step_within m 0) as H0. rewrite Z.add_0_r in H0.
  pose proof (first_step_within m 1) as H1. pose proof (first_step_within m 2) as H2.
  unfold wake_up_sequence. unfold rates in *. destruct (cfg_auto_baudrate config).
  - change (Z.to_nat 3) with 3%nat. cbn [Nat.add requests_from replicate].
    replace (3 * m + 1 + 1) with (3 * m + 2) by lia. replace (3 * m + 2 + 1) with (3 * m + 3) by lia.
    by rewrite H0, H1, H2 by lia.
  - change (Z.to_nat 1) with 1%nat. cbn [Nat.add requests_from replicate]. by rewrite H0 by lia.
Qed.
End attempts.

(** ** Loss of communication *)

(** A request without a valid reply: the response timeout, or a reply with a wrong
    checksum. *)
Inductive link_failure : Type :=
| NoReply (now_100us : Z) (timed : bool)
| GarbledReply (data : list Z) (len : Z).

Section lost.
Context {IO : Iolinki} {laws : IolinkiLaws IO}.
Context (phy : iolink_phy_api_t) (config : iolink_master_config_t) (Hcfg : config_ok config)
  (Hobl : obliging config).
Notation ok := (port_ok phy config).
Implicit Types (p : iolink_master_port_state_t) (w : world).

Definition failure_run (f : link_failure) : M world Z :=
  match f with
  | NoReply now timed => iolink_master_on_timeout_at PTR now timed
  | GarbledReply data len => iolink_master_on_rx PTR (Some data) len
  end.

Fixpoint failures_run (fs : list link_failure) : M world unit :=
  match fs with [] => mret tt | f :: fs => failure_run f;; failures_run fs end.

(** The frame in [data] has the layout the port expects and a wrong checksum. *)
Definition fails_checksum p (f : link_failure) : Prop :=
  match f with
  | NoReply _ _ => True
  | GarbledReply data len =>
      Forall is_u8 data ∧ 1 ≤ len ≤ zlen data ∧
      if type0_operate p then len = 2 ∧ iolink_master_type0_reply_ok data = Some false
      else ∃ frame resp, slice data 0 len = Some frame ∧
        iolink_frame_decode_operate_response frame (cfg_pd_in_len (p_config p))
          (if p_rx_od_expected p then p_od_len p else 0) = Some resp ∧
        resp_checksum_ok resp = false
  end.

(** What a failure does not touch. *)
Definition same_exchange p p' : Prop :=
  p_config p' = p_config p ∧ p_pd_out_len p' = p_pd_out_len p ∧ p_od_len p' = p_od_len p ∧
  p_rx_od_expected p' = p_rx_od_expected p ∧ p_pd_in p' = p_pd_in p ∧
  p_pd_in_len p' = p_pd_in_len p ∧ p_pd_valid p' = p_pd_valid p.

(** One failure after [r] failures in a row. *)
Definition failure_outcome (r : Z) p p' : Prop :=
  same_exchange p p' ∧
  if r <? IOLINK_MASTER_RX_RETRY_LIMIT then
    p_state p' = IOLINK_MASTER_STATE_OPERATE ∧ diag_rx_retry_count (p_diagnostics p') = r + 1
  else
    p_state p' = IOLINK_MASTER_STATE_STARTUP ∧ diag_rx_retry_count (p_diagnostics p') = 0 ∧
    su_step (p_startup p') = IOLINK_MASTER_STARTUP_STEP_WAKE ∧
    su_wake_attempts (p_startup p') = 0 ∧ p_awaiting_response p' = false.

Lemma restart_establish_coop now timed w : ok (w_port w) →
  wp (iolink_master_restart_establish now timed) (fun ret w' =>
    ret = IOLINK_MASTER_STATUS_PENDING ∧ frames (w_io w') = frames (w_io w) ∧
    failure_outcome IOLINK_MASTER_RX_RETRY_LIMIT (w_port w) (w_port w')) w.
Proof.
  intros Hok. unfold iolink_master_restart_establish, goto, startup_goto.
  apply wp_bind, wp_zoom, wp_assign, wp_bind, wp_zoom, wp_zoom, wp_assign, wp_bind, wp_zoom,
    wp_bind, wp_zoom, wp_assign, wp_bind, wp_zoom, wp_assign, wp_assign, wp_bind.
  eapply wp_mono.
  { apply (rates_scan phy config Hobl); [by destruct Hok|].
    pose proof (ok_baudrate_index _ _ _ Hok). cbn. lia. }
  intros ret w1 (-> & Hf & Hw1). cbn [negb Z.eqb IOLINK_MASTER_STATUS_OK].
  apply wp_bind, wp_gets, wp_bind, arm_gate_wp. intros t v. apply wp_ret.
  split; [done|]. split; [done|]. cbn. rewrite Hw1.
  by destruct (cfg_auto_baudrate config).
Qed.

Lemma checksum_failed_coop w : ok (w_port w) → p_state (w_port w) = IOLINK_MASTER_STATE_OPERATE →
  0 ≤ diag_rx_retry_count (p_diagnostics (w_port w)) ≤ IOLINK_MASTER_RX_RETRY_LIMIT →
  wp checksum_failed (fun ret w' => ret = IOLINK_MASTER_ERR_CHECKSUM ∧ frames (w_io w') = frames (w_io w) ∧
    failure_outcome (diag_rx_retry_count (p_diagnostics (w_port w))) (w_port w) (w_port w')) w.
Proof.
  unfold IOLINK_MASTER_RX_RETRY_LIMIT. intros Hok Hst Hr.
  unfold checksum_failed, count_up. apply wp_bind, wp_zoom, wp_zoom, wp_bind, wp_get, wp_assign, wp_bind, wp_gets.
  cbn. unfold failure_outcome, IOLINK_MASTER_RX_RETRY_LIMIT.
  destruct (Z.ltb_spec (diag_rx_retry_count (p_diagnostics (w_port w))) 2) as [Hlt|Hge].
  - apply wp_bind, wp_zoom, wp_zoom, wp_assign, wp_ret. cbn. rewrite u8_small by (unfold is_u8; lia).
    by split_and!.
  - apply wp_bind, wp_bind. eapply wp_mono; [apply restart_establish_coop|].
    { by apply ok_set_diagnostics. }
    intros ret w' (-> & Hf & Ho). apply wp_ret, wp_ret. split; [done|]. split; [exact Hf|exact Ho].
Qed.

Lemma timeout_coop now timed w : ok (w_port w) → p_state (w_port w) = IOLINK_MASTER_STATE_OPERATE →
  0 ≤ diag_rx_retry_count (p_diagnostics (w_port w)) ≤ IOLINK_MASTER_RX_RETRY_LIMIT →
  wp (iolink_master_on_timeout_at PTR now timed) (fun ret w' => frames (w_io w') = frames (w_io w) ∧
    failure_outcome (diag_rx_retry_count (p_diagnostics (w_port w))) (w_port w) (w_port w')) w.
Proof.
  unfold IOLINK_MASTER_RX_RETRY_LIMIT. intros Hok Hst Hr.
  unfold iolink_master_on_timeout_at. cbn [ptr_null].
  apply wp_bind. eapply wp_mono; [apply (flush_rx_coop phy config Hobl); by destruct Hok|].
  intros ret w1 (-> & Hw1 & Hf1). cbn [negb Z.eqb IOLINK_MASTER_STATUS_OK].
  apply wp_bind, wp_gets. rewrite Hw1. cbn. rewrite Hst.
  unfold failure_outcome, IOLINK_MASTER_RX_RETRY_LIMIT, count_up. cbn.
  apply wp_bind, wp_zoom, wp_zoom, wp_bind, wp_get, wp_assign.
  destruct (Z.ltb_spec (diag_rx_retry_count (p_diagnostics (w_port w))) 2) as [Hlt|Hge].
  - apply wp_bind, wp_zoom, wp_zoom, wp_assign, wp_ret. cbn. rewrite Hw1.
    rewrite u8_small by (unfold is_u8; lia). by split_and!.
  - eapply wp_mono; [apply restart_establish_coop|].
    { cbn. rewrite Hw1. by apply ok_set_diagnostics, ok_set_rx_empty. }
    intros ret w' (-> & Hf & Ho). split; [by etransitivity; [exact Hf|exact Hf1]|].
    unfold failure_outcome in Ho. cbn in Ho. by rewrite Hw1 in Ho.
Qed.

(** One failure, of either kind. *)
Lemma failure_coop f w : ok (w_port w) → p_state (w_port w) = IOLINK_MASTER_STATE_OPERATE →
  0 ≤ diag_rx_retry_count (p_diagnostics (w_port w)) ≤ IOLINK_MASTER_RX_RETRY_LIMIT →
  fails_checksum (w_port w) f →
  wp (failure_run f) (fun _ w' => ok (w_port w') ∧ frames (w_io w') = frames (w_io w) ∧
    failure_outcome (diag_rx_retry_count (p_diagnostics (w_port w))) (w_port w) (w_port w')) w.
Proof.
  intros Hok Hst Hr Hf. destruct f as [now timed|data len]; cbn [failure_run].
  - apply wp_and; [by apply (on_timeout_at_safe phy config)|by apply timeout_coop].
  - destruct Hf as (Hu & Hlen & Hf). apply wp_and.
    { eapply wp_mono; [by apply (on_rx_rx phy config Hcfg (fun _ => 0%nat) ltac:(done) data len Hu Hlen)|].
      by intros ? w' [Hw' _]. }
    unfold iolink_master_on_rx. cbn [ptr_null orb].
    destruct (Z.eqb_spec len 0); [lia|]. apply wp_bind, wp_gets. rewrite Hst.
    rewrite !bool_decide_false by done. cbn [andb orb]. rewrite bool_decide_true by done. cbn [andb].
    destruct (type0_operate (w_port w)).
    + destruct Hf as [-> Hd]. unfold on_rx_type0. rewrite law_type0_len. cbn [negb Z.eqb Pos.eqb].
      apply wp_bind. eapply wp_mem; [exact Hd|].
      eapply wp_mono; [by apply checksum_failed_coop|]. by intros ? w' [_ ?].
    + destruct Hf as (frame & resp & Hs & Hd & Hc). unfold on_rx_operate.
      apply wp_bind, wp_gets, wp_bind. eapply wp_mem; [exact Hs|]. rewrite Hd, Hc. cbn [negb].
      eapply wp_mono; [by apply checksum_failed_coop|]. by intros ? w' [_ ?].
Qed.

Lemma fails_checksum_same p p' f : same_exchange p p' → fails_checksum p f → fails_checksum p' f.
Proof.
  intros (Hc & Hpd & Hod & Hexp & _). destruct f as [|data len]; [done|]. cbn.
  unfold type0_operate. by rewrite Hc, Hpd, Hod, Hexp.
Qed.

Lemma same_exchange_trans p1 p2 p3 : same_exchange p1 p2 → same_exchange p2 p3 → same_exchange p1 p3.
Proof. unfold same_exchange. naive_solver congruence. Qed.

Lemma failures_coop fs w :
  ok (w_port w) → p_state (w_port w) = IOLINK_MASTER_STATE_OPERATE →
  0 ≤ diag_rx_retry_count (p_diagnostics (w_port w)) →
  diag_rx_retry_count (p_diagnostics (w_port w)) + zlen fs ≤ 3 →
  Forall (fails_checksum (w_port w)) fs →
  wp (failures_run fs) (fun _ w' => frames (w_io w') = frames (w_io w) ∧
    same_exchange (w_port w) (w_port w') ∧
    if diag_rx_retry_count (p_diagnostics (w_port w)) + zlen fs <=? IOLINK_MASTER_RX_RETRY_LIMIT
    then p_state (w_port w') = IOLINK_MASTER_STATE_OPERATE ∧
      diag_rx_retry_count (p_diagnostics (w_port w')) =
        diag_rx_retry_count (p_diagnostics (w_port w)) + zlen fs
    else fs ≠ [] → p_state (w_port w') = IOLINK_MASTER_STATE_STARTUP ∧
      su_step (p_startup (w_port w')) = IOLINK_MASTER_STARTUP_STEP_WAKE ∧
      diag_rx_retry_count (p_diagnostics (w_port w')) = 0) w.
Proof.
  unfold IOLINK_MASTER_RX_RETRY_LIMIT.
  revert w. induction fs as [|f fs IH]; intros w Hok Hst Hr Hl Hfs.
  - apply wp_ret. rewrite zlen_nil, Z.add_0_r. split; [done|]. split; [done|]. by destruct (_ <=? _).
  - apply Forall_cons_1 in Hfs as [Hf Hfs]. rewrite zlen_cons in *. pose proof (zlen_nonneg fs).
    apply wp_bind. eapply wp_mono; [apply failure_coop; unfold IOLINK_MASTER_RX_RETRY_LIMIT; done || lia|].
    intros ? w1 (Hok1 & Hf1 & Hsame & Ho). unfold IOLINK_MASTER_RX_RETRY_LIMIT in Ho.
    destruct (Z.ltb_spec (diag_rx_retry_count (p_diagnostics (w_port w))) 2) as [Hlt|Hge].
    + destruct Ho as [Hst1 Hr1]. eapply wp_mono.
      { apply IH; [done..|lia|lia|]. revert Hfs. apply Forall_impl.
        intros f' Hf'. exact (fails_checksum_same _ _ _ Hsame Hf'). }
      intros ? w2 (Hf2 & Hs2 & Ho2). rewrite Hr1 in Ho2. split; [congruence|].
      split; [by eapply same_exchange_trans|].
      replace (diag_rx_retry_count (p_diagnostics (w_port w)) + (1 + zlen fs))
        with (diag_rx_retry_count (p_diagnostics (w_port w)) + 1 + zlen fs) by lia.
      destruct (Z.leb_spec (diag_rx_retry_count (p_diagnostics (w_port w)) + 1 + zlen fs) 2); [done|].
      intros _. apply Ho2. intros ->. rewrite zlen_nil in *. lia.
    + assert (fs = []) as -> by (apply nil_zlen; lia). apply wp_ret. rewrite zlen_nil.
      destruct Ho as (? & ? & ? & _). split; [done|]. split; [done|].
      destruct (Z.leb_spec (diag_rx_retry_count (p_diagnostics (w_port w)) + (1 + 0)) 2); [lia|done].
Qed.
End lost.

(** ** Start-up of a port *)

Section startup.
Context {IO : Iolinki} {laws : IolinkiLaws IO}.
Context (phy : iolink_phy_api_t) (config : iolink_master_config_t) (Hcfg : config_ok config)
  (Hcoop : cooperative phy config).
Notation ok := (port_ok phy config).
Implicit Types (p : iolink_master_port_state_t) (w : world).

(** A valid reply to the test message. *)
Lemma on_rx_startup_valid w data min cks :
  p_state (w_port w) = IOLINK_MASTER_STATE_STARTUP →
  su_step (p_startup (w_port w)) = IOLINK_MASTER_STARTUP_STEP_AWAIT_RESPONSE →
  rd data 0 = Some min → rd data 1 = Some cks →
  iolink_checksum6 [min; u8 (Z.land cks 0xC0)] = u8 (Z.land cks 0x3F) →
  wp (iolink_master_on_rx PTR (Some data) 2) (fun ret w' => ret = 0 ∧ w_io w' = w_io w ∧
    p_state (w_port w') = IOLINK_MASTER_STATE_PREOPERATE ∧
    p_isdu (w_port w') = p_isdu (w_port w) ∧ p_event (w_port w') = p_event (w_port w) ∧
    p_rx (w_port w') = p_rx (w_port w) ∧
    su_step (p_startup (w_port w')) = su_step (p_startup (w_port w)) ∧
    p_awaiting_response (w_port w') = false ∧
    di_min_cycle_time (p_device_info (w_port w')) = min) w.
Proof.
  intros Hst Hstep H0 H1 Hcks. unfold iolink_master_on_rx. cbn [ptr_null orb Z.eqb].
  apply wp_bind, wp_gets. rewrite Hst. rewrite bool_decide_true by done.
  unfold on_rx_startup. apply wp_bind, wp_gets. rewrite Hstep, bool_decide_true by done. cbn [negb].
  rewrite law_type0_len. cbn [Z.eqb Pos.eqb negb]. apply wp_bind.
  eapply wp_mem.
  { unfold iolink_master_type0_reply_ok. rewrite H0, H1. cbn [mbind option_bind]. by rewrite Hcks, Z.eqb_refl. }
  cbn [negb]. unfold goto. rewrite H0. by do 5 (cbn; split_and?).
Qed.

(** A valid acknowledgement. *)
Lemma on_rx_ack_valid w data cks :
  p_state (w_port w) = IOLINK_MASTER_STATE_PREOPERATE →
  su_step (p_startup (w_port w)) = IOLINK_MASTER_STARTUP_STEP_AWAIT_OPERATE_ACK →
  rd data 0 = Some cks → cks_valid cks = true →
  wp (iolink_master_on_rx PTR (Some data) 1) (fun ret w' => ret = 0 ∧ w_io w' = w_io w ∧
    p_state (w_port w') = IOLINK_MASTER_STATE_OPERATE ∧
    p_isdu (w_port w') = p_isdu (w_port w) ∧ p_event (w_port w') = p_event (w_port w) ∧
    p_rx (w_port w') = p_rx (w_port w) ∧ p_awaiting_response (w_port w') = false ∧
    p_device_info (w_port w') = p_device_info (w_port w)) w.
Proof.
  intros Hst Hstep H0 Hcks. unfold iolink_master_on_rx. cbn [ptr_null orb Z.eqb].
  apply wp_bind, wp_gets. rewrite Hst, Hstep.
  rewrite bool_decide_false by done. rewrite !bool_decide_true by done. cbn [andb].
  unfold on_rx_operate_ack. apply wp_bind. eapply (wp_mem _ _ _ cks); [done|].
  cbv zeta. cbn [Z.eqb Pos.eqb negb]. unfold cks_valid in Hcks. rewrite Hcks. cbn [negb].
  unfold goto, reply_accepted. by do 5 (cbn; split_and?).
Qed.

Lemma init_coop w :
  cfg_port_mode config = IOLINK_MASTER_PORT_MODE_IOLINK →
  wp (iolink_master_init PTR (Some phy) (Some config)) (fun ret w' => ret = 0 ∧
    silent w (port_initial phy config) w') w.
Proof.
  intros Hmode. unfold iolink_master_init. rewrite (cfg_accepted _ Hcfg). cbn [ptr_null orb].
  apply wp_bind, wp_assign. rewrite Hmode, !bool_decide_false by done. cbn [orb].
  unfold or_fail. apply wp_bind.
  eapply (wp_mono _ (fun ret w1 => ret = 0 ∧ silent w (port_initial phy config) w1)).
  { unfold phy_initialise. destruct (phy_init phy) as [f|] eqn:Hf; [|by apply wp_ret].
    unfold call. wp_steps. rewrite (coop_init _ _ Hcoop f Hf). split; [done|]. split; [done|].
    cbn. by rewrite frames_app, app_nil_r. }
  intros ret w1 (-> & Hw1 & Hf1). cbn [negb Z.eqb IOLINK_MASTER_STATUS_OK].
  assert (on_link phy config w1) as Hl by (unfold on_link; by rewrite Hw1).
  apply wp_bind. eapply wp_mono; [by apply (flush_rx_coop phy config (cooperative_obliging phy config Hcoop))|].
  intros ret w2 (-> & Hw2 & Hf2). cbn [negb Z.eqb].
  assert (w_port w2 = port_initial phy config) as Hp2 by (by rewrite Hw2, Hw1).
  assert (on_link phy config w2) as Hl2 by (unfold on_link; by rewrite Hp2).
  apply wp_bind. eapply wp_mono.
  { apply (set_startup_baudrate_coop phy config (cooperative_obliging phy config Hcoop)); [done|]. by rewrite Hp2. }
  intros ret w3 (-> & Hw3 & Hf3). cbn [negb Z.eqb].
  assert (on_link phy config w3) as Hl3 by (unfold on_link; by rewrite Hw3).
  apply wp_bind. eapply wp_mono; [by apply (set_mode_coop phy config (cooperative_obliging phy config Hcoop))|].
  intros ret w4 (-> & Hw4 & Hf4). apply wp_ret. split; [done|]. split; congruence.
Qed.

(** One step of the start-up from a port that waits for nothing else. *)
Lemma process_step_coop w :
  ok (w_port w) → p_state (w_port w) = IOLINK_MASTER_STATE_STARTUP →
  su_step (p_startup (w_port w)) ≠ IOLINK_MASTER_STARTUP_STEP_INACTIVE →
  wp (iolink_master_process PTR) (fun _ w' => ok (w_port w') ∧ same_attempt (w_port w) (w_port w') ∧
    (su_step (p_startup (w_port w)) = IOLINK_MASTER_STARTUP_STEP_WAKE →
     su_step (p_startup (w_port w')) = IOLINK_MASTER_STARTUP_STEP_SEND_TYPE0 ∧
     frames (w_io w') = frames (w_io w) ++
       (if null (cfg_wake_up config) then [[IOLINK_MASTER_WAKEUP_BYTE]] else [])) ∧
    (su_step (p_startup (w_port w)) = IOLINK_MASTER_STARTUP_STEP_SEND_TYPE0 →
     su_step (p_startup (w_port w')) = IOLINK_MASTER_STARTUP_STEP_AWAIT_RESPONSE ∧
     frames (w_io w') = frames (w_io w) ++ [test_message])) w.
Proof.
  intros Hok Hst Hstep. apply wp_and; [by apply (process_at_safe phy config)|].
  unfold iolink_master_process, iolink_master_process_at. cbn [ptr_null andb]. apply wp_bind, wp_gets.
  rewrite (ok_phy _ _ _ Hok), (carrier_ptr _ _ _ _ (coop_carrier phy config Hcoop)), Hst.
  eapply wp_mono.
  { apply (process_startup_carried phy config _ _ (coop_carrier phy config Hcoop) 0 false
      (fun step tr' => frames tr' = frames (w_io w) ++ match step with
         | IOLINK_MASTER_STARTUP_STEP_SEND_TYPE0 =>
             if null (cfg_wake_up config) then [[IOLINK_MASTER_WAKEUP_BYTE]] else []
         | IOLINK_MASTER_STARTUP_STEP_AWAIT_RESPONSE =>
             if su_step (p_startup (w_port w)) =e IOLINK_MASTER_STARTUP_STEP_SEND_TYPE0
             then [test_message] else []
         | _ => [] end) w Hok Hstep).
    - by intros _ tr' Htr'.
    - intros Hs tr' Htr'. by rewrite Hs.
    - intros H1 H2. rewrite (bool_decide_false _ H2).
      destruct (su_step (p_startup (w_port w))); by rewrite ?app_nil_r. }
  intros ? w' (Hs & _ & Hst' & Hf). split; [done|].
  split; intros Hs0; rewrite Hs0 in *; rewrite Hst' in *; done.
Qed.
End startup.

Section claims.
Context {IO : Iolinki} {laws : IolinkiLaws IO}.

(** C3: establishing communication. With a device that answers, an initialised port goes
    to OPERATE in three transmissions: the wake-up request, the test message (a TYPE_0
    read of MinCycleTime) and, once a valid reply has brought it to PREOPERATE, the
    DeviceOperate write; the valid acknowledgement starts the cyclic exchange, and the
    reply's octet is the minimum cycle time. *)
Theorem startup_reaches_operate phy config min cks ack w :
  config_ok config → cooperative phy config →
  cfg_port_mode config = IOLINK_MASTER_PORT_MODE_IOLINK →
  iolink_master_startup_validation_required config = false →
  is_u8 min → is_u8 cks →
  iolink_checksum6 [min; u8 (Z.land cks 0xC0)] = u8 (Z.land cks 0x3F) → cks_valid ack = true →
  wp (iolink_master_init PTR (Some phy) (Some config);;
      iolink_master_process PTR;;
      iolink_master_process PTR;;
      iolink_master_on_rx PTR (Some [min; cks]) 2;;
      iolink_master_process PTR;;
      iolink_master_on_rx PTR (Some [ack]) 1) (fun ret w' => ret = IOLINK_MASTER_STATUS_OK ∧
    p_state (w_port w') = IOLINK_MASTER_STATE_OPERATE ∧
    di_min_cycle_time (p_device_info (w_port w')) = min ∧
    frames (w_io w') = frames (w_io w) ++
      (if null (cfg_wake_up config) then [[IOLINK_MASTER_WAKEUP_BYTE]] else []) ++
      [test_message; device_operate]) w.
Proof.
  intros Hcfg Hcoop Hmode Hval Hmin Hcks Hc Hack.
  apply wp_bind. eapply wp_mono; [by apply init_coop|]. intros ? w1 (_ & Hw1 & Hf1).
  assert (port_ok phy config (w_port w1)) as Hok1 by (rewrite Hw1; by apply port_initial_ok).
  assert (p_state (w_port w1) = IOLINK_MASTER_STATE_STARTUP) as Hst1.
  { rewrite Hw1. cbn. by rewrite Hmode. }
  assert (su_step (p_startup (w_port w1)) = IOLINK_MASTER_STARTUP_STEP_WAKE) as Hs1 by (by rewrite Hw1).
  assert (no_service (w_port w1)) as Hno1 by (rewrite Hw1; done).
  clear Hw1. apply wp_bind. eapply wp_mono; [apply (process_step_coop phy config); try done; by rewrite Hs1|].
  intros ? w2 (Hok2 & (Hst2 & _ & _ & _ & _ & _ & Hi2 & He2 & _ & _) & Hs2 & _).
  destruct (Hs2 Hs1) as [Hstep2 Hf2].
  apply wp_bind. eapply wp_mono; [apply (process_step_coop phy config); try done; [congruence|by rewrite Hstep2]|].
  intros ? w3 (Hok3 & (Hst3 & _ & _ & _ & _ & _ & Hi3 & He3 & _ & _) & _ & Hs3).
  destruct (Hs3 Hstep2) as [Hstep3 Hf3].
  apply wp_bind. eapply wp_mono.
  { apply wp_and; [apply (on_rx_rx phy config Hcfg (fun _ => 0%nat) ltac:(done) [min; cks] 2);
      [constructor; [exact Hmin|constructor; [exact Hcks|constructor]]|done|exact Hok3]|
      apply (on_rx_startup_valid _ _ min cks); done || congruence]. }
  intros ? w4 ([Hok4 _] & _ & Hio4 & Hst4 & Hi4 & He4 & _ & _ & _ & Hmin4).
  assert (no_service (w_port w4)) as Hno4.
  { unfold no_service. rewrite Hi4, He4, Hi3, He3, Hi2, He2. exact Hno1. }
  apply wp_bind. eapply wp_mono.
  { unfold iolink_master_process, iolink_master_process_at. cbn [ptr_null andb]. apply wp_bind, wp_gets.
    rewrite (ok_phy _ _ _ Hok4), (carrier_ptr _ _ _ _ (coop_carrier phy config Hcoop)), Hst4.
    apply (process_preoperate_carried phy config _ _ (coop_carrier phy config Hcoop)
      (fun tr' => frames tr' = frames (w_io w4) ++ [device_operate]) w4 Hok4 Hno4 Hval).
    by intros tr' Htr'. }
  intros ? w5 (Hf5 & tx & Hw5).
  eapply wp_mono; [apply (on_rx_ack_valid _ _ ack); try done; rewrite Hw5; done|].
  intros ret w6 (-> & Hio6 & Hst6 & _ & _ & _ & _ & Hd6). rewrite Hw5 in Hd6. cbn in Hd6. split_and!; [done|done|congruence|].
  rewrite Hio6, Hf5, Hio4, Hf3, Hf2, Hf1, <- !app_assoc. done.
Qed.

(** C22: the establish sequence is bounded. When nobody answers, an attempt is some calls
    of [iolink_master_process], at least two, and the response timeout. From the WAKE step
    the sequence puts exactly (retry limit + 1) wake-up requests on the line, each followed
    by the test message at every rate (three when the rate is scanned) and nothing else; the
    last timeout reports ERR_RETRY_LIMIT, every one before it PENDING, and the port waits
    in the INACTIVE step with the failure counted and the counters reset. *)
Theorem establish_sequence_bounded phy config ns w :
  config_ok config → cooperative phy config → establishing phy config (w_port w) →
  su_step (p_startup (w_port w)) = IOLINK_MASTER_STARTUP_STEP_WAKE →
  attempts config (w_port w) = 0 → wake_requests config ≤ 255 →
  zlen ns = rates config * wake_requests config → Forall (fun n => 2 ≤ n)%nat ns →
  wp (unanswered_run ns) (fun rets w' =>
    rets = replicate (length ns - 1) IOLINK_MASTER_STATUS_PENDING ++ [IOLINK_MASTER_ERR_RETRY_LIMIT] ∧
    on_wire w' = on_wire w ++ concat (replicate (Z.to_nat (wake_requests config))
      ([IOLINK_MASTER_WAKEUP_BYTE] :: replicate (Z.to_nat (rates config)) test_message)) ∧
    p_state (w_port w') = IOLINK_MASTER_STATE_STARTUP ∧
    su_step (p_startup (w_port w')) = IOLINK_MASTER_STARTUP_STEP_INACTIVE ∧
    attempts config (w_port w') = 0 ∧
    diag_establish_failures (p_diagnostics (w_port w')) =
      u32 (diag_establish_failures (p_diagnostics (w_port w)) + 1)) w.
Proof.
  intros Hcfg Hcoop Hw Hs Ha Hlim Hn Hns.
  assert (0 < rates config) as Hr by (unfold rates; destruct (cfg_auto_baudrate config); lia).
  pose proof (est_wake _ _ _ Hw) as Hwake.
  eapply wp_mono; [apply (unanswered_sequence phy config Hcfg Hcoop ns w Hw Hlim); try done|].
  - intros ->. rewrite zlen_nil in Hn. nia.
  - rewrite Ha, Hs. unfold first_step. by rewrite Z.mod_0_l by lia.
  - lia.
  - intros rets w' (-> & Hwire & H). split; [done|]. split; [|done]. rewrite Hwire, Ha. f_equal.
    replace (length ns) with (Z.to_nat (rates config) * Z.to_nat (wake_requests config))%nat by (unfold zlen in Hn; nia).
    rewrite <- (Z.mul_0_r (rates config)). apply requests_of_sequence.
Qed.

(** C10: a device is given up after three failures in a row and not before. In OPERATE,
    after a valid reply, every mix of response timeouts and replies with wrong checksums
    keeps the port in OPERATE for two failures and restarts the establish sequence at the
    third; nothing is sent, and the process data are not touched, not even their
    validity. *)
Theorem comlost_after_three_failures phy config fs w :
  config_ok config → cooperative phy config → port_ok phy config (w_port w) →
  p_state (w_port w) = IOLINK_MASTER_STATE_OPERATE →
  diag_rx_retry_count (p_diagnostics (w_port w)) = 0 →
  Forall (fails_checksum (w_port w)) fs → 1 ≤ zlen fs ≤ 3 →
  wp (failures_run fs) (fun _ w' => frames (w_io w') = frames (w_io w) ∧
    same_exchange (w_port w) (w_port w') ∧
    if zlen fs <=? IOLINK_MASTER_RX_RETRY_LIMIT
    then p_state (w_port w') = IOLINK_MASTER_STATE_OPERATE ∧
      diag_rx_retry_count (p_diagnostics (w_port w')) = zlen fs
    else p_state (w_port w') = IOLINK_MASTER_STATE_STARTUP ∧
      su_step (p_startup (w_port w')) = IOLINK_MASTER_STARTUP_STEP_WAKE ∧
      diag_rx_retry_count (p_diagnostics (w_port w')) = 0) w.
Proof.
  intros Hcfg Hcoop Hok Hst Hr Hfs Hn.
  eapply wp_mono; [apply (failures_coop phy config Hcfg (cooperative_obliging phy config Hcoop) fs w Hok Hst); rewrite ?Hr; done || lia|].
  intros ? w' (Hf & Hs & Ho). rewrite Hr, Z.add_0_l in Ho. split; [done|]. split; [done|].
  destruct (zlen fs <=? _); [done|]. apply Ho. intros ->. rewrite zlen_nil in Hn. lia.
Qed.
End claims.

(** ** Witnesses *)

Lemma fix_cooperative script : cooperative (fix_phy script) fix_config.
Proof. split; try done. by eexists. Qed.

Lemma startup_reaches_operate_witness :
  wp (iolink_master_init PTR (Some (fix_phy [])) (Some fix_config);;
      iolink_master_process PTR;;
      iolink_master_process PTR;;
      iolink_master_on_rx PTR (Some [0x14; 0x2B]) 2;;
      iolink_master_process PTR;;
      iolink_master_on_rx PTR (Some [0x2D]) 1) (fun ret w' => ret = IOLINK_MASTER_STATUS_OK ∧
    p_state (w_port w') = IOLINK_MASTER_STATE_OPERATE ∧
    di_min_cycle_time (p_device_info (w_port w')) = 0x14 ∧
    frames (w_io w') = frames (w_io (wit_world [])) ++
      (if null (cfg_wake_up fix_config) then [[IOLINK_MASTER_WAKEUP_BYTE]] else []) ++
      [test_message; device_operate]) (wit_world []).
Proof.
  apply (startup_reaches_operate (fix_phy []) fix_config 0x14 0x2B 0x2D (wit_world [])
    fix_config_ok (fix_cooperative [])); try done. all: by vm_compute.
Defined.

(** A port that starts up, and one in OPERATE. *)
Definition wit_startup : world :=
  {| w_port := port_initial (fix_phy []) fix_config; w_io := [] |}.
Definition wit_operate : world :=
  {| w_port := port_initial (fix_phy []) fix_config <| p_state := IOLINK_MASTER_STATE_OPERATE |>;
     w_io := [] |}.

(** Three wake-up requests, each with three test messages. *)
Lemma establish_sequence_bounded_witness :
  wp (unanswered_run (replicate 9 3%nat)) (fun rets w' =>
    rets = replicate (9 - 1) IOLINK_MASTER_STATUS_PENDING ++ [IOLINK_MASTER_ERR_RETRY_LIMIT] ∧
    on_wire w' = on_wire wit_startup ++ concat (replicate 3 [[0x55]; test_message; test_message; test_message]) ∧
    p_state (w_port w') = IOLINK_MASTER_STATE_STARTUP ∧
    su_step (p_startup (w_port w')) = IOLINK_MASTER_STARTUP_STEP_INACTIVE ∧
    attempts fix_config (w_port w') = 0 ∧
    diag_establish_failures (p_diagnostics (w_port w')) =
      u32 (diag_establish_failures (p_diagnostics (w_port wit_startup)) + 1)) wit_startup.
Proof.
  apply (establish_sequence_bounded (fix_phy []) fix_config (replicate 9 3%nat) wit_startup
    fix_config_ok (fix_cooperative [])); try done.
  - split; try done. apply port_initial_ok.
  - repeat constructor.
Defined.

Lemma retry_limit_255_never_reached_witness :
  let config := fix_config <| cfg_wake_retry_limit := 255 |> in
  let w := {| w_port := port_initial (fix_phy []) config
                <| p_startup := {| su_step := IOLINK_MASTER_STARTUP_STEP_AWAIT_RESPONSE;
                                   su_baudrate_index := 2; su_wake_attempts := 255 |} |>;
              w_io := [] |} in
  wp (iolink_master_establish_attempt_failed 0 false) (fun ret w' => ret = IOLINK_MASTER_STATUS_PENDING ∧
    establishing (fix_phy []) config (w_port w')) w.
Proof.
  intros config w. apply (retry_limit_255_never_reached (fix_phy []) config); [|split; try done|done].
  - split; try done. by eexists.
  - apply ok_set_startup; [by apply port_initial_ok|done].
Defined.

Definition wit_failures : list link_failure :=
  [NoReply 5 true; GarbledReply [1; 2; 0] 3; GarbledReply [1; 2; 0] 3].

Lemma comlost_after_three_failures_witness :
  wp (failures_run wit_failures) (fun _ w' => frames (w_io w') = frames (w_io wit_operate) ∧
    same_exchange (w_port wit_operate) (w_port w') ∧
    if zlen wit_failures <=? IOLINK_MASTER_RX_RETRY_LIMIT
    then p_state (w_port w') = IOLINK_MASTER_STATE_OPERATE ∧
      diag_rx_retry_count (p_diagnostics (w_port w')) = zlen wit_failures
    else p_state (w_port w') = IOLINK_MASTER_STATE_STARTUP ∧
      su_step (p_startup (w_port w')) = IOLINK_MASTER_STARTUP_STEP_WAKE ∧
      diag_rx_retry_count (p_diagnostics (w_port w')) = 0) wit_operate.
Proof.
  apply (comlost_after_three_failures (fix_phy []) fix_config wit_failures wit_operate
    fix_config_ok (fix_cooperative [])); try done.
  - apply ok_set_state, port_initial_ok.
  - assert (fails_checksum (w_port wit_operate) (GarbledReply [1; 2; 0] 3)) as Hg.
    { split; [decide_here|]. split; [done|]. cbn. eexists _, _. split; [reflexivity|]. by split; [reflexivity|]. }
    constructor; [exact I|]. constructor; [exact Hg|]. constructor; [exact Hg|constructor].
Defined.

