(* ===== verification/PortExchange.v ===== *)
(** * The cyclic exchange

    The M-sequence a port in OPERATE sends, what it takes from the reply, and when the
    tick engine lets it send. *)

From S2P Require Import Prelude Iolinki Reference Types Fixtures Parameters Isdu IsduResponse IsduRequest IsduService Services DataStorage Events EventReadout Hal Transmit Port PortInvariant PortServices PortSafety PortCalls PortTransitions Carrier PortLink.

(** The octets after MC and CKT: PD-out, and no on-request data. *)
Definition cyclic_body (p : iolink_master_port_state_t) : list Z :=
  take (Z.to_nat (p_pd_out_len p)) (p_pd_out p) ++ zeros (p_od_len p).

(** An M-sequence with the M-sequence type in CKT: the checksum in CKT covers the whole
    frame with the checksum bits zero. *)
Definition mseq_frame {IO : Iolinki} (type mc : Z) (body : list Z) : list Z :=
  mc :: Z.lor type (iolink_checksum6 (mc :: type :: body)) :: body.

(** A process data write (A.2.3, A.2.4). *)
Definition cyclic_frame {IO : Iolinki} (p : iolink_master_port_state_t) : list Z :=
  mseq_frame (iolink_master_ckt_type_bits (cfg_m_seq_type (p_config p))) 0x00 (cyclic_body p).

Section build.
Context {IO : Iolinki} {laws : IolinkiLaws IO}.
Context (phy : iolink_phy_api_t) (config : iolink_master_config_t) (Hcfg : config_ok config).
Notation ok := (port_ok phy config).
Implicit Types (p : iolink_master_port_state_t) (w : world).

Lemma cyclic_mc :
  iolink_master_encode_master_command false IOLINK_MASTER_MC_CHANNEL_PROCESS 0 = 0.
Proof. unfold iolink_master_encode_master_command. by rewrite law_mc_channel, law_mc_addr. Qed.

(** A buffer with room for header, PD-out and OD. *)
Lemma split_frame (tx : list Z) n m : zlen tx = 64 → 0 ≤ n → 0 ≤ m → 2 + n + m ≤ 64 →
  ∃ x0 x1 a b c, tx = [x0; x1] ++ a ++ b ++ c ∧ zlen a = n ∧ zlen b = m.
Proof.
  intros Htx Hn Hm Hle. destruct (split_at tx 2) as (h & r & -> & Hh); [lia|].
  destruct h as [|x0 [|x1 [|x2 h]]]; unfold zlen in Hh; simpl in Hh; try lia. clear Hh.
  rewrite zlen_app, !zlen_cons, zlen_nil in Htx.
  destruct (split_at r n) as (a & r2 & -> & Ha); [lia|]. rewrite zlen_app in Htx.
  destruct (split_at r2 m) as (b & c & -> & Hb); [lia|]. by exists x0, x1, a, b, c.
Qed.

Lemma copy_pd_split p x0 x1 a r : ok p → zlen a = p_pd_out_len p →
  copy_pd_out p ([x0; x1] ++ a ++ r) =
    Some ([x0; x1] ++ take (Z.to_nat (p_pd_out_len p)) (p_pd_out p) ++ r).
Proof.
  intros Hp Ha. destruct (pd_len_range config Hcfg) as [_ Hr].
  rewrite <- (ok_pd_out_len _ _ _ Hp) in Hr. pose proof (ok_pd_out _ _ _ Hp) as Hpd.
  unfold copy_pd_out. rewrite law_header_len.
  destruct (Z.ltb_spec 0 (p_pd_out_len p)) as [Hz|Hz].
  - unfold memcpy. rewrite slice_Some by lia. cbn [mbind option_bind drop Z.to_nat].
    change 2 with (zlen [x0; x1]) at 1. rewrite drop_0, blit_app; [done|]. rewrite zlen_take. lia.
  - replace (p_pd_out_len p) with 0 in * by lia. assert (a = []) as -> by (apply nil_zlen; lia). done.
Qed.

(** Without a service the OD octets are zero. *)
Lemma fill_od_none s od c : isdu_op s = IOLINK_MASTER_ISDU_OP_NONE →
  wp (iolink_master_isdu_fill_od PTR (Some (od ++ c)) (zlen od)) (fun r s' =>
    r = Some (zeros (zlen od) ++ c) ∧ s' = s) s.
Proof.
  intros Hop. unfold iolink_master_isdu_fill_od. cbn [ptr_null].
  apply wp_bind. eapply wp_mem.
  { change 0 with (zlen (@nil Z)). change (od ++ c) with ([] ++ od ++ c). apply blit_app.
    apply zlen_zeros, zlen_nonneg. }
  apply wp_bind, wp_get. rewrite Hop. by apply wp_ret.
Qed.

(** MC and CKT at the front of the buffer. *)
Lemma wr_mc (x0 x1 mc : Z) r : wr ([x0; x1] ++ r) 0 mc = Some ([mc; x1] ++ r).
Proof. rewrite wr_Some; [done|]. rewrite zlen_app. change (zlen [x0; x1]) with 2. pose proof (zlen_nonneg r). lia. Qed.
Lemma wr_ckt (x0 x1 ckt : Z) r : wr ([x0; x1] ++ r) 1 ckt = Some ([x0; ckt] ++ r).
Proof. rewrite wr_Some; [done|]. rewrite zlen_app. change (zlen [x0; x1]) with 2. pose proof (zlen_nonneg r). lia. Qed.

Lemma fold_checksum_split mc t body c :
  is_u8 t →
  fold_checksum ([mc; t] ++ body ++ c) (2 + zlen body) = Some (mseq_frame t mc body ++ c).
Proof.
  intros Ht. unfold fold_checksum. change (rd ([mc; t] ++ body ++ c) 1) with (Some t).
  cbn [mbind option_bind]. pose proof (zlen_nonneg body).
  replace (2 + zlen body) with (zlen ([mc; t] ++ body)) by (rewrite zlen_app; done).
  replace ([mc; t] ++ body ++ c) with ([] ++ ([mc; t] ++ body) ++ c) at 1 by (by rewrite <- app_assoc).
  change 0 with (zlen (@nil Z)) at 1. rewrite slice_app. cbn [mbind option_bind].
  rewrite u8_small, wr_ckt; [done|].
  apply is_u8_lor; [done|]. pose proof (law_checksum6 ([mc; t] ++ body)). unfold is_u8. lia.
Qed.

(** The buffer of a port cut at the process data and the OD of its M-sequence. *)
Lemma split_tx_buf p : ok p →
  ∃ x0 x1 a b c, p_tx_buf p = [x0; x1] ++ a ++ b ++ c ∧ zlen a = p_pd_out_len p ∧ zlen b = p_od_len p ∧
    zlen (b ++ c) = IOLINK_MASTER_FRAME_BUF_SIZE - (2 + p_pd_out_len p) ∧
    zlen (take (Z.to_nat (p_pd_out_len p)) (p_pd_out p)) = p_pd_out_len p.
Proof.
  intros Hp. pose proof (frame_fits config Hcfg) as Hfit. pose proof (od_len_range config) as Hod.
  destruct (pd_len_range config Hcfg) as [_ Hpd].
  rewrite <- (ok_pd_out_len _ _ _ Hp) in Hpd, Hfit. rewrite <- (ok_od_len _ _ _ Hp) in Hod, Hfit.
  pose proof (ok_tx_buf _ _ _ Hp) as Htx. pose proof (ok_pd_out _ _ _ Hp) as Hpdo.
  unfold IOLINK_MASTER_FRAME_BUF_SIZE in *.
  destruct (split_frame (p_tx_buf p) (p_pd_out_len p) (p_od_len p))
    as (x0 & x1 & a & b & c & Heq & Ha & Hb); [lia..|].
  exists x0, x1, a, b, c. split_and!; [done..| |slia].
  apply (f_equal zlen) in Heq. rewrite !zlen_app in *. change (zlen [x0; x1]) with 2 in Heq. lia.
Qed.

Lemma build_cyclic_wp p : ok p → isdu_op (p_isdu p) = IOLINK_MASTER_ISDU_OP_NONE →
  wp build_cyclic_frame (fun len p' => len = zlen (cyclic_frame p) ∧
    ∃ tx, p' = p <| p_tx_buf := tx |> ∧ slice tx 0 len = Some (cyclic_frame p)) p.
Proof.
  intros Hp Hop. destruct (split_tx_buf p Hp) as (x0 & x1 & a & b & c & Heq & Ha & Hb & Hbc & Hpl).
  apply wp_bind, wp_get. cbv zeta. rewrite cyclic_mc, law_header_len, Heq.
  apply wp_bind. eapply wp_mem; [apply wr_mc|]. apply wp_bind. eapply wp_mem; [apply wr_ckt|].
  apply wp_bind. eapply wp_mem; [by apply copy_pd_split|]. rewrite <- Hbc.
  set (pd := take _ (p_pd_out p)) in *.
  assert (2 + p_pd_out_len p = zlen ([0; 0] ++ pd)) as Hpos by (rewrite zlen_app; change (zlen [0; 0]) with 2; lia).
  assert ([0; 0] ++ pd ++ b ++ c = ([0; 0] ++ pd) ++ (b ++ c) ++ []) as Hcut
    by (by rewrite app_nil_r, <- !app_assoc).
  apply wp_bind. eapply wp_mem; [rewrite Hpos, Hcut; apply slice_app|].
  apply wp_bind, wp_zoom. rewrite <- Hb. eapply wp_mono; [by apply fill_od_none|].
  intros r s [-> ->]. cbn [from_option]; unfold id.
  apply wp_bind. eapply wp_mem.
  { rewrite Hpos, Hcut. apply blit_app. rewrite !zlen_app, zlen_zeros; [done|apply zlen_nonneg]. }
  rewrite app_nil_r, <- app_assoc. apply wp_bind. eapply wp_mem; [apply wr_ckt|].
  set (t := iolink_master_ckt_type_bits _).
  assert (cyclic_body p = pd ++ zeros (zlen b)) as Hbody by (unfold cyclic_body; by rewrite Hb).
  assert (2 + p_pd_out_len p + zlen b = 2 + zlen (cyclic_body p)) as Hlen.
  { rewrite Hbody, zlen_app, zlen_zeros by apply zlen_nonneg. lia. }
  apply wp_bind. eapply wp_mem.
  { rewrite Hlen, (app_assoc pd), <- Hbody. apply fold_checksum_split, type_bits_u8. }
  fold (cyclic_frame p). rewrite Hlen.
  apply wp_bind, wp_assign, wp_ret. split; [unfold cyclic_frame, mseq_frame; rewrite !zlen_cons; lia|].
  eexists. split; [by destruct p|].
  replace (2 + zlen (cyclic_body p)) with (zlen (cyclic_frame p)) by (unfold cyclic_frame, mseq_frame; rewrite !zlen_cons; lia).
  exact (slice_app [] (cyclic_frame p) c).
Qed.
End build.

(** An observation of the port, kept by an operation on the port alone. *)
Lemma keeps_on_port {F B} (g : iolink_master_port_state_t → F) (m : M iolink_master_port_state_t B) :
  keeps g m → keeps (fun w => g (w_port w)) (zoom w_port m).
Proof. intros Hm. by apply (keeps_zoom_inner _ w_port g). Qed.
(** ** A tick in OPERATE *)

(** [T_DMT] and [T_DWU] are over. *)
Definition gate_open (p : iolink_master_port_state_t) (now : Z) : Prop :=
  p_send_ready_valid p && (now <? p_send_ready_at_100us p) = false.

Section cyclic.
Context {IO : Iolinki} {laws : IolinkiLaws IO}.
Context (phy : iolink_phy_api_t) (config : iolink_master_config_t) (Hcfg : config_ok config).
Context (T : list Z → (list io → Prop) → list io → Prop) (W : (list io → Prop) → list io → Prop).
Context (Hcar : carrier phy config T W).
Notation ok := (port_ok phy config).
Implicit Types (p : iolink_master_port_state_t) (w : world).

(** The reply to a frame that starts with MC. *)
Lemma expects_od_slice tx len frame : slice tx 0 len = Some frame → frame ≠ [] →
  expects_od tx = expects_od frame.
Proof.
  unfold slice. intros Hs Hne. destruct (_ && _) in Hs; [|done]. injection Hs as <-.
  rewrite drop_0 in *. destruct tx as [|x tx]; [by rewrite take_nil in *|].
  by destruct (Z.to_nat len).
Qed.

(** The cyclic M-sequence on a link that takes it. *)
Lemma cyclic_process K w :
  ok (w_port w) → no_service (w_port w) → type0_operate (w_port w) = false →
  T (cyclic_frame (w_port w)) K (w_io w) →
  wp process_operate (fun _ w' => K (w_io w') ∧
    ∃ tx, w_port w' = w_port w <| p_tx_buf := tx |> <| p_rx_od_expected := false |>
      <| p_cycle_count := u32 (p_cycle_count (w_port w) + 1) |>) w.
Proof.
  intros Hok Hno Ht0 HT. unfold process_operate.
  apply wp_bind. eapply wp_mono; [apply send_event_none, Hno|]. intros ? ? [-> ->].
  apply wp_bind. eapply wp_mono; [by apply send_isdu_none|]. intros ? w1 (-> & Hw1 & Hio1).
  apply wp_bind, wp_gets. rewrite Hw1, Ht0. apply wp_bind, wp_zoom. rewrite Hw1.
  eapply wp_mono.
  { apply wp_and; [apply (build_cyclic_wp phy config); [exact Hcfg|exact Hok|apply Hno]|].
    apply (build_cyclic_frame_builds phy config Hcfg); exact Hok. }
  intros len p2 [(Hlen & tx & Hp2 & Hs) [Hok2 Hr]].
  assert (p_tx_buf p2 = tx) as Htx by (by rewrite Hp2).
  apply wp_bind. eapply wp_mono.
  { apply (send_tx_buf_carried phy config _ _ Hcar len (cyclic_frame (w_port w)) K); [exact Hok2| |].
    - cbn [w_port set]. by rewrite Htx.
    - cbn [w_io set]. by rewrite Hio1. }
  intros sent w3 (-> & HK & Hw3). cbn [w_port set] in Hw3. cbn [when].
  assert (expects_od tx = false) as Hexp.
  { rewrite (expects_od_slice _ _ _ Hs) by done. unfold expects_od. cbn. by rewrite Z.land_0_l. }
  unfold count_cycle. apply wp_zoom, wp_bind, wp_get, wp_assign. split; [done|].
  exists tx. cbn. by rewrite Hw3, Htx, Hexp, Hp2.
Qed.
End cyclic.

Section tick.
Context {IO : Iolinki} {laws : IolinkiLaws IO}.
Context (phy : iolink_phy_api_t) (config : iolink_master_config_t) (Hcfg : config_ok config)
  (Hcoop : cooperative phy config).
Notation ok := (port_ok phy config).
Implicit Types (p : iolink_master_port_state_t) (w : world).

(** What a tick at [now] leaves behind when the exchange took place. *)
Definition exchanged now p p' : Prop :=
  p_state p' = p_state p ∧ p_cycle_count p' = u32 (p_cycle_count p + 1) ∧
  p_awaiting_response p' = true ∧ p_cycle_timer_valid p' = true ∧
  p_last_cycle_start_100us p' = now ∧
  (∃ timeout, iolink_master_response_timeout_100us p = Some timeout ∧
     p_response_deadline_100us p' = u32 (now + timeout)) ∧
  diag_last_cycle_jitter_100us (p_diagnostics p') = iolink_master_cycle_jitter_at p now ∧
  diag_cycle_slips (p_diagnostics p') =
    (if iolink_master_cycle_slipped_at p now then u32 (diag_cycle_slips (p_diagnostics p) + 1)
     else diag_cycle_slips (p_diagnostics p)).

(** Counting up moves a 32-bit counter. *)
Lemma u32_moves n : u32 (n + 1) ≠ n.
Proof.
  unfold u32. intros He. pose proof (Z.mod_pos_bound (n + 1) 4294967296 ltac:(lia)).
  destruct (decide (n = 4294967295)) as [->|Hm]; [done|]. rewrite Z.mod_small in He; lia.
Qed.

(** The bookkeeping of a cycle that was sent: the diagnostics but for the retries, the
    cycle timer and the deadline. *)
Lemma record_cycle_wp now w : ok (w_port w) →
  wp (tick_record_cycle now) (fun _ w' => w_io w' = w_io w ∧ ∃ d timeout,
    iolink_master_response_timeout_100us (w_port w) = Some timeout ∧
    w_port w' = w_port w <| p_diagnostics := d |> <| p_last_cycle_start_100us := now |>
      <| p_response_deadline_100us := u32 (now + timeout) |> <| p_cycle_timer_valid := true |>
      <| p_awaiting_response := true |> ∧
    diag_last_cycle_jitter_100us d = iolink_master_cycle_jitter_at (w_port w) now ∧
    diag_cycle_slips d = (if iolink_master_cycle_slipped_at (w_port w) now
      then u32 (diag_cycle_slips (p_diagnostics (w_port w)) + 1)
      else diag_cycle_slips (p_diagnostics (w_port w))) ∧
    diag_rx_retry_count d = diag_rx_retry_count (p_diagnostics (w_port w))) w.
Proof.
  intros Hok. destruct (response_timeout_ok phy config _ Hok) as [t Ht].
  unfold tick_record_cycle. apply wp_bind, wp_gets. cbv zeta. apply wp_bind.
  set (j := iolink_master_cycle_jitter_at _ _). set (s := iolink_master_cycle_slipped_at _ _).
  eapply (wp_mono _ (fun _ w1 => w_io w1 = w_io w ∧ ∃ d, w_port w1 = w_port w <| p_diagnostics := d |> ∧
    diag_cycle_slips d = (if s then u32 (diag_cycle_slips (p_diagnostics (w_port w)) + 1)
      else diag_cycle_slips (p_diagnostics (w_port w))) ∧
    diag_rx_retry_count d = diag_rx_retry_count (p_diagnostics (w_port w)))).
  { apply wp_when; intros Hs; rewrite Hs.
    - unfold count_up. apply wp_zoom, wp_zoom, wp_bind, wp_get, wp_assign. split; [done|]. by eexists.
    - split; [done|]. exists (p_diagnostics (w_port w)). split; [|done]. by destruct (w_port w). }
  intros ? w1 (Hio & d & Hw1 & Hd & Hr). apply wp_zoom, wp_bind, wp_zoom, wp_bind, wp_assign, wp_bind, wp_get.
  eapply (wp_mono _ (fun _ d' => diag_last_cycle_jitter_100us d' = j ∧ diag_cycle_slips d' = diag_cycle_slips d ∧
    diag_rx_retry_count d' = diag_rx_retry_count d)).
  { rewrite Hw1. apply wp_when; intros Hm; [apply wp_assign|]; done. }
  intros ? d' (Hj & Hsl & Hr'). apply wp_bind, wp_assign, wp_bind, wp_get, wp_bind.
  eapply wp_mem; [rewrite Hw1; exact Ht|]. apply wp_bind, wp_assign, wp_bind, wp_assign, wp_assign.
  split; [done|]. exists d', t. rewrite Hw1. split_and!; try done; congruence.
Qed.

Lemma transmit_cyclic now w :
  ok (w_port w) → p_state (w_port w) = IOLINK_MASTER_STATE_OPERATE → no_service (w_port w) →
  type0_operate (w_port w) = false → gate_open (w_port w) now →
  wp (tick_transmit true now) (fun _ w' =>
    if p_awaiting_response (w_port w) || negb (iolink_master_cycle_due_at (w_port w) now)
    then w' = w
    else frames (w_io w') = frames (w_io w) ++ [cyclic_frame (w_port w)] ∧
      exchanged now (w_port w) (w_port w')) w.
Proof.
  intros Hok Hst Hno Ht0 Hgate. unfold tick_transmit. apply wp_bind, wp_gets.
  destruct (p_awaiting_response (w_port w)); [by apply wp_ret|]. cbn [orb andb].
  destruct (iolink_master_cycle_due_at (w_port w) now); [|by apply wp_ret]. cbn [negb].
  apply wp_bind. eapply wp_mono.
  { apply wp_and; [by apply (process_at_safe phy config)|].
    unfold iolink_master_process_at. cbn [ptr_null andb]. apply wp_bind, wp_gets.
    rewrite (ok_phy _ _ _ Hok), (carrier_ptr _ _ _ _ (coop_carrier phy config Hcoop)).
    unfold gate_open in Hgate. rewrite Hgate, Hst.
    apply (cyclic_process phy config Hcfg _ _ (coop_carrier phy config Hcoop)
      (fun tr' => frames tr' = frames (w_io w) ++ [cyclic_frame (w_port w)])); [done..|].
    by intros tr' Htr'. }
  intros ? w1 (Hok1 & Hf1 & tx & Hw1). apply wp_bind, wp_gets. rewrite Hw1 at 1. cbn [p_cycle_count set andb].
  rewrite (proj2 (Z.eqb_neq _ _) (u32_moves _)). cbn [negb when].
  eapply wp_mono; [by apply record_cycle_wp|].
  intros ? w2 (Hio & d & t & Ht & Hw2 & Hj & Hs & _).
  split; [by rewrite Hio|]. rewrite Hw1 in Ht, Hj, Hs. unfold exchanged. rewrite Hw2, Hw1.
  split_and!; try done. by exists t.
Qed.
End tick.

(** ** The reply *)

Section reply.
Context {IO : Iolinki} {laws : IolinkiLaws IO}.
Context (phy : iolink_phy_api_t) (config : iolink_master_config_t) (Hcfg : config_ok config).
Notation ok := (port_ok phy config).
Implicit Types (p : iolink_master_port_state_t) (w : world).

(** What the OD octets of a reply cannot change. *)
Definition beside_od p :=
  (p_state p, p_pd_in p, p_pd_in_len p, p_pd_valid p, p_diagnostics p, p_awaiting_response p, p_rx p).

Lemma keeps_zoom_event {A} (m : M iolink_master_event_state_t A) :
  keeps (fun w => (w_io w, beside_od (w_port w))) (zoom w_port (zoom p_event m)).
Proof.
  intros w a w' H. unfold zoom in H. destruct (m (p_event (w_port w))) as [b ev| |]; [|done..].
  by injection H as _ <-.
Qed.

Lemma route_od_beside od od_len :
  keeps (fun w => (w_io w, beside_od (w_port w))) (iolink_master_route_od od od_len).
Proof.
  unfold iolink_master_route_od. apply keeps_bind; [apply keeps_gets|]. intros p.
  destruct (iolink_master_event_channel_access _) as [[[read addr] n]|].
  - apply keeps_when. apply keeps_zoom_event.
  - intros w a w' H. unfold zoom in H.
    destruct (iolink_master_isdu_on_od _ _ _ _) as [[] s| |]; [|done..]. by injection H as _ <-.
Qed.

(** Where they go: to an event readout that waits for them, to the transport of the ISDU
    services when there is no readout. *)
Definition od_routed (od : list Z) (od_len : Z) p p' : Prop :=
  if ev_phase (p_event p) =e IOLINK_MASTER_EVENT_PHASE_NONE
  then iolink_master_isdu_on_od PTR (Some od) od_len (p_isdu p) = Ok tt (p_isdu p') ∧ p_event p' = p_event p
  else p_isdu p' = p_isdu p ∧
    if (ev_phase (p_event p) =e IOLINK_MASTER_EVENT_PHASE_READ) && ev_od_expected (p_event p)
    then iolink_master_event_on_od PTR (Some od) od_len (p_event p <| ev_od_expected := false |>) = Ok tt (p_event p')
    else p_event p' = p_event p.

Lemma route_od_routed od od_len w a w' : iolink_master_route_od (Some od) od_len w = Ok a w' →
  od_routed od od_len (w_port w) (w_port w').
Proof.
  unfold iolink_master_route_od, od_routed, mbind, M_bind, gets, iolink_master_event_channel_access.
  destruct (ev_phase (p_event (w_port w)) =e IOLINK_MASTER_EVENT_PHASE_NONE).
  - unfold zoom. destruct (iolink_master_isdu_on_od _ _ _ _) as [[] s| |]; [|done..]. by intros [= _ <-].
  - destruct (_ && _); cbn [when]; [|by intros [= _ <-]].
    unfold zoom, assign, modify. destruct (iolink_master_event_on_od _ _ _ _) as [[] ev| |]; [|done..].
    by intros [= _ <-].
Qed.

(** The process data the application reads. *)
Lemma get_pd_in_stored p pd buffer blen n rest :
  p_pd_valid p = true → p_pd_in p = pd ++ rest → p_pd_in_len p = zlen pd → zlen pd ≤ blen ≤ zlen buffer →
  iolink_master_get_pd_in (Some p) (Some buffer) blen (Some n) =
    Some (IOLINK_MASTER_STATUS_OK, Some (pd ++ drop (length pd) buffer), Some (zlen pd)).
Proof.
  intros Hv Hin Hl Hb. unfold iolink_master_get_pd_in. rewrite Hl, Hv, Hin.
  pose proof (zlen_nonneg pd). pose proof (zlen_nonneg rest).
  destruct (Z.ltb_spec blen (zlen pd)); [lia|]. cbn [negb].
  rewrite memcpy_prefix by (rewrite ?zlen_app; lia). cbn [mbind option_bind].
  unfold zlen. by rewrite Nat2Z.id, take_app_length.
Qed.

(** The octets of a reply, taken over into the port. *)
Definition reply_taken resp p p' : Prop :=
  p_state p' = p_state p ∧ p_awaiting_response p' = false ∧
  diag_rx_retry_count (p_diagnostics p') = 0 ∧
  diag_od_status (p_diagnostics p') = resp_status resp ∧
  diag_event_pending (p_diagnostics p') = resp_event_pending resp ∧
  if resp_pd_valid resp then
    p_pd_valid p' = true ∧ p_pd_in_len p' = resp_pd_len resp ∧
    p_pd_in p' = resp_pd resp ++ drop (length (resp_pd resp)) (p_pd_in p)
  else p_pd_valid p' = p_pd_valid p ∧ p_pd_in_len p' = p_pd_in_len p ∧ p_pd_in p' = p_pd_in p.

Lemma operate_reply_wp resp w :
  ok (w_port w) → Forall is_u8 (resp_od resp) → Forall is_u8 (resp_pd resp) →
  resp_pd_len resp = cfg_pd_in_len config → zlen (resp_pd resp) = resp_pd_len resp →
  0 ≤ resp_od_len resp ≤ zlen (resp_od resp) →
  wp (operate_reply resp) (fun ret w' => ret = IOLINK_MASTER_STATUS_OK ∧
    w_io w' = w_io w ++ (if resp_event_pending resp && negb (diag_event_pending (p_diagnostics (w_port w))) &&
                            cfg_event_pending_handler config
                         then [IoEventPending (cfg_event_user config)] else []) ∧
    reply_taken resp (w_port w) (w_port w') ∧ p_rx (w_port w') = p_rx (w_port w) ∧
    od_routed (resp_od resp) (resp_od_len resp) (w_port w) (w_port w')) w.
Proof.
  intros Hok Hou Hpu Hpl Hpz Hol. destruct (pd_len_range config Hcfg) as [Hr _].
  pose proof (ok_pd_in _ _ _ Hok) as Hin.
  unfold operate_reply, reply_accepted.
  apply wp_bind, wp_zoom, wp_bind, wp_zoom, wp_assign, wp_assign.
  apply wp_bind, wp_zoom, wp_zoom, wp_assign, wp_bind, wp_gets, wp_bind. cbn. rewrite (ok_config _ _ _ Hok).
  match goal with |- wp _ _ ?s => set (w1 := s) end.
  assert (ok (w_port w1)) as Hok1 by (by apply ok_set_diagnostics, ok_set_awaiting, ok_set_diagnostics).
  eapply (wp_mono _ (fun _ w2 => w_port w2 = w_port w1 ∧
    w_io w2 = w_io w ++ (if resp_event_pending resp && negb (diag_event_pending (p_diagnostics (w_port w))) &&
                            cfg_event_pending_handler config
                         then [IoEventPending (cfg_event_user config)] else []))).
  { apply wp_when; intros Hn; rewrite Hn; [by unfold emit; wp_steps|]. by rewrite app_nil_r. }
  intros ? w2 [Hw2 Hio2]. apply wp_bind, wp_zoom, wp_bind, wp_zoom, wp_assign. rewrite Hw2.
  match goal with |- wp _ _ ?s => set (p3 := s) end.
  assert (ok p3) as Hok3 by (by apply ok_set_diagnostics).
  eapply (wp_mono _ (fun _ p4 => ok p4 ∧ reply_taken resp (w_port w) p4 ∧ p_rx p4 = p_rx (w_port w) ∧
    p_isdu p4 = p_isdu (w_port w) ∧ p_event p4 = p_event (w_port w))).
  { apply wp_when; intros Hv; [|split; [done|]; unfold reply_taken; by rewrite Hv].
    apply wp_bind, wp_get, wp_bind.
    assert (take (Z.to_nat (resp_pd_len resp)) (resp_pd resp) = resp_pd resp) as Ht.
    { apply take_ge. unfold zlen in Hpz. lia. }
    assert (Forall is_u8 (resp_pd resp ++ drop (length (resp_pd resp)) (p_pd_in (w_port w)))) as Hu.
    { apply Forall_app_2; [done|]. apply Forall_drop. by eapply ok_pd_in_u8. }
    eapply wp_mem.
    { change (p_pd_in p3) with (p_pd_in (w_port w)). rewrite memcpy_prefix, Ht by lia. rewrite <- Hpz.
      unfold zlen. by rewrite Nat2Z.id. }
    apply wp_bind, wp_assign, wp_bind, wp_assign, wp_assign. split.
    - apply ok_set_pd_valid, ok_set_pd_in_len; [apply ok_set_pd_in; [done| |done]|done].
      rewrite zlen_app, zlen_drop. unfold zlen in *. lia.
    - unfold reply_taken. rewrite Hv. by split_and!. }
  intros ? p4 (Hok4 & Ht & Hrx & His & Hev). apply wp_bind.
  eapply wp_mono.
  { apply wp_partial; [|intros b w5 Hr5; exact (route_od_routed _ _ _ _ _ Hr5)].
    apply (wp_keeps (fun w => (w_io w, beside_od (w_port w)))); [|apply route_od_beside].
    by apply (route_od_safe phy config). }
  intros ? w5 [[_ Hk] Hod]. apply wp_ret. split; [done|]. unfold beside_od in Hk. cbn in Hk, Hod.
  injection Hk as Hio Hs Hpi Hpil Hpv Hd Ha Hrx5. split; [congruence|].
  unfold reply_taken in *. rewrite Hs, Hpi, Hpil, Hpv, Hd, Ha. split; [exact Ht|]. split; [congruence|].
  unfold od_routed in Hod |- *. rewrite His, Hev in Hod. exact Hod.
Qed.
End reply.

Section claims.
Context {IO : Iolinki} {laws : IolinkiLaws IO}.

(** C12: the cyclic exchange. A due tick of a port in OPERATE with process data and no
    service waiting sends exactly one frame, MC 0x00, CKT with the M-sequence type and
    the checksum over the whole frame, the output process data and zero on-request data;
    it counts the cycle, starts the cycle timer and the response deadline at [now] and
    records jitter and slip. While a reply is outstanding or the cycle time has not
    elapsed the tick changes nothing at all. *)
Theorem cyclic_tick phy config now w :
  config_ok config → cooperative phy config → port_ok phy config (w_port w) →
  p_state (w_port w) = IOLINK_MASTER_STATE_OPERATE → no_service (w_port w) →
  type0_operate (w_port w) = false → gate_open (w_port w) now →
  wp (tick_transmit true now) (fun _ w' =>
    if p_awaiting_response (w_port w) || negb (iolink_master_cycle_due_at (w_port w) now)
    then w' = w
    else frames (w_io w') = frames (w_io w) ++ [cyclic_frame (w_port w)] ∧
      exchanged now (w_port w) (w_port w')) w.
Proof. intros Hcfg Hcoop. by apply transmit_cyclic. Qed.

(** C13: process data arrive unchanged. A reply in OPERATE that the codec decodes with a
    correct checksum is accepted: it releases the port, resets the retry counter, takes
    over the event flag and notifies the application on its rising edge only; valid
    process data are then exactly what [get_pd_in] returns, and data flagged invalid
    leave the process image as it was. *)
Theorem process_data_received phy config data len frame resp w :
  config_ok config → port_ok phy config (w_port w) →
  p_state (w_port w) = IOLINK_MASTER_STATE_OPERATE → type0_operate (w_port w) = false →
  Forall is_u8 data → 1 ≤ len ≤ zlen data → slice data 0 len = Some frame →
  iolink_frame_decode_operate_response frame (cfg_pd_in_len config)
    (if p_rx_od_expected (w_port w) then p_od_len (w_port w) else 0) = Some resp →
  resp_checksum_ok resp = true →
  wp (iolink_master_on_rx PTR (Some data) len) (fun ret w' => ret = IOLINK_MASTER_STATUS_OK ∧
    w_io w' = w_io w ++ (if resp_event_pending resp && negb (diag_event_pending (p_diagnostics (w_port w))) &&
                            cfg_event_pending_handler config
                         then [IoEventPending (cfg_event_user config)] else []) ∧
    reply_taken resp (w_port w) (w_port w') ∧
    (resp_pd_valid resp = true → ∀ buffer buffer_len n,
       resp_pd_len resp ≤ buffer_len ≤ zlen buffer →
       iolink_master_get_pd_in (Some (w_port w')) (Some buffer) buffer_len (Some n) =
         Some (IOLINK_MASTER_STATUS_OK, Some (resp_pd resp ++ drop (length (resp_pd resp)) buffer),
               Some (resp_pd_len resp)))) w.
Proof.
  intros Hcfg Hok Hst Ht0 Hu Hlen Hs Hd Hc.
  pose proof (slice_Forall _ _ _ _ _ Hu Hs) as Hfu.
  destruct (law_decode _ _ _ _ Hfu Hd) as (_ & Hpl & Hpz & Hpu & Hol & Hoz & Hou & _).
  unfold iolink_master_on_rx. cbn [ptr_null orb]. destruct (Z.eqb_spec len 0) as [|_]; [lia|].
  apply wp_bind, wp_gets. rewrite Hst, Ht0. rewrite !bool_decide_false by done. cbn [andb orb].
  rewrite andb_false_r. unfold on_rx_operate. apply wp_bind, wp_gets, wp_bind.
  eapply wp_mem; [exact Hs|]. rewrite (ok_config _ _ _ Hok), Hd, Hc. cbn [negb].
  eapply wp_mono.
  { apply (operate_reply_wp phy config Hcfg resp w Hok Hou Hpu Hpl); [congruence|].
    rewrite Hol, Hoz. pose proof (od_len_range config). destruct (p_rx_od_expected _); [|lia].
    rewrite (ok_od_len _ _ _ Hok). lia. }
  intros ret w' (-> & Hio & Ht & _). split_and!; [done|done|done|].
  intros Hv buffer blen n Hb. unfold reply_taken in Ht. rewrite Hv in Ht.
  destruct Ht as (_ & _ & _ & _ & _ & Hpv & Hpil & Hpi).
  rewrite Hpl, <- Hpz in *. by apply (get_pd_in_stored _ _ _ _ _ _ Hpv Hpi).
Qed.
End claims.

(** ** Witnesses *)

Lemma wit_operate_ok : port_ok (fix_phy []) fix_config (w_port wit_operate).
Proof. apply ok_set_state, port_initial_ok. Qed.

Lemma cyclic_tick_witness :
  wp (tick_transmit true 7) (fun _ w' =>
    if p_awaiting_response (w_port wit_operate) || negb (iolink_master_cycle_due_at (w_port wit_operate) 7)
    then w' = wit_operate
    else frames (w_io w') = frames (w_io wit_operate) ++ [cyclic_frame (w_port wit_operate)] ∧
      exchanged 7 (w_port wit_operate) (w_port w')) wit_operate.
Proof.
  apply (cyclic_tick (fix_phy []) fix_config 7 wit_operate fix_config_ok (fix_cooperative [])
    wit_operate_ok); done.
Defined.

(** PD 0x11, 0x22, the flags clear and their checksum. *)
Definition wit_reply : list Z := [0x11; 0x22; reference_checksum6 [0x11; 0x22; 0]].
Definition wit_resp : iolink_frame_operate_response_t :=
  {| resp_checksum_ok := true; resp_status := reference_checksum6 [0x11; 0x22; 0];
     resp_event_pending := false; resp_pd_valid := true; resp_pd := [0x11; 0x22];
     resp_pd_len := 2; resp_od := []; resp_od_len := 0 |}.

Lemma process_data_received_witness :
  wp (iolink_master_on_rx PTR (Some wit_reply) 3) (fun ret w' => ret = IOLINK_MASTER_STATUS_OK ∧
    w_io w' = w_io wit_operate ++
      (if resp_event_pending wit_resp && negb (diag_event_pending (p_diagnostics (w_port wit_operate))) &&
          cfg_event_pending_handler fix_config
       then [IoEventPending (cfg_event_user fix_config)] else []) ∧
    reply_taken wit_resp (w_port wit_operate) (w_port w') ∧
    (resp_pd_valid wit_resp = true → ∀ buffer buffer_len n,
       resp_pd_len wit_resp ≤ buffer_len ≤ zlen buffer →
       iolink_master_get_pd_in (Some (w_port w')) (Some buffer) buffer_len (Some n) =
         Some (IOLINK_MASTER_STATUS_OK, Some (resp_pd wit_resp ++ drop (length (resp_pd wit_resp)) buffer),
               Some (resp_pd_len wit_resp)))) wit_operate.
Proof.
  apply (process_data_received (fix_phy []) fix_config wit_reply 3 wit_reply wit_resp wit_operate
    fix_config_ok wit_operate_ok); try done; decide_here.
Defined.
