(* ===== verification/IsduFrames.v ===== *)
(** * ISDU frames

    The octets of the M-sequences that carry an ISDU service, for every layout the port
    uses, and what sending one does to the port and the transport. *)

From S2P Require Import Prelude Iolinki Reference Types Fixtures Parameters Isdu IsduResponse IsduRequest IsduService Services DataStorage Events EventReadout Hal Transmit Port PortInvariant PortServices PortSafety PortCalls PortTransitions Carrier PortLink PortExchange.

(** MC of an ISDU frame: the direction, the ISDU channel and FlowCTRL. *)
Definition isdu_mc {IO : Iolinki} (read : bool) (flowctrl : Z) : Z :=
  iolink_master_encode_master_command read IOLINK_MASTER_MC_CHANNEL_ISDU flowctrl.

(** Does an ISDU frame carry output process data and the M-sequence type? *)
Definition isdu_multi (p : iolink_master_port_state_t) : bool :=
  (p_state p =e IOLINK_MASTER_STATE_OPERATE) &&
  (cfg_m_seq_type (p_config p) <>e IOLINK_MASTER_M_SEQ_TYPE_0).

(** The frame: in OPERATE with process data it has the layout of the cyclic frame,
    otherwise that of a TYPE_0 message. *)
Definition isdu_frame {IO : Iolinki} (p : iolink_master_port_state_t) (multi : bool) (mc : Z)
    (od : list Z) : list Z :=
  if multi
  then mseq_frame (iolink_master_ckt_type_bits (cfg_m_seq_type (p_config p))) mc
         (take (Z.to_nat (p_pd_out_len p)) (p_pd_out p) ++ od)
  else mseq_frame 0 mc od.

Lemma isdu_mc_value {IO : Iolinki} {laws : IolinkiLaws IO} read flowctrl : 0 ≤ flowctrl < 32 →
  isdu_mc read flowctrl = (if read then 0x80 else 0) + 0x60 + flowctrl.
Proof.
  unfold isdu_mc, iolink_master_encode_master_command. rewrite law_mc_rw, law_mc_channel, law_mc_addr.
  intros Hf. assert (is_u8 flowctrl) as Hu by (unfold is_u8; lia). revert Hf.
  destruct read; revert flowctrl Hu; refine (forall_u8_dec _ _); vm_compute; reflexivity.
Qed.

Lemma isdu_mc_read {IO : Iolinki} {laws : IolinkiLaws IO} read flowctrl t body :
  0 ≤ flowctrl < 32 → expects_od (mseq_frame t (isdu_mc read flowctrl) body) = read.
Proof.
  intros Hf. unfold expects_od, mseq_frame. change (default 0 (rd (?x :: ?l) 0)) with x.
  rewrite isdu_mc_value, law_mc_rw by done. assert (is_u8 flowctrl) as Hu by (unfold is_u8; lia). revert Hf.
  destruct read; revert flowctrl Hu; refine (forall_u8_dec _ _); vm_compute; reflexivity.
Qed.

Section build.
Context {IO : Iolinki} {laws : IolinkiLaws IO}.
Context (phy : iolink_phy_api_t) (config : iolink_master_config_t) (Hcfg : config_ok config).
Notation ok := (port_ok phy config).
Implicit Types (p : iolink_master_port_state_t) (w : world).

(** The OD octets copied behind the process data. *)
Lemma copy_od_split (h b c od : list Z) n : zlen b = n → n ≤ zlen od →
  copy_od (h ++ b ++ c) (zlen h) od n = Some (h ++ take (Z.to_nat n) od ++ c).
Proof.
  intros Hb Hl. pose proof (zlen_nonneg b). pose proof (zlen_nonneg h). pose proof (zlen_nonneg c).
  unfold copy_od. rewrite (ofold_ext _ (fun tx_buf i => x ← rd od (0 + i); wr tx_buf (zlen h + i) x))
    by (intros; by rewrite Z.add_0_l).
  rewrite ofold_copy by (rewrite ?zlen_app; lia). rewrite drop_0. apply blit_app. slia.
Qed.
(** A frame of the TYPE_0 layout, and one with the layout of the cyclic frame. *)
Lemma build_single_wp p mc (od : option (list Z)) : ok p →
  match od with Some l => p_od_len p ≤ zlen l | None => True end →
  wp (iolink_master_build_isdu_frame mc od false) (fun len p' =>
    ∃ tx, p' = p <| p_tx_buf := tx |> ∧
    slice tx 0 len = Some (isdu_frame p false mc (take (Z.to_nat (p_od_len p)) (default [] od)))) p.
Proof.
  intros Hp Hl. destruct (split_tx_buf phy config Hcfg p Hp) as (x0 & x1 & a & b & c & Heq & Ha & Hb & Hbc & _).
  apply wp_bind, wp_get. cbn [negb]. destruct od as [od|].
  - rewrite Heq, law_header_len. pose proof (od_len_range config) as Hr.
    rewrite <- (ok_od_len _ _ _ Hp) in Hr. pose proof (ok_tx_buf _ _ _ Hp) as Htx.
    unfold IOLINK_MASTER_FRAME_BUF_SIZE in Htx. rewrite Heq, zlen_app in Htx. change (zlen [x0; x1]) with 2 in Htx.
    destruct (split_at (a ++ b ++ c) (p_od_len p)) as (b2 & c2 & Hc2 & Hb2); [lia|]. rewrite Hc2.
    apply wp_bind. eapply wp_mem; [apply wr_mc|]. apply wp_bind. eapply wp_mem; [apply wr_ckt|].
    apply wp_bind. eapply wp_mem; [apply (copy_od_split [mc; 0]); done|]. cbv zeta. cbn [default from_option]. unfold id.
    set (l := take _ od). assert (p_od_len p = zlen l) as Hlen by (unfold l; slia).
    apply wp_bind. eapply wp_mem; [rewrite Hlen; by apply fold_checksum_split|].
    apply wp_bind, wp_assign, wp_ret. eexists. split; [done|].
    replace (2 + p_od_len p) with (zlen (mseq_frame 0 mc l)) by (unfold mseq_frame; rewrite !zlen_cons; lia).
    exact (slice_app [] _ c2).
  - cbn [default from_option]. unfold id. rewrite take_nil.
    pose proof (ok_tx_buf _ _ _ Hp) as Htx. unfold IOLINK_MASTER_FRAME_BUF_SIZE in Htx.
    rewrite law_encode_type0 by lia. apply wp_bind, wp_assign, wp_ret. eexists. split; [done|].
    exact (slice_app [] [mc; iolink_checksum6 [mc; 0]] _).
Qed.

Lemma build_multi_wp p mc (od : option (list Z)) : ok p →
  match od with Some l => p_od_len p ≤ zlen l | None => True end →
  wp (iolink_master_build_isdu_frame mc od true) (fun len p' =>
    ∃ tx, p' = p <| p_tx_buf := tx |> ∧
    slice tx 0 len = Some (isdu_frame p true mc (take (Z.to_nat (p_od_len p)) (default [] od)))) p.
Proof.
  intros Hp Hl. destruct (split_tx_buf phy config Hcfg p Hp) as (x0 & x1 & a & b & c & Heq & Ha & Hb & Hbc & Hpl).
  apply wp_bind, wp_get. cbn [negb]. cbv zeta. rewrite Heq, law_header_len.
  apply wp_bind. eapply wp_mem; [apply wr_mc|]. apply wp_bind. eapply wp_mem; [apply wr_ckt|].
  apply wp_bind. eapply wp_mem; [by apply (copy_pd_split phy config)|]. set (pd := take _ (p_pd_out p)) in *.
  set (t := iolink_master_ckt_type_bits _).
  assert (2 + p_pd_out_len p = zlen ([mc; t] ++ pd)) as Hpos by (rewrite zlen_app; change (zlen [mc; t]) with 2; lia).
  pose proof (od_len_range config) as Hr. rewrite <- (ok_od_len _ _ _ Hp) in Hr.
  set (n := if null od then 0 else p_od_len p).
  assert (take (Z.to_nat n) (default [] od) = take (Z.to_nat (p_od_len p)) (default [] od)) as Htake.
  { unfold n. destruct od; cbn [null default from_option]; unfold id; by rewrite ?take_nil. }
  assert (∃ b2 c2, b ++ c = b2 ++ c2 ∧ zlen b2 = n ∧ n ≤ zlen (default [] od)) as (b2 & c2 & Hc2 & Hb2 & Hn).
  { unfold n. destruct od; cbn [null default from_option]; [by exists b, c|]. exists [], (b ++ c). by rewrite !zlen_nil. }
  rewrite Hc2. apply wp_bind. eapply wp_mem.
  { rewrite Hpos, app_assoc. by apply copy_od_split. }
  rewrite Htake. set (l := take _ (default [] od)).
  pose proof (zlen_nonneg b2).
  assert (zlen l = n) as Hln by (unfold l; rewrite <- Htake, zlen_take; lia).
  assert (2 + p_pd_out_len p + n = 2 + zlen (pd ++ l)) as Hlen by (rewrite zlen_app; lia).
  apply wp_bind. eapply wp_mem.
  { rewrite Hlen, <- app_assoc, (app_assoc pd). apply fold_checksum_split, type_bits_u8. }
  rewrite Hlen. apply wp_bind, wp_assign, wp_ret. eexists. split; [done|].
  replace (2 + zlen (pd ++ l)) with (zlen (mseq_frame t mc (pd ++ l))) by (unfold mseq_frame; rewrite !zlen_cons; lia).
  exact (slice_app [] _ c2).
Qed.
End build.

(** ** Sending one *)

Section send.
Context {IO : Iolinki} {laws : IolinkiLaws IO}.
Context (phy : iolink_phy_api_t) (config : iolink_master_config_t) (Hcfg : config_ok config).
Context (T : list Z → (list io → Prop) → list io → Prop) (W : (list io → Prop) → list io → Prop).
Context (Hcar : carrier phy config T W).
Notation ok := (port_ok phy config).
Implicit Types (p : iolink_master_port_state_t) (w : world).

(** A service is in progress, and neither IDLE nor ABORT has to be sent first. *)
Definition service_active p : Prop :=
  isdu_op (p_isdu p) ≠ IOLINK_MASTER_ISDU_OP_NONE ∧ isdu_done (p_isdu p) = false ∧
  isdu_idle_pending (p_isdu p) = false ∧ isdu_abort_pending (p_isdu p) = false ∧
  ev_phase (p_event p) = IOLINK_MASTER_EVENT_PHASE_NONE.

(** The frame of an active service, given the octets [fill_od] returns. *)
Definition service_frame p (od : list Z) : list Z :=
  let read := isdu_phase (p_isdu p) <>e IOLINK_MASTER_ISDU_PHASE_REQUEST in
  isdu_frame p (isdu_multi p) (isdu_mc read (isdu_flowctrl (p_isdu p)))
    (if read then [] else take (Z.to_nat (p_od_len p)) od).

(** What the port looks like after it has sent a frame of the service, which then is in
    state [s]. *)
Definition service_sent p (s : iolink_master_isdu_state_t) p' : Prop :=
  ∃ tx, p' = p <| p_isdu := s |> <| p_tx_buf := tx |>
    <| p_rx_od_expected := isdu_phase (p_isdu p) <>e IOLINK_MASTER_ISDU_PHASE_REQUEST |>.

Lemma send_isdu_carried (F : option (list Z) → iolink_master_isdu_state_t → Prop)
    (K : iolink_master_isdu_state_t → list io → Prop) w :
  ok (w_port w) → service_active (w_port w) → 0 ≤ isdu_flowctrl (p_isdu (w_port w)) < 32 →
  wp (iolink_master_isdu_fill_od PTR (Some (zeros IOLINK_ISDU_BUFFER_SIZE)) (p_od_len (w_port w))) F
    (p_isdu (w_port w)) →
  (∀ od s, F (Some od) s → p_od_len (w_port w) ≤ zlen od → T (service_frame (w_port w) od) (K s) (w_io w)) →
  wp iolink_master_send_isdu (fun sent w' => sent = true ∧
    ∃ od s, F (Some od) s ∧ K s (w_io w') ∧ service_sent (w_port w) s (w_port w')) w.
Proof.
  intros Hok (Hop & Hdone & Hi & Ha & _) Hflow HF HT. pose proof law_isdu_buffer as HB.
  pose proof (od_len_range config) as Hod. rewrite <- (ok_od_len _ _ _ Hok) in Hod.
  unfold iolink_master_send_isdu. apply wp_bind, wp_gets. cbv zeta. apply wp_bind, wp_zoom, wp_zoom.
  unfold iolink_master_isdu_take_abort. cbn [ptr_null]. apply wp_bind, wp_get. rewrite Ha.
  apply wp_ret, wp_bind, wp_zoom, wp_zoom.
  unfold iolink_master_isdu_take_idle. cbn [ptr_null]. apply wp_bind, wp_get. cbn. rewrite Hi.
  apply wp_ret, wp_bind, wp_gets. cbn. unfold iolink_master_isdu_channel_access.
  rewrite bool_decide_false by done. rewrite Hdone. cbn [andb negb].
  set (read := negb (bool_decide (isdu_phase (p_isdu (w_port w)) = IOLINK_MASTER_ISDU_PHASE_REQUEST))) in *.
  fold (isdu_multi (w_port w)). set (mc := iolink_master_encode_master_command _ _ _).
  cbv zeta. apply wp_bind, wp_zoom, wp_zoom.
  match goal with |- wp _ _ (p_isdu ?q) => replace q with (w_port w) by (by destruct (w_port w)) end.
  eapply wp_mono.
  { apply wp_and; [|exact HF]. apply fill_od_inv; [by eapply ok_isdu| |lia|by apply zeros_Forall].
    rewrite zlen_zeros by lia. lia. }
  intros r s [(Hs & od & -> & Hl & Hu) HFs]. rewrite zlen_zeros in Hl by lia.
  match goal with |- wp _ _ ?q => set (w1 := q) end.
  assert (ok (w_port w1)) as Hok1 by (by apply ok_set_isdu).
  assert (isdu_frame (w_port w1) (isdu_multi (w_port w)) mc
    (take (Z.to_nat (p_od_len (w_port w1))) (default [] (if read then None else Some od))) =
    service_frame (w_port w) od) as Hframe.
  { unfold service_frame. fold read. by destruct read; cbn [default from_option]; rewrite ?take_nil. }
  apply wp_bind, wp_zoom. eapply wp_mono.
  { apply wp_and.
    - apply (build_isdu_frame_builds phy config Hcfg); [apply master_command_u8| |exact Hok1].
      destruct read; [done|]. rewrite <- (ok_od_len _ _ _ Hok). split; [done|lia].
    - instantiate (1 := fun len p' => ∃ tx, p' = w_port w1 <| p_tx_buf := tx |> ∧
        slice tx 0 len = Some (service_frame (w_port w) od)).
      rewrite <- Hframe. destruct (isdu_multi (w_port w)).
      + apply (build_multi_wp phy config Hcfg); [exact Hok1|]. destruct read; [done|]. cbn. lia.
      + apply (build_single_wp phy config Hcfg); [exact Hok1|]. destruct read; [done|]. cbn. lia. }
  intros len p2 [[Hok2 Hlen] (tx & -> & Hsl)]. unfold send_frame.
  destruct (Z.ltb_spec 0 len); [|lia]. cbn [when]. apply wp_bind, wp_bind. eapply wp_mono.
  { apply (send_tx_buf_carried phy config _ _ Hcar len (service_frame (w_port w) od) (K s));
      [exact Hok2|exact Hsl|]. apply HT; [done|lia]. }
  intros sent w3 (-> & HK & Hw3). apply wp_ret, wp_ret. split; [done|]. exists od, s.
  split; [done|]. split; [done|]. exists tx. rewrite Hw3. cbn [p_tx_buf set w_port].
  rewrite (expects_od_slice _ _ _ Hsl) by (unfold service_frame, isdu_frame, mseq_frame; by destruct (isdu_multi _)).
  assert (expects_od (service_frame (w_port w) od) = read) as ->; [|done].
  unfold service_frame, isdu_frame. fold read. by destruct (isdu_multi _); apply isdu_mc_read.
Qed.

(** The step of the state machine that sends it. *)
Lemma process_service now timed (F : option (list Z) → iolink_master_isdu_state_t → Prop)
    (K : iolink_master_isdu_state_t → list io → Prop) w :
  ok (w_port w) → acyclic_state (p_state (w_port w)) → service_active (w_port w) →
  timed && p_send_ready_valid (w_port w) && (now <? p_send_ready_at_100us (w_port w)) = false →
  wp (iolink_master_isdu_fill_od PTR (Some (zeros IOLINK_ISDU_BUFFER_SIZE)) (p_od_len (w_port w))) F
    (p_isdu (w_port w)) →
  (∀ od s, F (Some od) s → p_od_len (w_port w) ≤ zlen od → T (service_frame (w_port w) od) (K s) (w_io w)) →
  wp (iolink_master_process_at PTR now timed) (fun _ w' => ok (w_port w') ∧
    ∃ od s, F (Some od) s ∧ K s (w_io w') ∧ service_sent (w_port w) s (w_port w')) w.
Proof.
  intros Hok Hst Hact Hgate HF HT. apply wp_and; [by apply (process_at_safe phy config)|].
  assert (0 ≤ isdu_flowctrl (p_isdu (w_port w)) < 32) as Hflow.
  { destruct (ok_isdu _ _ _ Hok) as [Hwf _]. by apply wf_flowctrl. }
  unfold iolink_master_process_at. cbn [ptr_null andb]. apply wp_bind, wp_gets.
  rewrite (ok_phy _ _ _ Hok), (carrier_ptr _ _ _ _ Hcar), Hgate.
  destruct Hst as [Hst|Hst]; rewrite Hst; unfold process_operate, process_preoperate.
  all: apply wp_bind; (eapply wp_mono; [apply send_event_none, Hact|]); intros ? ? [-> ->].
  all: apply wp_bind; (eapply wp_mono; [by eapply send_isdu_carried|]); intros ? w1 [-> H1]; by apply wp_ret.
Qed.
End send.
