(* ===== verification/PortTiming.v ===== *)
(** * When a port sends, and when it wakes up

    At most one M-sequence per tick, the instants the tick engine acts on, the bit-time
    conversions and the link quality, with the places where 32-bit time wraps. *)

From S2P Require Import Prelude Iolinki Reference Types Fixtures Parameters Isdu IsduResponse IsduRequest IsduService Services DataStorage Events EventReadout Hal Transmit Port PortInvariant PortServices PortSafety PortCalls PortTransitions Carrier PortLink PortExchange IsduFrames.

(** ** Frames per tick *)

(** The frames sent so far. *)
Definition sent_frames (w : world) : list (list Z) := frames (w_io w).

(** [m] sends at most [n] frames. *)
Definition at_most {A : Type} (n : nat) (m : M world A) : Prop :=
  ∀ w a w', m w = Ok a w' → ∃ l, sent_frames w' = sent_frames w ++ l ∧ (length l ≤ n)%nat.

(** [m] sends at most one frame, and none when it answers [false]. *)
Definition sends_if (m : M world bool) : Prop :=
  ∀ w b w', m w = Ok b w' → ∃ l, sent_frames w' = sent_frames w ++ l ∧
    (length l ≤ if b then 1 else 0)%nat.

Section counting.
Context {IO : Iolinki}.
Notation mute := (keeps sent_frames).

Lemma at_most_mute {A} n (m : M world A) : mute m → at_most n m.
Proof. intros Hm w a w' H. exists []. rewrite app_nil_r. split; [by eapply Hm|cbn; lia]. Qed.

Lemma at_most_bind {A B} n (m : M world A) (k : A → M world B) :
  mute m → (∀ a, at_most n (k a)) → at_most n (mbind k m).
Proof.
  intros Hm Hk w b w' (a & w1 & H1 & H2)%bind_ok. rewrite <- (Hm _ _ _ H1). by eapply Hk.
Qed.

Lemma at_most_then {A B} n (m : M world A) (k : A → M world B) :
  at_most n m → (∀ a, mute (k a)) → at_most n (mbind k m).
Proof.
  intros Hm Hk w b w' (a & w1 & H1 & H2)%bind_ok. rewrite (Hk _ _ _ _ H2). by eapply Hm.
Qed.

(** A sender that answers whether it sent, then something else if it did not. *)
Lemma at_most_else {A} (m : M world bool) (k : M world A) (r : A) :
  sends_if m → at_most 1 k → at_most 1 (sent ← m; if (sent : bool) then mret r else k).
Proof.
  intros Hm Hk w b w' (sent & w1 & H1 & H2)%bind_ok.
  destruct (Hm _ _ _ H1) as (l & Hl & Hn). destruct sent.
  - injection H2 as _ <-. eauto.
  - destruct l; [|cbn in Hn; lia]. rewrite app_nil_r in Hl. rewrite <- Hl. by eapply Hk.
Qed.

Lemma mute_call {A} (f : list io → A) entry : (∀ a, frames [entry a] = []) → mute (call f entry).
Proof.
  intros He w a w' [= _ <-]. unfold sent_frames. cbn. by rewrite frames_app, He, app_nil_r.
Qed.
Lemma mute_emit entry : frames [entry] = [] → mute (emit entry).
Proof.
  intros He w a w' H. injection H as _ <-. unfold sent_frames. cbn. by rewrite frames_app, He, app_nil_r.
Qed.
End counting.
#[export] Hint Extern 2 (keeps sent_frames (call _ _)) => apply mute_call; done : keeps.
#[export] Hint Extern 2 (keeps sent_frames (emit _)) => apply mute_emit; done : keeps.

Section functions.
Context {IO : Iolinki}.
Notation mute := (keeps sent_frames).

Lemma restart_establish_mute now timed : mute (iolink_master_restart_establish now timed).
Proof. keeps_deep. Qed.
Hint Resolve restart_establish_mute : keeps.
Lemma on_timeout_mute now timed : mute (iolink_master_on_timeout_at PTR now timed).
Proof. keeps_deep. Qed.
Lemma on_rx_mute data len : mute (iolink_master_on_rx PTR data len).
Proof. keeps_deep. Qed.
Hint Resolve on_rx_mute : keeps.
Lemma poll_loop_mute n user recv_byte expected count :
  mute (poll_loop n user recv_byte expected count).
Proof.
  revert count. induction n as [|n IH]; intros count; cbn [poll_loop]; [done|]. keeps_deep.
Qed.
End functions.
#[export] Hint Resolve restart_establish_mute on_timeout_mute on_rx_mute poll_loop_mute : keeps.

Section senders.
Context {IO : Iolinki}.
Notation mute := (keeps sent_frames).
Implicit Types now : Z.

Lemma send_call_once send user frame :
  at_most 1 (call (fun tr => send tr frame) (IoSend user frame)).
Proof.
  intros w a w' [= _ <-]. exists [frame]. unfold sent_frames. cbn. by rewrite frames_app.
Qed.

Lemma send_full_once data len : at_most 1 (iolink_master_send_full data len).
Proof.
  unfold iolink_master_send_full. apply at_most_bind; [keeps_deep|intros p]. apply at_most_bind; [keeps_deep|].
  intros mc. cbv zeta. apply at_most_bind; [keeps_deep|intros ready].
  destruct (negb ready); [apply at_most_mute; keeps_deep|].
  do 3 (apply at_most_bind; [keeps_deep|intros ?]).
  apply at_most_then; [apply send_call_once|]. intros sent. keeps_deep.
Qed.

Lemma send_tx_buf_once len : at_most 1 (send_tx_buf len).
Proof. apply at_most_bind; [keeps_deep|]. intros p. apply send_full_once. Qed.

Lemma send_frame_if len : sends_if (send_frame len).
Proof.
  intros w b w' (u & w1 & H1 & H2)%bind_ok. injection H2 as <- <-.
  destruct (0 <? len); cbn [when] in H1.
  - apply bind_ok in H1 as (sent & w2 & H1 & H2). injection H2 as _ <-. by eapply send_tx_buf_once.
  - injection H1 as _ <-. exists []. by rewrite app_nil_r.
Qed.

Lemma sends_if_bind {A} (m : M world A) (k : A → M world bool) :
  mute m → (∀ a, sends_if (k a)) → sends_if (mbind k m).
Proof. intros Hm Hk w b w' (a & w1 & H1 & H2)%bind_ok. rewrite <- (Hm _ _ _ H1). by eapply Hk. Qed.

Lemma sends_if_ret b : sends_if (mret b).
Proof. intros w a w' [= _ <-]. exists []. rewrite app_nil_r. split; [done|cbn; lia]. Qed.

Lemma send_isdu_if : sends_if iolink_master_send_isdu.
Proof.
  unfold iolink_master_send_isdu, send_isdu_control. pose proof send_frame_if.
  apply sends_if_bind; [keeps_deep|intros p]. cbv zeta.
  apply sends_if_bind; [keeps_deep|intros []]; [by apply sends_if_bind; [keeps_deep|]|].
  apply sends_if_bind; [keeps_deep|intros []]; [by apply sends_if_bind; [keeps_deep|]|].
  apply sends_if_bind; [keeps_deep|intros p2].
  destruct (iolink_master_isdu_channel_access _) as [[read fc]|]; [|apply sends_if_ret]. cbv zeta.
  apply sends_if_bind; [keeps_deep|intros od]. by apply sends_if_bind; [keeps_deep|].
Qed.

Lemma send_event_if : sends_if iolink_master_send_event.
Proof.
  unfold iolink_master_send_event. apply sends_if_bind; [keeps_deep|intros p].
  destruct (iolink_master_event_channel_access _) as [[[read addr] n]|]; [|apply sends_if_ret].
  apply sends_if_bind; [keeps_deep|intros len].
  intros w b w' (u & w1 & H1 & H2)%bind_ok.
  assert (mute (when (negb read) (zoom w_port (zoom p_event (iolink_master_event_on_written PTR)));;
    mret (0 <? len))) as Hm by keeps_deep.
  rewrite (Hm _ _ _ H2). apply bind_ok in H2 as (u2 & w2 & _ & H2). injection H2 as <- _.
  destruct (0 <? len); cbn [when] in H1.
  - refine (at_most_then 1 _ _ (send_tx_buf_once len) _ _ _ _ H1). intros sent. keeps_deep.
  - injection H1 as _ <-. exists []. by rewrite app_nil_r.
Qed.

Lemma send_then_once len sent : mute sent → at_most 1 (send_then len sent).
Proof.
  intros Hs. unfold send_then, when. destruct (0 <? len); [|apply at_most_mute; keeps_deep].
  apply at_most_then; [apply send_tx_buf_once|]. intros []; [done|keeps_deep].
Qed.

Lemma wake_up_once : at_most 1 iolink_master_wake_up.
Proof.
  unfold iolink_master_wake_up. apply at_most_bind; [keeps_deep|intros p].
  destruct (cfg_wake_up _); [apply at_most_mute; keeps_deep|].
  do 2 (apply at_most_bind; [keeps_deep|intros ?]). apply send_tx_buf_once.
Qed.

Lemma process_startup_once now timed : at_most 1 (process_startup now timed).
Proof.
  unfold process_startup, startup_wake, startup_send_type0.
  apply at_most_bind; [keeps_deep|intros p]. apply at_most_bind; [keeps_deep|intros ok].
  destruct (negb ok); [apply at_most_mute; keeps_deep|]. apply at_most_bind; [keeps_deep|intros p2].
  destruct (_ =e _).
  - apply at_most_then; [apply wake_up_once|]. intros woken. keeps_deep.
  - unfold when at 1. destruct (_ =e _); [|apply at_most_mute; keeps_deep].
    apply at_most_bind; [keeps_deep|intros len]. apply send_then_once. keeps_deep.
Qed.

Lemma process_preoperate_once : at_most 1 process_preoperate.
Proof.
  unfold process_preoperate. apply at_most_else; [apply send_event_if|].
  apply at_most_else; [apply send_isdu_if|]. unfold preoperate_validate.
  apply at_most_bind; [keeps_deep|intros []]; cbn [when]; [|apply at_most_mute; keeps_deep].
  apply at_most_bind; [keeps_deep|intros len]. apply send_then_once. keeps_deep.
Qed.

Lemma process_operate_once : at_most 1 process_operate.
Proof.
  unfold process_operate, operate_type0. apply at_most_else; [apply send_event_if|].
  apply at_most_else; [apply send_isdu_if|]. apply at_most_bind; [keeps_deep|intros p].
  destruct (type0_operate p); (apply at_most_bind; [keeps_deep|intros len]).
  - apply send_then_once. keeps_deep.
  - apply at_most_then; [apply send_tx_buf_once|]. intros sent. keeps_deep.
Qed.

Lemma process_at_once now timed : at_most 1 (iolink_master_process_at PTR now timed).
Proof.
  unfold iolink_master_process_at. cbn [ptr_null]. apply at_most_bind; [keeps_deep|intros p].
  destruct (p_phy p) as [phy|]; [|apply at_most_mute; keeps_deep].
  destruct (null _); [apply at_most_mute; keeps_deep|].
  destruct (_ && _); [apply at_most_mute; keeps_deep|].
  destruct (p_state p); try (apply at_most_mute; apply keeps_ret).
  - apply process_startup_once.
  - apply process_preoperate_once.
  - apply process_operate_once.
Qed.

Lemma tick_transmit_once pace now : at_most 1 (tick_transmit pace now).
Proof.
  unfold tick_transmit. apply at_most_bind; [keeps_deep|intros p].
  destruct (p_awaiting_response p); [apply at_most_mute; keeps_deep|].
  destruct (_ && _); [apply at_most_mute; keeps_deep|]. cbv zeta.
  apply at_most_then; [apply process_at_once|]. intros ?. keeps_deep.
Qed.

Lemma tick_timeout_mute pace now rx_ret : mute (tick_timeout pace now rx_ret).
Proof. unfold tick_timeout. keeps_deep. Qed.

(** A tick sends at most one frame, and only a CYCLE_DUE tick sends one. *)
Lemma tick_common_once fuel port event pace now :
  at_most (if event =e IOLINK_MASTER_TICK_CYCLE_DUE then 1 else 0)
    (iolink_master_tick_common fuel port event pace now).
Proof.
  unfold iolink_master_tick_common. destruct (_ || _); [apply at_most_mute; keeps_deep|].
  apply at_most_bind; [keeps_deep|intros rx_ret]. destruct (rx_ret <? 0); [apply at_most_mute; keeps_deep|].
  pose proof tick_timeout_mute. apply at_most_bind; [keeps_deep|intros [ret|]]; [apply at_most_mute; keeps_deep|].
  destruct (_ =e _); cbn [when].
  - apply at_most_then; [apply tick_transmit_once|]. intros ?. keeps_deep.
  - apply at_most_mute. keeps_deep.
Qed.
End senders.

(** ** Bit times and deadlines *)

Section times.
Context {IO : Iolinki} {laws : IolinkiLaws IO}.
Implicit Types p : iolink_master_port_state_t.

Lemma t_bit_range b : 4340 ≤ iolink_master_t_bit_ns b ≤ 208330.
Proof.
  destruct b; unfold iolink_master_t_bit_ns, IOLINK_MASTER_T_BIT_COM1_NS,
    IOLINK_MASTER_T_BIT_COM2_NS, IOLINK_MASTER_T_BIT_COM3_NS; lia.
Qed.

(** The conversion rounds up, without overflow. *)
Lemma tbit_ceiling b t : is_u16 t →
  iolink_master_tbit_to_100us b t * 100000 < iolink_master_t_bit_ns b * t + 100000 ∧
  iolink_master_t_bit_ns b * t ≤ iolink_master_tbit_to_100us b t * 100000.
Proof.
  unfold is_u16. intros Ht. pose proof (t_bit_range b) as Hb.
  unfold iolink_master_tbit_to_100us, IOLINK_MASTER_NS_PER_100US. cbv zeta.
  set (ns := iolink_master_t_bit_ns b * t). assert (0 ≤ ns < 15000000000) as Hns by (unfold ns; nia).
  unfold u64. rewrite (Z.mod_small ns) by lia. rewrite Z.mod_small by lia.
  pose proof (Z.div_mod (ns + 100000 - 1) 100000 ltac:(lia)) as Hd.
  pose proof (Z.mod_pos_bound (ns + 100000 - 1) 100000 ltac:(lia)) as Hm.
  rewrite u32_small by (unfold is_u32; lia). lia.
Qed.

(** ** The next instant *)

Definition no_wrap p now : Prop :=
  0 ≤ p_last_cycle_start_100us p ≤ now ∧ now < 4294967296 ∧
  0 ≤ cfg_min_cycle_time (p_config p) ∧
  p_last_cycle_start_100us p + cfg_min_cycle_time (p_config p) < 4294967296.

(** Is there anything for a tick at [now] to do? *)
Definition has_work p now : bool :=
  if p_awaiting_response p then iolink_master_response_due_at p now
  else iolink_master_cycle_due_at p now &&
       negb (p_send_ready_valid p && (now <? p_send_ready_at_100us p)).

Lemma cycle_due_exact p now :
  cycle_unpaced p = false → no_wrap p now →
  iolink_master_cycle_due_at p now =
    (p_last_cycle_start_100us p + cfg_min_cycle_time (p_config p) <=? now).
Proof.
  intros Hu (Hl & Hn & Hm & Hs). unfold iolink_master_cycle_due_at. rewrite Hu.
  rewrite u32_small by (unfold is_u32; lia).
  destruct (Z.leb_spec (cfg_min_cycle_time (p_config p)) (now - p_last_cycle_start_100us p)),
    (Z.leb_spec (p_last_cycle_start_100us p + cfg_min_cycle_time (p_config p)) now); lia.
Qed.

(** A tick without work does not touch the port or its environment. *)
Lemma idle_tick p tr now :
  has_work p now = false → null (p_phy p) = false →
  tick_transmit true now {| w_port := p; w_io := tr |} = Ok tt {| w_port := p; w_io := tr |}.
Proof.
  unfold has_work, tick_transmit. intros Hw Hphy. unfold mbind, M_bind, gets. cbn [w_port].
  destruct (p_awaiting_response p); [done|].
  destruct (iolink_master_cycle_due_at p now); [|done]. cbn [andb negb] in *.
  apply negb_false_iff in Hw.
  unfold iolink_master_process_at, mbind, M_bind, gets. cbn [ptr_null w_port].
  destruct (p_phy p) as [phy|]; [|done].
  destruct (null (phy_send phy)); [|cbn [andb]; rewrite Hw]; cbn; by rewrite Z.eqb_refl.
Qed.

Lemma unpaced_due p now : cycle_unpaced p = true → iolink_master_cycle_due_at p now = true.
Proof. intros Hu. unfold iolink_master_cycle_due_at. by rewrite Hu. Qed.
End times.

Section claims.
Context {IO : Iolinki} {laws : IolinkiLaws IO}.

(** C30: one M-sequence at a time on the transmit side. A tick of any kind, in any state
    and with any answers of the environment, sends at most one frame, and a tick that is
    not CYCLE_DUE sends none. *)
Theorem one_frame_per_tick phy fuel pending event pace now w :
  adapter_ok phy fuel pending → initialised phy w →
  wp (iolink_master_tick_common fuel PTR event pace now) (fun _ w' => initialised phy w' ∧
    ∃ l, sent_frames w' = sent_frames w ++ l ∧
      (length l ≤ if event =e IOLINK_MASTER_TICK_CYCLE_DUE then 1 else 0)%nat) w.
Proof.
  intros Ha (config & Hcfg & Hw). eapply wp_mono.
  { apply wp_partial; [by eapply tick_common_safe|]. apply tick_common_once. }
  intros ret w' [Hw' Hl]. split; [by exists config|done].
Qed.

(** The instant a port asks for is the first one at which it has work. *)
Lemma port_next_time p now out :
  no_wrap p now → null (p_phy p) = false →
  (p_state p = IOLINK_MASTER_STATE_STARTUP ∨ p_state p = IOLINK_MASTER_STATE_OPERATE) →
  (p_state p = IOLINK_MASTER_STATE_OPERATE → gate_open p now) →
  ∃ t, iolink_master_get_next_tick_time (Some p) now (Some out) = (IOLINK_MASTER_STATUS_OK, Some t) ∧
    now ≤ t ∧ has_work p t = true ∧
    ∀ t', now ≤ t' < t → has_work p t' = false ∧
      ∀ tr, tick_transmit true t' {| w_port := p; w_io := tr |} = Ok tt {| w_port := p; w_io := tr |}.
Proof.
  intros Hwrap Hphy Hst Hgate.
  assert (∀ t, now ≤ t → has_work p t = true → (∀ t', now ≤ t' < t → has_work p t' = false) →
    now ≤ t ∧ has_work p t = true ∧ ∀ t', now ≤ t' < t → has_work p t' = false ∧
      ∀ tr, tick_transmit true t' {| w_port := p; w_io := tr |} = Ok tt {| w_port := p; w_io := tr |}) as Hwork.
  { intros t Hn Ht Hb. split_and!; [done..|]. intros t' Ht'. split; [by apply Hb|].
    intros tr. apply idle_tick; [by apply Hb|done]. }
  unfold iolink_master_get_next_tick_time.
  destruct ((p_state p =e IOLINK_MASTER_STATE_INACTIVE) || (p_state p =e IOLINK_MASTER_STATE_ERROR)) eqn:Hs.
  { norm_bool. destruct Hs, Hst; congruence. }
  destruct (p_awaiting_response p) eqn:Ha.
  - unfold has_work in *. rewrite Ha in *. unfold iolink_master_response_due_at in *. rewrite Ha in *.
    destruct (Z.leb_spec (p_response_deadline_100us p) now); eexists; (split; [done|]); apply Hwork; cbn [andb];
      try lia; intros; by (apply Z.leb_le || apply Z.leb_gt); lia.
  - unfold has_work in *. rewrite Ha in *.
    destruct ((p_state p =e IOLINK_MASTER_STATE_STARTUP) && p_send_ready_valid p &&
      (now <? p_send_ready_at_100us p)) eqn:Hg.
    + apply andb_true_iff in Hg as [[Hst' Hv]%andb_true_iff Hlt].
      apply bool_decide_eq_true in Hst'. apply Z.ltb_lt in Hlt. rewrite Hv in *.
      assert (cycle_unpaced p = true) as Hu.
      { unfold cycle_unpaced. by rewrite Hst', bool_decide_false by done. }
      eexists. split; [done|]. apply Hwork; [lia|intros..]; rewrite unpaced_due by done; cbn [andb].
      * by rewrite Z.ltb_irrefl.
      * apply negb_false_iff, Z.ltb_lt. lia.
    + assert (gate_open p now) as Hopen.
      { unfold gate_open. destruct Hst as [Hst|Hst]; [|by apply Hgate].
        rewrite Hst, bool_decide_true in Hg by done. exact Hg. }
      assert (∀ t, now ≤ t → p_send_ready_valid p && (t <? p_send_ready_at_100us p) = false) as Hlater.
      { intros t Ht. unfold gate_open in Hopen. norm_bool. destruct Hopen; [by left|right; lia]. }
      destruct (cycle_unpaced p) eqn:Hu.
      * eexists. split; [done|]. apply Hwork; [lia| |intros; lia].
        by rewrite unpaced_due, Hlater by (done || lia).
      * pose proof Hwrap as (Hl & Hn & Hm & Hs'). rewrite u32_small by (unfold is_u32; lia).
        destruct (Z.leb_spec (p_last_cycle_start_100us p + cfg_min_cycle_time (p_config p)) now);
          eexists; (split; [done|]); apply Hwork; try lia; intros;
          (rewrite cycle_due_exact by (done || (split_and!; lia))).
        -- rewrite Hlater by lia. rewrite andb_true_r. apply Z.leb_le. lia.
        -- rewrite Hlater by lia. rewrite andb_true_r. apply Z.leb_le. lia.
        -- apply andb_false_iff. left. apply Z.leb_gt. lia.
Qed.

End claims.

(** ** ISDU frames in OPERATE *)

Section isdu_frames.
Context {IO : Iolinki} {laws : IolinkiLaws IO}.
Context (phy : iolink_phy_api_t) (config : iolink_master_config_t) (Hcfg : config_ok config)
  (Hcoop : cooperative phy config).
Notation ok := (port_ok phy config).
Implicit Types (p : iolink_master_port_state_t) (w : world).

(** What an ISDU frame leaves alone in the port. *)
Definition timing p :=
  (p_state p, p_config p, p_cycle_count p, p_awaiting_response p, p_cycle_timer_valid p,
   p_last_cycle_start_100us p, p_send_ready_at_100us p, p_send_ready_valid p).

Lemma process_active now w :
  ok (w_port w) → acyclic_state (p_state (w_port w)) → service_active (w_port w) → gate_open (w_port w) now →
  wp (iolink_master_process_at PTR now true) (fun _ w' => timing (w_port w') = timing (w_port w) ∧
    ∃ frame, sent_frames w' = sent_frames w ++ [frame]) w.
Proof.
  intros Hok Hst Hact Hgate. pose proof law_isdu_buffer. pose proof (od_len_range config).
  eapply wp_mono.
  { apply (process_service phy config Hcfg _ _ (coop_carrier phy config Hcoop) now true (fun _ _ => True)
      (fun _ tr' => ∃ frame, frames tr' = frames (w_io w) ++ [frame])); try done.
    - eapply wp_mono; [apply fill_od_inv; [by eapply ok_isdu| |rewrite (ok_od_len _ _ _ Hok); lia|by apply zeros_Forall]|done].
      rewrite zlen_zeros, (ok_od_len _ _ _ Hok) by lia. lia.
    - intros od s _ _ tr' Hf. by eexists. }
  intros ? w' (_ & od & s & _ & Hf & tx & Hw'). by rewrite Hw'.
Qed.
End isdu_frames.

Section more_claims.
Context {IO : Iolinki} {laws : IolinkiLaws IO}.

(** C37: an ISDU frame in OPERATE is not followed by a wait for its reply. The tick that
    sends it arms no response deadline and does not restart the cycle timer, so the same
    instant is still due: the next tick sends again although the reply is outstanding. *)
Theorem isdu_frame_is_not_awaited phy config now w :
  config_ok config → cooperative phy config → port_ok phy config (w_port w) →
  p_state (w_port w) = IOLINK_MASTER_STATE_OPERATE → service_active (w_port w) →
  gate_open (w_port w) now → p_awaiting_response (w_port w) = false →
  iolink_master_cycle_due_at (w_port w) now = true →
  wp (tick_transmit true now) (fun _ w' => has_work (w_port w') now = true ∧
    p_awaiting_response (w_port w') = false ∧
    ∃ frame, sent_frames w' = sent_frames w ++ [frame]) w.
Proof.
  intros Hcfg Hcoop Hok Hst Hact Hgate Haw Hdue. unfold tick_transmit.
  apply wp_bind, wp_gets. rewrite Haw, Hdue. cbn [negb andb]. cbv zeta. apply wp_bind.
  eapply (wp_mono _ (fun _ w' => timing (w_port w') = timing (w_port w) ∧
    ∃ frame, sent_frames w' = sent_frames w ++ [frame])).
  { apply (process_active phy config Hcfg Hcoop); try done. by left. }
  intros ? w1 [Ht Hf]. injection Ht as Hst1 Hc1 Hcc1 Ha1 Hv1 Hl1 Hra1 Hrv1.
  apply wp_bind, wp_gets. rewrite Hcc1, Z.eqb_refl. cbn [negb when]. apply wp_ret.
  split_and!; [|congruence|done]. unfold has_work. rewrite Ha1, Haw.
  unfold iolink_master_cycle_due_at, cycle_unpaced in *. rewrite Hst1, Hc1, Hv1, Hl1, Hra1, Hrv1.
  rewrite Hdue. unfold gate_open in Hgate. by rewrite Hgate.
Qed.

(** The response deadline is compared without regard to wrap-around. When the
    deadline of an exchange lies beyond the end of the 32-bit time, the reply counts as
    overdue at the very instant its request was sent. *)
Theorem response_deadline_wraps phy config now timeout w :
  config_ok config → cooperative phy config → port_ok phy config (w_port w) →
  p_state (w_port w) = IOLINK_MASTER_STATE_OPERATE → no_service (w_port w) →
  type0_operate (w_port w) = false → gate_open (w_port w) now →
  p_awaiting_response (w_port w) = false → iolink_master_cycle_due_at (w_port w) now = true →
  iolink_master_response_timeout_100us (w_port w) = Some timeout →
  is_u32 now → is_u32 timeout → 4294967296 ≤ now + timeout →
  wp (tick_transmit true now) (fun _ w' =>
    iolink_master_response_due_at (w_port w') now = true) w.
Proof.
  unfold is_u32. intros Hcfg Hcoop Hok Hst Hno Ht0 Hgate Haw Hdue Ht Hnow Htime Hwrap.
  eapply wp_mono; [by apply (transmit_cyclic phy config Hcfg Hcoop)|]. cbv beta.
  rewrite Haw, Hdue. intros ? w' [_ (_ & _ & Ha & _ & _ & (t & Ht' & Hd) & _)].
  unfold iolink_master_response_due_at. rewrite Ha, Hd. simplify_eq. cbn [andb]. apply Z.leb_le.
  unfold u32. rewrite <- (Z.mod_unique_pos _ 4294967296 1 (now + timeout - 4294967296)) by lia. lia.
Qed.

(** C33: the response deadline covers the reply. For every rate and configured value the
    deadline is at least T_A and one UART frame (21 bit times, 11 and 10), rounded up to
    the 100 us tick by less than one tick, never zero, and at least the configured
    value. The cycle time has no part in it: a configured value of zero means the 21 bit
    times whatever [cfg_min_cycle_time] is, although the documents say that zero falls back
    to the cycle time. *)
Theorem response_timeout_covers_reply p b timeout :
  iolink_master_startup_baudrate p = Some b → is_u8 (cfg_response_timeout_100us (p_config p)) →
  iolink_master_response_timeout_100us p = Some timeout →
  iolink_master_t_bit_ns b * 21 ≤ timeout * 100000 ∧ 1 ≤ timeout ∧
  cfg_response_timeout_100us (p_config p) ≤ timeout ∧
  (cfg_response_timeout_100us (p_config p) < timeout →
   (timeout - 1) * 100000 < iolink_master_t_bit_ns b * 21) ∧
  ∀ min_cycle_time, iolink_master_response_timeout_100us
    (p <| p_config := p_config p <| cfg_min_cycle_time := min_cycle_time |> |>) = Some timeout.
Proof.
  unfold is_u8. intros Hb Hc Ht. pose proof (fun _ : Z => Ht) as Hsame. revert Ht.
  unfold iolink_master_response_timeout_100us. rewrite Hb. cbn [mbind option_bind].
  unfold IOLINK_MASTER_UART_FRAME_TBIT, IOLINK_MASTER_T_A_MAX_TBIT. change (11 + 10) with 21.
  pose proof (tbit_ceiling b 21 ltac:(done)) as [Hhi Hlo]. pose proof (t_bit_range b).
  set (f := iolink_master_tbit_to_100us b 21) in *. assert (1 ≤ f) by lia.
  destruct (Z.ltb_spec (cfg_response_timeout_100us (p_config p)) f) as [Hlt|Hge]; intros Heq.
  - destruct (Z.eqb_spec f 0); [lia|]. simplify_eq. split_and!; [lia..|exact Hsame].
  - destruct (Z.eqb_spec (cfg_response_timeout_100us (p_config p)) 0); [lia|]. simplify_eq. split_and!; [lia..|exact Hsame].
Qed.

(** The link quality is the share of good cycles in percent, between 0 and 100, as
    long as the product with 100 fits 32 bits. *)
Theorem link_quality_is_percentage cycles errors :
  0 ≤ cycles → 0 ≤ errors → cycles * 100 < 4294967296 → cycles + errors < 4294967296 →
  link_quality cycles errors =
    (if cycles + errors =? 0 then 100 else cycles * 100 / (cycles + errors)) ∧
  0 ≤ link_quality cycles errors ≤ 100.
Proof.
  intros Hc He Hp Ht. unfold link_quality. rewrite !u32_small by (unfold is_u32; lia).
  destruct (Z.eqb_spec (cycles + errors) 0) as [_|Hz]; [lia|].
  assert (0 ≤ cycles * 100 / (cycles + errors) ≤ 100) as Hr.
  { split; [apply Z.div_pos; lia|]. apply Z.div_le_upper_bound; lia. }
  rewrite u8_small by (unfold is_u8; lia). done.
Qed.

(** Beyond that the percentage wraps: after 42949673 cycles without a single error
    the port reports a link quality of 0. *)
Theorem link_quality_wraps p :
  p_cycle_count p = 42949673 → diag_checksum_errors (p_diagnostics p) = 0 →
  diag_send_errors (p_diagnostics p) = 0 → diag_response_timeouts (p_diagnostics p) = 0 →
  ∀ d tr, wp (iolink_master_get_diagnostics PTR (Some d)) (fun r _ =>
    r.1 = IOLINK_MASTER_STATUS_OK ∧ option_map diag_link_quality_percent r.2 = Some 0)
    {| w_port := p; w_io := tr |}.
Proof.
  intros Hc H1 H2 H3 d tr. unfold iolink_master_get_diagnostics. cbn [ptr_null null orb].
  apply wp_bind, wp_gets, wp_bind.
  eapply (wp_mono _ (fun _ _ => True)); [by repeat case_match|]. intros mv w1 _. apply wp_bind.
  eapply (wp_mono _ (fun _ _ => True)); [by repeat case_match|]. intros short w2 _. apply wp_ret.
  cbn. by rewrite Hc, H1, H2, H3.
Qed.
End more_claims.

(** ** The clock of the port *)

(** The gate of the start-up and the start of the last cycle. *)
Definition clock (p : iolink_master_port_state_t) : Z * bool * bool * Z :=
  (p_send_ready_at_100us p, p_send_ready_valid p, p_cycle_timer_valid p, p_last_cycle_start_100us p).

#[export] Hint Extern 2 (keeps (fun w => clock (w_port w)) (zoom w_port _)) => apply keeps_on_port; keeps_deep : keeps.

Section clock.
Context {IO : Iolinki}.

Lemma send_full_clock data len : keeps (fun w => clock (w_port w)) (iolink_master_send_full data len).
Proof. keeps_deep. Qed.
Lemma arm_gate_clock now delay : keeps (fun w => clock (w_port w)) (iolink_master_arm_send_gate now delay false).
Proof. apply keeps_ret. Qed.
Hint Resolve arm_gate_clock : keeps.
Lemma restart_establish_clock now : keeps (fun w => clock (w_port w)) (iolink_master_restart_establish now false).
Proof. keeps_deep. Qed.
Hint Resolve send_full_clock restart_establish_clock : keeps.
Lemma on_rx_clock data len : keeps (fun w => clock (w_port w)) (iolink_master_on_rx PTR data len).
Proof. keeps_deep. Qed.
Hint Resolve on_rx_clock : keeps.
Lemma poll_loop_clock n user recv_byte expected count : keeps (fun w => clock (w_port w)) (poll_loop n user recv_byte expected count).
Proof. revert count. induction n as [|n IH]; intros count; cbn [poll_loop]; [done|]. unfold rx_fault. keeps_deep. Qed.
Hint Resolve poll_loop_clock : keeps.

(** Reception and transmission in OPERATE leave the gate of the start-up as it is. *)
Lemma poll_rx_clock fuel : keeps (fun w => clock (w_port w)) (iolink_master_poll_rx fuel PTR).
Proof. keeps_deep. Qed.
Lemma process_operate_clock : keeps (fun w => clock (w_port w)) process_operate.
Proof. keeps_deep. Qed.
End clock.
#[export] Hint Resolve poll_rx_clock : keeps.

(** ** The gate of the start-up in OPERATE *)

(** Calls of the tick engine at given instants. *)
Fixpoint ticks_at {IO : Iolinki} (fuel : nat) (ts : list (iolink_master_tick_event_t * Z)) : M world (list Z) :=
  match ts with
  | [] => mret []
  | t :: ts => ret ← iolink_master_tick_at fuel PTR t.1 t.2; rets ← ticks_at fuel ts; mret (ret :: rets)
  end.

(** Nothing arrives: a device speaks only when it is asked. *)
Definition quiet (phy : iolink_phy_api_t) : Prop :=
  ∀ recv_byte, phy_recv_byte phy = Some recv_byte → ∀ tr, ∃ byte, recv_byte tr = (0, byte).

Section gate.
Context {IO : Iolinki} {laws : IolinkiLaws IO}.
Context (phy : iolink_phy_api_t) (Hquiet : quiet phy).
Implicit Types (p : iolink_master_port_state_t) (w : world).

Lemma poll_rx_quiet fuel w : (0 < fuel)%nat → p_phy (w_port w) = Some phy →
  wp (iolink_master_poll_rx fuel PTR) (fun ret w' => ret = 0 ∧ w_port w' = w_port w ∧ sent_frames w' = sent_frames w) w.
Proof.
  intros Hf Hp. apply wp_bind, wp_gets. rewrite Hp.
  destruct (phy_recv_byte phy) as [recv|] eqn:Hr; [|by apply wp_ret].
  destruct (rx_expected_len (w_port w)) as [n|]; [|by apply wp_ret].
  destruct fuel as [|fuel]; [lia|]. cbn [poll_loop]. apply wp_bind. unfold call.
  apply wp_bind, wp_get. cbv zeta. destruct (Hquiet _ Hr (w_io w)) as [byte ->]. apply wp_bind, wp_assign, wp_ret.
  cbn [Z.leb Z.ltb Z.compare fst snd]. apply wp_ret. split; [done|]. split; [done|].
  unfold sent_frames. cbn. by rewrite frames_app, app_nil_r.
Qed.

(** A port that awaits nothing is idle at an instant at which it has no work. *)
Lemma tick_quiet fuel event now w : (0 < fuel)%nat → p_phy (w_port w) = Some phy →
  p_awaiting_response (w_port w) = false → tick_event_in_range event = true → has_work (w_port w) now = false →
  wp (iolink_master_tick_at fuel PTR event now) (fun ret w' => ret = 0 ∧ w_port w' = w_port w ∧
    sent_frames w' = sent_frames w) w.
Proof.
  intros Hf Hp Ha He Hwork. unfold iolink_master_tick_at, iolink_master_tick_common. rewrite He. cbn [ptr_null negb orb].
  apply wp_bind. eapply wp_mono; [by apply poll_rx_quiet|]. intros ret w1 (-> & Hw1 & Hs1).
  cbn [Z.ltb Z.compare]. apply wp_bind.
  eapply (wp_mono _ (fun stop w2 => w2 = w1 ∧ from_option (fun r => r = 0) True stop)).
  { destruct (event =e _); [|by apply wp_ret]. unfold tick_timeout.
    apply wp_bind, wp_gets. rewrite Hw1, Ha. by apply wp_ret. }
  intros stop w2 [-> Hstop]. destruct stop as [r|]; [by apply wp_ret|].
  apply wp_bind. eapply (wp_mono _ (fun _ w2 => w2 = w1)).
  { apply wp_when; intros _; [|done]. destruct w1 as [p1 tr1]. cbn in Hw1. subst p1. unfold wp.
    rewrite idle_tick; [done|done|by rewrite Hp]. }
  intros ? w2 ->. by apply wp_ret.
Qed.

Lemma ticks_quiet fuel ts w : (0 < fuel)%nat → p_phy (w_port w) = Some phy →
  p_awaiting_response (w_port w) = false → Forall (fun t => tick_event_in_range t.1 = true ∧ has_work (w_port w) t.2 = false) ts →
  wp (ticks_at fuel ts) (fun rets w' => rets = replicate (length ts) 0 ∧ w_port w' = w_port w ∧
    sent_frames w' = sent_frames w) w.
Proof.
  intros Hf Hp Ha Hts. revert w Hp Ha Hts. induction ts as [|t ts IH]; intros w Hp Ha Hts; [by apply wp_ret|].
  apply Forall_cons_1 in Hts as [[Ht1 Ht2] Hts]. apply wp_bind. eapply wp_mono; [by apply tick_quiet|].
  intros ret w1 (-> & Hw1 & Hs1). apply wp_bind.
  eapply wp_mono; [apply IH; by rewrite Hw1|]. intros rets w2 (-> & Hw2 & Hs2). apply wp_ret.
  split; [done|]. split; congruence.
Qed.
End gate.

Section gate_claim.
Context {IO : Iolinki} {laws : IolinkiLaws IO}.

(** C31: the gate of the start-up holds the cyclic exchange back as well. Nothing in
    OPERATE opens it: reception and transmission leave it as it is. So when the 32-bit
    time has wrapped around, a port in OPERATE does nothing at any instant before the one
    the gate was armed for: no frame is sent, nothing is counted or reported. The
    scheduler is not told to wait: once the cycle is over, the instant the port asks for
    is at once. *)
Theorem startup_gate_silences_operate phy fuel ts w :
  quiet phy → (0 < fuel)%nat → p_phy (w_port w) = Some phy →
  p_state (w_port w) = IOLINK_MASTER_STATE_OPERATE → p_awaiting_response (w_port w) = false →
  p_send_ready_valid (w_port w) = true →
  Forall (fun t => tick_event_in_range t.1 = true ∧ t.2 < p_send_ready_at_100us (w_port w)) ts →
  keeps (fun w => clock (w_port w)) (iolink_master_poll_rx fuel PTR) ∧
  keeps (fun w => clock (w_port w)) process_operate ∧
  wp (ticks_at fuel ts) (fun rets w' => rets = replicate (length ts) IOLINK_MASTER_STATUS_OK ∧
    w_port w' = w_port w ∧ sent_frames w' = sent_frames w) w ∧
  ∀ now out, u32 (p_last_cycle_start_100us (w_port w) + cfg_min_cycle_time (p_config (w_port w))) ≤ now →
    iolink_master_get_next_tick_time (Some (w_port w)) now (Some out) = (IOLINK_MASTER_STATUS_OK, Some now).
Proof.
  intros Hq Hf Hp Hst Ha Hv Hts. split; [apply poll_rx_clock|]. split; [apply process_operate_clock|]. split.
  - apply (ticks_quiet phy Hq); try done. revert Hts. apply Forall_impl. intros t [He Ht]. split; [done|].
    unfold has_work. rewrite Ha, Hv, (proj2 (Z.ltb_lt _ _)) by done. by rewrite andb_false_r.
  - intros now out Hdue. unfold iolink_master_get_next_tick_time. rewrite Hst, Ha. cbn [andb orb].
    rewrite !bool_decide_false by done. cbn [andb orb]. destruct (cycle_unpaced _); [done|].
    by rewrite (proj2 (Z.leb_le _ _)).
Qed.
End gate_claim.

(** ** Witnesses *)

Lemma wit_operate_initialised : initialised (fix_phy []) wit_operate.
Proof. exists fix_config. split; [exact fix_config_ok|exact wit_operate_ok]. Qed.

Lemma one_frame_per_tick_witness :
  wp (iolink_master_tick_common 1 PTR IOLINK_MASTER_TICK_CYCLE_DUE true 9) (fun _ w' =>
    initialised (fix_phy []) w' ∧
    ∃ l, sent_frames w' = sent_frames wit_operate ++ l ∧
      (length l ≤ if IOLINK_MASTER_TICK_CYCLE_DUE =e IOLINK_MASTER_TICK_CYCLE_DUE then 1 else 0)%nat)
    wit_operate.
Proof.
  apply (one_frame_per_tick (fix_phy []) 1 _ IOLINK_MASTER_TICK_CYCLE_DUE true 9 wit_operate
    (fix_adapter [] ltac:(decide_here)) wit_operate_initialised).
Defined.

(** A port whose last cycle started at 100. *)
Definition wit_paced : iolink_master_port_state_t :=
  w_port wit_operate <| p_cycle_timer_valid := true |> <| p_last_cycle_start_100us := 100 |>.

(** A port in OPERATE that waits for an ISDU response. *)
Definition wit_polling : world :=
  {| w_port := w_port wit_operate <| p_isdu := wit_waiting |>; w_io := [] |}.

Lemma wit_polling_ok : port_ok (fix_phy []) fix_config (w_port wit_polling).
Proof. apply ok_set_isdu; [exact wit_operate_ok|]. by eapply represents_inv, wit_waiting_represents. Qed.

Lemma isdu_frame_is_not_awaited_witness :
  wp (tick_transmit true 9) (fun _ w' => has_work (w_port w') 9 = true ∧
    p_awaiting_response (w_port w') = false ∧
    ∃ frame, sent_frames w' = sent_frames wit_polling ++ [frame]) wit_polling.
Proof.
  apply (isdu_frame_is_not_awaited (fix_phy []) fix_config 9 wit_polling fix_config_ok
    (fix_cooperative []) wit_polling_ok); done.
Defined.

Lemma response_deadline_wraps_witness :
  wp (tick_transmit true 4294967295) (fun _ w' =>
    iolink_master_response_due_at (w_port w') 4294967295 = true) wit_operate.
Proof.
  apply (response_deadline_wraps (fix_phy []) fix_config 4294967295 1 wit_operate fix_config_ok
    (fix_cooperative []) wit_operate_ok); done.
Defined.

Lemma response_timeout_covers_reply_witness :
  iolink_master_t_bit_ns IOLINK_BAUDRATE_COM3 * 21 ≤ 1 * 100000 ∧ 1 ≤ 1 ∧
  cfg_response_timeout_100us (p_config wit_paced) ≤ 1 ∧
  (cfg_response_timeout_100us (p_config wit_paced) < 1 →
   (1 - 1) * 100000 < iolink_master_t_bit_ns IOLINK_BAUDRATE_COM3 * 21) ∧
  ∀ min_cycle_time, iolink_master_response_timeout_100us
    (wit_paced <| p_config := p_config wit_paced <| cfg_min_cycle_time := min_cycle_time |> |>) = Some 1.
Proof. apply (response_timeout_covers_reply wit_paced IOLINK_BAUDRATE_COM3 1); done. Defined.

Lemma link_quality_is_percentage_witness :
  link_quality 995 5 = (if 995 + 5 =? 0 then 100 else 995 * 100 / (995 + 5)) ∧
  0 ≤ link_quality 995 5 ≤ 100.
Proof. apply (link_quality_is_percentage 995 5); lia. Defined.

Lemma link_quality_wraps_witness :
  wp (iolink_master_get_diagnostics PTR (Some diagnostics_zero)) (fun r _ =>
    r.1 = IOLINK_MASTER_STATUS_OK ∧ option_map diag_link_quality_percent r.2 = Some 0)
    {| w_port := wit_paced <| p_cycle_count := 42949673 |>; w_io := [] |}.
Proof. by apply (link_quality_wraps (wit_paced <| p_cycle_count := 42949673 |>)). Defined.

(** A port that was brought to OPERATE shortly before the time wraps around. *)
Definition wit_timed_startup : M world Z :=
  iolink_master_init PTR (Some (fix_phy [])) (Some fix_config);;
  iolink_master_tick_at 1 PTR IOLINK_MASTER_TICK_CYCLE_DUE 4294967000;;
  iolink_master_tick_at 1 PTR IOLINK_MASTER_TICK_CYCLE_DUE 4294967290;;
  iolink_master_on_rx PTR (Some [0x14; 0x2B]) 2;;
  iolink_master_tick_at 1 PTR IOLINK_MASTER_TICK_CYCLE_DUE 4294967294;;
  iolink_master_on_rx PTR (Some [0x2D]) 1.

Definition wit_gated : world := final wit_timed_startup (wit_world []).

(** It is silent for 4294967007 units of 100 us, the 119 hours until the gate opens. *)
Lemma startup_gate_silences_operate_witness :
  let ts := [(IOLINK_MASTER_TICK_CYCLE_DUE, 0); (IOLINK_MASTER_TICK_CYCLE_DUE, 864000000);
             (IOLINK_MASTER_TICK_RESPONSE_TIMEOUT, 864000010); (IOLINK_MASTER_TICK_CYCLE_DUE, 4294967006)] in
  keeps (fun w => clock (w_port w)) (iolink_master_poll_rx 1 PTR) ∧
  keeps (fun w => clock (w_port w)) process_operate ∧
  wp (ticks_at 1 ts) (fun rets w' => rets = replicate (length ts) IOLINK_MASTER_STATUS_OK ∧
    w_port w' = w_port wit_gated ∧ sent_frames w' = sent_frames wit_gated) wit_gated ∧
  ∀ now out, u32 (p_last_cycle_start_100us (w_port wit_gated) + cfg_min_cycle_time (p_config (w_port wit_gated))) ≤ now →
    iolink_master_get_next_tick_time (Some (w_port wit_gated)) now (Some out) = (IOLINK_MASTER_STATUS_OK, Some now).
Proof.
  intros ts. apply (startup_gate_silences_operate (fix_phy []) 1 ts wit_gated); try decide_here.
  - intros recv [= <-] tr. by exists 0.
  - vm_compute. reflexivity.
Defined.
