(* ===== verification/EventFrames.v ===== *)
(** * Event frames

    The M-sequences of the event readout on a port with process data: a diagnosis read, the
    write that confirms the readout, and what sending one does to the port. *)

From S2P Require Import Prelude Iolinki Reference Types Fixtures Parameters Isdu IsduResponse IsduRequest IsduService Services DataStorage Events EventReadout Hal Transmit Port PortInvariant PortServices PortSafety PortCalls PortTransitions Carrier PortLink PortExchange IsduFrames.

(** MC of an event frame: the direction, the DIAGNOSIS channel and the address. *)
Definition event_mc {IO : Iolinki} (read : bool) (addr : Z) : Z :=
  iolink_master_encode_master_command read IOLINK_MASTER_MC_CHANNEL_DIAGNOSIS addr.

Lemma event_mc_value {IO : Iolinki} {laws : IolinkiLaws IO} read addr : 0 ≤ addr < 32 →
  event_mc read addr = (if read then 0x80 else 0) + 0x40 + addr.
Proof.
  unfold event_mc, iolink_master_encode_master_command. rewrite law_mc_rw, law_mc_channel, law_mc_addr.
  intros Hf. assert (is_u8 addr) as Hu by (unfold is_u8; lia). revert Hf.
  destruct read; revert addr Hu; refine (forall_u8_dec _ _); vm_compute; reflexivity.
Qed.

Lemma event_mc_read {IO : Iolinki} {laws : IolinkiLaws IO} read addr t body :
  0 ≤ addr < 32 → expects_od (mseq_frame t (event_mc read addr) body) = read.
Proof.
  intros Hf. unfold expects_od, mseq_frame. change (default 0 (rd (?x :: ?l) 0)) with x.
  rewrite event_mc_value, law_mc_rw by done. assert (is_u8 addr) as Hu by (unfold is_u8; lia). revert Hf.
  destruct read; revert addr Hu; refine (forall_u8_dec _ _); vm_compute; reflexivity.
Qed.

(** The frame on a port whose M-sequence carries process data. *)
Definition event_frame {IO : Iolinki} (p : iolink_master_port_state_t) (read : bool) (addr : Z) : list Z :=
  mseq_frame (iolink_master_ckt_type_bits (cfg_m_seq_type (p_config p))) (event_mc read addr)
    (take (Z.to_nat (p_pd_out_len p)) (p_pd_out p) ++ if read then [] else zeros (p_od_len p)).

Section build.
Context {IO : Iolinki} {laws : IolinkiLaws IO}.
Context (phy : iolink_phy_api_t) (config : iolink_master_config_t) (Hcfg : config_ok config).
Context (Htype : cfg_m_seq_type config ≠ IOLINK_MASTER_M_SEQ_TYPE_0).
Notation ok := (port_ok phy config).
Implicit Types (p : iolink_master_port_state_t) (w : world).

(** The octets behind the process data are cleared. *)
Lemma zero_fill_split (h b c : list Z) n : zlen b = n →
  ofold (fun tx_buf i => wr tx_buf (zlen h + i) 0) (h ++ b ++ c) (upto n) = Some (h ++ zeros n ++ c).
Proof.
  intros Hb. pose proof (zlen_nonneg b). pose proof (zlen_nonneg h). pose proof (zlen_nonneg c).
  assert (zlen (zeros n) = n) as Hz by (apply zlen_zeros; lia).
  rewrite (ofold_ext _ (fun tx_buf i => x ← rd (zeros n) (0 + i); wr tx_buf (zlen h + i) x)).
  - rewrite ofold_copy by (rewrite ?zlen_app; lia). rewrite drop_0, take_ge by (unfold zlen in Hz; lia).
    apply blit_app. lia.
  - intros tx i Hi%elem_of_upto. rewrite Z.add_0_l, rd_lookup by lia. unfold zeros.
    by rewrite lookup_replicate_2 by lia.
Qed.

Lemma build_event_wp p read addr : ok p →
  wp (build_event_frame read addr (p_od_len p)) (fun len p' =>
    ∃ tx, p' = p <| p_tx_buf := tx |> ∧ slice tx 0 len = Some (event_frame p read addr)) p.
Proof.
  intros Hp. destruct (split_tx_buf phy config Hcfg p Hp) as (x0 & x1 & a & b & c & Heq & Ha & Hb & Hbc & Hpl).
  apply wp_bind, wp_get. cbv zeta. rewrite (ok_config _ _ _ Hp), bool_decide_false by done.
  rewrite Heq, law_header_len. fold (event_mc read addr).
  apply wp_bind. eapply wp_mem; [apply wr_mc|]. apply wp_bind. eapply wp_mem; [apply wr_ckt|].
  apply wp_bind. eapply wp_mem; [by apply (copy_pd_split phy config)|].
  unfold event_frame. rewrite (ok_config _ _ _ Hp). set (pd := take _ (p_pd_out p)) in *.
  set (t := iolink_master_ckt_type_bits _).
  assert (2 + p_pd_out_len p = zlen ([event_mc read addr; 0] ++ pd)) as Hpos by (rewrite zlen_app; change (zlen [event_mc read addr; 0]) with 2; lia).
  pose proof (zlen_nonneg b).
  set (l := if read then [] else zeros (p_od_len p)).
  set (c2 := if read then b ++ c else c).
  assert (zlen l = if read then 0 else p_od_len p) as Hl.
  { unfold l. destruct read; [done|]. apply zlen_zeros. lia. }
  apply wp_bind. eapply wp_mem.
  { instantiate (1 := [event_mc read addr; 0] ++ pd ++ l ++ c2). unfold l, c2. destruct read; [done|]. rewrite Hpos, !app_assoc, <- (app_assoc _ b c), <- (app_assoc _ (zeros _) c).
    by apply zero_fill_split. }
  apply wp_bind. eapply wp_mem; [apply wr_ckt|].
  assert (2 + p_pd_out_len p + (if read then 0 else p_od_len p) = 2 + zlen (pd ++ l)) as -> by (rewrite zlen_app; lia).
  apply wp_bind. eapply wp_mem.
  { rewrite (app_assoc pd). apply fold_checksum_split, type_bits_u8. }
  apply wp_bind, wp_assign, wp_ret. eexists. split; [done|].
  replace (2 + zlen (pd ++ l)) with (zlen (mseq_frame t (event_mc read addr) (pd ++ l))) by (unfold mseq_frame; rewrite !zlen_cons; lia).
  exact (slice_app [] _ c2).
Qed.
End build.

(** ** Sending one *)

Section send.
Context {IO : Iolinki} {laws : IolinkiLaws IO}.
Context (phy : iolink_phy_api_t) (config : iolink_master_config_t) (Hcfg : config_ok config).
Context (Htype : cfg_m_seq_type config ≠ IOLINK_MASTER_M_SEQ_TYPE_0).
Context (T : list Z → (list io → Prop) → list io → Prop) (W : (list io → Prop) → list io → Prop).
Context (Hcar : carrier phy config T W).
Notation ok := (port_ok phy config).
Implicit Types (p : iolink_master_port_state_t) (w : world).

(** The readout after its frame has left: a read waits for its octets, the write that
    confirms the readout ends it. *)
Definition event_after (ev : iolink_master_event_state_t) : iolink_master_event_state_t :=
  if ev_phase ev =e IOLINK_MASTER_EVENT_PHASE_READ then ev <| ev_od_expected := true |>
  else ev <| ev_result := IOLINK_MASTER_STATUS_OK |> <| ev_phase := IOLINK_MASTER_EVENT_PHASE_NONE |>
          <| ev_od_expected := false |>.

Definition event_sent p p' : Prop :=
  ∃ tx, p' = p <| p_tx_buf := tx |>
    <| p_rx_od_expected := ev_phase (p_event p) =e IOLINK_MASTER_EVENT_PHASE_READ |>
    <| p_event := event_after (p_event p) |>.

(** The frame of a readout in progress. *)
Definition readout_frame p : list Z :=
  event_frame p (ev_phase (p_event p) =e IOLINK_MASTER_EVENT_PHASE_READ) (ev_addr (p_event p)).

Lemma send_event_carried (K : list io → Prop) w :
  ok (w_port w) → ev_phase (p_event (w_port w)) ≠ IOLINK_MASTER_EVENT_PHASE_NONE →
  0 ≤ ev_addr (p_event (w_port w)) < 32 → T (readout_frame (w_port w)) K (w_io w) →
  wp iolink_master_send_event (fun sent w' => sent = true ∧ K (w_io w') ∧ event_sent (w_port w) (w_port w')) w.
Proof.
  intros Hok Hph Haddr HT. pose proof (od_len_range config) as Hod. rewrite <- (ok_od_len _ _ _ Hok) in Hod.
  unfold iolink_master_send_event. apply wp_bind, wp_gets.
  unfold iolink_master_event_channel_access. rewrite bool_decide_false by done.
  unfold readout_frame in HT. set (read := _ =e _) in *. set (addr := ev_addr _) in *.
  apply wp_bind, wp_zoom. eapply wp_mono.
  { apply wp_and; [apply (build_event_frame_builds phy config Hcfg); [rewrite <- (ok_od_len _ _ _ Hok); lia|done]|].
    by apply (build_event_wp phy config Hcfg Htype). }
  intros len p2 [[Hok2 Hlen] (tx & -> & Hsl)]. rewrite (proj2 (Z.ltb_lt 0 len)) by lia. cbn [when].
  apply wp_bind, wp_bind. eapply wp_mono.
  { by apply (send_tx_buf_carried phy config _ _ Hcar len (event_frame (w_port w) read addr) K). }
  intros sent w3 (-> & HK & Hw3). cbn [andb].
  rewrite (expects_od_slice _ _ _ Hsl) in Hw3 by done.
  unfold event_frame in Hw3. rewrite event_mc_read in Hw3 by done.
  unfold event_sent, event_after. fold read.
  destruct read eqn:Hread; cbn [when negb].
  - apply wp_zoom, wp_zoom, wp_assign, wp_bind, wp_ret, wp_ret. split; [done|]. split; [done|]. exists tx.
    cbn. by rewrite Hw3.
  - apply wp_ret, wp_bind, wp_zoom, wp_zoom. unfold iolink_master_event_on_written. cbn [ptr_null].
    apply wp_bind, wp_get. rewrite Hw3. cbn [p_event set w_port].
    assert (ev_phase (p_event (w_port w)) = IOLINK_MASTER_EVENT_PHASE_WRITE) as ->.
    { unfold read in Hread. norm_bool. by destruct (ev_phase _). }
    rewrite bool_decide_true by done. cbn [when]. unfold iolink_master_event_finish.
    apply wp_bind, wp_assign, wp_bind, wp_assign, wp_assign, wp_ret. split; [done|]. split; [done|]. exists tx. done.
Qed.

(** The step of the state machine that sends it. *)
Lemma process_readout now timed (K : list io → Prop) w :
  ok (w_port w) → acyclic_state (p_state (w_port w)) →
  ev_phase (p_event (w_port w)) ≠ IOLINK_MASTER_EVENT_PHASE_NONE → 0 ≤ ev_addr (p_event (w_port w)) < 32 →
  timed && p_send_ready_valid (w_port w) && (now <? p_send_ready_at_100us (w_port w)) = false →
  T (readout_frame (w_port w)) K (w_io w) →
  wp (iolink_master_process_at PTR now timed) (fun _ w' => ok (w_port w') ∧ K (w_io w') ∧
    event_sent (w_port w) (w_port w')) w.
Proof.
  intros Hok Hst Hph Haddr Hgate HT. apply wp_and; [by apply (process_at_safe phy config)|].
  unfold iolink_master_process_at. cbn [ptr_null andb]. apply wp_bind, wp_gets.
  rewrite (ok_phy _ _ _ Hok), (carrier_ptr _ _ _ _ Hcar), Hgate.
  destruct Hst as [Hst|Hst]; rewrite Hst; unfold process_operate, process_preoperate.
  all: apply wp_bind; (eapply wp_mono; [by apply send_event_carried|]); intros ? w1 [-> H1]; by apply wp_ret.
Qed.
End send.
