(* ===== verification/Adapter.v ===== *)
(** * Adapters that are programs

    The master reaches a device through the function pointers of [iolink_phy_api_t]. A
    pointer is a function of the trace of earlier calls; here the other side of the
    pointers is itself a program with a state: every recorded call runs the program once,
    so the state after a trace is the replay of the trace. [WireDevice] is what a device
    with a receive queue promises to the port: frames go in through [send], the octets of
    the reply come out one by one through [recv_byte]. *)

From S2P Require Import Prelude Iolinki Reference Types Fixtures Parameters Isdu IsduResponse IsduRequest IsduService Services DataStorage Events EventReadout Hal Transmit Port PortInvariant PortServices PortSafety PortCalls PortTransitions Carrier.

(** The state of an adapter when the program starts, and what each call does to it. *)
Class Adapter (D : Type) : Type := {
  power_on : D;
  effect : io → M D unit;
}.

(** ** Replay of a trace *)

Section adapter.
Context {D : Type} `{!Adapter D}.
Implicit Types (d : D) (tr : list io).

Definition adapter_step d (entry : io) : option D :=
  match effect entry d with Ok _ d' => Some d' | _ => None end.

(** The state after [tr]; [None] when the adapter left the memory of its objects. *)
Definition adapter_at (tr : list io) : option D := ofold adapter_step power_on tr.

(** A function pointer implemented by [m]. [broken] stands for the behaviour after an
    access outside an object, which the theorems exclude. *)
Definition answer {A : Type} (m : M D A) (broken : A) (tr : list io) : A :=
  match adapter_at tr with
  | Some d => match m d with Ok a _ => a | _ => broken end
  | None => broken
  end.

Lemma adapter_at_app tr tr' :
  adapter_at (tr ++ tr') = d ← adapter_at tr; ofold adapter_step d tr'.
Proof. apply ofold_app. Qed.

Lemma adapter_at_snoc tr entry d d' :
  adapter_at tr = Some d → effect entry d = Ok tt d' → adapter_at (tr ++ [entry]) = Some d'.
Proof.
  intros Hd He. rewrite adapter_at_app, Hd. cbn [mbind option_bind ofold].
  unfold adapter_step. by rewrite He.
Qed.

(** A call of a function pointer runs the program behind it. *)
Lemma wp_call_answer {A} (m : M D A) (broken : A) (entry : A → io) (Q : A → world → Prop) w d a d' :
  adapter_at (w_io w) = Some d → m d = Ok a d' → effect (entry a) d = Ok tt d' →
  (adapter_at (w_io w ++ [entry a]) = Some d' → Q a (w <| w_io := w_io w ++ [entry a] |>)) →
  wp (call (answer m broken) entry) Q w.
Proof.
  intros Hd Hm He HQ. unfold call. apply wp_bind, wp_get. cbv zeta.
  assert (answer m broken (w_io w) = a) as -> by (unfold answer; by rewrite Hd, Hm).
  apply wp_bind, wp_assign, wp_ret. apply HQ. by eapply adapter_at_snoc.
Qed.
End adapter.

(** ** Devices on the wire *)

(** [wire_pending d reply]: the octets the port has not read yet are [reply].
    [wire_core d]: the rest of the device, which reading does not change. *)
Class WireDevice (D C : Type) `{!Adapter D} : Type := {
  wire_phy : iolink_phy_api_t;
  wire_send : list Z → M D Z;
  wire_recv : M D (Z * Z);
  wire_pending : D → list Z → Prop;
  wire_core : D → C;
}.

Class WireLaws (D C : Type) `{WireDevice D C} : Prop := {
  wire_phy_send : phy_send wire_phy = Some (fun tr data => answer (wire_send data) (-1) tr);
  wire_phy_recv : phy_recv_byte wire_phy = Some (answer wire_recv (-1, 0));
  wire_effect_send : ∀ user data ret d, effect (IoSend user data ret) d = (wire_send data;; mret tt) d;
  wire_effect_recv : ∀ user ret byte d, effect (IoRecvByte user ret byte) d = (wire_recv;; mret tt) d;
  wire_effect_event : ∀ user d, effect (IoEventPending user) d = Ok tt d;
  wire_effect_details : ∀ user event d, effect (IoEvent user event) d = Ok tt d;
  wire_recv_empty : ∀ d, wire_pending d [] → ∃ byte, wire_recv d = Ok (0, byte) d;
  wire_recv_octet : ∀ d b r, wire_pending d (b :: r) →
    ∃ d', wire_recv d = Ok (1, b) d' ∧ wire_pending d' r ∧ wire_core d' = wire_core d;
}.

(** The configuration leaves the adapter's own functions in charge. *)
Record hookless (config : iolink_master_config_t) : Prop := {
  hookless_mode : cfg_set_mode_checked config = None;
  hookless_baudrate : cfg_set_baudrate_checked config = None;
  hookless_flush : cfg_flush_rx config = None;
  hookless_tx : cfg_prepare_tx config = None;
  hookless_rx : cfg_prepare_rx config = None;
  hookless_wake : cfg_wake_up config = None;
}.

Section wire.
Context {IO : Iolinki} {laws : IolinkiLaws IO}.
Context {D C : Type} `{WireLaws D C}.
Context (config : iolink_master_config_t) (Hcfg : config_ok config) (Hbare : hookless config).
Notation ok := (port_ok wire_phy config).
Implicit Types (w : world) (d : D).

(** The port is attached to the device, which is in state [d] with nothing to read. *)
Definition attached w d : Prop := adapter_at (w_io w) = Some d ∧ wire_pending d [].

(** A frame that the device takes. *)
Lemma send_full_wire data len frame w d d' :
  on_link wire_phy config w → adapter_at (w_io w) = Some d → 1 ≤ zlen data →
  slice data 0 len = Some frame → wire_send frame d = Ok (zlen frame) d' →
  wp (iolink_master_send_full data len) (fun sent w' => sent = true ∧
    adapter_at (w_io w') = Some d' ∧
    w_port w' = w_port w <| p_rx_od_expected := expects_od data |>) w.
Proof.
  intros [Hp Hc] Hd Hl Hs Hsend. pose proof (zlen_slice _ _ _ _ Hs) as <-.
  unfold iolink_master_send_full, expects_od.
  apply wp_bind, wp_gets. destruct (rd_Some data 0) as [mc Hmc]; [lia|]. rewrite Hmc.
  apply wp_bind. eapply wp_mem; [done|]. cbn [default from_option]. unfold id. cbv zeta.
  rewrite Hc, (hookless_tx _ Hbare), (hookless_rx _ Hbare).
  apply wp_bind, wp_ret. cbn [negb]. rewrite Hp.
  apply wp_bind, wp_ret, wp_bind. eapply wp_mem; [exact wire_phy_send|].
  apply wp_bind. eapply wp_mem; [exact Hs|].
  apply wp_bind. eapply wp_call_answer; [exact Hd|exact Hsend| |].
  { rewrite wire_effect_send. unfold mbind, M_bind. by rewrite Hsend. }
  intros Hd'. apply wp_bind, wp_ret. cbn [negb]. rewrite Z.eqb_refl.
  apply wp_bind, wp_zoom, wp_assign, wp_ret. by split_and!.
Qed.

(** The device as a link: it takes the frames its program takes. *)
Definition wire_takes (frame : list Z) (K : list io → Prop) (tr : list io) : Prop :=
  ∃ d d', adapter_at tr = Some d ∧ wire_send frame d = Ok (zlen frame) d' ∧
    ∀ tr', adapter_at tr' = Some d' → K tr'.

Lemma wire_carrier : carrier wire_phy config wire_takes (wire_takes [IOLINK_MASTER_WAKEUP_BYTE]).
Proof.
  split.
  - by rewrite wire_phy_send.
  - intros data len frame K w Hl Hd Hs (d & d' & Hat & Hsend & HK).
    eapply wp_mono; [by eapply send_full_wire|]. intros sent w' (-> & Hat' & Hw'). by split_and!; [|apply HK|].
  - intros K w Hok (d & d' & Hat & Hsend & HK). pose proof (ok_tx_buf _ _ _ Hok) as Htx.
    unfold IOLINK_MASTER_FRAME_BUF_SIZE in Htx.
    apply wp_bind, wp_gets. rewrite (ok_config _ _ _ Hok), (hookless_wake _ Hbare).
    apply wp_bind. eapply wp_mem; [apply wr_Some; lia|]. apply wp_bind, wp_zoom, wp_assign.
    apply wp_bind, wp_gets. cbn [p_tx_buf set w_port].
    destruct (p_tx_buf (w_port w)) as [|x l]; [by cbn in Htx|].
    eapply wp_mono.
    { apply (send_full_wire _ 1 [IOLINK_MASTER_WAKEUP_BYTE] _ d d'); [by destruct Hok|exact Hat| | |exact Hsend].
      - rewrite zlen_insert. lia.
      - exact (slice_app [] [IOLINK_MASTER_WAKEUP_BYTE] l). }
    intros sent w' (-> & Hat' & Hw'). split; [done|]. split; [by apply HK|]. do 2 eexists. exact Hw'.
Qed.

(** ** Reception *)

(** Reading one octet, and finding nothing to read. *)
Lemma recv_octet_wire (Q : Z * Z → world → Prop) w d b r :
  adapter_at (w_io w) = Some d → wire_pending d (b :: r) →
  (∀ w' d', w_port w' = w_port w → adapter_at (w_io w') = Some d' → wire_pending d' r →
     wire_core d' = wire_core d → Q (1, b) w') →
  wp (call (answer wire_recv (-1, 0)) (fun a => IoRecvByte (phy_user wire_phy) a.1 a.2)) Q w.
Proof.
  intros Hd Hp HQ. destruct (wire_recv_octet d b r Hp) as (d' & Hr & Hp' & Hc).
  eapply wp_call_answer; [exact Hd|exact Hr| |].
  { rewrite wire_effect_recv. unfold mbind, M_bind. by rewrite Hr. }
  intros Hd'. by apply (HQ _ d').
Qed.

Lemma recv_empty_wire (Q : Z * Z → world → Prop) w d :
  attached w d → (∀ w' byte, w_port w' = w_port w → attached w' d → Q (0, byte) w') →
  wp (call (answer wire_recv (-1, 0)) (fun a => IoRecvByte (phy_user wire_phy) a.1 a.2)) Q w.
Proof.
  intros [Hd Hp] HQ. destruct (wire_recv_empty d Hp) as [byte Hr].
  eapply wp_call_answer; [exact Hd|exact Hr| |].
  { rewrite wire_effect_recv. unfold mbind, M_bind. by rewrite Hr. }
  intros Hd'. by apply HQ.
Qed.

(** What the receive loop does with a complete frame. *)
Definition frame_complete (fuel : nat) (expected_len frames : Z) : M world Z :=
  state ← gets w_port;
  frame_ret ← iolink_master_on_rx PTR (Some (rx_buf (p_rx state))) expected_len;
  zoom w_port (zoom p_rx (rx_len <~ 0));;
  if negb (frame_ret =? 0) then mret frame_ret
  else poll_loop fuel (phy_user wire_phy) (answer wire_recv (-1, 0)) expected_len (frames + 1).

(** Octets that do not complete a frame stay in the receive buffer. *)
Lemma poll_loop_buffers fuel expected frames r rest got old tail w d (Q : Z → world → Prop) :
  adapter_at (w_io w) = Some d → wire_pending d (r ++ rest) → length old = length r →
  rx_buf (p_rx (w_port w)) = got ++ old ++ tail → rx_len (p_rx (w_port w)) = zlen got →
  zlen got + zlen r < expected ≤ IOLINK_MASTER_FRAME_BUF_SIZE →
  (∀ w' d', w_port w' = w_port w <| p_rx := {| rx_buf := got ++ r ++ tail; rx_len := zlen got + zlen r |} |> →
     adapter_at (w_io w') = Some d' → wire_pending d' rest → wire_core d' = wire_core d →
     wp (poll_loop fuel (phy_user wire_phy) (answer wire_recv (-1, 0)) expected frames) Q w') →
  wp (poll_loop (length r + fuel) (phy_user wire_phy) (answer wire_recv (-1, 0)) expected frames) Q w.
Proof.
  unfold IOLINK_MASTER_FRAME_BUF_SIZE. revert got old w d.
  induction r as [|b r IH]; intros got old w d Hd Hp Hold Hbuf Hk Hfit HQ.
  { destruct old; [|done]. apply (HQ w d); [|done..]. rewrite zlen_nil, Z.add_0_r.
    clear -Hbuf Hk. destruct w as [p ?]. cbn in *. destruct p as [], p_rx. cbn in *. by subst. }
  destruct old as [|o old]; [done|]. injection Hold as Hold.
  cbn [length plus poll_loop app] in *. apply wp_bind. eapply recv_octet_wire; [done..|].
  intros w1 d1 Hw1 Hd1 Hp1 Hc1. cbn [Z.leb Z.compare Pos.compare Pos.compare_cont].
  rewrite zlen_cons in *. pose proof (zlen_nonneg r). pose proof (zlen_nonneg got).
  apply wp_bind, wp_gets. rewrite Hw1, Hbuf, Hk. unfold IOLINK_MASTER_FRAME_BUF_SIZE.
  destruct (Z.leb_spec 64 (zlen got)); [lia|].
  apply wp_bind. eapply wp_mem; [apply wr_middle|].
  cbv zeta. rewrite u8_small by (unfold is_u8; lia).
  apply wp_bind, wp_zoom, wp_zoom, wp_bind, wp_assign, wp_assign. rewrite Hw1.
  rewrite (proj2 (Z.leb_gt _ _)) by lia.
  apply (IH (got ++ [b]) old _ d1); try done.
  - by rewrite <- app_assoc.
  - cbn. rewrite zlen_app. done.
  - rewrite zlen_app. change (zlen [b]) with 1. lia.
  - intros w2 d2 Hw2 Ha2 Hp2 Hc2. apply (HQ w2 d2); [|done..|congruence]. rewrite Hw2. cbn.
    rewrite <- app_assoc, zlen_app. change (zlen [b]) with 1. by rewrite Z.add_assoc.
Qed.

(** The last octet of a frame hands the frame over. *)
Lemma poll_loop_completes fuel frames b got o tail w d (Q : Z → world → Prop) :
  adapter_at (w_io w) = Some d → wire_pending d [b] →
  rx_buf (p_rx (w_port w)) = got ++ o :: tail → rx_len (p_rx (w_port w)) = zlen got →
  zlen got < IOLINK_MASTER_FRAME_BUF_SIZE →
  (∀ w' d', w_port w' = w_port w <| p_rx := {| rx_buf := got ++ b :: tail; rx_len := zlen got + 1 |} |> →
     attached w' d' → wire_core d' = wire_core d → wp (frame_complete fuel (zlen got + 1) frames) Q w') →
  wp (poll_loop (S fuel) (phy_user wire_phy) (answer wire_recv (-1, 0)) (zlen got + 1) frames) Q w.
Proof.
  unfold IOLINK_MASTER_FRAME_BUF_SIZE. intros Hd Hp Hbuf Hk Hfit HQ. pose proof (zlen_nonneg got).
  cbn [poll_loop]. apply wp_bind. eapply recv_octet_wire; [done..|].
  intros w1 d1 Hw1 Hd1 Hp1 Hc1. cbn [Z.leb Z.compare Pos.compare Pos.compare_cont].
  apply wp_bind, wp_gets. rewrite Hw1, Hbuf, Hk. unfold IOLINK_MASTER_FRAME_BUF_SIZE.
  destruct (Z.leb_spec 64 (zlen got)); [lia|].
  apply wp_bind. eapply wp_mem; [apply wr_middle|].
  cbv zeta. rewrite u8_small, Z.leb_refl by (unfold is_u8; lia).
  apply wp_bind, wp_zoom, wp_zoom, wp_bind, wp_assign, wp_assign.
  match goal with |- wp _ _ ?s => assert (wp (frame_complete fuel (zlen got + 1) frames) Q s) as Hc end.
  { apply (HQ _ d1); [by rewrite Hw1|by split|done]. }
  unfold frame_complete in Hc. apply wp_bind_inv in Hc. unfold wp at 1, gets in Hc. exact Hc.
Qed.

(** The reply the device has queued becomes one frame in the receive buffer. *)
Lemma poll_rx_collects fuel reply w d (Q : Z → world → Prop) :
  ok (w_port w) → rx_len (p_rx (w_port w)) = 0 → adapter_at (w_io w) = Some d →
  wire_pending d reply → rx_expected_len (w_port w) = Some (zlen reply) →
  1 ≤ zlen reply ≤ IOLINK_MASTER_FRAME_BUF_SIZE → (length reply < fuel)%nat → Forall is_u8 reply →
  (∀ fuel' w1 d1 data, (0 < fuel')%nat → attached w1 d1 → wire_core d1 = wire_core d →
     Forall is_u8 data → zlen data = IOLINK_MASTER_FRAME_BUF_SIZE →
     slice data 0 (zlen reply) = Some reply →
     w_port w1 = w_port w <| p_rx := {| rx_buf := data; rx_len := zlen reply |} |> →
     wp (frame_complete fuel' (zlen reply) 0) Q w1) →
  wp (iolink_master_poll_rx fuel PTR) Q w.
Proof.
  intros Hok Hk Hd Hp Hexp Hl Hfuel Hu HQ. destruct (ok_rx _ _ _ Hok) as [Hbl Hbu _].
  destruct (split_at (rx_buf (p_rx (w_port w))) (zlen reply)) as (old & tail & Hbuf & Hold); [lia|].
  apply wp_bind, wp_gets. rewrite (ok_phy _ _ _ Hok), wire_phy_recv, Hexp.
  destruct (exists_last (l := reply)) as (r & b & ->); [intros ->; rewrite zlen_nil in Hl; lia|].
  destruct (exists_last (l := old)) as (old' & o & ->); [by intros ->; rewrite zlen_nil in Hold; lia|].
  assert (length old' = length r) as Hold' by (unfold zlen in Hold; rewrite !length_app in Hold; cbn in Hold; lia).
  rewrite length_app in Hfuel. cbn [length] in Hfuel.
  assert (zlen (r ++ [b]) = zlen r + 1) as Hz by (by rewrite zlen_app).
  replace fuel with (length r + S (fuel - length r - 1))%nat by lia. rewrite <- app_assoc in Hbuf. rewrite Hz in *.
  eapply (poll_loop_buffers _ (zlen r + 1) 0 r [b] [] old' (o :: tail) w d); try done.
  { rewrite zlen_nil. lia. }
  intros w1 d1 Hw1 Hd1 Hp1 Hc1. cbn [app] in Hw1. rewrite zlen_nil, Z.add_0_l in Hw1.
  apply (poll_loop_completes _ 0 b r o tail w1 d1); try done; [by rewrite Hw1|by rewrite Hw1|lia|].
  intros w2 d2 Hw2 Ha2 Hc2. apply (HQ _ w2 d2 ((r ++ [b]) ++ tail)); try done.
  - lia.
  - congruence.
  - rewrite Hbuf in Hbu. apply Forall_app in Hbu as [_ [_ Hbu]%Forall_cons_1]. by apply Forall_app.
  - rewrite Hbuf in Hbl. cbn [app] in Hbl. rewrite !zlen_app, zlen_cons in Hbl. rewrite !zlen_app. change (zlen [b]) with 1. unfold zlen in *. lia.
  - rewrite <- Hz. exact (slice_app [] (r ++ [b]) tail).
  - rewrite Hw2, Hw1. cbn. by rewrite <- app_assoc.
Qed.

(** [on_rx] accepts it. *)
Lemma poll_rx_reply fuel reply w d (Q : world → Prop) :
  ok (w_port w) → rx_len (p_rx (w_port w)) = 0 → adapter_at (w_io w) = Some d →
  wire_pending d reply → rx_expected_len (w_port w) = Some (zlen reply) →
  1 ≤ zlen reply ≤ IOLINK_MASTER_FRAME_BUF_SIZE → (length reply < fuel)%nat → Forall is_u8 reply →
  (∀ w1 d1 data, attached w1 d1 → wire_core d1 = wire_core d →
     Forall is_u8 data → zlen data = IOLINK_MASTER_FRAME_BUF_SIZE →
     slice data 0 (zlen reply) = Some reply →
     w_port w1 = w_port w <| p_rx := {| rx_buf := data; rx_len := zlen reply |} |> →
     wp (iolink_master_on_rx PTR (Some data) (zlen reply)) (fun ret w2 => ret = 0 ∧
       ok (w_port w2) ∧ ∃ d2, attached w2 d2 ∧ wire_core d2 = wire_core d ∧
       ∀ w', w_port w' = w_port w2 <| p_rx := p_rx (w_port w2) <| rx_len := 0 |> |> → Q w') w1) →
  wp (iolink_master_poll_rx fuel PTR) (fun ret w' => ret = 1 ∧ ok (w_port w') ∧
    rx_len (p_rx (w_port w')) = 0 ∧ Q w' ∧
    ∃ d', attached w' d' ∧ wire_core d' = wire_core d) w.
Proof.
  intros Hok Hk Hd Hp Hexp Hl Hfuel Hu HQ. eapply poll_rx_collects; [done..|].
  intros fuel' w1 d1 data Hf Ha1 Hc1 Hdu Hdl Hsl Hw1. unfold frame_complete. apply wp_bind, wp_gets, wp_bind.
  rewrite Hw1. cbn [p_rx set rx_buf]. eapply wp_mono; [by apply (HQ w1 d1)|].
  intros ret w2 (-> & Hok2 & d2 & Ha2 & Hc2 & HQ2). apply wp_bind, wp_zoom, wp_zoom, wp_assign.
  destruct fuel' as [|fuel']; [lia|].
  cbn [Z.eqb negb poll_loop]. apply wp_bind. apply (recv_empty_wire _ _ d2); [exact Ha2|].
  intros w3 byte Hw3 Ha3. cbn [Z.leb Z.ltb Z.compare]. apply wp_ret. split; [done|].
  rewrite Hw3. cbn. split; [by apply ok_set_rx_empty|]. split; [done|].
  split; [by apply HQ2|by exists d2].
Qed.

(** [on_rx] refuses it. *)
Lemma poll_rx_refused fuel reply w d (Q : Z → world → Prop) :
  ok (w_port w) → rx_len (p_rx (w_port w)) = 0 → adapter_at (w_io w) = Some d →
  wire_pending d reply → rx_expected_len (w_port w) = Some (zlen reply) →
  1 ≤ zlen reply ≤ IOLINK_MASTER_FRAME_BUF_SIZE → (length reply < fuel)%nat → Forall is_u8 reply →
  (∀ w1 d1 data, attached w1 d1 → wire_core d1 = wire_core d →
     Forall is_u8 data → zlen data = IOLINK_MASTER_FRAME_BUF_SIZE →
     slice data 0 (zlen reply) = Some reply →
     w_port w1 = w_port w <| p_rx := {| rx_buf := data; rx_len := zlen reply |} |> →
     wp (iolink_master_on_rx PTR (Some data) (zlen reply)) (fun ret w2 => ret ≠ 0 ∧
       Q ret (w2 <| w_port := w_port w2 <| p_rx := p_rx (w_port w2) <| rx_len := 0 |> |> |>)) w1) →
  wp (iolink_master_poll_rx fuel PTR) Q w.
Proof.
  intros Hok Hk Hd Hp Hexp Hl Hfuel Hu HQ. eapply poll_rx_collects; [done..|].
  intros fuel' w1 d1 data Hf Ha1 Hc1 Hdu Hdl Hsl Hw1. unfold frame_complete. apply wp_bind, wp_gets, wp_bind.
  rewrite Hw1. cbn [p_rx set rx_buf]. eapply wp_mono; [by apply (HQ w1 d1)|].
  intros ret w2 [Hne HQ2]. apply wp_bind, wp_zoom, wp_zoom, wp_assign.
  rewrite (proj2 (Z.eqb_neq _ _)) by done. by apply wp_ret.
Qed.

(** Fewer octets than a reply: they are kept, and no frame is handed over. *)
Lemma poll_rx_short fuel part expected w d :
  ok (w_port w) → rx_len (p_rx (w_port w)) = 0 → adapter_at (w_io w) = Some d →
  wire_pending d part → rx_expected_len (w_port w) = Some expected →
  zlen part < expected ≤ IOLINK_MASTER_FRAME_BUF_SIZE → (length part < fuel)%nat → Forall is_u8 part →
  wp (iolink_master_poll_rx fuel PTR) (fun ret w' => ret = 0 ∧
    (∃ data, zlen data = IOLINK_MASTER_FRAME_BUF_SIZE ∧ Forall is_u8 data ∧
       w_port w' = w_port w <| p_rx := {| rx_buf := data; rx_len := zlen part |} |>) ∧
    ∃ d', attached w' d' ∧ wire_core d' = wire_core d) w.
Proof.
  intros Hok Hk Hd Hp Hexp Hl Hfuel Hu. destruct (ok_rx _ _ _ Hok) as [Hbl Hbu _]. pose proof (zlen_nonneg part).
  destruct (split_at (rx_buf (p_rx (w_port w))) (zlen part)) as (old & tail & Hbuf & Hold); [lia|].
  apply wp_bind, wp_gets. rewrite (ok_phy _ _ _ Hok), wire_phy_recv, Hexp.
  replace fuel with (length part + S (fuel - length part - 1))%nat by lia.
  eapply (poll_loop_buffers _ expected 0 part [] [] old tail w d); try done.
  - by rewrite app_nil_r.
  - unfold zlen in Hold. lia.
  - intros w1 d1 Hw1 Hd1 Hp1 Hc1. rewrite zlen_nil, Z.add_0_l in Hw1. cbn [app] in Hw1. cbn [poll_loop]. apply wp_bind.
    apply (recv_empty_wire _ _ d1); [by split|]. intros w2 byte Hw2 Ha2. cbn [Z.leb Z.ltb Z.compare]. apply wp_ret.
    split; [done|]. split; [|by exists d1]. exists (part ++ tail). rewrite Hw2, Hw1. split; [|split; [|done]].
    + rewrite Hbuf, !zlen_app in Hbl. rewrite zlen_app. lia.
    + rewrite Hbuf in Hbu. apply Forall_app in Hbu as [_ Hbu]. by apply Forall_app.
Qed.

(** Nothing to read. *)
Lemma poll_rx_silent fuel w d :
  ok (w_port w) → attached w d → (0 < fuel)%nat →
  wp (iolink_master_poll_rx fuel PTR) (fun ret w' => ret = 0 ∧ w_port w' = w_port w ∧ attached w' d) w.
Proof.
  intros Hok Ha Hf. apply wp_bind, wp_gets. rewrite (ok_phy _ _ _ Hok), wire_phy_recv.
  destruct (rx_expected_len (w_port w)) as [n|]; [|by apply wp_ret].
  destruct fuel as [|fuel]; [lia|]. cbn [poll_loop]. apply wp_bind.
  apply (recv_empty_wire _ _ d); [exact Ha|]. intros w' byte Hw' Ha'.
  cbn [Z.leb Z.ltb Z.compare]. by apply wp_ret.
Qed.
End wire.

(** ** Initialisation *)

(** The calls of [iolink_master_init] on an adapter without hooks. *)
Definition setup_calls (phy : iolink_phy_api_t) (baudrate : iolink_baudrate_t) : list io :=
  (if null (phy_init phy) then [] else [IoInit (phy_user phy) 0]) ++
  (if phy_set_baudrate phy then [IoSetBaudrate (phy_user phy) baudrate] else []) ++
  (if phy_set_mode phy then [IoSetMode (phy_user phy) IOLINK_PHY_MODE_SDCI] else []).

Section setup.
Context {IO : Iolinki} {laws : IolinkiLaws IO}.
Context (phy : iolink_phy_api_t) (config : iolink_master_config_t) (Hcfg : config_ok config) (Hbare : hookless config).
Implicit Types w : world.

Lemma set_mode_hookless mode w : on_link phy config w →
  wp (iolink_master_set_mode mode) (fun ret w' => ret = 0 ∧ w' = w <| w_io := w_io w ++
    if phy_set_mode phy then [IoSetMode (phy_user phy) mode] else [] |>) w.
Proof.
  intros [Hp Hc]. apply wp_bind, wp_gets. rewrite Hc, (hookless_mode _ Hbare), Hp.
  destruct (phy_set_mode phy); unfold emit; wp_steps; try done; cbn [when]; try apply wp_ret; split; try done; rewrite ?app_nil_r; by destruct w.
Qed.

Lemma set_baudrate_hookless baudrate w : on_link phy config w →
  wp (iolink_master_set_baudrate baudrate) (fun ret w' => ret = 0 ∧ w' = w <| w_io := w_io w ++
    if phy_set_baudrate phy then [IoSetBaudrate (phy_user phy) baudrate] else [] |>) w.
Proof.
  intros [Hp Hc]. apply wp_bind, wp_gets. rewrite Hc, (hookless_baudrate _ Hbare), Hp.
  destruct (phy_set_baudrate phy); unfold emit; wp_steps; try done; cbn [when]; try apply wp_ret; split; try done; rewrite ?app_nil_r; by destruct w.
Qed.

Lemma init_hookless baudrate w :
  cfg_port_mode config = IOLINK_MASTER_PORT_MODE_IOLINK →
  (∀ f tr, phy_init phy = Some f → f tr = 0) →
  iolink_master_startup_baudrate (port_initial phy config) = Some baudrate →
  wp (iolink_master_init PTR (Some phy) (Some config)) (fun ret w' => ret = 0 ∧
    w_port w' = port_initial phy config ∧ w_io w' = w_io w ++ setup_calls phy baudrate) w.
Proof.
  intros Hmode Hinit Hb. unfold iolink_master_init, setup_calls. rewrite (cfg_accepted _ Hcfg). cbn [ptr_null orb].
  apply wp_bind, wp_assign. rewrite Hmode, !bool_decide_false by done. cbn [orb].
  unfold or_fail. apply wp_bind.
  eapply (wp_mono _ (fun ret w1 => ret = 0 ∧ w_port w1 = port_initial phy config ∧
    w_io w1 = w_io w ++ if null (phy_init phy) then [] else [IoInit (phy_user phy) 0])).
  { unfold phy_initialise. destruct (phy_init phy) as [f|] eqn:Hf; cbn [null].
    - unfold call. wp_steps. by rewrite (Hinit f) by done.
    - apply wp_ret. by rewrite app_nil_r. }
  intros ret w1 (-> & Hw1 & Hf1). cbn [negb Z.eqb IOLINK_MASTER_STATUS_OK].
  apply wp_bind, wp_bind, wp_zoom, wp_zoom, wp_assign, wp_bind, wp_gets. cbn [p_config w_port set].
  assert (p_config (w_port w1) = config) as -> by (by rewrite Hw1). rewrite (hookless_flush _ Hbare).
  apply wp_ret. cbn [negb Z.eqb IOLINK_MASTER_STATUS_OK].
  match goal with |- wp _ _ ?s => set (w2 := s) end.
  assert (w_port w2 = port_initial phy config) as Hw2 by (unfold w2; by rewrite Hw1).
  assert (on_link phy config w2) as Hl by (unfold on_link; by rewrite Hw2).
  apply wp_bind. unfold set_startup_baudrate. apply wp_bind, wp_gets, wp_bind. rewrite Hw2. eapply wp_mem; [exact Hb|].
  eapply wp_mono; [by apply set_baudrate_hookless|]. intros ret w3 [-> ->]. cbn [negb Z.eqb IOLINK_MASTER_STATUS_OK].
  apply wp_bind. eapply wp_mono; [by apply set_mode_hookless|]. intros ret w4 [-> ->]. cbn [negb Z.eqb IOLINK_MASTER_STATUS_OK].
  apply wp_ret. cbn. rewrite Hf1, <- !app_assoc. by split_and!.
Qed.
End setup.
