(* ===== verification/DeviceContract.v ===== *)
(** * What a device promises to the port

    The contract of a device on the wire, as classes: how it answers the start-up frames,
    the cyclic frame, the frames of an ISDU service and those of an event readout. [V] is what the contract lets the
    port's theorems know of the device's state: its input process data, its flags and its
    ISDU server, a machine that takes the octets of a request one by one and yields the
    octets of its response one by one. *)

From S2P Require Import Prelude Iolinki Reference Types Fixtures Parameters Isdu IsduResponse IsduRequest IsduService Services DataStorage Events EventReadout Hal Transmit Port PortInvariant PortServices PortSafety PortCalls PortTransitions Carrier PortLink PortExchange IsduFrames EventFrames Adapter.

(** The stages of a link, seen from the device. *)
Inductive link_stage : Type := LinkReady | LinkPreoperate | LinkOperate.

Class SdciDevice (D C V : Type) `{WireDevice D C} : Type := {
  (** The device is in this stage with this view of its state. *)
  sdci_stage : link_stage → C → V → Prop;
  sdci_pd_in : V → list Z;
  sdci_flags : V → Z;
  (** An octet of a request arrives; an octet of the response is asked for. *)
  sdci_feed : V → Z → V;
  sdci_next : V → Z * V;
}.

(** The next [n] octets of the response. *)
Fixpoint sdci_answer `{SdciDevice D C V} (n : nat) (σ : V) : list Z * V :=
  match n with
  | O => ([], σ)
  | S n => let r := sdci_answer n (sdci_next σ).2 in ((sdci_next σ).1 :: r.1, r.2)
  end.

(** [frame] is taken whole and queues exactly [reply]. *)
Definition replies_to `{WireDevice D C} (frame : list Z) (d : D) (reply : list Z) (P : C → Prop) : Prop :=
  ∃ d', wire_send frame d = Ok (zlen frame) d' ∧ wire_pending d' reply ∧ P (wire_core d').

(** A call of the initialisation. *)
Definition setup_call (entry : io) : Prop :=
  match entry with IoInit _ _ | IoSetBaudrate _ _ | IoSetMode _ _ => True | _ => False end.

(** Initialisation, the wake-up request, the test message and DeviceOperate. *)
Class StartupLaws {IO : Iolinki} (D C V : Type) `{SdciDevice D C V} : Prop := {
  startup_init : ∀ f tr, phy_init wire_phy = Some f → f tr = 0;
  startup_setup : ∀ entry d σ, setup_call entry → wire_pending d [] → sdci_stage LinkReady (wire_core d) σ →
    ∃ d', effect entry d = Ok tt d' ∧ wire_pending d' [] ∧ sdci_stage LinkReady (wire_core d') σ;
  startup_wakes : ∀ d σ, wire_pending d [] → sdci_stage LinkReady (wire_core d) σ →
    replies_to [IOLINK_MASTER_WAKEUP_BYTE] d [] (fun c => sdci_stage LinkReady c σ);
  startup_test : ∀ d σ, wire_pending d [] → sdci_stage LinkReady (wire_core d) σ →
    ∃ v, is_u8 v ∧
      replies_to test_message d (reply_octets [v] [] 0) (fun c => sdci_stage LinkPreoperate c σ);
  startup_operate : ∀ d σ, wire_pending d [] → sdci_stage LinkPreoperate (wire_core d) σ →
    replies_to device_operate d (reply_octets [] [] 0) (fun c => sdci_stage LinkOperate c σ);
}.

(** The M-sequences of a port with [config]: [body] stands for what follows CKT. *)
Definition config_frame {IO : Iolinki} (config : iolink_master_config_t) (mc : Z) (body : list Z) : list Z :=
  mseq_frame (iolink_master_ckt_type_bits (cfg_m_seq_type config)) mc body.

(** The view of a device in OPERATE fits the configuration of the port. *)
Definition view_fits {IO : Iolinki} (config : iolink_master_config_t) (pd : list Z) (flags : Z) : Prop :=
  zlen pd = cfg_pd_in_len config ∧ Forall is_u8 pd ∧ cks_flags flags.

(** Process data: the reply to a process data write is the input process data. *)
Class CyclicLaws {IO : Iolinki} (config : iolink_master_config_t) (D C V : Type) `{SdciDevice D C V} : Prop := {
  cyclic_view : ∀ c σ, sdci_stage LinkOperate c σ → view_fits config (sdci_pd_in σ) (sdci_flags σ);
  cyclic_exchange : ∀ d σ pd, wire_pending d [] → sdci_stage LinkOperate (wire_core d) σ →
    zlen pd = cfg_pd_out_len config → Forall is_u8 pd →
    replies_to (config_frame config 0 (pd ++ zeros (iolink_master_od_len_for_type (cfg_m_seq_type config)))) d
      (reply_octets [] (sdci_pd_in σ) (sdci_flags σ)) (fun c => sdci_stage LinkOperate c σ);
}.

(** ISDU in OPERATE: a write M-sequence delivers its OD octets to the server, a read
    M-sequence is answered with the next octets of the response. *)
Class IsduLaws {IO : Iolinki} (config : iolink_master_config_t) (D C V : Type) `{SdciDevice D C V} : Prop := {
  isdu_view : ∀ c σ, sdci_stage LinkOperate c σ → view_fits config (sdci_pd_in σ) (sdci_flags σ);
  isdu_write_exchange : ∀ d σ flowctrl pd od, wire_pending d [] →
    sdci_stage LinkOperate (wire_core d) σ → 0 ≤ flowctrl < 32 →
    zlen pd = cfg_pd_out_len config → Forall is_u8 pd →
    zlen od = iolink_master_od_len_for_type (cfg_m_seq_type config) → Forall is_u8 od →
    replies_to (config_frame config (isdu_mc false flowctrl) (pd ++ od)) d
      (reply_octets [] (sdci_pd_in σ) (sdci_flags σ))
      (fun c => sdci_stage LinkOperate c (foldl sdci_feed σ od));
  isdu_read_exchange : ∀ d σ flowctrl pd, wire_pending d [] →
    sdci_stage LinkOperate (wire_core d) σ → 0 ≤ flowctrl < 32 →
    zlen pd = cfg_pd_out_len config → Forall is_u8 pd →
    let answer := sdci_answer (Z.to_nat (iolink_master_od_len_for_type (cfg_m_seq_type config))) σ in
    Forall is_u8 answer.1 ∧
    replies_to (config_frame config (isdu_mc true flowctrl) pd) d
      (reply_octets answer.1 (sdci_pd_in σ) (sdci_flags σ))
      (fun c => sdci_stage LinkOperate c answer.2);
}.

(** Events in OPERATE: the event memory of Table 58 and what confirming a readout does. *)
Class EventDevice (V : Type) : Type := {
  sdci_memory : V → list Z;
  sdci_confirmed : V → V;
}.

(** [n] octets of a memory from [addr] on; behind its end it reads as zero. *)
Definition memory_octets (memory : list Z) (addr n : Z) : list Z := map (octet memory) (seqZ addr n).

(** A diagnosis read is answered with the octets at its address. The write that confirms
    the readout is taken; the device may answer it or stay silent. *)
Class EventLaws {IO : Iolinki} (config : iolink_master_config_t) (D C V : Type) `{SdciDevice D C V, !EventDevice V} : Prop := {
  event_view : ∀ c σ, sdci_stage LinkOperate c σ → view_fits config (sdci_pd_in σ) (sdci_flags σ);
  event_memory : ∀ c σ, sdci_stage LinkOperate c σ →
    zlen (sdci_memory σ) = IOLINK_MASTER_EVENT_MEMORY_LEN ∧ Forall is_u8 (sdci_memory σ);
  event_read_exchange : ∀ d σ addr pd, wire_pending d [] → sdci_stage LinkOperate (wire_core d) σ →
    0 ≤ addr < IOLINK_MASTER_EVENT_MEMORY_LEN → zlen pd = cfg_pd_out_len config → Forall is_u8 pd →
    replies_to (config_frame config (event_mc true addr) pd) d
      (reply_octets (memory_octets (sdci_memory σ) addr (iolink_master_od_len_for_type (cfg_m_seq_type config)))
        (sdci_pd_in σ) (sdci_flags σ))
      (fun c => sdci_stage LinkOperate c σ);
  event_confirm_exchange : ∀ d σ pd, wire_pending d [] → sdci_stage LinkOperate (wire_core d) σ →
    zlen pd = cfg_pd_out_len config → Forall is_u8 pd →
    ∃ reply,
      (reply = [] ∨ ∃ pd_in flags, view_fits config pd_in flags ∧ reply = reply_octets [] pd_in flags) ∧
      replies_to (config_frame config (event_mc false 0)
          (pd ++ zeros (iolink_master_od_len_for_type (cfg_m_seq_type config)))) d reply
        (fun c => sdci_stage LinkOperate c (sdci_confirmed σ));
}.

(** ** A link with faults *)

(** What becomes of the reply to a cyclic frame: it arrives as it is, with a wrong
    checksum, or with octets missing at its end, all of them in the extreme. *)
Inductive fate : Type := Intact | Garbled | Short.

Class LossyDevice (V : Type) : Type := {
  (** The fate of the next reply, and the view once it is decided. *)
  lossy_fate : V → fate;
  lossy_next : V → V;
}.

Definition delivered {IO : Iolinki} (f : fate) (pd : list Z) (flags : Z) (reply : list Z) : Prop :=
  match f with
  | Intact => reply = reply_octets [] pd flags
  | Garbled => ∃ resp, iolink_frame_decode_operate_response reply (zlen pd) 0 = Some resp ∧
      resp_checksum_ok resp = false
  | Short => zlen reply ≤ zlen pd
  end.

(** Process data over such a link. *)
Class LossyLaws {IO : Iolinki} (config : iolink_master_config_t) (D C V : Type) `{SdciDevice D C V, !LossyDevice V} : Prop := {
  lossy_view : ∀ c σ, sdci_stage LinkOperate c σ → view_fits config (sdci_pd_in σ) (sdci_flags σ);
  lossy_exchange : ∀ d σ pd, wire_pending d [] → sdci_stage LinkOperate (wire_core d) σ →
    zlen pd = cfg_pd_out_len config → Forall is_u8 pd →
    ∃ reply, Forall is_u8 reply ∧ delivered (lossy_fate σ) (sdci_pd_in σ) (sdci_flags σ) reply ∧
      replies_to (config_frame config 0 (pd ++ zeros (iolink_master_od_len_for_type (cfg_m_seq_type config)))) d
        reply (fun c => sdci_stage LinkOperate c (lossy_next σ));
}.
