(* ===== verification/Session.v ===== *)
(** * A port and a device

    The port attached to a device that keeps the contract: the start-up to OPERATE, the
    exchange of process data and whole ISDU services, step by step over the frames on the
    wire. *)

From S2P Require Import Prelude Iolinki Reference Types Fixtures Parameters Isdu IsduResponse IsduRequest IsduService Services DataStorage Events EventReadout Hal Transmit Port PortInvariant PortServices PortSafety PortCalls PortTransitions Carrier PortLink PortExchange IsduFrames EventFrames Adapter DeviceContract.

Section session.
Context {IO : Iolinki} {laws : IolinkiLaws IO}.
Context {D C V : Type} {A : Adapter D} {wire : WireDevice D C} {wlaws : WireLaws D C} {dev : SdciDevice D C V}.
Context (config : iolink_master_config_t) (Hcfg : config_ok config) (Hbare : hookless config).
Notation ok := (port_ok wire_phy config).
Implicit Types (w : world) (p : iolink_master_port_state_t) (d : D) (σ : V).

(** The device is in a stage of the link and has [reply] queued. *)
Definition device_in (tr : list io) (reply : list Z) (stage : link_stage) (σ : V) : Prop :=
  ∃ d, adapter_at tr = Some d ∧ wire_pending d reply ∧ sdci_stage stage (wire_core d) σ.

(** The port between two calls that are not timed. *)
Record calm (st : iolink_master_state_t) p : Prop := {
  calm_ok : ok p;
  calm_state : p_state p = st;
  calm_event : event_idle (p_event p);
  calm_rx : rx_len (p_rx p) = 0;
  calm_awaiting : p_awaiting_response p = false;
}.

(** The same with an event readout that may be in progress. *)
Record steady (st : iolink_master_state_t) p : Prop := {
  steady_ok : ok p;
  steady_state : p_state p = st;
  steady_rx : rx_len (p_rx p) = 0;
  steady_awaiting : p_awaiting_response p = false;
}.

Lemma calm_steady st p : calm st p ↔ steady st p ∧ event_idle (p_event p).
Proof. split; [intros []; by split|intros [[] ?]; by split]. Qed.

(** The transport is unused. *)
Definition unused (s : iolink_master_isdu_state_t) : Prop :=
  isdu_op s = IOLINK_MASTER_ISDU_OP_NONE ∧ isdu_idle_pending s = false ∧ isdu_abort_pending s = false.

Lemma calm_no_service st p : calm st p → unused (p_isdu p) → no_service p.
Proof. intros [_ _ [] _ _] (? & ? & ?). by split_and!. Qed.

Lemma replies_take frame tr reply stage σ (K : list io → Prop) d :
  adapter_at tr = Some d → replies_to frame d reply (fun c => sdci_stage stage c σ) →
  (∀ tr', device_in tr' reply stage σ → K tr') → wire_takes frame K tr.
Proof.
  intros Hd (d' & Hs & Hp & Hst) HK. exists d, d'. split; [done|]. split; [done|].
  intros tr' Htr. apply HK. by exists d'.
Qed.

(** Setting the output process data. *)
Lemma set_pd_out_calm st data w :
  calm st (w_port w) → zlen data = cfg_pd_out_len config → Forall is_u8 data →
  wp (zoom w_port (iolink_master_set_pd_out PTR (Some data) (zlen data))) (fun ret w' => ret = IOLINK_MASTER_STATUS_OK ∧
    calm st (w_port w') ∧ p_isdu (w_port w') = p_isdu (w_port w) ∧ w_io w' = w_io w ∧
    su_step (p_startup (w_port w')) = su_step (p_startup (w_port w))) w.
Proof.
  intros [Hok Hst He Hr Ha] Hl Hu. destruct (pd_len_range config Hcfg) as [_ Hrange].
  pose proof (zlen_nonneg data). pose proof law_pd_out_max. apply wp_zoom. eapply wp_mono.
  { apply (wp_keeps (fun p => (p_state p, p_event p, rx_len (p_rx p), p_awaiting_response p, p_isdu p,
      su_step (p_startup p)))); [|keeps_deep].
    apply wp_and; [apply (set_pd_out_any_psafe wire_phy config); [split; [unfold is_u8; lia|by split]|done]|].
    instantiate (1 := fun ret _ => ret = IOLINK_MASTER_STATUS_OK).
    unfold iolink_master_set_pd_out. cbn [ptr_null null orb andb]. apply wp_bind, wp_get.
    rewrite (ok_config _ _ _ Hok), Hl, (proj2 (Z.ltb_ge _ _)), Z.eqb_refl by lia. cbn [orb negb].
    apply wp_bind. eapply (wp_mono _ (fun _ _ => True)); [|intros; by apply wp_bind, wp_assign, wp_ret].
    apply wp_when; intros Hz; [|done]. norm_bool. pose proof (ok_pd_out _ _ _ Hok).
    destruct (memcpy_Some (p_pd_out (w_port w)) (default [] (Some data)) 0 0 (cfg_pd_out_len config)) as (k & Hk & _);
      [lia|lia|lia|lia|cbn; lia|]. apply wp_bind. by eapply wp_mem; [exact Hk|]. }
  intros ret p' [[Hok' ->] Hk]. injection Hk as Hst' He' Hr' Ha' Hi' Hs'. split; [done|].
  split; [split; [done|..]; cbn; congruence|done].
Qed.

(** ** Taking the reply *)

Lemma adapter_events tr d users :
  adapter_at tr = Some d → adapter_at (tr ++ map IoEventPending users) = Some d.
Proof.
  revert tr. induction users as [|user users IH]; intros tr Hd; cbn [map]; [by rewrite app_nil_r|].
  rewrite (cons_middle (IoEventPending user)), app_assoc. apply IH.
  eapply adapter_at_snoc; [exact Hd|apply wire_effect_event].
Qed.

(** The queued reply reaches [on_rx] as one frame in the receive buffer. *)
Lemma poll_reply fuel reply stage σ (Q : iolink_master_port_state_t → Prop) w :
  ok (w_port w) → rx_len (p_rx (w_port w)) = 0 → device_in (w_io w) reply stage σ →
  rx_expected_len (w_port w) = Some (zlen reply) →
  1 ≤ zlen reply ≤ IOLINK_MASTER_FRAME_BUF_SIZE → (length reply < fuel)%nat → Forall is_u8 reply →
  (∀ w1 data, Forall is_u8 data → zlen data = IOLINK_MASTER_FRAME_BUF_SIZE →
     slice data 0 (zlen reply) = Some reply →
     w_port w1 = w_port w <| p_rx := {| rx_buf := data; rx_len := zlen reply |} |> →
     wp (iolink_master_on_rx PTR (Some data) (zlen reply)) (fun ret w2 => ret = 0 ∧
       (∃ users, w_io w2 = w_io w1 ++ map IoEventPending users) ∧ Q (w_port w2)) w1) →
  wp (iolink_master_poll_rx fuel PTR) (fun ret w' => ret = 1 ∧ ok (w_port w') ∧
    rx_len (p_rx (w_port w')) = 0 ∧ device_in (w_io w') [] stage σ ∧
    ∃ p2, Q p2 ∧ w_port w' = p2 <| p_rx := p_rx p2 <| rx_len := 0 |> |>) w.
Proof.
  intros Hok Hr (d & Hd & Hp & Hs) Hexp Hl Hf Hu HQ.
  eapply wp_mono.
  { apply (poll_rx_reply config fuel reply w d (fun w' => ∃ p2, Q p2 ∧ w_port w' = p2 <| p_rx := p_rx p2 <| rx_len := 0 |> |>)); try done.
    intros w1 d1 data [Hd1 Hp1] Hc1 Hdu Hdl Hsl Hw1.
    assert (ok (w_port w1)) as Hok1.
    { rewrite Hw1. apply ok_set_rx; [done|]. split; [done|done|]. cbn. lia. }
    eapply wp_mono.
    { apply wp_and; [|by apply HQ].
      by apply (on_rx_rx wire_phy config Hcfg (fun _ => 0%nat) ltac:(done) data (zlen reply) Hdu ltac:(lia)). }
    intros ret w2 ([Hok2 _] & -> & (users & Hio) & HQ2). split; [done|]. split; [done|].
    exists d1. split; [|split; [done|]; intros w' Hw'; by eexists].
    split; [|done]. rewrite Hio. by apply adapter_events. }
  intros ret w' (-> & Hok' & Hr' & HQ' & d' & [Hd' Hp'] & Hc'). split_and!; try done.
  exists d'. by rewrite Hc'.
Qed.

(** ** Start-up *)

Section startup.
Context {slaws : StartupLaws D C V}.

Lemma same_attempt_calm st p p' : calm st p → ok p' → same_attempt p p' →
  p_awaiting_response p' = p_awaiting_response p → calm st p' ∧ p_isdu p' = p_isdu p.
Proof.
  intros [_ Hst He Hr Ha] Hok (Hst' & _ & _ & _ & _ & _ & Hi & He' & Hr' & _) Ha'.
  split; [|done]. split; congruence.
Qed.

(** Initialisation. *)
Lemma device_setup entries tr σ : Forall setup_call entries →
  device_in tr [] LinkReady σ → device_in (tr ++ entries) [] LinkReady σ.
Proof.
  intros He. revert tr. induction He as [|entry entries He _ IH]; intros tr Hd; [by rewrite app_nil_r|].
  rewrite (cons_middle entry), app_assoc. apply IH. destruct Hd as (d & Hd & Hp & Hs).
  destruct (startup_setup entry d σ He Hp Hs) as (d' & Heff & Hp' & Hs'). exists d'.
  split; [by eapply adapter_at_snoc|done].
Qed.

Lemma start_init w σ :
  cfg_port_mode config = IOLINK_MASTER_PORT_MODE_IOLINK → device_in (w_io w) [] LinkReady σ →
  wp (iolink_master_init PTR (Some wire_phy) (Some config)) (fun ret w' => ret = IOLINK_MASTER_STATUS_OK ∧
    calm IOLINK_MASTER_STATE_STARTUP (w_port w') ∧ p_isdu (w_port w') = isdu_state_zero ∧
    device_in (w_io w') [] LinkReady σ ∧
    su_step (p_startup (w_port w')) = IOLINK_MASTER_STARTUP_STEP_WAKE) w.
Proof.
  intros Hmode Hd.
  assert (∃ b, iolink_master_startup_baudrate (port_initial wire_phy config) = Some b) as [b Hb].
  { unfold iolink_master_startup_baudrate. case_match; by eexists. }
  eapply wp_mono; [by apply (init_hookless wire_phy config Hcfg Hbare b); [|apply startup_init|]|].
  intros ret w' (-> & Hw' & Hio). split; [done|].
  assert (p_state (w_port w') = IOLINK_MASTER_STATE_STARTUP) as Hst by (rewrite Hw'; cbn; by rewrite Hmode).
  split; [split; [rewrite Hw'; by apply port_initial_ok|done|..]; by rewrite Hw'|]. rewrite Hw', Hio.
  split; [done|]. split; [|done]. apply device_setup; [|done]. unfold setup_calls. rewrite !Forall_app.
  destruct (null (phy_init wire_phy)), (phy_set_baudrate wire_phy), (phy_set_mode wire_phy); by repeat constructor.
Qed.

(** A step of the start-up sends the wake-up request or the test message. *)
Lemma startup_step w σ reply stage' :
  calm IOLINK_MASTER_STATE_STARTUP (w_port w) →
  (su_step (p_startup (w_port w)) = IOLINK_MASTER_STARTUP_STEP_WAKE ∨
   su_step (p_startup (w_port w)) = IOLINK_MASTER_STARTUP_STEP_SEND_TYPE0) →
  (let frame := if su_step (p_startup (w_port w)) =e IOLINK_MASTER_STARTUP_STEP_WAKE
                then [IOLINK_MASTER_WAKEUP_BYTE] else test_message in
   ∃ d, adapter_at (w_io w) = Some d ∧ replies_to frame d reply (fun c => sdci_stage stage' c σ)) →
  wp (iolink_master_process PTR) (fun _ w' => calm IOLINK_MASTER_STATE_STARTUP (w_port w') ∧
    p_isdu (w_port w') = p_isdu (w_port w) ∧ device_in (w_io w') reply stage' σ ∧
    su_step (p_startup (w_port w')) =
      if su_step (p_startup (w_port w)) =e IOLINK_MASTER_STARTUP_STEP_WAKE
      then IOLINK_MASTER_STARTUP_STEP_SEND_TYPE0 else IOLINK_MASTER_STARTUP_STEP_AWAIT_RESPONSE) w.
Proof.
  intros Hc Hstep (d & Hd & Hr). pose proof Hc as [Hok Hst _ _ _].
  eapply wp_mono.
  { apply wp_and; [by apply (process_at_safe wire_phy config)|].
    unfold iolink_master_process_at. cbn [ptr_null andb]. apply wp_bind, wp_gets.
    rewrite (ok_phy _ _ _ Hok), (carrier_ptr _ _ _ _ (wire_carrier config Hbare)), Hst.
    apply (process_startup_carried wire_phy config _ _ (wire_carrier config Hbare) 0 false
      (fun _ tr' => device_in tr' reply stage' σ)).
    - done.
    - by destruct Hstep as [-> | ->].
    - intros Hs. rewrite bool_decide_true in Hr by done. by eapply replies_take.
    - intros Hs. rewrite bool_decide_false in Hr by (by rewrite Hs). by eapply replies_take.
    - by destruct Hstep as [-> | ->]. }
  intros ? w' [Hok' (Hs & Ha & Hst' & Hdev)]. cbn [andb orb] in Ha.
  destruct (same_attempt_calm _ _ _ Hc Hok' Hs Ha) as [Hc' Hi]. split_and!; [done|done|done|].
  rewrite Hst'. by destruct Hstep as [-> | ->].
Qed.
(** The wake-up request. *)
Lemma start_wake w σ :
  calm IOLINK_MASTER_STATE_STARTUP (w_port w) → device_in (w_io w) [] LinkReady σ →
  su_step (p_startup (w_port w)) = IOLINK_MASTER_STARTUP_STEP_WAKE →
  wp (iolink_master_process PTR) (fun _ w' => calm IOLINK_MASTER_STATE_STARTUP (w_port w') ∧
    p_isdu (w_port w') = p_isdu (w_port w) ∧ device_in (w_io w') [] LinkReady σ ∧
    su_step (p_startup (w_port w')) = IOLINK_MASTER_STARTUP_STEP_SEND_TYPE0) w.
Proof.
  intros Hc (d & Hd & Hp & Hs) Hstep. eapply wp_mono.
  { apply (startup_step w σ [] LinkReady Hc (or_introl Hstep)). rewrite bool_decide_true by done.
    exists d. split; [done|]. by apply startup_wakes. }
  intros ? w' (? & ? & ? & Hs'). rewrite bool_decide_true in Hs' by done. by split_and!.
Qed.

(** The test message. *)
Lemma start_test w σ :
  calm IOLINK_MASTER_STATE_STARTUP (w_port w) → device_in (w_io w) [] LinkReady σ →
  su_step (p_startup (w_port w)) = IOLINK_MASTER_STARTUP_STEP_SEND_TYPE0 →
  ∃ v, is_u8 v ∧
  wp (iolink_master_process PTR) (fun _ w' => calm IOLINK_MASTER_STATE_STARTUP (w_port w') ∧
    p_isdu (w_port w') = p_isdu (w_port w) ∧
    device_in (w_io w') (reply_octets [v] [] 0) LinkPreoperate σ ∧
    su_step (p_startup (w_port w')) = IOLINK_MASTER_STARTUP_STEP_AWAIT_RESPONSE) w.
Proof.
  intros Hc (d & Hd & Hp & Hs) Hstep. destruct (startup_test d σ Hp Hs) as (v & Hv & Hr).
  exists v. split; [done|]. eapply wp_mono.
  { apply (startup_step w σ (reply_octets [v] [] 0) LinkPreoperate Hc (or_intror Hstep)).
    rewrite bool_decide_false by (by rewrite Hstep). by exists d. }
  intros ? w' (? & ? & ? & Hs'). rewrite bool_decide_false in Hs' by (by rewrite Hstep). by split_and!.
Qed.

(** CKS of a well-formed reply. *)
Lemma cks_checks od flags : cks_flags flags → let cks := Z.lor flags (iolink_checksum6 (od ++ [flags])) in
  is_u8 cks ∧ u8 (Z.land cks 0xC0) = flags ∧ u8 (Z.land cks 0x3F) = iolink_checksum6 (od ++ [flags]).
Proof.
  intros Hf cks. pose proof (law_checksum6 (od ++ [flags])) as Hr.
  destruct (cks_fields flags _ Hf Hr) as (Hu & Hc & H3). split; [done|]. unfold cks. rewrite Hc, H3.
  rewrite !u8_small; [done|unfold is_u8; lia|]. unfold is_u8. destruct Hf as [->|[->|[->| ->]]]; lia.
Qed.

(** The reply to the test message. *)
Lemma start_test_reply fuel v w σ : (2 < fuel)%nat → is_u8 v →
  calm IOLINK_MASTER_STATE_STARTUP (w_port w) →
  device_in (w_io w) (reply_octets [v] [] 0) LinkPreoperate σ →
  su_step (p_startup (w_port w)) = IOLINK_MASTER_STARTUP_STEP_AWAIT_RESPONSE →
  wp (iolink_master_poll_rx fuel PTR) (fun ret w' => ret = 1 ∧
    calm IOLINK_MASTER_STATE_PREOPERATE (w_port w') ∧ p_isdu (w_port w') = p_isdu (w_port w) ∧
    device_in (w_io w') [] LinkPreoperate σ ∧ di_min_cycle_time (p_device_info (w_port w')) = v) w.
Proof.
  intros Hf Hv Hc Hd Hstep. pose proof Hc as [Hok Hst He Hr Ha].
  destruct (cks_checks [v] 0 ltac:(by left)) as (Hu & Hc0 & H3f). cbn [app] in Hu, Hc0, H3f.
  eapply wp_mono.
  { apply (poll_reply fuel (reply_octets [v] [] 0) LinkPreoperate σ
      (fun p2 => p_state p2 = IOLINK_MASTER_STATE_PREOPERATE ∧ p_isdu p2 = p_isdu (w_port w) ∧
         p_event p2 = p_event (w_port w) ∧ p_awaiting_response p2 = false ∧
         di_min_cycle_time (p_device_info p2) = v)); try done.
    - unfold rx_expected_len. by rewrite Hst, Hstep, bool_decide_true, law_type0_len by done.
    - apply reply_u8; [by constructor|constructor|by left].
    - intros w1 data Hdu Hdl Hsl Hw1. change (zlen (reply_octets [v] [] 0)) with 2 in *.
      eapply wp_mono.
      { apply (on_rx_startup_valid _ data v (Z.lor 0 (iolink_checksum6 [v; 0]))); rewrite ?Hw1; try done.
        - by eapply rd_slice.
        - by eapply rd_slice.
        - by rewrite Hc0, H3f. }
      intros ret w2 (-> & Hio & Hst2 & Hi2 & He2 & _ & _ & Ha2 & Hm2). split; [done|].
      split; [exists []; by rewrite Hio, app_nil_r|]. rewrite Hi2, He2, Hw1. by split_and!. }
  intros ret w' (-> & Hok' & Hr' & Hd' & p2 & (Hst2 & Hi2 & He2 & Ha2 & Hm2) & Hw').
  split; [done|]. split; [split; [done|..]|]; rewrite ?Hw' in *; cbn; congruence || by split_and!.
Qed.

(** The DeviceOperate write. *)
Lemma start_operate w σ :
  iolink_master_startup_validation_required config = false →
  calm IOLINK_MASTER_STATE_PREOPERATE (w_port w) → unused (p_isdu (w_port w)) →
  device_in (w_io w) [] LinkPreoperate σ →
  wp (iolink_master_process PTR) (fun _ w' => calm IOLINK_MASTER_STATE_PREOPERATE (w_port w') ∧
    p_isdu (w_port w') = p_isdu (w_port w) ∧ device_in (w_io w') (reply_octets [] [] 0) LinkOperate σ ∧
    su_step (p_startup (w_port w')) = IOLINK_MASTER_STARTUP_STEP_AWAIT_OPERATE_ACK) w.
Proof.
  intros Hval Hc Hun (d & Hd & Hp & Hs). pose proof Hc as [Hok Hst He Hr Ha]. eapply wp_mono.
  { apply wp_and; [by apply (process_at_safe wire_phy config)|].
    unfold iolink_master_process_at. cbn [ptr_null andb]. apply wp_bind, wp_gets.
    rewrite (ok_phy _ _ _ Hok), (carrier_ptr _ _ _ _ (wire_carrier config Hbare)), Hst.
    apply (process_preoperate_carried wire_phy config _ _ (wire_carrier config Hbare)
      (fun tr' => device_in tr' (reply_octets [] [] 0) LinkOperate σ)); try done.
    - by eapply calm_no_service.
    - eapply replies_take; [exact Hd|by apply startup_operate|done]. }
  intros ? w' (Hok' & Hd' & tx & Hw'). split; [split; [done|..]|]; rewrite Hw'; by split_and?.
Qed.

(** The acknowledgement: the port is in OPERATE. *)
Lemma start_operate_reply fuel w σ : (1 < fuel)%nat →
  calm IOLINK_MASTER_STATE_PREOPERATE (w_port w) →
  device_in (w_io w) (reply_octets [] [] 0) LinkOperate σ →
  su_step (p_startup (w_port w)) = IOLINK_MASTER_STARTUP_STEP_AWAIT_OPERATE_ACK →
  wp (iolink_master_poll_rx fuel PTR) (fun ret w' => ret = 1 ∧
    calm IOLINK_MASTER_STATE_OPERATE (w_port w') ∧ p_isdu (w_port w') = p_isdu (w_port w) ∧
    device_in (w_io w') [] LinkOperate σ ∧ p_device_info (w_port w') = p_device_info (w_port w)) w.
Proof.
  intros Hf Hc Hd Hstep. pose proof Hc as [Hok Hst He Hr Ha].
  destruct (cks_checks [] 0 ltac:(by left)) as (Hu & Hc0 & H3f). cbn [app] in Hu, Hc0, H3f.
  eapply wp_mono.
  { apply (poll_reply fuel (reply_octets [] [] 0) LinkOperate σ
      (fun p2 => p_state p2 = IOLINK_MASTER_STATE_OPERATE ∧ p_isdu p2 = p_isdu (w_port w) ∧
         p_event p2 = p_event (w_port w) ∧ p_awaiting_response p2 = false ∧
         p_device_info p2 = p_device_info (w_port w))); try done.
    - unfold rx_expected_len. by rewrite Hst, Hstep, bool_decide_true by done.
    - apply reply_u8; [constructor..|by left].
    - intros w1 data Hdu Hdl Hsl Hw1. change (zlen (reply_octets [] [] 0)) with 1 in *.
      eapply wp_mono.
      { apply (on_rx_ack_valid _ data (Z.lor 0 (iolink_checksum6 [0]))); rewrite ?Hw1; try done.
        - by eapply rd_slice.
        - unfold cks_valid. rewrite Hc0, H3f. apply Z.eqb_refl. }
      intros ret w2 (-> & Hio & Hst2 & Hi2 & He2 & _ & Ha2 & Hm2). split; [done|].
      split; [exists []; by rewrite Hio, app_nil_r|]. rewrite Hi2, He2, Hm2, Hw1. by split_and!. }
  intros ret w' (-> & Hok' & Hr' & Hd' & p2 & (Hst2 & Hi2 & He2 & Ha2 & Hm2) & Hw').
  split; [done|]. split; [split; [done|..]|]; rewrite ?Hw' in *; cbn; congruence || by split_and!.
Qed.
End startup.

(** ** OPERATE *)

Section operate.
Context {codec : CodecLaws IO}.
Context (Htype : cfg_m_seq_type config ≠ IOLINK_MASTER_M_SEQ_TYPE_0).

Lemma not_type0 p : ok p → type0_operate p = false.
Proof. intros Hok. unfold type0_operate. by rewrite (ok_config _ _ _ Hok), bool_decide_false. Qed.

(** What the port has taken from a reply with [pd] and [flags]. *)
Definition process_image p (pd : list Z) (flags : Z) p' : Prop :=
  diag_event_pending (p_diagnostics p') = Z.testbit flags 7 ∧ diag_rx_retry_count (p_diagnostics p') = 0 ∧
  if Z.testbit flags 6
  then p_pd_valid p' = p_pd_valid p ∧ p_pd_in_len p' = p_pd_in_len p ∧ p_pd_in p' = p_pd_in p
  else p_pd_valid p' = true ∧ p_pd_in_len p' = zlen pd ∧ p_pd_in p' = pd ++ drop (length pd) (p_pd_in p).

(** A well-formed reply in OPERATE: its OD octets go where they are expected, its process
    data into the process image. *)
Lemma poll_steady_reply fuel od pd flags (R : iolink_master_isdu_state_t → iolink_master_event_state_t → Prop) w σ :
  ok (w_port w) → p_state (w_port w) = IOLINK_MASTER_STATE_OPERATE → rx_len (p_rx (w_port w)) = 0 →
  device_in (w_io w) (reply_octets od pd flags) LinkOperate σ →
  view_fits config pd flags → Forall is_u8 od →
  zlen od = (if p_rx_od_expected (w_port w) then p_od_len (w_port w) else 0) →
  (length (reply_octets od pd flags) < fuel)%nat →
  (∀ p', od_routed od (zlen od) (w_port w) p' → R (p_isdu p') (p_event p')) →
  wp (iolink_master_poll_rx fuel PTR) (fun ret w' => ret = 1 ∧
    steady IOLINK_MASTER_STATE_OPERATE (w_port w') ∧ R (p_isdu (w_port w')) (p_event (w_port w')) ∧
    device_in (w_io w') [] LinkOperate σ ∧ process_image (w_port w) pd flags (w_port w')) w.
Proof.
  intros Hok Hst Hr Hd (Hpl & Hpu & Hfl) Hou Hol Hf HR.
  pose proof (not_type0 _ Hok) as Ht0. destruct (pd_len_range config Hcfg) as [Hpr _].
  pose proof (od_len_range config) as Hodr. rewrite <- (ok_od_len _ _ _ Hok) in Hodr.
  pose proof law_pd_in_max. pose proof (zlen_reply od pd flags) as Hzl.
  assert (0 ≤ zlen od ≤ 8) as Hor by (rewrite Hol; destruct (p_rx_od_expected _); lia).
  destruct (law_decode_reply od pd flags Hou Hpu Hfl) as (resp & Hdec & Hck & Hod & Hpd & Hev & Hval).
  pose proof (reply_u8 od pd flags Hou Hpu Hfl) as Hru.
  destruct (law_decode _ _ _ _ Hru Hdec) as (_ & Hpl' & Hpz & _ & Hol' & Hoz & _ & _).
  eapply wp_mono.
  { apply (poll_reply fuel (reply_octets od pd flags) LinkOperate σ
      (fun p2 => p_state p2 = IOLINK_MASTER_STATE_OPERATE ∧ R (p_isdu p2) (p_event p2) ∧
         p_awaiting_response p2 = false ∧
         process_image (w_port w) pd flags p2)); try done.
    - unfold rx_expected_len. rewrite Hst, Ht0, (ok_config _ _ _ Hok). cbn [orb]. rewrite <- Hol. f_equal.
      rewrite u8_small; unfold is_u8; lia.
    - unfold IOLINK_MASTER_FRAME_BUF_SIZE. lia.
    - intros w1 data Hdu Hdl Hsl Hw1.
      assert (ok (w_port w1)) as Hok1.
      { rewrite Hw1. apply ok_set_rx; [done|]. split; [done|done|unfold IOLINK_MASTER_FRAME_BUF_SIZE; cbn; lia]. }
      unfold iolink_master_on_rx. cbn [ptr_null orb]. destruct (Z.eqb_spec (zlen (reply_octets od pd flags)) 0); [lia|].
      apply wp_bind, wp_gets. rewrite Hw1. cbn [p_state set]. rewrite Hst.
      rewrite !bool_decide_false by done. cbn [andb orb].
      change (type0_operate (set p_rx _ (w_port w))) with (type0_operate (w_port w)). rewrite Ht0, andb_false_r.
      unfold on_rx_operate. apply wp_bind, wp_gets, wp_bind. eapply wp_mem; [exact Hsl|].
      rewrite Hw1. cbn [p_config p_rx_od_expected p_od_len set].
      rewrite (ok_config _ _ _ Hok), <- Hpl, <- Hol, Hdec, Hck. cbn [negb]. eapply wp_mono.
      { apply (operate_reply_wp wire_phy config Hcfg resp w1 Hok1); rewrite ?Hod, ?Hpd; try done; lia. }
      intros ret w2 (-> & Hio & Ht & Hrx & Hisdu). split; [done|]. split.
      { rewrite Hio. case_match; [by exists [cfg_event_user config]|by exists []]. }
      rewrite Hod, Hol', Hw1 in Hisdu.
      destruct Ht as (Hs2 & Ha2 & Hr2 & _ & Hp2 & Hpi). rewrite Hw1 in Hs2, Hpi. cbn in Hs2, Hpi.
      split; [congruence|]. split; [by apply HR|]. split; [done|]. unfold process_image. rewrite Hp2, Hr2, Hev.
      split; [done|]. split; [done|]. rewrite Hval in Hpi.
      destruct (Z.testbit flags 6); cbn [negb] in Hpi; [done|]. by rewrite Hpd, Hpl' in Hpi. }
  intros ret w' (-> & Hok' & Hr' & Hd' & p2 & (Hs2 & HR2 & Ha2 & Him) & Hw').
  split; [done|]. split; [split; [done|..]|]; rewrite ?Hw' in *; cbn; congruence || by split_and!.
Qed.

(** Without a readout they go to the transport. *)
Lemma poll_operate_reply fuel od pd flags (R : iolink_master_isdu_state_t → Prop) w σ :
  ok (w_port w) → p_state (w_port w) = IOLINK_MASTER_STATE_OPERATE → rx_len (p_rx (w_port w)) = 0 →
  event_idle (p_event (w_port w)) → device_in (w_io w) (reply_octets od pd flags) LinkOperate σ →
  view_fits config pd flags → Forall is_u8 od →
  zlen od = (if p_rx_od_expected (w_port w) then p_od_len (w_port w) else 0) →
  (length (reply_octets od pd flags) < fuel)%nat →
  wp (iolink_master_isdu_on_od PTR (Some od) (zlen od)) (fun _ s => R s) (p_isdu (w_port w)) →
  wp (iolink_master_poll_rx fuel PTR) (fun ret w' => ret = 1 ∧
    calm IOLINK_MASTER_STATE_OPERATE (w_port w') ∧ R (p_isdu (w_port w')) ∧
    device_in (w_io w') [] LinkOperate σ ∧ process_image (w_port w) pd flags (w_port w')) w.
Proof.
  intros Hok Hst Hr He Hd Hv Hu Hl Hf HR. eapply wp_mono.
  { apply (poll_steady_reply fuel od pd flags
      (fun s ev => R s ∧ event_idle ev) w σ); try done.
    intros p'. unfold od_routed. rewrite (proj1 He), bool_decide_true by done. intros [Hon ->].
    unfold wp in HR. by rewrite Hon in HR. }
  intros ret w' (-> & Hc' & [HR' He'] & Hd' & Him). split; [done|]. split; [by apply calm_steady|]. done.
Qed.

(** The output process data of the port. *)
Lemma pd_out_octets p : ok p →
  zlen (take (Z.to_nat (p_pd_out_len p)) (p_pd_out p)) = cfg_pd_out_len config ∧
  Forall is_u8 (take (Z.to_nat (p_pd_out_len p)) (p_pd_out p)).
Proof.
  intros Hok. destruct (pd_len_range config Hcfg) as [_ Hr]. pose proof (ok_pd_out _ _ _ Hok).
  rewrite (ok_pd_out_len _ _ _ Hok). split; [slia|]. apply Forall_take. by eapply ok_pd_out_u8.
Qed.

(** No OD octets, nothing to take. *)
Lemma on_od_empty s : wp (iolink_master_isdu_on_od PTR (Some []) (zlen (@nil Z))) (fun _ s' => s' = s) s.
Proof. unfold iolink_master_isdu_on_od. cbn [ptr_null]. apply wp_bind, wp_get. by destruct (_ || _). Qed.

(** One cyclic M-sequence of a port without a service. *)
Lemma cyclic_send {cyc : CyclicLaws config D C V} w σ :
  calm IOLINK_MASTER_STATE_OPERATE (w_port w) → unused (p_isdu (w_port w)) →
  device_in (w_io w) [] LinkOperate σ →
  wp (iolink_master_process PTR) (fun _ w' => calm IOLINK_MASTER_STATE_OPERATE (w_port w') ∧
    device_in (w_io w') (reply_octets [] (sdci_pd_in σ) (sdci_flags σ)) LinkOperate σ ∧
    ∃ tx n, w_port w' = w_port w <| p_tx_buf := tx |> <| p_rx_od_expected := false |> <| p_cycle_count := n |>) w.
Proof.
  intros Hc Hun (d & Hd & Hp & Hs). pose proof Hc as [Hok Hst He Hr Ha].
  destruct (pd_out_octets _ Hok) as [Hpl Hpu]. eapply wp_mono.
  { apply wp_and; [by apply (process_at_safe wire_phy config)|].
    unfold iolink_master_process_at. cbn [ptr_null andb]. apply wp_bind, wp_gets.
    rewrite (ok_phy _ _ _ Hok), (carrier_ptr _ _ _ _ (wire_carrier config Hbare)), Hst.
    apply (cyclic_process wire_phy config Hcfg _ _ (wire_carrier config Hbare)
      (fun tr' => device_in tr' (reply_octets [] (sdci_pd_in σ) (sdci_flags σ)) LinkOperate σ)).
    - done.
    - by eapply calm_no_service.
    - by apply not_type0.
    - eapply replies_take; [exact Hd| |done]. unfold cyclic_frame, cyclic_body.
      rewrite (ok_config _ _ _ Hok), (ok_od_len _ _ _ Hok). by apply cyclic_exchange. }
  intros ? w' (Hok' & Hd' & tx & Hw'). split; [split; [done|..]|]; rewrite Hw'; try done.
  split; [done|]. by do 2 eexists.
Qed.

(** One cyclic exchange: the input process data of the device are in the process image. *)
Lemma cyclic_round {cyc : CyclicLaws config D C V} fuel w σ :
  calm IOLINK_MASTER_STATE_OPERATE (w_port w) → unused (p_isdu (w_port w)) →
  device_in (w_io w) [] LinkOperate σ → (Z.to_nat (cfg_pd_in_len config) + 1 < fuel)%nat →
  wp (iolink_master_process PTR;; iolink_master_poll_rx fuel PTR) (fun ret w' => ret = 1 ∧
    calm IOLINK_MASTER_STATE_OPERATE (w_port w') ∧ p_isdu (w_port w') = p_isdu (w_port w) ∧
    device_in (w_io w') [] LinkOperate σ ∧
    process_image (w_port w) (sdci_pd_in σ) (sdci_flags σ) (w_port w')) w.
Proof.
  intros Hc Hun Hd Hf. assert (view_fits config (sdci_pd_in σ) (sdci_flags σ)) as Hv.
  { destruct Hd as (d & _ & _ & Hs). by eapply cyclic_view. }
  apply wp_bind. eapply wp_mono; [by apply cyclic_send|].
  intros ? w1 (Hc1 & Hd1 & tx & n & Hw1). eapply wp_mono.
  { apply (poll_operate_reply fuel [] (sdci_pd_in σ) (sdci_flags σ) (fun s => s = p_isdu (w_port w1)) w1 σ); try done; try apply Hc1.
    - by rewrite Hw1.
    - pose proof (zlen_reply [] (sdci_pd_in σ) (sdci_flags σ)) as Hz. rewrite zlen_nil in Hz.
      destruct Hv as [Hv _]. unfold zlen in *. lia.
    - apply on_od_empty. }
  intros ret w2 (-> & Hc2 & Hi2 & Hd2 & Him). rewrite Hi2. rewrite Hw1 in Him |- *. by split_and!.
Qed.

(** ** The rounds of an ISDU service *)

(** One frame and its reply. *)
Definition round (fuel : nat) : M world Z :=
  iolink_master_process PTR;;
  iolink_master_poll_rx fuel PTR.

Context {isdu : IsduLaws config D C V}.
Notation od_len := (iolink_master_od_len_for_type (cfg_m_seq_type config)).

(** Enough octets for every reply. *)
Definition fuel_ok (fuel : nat) : Prop := (Z.to_nat (cfg_pd_in_len config) + Z.to_nat od_len + 1 < fuel)%nat.

Lemma fuel_reply fuel od pd flags : fuel_ok fuel → zlen od ≤ od_len → view_fits config pd flags →
  (length (reply_octets od pd flags) < fuel)%nat.
Proof.
  unfold fuel_ok. intros Hf Ho (Hp & _). pose proof (zlen_reply od pd flags). pose proof (zlen_nonneg od).
  pose proof (zlen_nonneg pd). unfold zlen in *. lia.
Qed.

(** The transport has a frame to send. *)
Lemma access_active p read flowctrl : isdu_inv (p_isdu p) →
  ev_phase (p_event p) = IOLINK_MASTER_EVENT_PHASE_NONE → isdu_done (p_isdu p) = false →
  iolink_master_isdu_channel_access (Some (p_isdu p)) = Some (read, flowctrl) →
  service_active p ∧ isdu_flowctrl (p_isdu p) = flowctrl ∧
  (isdu_phase (p_isdu p) <>e IOLINK_MASTER_ISDU_PHASE_REQUEST) = read.
Proof.
  intros [_ Hinv] He Hdone. unfold iolink_master_isdu_channel_access, service_active.
  rewrite Hdone. cbn [andb]. destruct (isdu_op (p_isdu p) =e _) eqn:Hop; [done|]. norm_bool.
  intros [= Hread Hflow]. split; [|done]. split; [done|]. split; [done|].
  assert (in_flight (p_isdu p)) as (_ & _ & _ & Hi & Ha).
  { destruct Hinv as [?|[[? _]|[[? _]|[(_ & ? & _)|(r & _ & ? & _)]]]]; congruence || done. }
  done.
Qed.

Lemma send_frame_inv n (Q : option (bool * Z) * list Z → iolink_master_isdu_state_t → Prop) s :
  wp (isdu_send_frame n) Q s →
  wp (iolink_master_isdu_fill_od PTR (Some (zeros IOLINK_ISDU_BUFFER_SIZE)) n)
    (fun od s' => Q (iolink_master_isdu_channel_access (Some s), take (Z.to_nat n) (default [] od)) s') s.
Proof.
  intros H. apply wp_bind_inv in H. unfold wp at 1, get in H. apply wp_bind_inv in H.
  eapply wp_mono; [exact H|]. by intros od s' ?.
Qed.

(** The frame of a service on this configuration. *)
Lemma service_frame_config p od : ok p → p_state p = IOLINK_MASTER_STATE_OPERATE →
  let read := isdu_phase (p_isdu p) <>e IOLINK_MASTER_ISDU_PHASE_REQUEST in
  service_frame p od = config_frame config (isdu_mc read (isdu_flowctrl (p_isdu p)))
    (take (Z.to_nat (p_pd_out_len p)) (p_pd_out p) ++
     if read then [] else take (Z.to_nat od_len) od).
Proof.
  intros Hok Hst. unfold service_frame, isdu_multi, isdu_frame.
  rewrite Hst, (ok_config _ _ _ Hok), (ok_od_len _ _ _ Hok), bool_decide_true by done.
  by rewrite bool_decide_false.
Qed.

(** What a frame does to the transport on its own is what a round does to the port: a
    frame of the request. *)
Lemma write_round fuel flowctrl od s' w σ : fuel_ok fuel →
  calm IOLINK_MASTER_STATE_OPERATE (w_port w) → device_in (w_io w) [] LinkOperate σ →
  wp (isdu_send_frame od_len) (fun frame s1 => frame = (Some (false, flowctrl), od) ∧ s1 = s')
    (p_isdu (w_port w)) →
  isdu_done (p_isdu (w_port w)) = false →
  wp (round fuel) (fun ret w' => ret = 1 ∧ calm IOLINK_MASTER_STATE_OPERATE (w_port w') ∧
    p_isdu (w_port w') = s' ∧ device_in (w_io w') [] LinkOperate (foldl sdci_feed σ od)) w.
Proof.
  intros Hf Hc Hd Hsend Hdone. pose proof Hc as [Hok Hst He Hr Ha]. pose proof (od_len_range config) as Hod.
  pose proof law_isdu_buffer as HB.
  destruct (pd_out_octets _ Hok) as [Hpl Hpu]. pose proof (ok_isdu _ _ _ Hok) as Hinv.
  apply send_frame_inv in Hsend.
  assert (∃ r s1, iolink_master_isdu_fill_od PTR (Some (zeros IOLINK_ISDU_BUFFER_SIZE)) od_len (p_isdu (w_port w)) = Ok r s1 ∧
    iolink_master_isdu_channel_access (Some (p_isdu (w_port w))) = Some (false, flowctrl)) as (_ & _ & _ & Hacc).
  { apply wp_inv in Hsend as (r & s1 & Hfill & [[= Hacc _] _]). by eexists _, _. }
  destruct (access_active _ _ _ Hinv (proj1 He) Hdone Hacc) as (Hact & Hflow & Hread).
  apply wp_bind. eapply wp_mono.
  { apply (process_service wire_phy config Hcfg _ _ (wire_carrier config Hbare) 0 false
      (fun r s1 => take (Z.to_nat od_len) (default [] r) = od ∧ s1 = s' ∧ zlen od = od_len ∧ Forall is_u8 od)
      (fun _ tr' => device_in tr' (reply_octets [] (sdci_pd_in σ) (sdci_flags σ)) LinkOperate (foldl sdci_feed σ od)));
      [done|by left|done|done| |].
    - rewrite (ok_od_len _ _ _ Hok). eapply wp_mono.
      { apply wp_and; [exact Hsend|]. apply fill_od_inv; [done| |lia|by apply zeros_Forall].
        rewrite zlen_zeros by lia. lia. }
      intros r s1 [[[= _ <-] ->] (_ & l & -> & Hl & Hu)]. cbn [default from_option]. unfold id.
      rewrite zlen_zeros in Hl by lia. split_and!; [done..|slia|by apply Forall_take].
    - intros r s1 (Hr1 & -> & Hl & Hu) _. cbn [default from_option] in Hr1. unfold id in Hr1.
      destruct Hd as (d & Hd & Hp & Hs). eapply replies_take; [exact Hd| |done].
      rewrite (service_frame_config _ r Hok Hst). cbv zeta. rewrite Hread, Hflow, Hr1.
      apply isdu_write_exchange; try done. rewrite <- Hflow. destruct Hinv as [Hwf _]. by apply wf_flowctrl. }
  intros ? w1 (Hok1 & r & s1 & (Hr1 & -> & Hl & Hu) & Hd1 & tx & Hw1).
  assert (calm IOLINK_MASTER_STATE_OPERATE (w_port w1)) as Hc1 by (split; [done|..]; rewrite Hw1; done).
  assert (view_fits config (sdci_pd_in σ) (sdci_flags σ)) as Hv.
  { destruct Hd as (d & _ & _ & Hs). by eapply isdu_view. }
  eapply wp_mono.
  { apply (poll_operate_reply fuel [] (sdci_pd_in σ) (sdci_flags σ) (fun s => s = p_isdu (w_port w1)) w1
      (foldl sdci_feed σ od)); try done; try apply Hc1.
    - rewrite Hw1. cbn. by rewrite Hread.
    - apply fuel_reply; [done| |done]. rewrite zlen_nil. lia.
    - apply on_od_empty. }
  intros ret w2 (-> & Hc2 & Hi2 & Hd2 & _). rewrite Hi2. split_and!; [done|done|by rewrite Hw1|done].
Qed.

Lemma sdci_answer_length n σ : zlen (sdci_answer n σ).1 = Z.of_nat n.
Proof. revert σ. induction n as [|n IH]; intros σ; cbn; [done|]. rewrite zlen_cons, IH. lia. Qed.

(** A frame of the response. *)
Lemma read_round fuel x w σ : fuel_ok fuel →
  calm IOLINK_MASTER_STATE_OPERATE (w_port w) → device_in (w_io w) [] LinkOperate σ →
  represents (p_isdu (w_port w)) x → finished x = false →
  let answer := sdci_answer (Z.to_nat od_len) σ in
  wp (round fuel) (fun ret w' => ret = 1 ∧ calm IOLINK_MASTER_STATE_OPERATE (w_port w') ∧
    represents (p_isdu (w_port w')) (foldl rx_step x answer.1) ∧
    isdu_id (p_isdu (w_port w')) = isdu_id (p_isdu (w_port w)) ∧
    device_in (w_io w') [] LinkOperate answer.2) w.
Proof.
  intros Hf Hc Hd Hx Hfin answer. pose proof Hc as [Hok Hst He Hr Ha]. pose proof (od_len_range config) as Hod.
  pose proof law_isdu_buffer as HB.
  destruct (pd_out_octets _ Hok) as [Hpl Hpu]. destruct (ok_isdu _ _ _ Hok) as [Hwf _].
  assert (in_flight (p_isdu (w_port w)) ∧ isdu_phase (p_isdu (w_port w)) ≠ IOLINK_MASTER_ISDU_PHASE_REQUEST)
    as [Hfl Hph].
  { destruct Hx as [_ Hx]. destruct x; [destruct Hx as [? ->]|destruct Hx as (? & -> & _)|]; done. }
  assert (service_active (w_port w)) as Hact by (destruct He, Hfl as (? & ? & _ & ? & ?); by split_and!).
  assert (isdu_phase (p_isdu (w_port w)) <>e IOLINK_MASTER_ISDU_PHASE_REQUEST = true) as Hread.
  { by rewrite bool_decide_false. }
  destruct Hd as (d & Hd & Hp & Hs).
  destruct (isdu_read_exchange d σ (isdu_flowctrl (p_isdu (w_port w))) _ Hp Hs (wf_flowctrl _ Hwf) Hpl Hpu)
    as [Hu Hrep]. fold answer in Hu, Hrep.
  assert (zlen answer.1 = od_len) as Hl by (unfold answer; rewrite sdci_answer_length; lia).
  apply wp_bind. eapply wp_mono.
  { apply (process_service wire_phy config Hcfg _ _ (wire_carrier config Hbare) 0 false
      (fun _ s1 => ∃ f, 0 ≤ f < 32 ∧ s1 = p_isdu (w_port w) <| isdu_flowctrl := f |>)
      (fun _ tr' => device_in tr' (reply_octets answer.1 (sdci_pd_in σ) (sdci_flags σ)) LinkOperate answer.2));
      [done|by left|done|done| |].
    - rewrite (ok_od_len _ _ _ Hok). eapply wp_mono.
      { apply fill_od_idle; [by right|rewrite zlen_zeros; lia|by apply wf_flowctrl]. }
      by intros r s1 [_ ?].
    - intros r s1 _ _. eapply replies_take; [exact Hd| |done].
      rewrite (service_frame_config _ r Hok Hst). cbv zeta. by rewrite Hread, app_nil_r. }
  intros ? w1 (Hok1 & r & s1 & (f & Hf1 & ->) & Hd1 & tx & Hw1).
  assert (calm IOLINK_MASTER_STATE_OPERATE (w_port w1)) as Hc1 by (split; [done|..]; rewrite Hw1; done).
  assert (view_fits config (sdci_pd_in σ) (sdci_flags σ)) as Hv by (by eapply isdu_view).
  eapply wp_mono.
  { apply (poll_operate_reply fuel answer.1 (sdci_pd_in σ) (sdci_flags σ)
      (fun s => represents s (foldl rx_step x answer.1) ∧ isdu_id s = isdu_id (p_isdu (w_port w))) w1 answer.2); try done; try apply Hc1.
    - rewrite Hw1. cbn. by rewrite Hread, (ok_od_len _ _ _ Hok).
    - apply fuel_reply; [done|lia|done].
    - rewrite Hw1. cbn [p_isdu set]. eapply wp_mono.
      { apply (wp_keeps isdu_id); [apply on_od_ok; [by apply flowctrl_represents|done|lia]|].
        apply on_od_keeps. }
      intros ? s'. unfold zlen. rewrite Nat2Z.id, take_ge by done. done. }
  intros ret w2 (-> & Hc2 & [Hx2 Hi2] & Hd2 & _). by split_and!.
Qed.
End operate.
End session.
