(* ===== verification/LoopbackPhy.v ===== *)
(** * The simulated device of the demonstrations

    [examples/master_loopback_demo.c] and [samples/iolink_master/src/main.c] answer a port
    from statics of their own file: a queue that [send] fills and [recv_byte] empties, and
    the mode and baudrate [main] reads back. All of it but [demo_phy_send] is the same text
    in both files. Here it is once, with the send function as an argument, and the device
    keeps the contract of [DeviceContract] when the send function answers the frames of a
    TYPE_2_1 port. *)

From S2P Require Import Prelude Iolinki Reference Types Fixtures Parameters Isdu IsduResponse IsduRequest IsduService Services DataStorage Events EventReadout Hal Transmit Port PortInvariant PortServices PortSafety PortCalls PortTransitions Carrier PortLink PortExchange IsduFrames Adapter DeviceContract Session.

(** The statics. *)
Record demo_t : Type := {
  g_rx_queue : list Z;
  g_rx_len : Z;
  g_rx_pos : Z;
  g_baudrate : iolink_baudrate_t;
  g_mode : iolink_phy_mode_t;
}.
#[export] Instance eta_demo : Eta demo_t := fun r => {|
  g_rx_queue := g_rx_queue r;
  g_rx_len := g_rx_len r;
  g_rx_pos := g_rx_pos r;
  g_baudrate := g_baudrate r;
  g_mode := g_mode r;
|}.

(** Before [main]: static storage is zero. [demo_phy_init] writes all of it but the octets
    of the queue. *)
Definition demo_statics : demo_t := {|
  g_rx_queue := zeros 64; g_rx_len := 0; g_rx_pos := 0;
  g_baudrate := IOLINK_BAUDRATE_COM1; g_mode := IOLINK_PHY_MODE_INACTIVE;
|}.

Section demo.
Context {IO : Iolinki} {DC : IolinkiDevice}.

Definition queue_bytes (data : list Z) (len : Z) : M demo_t unit :=
  d ← get;
  queue ← mem (memcpy (g_rx_queue d) 0 data 0 len);
  g_rx_queue <~ queue;;
  g_rx_len <~ len;;
  g_rx_pos <~ 0.

Definition demo_phy_init : M demo_t Z :=
  g_rx_len <~ 0;;
  g_rx_pos <~ 0;;
  g_baudrate <~ IOLINK_BAUDRATE_COM3;;
  g_mode <~ IOLINK_PHY_MODE_INACTIVE;;
  mret 0.

Definition demo_phy_set_mode (mode : iolink_phy_mode_t) : M demo_t unit :=
  g_mode <~ mode.

Definition demo_phy_set_baudrate (baudrate : iolink_baudrate_t) : M demo_t unit :=
  g_baudrate <~ baudrate.

(** The result and [*byte]. *)
Definition demo_phy_recv_byte : M demo_t (Z * Z) :=
  d ← get;
  if g_rx_len d <=? g_rx_pos d then mret (0, 0)
  else
    byte ← mem (rd (g_rx_queue d) (g_rx_pos d));
    g_rx_pos <~ u8 (g_rx_pos d + 1);;
    mret (1, byte).

(** [response[i] = v] *)
Definition demo_put (response : list Z) (i v : Z) : M demo_t (list Z) := mem (wr response i v).

(** [iolink_checksum6(response, len)] *)
Definition demo_checksum (response : list Z) (len : Z) : M demo_t Z :=
  msg ← mem (slice response 0 len);
  mret (iolink_checksum6 msg).

(** [demo_phy_send] *)
Context (send : list Z → M demo_t Z).

(** [g_demo_phy] and the statics behind it. *)
#[local] Instance demo_adapter : Adapter demo_t := {|
  power_on := demo_statics;
  effect := fun entry =>
    match entry with
    | IoInit _ _ => demo_phy_init;; mret tt
    | IoSetMode _ mode => demo_phy_set_mode mode
    | IoSetBaudrate _ baudrate => demo_phy_set_baudrate baudrate
    | IoSend _ data _ => send data;; mret tt
    | IoRecvByte _ _ _ => demo_phy_recv_byte;; mret tt
    | _ => mret tt
    end;
|}.

Definition g_demo_phy : iolink_phy_api_t := {|
  phy_user := 0;
  phy_init := Some (answer demo_phy_init 0);
  phy_set_mode := true;
  phy_set_baudrate := true;
  phy_send := Some (fun tr data => answer (send data) (-1) tr);
  phy_recv_byte := Some (answer demo_phy_recv_byte (-1, 0));
  phy_set_cq_line := false;
  phy_get_voltage_mv := None;
  phy_is_short_circuit := None;
|}.

(** The [config] of [main]. *)
Definition demo_config : iolink_master_config_t := {|
  cfg_port_mode := IOLINK_MASTER_PORT_MODE_IOLINK;
  cfg_m_seq_type := IOLINK_MASTER_M_SEQ_TYPE_2_1;
  cfg_baudrate := IOLINK_BAUDRATE_COM3;
  cfg_min_cycle_time := 20;
  cfg_pd_in_len := 1;
  cfg_pd_out_len := 1;
  cfg_auto_baudrate := false;
  cfg_validate_device_info := false;
  cfg_inspection_level := IOLINK_MASTER_INSPECTION_NO_CHECK;
  cfg_expected_vendor_id := 0;
  cfg_expected_device_id := 0;
  cfg_response_timeout_100us := 0;
  cfg_isdu_timeout_100us := 0;
  cfg_t_dmt_tbit := 0;
  cfg_t_dwu_100us := 0;
  cfg_wake_retry_limit := 0;
  cfg_t_sd_100us := 0;
  cfg_event_user := 0;
  cfg_event_pending_handler := false;
  cfg_event_handler := false;
  cfg_set_mode_checked := None;
  cfg_set_baudrate_checked := None;
  cfg_read_cq_line_checked := None;
  cfg_flush_rx := None;
  cfg_prepare_tx := None;
  cfg_prepare_rx := None;
  cfg_read_cq_line := None;
  cfg_wake_up := None;
|}.

(** [main] reads a static. *)
Definition statics : M world demo_t :=
  w ← get;
  mem (adapter_at (w_io w)).

(** [if(b) return code;] in a [main]. *)
Definition fail_if {S : Type} (b : bool) (code : Z) (k : M S Z) : M S Z := if b then mret code else k.

(** ** The device on the wire *)

Definition demo_pending (d : demo_t) (reply : list Z) : Prop :=
  zlen (g_rx_queue d) = 64 ∧ slice (g_rx_queue d) (g_rx_pos d) (g_rx_len d - g_rx_pos d) = Some reply.

#[local] Instance demo_wire : WireDevice demo_t unit := {|
  wire_phy := g_demo_phy;
  wire_send := send;
  wire_recv := demo_phy_recv_byte;
  wire_pending := demo_pending;
  wire_core := fun _ => tt;
|}.

(** The device answers by the shape of a frame alone: its view is its process data. It has
    no ISDU server, and no theorem about services applies to it. *)
#[local] Instance demo_device : SdciDevice demo_t unit unit := {|
  sdci_stage := fun _ _ _ => True;
  sdci_pd_in := fun _ => [0x5A];
  sdci_flags := fun _ => 0;
  sdci_feed := fun σ _ => σ;
  sdci_next := fun σ => (0, σ);
|}.

#[local] Instance demo_wire_laws : WireLaws demo_t unit.
Proof using Type.
  split; try done.
  - intros d [_ Hs%slice_empty]. exists 0. cbn. unfold demo_phy_recv_byte, get, mbind, M_bind.
    by rewrite (proj2 (Z.leb_le _ _)) by lia.
  - intros d b r [Hl Hs]. apply slice_pop in Hs as (Hp & Hlen & Hrd & Hs'). eexists. split; [|split].
    + cbn. unfold demo_phy_recv_byte, get, mbind, M_bind. rewrite (proj2 (Z.leb_gt _ _)), Hrd by lia. reflexivity.
    + split; [done|]. cbn. by rewrite u8_small by (unfold is_u8; lia).
    + done.
Qed.

Lemma queue_bytes_ok data len reply d : zlen (g_rx_queue d) = 64 → slice data 0 len = Some reply → len ≤ 64 →
  wp (queue_bytes data len) (fun _ d' => demo_pending d' reply) d.
Proof using Type.
  intros Hq Hs Hl. pose proof (zlen_slice _ _ _ _ Hs) as Hz. pose proof (zlen_nonneg reply).
  apply wp_bind, wp_get, wp_bind. unfold memcpy. rewrite Hs. cbn [mbind option_bind].
  eapply wp_mem; [apply blit_Some; lia|]. apply wp_bind, wp_assign, wp_bind, wp_assign, wp_assign.
  split.
  - cbn [g_rx_queue set]. rewrite !zlen_app, zlen_take, zlen_drop. unfold zlen in *. lia.
  - cbn. rewrite Z.sub_0_r, <- Hz. exact (slice_app [] reply _).
Qed.

(** Runs the stores into [response] up to [queue_bytes]. *)
Ltac put_octets :=
  unfold demo_put, demo_checksum;
  repeat lazymatch goal with
  | |- wp (_ ≫= _) _ _ => apply wp_bind
  | |- wp (mem _) _ _ => eapply wp_mem; [reflexivity|]
  | |- wp (mret _) _ _ => apply wp_ret
  end.

(** One octet and its checksum, or one octet alone. *)
Lemma put_two v d : zlen (g_rx_queue d) = 64 →
  wp (response ← demo_put (zeros 8) 0 v;
      cks ← demo_checksum response 2;
      response ← demo_put response 1 cks;
      queue_bytes response 2) (fun _ d' => demo_pending d' [v; iolink_checksum6 [v; 0]]) d.
Proof using Type. intros Hq. put_octets. by apply (queue_bytes_ok _ 2 [v; iolink_checksum6 [v; 0]]). Qed.

Lemma answer_two v (n : Z) d : zlen (g_rx_queue d) = 64 →
  wp (response ← demo_put (zeros 8) 0 v;
      cks ← demo_checksum response 2;
      response ← demo_put response 1 cks;
      queue_bytes response 2;;
      mret n) (fun r d' => r = n ∧ demo_pending d' [v; iolink_checksum6 [v; 0]]) d.
Proof using Type.
  intros Hq. put_octets. eapply wp_mono; [by apply (queue_bytes_ok _ 2 [v; iolink_checksum6 [v; 0]])|].
  intros ? d' ?. by apply wp_ret.
Qed.

Lemma answer_one v (n : Z) d : zlen (g_rx_queue d) = 64 →
  wp (response ← demo_put (zeros 8) 0 v;
      queue_bytes response 1;;
      mret n) (fun r d' => r = n ∧ demo_pending d' [v]) d.
Proof using Type.
  intros Hq. put_octets. eapply wp_mono; [by apply (queue_bytes_ok _ 1 [v])|]. intros ? d' ?. by apply wp_ret.
Qed.

Context {laws : IolinkiLaws IO} {dlaws : IolinkiDeviceLaws DC} {codec : CodecLaws IO}.
Implicit Types w : world.

(** What [demo_phy_send] answers to the frames of a TYPE_2_1 port. *)
Record loopback_send : Prop := {
  send_wake d : wp (send [0x55]) (fun r d' => r = 1 ∧ d' = d) d;
  send_test d : zlen (g_rx_queue d) = 64 →
    wp (send test_message) (fun r d' => r = 2 ∧ demo_pending d' (reply_octets [0] [] 0)) d;
  send_operate d : zlen (g_rx_queue d) = 64 →
    wp (send device_operate) (fun r d' => r = 3 ∧ demo_pending d' (reply_octets [] [] 0)) d;
  send_cyclic ckt x d : zlen (g_rx_queue d) = 64 →
    wp (send [0; ckt; x; 0]) (fun r d' => r = 4 ∧ demo_pending d' (reply_octets [] [0x5A] 0)) d;
}.
Context (Hsend : loopback_send).

#[local] Instance demo_startup : StartupLaws demo_t unit unit.
Proof using Type*.
  split.
  - intros f tr [= <-]. unfold answer. by destruct (adapter_at tr).
  - intros entry d σ He [Hq Hs] _. pose proof (slice_empty _ _ _ Hs) as Hp. destruct entry; try done.
    + eexists. split; [reflexivity|]. split; [|done]. split; [done|]. by rewrite slice_Some by (cbn; lia).
    + eexists. split; [reflexivity|]. by split.
    + eexists. split; [reflexivity|]. by split.
  - intros d σ Hp _. destruct (wp_inv _ _ _ (send_wake Hsend d)) as (r & d' & Hs & -> & ->).
    eexists. split; [exact Hs|]. by split.
  - intros d σ [Hq _] _. exists 0. split; [done|].
    destruct (wp_inv _ _ _ (send_test Hsend d Hq)) as (r & d' & Hs & -> & Hp). by exists d'.
  - intros d σ [Hq _] _.
    destruct (wp_inv _ _ _ (send_operate Hsend d Hq)) as (r & d' & Hs & -> & Hp). by exists d'.
Qed.

#[local] Instance demo_cyclic : CyclicLaws demo_config demo_t unit unit.
Proof using Type*.
  split.
  - intros ? σ _. split; [done|]. split; [by repeat constructor|by left].
  - intros d σ pd [Hq _] _ Hl _. change (cfg_pd_out_len demo_config) with 1 in Hl.
    destruct pd as [|x [|y pd]]; [done| |rewrite !zlen_cons in Hl; pose proof (zlen_nonneg pd); lia].
    set (frame := config_frame _ _ _). assert (∃ ckt, frame = [0; ckt; x; 0]) as [ckt ->] by by eexists.
    destruct (wp_inv _ _ _ (send_cyclic Hsend ckt x d Hq)) as (r & d' & Hs & -> & Hp). by exists d'.
Qed.

(** ** The steps of [main] *)

Context (Hin : 1 ≤ IOLINK_PD_IN_MAX_SIZE) (Hout : 1 ≤ IOLINK_PD_OUT_MAX_SIZE).

Lemma demo_config_ok : config_ok demo_config.
Proof using Hin Hout.
  split; [|done..]. unfold config_rejected. cbn. by rewrite !(proj2 (Z.ltb_ge _ _)) by lia.
Qed.

Lemma demo_hookless : hookless demo_config.
Proof using Type. by split. Qed.

(** The port in a state, no service in progress, the device attached. *)
Definition attached_in (st : iolink_master_state_t) w : Prop :=
  calm demo_config st (w_port w) ∧ unused (p_isdu (w_port w)) ∧ device_in (w_io w) [] LinkReady tt.

Lemma run_init w : w_io w = [] →
  wp (iolink_master_init PTR (Some g_demo_phy) (Some demo_config)) (fun ret w' => ret = IOLINK_MASTER_STATUS_OK ∧
    attached_in IOLINK_MASTER_STATE_STARTUP w' ∧ su_step (p_startup (w_port w')) = IOLINK_MASTER_STARTUP_STEP_WAKE ∧
    ∃ d, adapter_at (w_io w') = Some d ∧ g_mode d = IOLINK_PHY_MODE_SDCI ∧ g_baudrate d = IOLINK_BAUDRATE_COM3) w.
Proof using Type*.
  intros Hw. eapply wp_mono.
  { apply wp_and; [apply (start_init (slaws := demo_startup) demo_config demo_config_ok demo_hookless w tt); [done|]|].
    - rewrite Hw. exists demo_statics. by split.
    - apply (init_hookless g_demo_phy demo_config demo_config_ok demo_hookless IOLINK_BAUDRATE_COM3); [done| |done].
      apply (startup_init (StartupLaws := demo_startup)). }
  intros ret w' [(-> & Hc & Hi & Hd & Hs) (_ & _ & Hio)]. rewrite Hw in Hio. split; [done|].
  split; [split_and!; [done|by rewrite Hi..|done]|]. split; [done|]. rewrite Hio. by eexists.
Qed.

Lemma run_set_pd_out st x w : is_u8 x → attached_in st w →
  wp (zoom w_port (iolink_master_set_pd_out PTR (Some [x]) 1)) (fun ret w' => ret = IOLINK_MASTER_STATUS_OK ∧
    attached_in st w' ∧ su_step (p_startup (w_port w')) = su_step (p_startup (w_port w))) w.
Proof using Type*.
  intros Hx (Hc & Hun & Hd). eapply wp_mono.
  { by apply (set_pd_out_calm demo_config demo_config_ok st [x] w); [|..|constructor]. }
  intros ret w' (-> & Hc' & Hi & Hio & Hs). split; [done|]. split; [|done]. unfold attached_in. by rewrite Hi, Hio.
Qed.

(** Wake-up, test message and its reply. *)
Lemma run_startup fuel w : (2 < fuel)%nat → attached_in IOLINK_MASTER_STATE_STARTUP w →
  su_step (p_startup (w_port w)) = IOLINK_MASTER_STARTUP_STEP_WAKE →
  wp (iolink_master_process PTR;; iolink_master_process PTR;; iolink_master_poll_rx fuel PTR) (fun ret w' =>
    ret = 1 ∧ attached_in IOLINK_MASTER_STATE_PREOPERATE w') w.
Proof using Type*.
  intros Hf (Hc & Hun & Hd) Hs. pose proof demo_config_ok as Hcfg. pose proof demo_hookless as Hb.
  apply wp_bind. eapply wp_mono; [by apply (start_wake (slaws := demo_startup) demo_config Hcfg Hb w tt)|].
  intros ? w1 (Hc1 & Hi1 & Hd1 & Hs1).
  destruct (start_test (slaws := demo_startup) demo_config Hcfg Hb w1 tt Hc1 Hd1 Hs1) as (v & Hv & Htest).
  apply wp_bind. eapply wp_mono; [exact Htest|]. intros ? w2 (Hc2 & Hi2 & Hd2 & Hs2).
  eapply wp_mono; [by apply (start_test_reply demo_config Hcfg fuel v w2 tt)|].
  intros ret w3 (-> & Hc3 & Hi3 & Hd3 & _). split; [done|]. split; [done|]. by rewrite Hi3, Hi2, Hi1.
Qed.

(** DeviceOperate and its acknowledgement. *)
Lemma run_operate fuel w : (1 < fuel)%nat → attached_in IOLINK_MASTER_STATE_PREOPERATE w →
  wp (iolink_master_process PTR;; iolink_master_poll_rx fuel PTR) (fun ret w' =>
    ret = 1 ∧ attached_in IOLINK_MASTER_STATE_OPERATE w') w.
Proof using Type*.
  intros Hf (Hc & Hun & Hd). pose proof demo_config_ok as Hcfg. pose proof demo_hookless as Hb.
  apply wp_bind. eapply wp_mono; [by apply (start_operate (slaws := demo_startup) demo_config Hcfg Hb w tt)|].
  intros ? w1 (Hc1 & Hi1 & Hd1 & Hs1).
  eapply wp_mono; [by apply (start_operate_reply demo_config Hcfg fuel w1 tt)|].
  intros ret w2 (-> & Hc2 & Hi2 & Hd2 & _). split; [done|]. split; [done|]. by rewrite Hi2, Hi1.
Qed.

(** One cyclic exchange: [get_pd_in] returns the octet of the device. *)
Lemma run_cycle fuel w : (2 < fuel)%nat → attached_in IOLINK_MASTER_STATE_OPERATE w →
  wp (iolink_master_process PTR;; iolink_master_poll_rx fuel PTR) (fun ret w' =>
    ret = 1 ∧ ∀ v n, iolink_master_get_pd_in (Some (w_port w')) (Some [v]) 1 (Some n) =
      Some (IOLINK_MASTER_STATUS_OK, Some [0x5A], Some 1)) w.
Proof using Type*.
  intros Hf (Hc & Hun & Hd). pose proof demo_config_ok as Hcfg. pose proof demo_hookless as Hb. eapply wp_mono.
  { by apply (cyclic_round (cyc := demo_cyclic) demo_config Hcfg Hb ltac:(discriminate) fuel w tt). }
  intros ret w' (-> & _ & _ & _ & _ & _ & Hv & Hl & Hp). split; [done|]. intros v n.
  by apply (get_pd_in_stored (w_port w') [0x5A] [v] 1 n _ Hv Hp Hl).
Qed.
End demo.
