(* ===== verification/LoopbackDemo.v ===== *)
(** * The loopback demonstration ([examples/master_loopback_demo.c])

    [demo_phy_send] and [main]: a port is brought to OPERATE, exchanges process data once,
    and every step is checked. *)

From S2P Require Import Prelude Iolinki Reference Types Fixtures Parameters Isdu IsduResponse IsduRequest IsduService Services DataStorage Events EventReadout Hal Transmit Port PortInvariant PortServices PortSafety PortCalls PortTransitions Carrier PortLink PortExchange IsduFrames Adapter DeviceContract Session LoopbackPhy.

Section demo.
Context {IO : Iolinki} {DC : IolinkiDevice}.

Definition demo_phy_send (data : list Z) : M demo_t Z :=
  let len := zlen data in
  let response := zeros 8 in
  if len =? 0 then mret (-1)
  else
    mc ← mem (rd data 0);
    if (len =? 1) && (mc =? 0x55) then mret len
    else if (len =? IOLINK_M_SEQ_TYPE0_LEN) && negb (Z.land mc IOLINK_MC_RW_MASK =? 0) &&
            (Z.land mc IOLINK_MC_COMM_CHANNEL_MASK =? 0x20) then
      response ← demo_put response 0 0x00;
      cks ← demo_checksum response 2;
      response ← demo_put response 1 cks;
      queue_bytes response 2;;
      mret len
    else
      operate ← (if (len =? IOLINK_M_SEQ_MIN_LEN) && (mc =? 0x20) then
                   od ← mem (rd data IOLINK_M_SEQ_HEADER_LEN);
                   mret (od =? IOLINK_CMD_DEVICE_OPERATE)
                 else mret false);
      if operate : bool then
        response ← demo_put response 0 0x2D;
        queue_bytes response 1;;
        mret len
      else if len =? 4 then
        response ← demo_put response 0 0x5A;
        cks ← demo_checksum response 2;
        response ← demo_put response 1 cks;
        queue_bytes response 2;;
        mret len
      else mret (-1).

(** The exit code. The line it prints is left out. *)
Definition main (fuel : nat) : M world Z :=
  let pd_out := [0x11] in
  let pd_in := [0] in
  let pd_in_len := zlen pd_in in
  let od_status := 0 in
  ret ← iolink_master_init PTR (Some (g_demo_phy demo_phy_send)) (Some demo_config);
  fail_if (negb (ret =? 0)) 1 (
  g ← statics demo_phy_send;
  fail_if ((g_mode g <>e IOLINK_PHY_MODE_SDCI) || (g_baudrate g <>e IOLINK_BAUDRATE_COM3)) 2 (
  ret ← zoom w_port (iolink_master_set_pd_out PTR (Some pd_out) (zlen pd_out));
  fail_if (negb (ret =? 0)) 3 (
  ret ← (iolink_master_process PTR;; iolink_master_process PTR;; iolink_master_poll_rx fuel PTR);
  fail_if (negb (ret =? 1)) 4 (
  port ← gets w_port;
  fail_if (iolink_master_get_state (Some port) <>e IOLINK_MASTER_STATE_PREOPERATE) 5 (
  ret ← (iolink_master_process PTR;; iolink_master_poll_rx fuel PTR);
  fail_if (negb (ret =? 1)) 6 (
  port ← gets w_port;
  fail_if (iolink_master_get_state (Some port) <>e IOLINK_MASTER_STATE_OPERATE) 6 (
  ret ← (iolink_master_process PTR;; iolink_master_poll_rx fuel PTR);
  fail_if (negb (ret =? 1)) 7 (
  port ← gets w_port;
  '(ret, pd_in, pd_in_len) ← mem (iolink_master_get_pd_in (Some port) (Some pd_in) (zlen pd_in) (Some pd_in_len));
  fail_if (negb (ret =? 0)) 8 (
  pd ← mem (rd (default [] pd_in) 0);
  fail_if (negb (default 0 pd_in_len =? 1) || negb (pd =? 0x5A)) 9 (
  let '(ret, od_status) := iolink_master_get_od_status (Some port) (Some od_status) in
  fail_if (negb (ret =? 0)) 10 (
  mret 0))))))))))).

Context {laws : IolinkiLaws IO} {codec : CodecLaws IO} {dlaws : IolinkiDeviceLaws DC}.

Lemma demo_send : loopback_send demo_phy_send.
Proof.
  split.
  - intros d. by apply wp_bind, wp_ret, wp_ret.
  - intros d Hq. unfold demo_phy_send, test_message. rewrite law_type0_len, law_mc_rw, law_mc_channel.
    apply wp_bind. eapply wp_mem; [reflexivity|]. by apply answer_two.
  - intros d Hq. unfold demo_phy_send, device_operate. rewrite law_type0_len, law_min_len, law_header_len, law_cmd_operate.
    apply wp_bind. eapply wp_mem; [reflexivity|]. apply wp_bind, wp_bind. eapply wp_mem; [reflexivity|]. apply wp_ret.
    change (reply_octets [] [] 0) with [iolink_checksum6 [0]]. rewrite law_checksum_ack. by apply answer_one.
  - intros ckt x d Hq. unfold demo_phy_send. rewrite law_type0_len, law_min_len, law_mc_rw.
    apply wp_bind. eapply wp_mem; [reflexivity|]. apply wp_bind, wp_ret. by apply answer_two.
Qed.

(** C40: the demonstration succeeds. Started with nothing done on the wire, [main] returns 0
    with every library that keeps the laws: no check of a step fails, and the process data
    it reads back are those of its device. *)
Theorem loopback_demo_succeeds fuel w :
  1 ≤ IOLINK_PD_IN_MAX_SIZE → 1 ≤ IOLINK_PD_OUT_MAX_SIZE → w_io w = [] → (2 < fuel)%nat →
  wp (main fuel) (fun code _ => code = 0) w.
Proof.
  intros Hin Hout Hw Hf. pose proof demo_send as Hs.
  apply wp_bind. eapply wp_mono; [by apply (run_init _ Hs Hin Hout)|].
  intros ? w1 (-> & H1 & Hstep & d & Hd & Hm & Hb).
  apply wp_bind, wp_bind, wp_get. eapply wp_mem; [exact Hd|]. rewrite Hm, Hb.
  apply wp_bind. eapply wp_mono; [by apply (run_set_pd_out _ Hs Hin Hout IOLINK_MASTER_STATE_STARTUP)|].
  intros ? w2 (-> & H2 & Hstep2). rewrite Hstep in Hstep2.
  apply wp_bind. eapply wp_mono; [by apply (run_startup _ Hs Hin Hout)|]. intros ? w3 (-> & H3).
  apply wp_bind, wp_gets. cbn [iolink_master_get_state]. rewrite (calm_state _ _ _ (proj1 H3)).
  apply wp_bind. eapply wp_mono; [apply (run_operate _ Hs Hin Hout); [lia|done]|]. intros ? w4 (-> & H4).
  apply wp_bind, wp_gets. cbn [iolink_master_get_state]. rewrite (calm_state _ _ _ (proj1 H4)).
  apply wp_bind. eapply wp_mono; [by apply (run_cycle _ Hs Hin Hout)|]. intros ? w5 (-> & H5).
  apply wp_bind, wp_gets, wp_bind. eapply wp_mem; [apply H5|].
  apply wp_bind. eapply wp_mem; [reflexivity|]. by apply wp_ret.
Qed.
End demo.

Lemma loopback_demo_succeeds_witness : wp (main 3) (fun code _ => code = 0) (wit_world []).
Proof. apply loopback_demo_succeeds; first [reflexivity|decide_here]. Defined.
