(* ===== verification/SessionIsdu.v ===== *)
(** * ISDU services over the wire

    A caller repeats a service call, and after every PENDING runs one round of the port.
    Against a device that keeps the contract the service ends after the frames of its
    request and of the device's response, with the outcome the response encodes. *)

From S2P Require Import Prelude Iolinki Reference Types Fixtures Parameters Isdu IsduResponse IsduRequest IsduService Services DataStorage Events EventReadout Hal Transmit Port PortInvariant PortServices ParameterBlock PortSafety PortCalls PortTransitions Carrier PortLink PortExchange IsduFrames Adapter DeviceContract Session.

Section answer.
Context {D C V : Type} {A : Adapter D} {wire : WireDevice D C} {dev : SdciDevice D C V}.

Lemma sdci_answer_app n k (σ : V) : sdci_answer (n + k) σ =
  ((sdci_answer n σ).1 ++ (sdci_answer k (sdci_answer n σ).2).1, (sdci_answer k (sdci_answer n σ).2).2).
Proof.
  revert σ. induction n as [|n IH]; intros σ; cbn; [by destruct (sdci_answer k σ)|]. by rewrite IH.
Qed.
End answer.

(** The write M-sequences a request of [len] octets takes. *)
Definition request_frames (len od_len : Z) : Z := (len + od_len - 1) / od_len.

Lemma request_frames_bounds len od_len : 0 < len → 1 ≤ od_len →
  1 ≤ request_frames len od_len ∧
  (request_frames len od_len - 1) * od_len < len ≤ request_frames len od_len * od_len.
Proof.
  intros Hl Ho. unfold request_frames. pose proof (Z.div_mod (len + od_len - 1) od_len).
  pose proof (Z.mod_pos_bound (len + od_len - 1) od_len). nia.
Qed.

(** The device has taken a request, zero padded to whole frames. *)
Definition sdci_request `{SdciDevice D C V} (od_len : Z) (request : list Z) (σ : V) : V :=
  foldl sdci_feed σ (request ++ zeros (request_frames (zlen request) od_len * od_len - zlen request)).

(** ** The loop of a caller *)

(** [status]: the result code among the results of [call]. *)
Fixpoint repeat_call {IO : Iolinki} {A} (rounds fuel : nat) (status : A → Z) (call : M world A) : M world A :=
  r ← call;
  if negb (status r =? IOLINK_MASTER_STATUS_PENDING) then mret r
  else match rounds with
  | O => mret r
  | S rounds => round fuel;; repeat_call rounds fuel status call
  end.

(** A call that works on the port alone. *)
Definition serve {IO : Iolinki} {A} (rounds fuel : nat) (status : A → Z)
    (call : M iolink_master_port_state_t A) : M world A :=
  repeat_call rounds fuel status (zoom w_port call).

Lemma serve_eq {IO : Iolinki} {A} rounds fuel (status : A → Z) call :
  serve rounds fuel status call =
    r ← zoom w_port call;
    if negb (status r =? IOLINK_MASTER_STATUS_PENDING) then mret r
    else match rounds with
    | O => mret r
    | S rounds => round fuel;; serve rounds fuel status call
    end.
Proof. by destruct rounds. Qed.

(** What the call of a service promises: it starts the transport with [request], it
    waits, and it turns the outcome [o] into a result that satisfies [Q]. *)
Record service {IO : Iolinki} {A} (phy : iolink_phy_api_t) (config : iolink_master_config_t)
    (status : A → Z) (call : M iolink_master_port_state_t A)
    (id : iolink_master_isdu_op_t * Z * Z) (request : list Z) (o : isdu_outcome) (Q : A → Prop) : Prop := {
  service_safe : psafe phy config call;
  service_keeps : keeps (fun p => (p_state p, p_event p, p_rx p, p_awaiting_response p)) call;
  service_starts : ∀ p, p_state p = IOLINK_MASTER_STATE_OPERATE → isdu_free (p_isdu p) →
    wp call (fun r p' => status r = IOLINK_MASTER_STATUS_PENDING ∧
      request_ready (p_isdu p') id.1.1 id.1.2 id.2 request) p;
  service_waits : ∀ p, p_state p = IOLINK_MASTER_STATE_OPERATE →
    isdu_op (p_isdu p) ≠ IOLINK_MASTER_ISDU_OP_NONE → isdu_done (p_isdu p) = false →
    isdu_id (p_isdu p) = id →
    wp call (fun r p' => status r = IOLINK_MASTER_STATUS_PENDING ∧ p' = p) p;
  service_ends : ∀ p, port_ok phy config p → p_state p = IOLINK_MASTER_STATE_OPERATE →
    represents (p_isdu p) (Finished o) → isdu_id (p_isdu p) = id →
    wp call (fun r p' => status r ≠ IOLINK_MASTER_STATUS_PENDING ∧ Q r ∧ isdu_free (p_isdu p')) p;
}.

Section serve.
Context {IO : Iolinki} {laws : IolinkiLaws IO} {codec : CodecLaws IO}.
Context {D C V : Type} {A : Adapter D} {wire : WireDevice D C} {wlaws : WireLaws D C} {dev : SdciDevice D C V}.
Context (config : iolink_master_config_t) (Hcfg : config_ok config) (Hbare : hookless config).
Context (Htype : cfg_m_seq_type config ≠ IOLINK_MASTER_M_SEQ_TYPE_0) {isdu : IsduLaws config D C V}.
Context {B : Type} (status : B → Z) (service_call : M iolink_master_port_state_t B).
Context (id : iolink_master_isdu_op_t * Z * Z) (request : list Z) (o : isdu_outcome) (Q : B → Prop).
Context (Hservice : service wire_phy config status service_call id request o Q).
Context (fuel : nat) (Hfuel : fuel_ok config fuel).
Notation od_len := (iolink_master_od_len_for_type (cfg_m_seq_type config)).
Implicit Types (w : world) (σ : V).

Lemma calm_call st (R : B → iolink_master_isdu_state_t → Prop) w tr :
  calm config st (w_port w) → w_io w = tr →
  wp service_call (fun r p' => R r (p_isdu p')) (w_port w) →
  wp (zoom w_port service_call) (fun r w' => R r (p_isdu (w_port w')) ∧
    calm config st (w_port w') ∧ w_io w' = tr) w.
Proof.
  intros [Hok Hst He Hr Ha] Htr HR. apply wp_zoom. eapply wp_mono.
  { apply (wp_keeps (fun p => (p_state p, p_event p, p_rx p, p_awaiting_response p)));
      [apply wp_and; [exact HR|by apply (service_safe _ _ _ _ _ _ _ _ Hservice)]|].
    apply (service_keeps _ _ _ _ _ _ _ _ Hservice). }
  intros r p' [[HR' Hok'] Hk]. injection Hk as Hst' He' Hr' Ha'. split; [done|].
  split; [|done]. split; [done|..]; cbn; congruence.
Qed.

(** The end of the service. *)
Lemma serve_finished rounds w σ :
  calm config IOLINK_MASTER_STATE_OPERATE (w_port w) → device_in (w_io w) [] LinkOperate σ →
  represents (p_isdu (w_port w)) (Finished o) → isdu_id (p_isdu (w_port w)) = id →
  wp (serve rounds fuel status service_call) (fun r w' => Q r ∧
    calm config IOLINK_MASTER_STATE_OPERATE (w_port w') ∧ isdu_free (p_isdu (w_port w')) ∧
    device_in (w_io w') [] LinkOperate σ) w.
Proof.
  intros Hc Hd Hx Hid. pose proof (calm_state _ _ _ Hc) as Hst.
  destruct rounds; rewrite serve_eq; apply wp_bind; (eapply wp_mono;
    [apply (calm_call _ (fun r s => status r ≠ IOLINK_MASTER_STATUS_PENDING ∧ Q r ∧ isdu_free s) w _ Hc eq_refl);
     apply (service_ends _ _ _ _ _ _ _ _ Hservice); [apply Hc|done..]|]);
    intros r w' ((Hs & HQ & Hf) & Hc' & Hio); rewrite (proj2 (Z.eqb_neq _ _)) by done;
    apply wp_ret; rewrite Hio; by split_and!.
Qed.

(** A round in between. *)
Lemma serve_round rounds (P : B → world → Prop) w :
  calm config IOLINK_MASTER_STATE_OPERATE (w_port w) →
  isdu_op (p_isdu (w_port w)) ≠ IOLINK_MASTER_ISDU_OP_NONE → isdu_done (p_isdu (w_port w)) = false →
  isdu_id (p_isdu (w_port w)) = id →
  wp (round fuel) (fun _ => wp (serve rounds fuel status service_call) P) w →
  wp (serve (S rounds) fuel status service_call) P w.
Proof.
  intros Hc Hop Hdone Hid HP. rewrite serve_eq. apply wp_bind, wp_zoom. eapply wp_mono.
  { by apply (service_waits _ _ _ _ _ _ _ _ Hservice (w_port w)); [apply Hc|..]. }
  intros r p' [-> ->]. rewrite Z.eqb_refl. cbn [negb]. apply wp_bind.
  match goal with |- wp _ _ ?s => replace s with w by (by destruct w) end. exact HP.
Qed.

(** The frames of the response. *)
Lemma serve_receives n rounds x w σ :
  calm config IOLINK_MASTER_STATE_OPERATE (w_port w) → device_in (w_io w) [] LinkOperate σ →
  represents (p_isdu (w_port w)) x → isdu_id (p_isdu (w_port w)) = id →
  foldl rx_step x (sdci_answer (n * Z.to_nat od_len) σ).1 = Finished o → (n ≤ rounds)%nat →
  wp (serve rounds fuel status service_call) (fun r w' => Q r ∧
    calm config IOLINK_MASTER_STATE_OPERATE (w_port w') ∧ isdu_free (p_isdu (w_port w')) ∧
    ∃ k, (k ≤ n)%nat ∧ device_in (w_io w') [] LinkOperate (sdci_answer (k * Z.to_nat od_len) σ).2) w.
Proof.
  revert rounds x w σ. induction n as [|n IH]; intros rounds x w σ Hc Hd Hx Hid Hfold Hn.
  - cbn in Hfold. subst x. eapply wp_mono; [by apply serve_finished|].
    intros r w' (? & ? & ? & ?). split_and!; [done..|]. by exists 0%nat.
  - destruct (finished x) eqn:Hfin.
    { destruct x as [| |o']; [done..|]. rewrite rx_fold_finished in Hfold. injection Hfold as ->.
      eapply wp_mono; [by apply serve_finished|].
      intros r w' (? & ? & ? & ?). split_and!; [done..|]. exists 0%nat. by split; [lia|]. }
    destruct rounds as [|rounds]; [lia|].
    cbn [Nat.mul] in Hfold. rewrite sdci_answer_app in Hfold. cbn [fst] in Hfold. rewrite foldl_app in Hfold.
    assert (in_flight (p_isdu (w_port w))) as (Hop & Hdone & _).
    { destruct Hx as [_ Hx]. destruct x; [by destruct Hx|by destruct Hx|done]. }
    apply serve_round; try done. eapply wp_mono; [by eapply read_round|].
    intros ret w' (_ & Hc' & Hx' & Hid' & Hd'). eapply wp_mono.
    { apply (IH rounds _ w' _ Hc' Hd' Hx'); [congruence|exact Hfold|lia]. }
    intros r w2 (HQ & Hc2 & Hf2 & k & Hk & Hd2). split_and!; [done..|]. exists (S k). split; [lia|].
    cbn [Nat.mul]. by rewrite sdci_answer_app.
Qed.

(** The frames of the request. *)
Lemma serve_sends n j m rounds s w σ :
  calm config IOLINK_MASTER_STATE_OPERATE (w_port w) → device_in (w_io w) [] LinkOperate σ →
  p_isdu (w_port w) = s → wf_isdu s → in_flight s → isdu_phase s = IOLINK_MASTER_ISDU_PHASE_REQUEST → isdu_id s = id →
  0 ≤ j → isdu_flowctrl s = flowctrl_of j →
  Z.of_nat n * od_len < zlen (pending s) ≤ Z.of_nat (S n) * od_len →
  let σ' := foldl sdci_feed σ (pending s ++ zeros (Z.of_nat (S n) * od_len - zlen (pending s))) in
  foldl rx_step Waiting (sdci_answer (m * Z.to_nat od_len) σ').1 = Finished o → (S n + m ≤ rounds)%nat →
  wp (serve rounds fuel status service_call) (fun r w' => Q r ∧
    calm config IOLINK_MASTER_STATE_OPERATE (w_port w') ∧ isdu_free (p_isdu (w_port w')) ∧
    ∃ k, (k ≤ m)%nat ∧ device_in (w_io w') [] LinkOperate (sdci_answer (k * Z.to_nat od_len) σ').2) w.
Proof.
  pose proof (od_len_range config) as Hod. pose proof law_isdu_buffer.
  revert j rounds s w σ. induction n as [|n IH]; intros j rounds s w σ Hc Hd Hs Hwf Hfl Hph Hid Hj Hf Hlen σ' Hfold Hr;
    (destruct rounds as [|rounds]; [lia|]); pose proof Hfl as (Hop & Hdone & Hfl');
    (apply serve_round; [by rewrite ?Hs..|]); (eapply wp_mono;
      [apply (write_round config Hcfg Hbare Htype fuel (flowctrl_of j) (segment s od_len) (after_segment s od_len) w σ);
        [done..|rewrite Hs; apply (send_frame_ok s j); (done || lia)|by rewrite Hs]|]); intros ret w' (_ & Hc' & Hs' & Hd');
    pose proof (after_segment_wf s od_len Hwf ltac:(lia)) as Hwf'.
  - assert (after_segment s od_len = s <| isdu_request_pos := isdu_request_len s |>
      <| isdu_phase := IOLINK_MASTER_ISDU_PHASE_WAIT |> <| isdu_flowctrl := IOLINK_FLOWCTRL_START |>) as Has.
    { unfold after_segment. by rewrite (proj2 (Z.leb_le _ _)) by lia. }
    eapply wp_mono.
    { apply (serve_receives m rounds Waiting w' σ'); rewrite ?Hs'; try done; [|split; [done|]; by rewrite Has|by rewrite Has|lia].
      unfold σ'. pose proof (segment_zeros s od_len 0 Hwf) as Hz.
      rewrite (drop_ge (pending s)) in Hz by (unfold zlen in *; lia).
      change (zeros 0) with (@nil Z) in Hz. rewrite !app_nil_r in Hz.
      replace (Z.of_nat 1 * od_len - zlen (pending s)) with (Z.max 0 (od_len - zlen (pending s)) + 0) by lia.
      by rewrite <- Hz by lia. }
    done.
  - assert (isdu_phase (after_segment s od_len) = IOLINK_MASTER_ISDU_PHASE_REQUEST) as Hph'.
    { unfold after_segment. rewrite (proj2 (Z.leb_gt _ _)) by lia. by destruct s. }
    destruct (after_segment_pending s od_len) as [Hp' Hf']; [done|lia|done..|].
    assert (foldl sdci_feed (foldl sdci_feed σ (segment s od_len))
      (pending (after_segment s od_len) ++ zeros (Z.of_nat (S n) * od_len - zlen (pending (after_segment s od_len)))) = σ')
      as Hσ.
    { rewrite <- foldl_app, Hp'. unfold σ'. f_equal.
      rewrite segment_zeros by (done || lia || (rewrite zlen_drop; lia)). do 2 f_equal. rewrite zlen_drop. lia. }
    rewrite <- Hσ in Hfold |- *. apply (IH (j + 1) rounds _ w' _ Hc' Hd' Hs'); try done.
    + unfold after_segment. rewrite (proj2 (Z.leb_gt _ _)) by lia. by destruct s.
    + unfold after_segment. rewrite (proj2 (Z.leb_gt _ _)) by lia. by destruct s.
    + lia.
    + by rewrite Hf', Hf, flowctrl_of_succ.
    + rewrite Hp', zlen_drop. lia.
    + lia.
Qed.

(** A whole service. *)
Lemma serve_ends m rounds w σ :
  request ≠ [] →
  calm config IOLINK_MASTER_STATE_OPERATE (w_port w) → device_in (w_io w) [] LinkOperate σ →
  isdu_free (p_isdu (w_port w)) →
  foldl rx_step Waiting (sdci_answer (m * Z.to_nat od_len) (sdci_request od_len request σ)).1 = Finished o →
  (Z.to_nat (request_frames (zlen request) od_len) + m ≤ rounds)%nat →
  wp (serve rounds fuel status service_call) (fun r w' => Q r ∧
    calm config IOLINK_MASTER_STATE_OPERATE (w_port w') ∧ isdu_free (p_isdu (w_port w')) ∧
    ∃ k, (k ≤ m)%nat ∧ device_in (w_io w') [] LinkOperate
      (sdci_answer (k * Z.to_nat od_len) (sdci_request od_len request σ)).2) w.
Proof.
  intros Hne Hc Hd Hfree Hfold Hr. pose proof (od_len_range config) as Hod.
  assert (0 < zlen request) as Hl by (destruct request; [done|]; pose proof (zlen_nonneg l); slia).
  destruct (request_frames_bounds (zlen request) od_len Hl) as [Hn Hb]; [lia|].
  unfold sdci_request in *. set (n := request_frames _ _) in *. clearbody n.
  replace n with (Z.of_nat (S (Z.to_nat (n - 1)))) in * by lia. rewrite Nat2Z.id in Hr.
  destruct rounds as [|rounds]; [lia|]. rewrite serve_eq. apply wp_bind. eapply wp_mono.
  { apply (calm_call _ (fun r s => status r = IOLINK_MASTER_STATUS_PENDING ∧
      request_ready s id.1.1 id.1.2 id.2 request) w _ Hc eq_refl).
    apply (service_starts _ _ _ _ _ _ _ _ Hservice); [apply Hc|done]. }
  intros r w1 ((Hs & Hwf & Hfl & Hph & Hop & Hix & Hsub & Hpos & Hflow & Hp) & Hc1 & Hio).
  rewrite Hs, Z.eqb_refl. cbn [negb]. rewrite <- Hio in Hd.
  assert (isdu_id (p_isdu (w_port w1)) = id) as Hid.
  { unfold isdu_id. rewrite Hop, Hix, Hsub. by destruct id as [[]]. }
  pose proof Hfl as (Hop1 & Hdone & _).
  assert (wp (serve (S rounds) fuel status service_call) (fun r w' => Q r ∧
    calm config IOLINK_MASTER_STATE_OPERATE (w_port w') ∧ isdu_free (p_isdu (w_port w')) ∧
    ∃ k, (k ≤ m)%nat ∧ device_in (w_io w') [] LinkOperate
      (sdci_answer (k * Z.to_nat od_len) (foldl sdci_feed σ
        (request ++ zeros (Z.of_nat (S (Z.to_nat (n - 1))) * od_len - zlen request)))).2) w1) as H.
  { rewrite <- Hp in Hfold, Hb |- *.
    apply (serve_sends (Z.to_nat (n - 1)) 0 m (S rounds) (p_isdu (w_port w1)) w1 σ); try done; lia. }
  rewrite serve_eq in H. apply wp_bind_inv in H. 
  pose proof (service_waits _ _ _ _ _ _ _ _ Hservice (w_port w1) (calm_state _ _ _ Hc1) Hop1 Hdone Hid) as Hw.
  apply wp_inv in Hw as (r1 & p1 & Hcall & Hr1 & ->).
  unfold wp at 1, zoom in H. rewrite Hcall in H. rewrite Hr1, Z.eqb_refl in H. cbn [negb] in H.
  by match type of H with wp _ _ ?s => replace s with w1 in H by (by destruct w1) end.
Qed.
End serve.

(** ** The services *)

Section services.
Context {IO : Iolinki} {laws : IolinkiLaws IO}.
Context (phy : iolink_phy_api_t) (config : iolink_master_config_t).

(** The result of a read that ends with [o]. *)
Definition read_result (data : list Z) (len : Z) (o : isdu_outcome) (r : Z * option (list Z) * option Z) : Prop :=
  r = match o with
      | Payload payload => (IOLINK_MASTER_STATUS_OK, Some (payload ++ drop (length payload) data), Some (zlen payload))
      | _ => (IOLINK_MASTER_ISDU_ERR_DEVICE, Some data, Some len)
      end.

Lemma read_service index subindex data len o :
  is_u16 index → is_u8 subindex → is_u8 len → len ≤ zlen data →
  match o with Payload payload => zlen payload ≤ len | _ => outcome_error o ≠ IOLINK_ISDU_ERROR_NONE end →
  service phy config (fun r => r.1.1) (iolink_master_read_isdu PTR index subindex (Some data) (Some len))
    (IOLINK_MASTER_ISDU_OP_READ, index, subindex) (read_request index subindex) o (read_result data len o).
Proof.
  intros Hi Hs Hl Hd Ho. split.
  - by apply read_isdu_psafe.
  - keeps_deep.
  - intros p Hst Hf. eapply wp_mono; [by apply read_isdu_starts; [left|..]|].
    intros r p' (-> & isdu & -> & Hr). done.
  - intros p Hst Hop Hdone [= Hrd Hix Hsb]. apply wp_bind, wp_get. rewrite acyclic_guard by (by left).
    unfold iolink_master_isdu_busy, iolink_master_isdu_matches.
    rewrite Hdone, Hrd, Hix, Hsb, !Z.eqb_refl, bool_decide_false, bool_decide_true by done.
    by apply wp_ret.
  - intros p _ Hst Hx [= Hrd Hix Hsb]. destruct o as [payload|code| |].
    { eapply wp_mono; [by apply (read_isdu_finishes p index subindex data len payload); [left|..|unfold is_u8 in *; lia|lia]|].
      intros r p' (-> & Hf & _). by split_and!. }
    all: eapply wp_mono; [eapply (read_isdu_fails p index subindex data len); [by left|exact Hx|done..]|].
    all: intros r p' (-> & _ & _ & Hf & _); by split_and!.
Qed.

(** The result of a write that ends with [o]. *)
Definition write_result (o : isdu_outcome) (r : Z) : Prop :=
  r = if outcome_error o =? IOLINK_ISDU_ERROR_NONE then IOLINK_MASTER_STATUS_OK
      else IOLINK_MASTER_ISDU_ERR_DEVICE.

Lemma write_service index subindex data o :
  is_u16 index → is_u8 subindex → Forall is_u8 data → zlen data ≤ 255 →
  write_accepts (zlen data) (zlen (index_octets index subindex) + zlen data + 2) →
  service phy config (fun r => r) (iolink_master_write_isdu PTR index subindex (Some data) (zlen data))
    (IOLINK_MASTER_ISDU_OP_WRITE, index, subindex) (write_request index subindex data) o (write_result o).
Proof.
  intros Hi Hs Hu Hl Ha. pose proof (zlen_nonneg data). split.
  - apply write_isdu_psafe; done || lia.
  - keeps_deep.
  - intros p Hst Hf. eapply wp_mono; [by apply (write_starts p index subindex data (zlen data)); [left|..]|].
    intros r p' [(_ & -> & isdu & -> & Hr)|[]]; [|done]. split; [done|]. cbn [fst snd].
    unfold zlen in Hr. rewrite Nat2Z.id, firstn_all in Hr. exact Hr.
  - intros p Hst Hop Hdone [= Hrd Hix Hsb]. apply wp_bind, wp_get. rewrite acyclic_guard by (by left).
    unfold iolink_master_isdu_busy, iolink_master_isdu_matches.
    rewrite Hdone, Hrd, Hix, Hsb, !Z.eqb_refl, bool_decide_false, bool_decide_true by done.
    by apply wp_ret.
  - intros p _ Hst Hx [= Hrd Hix Hsb].
    eapply wp_mono; [by apply (write_isdu_finishes p index subindex data (zlen data) o); [left|]|].
    intros r p' (-> & Hf & _). split_and!; [|done..]. by case_match.
Qed.
End services.
