(* ===== verification/OverTheWire.v ===== *)
(** * A port and a device, from power-on to data

    The theorems about a port attached to a device that keeps the contract of
    [DeviceContract]: the start-up reaches OPERATE, the process data of the device arrive,
    and a read or a write over ISDU ends with the device's answer. *)

From S2P Require Import Prelude Iolinki Reference Types Fixtures Parameters Isdu IsduResponse IsduRequest IsduService Services DataStorage Events EventReadout Hal Transmit Port PortInvariant PortServices ParameterBlock PortSafety PortCalls PortTransitions Carrier PortLink PortExchange IsduFrames Adapter DeviceContract Session SessionIsdu.

(** The calls that bring a port up: initialisation, wake-up, test message and its reply,
    DeviceOperate and its acknowledgement. *)
Definition bring_up {IO : Iolinki} (fuel : nat) (phy : iolink_phy_api_t) (config : iolink_master_config_t) : M world Z :=
  iolink_master_init PTR (Some phy) (Some config);;
  iolink_master_process PTR;;
  iolink_master_process PTR;;
  iolink_master_poll_rx fuel PTR;;
  iolink_master_process PTR;;
  iolink_master_poll_rx fuel PTR.

(** [n] cyclic exchanges. *)
Fixpoint cycles {IO : Iolinki} (n fuel : nat) : M world unit :=
  match n with
  | O => mret tt
  | S n => round fuel;; cycles n fuel
  end.

Section contract.
Context {IO : Iolinki} {laws : IolinkiLaws IO} {codec : CodecLaws IO}.
Context {D C V : Type} {A : Adapter D} {wire : WireDevice D C} {wlaws : WireLaws D C} {dev : SdciDevice D C V}.
Context (config : iolink_master_config_t) (Hcfg : config_ok config) (Hbare : hookless config).
Implicit Types (w : world) (σ : V).

(** The port in OPERATE, no service in progress, the device's queue empty. *)
Definition connected w σ : Prop :=
  calm config IOLINK_MASTER_STATE_OPERATE (w_port w) ∧ isdu_free (p_isdu (w_port w)) ∧ unused (p_isdu (w_port w)) ∧
  device_in (w_io w) [] LinkOperate σ.

Lemma bring_up_connects {slaws : StartupLaws D C V} fuel w σ :
  cfg_port_mode config = IOLINK_MASTER_PORT_MODE_IOLINK →
  iolink_master_startup_validation_required config = false →
  device_in (w_io w) [] LinkReady σ → (2 < fuel)%nat →
  wp (bring_up fuel wire_phy config) (fun ret w' => ret = 1 ∧ connected w' σ) w.
Proof.
  intros Hmode Hval Hd Hf.
  apply wp_bind. eapply wp_mono; [by apply start_init|]. intros ret w1 (_ & Hc1 & Hi1 & Hd1 & Hs1).
  apply wp_bind. eapply wp_mono; [by apply start_wake|]. intros ? w2 (Hc2 & Hi2 & Hd2 & Hs2).
  destruct (start_test config Hcfg Hbare w2 σ Hc2 Hd2 Hs2) as (v & Hv & Htest).
  apply wp_bind. eapply wp_mono; [exact Htest|]. intros ? w3 (Hc3 & Hi3 & Hd3 & Hs3).
  apply wp_bind. eapply wp_mono; [by apply (start_test_reply config Hcfg fuel v)|].
  intros ? w4 (_ & Hc4 & Hi4 & Hd4 & _). rewrite Hi3, Hi2, Hi1 in Hi4.
  apply wp_bind. eapply wp_mono; [apply start_operate; try done; by rewrite Hi4|].
  intros ? w5 (Hc5 & Hi5 & Hd5 & Hs5). eapply wp_mono; [apply start_operate_reply; done || lia|].
  intros ret6 w6 (-> & Hc6 & Hi6 & Hd6 & _). split; [done|]. split; [done|].
  rewrite Hi6, Hi5, Hi4. split; [apply isdu_zero_free|]. by split.
Qed.

Lemma cycle_connected {cyc : CyclicLaws config D C V} fuel w σ :
  cfg_m_seq_type config ≠ IOLINK_MASTER_M_SEQ_TYPE_0 →
  connected w σ → (Z.to_nat (cfg_pd_in_len config) + 1 < fuel)%nat →
  wp (round fuel) (fun ret w' => ret = 1 ∧ connected w' σ ∧
    process_image (w_port w) (sdci_pd_in σ) (sdci_flags σ) (w_port w')) w.
Proof.
  intros Ht (Hc & Hfree & Hun & Hd) Hf. eapply wp_mono; [by apply cyclic_round|].
  intros ret w' (-> & Hc' & Hi & Hd' & Him). unfold connected. rewrite Hi. by split_and!.
Qed.

Lemma cycles_connected {cyc : CyclicLaws config D C V} n fuel w σ :
  cfg_m_seq_type config ≠ IOLINK_MASTER_M_SEQ_TYPE_0 → Z.testbit (sdci_flags σ) 6 = false →
  connected w σ → (Z.to_nat (cfg_pd_in_len config) + 1 < fuel)%nat →
  wp (cycles (S n) fuel) (fun _ w' => connected w' σ ∧ p_pd_valid (w_port w') = true ∧
    p_pd_in_len (w_port w') = zlen (sdci_pd_in σ) ∧
    ∃ rest, p_pd_in (w_port w') = sdci_pd_in σ ++ rest) w.
Proof.
  intros Ht Hflag Hc Hf. revert w Hc. induction n as [|n IH]; intros w Hc;
    apply wp_bind; (eapply wp_mono; [by apply cycle_connected|]); intros ret w1 (-> & Hc1 & _ & _ & Him);
    rewrite Hflag in Him; [|by apply IH].
  apply wp_ret. destruct Him as (Hv & Hl & Hp). split_and!; [done..|]. by eexists.
Qed.
End contract.

Section claims.
Context {IO : Iolinki} {laws : IolinkiLaws IO} {codec : CodecLaws IO}.
Context {D C V : Type} {A : Adapter D} {wire : WireDevice D C} {wlaws : WireLaws D C} {dev : SdciDevice D C V}.
Implicit Types (w : world) (σ : V).

(** C4: communication with every device that keeps the contract of the start-up and of the
    cyclic exchange. Initialisation and five calls bring the port to OPERATE; after any
    number of cyclic exchanges [get_pd_in] returns exactly the input process data of the
    device, and the port and the device are ready for the next exchange. *)
Theorem communication_over_the_wire {slaws : StartupLaws D C V} config {cyc : CyclicLaws config D C V}
    n fuel buffer buffer_len w σ :
  config_ok config → hookless config →
  cfg_port_mode config = IOLINK_MASTER_PORT_MODE_IOLINK → cfg_m_seq_type config ≠ IOLINK_MASTER_M_SEQ_TYPE_0 →
  iolink_master_startup_validation_required config = false →
  device_in (w_io w) [] LinkReady σ → Z.testbit (sdci_flags σ) 6 = false →
  (2 < fuel)%nat → (Z.to_nat (cfg_pd_in_len config) + 1 < fuel)%nat →
  cfg_pd_in_len config ≤ buffer_len ≤ zlen buffer →
  wp (bring_up fuel wire_phy config;; cycles (S n) fuel) (fun _ w' => connected config w' σ ∧
    iolink_master_get_pd_in (Some (w_port w')) (Some buffer) buffer_len (Some 0) =
      Some (IOLINK_MASTER_STATUS_OK, Some (sdci_pd_in σ ++ drop (length (sdci_pd_in σ)) buffer),
            Some (zlen (sdci_pd_in σ)))) w.
Proof.
  intros Hcfg Hbare Hmode Ht Hval Hd Hflag Hf Hf' Hb.
  apply wp_bind. eapply wp_mono; [by apply bring_up_connects|]. intros ? w1 (_ & Hc1).
  eapply wp_mono; [by apply cycles_connected|]. intros ? w2 (Hc2 & Hv & Hl & rest & Hp). split; [done|].
  pose proof Hc2 as ([Hok _ _ _ _] & _). rewrite <- (ok_pd_in_len _ _ _ Hok), Hl in Hb.
  by apply (get_pd_in_stored _ _ _ _ _ _ Hv Hp).
Qed.

End claims.
