(* ===== verification/EventSession.v ===== *)
(** * Events over the wire

    A caller repeats an event service and runs one round of the port after every PENDING.
    Against a device that keeps the contract of [EventLaws] the readout fetches the event
    memory octet by octet, and a service that confirms it writes the confirmation. *)

From S2P Require Import Prelude Iolinki Reference Types Fixtures Parameters Isdu IsduResponse IsduRequest IsduService Services DataStorage Events EventReadout Hal Transmit Port PortInvariant PortServices ParameterBlock PortSafety PortCalls PortTransitions Carrier PortLink PortExchange IsduFrames EventFrames Adapter DeviceContract Session SessionIsdu OverTheWire.

(** ** The octets of the readout *)

Section octets.
Context (memory : list Z) (Hlen : zlen memory = IOLINK_MASTER_EVENT_MEMORY_LEN) (Hu : Forall is_u8 memory).

Lemma memory_octets_length addr n : 0 ≤ n → zlen (memory_octets memory addr n) = n.
Proof. intros. unfold memory_octets, zlen. rewrite length_map, length_seqZ. lia. Qed.

Lemma memory_octets_u8 addr n : Forall is_u8 (memory_octets memory addr n).
Proof. apply list.Forall_forall. intros x Hx. unfold memory_octets in Hx. apply list_elem_of_fmap in Hx as (i & -> & _). by apply octet_u8. Qed.

(** The octets kept after another frame. *)
Lemma kept_octets k n : 0 ≤ k ≤ 19 → 0 ≤ n →
  kept (memory_octets memory 0 k ++ memory_octets memory k n) = memory_octets memory 0 (Z.min 19 (k + n)).
Proof.
  intros Hk Hn. unfold kept, memory_octets, IOLINK_MASTER_EVENT_MEMORY_LEN. rewrite <- map_app.
  replace (seqZ 0 k ++ seqZ k n) with (seqZ 0 (k + n)) by (by rewrite seqZ_app by lia).
  rewrite firstn_map. f_equal. destruct (Z.le_gt_cases 19 (k + n)) as [Hle|Hgt].
  - rewrite Z.min_l by done. replace (k + n) with (19 + (k + n - 19)) by lia.
    rewrite seqZ_app by lia. rewrite take_app_le, take_ge by (rewrite length_seqZ; lia). done.
  - rewrite Z.min_r by lia. apply take_ge. rewrite length_seqZ. lia.
Qed.

(** The readout needs this many octets. *)
Definition needed : Z := readout_len (octet memory 0).

Lemma needed_range : 1 ≤ needed ≤ 19.
Proof. unfold needed, readout_len. pose proof (last_active_range (octet memory 0) (octet_u8 _ _ Hu)). lia. Qed.

Lemma octets_complete k : 0 ≤ k → readout_complete (memory_octets memory 0 k) ↔ needed ≤ k.
Proof.
  intros Hk. pose proof needed_range as Hn. destruct (decide (k = 0)) as [->|Hne].
  { unfold memory_octets. cbn. split; [done|lia]. }
  unfold needed in *. rewrite <- (memory_octets_length 0 k Hk) at 2.
  unfold memory_octets. rewrite seqZ_cons by lia. cbn [map readout_complete]. done.
Qed.

Lemma octets_prefix k : 0 ≤ k ≤ 19 → take (Z.to_nat k) memory = memory_octets memory 0 k.
Proof.
  unfold IOLINK_MASTER_EVENT_MEMORY_LEN in Hlen. intros Hk. apply list_eq. intros i.
  unfold memory_octets. rewrite list_lookup_fmap. destruct (decide (i < Z.to_nat k)%nat) as [Hi|Hi].
  - rewrite lookup_take_lt by done. rewrite lookup_seqZ_lt by lia. cbn.
    pose proof (rd_octet memory (Z.of_nat i) ltac:(lia)) as Hr. rewrite rd_lookup, Nat2Z.id in Hr by lia. exact Hr.
  - rewrite lookup_take_ge by lia. by rewrite lookup_seqZ_ge by lia.
Qed.

(** A finished readout holds the entries of the device. *)
Lemma readout_done_memory ev k : 0 ≤ k ≤ 19 → needed ≤ k →
  readout_done ev (memory_octets memory 0 k) → readout_memory ev memory.
Proof.
  intros Hk Hn (Hm & Hum & Ht & Hlast & _). unfold IOLINK_MASTER_EVENT_MEMORY_LEN in *. pose proof needed_range.
  assert (octet (memory_octets memory 0 k) 0 = octet memory 0) as H0.
  { unfold memory_octets. rewrite seqZ_cons by lia. done. }
  split; [done|]. split; [done|]. split; [|by rewrite Hlast, H0].
  apply event_entries_prefix; [done|]. cbv zeta. fold needed.
  assert (length (memory_octets memory 0 k) = Z.to_nat k) as Hl.
  { pose proof (memory_octets_length 0 k). unfold zlen in *. lia. }
  rewrite Hl in Ht. apply (f_equal (take (Z.to_nat needed))) in Ht. rewrite <- (octets_prefix k) in Ht by done.
  rewrite !take_take in Ht. by replace (Z.to_nat needed `min` Z.to_nat k)%nat with (Z.to_nat needed) in Ht by lia.
Qed.
End octets.

(** ** The rounds of a readout *)

Section rounds.
Context {IO : Iolinki} {laws : IolinkiLaws IO} {codec : CodecLaws IO}.
Context {D C V : Type} {A : Adapter D} {wire : WireDevice D C} {wlaws : WireLaws D C} {dev : SdciDevice D C V}.
Context {edev : EventDevice V}.
Context (config : iolink_master_config_t) (Hcfg : config_ok config) (Hbare : hookless config).
Context (Htype : cfg_m_seq_type config ≠ IOLINK_MASTER_M_SEQ_TYPE_0) {events : EventLaws config D C V}.
Context (fuel : nat) (Hfuel : fuel_ok config fuel).
Notation od_len := (iolink_master_od_len_for_type (cfg_m_seq_type config)).
Implicit Types (w : world) (p : iolink_master_port_state_t) (σ : V).

(** The frame of a readout on this configuration. *)
Lemma readout_frame_config p : port_ok wire_phy config p →
  let read := ev_phase (p_event p) =e IOLINK_MASTER_EVENT_PHASE_READ in
  readout_frame p = config_frame config (event_mc read (ev_addr (p_event p)))
    (take (Z.to_nat (p_pd_out_len p)) (p_pd_out p) ++ if read then [] else zeros od_len).
Proof. intros Hok. unfold readout_frame, event_frame. by rewrite (ok_config _ _ _ Hok), (ok_od_len _ _ _ Hok). Qed.

(** The frame of a round. *)
Lemma readout_send w σ σ' reply :
  steady config IOLINK_MASTER_STATE_OPERATE (w_port w) →
  ev_phase (p_event (w_port w)) ≠ IOLINK_MASTER_EVENT_PHASE_NONE → 0 ≤ ev_addr (p_event (w_port w)) < 32 →
  (∃ d, adapter_at (w_io w) = Some d ∧
    replies_to (readout_frame (w_port w)) d reply (fun c => sdci_stage LinkOperate c σ')) →
  wp (iolink_master_process PTR) (fun _ w' => steady config IOLINK_MASTER_STATE_OPERATE (w_port w') ∧
    device_in (w_io w') reply LinkOperate σ' ∧ event_sent (w_port w) (w_port w')) w.
Proof.
  intros [Hok Hst Hr Ha] Hph Haddr (d & Hd & Hrep). eapply wp_mono.
  { apply (process_readout wire_phy config Hcfg Htype _ _ (wire_carrier config Hbare) 0 false
      (fun tr' => device_in tr' reply LinkOperate σ')); try done; [by left|].
    by eapply replies_take. }
  intros ? w' (Hok' & Hd' & Hsent). split_and!; [|done|done].
  destruct Hsent as [tx ->] in Hok' |- *. by split.
Qed.

(** A diagnosis read and its reply. *)
Lemma readout_round k w σ :
  steady config IOLINK_MASTER_STATE_OPERATE (w_port w) → device_in (w_io w) [] LinkOperate σ →
  ev_phase (p_event (w_port w)) = IOLINK_MASTER_EVENT_PHASE_READ → 0 ≤ k < needed (sdci_memory σ) →
  ev_holds (p_event (w_port w)) (memory_octets (sdci_memory σ) 0 k) →
  let l' := memory_octets (sdci_memory σ) 0 (Z.min 19 (k + od_len)) in
  wp (round fuel) (fun _ w' => steady config IOLINK_MASTER_STATE_OPERATE (w_port w') ∧
    device_in (w_io w') [] LinkOperate σ ∧ p_isdu (w_port w') = p_isdu (w_port w) ∧
    ev_request (p_event (w_port w')) = ev_request (p_event (w_port w)) ∧
    ((readout_complete l' ∧ readout_done (p_event (w_port w')) l') ∨
     (¬ readout_complete l' ∧ ev_phase (p_event (w_port w')) = IOLINK_MASTER_EVENT_PHASE_READ ∧
      ev_holds (p_event (w_port w')) l'))) w.
Proof.
  intros Hs Hd Hph Hk Hh l'. pose proof Hs as [Hok Hst Hr Ha]. pose proof (od_len_range config) as Hod.
  destruct (pd_out_octets config Hcfg _ Hok) as [Hpl Hpu]. destruct Hd as (d & Hd & Hp & Hdev).
  destruct (event_memory _ _ Hdev) as [Hm Hmu]. pose proof (event_view _ _ Hdev) as Hv.
  pose proof (needed_range _ Hmu) as Hn.
  assert (ev_addr (p_event (w_port w)) = k) as Haddr.
  { rewrite (hold_addr _ _ Hh). apply memory_octets_length. lia. }
  set (od := memory_octets (sdci_memory σ) k od_len).
  assert (zlen od = od_len) as Hodl by (apply memory_octets_length; lia).
  apply wp_bind. eapply wp_mono.
  { apply (readout_send w σ σ (reply_octets od (sdci_pd_in σ) (sdci_flags σ))); [done|by rewrite Hph|lia|].
    exists d. split; [done|]. rewrite (readout_frame_config _ Hok), Hph, bool_decide_true, app_nil_r, Haddr by done.
    apply event_read_exchange; try done. unfold IOLINK_MASTER_EVENT_MEMORY_LEN. lia. }
  intros ? w1 (Hs1 & Hd1 & tx & Hw1). unfold event_after in Hw1. rewrite Hph, bool_decide_true in Hw1 by done.
  eapply wp_mono.
  { apply (poll_steady_reply config Hcfg Htype fuel od (sdci_pd_in σ) (sdci_flags σ)
      (fun s ev => s = p_isdu (w_port w) ∧ ev_request ev = ev_request (p_event (w_port w)) ∧
        ((readout_complete l' ∧ readout_done ev l') ∨
         (¬ readout_complete l' ∧ ev_phase ev = IOLINK_MASTER_EVENT_PHASE_READ ∧ ev_holds ev l'))) w1 σ); try done; try apply Hs1.
    - apply memory_octets_u8; done.
    - rewrite Hw1. cbn. by rewrite Hodl, (ok_od_len _ _ _ Hok).
    - apply (fuel_reply config); [done|lia|done].
    - intros p'. unfold od_routed. rewrite Hw1. cbn [p_event p_isdu set ev_phase ev_od_expected].
      rewrite Hph, bool_decide_false, bool_decide_true by done. cbn [andb]. intros [-> Hon]. split; [done|].
      match type of Hon with iolink_master_event_on_od _ _ _ ?ev = _ =>
        assert (ev_holds ev (memory_octets (sdci_memory σ) 0 k)) as Hh1 by (destruct Hh; split; cbn; assumption);
        assert (ev_phase ev = IOLINK_MASTER_EVENT_PHASE_READ) as Hph1 by done;
        pose proof (event_on_od_ok ev _ od (zlen od) Hph1 Hh1 (memory_octets_u8 _ Hmu _ _)
          (memory_octets_u8 _ Hmu _ _) ltac:(lia)) as Hwp
      end.
      unfold wp in Hwp. rewrite Hon in Hwp. cbv zeta in Hwp. unfold zlen in Hwp.
      rewrite Nat2Z.id, (take_ge od) in Hwp by done. unfold od in Hwp. rewrite kept_octets in Hwp by lia. exact Hwp. }
  intros ret w2 (_ & Hs2 & (Hi2 & Hq2 & Hcase) & Hd2 & _). by split_and!.
Qed.

(** The confirmation, and whatever the device answers. *)
Lemma confirm_round w σ :
  steady config IOLINK_MASTER_STATE_OPERATE (w_port w) → device_in (w_io w) [] LinkOperate σ →
  ev_phase (p_event (w_port w)) = IOLINK_MASTER_EVENT_PHASE_WRITE → ev_addr (p_event (w_port w)) = 0 →
  wp (round fuel) (fun _ w' => steady config IOLINK_MASTER_STATE_OPERATE (w_port w') ∧
    ev_phase (p_event (w_port w')) = IOLINK_MASTER_EVENT_PHASE_NONE ∧
    device_in (w_io w') [] LinkOperate (sdci_confirmed σ) ∧ p_isdu (w_port w') = p_isdu (w_port w) ∧
    ev_request (p_event (w_port w')) = ev_request (p_event (w_port w)) ∧
    ev_memory (p_event (w_port w')) = ev_memory (p_event (w_port w)) ∧
    ev_last_slot (p_event (w_port w')) = ev_last_slot (p_event (w_port w))) w.
Proof.
  intros Hs Hd Hph Haddr. pose proof Hs as [Hok Hst Hr Ha].
  destruct (pd_out_octets config Hcfg _ Hok) as [Hpl Hpu]. destruct Hd as (d & Hd & Hp & Hdev).
  destruct (event_confirm_exchange d σ _ Hp Hdev Hpl Hpu) as (reply & Hreply & Hrep).
  apply wp_bind. eapply wp_mono.
  { apply (readout_send w σ (sdci_confirmed σ) reply); [done|by rewrite Hph|by rewrite Haddr|].
    exists d. split; [done|]. by rewrite (readout_frame_config _ Hok), Hph, Haddr. }
  intros ? w1 (Hs1 & Hd1 & tx & Hw1). unfold event_after in Hw1. rewrite Hph, bool_decide_false in Hw1 by done.
  assert (ev_phase (p_event (w_port w1)) = IOLINK_MASTER_EVENT_PHASE_NONE) as Hph1 by (by rewrite Hw1).
  destruct Hreply as [->|(pd & flags & Hv & ->)].
  - destruct Hd1 as (d1 & Hd1 & Hp1 & Hdev1). pose proof Hs1 as [Hok1 _ _ _]. eapply wp_mono.
    { apply (poll_rx_silent config fuel w1 d1 Hok1); [by split|]. unfold fuel_ok in Hfuel. lia. }
    intros ret w2 (_ & Hw2 & Hd2 & Hp2). rewrite Hw2. split; [done|]. split; [done|].
    split; [by exists d1|]. by rewrite Hw1.
  - eapply wp_mono.
    { apply (poll_steady_reply config Hcfg Htype fuel [] pd flags
        (fun s ev => s = p_isdu (w_port w) ∧ ev = p_event (w_port w1)) w1 (sdci_confirmed σ)); try done; try apply Hs1.
      - by rewrite Hw1.
      - apply (fuel_reply config); [done| |done]. rewrite zlen_nil. pose proof (od_len_range config). lia.
      - intros p'. unfold od_routed. rewrite Hph1, bool_decide_true by done. intros [Hon ->].
        split; [|done]. pose proof (on_od_empty (p_isdu (w_port w1))) as He. unfold wp in He.
        rewrite Hon in He. rewrite He. by rewrite Hw1. }
    intros ret w2 (_ & Hs2 & (Hi2 & He2) & Hd2 & _). rewrite Hi2, He2.
    split; [done|]. split; [done|]. split; [done|]. by rewrite Hw1.
Qed.
End rounds.

(** ** The loop of a caller *)

Section repeat.
Context {IO : Iolinki} {B : Type} (status : B → Z) (call : M world B) (fuel : nat).
Implicit Types (P : B → world → Prop).

Lemma repeat_more rounds P w :
  wp call (fun r w1 => status r = IOLINK_MASTER_STATUS_PENDING ∧
    wp (round fuel;; repeat_call rounds fuel status call) P w1) w →
  wp (repeat_call (S rounds) fuel status call) P w.
Proof.
  intros H. cbn [repeat_call]. apply wp_bind. eapply wp_mono; [exact H|].
  intros r w1 [-> H1]. rewrite Z.eqb_refl. exact H1.
Qed.

Lemma repeat_ends rounds P w :
  wp call (fun r w' => status r ≠ IOLINK_MASTER_STATUS_PENDING ∧ P r w') w →
  wp (repeat_call rounds fuel status call) P w.
Proof.
  intros H. destruct rounds; cbn [repeat_call]; apply wp_bind; (eapply wp_mono; [exact H|]);
    intros r w' [Hr HP]; rewrite (proj2 (Z.eqb_neq _ _)) by done; by apply wp_ret.
Qed.
End repeat.

(** What a readout leaves alone. *)
Definition beside_event (p : iolink_master_port_state_t) := (p_state p, p_isdu p, p_rx p, p_awaiting_response p).

(** What an event service promises: it starts a readout for [request], it waits, and it
    turns the memory of a finished readout into a result that satisfies [Q]. *)
Record event_service {IO : Iolinki} {B} (phy : iolink_phy_api_t) (config : iolink_master_config_t) (status : B → Z)
    (call : M world B) (request : iolink_master_event_req_t) (Q : list Z → B → Prop) : Prop := {
  event_service_starts : ∀ w, p_state (w_port w) = IOLINK_MASTER_STATE_OPERATE → event_idle (p_event (w_port w)) →
    wp call (fun r w' => status r = IOLINK_MASTER_STATUS_PENDING ∧ w_io w' = w_io w ∧
      w_port w' = w_port w <| p_event := final (iolink_master_event_start request) (p_event (w_port w)) |>) w;
  event_service_waits : ∀ w, p_state (w_port w) = IOLINK_MASTER_STATE_OPERATE →
    ev_phase (p_event (w_port w)) ≠ IOLINK_MASTER_EVENT_PHASE_NONE →
    wp call (fun r w' => status r = IOLINK_MASTER_STATUS_PENDING ∧ w' = w) w;
  event_service_ends : ∀ w memory, port_ok phy config (w_port w) → p_state (w_port w) = IOLINK_MASTER_STATE_OPERATE →
    readout_ready (p_event (w_port w)) memory → ev_request (p_event (w_port w)) = request →
    wp call (fun r w' => status r ≠ IOLINK_MASTER_STATUS_PENDING ∧ Q memory r ∧ port_ok phy config (w_port w') ∧
      event_idle (p_event (w_port w')) ∧
      beside_event (w_port w') = beside_event (w_port w) ∧
      ∃ user events, w_io w' = w_io w ++ map (IoEvent user) events) w;
}.

Section serve.
Context {IO : Iolinki} {laws : IolinkiLaws IO} {codec : CodecLaws IO}.
Context {D C V : Type} {A : Adapter D} {wire : WireDevice D C} {wlaws : WireLaws D C} {dev : SdciDevice D C V}.
Context {edev : EventDevice V}.
Context (config : iolink_master_config_t) (Hcfg : config_ok config) (Hbare : hookless config).
Context (Htype : cfg_m_seq_type config ≠ IOLINK_MASTER_M_SEQ_TYPE_0) {events : EventLaws config D C V}.
Context (fuel : nat) (Hfuel : fuel_ok config fuel).
Context {B : Type} (status : B → Z) (service_call : M world B) (request : iolink_master_event_req_t) (Q : list Z → B → Prop).
Context (Hservice : event_service wire_phy config status service_call request Q).
Notation od_len := (iolink_master_od_len_for_type (cfg_m_seq_type config)).
Implicit Types (w : world) (σ : V).

(** The view of the device when the service is done, and the frame that takes it there. *)
Definition event_view_after σ : V :=
  if request =e IOLINK_MASTER_EVENT_REQ_ACK then sdci_confirmed σ else σ.
Definition confirm_frames : nat := if request =e IOLINK_MASTER_EVENT_REQ_ACK then 1 else 0.

(** The end of a service that leaves the transport of the ISDU services in state [s]. *)
Definition event_served (s : iolink_master_isdu_state_t) σ (r : B) w' : Prop :=
  Q (sdci_memory σ) r ∧ calm config IOLINK_MASTER_STATE_OPERATE (w_port w') ∧ p_isdu (w_port w') = s ∧
  device_in (w_io w') [] LinkOperate (event_view_after σ).

Lemma device_in_details tr user es σ : device_in tr [] LinkOperate σ →
  device_in (tr ++ map (IoEvent user) es) [] LinkOperate σ.
Proof.
  intros (d & Hd & Hp & Hs). exists d. split; [|done]. clear Hp Hs. revert tr Hd.
  induction es as [|e es IH]; intros tr Hd; cbn [map]; [by rewrite app_nil_r|].
  rewrite (cons_middle (IoEvent user e)), app_assoc. apply IH.
  eapply adapter_at_snoc; [exact Hd|apply wire_effect_details].
Qed.

Lemma event_serve_done rounds w σ :
  steady config IOLINK_MASTER_STATE_OPERATE (w_port w) → ev_phase (p_event (w_port w)) = IOLINK_MASTER_EVENT_PHASE_NONE →
  device_in (w_io w) [] LinkOperate (event_view_after σ) → readout_memory (p_event (w_port w)) (sdci_memory σ) → ev_request (p_event (w_port w)) = request →
  wp (repeat_call rounds fuel status service_call) (event_served (p_isdu (w_port w)) σ) w.
Proof.
  intros [Hok Hst Hr Ha] He Hd Hm Hq. apply repeat_ends. eapply wp_mono.
  { by apply (event_service_ends _ _ _ _ _ _ Hservice w (sdci_memory σ)); [..|split|]. }
  intros r w' (Hs & HQ & Hok' & Hid & Hk & user & es & Hio). injection Hk as Hst' Hi' Hr' Ha'.
  split; [done|]. split; [done|]. split; [split; [done|congruence|done|congruence..]|].
  split; [done|]. rewrite Hio. by apply device_in_details.
Qed.

(** Once the octets are there. *)
Lemma event_serve_confirms rounds k w σ :
  steady config IOLINK_MASTER_STATE_OPERATE (w_port w) → device_in (w_io w) [] LinkOperate σ →
  0 ≤ k ≤ 19 → needed (sdci_memory σ) ≤ k →
  readout_done (p_event (w_port w)) (memory_octets (sdci_memory σ) 0 k) →
  ev_request (p_event (w_port w)) = request → (confirm_frames ≤ rounds)%nat →
  wp (repeat_call rounds fuel status service_call) (event_served (p_isdu (w_port w)) σ) w.
Proof.
  intros Hs Hd Hk Hn Hdone Hq Hr. pose proof Hs as [Hok Hst _ _].
  assert (readout_memory (p_event (w_port w)) (sdci_memory σ)) as Hm.
  { destruct Hd as (d & _ & _ & Hdev). destruct (event_memory _ _ Hdev) as [Hl Hu].
    by apply (readout_done_memory _ Hl Hu _ k). }
  destruct Hdone as (_ & _ & _ & _ & Haddr & Hph). rewrite Hq in Haddr, Hph.
  unfold confirm_frames in Hr. destruct (request =e IOLINK_MASTER_EVENT_REQ_ACK) eqn:Hack; norm_bool.
  - destruct rounds as [|rounds]; [lia|]. apply repeat_more. eapply wp_mono.
    { apply (event_service_waits _ _ _ _ _ _ Hservice w Hst). by rewrite Hph. }
    intros r w1 [Hr1 ->]. split; [done|]. apply wp_bind. eapply wp_mono.
    { by apply (confirm_round config Hcfg Hbare Htype fuel Hfuel); [..|apply Haddr]. }
    intros ? w2 (Hs2 & Hph2 & Hd2 & Hi2 & Hq2 & Hm2 & Hl2). rewrite <- Hi2.
    apply event_serve_done; [done|done| | |congruence].
    + unfold event_view_after. by rewrite bool_decide_true.
    + destruct Hm as (? & ? & ? & ?). unfold readout_memory. by rewrite Hm2, Hl2.
  - apply event_serve_done; [done|done| |done|done].
    unfold event_view_after. by rewrite bool_decide_false.
Qed.

(** The diagnosis reads. *)
Lemma event_serve_reads n k rounds w σ :
  steady config IOLINK_MASTER_STATE_OPERATE (w_port w) → device_in (w_io w) [] LinkOperate σ →
  ev_phase (p_event (w_port w)) = IOLINK_MASTER_EVENT_PHASE_READ → ev_request (p_event (w_port w)) = request →
  0 ≤ k < needed (sdci_memory σ) → needed (sdci_memory σ) - k ≤ Z.of_nat n * od_len →
  ev_holds (p_event (w_port w)) (memory_octets (sdci_memory σ) 0 k) → (n + confirm_frames ≤ S rounds)%nat →
  wp (round fuel;; repeat_call rounds fuel status service_call) (event_served (p_isdu (w_port w)) σ) w.
Proof.
  pose proof (od_len_range config) as Hod. revert k rounds w.
  induction n as [|n IH]; intros k rounds w Hs Hd Hph Hq Hk Hn Hh Hr; [lia|].
  assert (needed (sdci_memory σ) ≤ 19 ∧ Forall is_u8 (sdci_memory σ)) as [H19 Hu].
  { destruct Hd as (d & _ & _ & Hdev). destruct (event_memory _ _ Hdev) as [_ Hu]. split; [|done]. by apply needed_range. }
  apply wp_bind. eapply wp_mono; [by apply (readout_round config Hcfg Hbare Htype fuel Hfuel k w σ)|].
  intros ? w1 (Hs1 & Hd1 & Hi1 & Hq1 & Hcase). rewrite octets_complete in Hcase by (done || lia). rewrite <- Hi1.
  destruct Hcase as [[Hc Hdone]|(Hc & Hph1 & Hh1)].
  - by apply (event_serve_confirms rounds (Z.min 19 (k + od_len))); try lia; [..|congruence].
  - assert (Z.min 19 (k + od_len) = k + od_len) as Hmin by lia. rewrite Hmin in Hc, Hh1.
    destruct n as [|n']; [lia|]. destruct rounds as [|rounds]; [lia|]. apply repeat_more. eapply wp_mono.
    { apply (event_service_waits _ _ _ _ _ _ Hservice w1); [apply Hs1|by rewrite Hph1]. }
    intros r w2 [Hr2 ->]. split; [done|]. apply (IH (k + od_len)); try done; lia || congruence.
Qed.

(** A whole service. *)
Lemma event_serve_ends rounds w σ :
  calm config IOLINK_MASTER_STATE_OPERATE (w_port w) → device_in (w_io w) [] LinkOperate σ →
  (Z.to_nat (request_frames (needed (sdci_memory σ)) od_len) + confirm_frames ≤ rounds)%nat →
  wp (repeat_call rounds fuel status service_call) (event_served (p_isdu (w_port w)) σ) w.
Proof.
  intros [Hs Hid]%calm_steady Hd Hr. pose proof (od_len_range config) as Hod.
  assert (1 ≤ needed (sdci_memory σ)) as Hn1.
  { destruct Hd as (d & _ & _ & Hdev). destruct (event_memory _ _ Hdev) as [_ Hu]. by apply needed_range. }
  destruct (request_frames_bounds (needed (sdci_memory σ)) od_len) as [Hn Hb]; [lia..|].
  set (n := request_frames _ _) in *. clearbody n.
  destruct rounds as [|rounds]; [lia|]. apply repeat_more. eapply wp_mono.
  { by apply (event_service_starts _ _ _ _ _ _ Hservice w); [apply Hs|]. }
  intros r w1 (Hr1 & Hio1 & Hw1). split; [done|].
  destruct (start_holds (p_event (w_port w)) request) as (_ & Hh & Hph & Hq). rewrite <- Hio1 in Hd.
  replace (p_isdu (w_port w)) with (p_isdu (w_port w1)) by (by rewrite Hw1).
  apply (event_serve_reads (Z.to_nat n) 0); rewrite ?Hw1; try done; try lia.
  destruct Hs as [Hok Hst Hrx Ha]. split; try done. 
  apply ok_set_event; [done|]. exact (wp_final _ _ _ (event_start_ok request (p_event (w_port w)))).
Qed.
End serve.

(** ** The services *)

Section services.
Context {IO : Iolinki} {laws : IolinkiLaws IO}.
Context (phy : iolink_phy_api_t) (config : iolink_master_config_t).
Implicit Types w : world.

(** A readout in progress. *)
Lemma gate_waits p request :
  p_state p = IOLINK_MASTER_STATE_OPERATE → ev_phase (p_event p) ≠ IOLINK_MASTER_EVENT_PHASE_NONE →
  event_service_gate request p = Ok (Some IOLINK_MASTER_STATUS_PENDING) p.
Proof.
  intros Hst Hph. unfold event_service_gate, mbind, M_bind. cbn [get].
  rewrite acyclic_guard by (by left). by rewrite bool_decide_false.
Qed.

Lemma details_keeps array max_events :
  keeps (fun w => beside_event (w_port w)) (iolink_master_read_event_details PTR (Some array) max_events (Some 0)).
Proof.
  unfold iolink_master_read_event_details, event_dispatch.
  repeat first [apply keeps_on_port; solve [keeps_deep] | keeps_step]; cbv beta.
Qed.

Lemma details_service array max_events :
  1 ≤ max_events ≤ 255 → max_events ≤ zlen array →
  event_service phy config (fun r => r.1.1) (iolink_master_read_event_details PTR (Some array) max_events (Some 0))
    IOLINK_MASTER_EVENT_REQ_DETAILS (fun memory r =>
      let entries := take (Z.to_nat max_events) (event_entries memory) in
      r = (IOLINK_MASTER_STATUS_OK, Some (entries ++ drop (length entries) array), Some (zlen entries))).
Proof.
  intros Hmax Harr. split.
  - intros w Hst Hid. eapply wp_mono; [by apply details_start; [left|]|]. by intros r w' (-> & ? & ?).
  - intros w Hst Hph. unfold iolink_master_read_event_details. cbn [ptr_null null orb].
    apply wp_bind, wp_zoom. eapply wp_ok; [by apply gate_waits|]. apply wp_ret. split; [done|]. by destruct w.
  - intros w memory Hok Hst Hready Hq. eapply wp_mono.
    { apply (wp_keeps (fun w => beside_event (w_port w))).
      - apply wp_and; [by apply (details_ok w memory array max_events); [left|..]|].
        by apply (read_event_details_safe phy config).
      - apply details_keeps. }
    intros r w' [[(-> & Hio & Hid & _) Hok'] Hk]. split; [done|]. split; [done|]. split; [done|].
    split; [done|]. split; [done|]. rewrite Hio. case_match; [by eexists _, _|]. by exists 0, [].
Qed.

Lemma ack_service :
  event_service phy config fst (zoom w_port (iolink_master_ack_event PTR (Some 0)))
    IOLINK_MASTER_EVENT_REQ_ACK (fun memory r =>
      r = (IOLINK_MASTER_STATUS_OK, Some (first_code (event_entries memory)))).
Proof.
  split.
  - intros w Hst Hid. apply wp_zoom. unfold iolink_master_ack_event. cbn [ptr_null null orb].
    apply wp_bind. eapply wp_mono; [by apply gate_starts; [left|]|]. intros r p' [-> ->]. by apply wp_ret.
  - intros w Hst Hph. apply wp_zoom. unfold iolink_master_ack_event. cbn [ptr_null null orb].
    apply wp_bind. eapply wp_ok; [by apply gate_waits|]. apply wp_ret. split; [done|]. by destruct w.
  - intros w memory Hok Hst Hready Hq. apply wp_zoom. eapply wp_mono.
    { apply (wp_keeps beside_event).
      - apply wp_and; [by apply (ack_done (w_port w) memory); [left|..]|].
        by apply (ack_event_psafe phy config).
      - keeps_deep. }
    intros r p' [[(-> & Hid & _) Hok'] Hk]. split; [done|]. split; [done|]. split; [done|].
    split; [done|]. split; [done|]. exists 0, []. cbn. by rewrite app_nil_r.
Qed.
End services.

(** ** From the flag to the acknowledgement *)

(** The caller sees the event flag in the cyclic exchange, reads the details, acknowledges
    them and exchanges process data again. *)
Definition event_round_trip {IO : Iolinki} (rounds fuel : nat) (array : list iolink_master_event_t) (max_events : Z)
    : M world (bool * (Z * option (list iolink_master_event_t) * option Z) * (Z * option Z)) :=
  round fuel;;
  pending ← gets (fun w => diag_event_pending (p_diagnostics (w_port w)));
  details ← repeat_call rounds fuel (fun r => r.1.1)
    (iolink_master_read_event_details PTR (Some array) max_events (Some 0));
  acked ← repeat_call rounds fuel fst (zoom w_port (iolink_master_ack_event PTR (Some 0)));
  round fuel;;
  mret (pending, details, acked).

Section claims.
Context {IO : Iolinki} {laws : IolinkiLaws IO} {codec : CodecLaws IO}.
Context {D C V : Type} {A : Adapter D} {wire : WireDevice D C} {wlaws : WireLaws D C} {dev : SdciDevice D C V}.
Context {edev : EventDevice V}.
Implicit Types (w : world) (σ : V).

(** The round trip of a connected port. *)
Lemma event_round_trip_connected config {cyc : CyclicLaws config D C V} {events : EventLaws config D C V}
    array max_events rounds fuel w σ :
  config_ok config → hookless config → cfg_m_seq_type config ≠ IOLINK_MASTER_M_SEQ_TYPE_0 →
  connected config w σ →
  1 ≤ max_events ≤ 255 → max_events ≤ zlen array → fuel_ok config fuel →
  let memory := sdci_memory σ in
  let entries := take (Z.to_nat max_events) (event_entries memory) in
  (Z.to_nat (request_frames (readout_len (octet memory 0)) (iolink_master_od_len_for_type (cfg_m_seq_type config))) < rounds)%nat →
  wp (event_round_trip rounds fuel array max_events) (fun r w' =>
    r = (Z.testbit (sdci_flags σ) 7,
         (IOLINK_MASTER_STATUS_OK, Some (entries ++ drop (length entries) array), Some (zlen entries)),
         (IOLINK_MASTER_STATUS_OK, Some (first_code (event_entries memory)))) ∧
    connected config w' (sdci_confirmed σ) ∧
    diag_event_pending (p_diagnostics (w_port w')) = Z.testbit (sdci_flags (sdci_confirmed σ)) 7) w.
Proof.
  intros Hcfg Hbare Ht Hconn Hmax Harr Hf memory entries Hr. pose proof (od_len_range config).
  assert (Z.to_nat (cfg_pd_in_len config) + 1 < fuel)%nat as Hf' by (unfold fuel_ok in Hf; lia).
  apply wp_bind. eapply wp_mono; [by apply cycle_connected|].
  intros ? w1 (_ & (Hc1 & Hfree & Hun & Hd1) & Hp1 & _). apply wp_bind, wp_gets. rewrite Hp1.
  apply wp_bind. eapply wp_mono.
  { apply (event_serve_ends config Hcfg Hbare Ht fuel Hf _ _ _ _ (details_service _ config array max_events Hmax Harr)
      rounds w1 σ Hc1 Hd1). change (confirm_frames _) with 0%nat. unfold needed. fold memory. lia. }
  intros ? w2 (-> & Hc2 & Hi2 & Hd2). apply wp_bind. eapply wp_mono.
  { apply (event_serve_ends config Hcfg Hbare Ht fuel Hf _ _ _ _ (ack_service _ config) rounds w2 σ Hc2 Hd2).
    change (confirm_frames _) with 1%nat. unfold needed. fold memory. lia. }
  intros ? w3 (-> & Hc3 & Hi3 & Hd3). apply wp_bind. eapply wp_mono.
  { apply (cycle_connected config Hcfg Hbare fuel w3 (sdci_confirmed σ) Ht); [|done].
    split; [done|]. by rewrite Hi3, Hi2. }
  intros ? w4 (_ & Hc4 & Hp4 & _). by apply wp_ret.
Qed.

(** C6: events over the wire, whatever the device. From power-on a port that is attached to a
    device with the event memory of Table 58 is brought to OPERATE and sees the event flag
    of the device in the cyclic exchange; the details service, called with room for them,
    returns OK with all active entries of that memory in slot order, the acknowledge
    service OK with the first EventCode; each ends within the frames of its diagnosis
    reads, one more for the confirmation. The device has taken the confirmation, the next
    exchange brings its event flag after it, and the port is ready for other services. *)
Theorem events_over_the_wire {slaws : StartupLaws D C V} config {cyc : CyclicLaws config D C V}
    {events : EventLaws config D C V} array max_events rounds fuel w σ :
  config_ok config → hookless config → cfg_m_seq_type config ≠ IOLINK_MASTER_M_SEQ_TYPE_0 →
  cfg_port_mode config = IOLINK_MASTER_PORT_MODE_IOLINK →
  iolink_master_startup_validation_required config = false → device_in (w_io w) [] LinkReady σ →
  1 ≤ max_events ≤ 255 → max_events ≤ zlen array → fuel_ok config fuel →
  let memory := sdci_memory σ in
  let entries := event_entries memory in
  zlen entries ≤ max_events →
  (Z.to_nat (request_frames (readout_len (octet memory 0)) (iolink_master_od_len_for_type (cfg_m_seq_type config))) < rounds)%nat →
  wp (bring_up fuel wire_phy config;; event_round_trip rounds fuel array max_events) (fun r w' =>
    r = (Z.testbit (sdci_flags σ) 7,
         (IOLINK_MASTER_STATUS_OK, Some (entries ++ drop (length entries) array), Some (zlen entries)),
         (IOLINK_MASTER_STATUS_OK, Some (first_code (event_entries memory)))) ∧
    connected config w' (sdci_confirmed σ) ∧
    diag_event_pending (p_diagnostics (w_port w')) = Z.testbit (sdci_flags (sdci_confirmed σ)) 7) w.
Proof.
  intros Hcfg Hbare Ht Hmode Hval Hd Hmax Harr Hf memory entries Hfit Hr.
  unfold entries, memory in *. clear entries memory.
  assert (2 < fuel)%nat as Hf2 by (unfold fuel_ok in Hf; pose proof (od_len_range config); lia).
  apply wp_bind. eapply wp_mono; [by apply bring_up_connects|]. intros ? w1 (_ & Hc1).
  pose proof (event_round_trip_connected config array max_events rounds fuel w1 σ Hcfg Hbare Ht Hc1 Hmax Harr Hf) as H.
  cbv zeta in H. rewrite (take_all_entries _ _ Hfit) in H. by apply H.
Qed.
End claims.
