(* ===== verification/PacedLink.v ===== *)
(** * Paced operation over a faulty link

    A host drives the port with [iolink_master_tick_at]: one tick sends the cycle, one
    polls for the reply, and a last one reports the response timeout while the port still
    awaits a reply. The link delivers replies, garbles them or loses octets of them. The
    retries the port counts are a fold over the fates of the replies; communication is
    given up when they exceed MaxRetry. *)

From S2P Require Import Prelude Iolinki Reference Types Fixtures Parameters Isdu IsduResponse IsduRequest IsduService Services DataStorage Events EventReadout Hal Transmit Port PortInvariant PortServices PortSafety PortCalls PortTransitions Carrier PortLink PortExchange PortTiming IsduFrames EventFrames Adapter DeviceContract Session.

(** ** The host and its cycles *)

Record cycle_times : Type := { ct_send : Z; ct_poll : Z; ct_deadline : Z }.

Definition paced_cycle {IO : Iolinki} (fuel : nat) (t : cycle_times) : M world unit :=
  iolink_master_tick_at fuel PTR IOLINK_MASTER_TICK_CYCLE_DUE (ct_send t);;
  iolink_master_tick_at fuel PTR IOLINK_MASTER_TICK_NONE (ct_poll t);;
  state ← gets w_port;
  when (p_awaiting_response state)
    (iolink_master_tick_at fuel PTR IOLINK_MASTER_TICK_RESPONSE_TIMEOUT (ct_deadline t);; mret tt).

(** Cycles as long as the port is in OPERATE. *)
Fixpoint paced_run {IO : Iolinki} (fuel : nat) (ts : list cycle_times) : M world unit :=
  match ts with
  | [] => mret tt
  | t :: ts =>
      state ← gets w_port;
      when (p_state state =e IOLINK_MASTER_STATE_OPERATE) (paced_cycle fuel t;; paced_run fuel ts)
  end.

(** ** The retries of a link *)

(** What a reply costs. A garbled one is counted twice: once when its checksum is found
    wrong, which leaves the port awaiting, and once more at the response timeout. *)
Definition misses (f : fate) : Z := match f with Intact => 0 | Garbled => 2 | Short => 1 end.

(** The retries after a reply; [None]: communication is lost. *)
Definition retries_after (r : Z) (f : fate) : option Z :=
  match f with
  | Intact => Some 0
  | _ => if r + misses f <=? IOLINK_MASTER_RX_RETRY_LIMIT then Some (r + misses f) else None
  end.

Section fates.
Context {D C V : Type} {A : Adapter D} {wire : WireDevice D C} {dev : SdciDevice D C V} {ldev : LossyDevice V}.

(** The fates of the next [n] replies. *)
Fixpoint fates (n : nat) (σ : V) : list fate :=
  match n with O => [] | S n => lossy_fate σ :: fates n (lossy_next σ) end.

(** The process image after a reply, and after [n] of them. *)
Definition image_after (image : bool * list Z) (σ : V) : bool * list Z :=
  match lossy_fate σ with
  | Intact => if Z.testbit (sdci_flags σ) 6 then image else (true, sdci_pd_in σ)
  | _ => image
  end.

Fixpoint last_image (n : nat) (image : bool * list Z) (σ : V) : bool * list Z :=
  match n with O => image | S n => last_image n (image_after image σ) (lossy_next σ) end.
End fates.

(** The process image of the port: its validity and its octets. *)
Definition pd_image (p : iolink_master_port_state_t) : bool * list Z :=
  (p_pd_valid p, take (Z.to_nat (p_pd_in_len p)) (p_pd_in p)).

(** ** One failure, exactly *)

Section retry.
Context {IO : Iolinki}.
Implicit Types w : world.

(** Below MaxRetry a failure changes the diagnostics alone. *)
Lemma checksum_failed_retry w :
  0 ≤ diag_rx_retry_count (p_diagnostics (w_port w)) < IOLINK_MASTER_RX_RETRY_LIMIT →
  wp checksum_failed (fun ret w' => ret = IOLINK_MASTER_ERR_CHECKSUM ∧
    ∃ d, w' = w <| w_port := w_port w <| p_diagnostics := d |> |> ∧
      diag_rx_retry_count d = diag_rx_retry_count (p_diagnostics (w_port w)) + 1) w.
Proof.
  unfold IOLINK_MASTER_RX_RETRY_LIMIT. intros Hr. unfold checksum_failed, count_up.
  apply wp_bind, wp_zoom, wp_zoom, wp_bind, wp_get, wp_assign, wp_bind, wp_gets. cbn.
  unfold IOLINK_MASTER_RX_RETRY_LIMIT. rewrite (proj2 (Z.ltb_lt _ _)) by lia.
  apply wp_bind, wp_zoom, wp_zoom, wp_assign, wp_ret. split; [done|]. eexists. split; [by destruct w as [[] ?]|].
  cbn. apply u8_small. unfold is_u8. lia.
Qed.

Lemma timeout_retry config now timed w : hookless config → p_config (w_port w) = config →
  p_state (w_port w) = IOLINK_MASTER_STATE_OPERATE →
  0 ≤ diag_rx_retry_count (p_diagnostics (w_port w)) < IOLINK_MASTER_RX_RETRY_LIMIT →
  wp (iolink_master_on_timeout_at PTR now timed) (fun ret w' => ret = IOLINK_MASTER_STATUS_PENDING ∧
    ∃ d, w' = w <| w_port := w_port w <| p_rx := p_rx (w_port w) <| rx_len := 0 |> |> <| p_diagnostics := d |> |> ∧
      diag_rx_retry_count d = diag_rx_retry_count (p_diagnostics (w_port w)) + 1) w.
Proof.
  unfold IOLINK_MASTER_RX_RETRY_LIMIT. intros Hh Hc Hst Hr. unfold iolink_master_on_timeout_at, iolink_master_flush_rx.
  cbn [ptr_null]. apply wp_bind, wp_bind, wp_zoom, wp_zoom, wp_assign, wp_bind, wp_gets.
  cbn [w_port set p_config]. rewrite Hc, (hookless_flush _ Hh). apply wp_ret. cbn [negb Z.eqb IOLINK_MASTER_STATUS_OK].
  apply wp_bind, wp_gets. cbn [w_port set p_state p_diagnostics]. rewrite Hst.
  change (IOLINK_MASTER_STATE_OPERATE <>e IOLINK_MASTER_STATE_STARTUP) with true.
  change (IOLINK_MASTER_STATE_OPERATE =e IOLINK_MASTER_STATE_OPERATE) with true. cbv iota.
  unfold count_up. apply wp_bind, wp_zoom, wp_zoom, wp_bind, wp_get, wp_assign.
  unfold IOLINK_MASTER_RX_RETRY_LIMIT. rewrite (proj2 (Z.ltb_lt _ _)) by lia.
  apply wp_bind, wp_zoom, wp_zoom, wp_assign, wp_ret. split; [done|]. eexists. split; [by destruct w as [[] ?]|].
  cbn. apply u8_small. unfold is_u8. lia.
Qed.
End retry.

(** ** One cycle *)

Section cycle.
Context {IO : Iolinki} {laws : IolinkiLaws IO} {codec : CodecLaws IO}.
Context {D C V : Type} {A : Adapter D} {wire : WireDevice D C} {wlaws : WireLaws D C} {dev : SdciDevice D C V}.
Context {ldev : LossyDevice V}.
Context (config : iolink_master_config_t) (Hcfg : config_ok config) (Hbare : hookless config).
Context (Htype : cfg_m_seq_type config ≠ IOLINK_MASTER_M_SEQ_TYPE_0) {lossy : LossyLaws config D C V}.
Context (fuel : nat) (Hfuel : (Z.to_nat (cfg_pd_in_len config) + 1 < fuel)%nat).
Notation ok := (port_ok wire_phy config).
Implicit Types (w : world) (p : iolink_master_port_state_t) (d : D) (σ : V) (r last : Z) (t : cycle_times).

(** The port between two ticks: whether it awaits a reply, the gate of the start-up, the
    start of the last cycle, the retries so far and the process image. *)
Record paced (awaiting : bool) (gate : Z * bool) (last r : Z) (image : bool * list Z) p : Prop := {
  paced_ok : ok p;
  paced_state : p_state p = IOLINK_MASTER_STATE_OPERATE;
  paced_event : event_idle (p_event p);
  paced_unused : unused (p_isdu p);
  paced_rx : rx_len (p_rx p) = 0;
  paced_awaiting : p_awaiting_response p = awaiting;
  paced_od : awaiting = true → p_rx_od_expected p = false;
  paced_gate : (p_send_ready_at_100us p, p_send_ready_valid p) = gate;
  paced_last : p_cycle_timer_valid p = true → p_last_cycle_start_100us p = last;
  paced_retries : diag_rx_retry_count (p_diagnostics p) = r;
  paced_image : pd_image p = image;
}.

(** Communication is given up: the port will wake the device up. *)
Definition comlost p : Prop :=
  p_state p = IOLINK_MASTER_STATE_STARTUP ∧ su_step (p_startup p) = IOLINK_MASTER_STARTUP_STEP_WAKE ∧
  diag_rx_retry_count (p_diagnostics p) = 0 ∧ p_awaiting_response p = false.

Lemma hookless_obliging : obliging config.
Proof. destruct Hbare. by split; intros f Hf; exfalso; congruence. Qed.

(** A cycle may be sent at [now]. *)
Definition due (gate : Z * bool) last now : Prop :=
  cfg_min_cycle_time config ≤ u32 (now - last) ∧ gate.2 && (now <? gate.1) = false.

Lemma paced_due gate last r image p now : paced false gate last r image p → due gate last now →
  iolink_master_cycle_due_at p now = true ∧ gate_open p now.
Proof.
  intros [] [Hd Hg]. split; [|unfold gate_open; by subst gate].
  unfold iolink_master_cycle_due_at, cycle_unpaced. destruct (p_cycle_timer_valid p); [|by rewrite orb_true_r].
  rewrite paced_last0, (ok_config _ _ _ paced_ok0) by done.
  destruct (_ || _); [done|]. by apply Z.leb_le.
Qed.

Lemma paced_expects gate last r image p : paced true gate last r image p →
  rx_expected_len p = Some (cfg_pd_in_len config + 1).
Proof.
  intros []. destruct (pd_len_range config Hcfg) as [Hr _]. pose proof law_pd_in_max.
  unfold rx_expected_len. rewrite paced_state0, (not_type0 config Htype p paced_ok0), paced_od0, (ok_config _ _ _ paced_ok0) by done.
  cbn [orb]. f_equal. rewrite u8_small; unfold is_u8; lia.
Qed.

Lemma device_attached tr σ : device_in tr [] LinkOperate σ → ∃ d, adapter_at tr = Some d ∧ wire_pending d [].
Proof. intros (d & ? & ? & _). by exists d. Qed.

(** A tick polls first; here there is nothing to read. *)
Lemma tick_silent event now w σ (Q : Z → world → Prop) : ok (w_port w) → device_in (w_io w) [] LinkOperate σ →
  tick_event_in_range event = true →
  (∀ w', w_port w' = w_port w → device_in (w_io w') [] LinkOperate σ →
     wp (stop ← (if event =e IOLINK_MASTER_TICK_RESPONSE_TIMEOUT then tick_timeout true now 0 else mret None);
         match stop with
         | Some ret => mret ret
         | None => when (event =e IOLINK_MASTER_TICK_CYCLE_DUE) (tick_transmit true now);; mret 0
         end) Q w') →
  wp (iolink_master_tick_at fuel PTR event now) Q w.
Proof.
  intros Hok (d & Hd & Hp & Hs) He HQ. unfold iolink_master_tick_at, iolink_master_tick_common. rewrite He.
  cbn [ptr_null negb orb]. apply wp_bind. eapply wp_mono; [by apply (poll_rx_silent config fuel w d Hok); [split|lia]|].
  intros ret w1 (-> & Hw1 & Hd1 & Hp1). cbn [Z.ltb Z.compare]. apply HQ; [done|by exists d].
Qed.

(** The tick that sends the cycle. *)
Lemma paced_sends gate last r image now w σ :
  paced false gate last r image (w_port w) → device_in (w_io w) [] LinkOperate σ → due gate last now →
  wp (iolink_master_tick_at fuel PTR IOLINK_MASTER_TICK_CYCLE_DUE now) (fun _ w' =>
    paced true gate now r image (w_port w') ∧
    ∃ reply, Forall is_u8 reply ∧ delivered (lossy_fate σ) (sdci_pd_in σ) (sdci_flags σ) reply ∧
      device_in (w_io w') reply LinkOperate (lossy_next σ)) w.
Proof.
  intros Hp Hd Hdue. pose proof Hp as [Hok Hst He Hun Hr Ha _ Hg _ Hret Him].
  destruct (paced_due _ _ _ _ _ _ Hp Hdue) as [Hcd Hopen]. destruct (pd_out_octets config Hcfg _ Hok) as [Hpl Hpu].
  apply (tick_silent _ _ _ σ); [done|done|done|]. intros w1 Hw1 (d1 & Hd1 & Hp1 & Hs1).
  apply wp_bind. cbn [bool_decide decide decide_rel]. apply wp_ret. apply wp_bind. cbn [when].
  unfold tick_transmit. apply wp_bind, wp_gets. rewrite Hw1, Ha, Hcd. cbn [negb andb]. apply wp_bind.
  destruct (lossy_exchange d1 σ _ Hp1 Hs1 Hpl Hpu) as (reply & Hru & Hdel & Hrep). eapply wp_mono.
  { apply wp_and; [by apply (process_at_safe wire_phy config); rewrite ?Hw1|].
    unfold iolink_master_process_at. cbn [ptr_null andb]. apply wp_bind, wp_gets. unfold gate_open in Hopen.
    rewrite Hw1, (ok_phy _ _ _ Hok), (carrier_ptr _ _ _ _ (wire_carrier config Hbare)), Hopen, Hst.
    apply (cyclic_process wire_phy config Hcfg _ _ (wire_carrier config Hbare)
      (fun tr' => device_in tr' reply LinkOperate (lossy_next σ))); rewrite ?Hw1.
    - done.
    - destruct Hun as (? & ? & ?). destruct He. by split_and!.
    - by apply (not_type0 config Htype).
    - eapply (replies_take _ _ _ _ (lossy_next σ)); [exact Hd1| |done]. unfold cyclic_frame, cyclic_body.
      rewrite (ok_config _ _ _ Hok), (ok_od_len _ _ _ Hok). exact Hrep. }
  intros ? w2 (Hok2 & Hd2 & tx & Hw2). rewrite Hw1 in Hw2. apply wp_bind, wp_gets. rewrite Hw2 at 1.
  cbn [p_cycle_count set andb]. rewrite (proj2 (Z.eqb_neq _ _) (u32_moves _)). cbn [negb when].
  eapply wp_mono.
  { apply wp_and; [by apply (record_cycle_wp wire_phy config)|by apply (tick_record_cycle_safe wire_phy config)]. }
  intros ? w3 [(Hio3 & dg & dl & _ & Hw3 & _ & _ & Hr3) Hok3]. apply wp_ret. split.
  - rewrite Hw2 in Hr3. split; [done|..]; rewrite ?Hw3, ?Hw2; try done. rewrite <- Hret. exact Hr3.
  - exists reply. by rewrite Hio3.
Qed.

(** The tick that polls for the reply. *)
Lemma tick_polls now w (Q : world → Prop) :
  wp (iolink_master_poll_rx fuel PTR) (fun _ => Q) w →
  wp (iolink_master_tick_at fuel PTR IOLINK_MASTER_TICK_NONE now) (fun _ => Q) w.
Proof.
  intros HQ. apply wp_bind. eapply wp_mono; [exact HQ|]. intros ret w' Hw'.
  destruct (ret <? 0); [by apply wp_ret|]. by apply wp_bind, wp_ret, wp_bind, wp_ret, wp_ret.
Qed.

(** A reply that arrives as it is. *)
Lemma paced_intact gate last r image now w σ pd flags :
  paced true gate last r image (w_port w) → view_fits config pd flags →
  device_in (w_io w) (reply_octets [] pd flags) LinkOperate σ →
  wp (iolink_master_tick_at fuel PTR IOLINK_MASTER_TICK_NONE now) (fun _ w' =>
    paced false gate last 0 (if Z.testbit flags 6 then image else (true, pd)) (w_port w') ∧
    device_in (w_io w') [] LinkOperate σ) w.
Proof.
  intros [Hok Hst He Hun Hr Ha Hod Hg Hl Hret Him] Hv Hd. apply tick_polls. eapply wp_mono.
  { apply (wp_keeps (fun w => clock (w_port w))); [|apply poll_rx_clock].
    apply (poll_operate_reply config Hcfg Htype fuel [] pd flags (fun s => s = p_isdu (w_port w)) w σ); try done.
    - by rewrite Hod.
    - pose proof (zlen_reply [] pd flags) as Hz. rewrite zlen_nil in Hz. destruct Hv as [Hv _]. unfold zlen in *. lia.
    - apply on_od_empty. }
  intros ret w' [(_ & [Hok' Hst' He' Hr' Ha'] & Hi' & Hd' & Him') Hk]. injection Hk as Hk1 Hk2 Hk3 Hk4.
  split; [|done]. destruct Him' as (_ & Hret' & Him'). split; try done; [by rewrite Hi'|congruence|by rewrite Hk3, Hk4|].
  unfold pd_image in *. destruct (Z.testbit flags 6).
  - destruct Him' as (-> & -> & ->). done.
  - destruct Him' as (-> & -> & ->). unfold zlen. by rewrite Nat2Z.id, take_app_length.
Qed.

(** One with octets missing. *)
Lemma paced_short gate last r image now w σ part :
  paced true gate last r image (w_port w) → device_in (w_io w) part LinkOperate σ →
  zlen part ≤ cfg_pd_in_len config → Forall is_u8 part →
  wp (iolink_master_tick_at fuel PTR IOLINK_MASTER_TICK_NONE now) (fun _ w' =>
    ok (w_port w') ∧ device_in (w_io w') [] LinkOperate σ ∧
    ∃ rx, w_port w' = w_port w <| p_rx := rx |>) w.
Proof.
  intros Hp (d & Hd & Hpend & Hs) Hl Hu. pose proof (paced_expects _ _ _ _ _ Hp) as Hexp.
  destruct Hp as [Hok Hst He Hun Hr Ha Hod Hg Hla Hret Him]. apply tick_polls.
  destruct (pd_len_range config Hcfg) as [Hpr _]. pose proof law_pd_in_max. eapply wp_mono.
  { apply (poll_rx_short config fuel part (cfg_pd_in_len config + 1) w d); try done.
    - unfold IOLINK_MASTER_FRAME_BUF_SIZE. lia.
    - unfold zlen in *. lia. }
  intros ret w' (_ & (data & Hz & Hdu & Hw') & d' & [Hd' Hp'] & Hc'). rewrite Hw'. split; [|split].
  - apply ok_set_rx; [done|]. split; [done|done|]. pose proof (zlen_nonneg part).
    unfold IOLINK_MASTER_FRAME_BUF_SIZE in *. cbn. lia.
  - exists d'. by rewrite Hc'.
  - by eexists.
Qed.

(** One with a wrong checksum: it is counted, and the port still awaits a reply. *)
Lemma paced_garbled gate last r image now w σ reply pd flags :
  paced true gate last r image (w_port w) → 0 ≤ r ≤ IOLINK_MASTER_RX_RETRY_LIMIT →
  zlen pd = cfg_pd_in_len config → delivered Garbled pd flags reply → Forall is_u8 reply →
  device_in (w_io w) reply LinkOperate σ →
  wp (iolink_master_tick_at fuel PTR IOLINK_MASTER_TICK_NONE now) (fun _ w' =>
    if r <? IOLINK_MASTER_RX_RETRY_LIMIT
    then paced true gate last (r + 1) image (w_port w') ∧ device_in (w_io w') [] LinkOperate σ
    else comlost (w_port w')) w.
Proof.
  intros Hp Hrange Hpl (resp & Hdec & Hck) Hru (d & Hd & Hpend & Hs). pose proof (paced_expects _ _ _ _ _ Hp) as Hexp.
  destruct Hp as [Hok Hst He Hun Hr Ha Hod Hg Hla Hret Him]. apply tick_polls.
  destruct (pd_len_range config Hcfg) as [Hpr _]. pose proof law_pd_in_max. rewrite Hpl in Hdec.
  destruct (law_decode _ _ _ _ Hru Hdec) as (Hz & _). rewrite Z.add_0_r in Hz.
  apply (poll_rx_refused config fuel reply w d); try done; [by rewrite Hz|unfold IOLINK_MASTER_FRAME_BUF_SIZE; lia|unfold zlen in *; lia|].
  intros w1 d1 data [Hd1 Hp1] Hc1 Hdu Hdl Hsl Hw1.
  assert (ok (w_port w1)) as Hok1.
  { rewrite Hw1. apply ok_set_rx; [done|]. split; [done|done|unfold IOLINK_MASTER_FRAME_BUF_SIZE; cbn; lia]. }
  unfold iolink_master_on_rx. cbn [ptr_null orb]. rewrite (proj2 (Z.eqb_neq _ _)) by lia.
  apply wp_bind, wp_gets. rewrite Hw1. cbn [p_state set]. rewrite Hst. rewrite !bool_decide_false by done. cbn [andb orb].
  change (type0_operate (set p_rx _ (w_port w))) with (type0_operate (w_port w)).
  rewrite (not_type0 config Htype _ Hok), andb_false_r.
  unfold on_rx_operate. apply wp_bind, wp_gets, wp_bind. eapply wp_mem; [exact Hsl|].
  rewrite Hw1. cbn [p_config p_rx_od_expected p_od_len set].
  rewrite (ok_config _ _ _ Hok), Hod, Hdec, Hck by done. cbn [negb].
  assert (diag_rx_retry_count (p_diagnostics (w_port w1)) = r) as Hret1 by (by rewrite Hw1).
  assert (p_state (w_port w1) = IOLINK_MASTER_STATE_OPERATE) as Hst1 by (by rewrite Hw1).
  unfold IOLINK_MASTER_RX_RETRY_LIMIT in *. destruct (Z.ltb_spec r 2) as [Hlt|Hge].
  - eapply wp_mono; [apply checksum_failed_retry; rewrite Hret1; unfold IOLINK_MASTER_RX_RETRY_LIMIT; lia|].
    intros ret w2 (-> & dg & -> & Hr2). rewrite Hret1 in Hr2. split; [done|]. split; [|exists d1; by rewrite Hc1].
    split; [by apply ok_set_rx_empty, ok_set_diagnostics|..]; cbn; rewrite ?Hw1; done.
  - eapply wp_mono.
    { apply (checksum_failed_coop wire_phy config hookless_obliging w1 Hok1 Hst1).
      unfold IOLINK_MASTER_RX_RETRY_LIMIT. lia. }
    intros ret w2 (-> & _ & _ & Ho). unfold IOLINK_MASTER_RX_RETRY_LIMIT in Ho. rewrite Hret1, (proj2 (Z.ltb_ge _ _)) in Ho by lia.
    destruct Ho as (? & ? & ? & _ & ?). split; [done|]. by split_and!.
Qed.

(** The response timeout. *)
Lemma paced_timeout gate last r image now w p rx σ :
  paced true gate last r image p → 0 ≤ r ≤ IOLINK_MASTER_RX_RETRY_LIMIT →
  ok (w_port w) → w_port w = p <| p_rx := rx |> → device_in (w_io w) [] LinkOperate σ →
  wp (iolink_master_tick_at fuel PTR IOLINK_MASTER_TICK_RESPONSE_TIMEOUT now) (fun _ w' =>
    if r <? IOLINK_MASTER_RX_RETRY_LIMIT
    then paced false gate last (r + 1) image (w_port w') ∧ device_in (w_io w') [] LinkOperate σ
    else comlost (w_port w')) w.
Proof.
  intros Hp Hrange Hokw Hw Hd. pose proof Hp as [Hok Hst He Hun Hr Ha Hod Hg Hla Hret Him].
  apply (tick_silent _ _ _ σ); [done|done|done|]. intros w1 Hw1 Hd1.
  apply wp_bind. unfold tick_timeout. rewrite bool_decide_true by done.
  apply wp_bind, wp_gets. rewrite Hw1, Hw. cbn [p_awaiting_response set]. rewrite Ha. cbn [negb andb when].
  apply wp_bind. unfold iolink_master_flush_rx at 1. apply wp_bind, wp_bind, wp_zoom, wp_zoom, wp_assign, wp_bind, wp_gets.
  cbn [w_port set p_config]. rewrite Hw1, Hw. cbn [p_config set]. rewrite (ok_config _ _ _ Hok), (hookless_flush _ Hbare).
  apply wp_ret, wp_ret, wp_bind, wp_zoom, wp_assign, wp_bind.
  match goal with |- wp _ _ ?s => set (w2 := s) end.
  assert (w_port w2 = p <| p_rx := rx <| rx_len := 0 |> |> <| p_awaiting_response := false |>) as Hw2.
  { unfold w2. cbn. by rewrite ?Hw1, ?Hw. }
  assert (ok (w_port w2)) as Hok2.
  { rewrite Hw2. rewrite Hw in Hokw. apply ok_set_awaiting. exact (ok_set_rx_empty _ _ _ Hokw). }
  assert (diag_rx_retry_count (p_diagnostics (w_port w2)) = r) as Hret2 by (by rewrite Hw2).
  assert (p_state (w_port w2) = IOLINK_MASTER_STATE_OPERATE) as Hst2 by (by rewrite Hw2).
  unfold IOLINK_MASTER_RX_RETRY_LIMIT in *. destruct (Z.ltb_spec r 2) as [Hlt|Hge].
  - eapply wp_mono.
    { apply (timeout_retry config); [done|apply Hok2|done|]. rewrite Hret2. unfold IOLINK_MASTER_RX_RETRY_LIMIT. lia. }
    intros ret w3 (-> & dg & -> & Hr3). rewrite Hret2 in Hr3. apply wp_ret, wp_ret. split; [|exact Hd1].
    split; [by apply ok_set_diagnostics, ok_set_rx_empty|..]; cbn; rewrite ?Hw2; done.
  - eapply wp_mono.
    { apply (timeout_coop wire_phy config hookless_obliging now true w2 Hok2 Hst2). unfold IOLINK_MASTER_RX_RETRY_LIMIT. lia. }
    intros ret w3 (_ & _ & Ho). unfold IOLINK_MASTER_RX_RETRY_LIMIT in Ho. rewrite Hret2, (proj2 (Z.ltb_ge _ _)) in Ho by lia.
    destruct Ho as (? & ? & ? & _ & ?). 
    destruct (negb _); [by apply wp_ret, wp_ret|by apply wp_ret, wp_bind, wp_ret, wp_ret].
Qed.

Lemma timeout_ends gate last r image t w p rx σ :
  paced true gate last r image p → 0 ≤ r ≤ IOLINK_MASTER_RX_RETRY_LIMIT →
  ok (w_port w) → w_port w = p <| p_rx := rx |> → device_in (w_io w) [] LinkOperate σ →
  wp (state ← gets w_port;
      when (p_awaiting_response state)
        (iolink_master_tick_at fuel PTR IOLINK_MASTER_TICK_RESPONSE_TIMEOUT (ct_deadline t);; mret tt)) (fun _ w' =>
    match retries_after r Short with
    | Some r' => paced false gate last r' image (w_port w') ∧ device_in (w_io w') [] LinkOperate σ
    | None => comlost (w_port w')
    end) w.
Proof.
  intros Hp Hr Hok Hw Hd. apply wp_bind, wp_gets. rewrite Hw. cbn [p_awaiting_response set].
  rewrite (paced_awaiting _ _ _ _ _ _ Hp). cbn [when]. apply wp_bind.
  eapply wp_mono; [by eapply paced_timeout|]. intros ? w' Ho. apply wp_ret. revert Ho. cbn [retries_after misses].
  unfold IOLINK_MASTER_RX_RETRY_LIMIT. destruct (Z.ltb_spec r 2), (Z.leb_spec (r + 1) 2); by (lia || done).
Qed.

(** One cycle: the retries follow the fate of the reply, and the process image is that of
    the last reply that arrived. *)
Lemma paced_cycle_outcome gate last r image t w σ :
  paced false gate last r image (w_port w) → 0 ≤ r ≤ IOLINK_MASTER_RX_RETRY_LIMIT →
  device_in (w_io w) [] LinkOperate σ → due gate last (ct_send t) →
  wp (paced_cycle fuel t) (fun _ w' =>
    match retries_after r (lossy_fate σ) with
    | Some r' => paced false gate (ct_send t) r' (image_after image σ) (w_port w') ∧
        device_in (w_io w') [] LinkOperate (lossy_next σ)
    | None => comlost (w_port w')
    end) w.
Proof.
  intros Hp Hr Hd Hdue. unfold paced_cycle.
  assert (view_fits config (sdci_pd_in σ) (sdci_flags σ)) as Hv.
  { destruct Hd as (d & _ & _ & Hs). by eapply lossy_view. }
  apply wp_bind. eapply wp_mono; [by eapply paced_sends|].
  intros ? w1 (Hp1 & reply & Hru & Hdel & Hd1). apply wp_bind. unfold image_after.
  destruct (lossy_fate σ).
  - cbn in Hdel. subst reply. eapply wp_mono; [by apply (paced_intact gate (ct_send t) r image _ w1 (lossy_next σ))|].
    intros ? w2 [Hp2 Hd2]. apply wp_bind, wp_gets. rewrite (paced_awaiting _ _ _ _ _ _ Hp2). by apply wp_ret.
  - eapply wp_mono; [by apply (paced_garbled gate (ct_send t) r image _ w1 (lossy_next σ) reply _ _ Hp1 Hr (proj1 Hv) Hdel)|].
    intros ? w2 Ho. destruct (Z.ltb_spec r IOLINK_MASTER_RX_RETRY_LIMIT) as [Hlt|Hge].
    + destruct Ho as [Hp2 Hd2]. eapply wp_mono.
      { apply (timeout_ends gate (ct_send t) (r + 1) image t w2 (w_port w2) (p_rx (w_port w2)) (lossy_next σ)); try done; [lia|apply Hp2|by destruct (w_port w2)]. }
      intros ? w3. cbn [retries_after misses]. by replace (r + 1 + 1) with (r + 2) by lia.
    + destruct Ho as (? & ? & ? & Ha). apply wp_bind, wp_gets. rewrite Ha. apply wp_ret. cbn [retries_after misses].
      rewrite (proj2 (Z.leb_gt _ _)) by lia. done.
  - eapply wp_mono; [by apply (paced_short gate (ct_send t) r image _ w1 (lossy_next σ) reply Hp1 Hd1); [destruct Hv as [<- _]|]|].
    intros ? w2 (Hok2 & Hd2 & rx & Hw2). by apply (timeout_ends gate (ct_send t) r image t w2 (w_port w1) rx).
Qed.

(** ** A run *)

(** The instants at which cycles are sent keep the cycle time and lie after the gate. *)
Fixpoint on_schedule (gate : Z * bool) (last : Z) (ts : list cycle_times) : Prop :=
  match ts with [] => True | t :: ts => due gate last (ct_send t) ∧ on_schedule gate (ct_send t) ts end.

Lemma retries_after_range r f r' : 0 ≤ r ≤ IOLINK_MASTER_RX_RETRY_LIMIT → retries_after r f = Some r' →
  0 ≤ r' ≤ IOLINK_MASTER_RX_RETRY_LIMIT.
Proof.
  unfold IOLINK_MASTER_RX_RETRY_LIMIT. intros Hr. destruct f; cbn [retries_after misses]; [by intros [= <-]|..];
    unfold IOLINK_MASTER_RX_RETRY_LIMIT; (case_match eqn:Hb; [|done]); intros [= <-]; norm_bool; lia.
Qed.

Lemma paced_run_outcome ts gate last r image w σ :
  paced false gate last r image (w_port w) → 0 ≤ r ≤ IOLINK_MASTER_RX_RETRY_LIMIT →
  device_in (w_io w) [] LinkOperate σ → on_schedule gate last ts →
  wp (paced_run fuel ts) (fun _ w' =>
    match ofold retries_after r (fates (length ts) σ) with
    | Some r' => (∃ last', paced false gate last' r' (last_image (length ts) image σ) (w_port w')) ∧
        device_in (w_io w') [] LinkOperate (Nat.iter (length ts) lossy_next σ)
    | None => comlost (w_port w')
    end) w.
Proof.
  revert last r image w σ. induction ts as [|t ts IH]; intros last r image w σ Hp Hr Hd Hts.
  { apply wp_ret. split; [by exists last|done]. }
  destruct Hts as [Hdue Hts]. apply wp_bind, wp_gets. rewrite (paced_state _ _ _ _ _ _ Hp).
  change (IOLINK_MASTER_STATE_OPERATE =e IOLINK_MASTER_STATE_OPERATE) with true. cbn [when].
  apply wp_bind. eapply wp_mono; [by apply (paced_cycle_outcome gate last r image t w σ)|].
  intros ? w1 Ho. cbn [length fates ofold last_image]. destruct (retries_after r (lossy_fate σ)) as [r1|] eqn:Hr1.
  - destruct Ho as [Hp1 Hd1]. cbn [mbind option_bind]. rewrite Nat.iter_succ_r.
    apply (IH (ct_send t)); try done. by eapply retries_after_range.
  - cbn [mbind option_bind]. destruct ts as [|t' ts]; [by apply wp_ret|]. apply wp_bind, wp_gets.
    destruct Ho as (Hst & Ho). rewrite Hst. apply wp_ret. by split.
Qed.
End cycle.

Section claims.
Context {IO : Iolinki} {laws : IolinkiLaws IO} {codec : CodecLaws IO}.
Context {D C V : Type} {A : Adapter D} {wire : WireDevice D C} {wlaws : WireLaws D C} {dev : SdciDevice D C V}.
Context {ldev : LossyDevice V}.

(** C11: the retries of a port in paced operation. Over every sequence of cycles that keep
    the cycle time, with every device that keeps the contract, the retries counted are the
    fold of [retries_after] over the fates of the replies: a reply that arrives resets
    them, one with octets missing costs one, and one with a wrong checksum costs two,
    because the port goes on awaiting a reply and counts the response timeout as well. As
    long as they stay within MaxRetry the port is in OPERATE with the process data of the
    last reply that arrived; the first cycle that exceeds them gives the device up. So two
    garbled replies in a row already lose communication. *)
Theorem paced_link_retries config {lossy : LossyLaws config D C V} fuel ts gate last r image w σ :
  config_ok config → hookless config → cfg_m_seq_type config ≠ IOLINK_MASTER_M_SEQ_TYPE_0 →
  (Z.to_nat (cfg_pd_in_len config) + 1 < fuel)%nat →
  paced config false gate last r image (w_port w) → 0 ≤ r ≤ IOLINK_MASTER_RX_RETRY_LIMIT →
  device_in (w_io w) [] LinkOperate σ → on_schedule config gate last ts →
  wp (paced_run fuel ts) (fun _ w' =>
    match ofold retries_after r (fates (length ts) σ) with
    | Some r' => (∃ last', paced config false gate last' r' (last_image (length ts) image σ) (w_port w')) ∧
        device_in (w_io w') [] LinkOperate (Nat.iter (length ts) lossy_next σ)
    | None => comlost (w_port w')
    end) w.
Proof. intros. by eapply paced_run_outcome. Qed.
End claims.
