(* ===== verification/FakeDevice.v ===== *)
(** * The simulated device of the tests

    [tests/fake_iolink_device.c]: a device that answers the start-up, the cyclic frames,
    event readouts and ISDU requests on a small table of objects. [FakeServer] shows that
    its ISDU octet machine serves the requests of Annex A.5. *)

From S2P Require Import Prelude Iolinki.

Definition FAKE_IOLINK_DEVICE_OBJECT_MAX_LEN : Z := 16.
Definition FAKE_IOLINK_DEVICE_OBJECT_MAX_COUNT : Z := 4.
Definition FAKE_IOLINK_DEVICE_ISDU_REQUEST_MAX_LEN : Z := 80.

(** The stage of the link the device has seen. *)
Definition FAKE_LINK_STARTUP : Z := 0.
Definition FAKE_LINK_PREOPERATE : Z := 1.
Definition FAKE_LINK_OPERATE : Z := 2.

Record fake_iolink_device_object_t : Type := {
  fo_index : Z;
  fo_subindex : Z;
  fo_data : list Z;
  fo_len : Z;
  fo_valid : bool;
}.

Record fake_iolink_device_t : Type := {
  fd_pd_in_value : Z;
  fd_pd_in_len : Z;
  fd_od_len : Z;
  fd_event_pending : bool;
  fd_rx_queue : list Z;
  fd_rx_len : Z;
  fd_rx_pos : Z;
  fd_link_state : Z;
  fd_wakeup_count : Z;
  fd_transition_count : Z;
  fd_operate_cycle_count : Z;
  fd_corrupt_next_response_checksum : bool;
  fd_drop_next_response : bool;
  fd_truncate_next_response : bool;
  fd_keep_unread_responses : bool;
  fd_objects : list fake_iolink_device_object_t;
  fd_object_count : Z;
  fd_isdu_request : list Z;
  fd_isdu_request_len : Z;
  fd_isdu_request_expect_data : bool;
  fd_isdu_request_last_control : bool;
  fd_isdu_response : list Z;
  fd_isdu_response_len : Z;
  fd_isdu_response_pos : Z;
  fd_isdu_response_active : bool;
  fd_event_memory : list Z;
}.

#[export] Instance eta_fake_iolink_device_object_t : Eta fake_iolink_device_object_t := fun r => {|
  fo_index := fo_index r;
  fo_subindex := fo_subindex r;
  fo_data := fo_data r;
  fo_len := fo_len r;
  fo_valid := fo_valid r;
|}.
#[export] Instance eta_fake_iolink_device_t : Eta fake_iolink_device_t := fun r => {|
  fd_pd_in_value := fd_pd_in_value r;
  fd_pd_in_len := fd_pd_in_len r;
  fd_od_len := fd_od_len r;
  fd_event_pending := fd_event_pending r;
  fd_rx_queue := fd_rx_queue r;
  fd_rx_len := fd_rx_len r;
  fd_rx_pos := fd_rx_pos r;
  fd_link_state := fd_link_state r;
  fd_wakeup_count := fd_wakeup_count r;
  fd_transition_count := fd_transition_count r;
  fd_operate_cycle_count := fd_operate_cycle_count r;
  fd_corrupt_next_response_checksum := fd_corrupt_next_response_checksum r;
  fd_drop_next_response := fd_drop_next_response r;
  fd_truncate_next_response := fd_truncate_next_response r;
  fd_keep_unread_responses := fd_keep_unread_responses r;
  fd_objects := fd_objects r;
  fd_object_count := fd_object_count r;
  fd_isdu_request := fd_isdu_request r;
  fd_isdu_request_len := fd_isdu_request_len r;
  fd_isdu_request_expect_data := fd_isdu_request_expect_data r;
  fd_isdu_request_last_control := fd_isdu_request_last_control r;
  fd_isdu_response := fd_isdu_response r;
  fd_isdu_response_len := fd_isdu_response_len r;
  fd_isdu_response_pos := fd_isdu_response_pos r;
  fd_isdu_response_active := fd_isdu_response_active r;
  fd_event_memory := fd_event_memory r;
|}.

Section fake.
Context {IO : Iolinki} {DC : IolinkiDevice}.
Notation F := (M fake_iolink_device_t).

(** ** Objects

    A pointer to an object is its place in the table. *)

Fixpoint find_object_from (places : list Z) (index subindex : Z) : F (option Z) :=
  match places with
  | [] => mret None
  | i :: places =>
      d ← get;
      object ← mem (rd (fd_objects d) i);
      if fo_valid object && (fo_index object =? index) && (fo_subindex object =? subindex)
      then mret (Some i)
      else find_object_from places index subindex
  end.

Definition fake_iolink_device_find_object (index subindex : Z) : F (option Z) :=
  d ← get;
  find_object_from (upto (fd_object_count d)) index subindex.

(** [g_device.objects[i] = f(g_device.objects[i])] *)
Definition change_object (i : Z) (f : fake_iolink_device_object_t → option fake_iolink_device_object_t) : F unit :=
  d ← get;
  object ← mem (rd (fd_objects d) i);
  object ← mem (f object);
  objects ← mem (wr (fd_objects d) i object);
  fd_objects <~ objects.

Definition fake_iolink_device_find_or_create_object (index subindex : Z) : F (option Z) :=
  object ← fake_iolink_device_find_object index subindex;
  d ← get;
  if null object && (fd_object_count d <? FAKE_IOLINK_DEVICE_OBJECT_MAX_COUNT) then
    let i := fd_object_count d in
    fd_object_count <~ u8 (i + 1);;
    change_object i (fun o => Some (o <| fo_index := index |> <| fo_subindex := subindex |>));;
    mret (Some i)
  else mret object.

(** The octets an object stores, and its length. *)
Definition store_object (data : list Z) (len : Z) (o : fake_iolink_device_object_t)
    : option fake_iolink_device_object_t :=
  content ← memcpy (fo_data o) 0 data 0 len;
  Some (o <| fo_data := content |> <| fo_len := len |> <| fo_valid := true |>).

(** ** ISDU responses *)

Definition put_response (i v : Z) : F unit :=
  d ← get;
  response ← mem (wr (fd_isdu_response d) i v);
  fd_isdu_response <~ response.

Definition fake_iolink_device_isdu_append_chkpdu : F unit :=
  d ← get;
  chk ← mem (ofold (fun chk i => v ← rd (fd_isdu_response d) i; Some (Z.lxor chk v)) 0
         (upto (fd_isdu_response_len d)));
  put_response (fd_isdu_response_len d) chk;;
  d ← get;
  fd_isdu_response_len <~ u8 (fd_isdu_response_len d + 1).

(** The response in the buffer becomes the one to send. *)
Definition stage_response (len : Z) : F unit :=
  fd_isdu_response_len <~ len;;
  fake_iolink_device_isdu_append_chkpdu;;
  fd_isdu_response_pos <~ 0;;
  fd_isdu_response_active <~ true.

Definition fake_iolink_device_prepare_isdu_error (error_code additional_code : Z) : F unit :=
  put_response 0 0xC4;;
  put_response 1 error_code;;
  put_response 2 additional_code;;
  stage_response 3.

Definition fake_iolink_device_prepare_isdu_ack : F unit :=
  put_response 0 0x52;;
  stage_response 1.

Definition put_response_data (at_ : Z) (data : list Z) (len : Z) : F unit :=
  d ← get;
  response ← mem (memcpy (fd_isdu_response d) at_ data 0 len);
  fd_isdu_response <~ response.

Definition fake_iolink_device_prepare_isdu_read_data (data : list Z) (len : Z) : F unit :=
  let total := u16 (1 + len + 1) in
  if total <=? 15 then
    put_response 0 (u8 (Z.lor 0xD0 (u8 total)));;
    put_response_data 1 data len;;
    stage_response (u8 (1 + len))
  else
    let total := u16 (2 + len + 1) in
    put_response 0 0xD1;;
    put_response 1 (u8 total);;
    put_response_data 2 data len;;
    stage_response (u8 (2 + len)).

Definition not_available : F unit :=
  fake_iolink_device_prepare_isdu_error 0x80 IOLINK_ISDU_ERROR_SERVICE_NOT_AVAIL.

Definition serve_read (index subindex : Z) : F unit :=
  object ← fake_iolink_device_find_object index subindex;
  match object with
  | None => not_available
  | Some i =>
      d ← get;
      o ← mem (rd (fd_objects d) i);
      fake_iolink_device_prepare_isdu_read_data (fo_data o) (fo_len o)
  end.

Definition serve_write (index subindex index_len : Z) : F unit :=
  d ← get;
  let total := fd_isdu_request_len d in
  let payload_start := u8 (1 + index_len) in
  let payload_len := u8 (total - payload_start - 1) in
  if FAKE_IOLINK_DEVICE_OBJECT_MAX_LEN <? payload_len then not_available
  else
    object ← fake_iolink_device_find_or_create_object index subindex;
    match object with
    | None => not_available
    | Some i =>
        d ← get;
        payload ← mem (if 0 <? payload_len then slice (fd_isdu_request d) payload_start payload_len else Some []);
        change_object i (store_object payload payload_len);;
        fake_iolink_device_prepare_isdu_ack
    end.

(** The Index and Subindex of a request. *)
Definition request_target (request : list Z) (index_len : Z) : option (Z * Z) :=
  a ← rd request 1;
  if index_len =? 1 then Some (a, 0)
  else
    b ← rd request 2;
    if index_len =? 2 then Some (a, b)
    else
      c ← rd request 3;
      Some (u16 (Z.lor (u16 (Z.shiftl a 8)) b), c).

Definition fake_iolink_device_prepare_isdu_response : F unit :=
  d ← get;
  if fd_isdu_request_len d <? 2 then not_available
  else
    head ← mem (rd (fd_isdu_request d) 0);
    let service := u8 (Z.shiftr head 4) in
    let index_len := u8 (Z.land service 0x07) in
    if (index_len =? 0) || (fd_isdu_request_len d <? u8 (2 + index_len)) then not_available
    else
      '(index, subindex) ← mem (request_target (fd_isdu_request d) index_len);
      if (service =? 0x09) || (service =? 0x0A) || (service =? 0x0B) then serve_read index subindex
      else if (service =? 0x01) || (service =? 0x02) || (service =? 0x03)
      then serve_write index subindex index_len
      else not_available.

(** An octet of a request arrives. *)
Definition fake_iolink_device_on_master_od (od : Z) : F unit :=
  d ← get;
  when (fd_isdu_request_len d <? FAKE_IOLINK_DEVICE_ISDU_REQUEST_MAX_LEN) (
    request ← mem (wr (fd_isdu_request d) (fd_isdu_request_len d) od);
    fd_isdu_request <~ request;;
    fd_isdu_request_len <~ u8 (fd_isdu_request_len d + 1));;
  d ← get;
  if fd_isdu_request_len d <? 2 then mret tt
  else
    head ← mem (rd (fd_isdu_request d) 0);
    declared ← (if Z.land head 0x0F =? 1 then mem (rd (fd_isdu_request d) 1) else mret (Z.land head 0x0F));
    if declared <? 2 then mret tt
    else when (declared <=? fd_isdu_request_len d) (
      fake_iolink_device_prepare_isdu_response;;
      fd_isdu_request_len <~ 0).

(** The next octet of the response, 0 when there is none. *)
Definition fake_iolink_device_next_response_od : F Z :=
  d ← get;
  if negb (fd_isdu_response_active d) || (fd_isdu_response_len d <=? fd_isdu_response_pos d)
  then mret 0
  else
    od ← mem (rd (fd_isdu_response d) (fd_isdu_response_pos d));
    fd_isdu_response_pos <~ u8 (fd_isdu_response_pos d + 1);;
    mret od.

(** ** The queue of reply octets *)

Definition fake_iolink_device_queue_begin : F Z :=
  d ← get;
  if fd_keep_unread_responses d && (fd_rx_pos d <? fd_rx_len d) then mret (fd_rx_len d)
  else
    fd_rx_pos <~ 0;;
    fd_rx_len <~ 0;;
    mret 0.

Definition put_rx (pos v : Z) : F unit :=
  d ← get;
  queue ← mem (wr (fd_rx_queue d) pos v);
  fd_rx_queue <~ queue.

Definition flush_reply : F unit :=
  fd_rx_len <~ 0;;
  fd_rx_pos <~ 0;;
  fd_drop_next_response <~ false.

(** The queue ends after [len] octets; an armed fault spoils CKS or drops it. *)
Definition spoil_checksum (pos : Z) : F unit :=
  d ← get;
  when (fd_corrupt_next_response_checksum d) (
    v ← mem (rd (fd_rx_queue d) pos);
    put_rx pos (Z.lxor v 0x01);;
    fd_corrupt_next_response_checksum <~ false).

Definition end_reply (len : Z) : F unit :=
  fd_rx_len <~ u8 len;;
  d ← get;
  when (fd_truncate_next_response d && (0 <? fd_rx_len d)) (
    fd_rx_len <~ fd_rx_len d - 1;;
    fd_truncate_next_response <~ false).

Definition fake_iolink_device_queue_type0 (value : Z) : F unit :=
  d ← get;
  if fd_drop_next_response d then flush_reply
  else
    pos ← fake_iolink_device_queue_begin;
    put_rx pos value;;
    put_rx (pos + 1) 0x00;;
    d ← get;
    msg ← mem (slice (fd_rx_queue d) pos 2);
    put_rx (pos + 1) (iolink_checksum6 msg);;
    spoil_checksum (pos + 1);;
    end_reply (pos + IOLINK_M_SEQ_TYPE0_LEN).

(** [n] octets from [next] go to the queue from [pos] on. *)
Fixpoint put_rx_octets (n : nat) (pos : Z) (next : F Z) : F Z :=
  match n with
  | O => mret pos
  | S n =>
      v ← next;
      put_rx pos v;;
      put_rx_octets n (u8 (pos + 1)) next
  end.

(** The process data of a reply that starts at [start], and CKS at [pos]. *)
Definition put_pd_and_cks (start pos : Z) : F Z :=
  d ← get;
  pos ← put_rx_octets (Z.to_nat (fd_pd_in_len d)) pos (gets fd_pd_in_value);
  put_rx pos (if fd_event_pending d then 0x80 else 0);;
  d ← get;
  msg ← mem (slice (fd_rx_queue d) start (pos + 1 - start));
  flags ← mem (rd (fd_rx_queue d) pos);
  put_rx pos (u8 (Z.lor (iolink_checksum6 msg) flags));;
  mret pos.

Definition fake_iolink_device_queue_operate_response (read : bool) : F unit :=
  d ← get;
  if fd_drop_next_response d then flush_reply
  else
    start ← fake_iolink_device_queue_begin;
    pos ← (if read then put_rx_octets (Z.to_nat (fd_od_len d)) start fake_iolink_device_next_response_od
           else mret start);
    pos ← put_pd_and_cks start pos;
    spoil_checksum pos;;
    end_reply (pos + 1).

Definition fake_iolink_device_direct_param_octet (addr : Z) : F Z :=
  page ← fake_iolink_device_find_object IOLINK_IDX_DIRECT_PARAMETERS_1 0;
  match page with
  | None => mret 0
  | Some i =>
      d ← get;
      o ← mem (rd (fd_objects d) i);
      if addr <? fo_len o then mem (rd (fo_data o) addr) else mret 0
  end.

Definition fake_iolink_device_event_memory_octet (addr : Z) : F Z :=
  d ← get;
  if addr <? zlen (fd_event_memory d) then mem (rd (fd_event_memory d) addr) else mret 0.

Fixpoint put_event_octets (n : nat) (pos addr : Z) : F Z :=
  match n with
  | O => mret pos
  | S n =>
      v ← fake_iolink_device_event_memory_octet (u8 addr);
      put_rx pos v;;
      put_event_octets n (u8 (pos + 1)) (addr + 1)
  end.

Definition fake_iolink_device_queue_diagnosis_read (addr od_len : Z) : F unit :=
  let od_len := if od_len =? 0 then 1 else od_len in
  start ← fake_iolink_device_queue_begin;
  pos ← put_event_octets (Z.to_nat od_len) start addr;
  pos ← put_pd_and_cks start pos;
  fd_rx_len <~ u8 (pos + 1).

(** ** The frames of the port *)

Fixpoint on_master_ods (ods : list Z) : F unit :=
  match ods with
  | [] => mret tt
  | od :: ods => fake_iolink_device_on_master_od od;; on_master_ods ods
  end.

Definition on_diagnosis (mc : Z) : F unit :=
  if negb (Z.land mc IOLINK_MC_RW_MASK =? 0) then
    d ← get;
    fake_iolink_device_queue_diagnosis_read (u8 (Z.land mc IOLINK_MC_ADDR_MASK)) (fd_od_len d)
  else fd_event_pending <~ false.

Definition on_isdu (data : list Z) (mc : Z) : F unit :=
  let read := negb (Z.land mc IOLINK_MC_RW_MASK =? 0) in
  when (negb read) (on_master_ods (drop (Z.to_nat IOLINK_M_SEQ_HEADER_LEN) data));;
  d ← get;
  if fd_link_state d =? FAKE_LINK_OPERATE then fake_iolink_device_queue_operate_response read
  else
    od ← (if read then fake_iolink_device_next_response_od else mret 0);
    fake_iolink_device_queue_type0 od.

Definition on_device_operate : F unit :=
  pos ← fake_iolink_device_queue_begin;
  d ← get;
  fd_transition_count <~ u32 (fd_transition_count d + 1);;
  fd_link_state <~ FAKE_LINK_OPERATE;;
  put_rx pos 0x00;;
  d ← get;
  msg ← mem (slice (fd_rx_queue d) pos 1);
  put_rx pos (iolink_checksum6 msg);;
  fd_rx_len <~ u8 (pos + 1).

Definition on_type0 (mc : Z) : F unit :=
  d ← get;
  if (fd_link_state d =? FAKE_LINK_STARTUP) && negb (Z.land mc IOLINK_MC_RW_MASK =? 0) &&
     (Z.land mc IOLINK_MC_COMM_CHANNEL_MASK =? 0x20) then
    fd_link_state <~ FAKE_LINK_PREOPERATE;;
    v ← fake_iolink_device_direct_param_octet (u8 (Z.land mc IOLINK_MC_ADDR_MASK));
    fake_iolink_device_queue_type0 v
  else if mc =? IOLINK_MC_TRANSITION_COMMAND then
    fd_transition_count <~ u32 (fd_transition_count d + 1);;
    fd_link_state <~ FAKE_LINK_OPERATE
  else
    when (fd_link_state d =? FAKE_LINK_STARTUP) (fd_link_state <~ FAKE_LINK_PREOPERATE);;
    od ← fake_iolink_device_next_response_od;
    fake_iolink_device_queue_type0 od.

Definition on_cycle (mc : Z) : F unit :=
  d ← get;
  fd_operate_cycle_count <~ u32 (fd_operate_cycle_count d + 1);;
  fd_link_state <~ FAKE_LINK_OPERATE;;
  fake_iolink_device_queue_operate_response (negb (Z.land mc IOLINK_MC_RW_MASK =? 0)).

(** [data] has the length the port passes along with it. *)
Definition fake_iolink_device_send (data : list Z) : F Z :=
  match data with
  | [] => mret (-1)
  | mc :: _ =>
    if (zlen data =? 1) && (mc =? 0x55) then
      d ← get;
      fd_wakeup_count <~ u32 (fd_wakeup_count d + 1);;
      mret (zlen data)
    else if Z.land mc IOLINK_MC_COMM_CHANNEL_MASK =? IOLINK_MC_CHANNEL_DIAGNOSIS then
      on_diagnosis mc;;
      mret (zlen data)
    else if Z.land mc IOLINK_MC_COMM_CHANNEL_MASK =? IOLINK_MC_CHANNEL_ISDU then
      on_isdu data mc;;
      mret (zlen data)
    else
      operate ← (if (zlen data =? IOLINK_M_SEQ_MIN_LEN) && (mc =? 0x20) then
                   od ← mem (rd data IOLINK_M_SEQ_HEADER_LEN);
                   mret (od =? IOLINK_CMD_DEVICE_OPERATE)
                 else mret false);
      (if operate : bool then on_device_operate
       else if zlen data =? IOLINK_M_SEQ_TYPE0_LEN then on_type0 mc
       else on_cycle mc);;
      mret (zlen data)
  end.

Definition fake_iolink_device_recv_byte : F (Z * Z) :=
  d ← get;
  if fd_rx_len d <=? fd_rx_pos d then mret (0, 0)
  else
    byte ← mem (rd (fd_rx_queue d) (fd_rx_pos d));
    fd_rx_pos <~ u8 (fd_rx_pos d + 1);;
    mret (1, byte).

(** ** Set-up *)

Definition fake_object_zero : fake_iolink_device_object_t := {|
  fo_index := 0; fo_subindex := 0; fo_data := zeros FAKE_IOLINK_DEVICE_OBJECT_MAX_LEN; fo_len := 0; fo_valid := false;
|}.

Definition fake_iolink_device_reset (pd_in_value pd_in_len od_len : Z) : fake_iolink_device_t := {|
  fd_pd_in_value := pd_in_value; fd_pd_in_len := pd_in_len; fd_od_len := od_len;
  fd_event_pending := false;
  fd_rx_queue := zeros 16; fd_rx_len := 0; fd_rx_pos := 0;
  fd_link_state := FAKE_LINK_STARTUP;
  fd_wakeup_count := 0; fd_transition_count := 0; fd_operate_cycle_count := 0;
  fd_corrupt_next_response_checksum := false; fd_drop_next_response := false;
  fd_truncate_next_response := false; fd_keep_unread_responses := false;
  fd_objects := replicate (Z.to_nat FAKE_IOLINK_DEVICE_OBJECT_MAX_COUNT) fake_object_zero; fd_object_count := 0;
  fd_isdu_request := zeros FAKE_IOLINK_DEVICE_ISDU_REQUEST_MAX_LEN; fd_isdu_request_len := 0;
  fd_isdu_request_expect_data := false; fd_isdu_request_last_control := false;
  fd_isdu_response := zeros 128; fd_isdu_response_len := 0; fd_isdu_response_pos := 0;
  fd_isdu_response_active := false;
  fd_event_memory := zeros 19;
|}.

Definition fake_iolink_device_set_isdu_object (index subindex : Z) (data : list Z) (len : Z) : F unit :=
  if (len =? 0) || (FAKE_IOLINK_DEVICE_OBJECT_MAX_LEN <? len) then mret tt
  else
    object ← fake_iolink_device_find_or_create_object index subindex;
    match object with
    | None => mret tt
    | Some i => change_object i (store_object data len)
    end.

(** Direct Parameter page 1 of the device: [uint8_t page[16]]. *)
Definition fake_iolink_device_set_direct_parameter_page1
    (min_cycle_time mseq_capability pd_in_descriptor pd_out_descriptor vendor_id device_id : Z) : F unit :=
  let page := zeros 16 in
  page ← mem (wr page 0x02 min_cycle_time);
  page ← mem (wr page 0x03 mseq_capability);
  page ← mem (wr page 0x04 0x11);
  page ← mem (wr page 0x05 pd_in_descriptor);
  page ← mem (wr page 0x06 pd_out_descriptor);
  page ← mem (wr page 0x07 (u8 (Z.shiftr vendor_id 8)));
  page ← mem (wr page 0x08 (u8 (Z.land vendor_id 0xFF)));
  page ← mem (wr page 0x09 (u8 (Z.land (Z.shiftr device_id 16) 0xFF)));
  page ← mem (wr page 0x0A (u8 (Z.land (Z.shiftr device_id 8) 0xFF)));
  page ← mem (wr page 0x0B (u8 (Z.land device_id 0xFF)));
  fake_iolink_device_set_isdu_object IOLINK_IDX_DIRECT_PARAMETERS_1 0 page (zlen page).

Definition fake_iolink_device_set_data_storage (data : list Z) (len : Z) : F unit :=
  fake_iolink_device_set_isdu_object IOLINK_IDX_DATA_STORAGE 0 data len.

Definition fake_iolink_device_set_event_pending (pending : bool) : F unit :=
  fd_event_pending <~ pending.

Definition fake_iolink_device_set_event_code (event_code : Z) : F unit :=
  let data := [u8 (Z.shiftr event_code 8); u8 (Z.land event_code 0xFF)] in
  fake_iolink_device_set_isdu_object IOLINK_IDX_SYSTEM_COMMAND 0 data (zlen data).

(** One octet of the event memory. *)
Definition put_event_octet (memory : list Z) (i : Z) : F unit :=
  v ← mem (rd memory i);
  d ← get;
  event_memory ← mem (wr (fd_event_memory d) i v);
  fd_event_memory <~ event_memory.

(** [for(i = 0; (i < len) && (i < sizeof(g_device.event_memory)); i++)] *)
Fixpoint put_event_memory (places : list Z) (memory : list Z) : F unit :=
  match places with
  | [] => mret tt
  | i :: places => put_event_octet memory i;; put_event_memory places memory
  end.

Definition fake_iolink_device_set_event_memory (memory : list Z) (len : Z) : F unit :=
  d ← get;
  fd_event_memory <~ zeros (zlen (fd_event_memory d));;
  put_event_memory (upto (Z.min len (zlen (fd_event_memory d)))) memory.

Definition fake_iolink_device_corrupt_next_response_checksum : F unit :=
  fd_corrupt_next_response_checksum <~ true.

Definition fake_iolink_device_drop_next_response : F unit :=
  fd_drop_next_response <~ true.

Definition fake_iolink_device_truncate_next_response : F unit :=
  fd_truncate_next_response <~ true.

Definition fake_iolink_device_keep_unread_responses : F unit :=
  fd_keep_unread_responses <~ true.

Definition fake_iolink_device_flush_rx : F unit :=
  fd_rx_len <~ 0;;
  fd_rx_pos <~ 0.

(** ** Counters *)

Definition fake_iolink_device_wakeup_count (d : fake_iolink_device_t) : Z := fd_wakeup_count d.
Definition fake_iolink_device_transition_count (d : fake_iolink_device_t) : Z := fd_transition_count d.
Definition fake_iolink_device_operate_cycle_count (d : fake_iolink_device_t) : Z := fd_operate_cycle_count d.
End fake.
