(* ===== verification/FakeServer.v ===== *)
(** * The simulated device as an ISDU server

    [server] is what the simulated device means to be: a store of objects, the octets of
    the request so far, the octets of the response still to send, and the process data and
    events it reports. The functions of
    [FakeDevice] keep the device well formed and do to [fake_view] what [server_feed] and
    [server_next] do, and the server answers the read and write requests of Annex A.5. *)

From S2P Require Import Prelude Iolinki Types IsduResponse IsduRequest IsduService FakeDevice.

(** ** The server *)

Record server : Type := {
  sv_store : list (Z * Z * list Z);
  sv_request : list Z;
  sv_response : list Z;
  sv_pd_in : list Z;
  sv_event : bool;
  sv_memory : list Z;
}.
#[export] Instance eta_server : Eta server := fun r => {|
  sv_store := sv_store r;
  sv_request := sv_request r;
  sv_response := sv_response r;
  sv_pd_in := sv_pd_in r;
  sv_event := sv_event r;
  sv_memory := sv_memory r;
|}.

(** The place of an object in the store. *)
Fixpoint find_from (k : Z) (store : list (Z * Z * list Z)) (index subindex : Z) : option Z :=
  match store with
  | [] => None
  | e :: store =>
      if (e.1.1 =? index) && (e.1.2 =? subindex) then Some k else find_from (k + 1) store index subindex
  end.

Definition store_get (store : list (Z * Z * list Z)) (index subindex : Z) : option (list Z) :=
  k ← find_from 0 store index subindex;
  e ← rd store k;
  Some e.2.

(** The store has four places. *)
Definition store_put (store : list (Z * Z * list Z)) (index subindex : Z) (data : list Z)
    : option (list (Z * Z * list Z)) :=
  match find_from 0 store index subindex with
  | Some k => wr store k (index, subindex, data)
  | None => if zlen store <? FAKE_IOLINK_DEVICE_OBJECT_MAX_COUNT
            then Some (store ++ [(index, subindex, data)]) else None
  end.

Section server.
Context {IO : Iolinki} {DC : IolinkiDevice}.

Definition server_reply (service : Z) (body : list Z) (σ : server) : server :=
  σ <| sv_response := isdu_encode service body |>.

(** The negative response, ErrorType 0x80 and "service not available". *)
Definition server_refuse : server → server :=
  server_reply 12 [0x80; IOLINK_ISDU_ERROR_SERVICE_NOT_AVAIL].

Definition server_read (index subindex : Z) (σ : server) : server :=
  match store_get (sv_store σ) index subindex with
  | None => server_refuse σ
  | Some data => server_reply 13 data σ
  end.

Definition server_write (index subindex : Z) (data : list Z) (σ : server) : server :=
  if FAKE_IOLINK_DEVICE_OBJECT_MAX_LEN <? zlen data then server_refuse σ
  else match store_put (sv_store σ) index subindex data with
  | None => server_refuse σ
  | Some store => server_reply 5 [] (σ <| sv_store := store |>)
  end.

(** The request in [sv_request] is complete: I-Service, Index and Subindex, data, CHKPDU. *)
Definition server_execute (σ : server) : server :=
  let request := sv_request σ in
  match request with
  | head :: _ :: _ =>
      let service := head / 16 in
      let index_len := service mod 8 in
      if (index_len =? 0) || (zlen request <? 2 + index_len) then server_refuse σ
      else match request_target request index_len with
      | None => σ
      | Some (index, subindex) =>
          if (service =? 9) || (service =? 10) || (service =? 11) then server_read index subindex σ
          else if (service =? 1) || (service =? 2) || (service =? 3) then
            server_write index subindex
              (take (Z.to_nat (zlen request - index_len - 2)) (drop (Z.to_nat (1 + index_len)) request)) σ
          else server_refuse σ
      end
  | _ => server_refuse σ
  end.

(** The length a request declares, once it is known. *)
Definition server_declared (request : list Z) : option Z :=
  match request with
  | head :: second :: _ =>
      let n := if Z.land head 0x0F =? 1 then second else Z.land head 0x0F in
      if n <? 2 then None else Some n
  | _ => None
  end.

Definition server_feed (σ : server) (od : Z) : server :=
  let request := if zlen (sv_request σ) <? FAKE_IOLINK_DEVICE_ISDU_REQUEST_MAX_LEN
                 then sv_request σ ++ [od] else sv_request σ in
  let σ := σ <| sv_request := request |> in
  match server_declared request with
  | Some n => if n <=? zlen request then server_execute σ <| sv_request := [] |> else σ
  | None => σ
  end.

Definition server_next (σ : server) : Z * server :=
  match sv_response σ with
  | [] => (0, σ)
  | od :: response => (od, σ <| sv_response := response |>)
  end.
End server.

(** ** What the server does with the requests of Annex A.5 *)

Section requests.
Context {IO : Iolinki} {laws : IolinkiLaws IO} {DC : IolinkiDevice}.
Implicit Types σ : server.

(** The first octets of a stream declare its length. *)
Lemma server_declared_encode service body k : 0 < service < 16 → isdu_body_fits body →
  Forall is_u8 body → (2 ≤ k)%nat →
  server_declared (take k (isdu_encode service body)) = Some (zlen (isdu_encode service body)).
Proof.
  intros Hs Hb Hu Hk. unfold isdu_encode, isdu_body_fits in *. cbv zeta.
  assert (∀ c x, 0 ≤ c < 16 → 0 ≤ x < 16 → Z.land (c * 16 + x) 0x0F = x) as Hland.
  { intros c x Hc Hx. change 0x0F with (Z.ones 4). rewrite Z.land_ones by lia. change (2 ^ 4) with 16.
    rewrite Z.add_comm, Z.mod_add by lia. by apply Z.mod_small. }
  rewrite zlen_app, zlen_app, zlen_isdu_header. change (zlen [_]) with 1. pose proof (zlen_nonneg body).
  destruct k as [|[|k]]; [lia..|]. unfold isdu_header. destruct (Z.leb_spec (zlen body + 2) 15).
  - cbn [app]. destruct (body ++ [_]) as [|x l] eqn:Hl; [by destruct body|]. cbn [take server_declared].
    rewrite Hland by lia. rewrite (proj2 (Z.eqb_neq _ 1)) by lia. rewrite (proj2 (Z.ltb_ge _ 2)) by lia. f_equal. lia.
  - cbn [app take server_declared]. rewrite Hland by lia. rewrite Z.eqb_refl.
    rewrite (proj2 (Z.ltb_ge _ 2)) by lia. f_equal. lia.
Qed.

(** A stream arrives whole. *)
Lemma server_feed_stream service body σ : 0 < service < 16 → isdu_body_fits body → Forall is_u8 body →
  zlen (isdu_encode service body) ≤ FAKE_IOLINK_DEVICE_ISDU_REQUEST_MAX_LEN → sv_request σ = [] →
  foldl server_feed σ (isdu_encode service body) =
    server_execute (σ <| sv_request := isdu_encode service body |>) <| sv_request := [] |>.
Proof.
  intros Hs Hb Hu Hl Hr. set (r := isdu_encode service body) in *.
  assert (2 ≤ length r)%nat as H2.
  { unfold r, isdu_encode. rewrite !length_app. unfold isdu_header. case_match; cbn; lia. }
  assert (∀ k, (2 ≤ k)%nat → server_declared (take k r) = Some (zlen r)) as Hdecl
    by (intros; by apply server_declared_encode).
  clearbody r. unfold zlen in *.
  assert (∀ k, (k < length r)%nat → foldl server_feed σ (take k r) = σ <| sv_request := take k r |>) as Hpre.
  { induction k as [|k IH]; intros Hk; [by rewrite take_0; destruct σ; cbn in *; subst|].
    destruct (lookup_lt_is_Some_2 r k) as [x Hx]; [lia|].
    rewrite (take_S_r _ _ x) by done. rewrite foldl_app, IH by lia. cbn [foldl]. unfold server_feed.
    cbn [sv_request set]. rewrite <- (take_S_r _ _ x) by done. unfold zlen.
    rewrite length_take_le by lia. rewrite (proj2 (Z.ltb_lt _ _)) by lia.
    destruct k as [|k].
    { destruct r as [|a [|b r']]; [cbn in *; lia..|]. done. }
    rewrite Hdecl, length_take_le by lia. rewrite (proj2 (Z.leb_gt _ _)) by lia. done. }
  replace r with (take (length r - 1) r ++ drop (length r - 1) r) at 1 by apply take_drop.
  rewrite foldl_app, Hpre by lia.
  destruct (lookup_lt_is_Some_2 r (length r - 1)) as [x Hx]; [lia|].
  rewrite (drop_S _ x) by done. replace (S (length r - 1)) with (length r) by lia. rewrite drop_all.
  cbn [foldl]. unfold server_feed. cbn [sv_request set]. rewrite <- (take_S_r _ _ x) by done.
  replace (S (length r - 1)) with (length r) by lia.
  pose proof (Hdecl (length r) H2) as Hd. rewrite firstn_all in Hd |- *. unfold zlen.
  rewrite length_take_le by lia. rewrite (proj2 (Z.ltb_lt _ _)) by lia.
  by rewrite Hd, Z.leb_refl.
Qed.

Lemma request_target_octets index subindex head l : is_u16 index → is_u8 subindex →
  request_target (head :: index_octets index subindex ++ l) (zlen (index_octets index subindex)) =
    Some (index, subindex).
Proof.
  unfold is_u16, is_u8, index_octets. intros Hi Hs. destruct (Z.leb_spec index 255).
  - destruct (Z.eqb_spec subindex 0) as [->|]; reflexivity.
  - change (Some (u16 (Z.lor (u16 (Z.shiftl (index / 256) 8)) (index mod 256)), subindex) = Some (index, subindex)).
    pose proof (Z.mod_pos_bound index 256). pose proof (Z.div_mod index 256).
    assert (0 ≤ index / 256 < 256) by (split; [apply Z.div_pos|apply Z.div_lt_upper_bound]; lia).
    rewrite be16 by (unfold is_u8; lia).
    do 2 f_equal. lia.
Qed.

(** The parts of a request whose length fits the nibble. *)
Lemma server_execute_request σ c index subindex data : c = 0 ∨ c = 8 →
  is_u16 index → is_u8 subindex →
  let octets := index_octets index subindex in
  zlen octets + zlen data + 2 ≤ 15 → sv_request σ = isdu_encode (c + zlen octets) (octets ++ data) →
  server_execute σ = if c =? 8 then server_read index subindex σ else server_write index subindex data σ.
Proof.
  intros Hc Hi Hs octets Hl Hr. destruct (index_len_octets index subindex Hi Hs) as (_ & Hn & _).
  fold octets in Hn. pose proof (zlen_nonneg data).
  assert (isdu_encode (c + zlen octets) (octets ++ data) =
    ((c + zlen octets) * 16 + (zlen octets + zlen data + 2)) :: octets ++ data ++ [xor_octets
      (((c + zlen octets) * 16 + (zlen octets + zlen data + 2)) :: octets ++ data)]) as He.
  { unfold isdu_encode, isdu_header. cbv zeta. rewrite zlen_app, (proj2 (Z.leb_le _ _)) by lia.
    cbn [app]. by rewrite <- app_assoc. }
  rewrite He in Hr. set (chk := xor_octets _) in Hr. clearbody chk. unfold server_execute. rewrite Hr.
  assert (((c + zlen octets) * 16 + (zlen octets + zlen data + 2)) / 16 = c + zlen octets) as Hh.
  { rewrite Z.add_comm, Z.div_add by lia. rewrite Z.div_small by lia. lia. }
  destruct octets as [|x ix] eqn:Hix; [rewrite zlen_nil in Hn; lia|]. cbn [app]. rewrite Hh.
  change (x :: ix ++ ?l) with ((x :: ix) ++ l). rewrite <- Hix in *.
  assert ((c + zlen octets) mod 8 = zlen octets) as ->.
  { destruct Hc as [->| ->]; rewrite Z.add_mod, ?Z.mod_same by lia; rewrite ?Z.mod_0_l by lia;
      rewrite Z.add_0_l, Z.mod_mod by lia; apply Z.mod_small; lia. }
  assert (zlen (((c + zlen octets) * 16 + (zlen octets + zlen data + 2)) :: octets ++ data ++ [chk]) =
    zlen octets + zlen data + 2) as -> by (rewrite zlen_cons, !zlen_app; change (zlen [chk]) with 1; lia).
  rewrite (proj2 (Z.eqb_neq _ 0)) by lia. rewrite (proj2 (Z.ltb_ge _ _)) by lia. cbn [orb].
  rewrite (request_target_octets index subindex) by done. destruct Hc as [->| ->].
  - rewrite !Z.add_0_l.
    assert ((zlen octets =? 9) || (zlen octets =? 10) || (zlen octets =? 11) = false) as ->
      by (rewrite !orb_false_iff, !Z.eqb_neq; lia).
    assert ((zlen octets =? 1) || (zlen octets =? 2) || (zlen octets =? 3) = true) as ->
      by (rewrite !orb_true_iff, !Z.eqb_eq; lia).
    f_equal. replace (Z.to_nat (1 + zlen octets)) with (S (length octets)) by (unfold zlen; lia).
    cbn [drop]. rewrite drop_app_length.
    replace (Z.to_nat (zlen octets + zlen data + 2 - zlen octets - 2)) with (length data) by (unfold zlen; lia).
    apply take_app_length.
  - assert ((8 + zlen octets =? 9) || (8 + zlen octets =? 10) || (8 + zlen octets =? 11) = true) as ->
      by (rewrite !orb_true_iff, !Z.eqb_eq; lia). done.
Qed.

Lemma server_takes_request σ c index subindex data : c = 0 ∨ c = 8 →
  is_u16 index → is_u8 subindex → Forall is_u8 data →
  let octets := index_octets index subindex in
  zlen octets + zlen data + 2 ≤ 15 → sv_request σ = [] →
  foldl server_feed σ (isdu_encode (c + zlen octets) (octets ++ data)) =
    (if c =? 8 then server_read index subindex σ else server_write index subindex data σ).
Proof.
  intros Hc Hi Hs Hu octets Hl Hr. destruct (index_len_octets index subindex Hi Hs) as (_ & Hn & Hou).
  fold octets in Hn, Hou. pose proof (zlen_nonneg data).
  rewrite server_feed_stream; [|lia|unfold isdu_body_fits; slia|by apply Forall_app| |done].
  2: { unfold isdu_encode, FAKE_IOLINK_DEVICE_ISDU_REQUEST_MAX_LEN. cbv zeta.
       rewrite !zlen_app, zlen_isdu_header. change (zlen [_]) with 1. case_match; lia. }
  rewrite (server_execute_request _ c index subindex data) by done. destruct σ; cbn in *; subst.
  destruct (c =? 8); unfold server_read, server_write, server_refuse, server_reply; cbn; by repeat case_match.
Qed.

(** What was written is read. *)
Lemma find_from_put store index subindex data k j : find_from k store index subindex = Some j →
  find_from k (<[Z.to_nat (j - k) := (index, subindex, data)]> store) index subindex = Some j ∧
  k ≤ j < k + zlen store.
Proof.
  revert k j. induction store as [|e store IH]; intros k j; [done|]. cbn [find_from]. rewrite zlen_cons.
  pose proof (zlen_nonneg store). destruct (_ && _) eqn:He; intros Hf.
  - injection Hf as <-. rewrite Z.sub_diag. change (Z.to_nat 0) with 0%nat. cbn [insert list_insert find_from fst snd].
    rewrite !Z.eqb_refl. split; [done|lia].
  - destruct (IH _ _ Hf) as [H1 H2]. replace (Z.to_nat (j - k)) with (S (Z.to_nat (j - (k + 1)))) by lia.
    cbn [insert list_insert find_from]. rewrite He. split; [exact H1|lia].
Qed.

Lemma find_from_snoc store index subindex data k : find_from k store index subindex = None →
  find_from k (store ++ [(index, subindex, data)]) index subindex = Some (k + zlen store).
Proof.
  revert k. induction store as [|e store IH]; intros k; cbn [find_from app].
  - intros _. cbn. rewrite !Z.eqb_refl. cbn. by rewrite Z.add_0_r.
  - destruct (_ && _); [done|]. intros Hf. rewrite IH by done. rewrite zlen_cons. f_equal. lia.
Qed.

Lemma store_get_put store index subindex data store' :
  store_put store index subindex data = Some store' → store_get store' index subindex = Some data.
Proof.
  unfold store_put, store_get. destruct (find_from 0 store index subindex) as [k|] eqn:Hf.
  - destruct (find_from_put _ _ _ data _ _ Hf) as [Hf' Hb]. rewrite Z.sub_0_r in Hf'.
    rewrite wr_Some by lia. intros [= <-]. rewrite Hf'. cbn [mbind option_bind].
    rewrite rd_lookup, list_lookup_insert_eq by (unfold zlen in *; lia). done.
  - case_match; [|done]. intros [= <-]. rewrite (find_from_snoc _ _ _ _ _ Hf). cbn [mbind option_bind].
    rewrite rd_lookup by (pose proof (zlen_nonneg store); lia). unfold zlen. rewrite Z.add_0_l, Nat2Z.id.
    by rewrite list_lookup_middle.
Qed.
End requests.
