(* ===== verification/FakeRefinement.v ===== *)
(** * The simulated device implements its server

    The functions of [FakeDevice] stay inside their arrays and refine [server_feed] and
    [server_next]. *)

From S2P Require Import Prelude Iolinki Reference Types IsduResponse IsduRequest IsduService FakeDevice FakeServer.

Record object_ok (o : fake_iolink_device_object_t) : Prop := {
  object_size : zlen (fo_data o) = FAKE_IOLINK_DEVICE_OBJECT_MAX_LEN;
  object_u8 : Forall is_u8 (fo_data o);
  object_len : 0 ≤ fo_len o ≤ FAKE_IOLINK_DEVICE_OBJECT_MAX_LEN;
}.

#[export] Instance object_ok_dec o : Decision (object_ok o).
Proof.
  refine (match decide (zlen (fo_data o) = FAKE_IOLINK_DEVICE_OBJECT_MAX_LEN ∧ Forall is_u8 (fo_data o) ∧
    0 ≤ fo_len o ≤ FAKE_IOLINK_DEVICE_OBJECT_MAX_LEN) with left H => left _ | right H => right _ end).
  - destruct H as (? & ? & ?). by split.
  - intros [H1 H2 H3]. exact (H (conj H1 (conj H2 H3))).
Defined.

(** The objects in use. *)
Definition stored (d : fake_iolink_device_t) : list fake_iolink_device_object_t :=
  take (Z.to_nat (fd_object_count d)) (fd_objects d).

Definition object_entry (o : fake_iolink_device_object_t) : Z * Z * list Z :=
  (fo_index o, fo_subindex o, take (Z.to_nat (fo_len o)) (fo_data o)).

(** The device with no fault armed. *)
Record fake_ok (d : fake_iolink_device_t) : Prop := {
  fk_queue : zlen (fd_rx_queue d) = 16;
  fk_faultless : fd_drop_next_response d = false ∧ fd_corrupt_next_response_checksum d = false ∧
    fd_truncate_next_response d = false;
  fk_pd : is_u8 (fd_pd_in_value d) ∧ 0 ≤ fd_pd_in_len d;
  fk_objects : zlen (fd_objects d) = FAKE_IOLINK_DEVICE_OBJECT_MAX_COUNT;
  fk_object : Forall object_ok (fd_objects d);
  fk_count : 0 ≤ fd_object_count d ≤ FAKE_IOLINK_DEVICE_OBJECT_MAX_COUNT;
  fk_valid : Forall (fun o => fo_valid o = true) (stored d);
  fk_request : zlen (fd_isdu_request d) = FAKE_IOLINK_DEVICE_ISDU_REQUEST_MAX_LEN;
  fk_request_u8 : Forall is_u8 (fd_isdu_request d);
  fk_request_len : 0 ≤ fd_isdu_request_len d ≤ FAKE_IOLINK_DEVICE_ISDU_REQUEST_MAX_LEN;
  fk_response : zlen (fd_isdu_response d) = 128;
  fk_response_u8 : Forall is_u8 (fd_isdu_response d);
  fk_response_len : 0 ≤ fd_isdu_response_len d ≤ 128;
  fk_response_pos : 0 ≤ fd_isdu_response_pos d;
  fk_memory : zlen (fd_event_memory d) = 19 ∧ Forall is_u8 (fd_event_memory d);
}.

(** The device as a server. *)
Definition fake_view (d : fake_iolink_device_t) : server := {|
  sv_store := map object_entry (stored d);
  sv_request := take (Z.to_nat (fd_isdu_request_len d)) (fd_isdu_request d);
  sv_response :=
    if fd_isdu_response_active d
    then drop (Z.to_nat (fd_isdu_response_pos d)) (take (Z.to_nat (fd_isdu_response_len d)) (fd_isdu_response d))
    else [];
  sv_pd_in := replicate (Z.to_nat (fd_pd_in_len d)) (fd_pd_in_value d);
  sv_event := fd_event_pending d;
  sv_memory := fd_event_memory d;
|}.

Section refinement.
Context {IO : Iolinki} {laws : IolinkiLaws IO} {DC : IolinkiDevice} {dlaws : IolinkiDeviceLaws DC}.
Implicit Types d : fake_iolink_device_t.

(** ** The response buffer *)

(** [d] is [d0] except that its response buffer starts with [l]. *)
Definition responding d0 (l : list Z) d : Prop :=
  ∃ response, d = d0 <| fd_isdu_response := response |> ∧ zlen response = 128 ∧
    Forall is_u8 response ∧ take (length l) response = l.

Lemma responding_nil d : fake_ok d → responding d [] d.
Proof. intros Hd. exists (fd_isdu_response d). split_and!; [by destruct d|apply Hd..|done]. Qed.

Lemma put_response_ok d0 l d v : responding d0 l d → is_u8 v → zlen l < 128 →
  wp (put_response (zlen l) v) (fun _ d' => responding d0 (l ++ [v]) d') d.
Proof.
  intros (response & -> & Hl & Hu & Ht) Hv Hlen. pose proof (zlen_nonneg l).
  apply wp_bind, wp_get, wp_bind. eapply wp_mem; [apply wr_Some; cbn; lia|]. apply wp_assign. cbn.
  replace (Z.to_nat (zlen l)) with (length l) by (unfold zlen; lia).
  exists (<[length l := v]> response). split_and!; [by destruct d0|by rewrite zlen_insert|by apply Forall_insert|].
  apply take_insert_snoc; [done|]. unfold zlen in *. lia.
Qed.

Lemma put_response_data_ok d0 l d data len : responding d0 l d → Forall is_u8 data →
  0 ≤ len ≤ zlen data → zlen l + len ≤ 128 →
  wp (put_response_data (zlen l) data len)
    (fun _ d' => responding d0 (l ++ take (Z.to_nat len) data) d') d.
Proof.
  intros (response & -> & Hl & Hu & Ht) Hv Hlen Hfit. pose proof (zlen_nonneg l).
  apply wp_bind, wp_get, wp_bind. cbn [fd_isdu_response set].
  destruct (memcpy_Some response data (zlen l) 0 len) as (k & Hk & Hkl); [lia..|].
  eapply wp_mem; [exact Hk|]. apply wp_assign. exists k.
  split_and!; [by destruct d0|lia|exact (memcpy_Forall _ _ _ _ _ _ _ Hu Hv Hk)|].
  unfold memcpy in Hk. rewrite slice_Some in Hk by lia. cbn [mbind option_bind] in Hk. rewrite drop_0 in Hk.
  rewrite blit_Some in Hk by slia. injection Hk as <-.
  replace (Z.to_nat (zlen l)) with (length l) by (unfold zlen; lia). rewrite Ht, app_assoc.
  apply take_app_length.
Qed.

(** The response [r] is ready to be sent. *)
Definition staged d0 (r : list Z) d : Prop :=
  fake_ok d ∧ fake_view d = fake_view d0 <| sv_response := r |>.

Lemma stage_response_ok d0 l d : fake_ok d0 → responding d0 l d → zlen l < 128 →
  wp (stage_response (zlen l)) (fun _ d' => staged d0 (l ++ [xor_octets l]) d') d.
Proof.
  intros Hok (response & -> & Hl & Hu & Ht) Hlen. pose proof (zlen_nonneg l).
  assert (Forall is_u8 l) as Hlu by (rewrite <- Ht; by apply Forall_take).
  assert (is_u8 (xor_octets l)) as Hx by (by apply xor_octets_u8).
  apply wp_bind, wp_assign, wp_bind, wp_bind, wp_get, wp_bind. cbn [fd_isdu_response fd_isdu_response_len set].
  eapply wp_mem; [apply ofold_rd; lia|]. replace (Z.to_nat (zlen l)) with (length l) by (unfold zlen; lia).
  rewrite Ht. fold (xor_octets l). set (r := l ++ [xor_octets l]).
  apply wp_bind. eapply wp_mono.
  { apply (put_response_ok (d0 <| fd_isdu_response_len := zlen l |>) l); [|done|lia].
    by exists response. }
  intros _ d1 (response1 & -> & Hl1 & Hu1 & Ht1). fold r in Ht1.
  apply wp_bind, wp_get, wp_assign, wp_bind, wp_assign, wp_assign.
  assert (zlen r = zlen l + 1) as Hr by (unfold r; slia).
  cbn [fd_isdu_response_len set]. rewrite u8_small by (unfold is_u8; lia). rewrite <- Hr.
  destruct Hok. split; [split; cbn; (done || lia)|]. unfold fake_view, stored. cbn.
  replace (Z.to_nat (zlen r)) with (length r) by (unfold zlen; lia). by rewrite Ht1.
Qed.

(** Several octets in a row. *)
Lemma error_ok d code : fake_ok d → is_u8 code →
  wp (fake_iolink_device_prepare_isdu_error 0x80 code)
    (fun _ d' => staged d (isdu_encode 12 [0x80; code]) d') d.
Proof.
  intros Hd Hc. pose proof (responding_nil d Hd) as H0.
  apply wp_bind. eapply wp_mono; [by apply (put_response_ok d [])|]. intros ? d1 H1.
  apply wp_bind. eapply wp_mono; [by apply (put_response_ok d [0xC4])|]. intros ? d2 H2.
  apply wp_bind. eapply wp_mono; [by apply (put_response_ok d [0xC4; 0x80])|]. intros ? d3 H3.
  by apply (stage_response_ok d [0xC4; 0x80; code]).
Qed.

Lemma ack_ok d : fake_ok d →
  wp fake_iolink_device_prepare_isdu_ack (fun _ d' => staged d (isdu_encode 5 []) d') d.
Proof.
  intros Hd. pose proof (responding_nil d Hd) as H0.
  apply wp_bind. eapply wp_mono; [by apply (put_response_ok d [])|]. intros ? d1 H1.
  by apply (stage_response_ok d [0x52]).
Qed.

Lemma read_data_ok d data len : fake_ok d → Forall is_u8 data → 0 ≤ len ≤ zlen data → len ≤ 16 →
  wp (fake_iolink_device_prepare_isdu_read_data data len)
    (fun _ d' => staged d (isdu_encode 13 (take (Z.to_nat len) data)) d') d.
Proof.
  intros Hd Hu Hl H16. pose proof (responding_nil d Hd) as H0.
  assert (zlen (take (Z.to_nat len) data) = len) as Ht by slia.
  unfold fake_iolink_device_prepare_isdu_read_data. cbv zeta. rewrite !u16_small by (unfold is_u16; lia).
  replace (1 + len + 1) with (len + 2) by lia.
  unfold isdu_encode, isdu_header. rewrite Ht. destruct (Z.leb_spec (len + 2) 15) as [Hle|Hgt].
  - assert (u8 (Z.lor 0xD0 (u8 (len + 2))) = 13 * 16 + (len + 2)) as ->.
    { rewrite (u8_small (len + 2)) by (unfold is_u8; lia). change 0xD0 with (Z.shiftl 13 4).
      rewrite lor_shiftl_add by lia. apply u8_small. unfold is_u8. lia. }
    apply wp_bind. eapply wp_mono; [apply (put_response_ok d []); [done|unfold is_u8; lia|done]|]. intros ? d1 H1.
    apply wp_bind. eapply wp_mono; [apply (put_response_data_ok d [13 * 16 + (len + 2)] d1 data len); [exact H1|done|lia|change (zlen [_]) with 1; lia]|].
    intros ? d2 H2. rewrite u8_small by (unfold is_u8; lia).
    replace (1 + len) with (zlen ([13 * 16 + (len + 2)] ++ take (Z.to_nat len) data)) by (rewrite zlen_app, Ht; done).
    apply stage_response_ok; [done|done|rewrite zlen_app, Ht; change (zlen [_]) with 1; lia].
  - rewrite (u8_small (2 + len + 1)) by (unfold is_u8; lia). replace (2 + len + 1) with (len + 2 + 1) by lia.
    apply wp_bind. eapply wp_mono; [by apply (put_response_ok d [])|]. intros ? d1 H1.
    apply wp_bind. eapply wp_mono; [apply (put_response_ok d [13 * 16 + 1]); [done|unfold is_u8; lia|done]|]. intros ? d2 H2.
    apply wp_bind. eapply wp_mono; [apply (put_response_data_ok d [13 * 16 + 1; len + 2 + 1] d2 data len); [exact H2|done|lia|change (zlen [_; _]) with 2; lia]|].
    intros ? d3 H3. rewrite u8_small by (unfold is_u8; lia).
    replace (2 + len) with (zlen ([13 * 16 + 1; len + 2 + 1] ++ take (Z.to_nat len) data)) by (rewrite zlen_app, Ht; done).
    apply stage_response_ok; [done|done|rewrite zlen_app, Ht; change (zlen [_; _]) with 2; lia].
Qed.

(** ** Objects *)

Lemma find_object_from_ok pre objects post index subindex d :
  fd_objects d = pre ++ objects ++ post → Forall (fun o => fo_valid o = true) objects →
  wp (find_object_from (seqZ (zlen pre) (zlen objects)) index subindex) (fun r d' =>
    d' = d ∧ r = find_from (zlen pre) (map object_entry objects) index subindex) d.
Proof.
  revert pre. induction objects as [|o objects IH]; intros pre Hd Hv; [by apply wp_ret|].
  inversion_clear Hv as [|? ? Hvo Hvs]. rewrite zlen_cons, seqZ_cons by (pose proof (zlen_nonneg objects); lia).
  cbn [find_object_from map find_from]. apply wp_bind, wp_get, wp_bind.
  assert (rd (fd_objects d) (zlen pre) = Some o) as Hrd.
  { rewrite Hd, rd_lookup by apply zlen_nonneg. unfold zlen. rewrite Nat2Z.id. cbn [app]. by rewrite list_lookup_middle. }
  eapply wp_mem; [exact Hrd|]. rewrite Hvo. cbn [andb object_entry fst snd]. destruct (_ && _); [by apply wp_ret|].
  replace (Z.pred (1 + zlen objects)) with (zlen objects) by lia.
  replace (Z.succ (zlen pre)) with (zlen (pre ++ [o])) by (rewrite zlen_app; done).
  replace (zlen pre + 1) with (zlen (pre ++ [o])) by (rewrite zlen_app; done).
  apply IH; [by rewrite Hd, <- app_assoc|done].
Qed.

Lemma find_object_ok index subindex d : fake_ok d →
  wp (fake_iolink_device_find_object index subindex) (fun r d' =>
    d' = d ∧ r = find_from 0 (sv_store (fake_view d)) index subindex) d.
Proof.
  intros []. apply wp_bind, wp_get. unfold upto.
  assert (zlen (stored d) = fd_object_count d) as Hc.
  { unfold stored. rewrite zlen_take. lia. }
  rewrite <- Hc at 1. apply (find_object_from_ok [] (stored d) (drop (Z.to_nat (fd_object_count d)) (fd_objects d))); [|done].
  unfold stored. cbn [app]. by rewrite take_drop.
Qed.

(** What the store holds at a place. *)
Lemma stored_at d k e : fake_ok d → rd (sv_store (fake_view d)) k = Some e →
  ∃ o, rd (fd_objects d) k = Some o ∧ object_ok o ∧ e = object_entry o ∧ 0 ≤ k < fd_object_count d.
Proof.
  intros [] Hrd. pose proof (rd_bound _ _ _ Hrd) as Hb. rewrite rd_lookup in Hrd by lia. cbn in Hrd.
  rewrite list_lookup_fmap in Hrd. destruct (stored d !! Z.to_nat k) as [o|] eqn:Ho; [|done].
  cbn in Hrd. injection Hrd as <-. unfold stored in Ho.
  apply lookup_take_Some in Ho as [Ho Hk]. exists o. rewrite rd_lookup by lia. split; [done|].
  split; [by eapply Forall_lookup_1|]. split; [done|lia].
Qed.

Lemma find_from_bound store index subindex k j : find_from k store index subindex = Some j →
  k ≤ j < k + zlen store.
Proof. intros H. by apply (find_from_put _ _ _ [] _ _ H). Qed.

(** Reading an object. *)
(** An object that is there, or one more, can be stored. *)
Lemma store_put_room store index subindex data :
  find_from 0 store index subindex ≠ None ∨ zlen store < FAKE_IOLINK_DEVICE_OBJECT_MAX_COUNT →
  ∃ store', store_put store index subindex data = Some store'.
Proof.
  intros Hroom. unfold store_put. destruct (find_from _ _ _ _) as [k|] eqn:Hk.
  - apply find_from_bound in Hk. rewrite wr_Some by lia. by eexists.
  - destruct Hroom as [|Hroom]; [done|]. rewrite (proj2 (Z.ltb_lt _ _)) by done. by eexists.
Qed.

Lemma serve_read_ok d index subindex : fake_ok d →
  wp (serve_read index subindex) (fun _ d' =>
    fake_ok d' ∧ fake_view d' = server_read index subindex (fake_view d)) d.
Proof.
  intros Hd. apply wp_bind. eapply wp_mono; [by apply find_object_ok|]. intros r d' [-> ->].
  unfold server_read, store_get. destruct (find_from 0 _ index subindex) as [k|] eqn:Hf; cbn [mbind option_bind].
  - destruct (rd_Some (sv_store (fake_view d)) k) as [e He].
    { apply find_from_bound in Hf. lia. }
    destruct (stored_at d k e Hd He) as (o & Ho & [Hsz Hu Hlen] & -> & _). rewrite He. cbn [mbind option_bind].
    apply wp_bind, wp_get, wp_bind. eapply wp_mem; [exact Ho|].
    unfold FAKE_IOLINK_DEVICE_OBJECT_MAX_LEN in *. apply read_data_ok; done || lia.
  - apply error_ok; [done|apply law_service_not_avail].
Qed.

(** Writing an object. *)
Lemma change_object_ok d i o o' f (Q : unit → fake_iolink_device_t → Prop) :
  rd (fd_objects d) i = Some o → f o = Some o' →
  Q tt (d <| fd_objects := <[Z.to_nat i := o']> (fd_objects d) |>) → wp (change_object i f) Q d.
Proof.
  intros Hrd Hf HQ. pose proof (rd_bound _ _ _ Hrd). apply wp_bind, wp_get, wp_bind.
  eapply wp_mem; [exact Hrd|]. apply wp_bind. eapply wp_mem; [exact Hf|].
  apply wp_bind. eapply wp_mem; [by apply wr_Some|]. by apply wp_assign.
Qed.

Lemma store_object_ok o data len : object_ok o → Forall is_u8 data → zlen data = len → len ≤ 16 →
  ∃ o', store_object data len o = Some o' ∧ object_ok o' ∧ fo_valid o' = true ∧
    object_entry o' = (fo_index o, fo_subindex o, data).
Proof.
  intros [Hsz Hu Hlen] Hdu <- H16. unfold store_object, FAKE_IOLINK_DEVICE_OBJECT_MAX_LEN in *.
  pose proof (zlen_nonneg data). pose proof (memcpy_prefix (fo_data o) data (zlen data)) as Hm.
  destruct (memcpy_Some (fo_data o) data 0 0 (zlen data)) as (k & Hk & Hkl); [lia..|].
  rewrite Hk in Hm |- *. cbn [mbind option_bind]. eexists. split; [reflexivity|].
  split; [split; cbn; [by rewrite Hkl|exact (memcpy_Forall _ _ _ _ _ _ _ Hu Hdu Hk)|unfold FAKE_IOLINK_DEVICE_OBJECT_MAX_LEN; lia]|].
  split; [done|]. unfold object_entry. cbn. f_equal. specialize (Hm ltac:(lia) ltac:(lia) ltac:(lia)).
  injection Hm as ->. unfold zlen. rewrite Nat2Z.id, firstn_all. apply take_app_length.
Qed.

Lemma find_from_match store index subindex k j : find_from k store index subindex = Some j →
  ∃ e, rd store (j - k) = Some e ∧ e.1 = (index, subindex).
Proof.
  revert k. induction store as [|e store IH]; intros k; [done|]. cbn [find_from].
  destruct (_ && _) eqn:He; intros Hf.
  - injection Hf as <-. exists e. rewrite Z.sub_diag. split; [done|]. norm_bool. destruct e as [[] ]; cbn in *; congruence.
  - pose proof (find_from_bound _ _ _ _ _ Hf) as Hb. destruct (IH _ Hf) as (e' & He' & Hm). exists e'. split; [|done].
    rewrite rd_lookup in He' |- * by lia. by replace (Z.to_nat (j - k)) with (S (Z.to_nat (j - (k + 1)))) by lia.
Qed.

(** Putting a well-formed object at its place. *)
Definition put_ready (index subindex : Z) (data : list Z) d (k : Z) d' : Prop :=
  (∃ o, rd (fd_objects d') k = Some o ∧ object_ok o ∧ fo_index o = index ∧ fo_subindex o = subindex) ∧
  fd_isdu_request d' = fd_isdu_request d ∧
  ∀ o', object_ok o' → fo_valid o' = true → object_entry o' = (index, subindex, data) →
    let d2 := d' <| fd_objects := <[Z.to_nat k := o']> (fd_objects d') |> in
    fake_ok d2 ∧ ∃ store, store_put (sv_store (fake_view d)) index subindex data = Some store ∧
    fake_view d2 = fake_view d <| sv_store := store |>.

Lemma put_existing d index subindex data k : fake_ok d →
  find_from 0 (sv_store (fake_view d)) index subindex = Some k → put_ready index subindex data d k d.
Proof.
  intros Hd Hf. pose proof (find_from_bound _ _ _ _ _ Hf) as Hb.
  destruct (find_from_match _ _ _ _ _ Hf) as (e & He & Hm). rewrite Z.sub_0_r in He.
  destruct (stored_at d k e Hd He) as (o & Ho & Hook & -> & Hk). injection Hm as Hi Hs.
  split; [by exists o|]. split; [done|]. intros o' Hok' Hv' He' d2. destruct Hd as [].
  assert (stored d2 = <[Z.to_nat k := o']> (stored d)) as Hst.
  { unfold stored. cbn. rewrite take_insert_lt by lia. done. }
  split.
  - split; cbn; try done; [by rewrite zlen_insert|by apply Forall_insert|].
    change (Forall (fun o => fo_valid o = true) (stored d2)). rewrite Hst. by apply Forall_insert.
  - unfold store_put. rewrite Hf, wr_Some by lia. eexists. split; [done|].
    assert (<[Z.to_nat k := (index, subindex, data)]> (sv_store (fake_view d)) = map object_entry (stored d2)) as ->.
    { rewrite Hst, <- He'. symmetry. apply (list_fmap_insert object_entry). }
    done.
Qed.

Lemma put_fresh d index subindex data : fake_ok d →
  find_from 0 (sv_store (fake_view d)) index subindex = None →
  fd_object_count d < FAKE_IOLINK_DEVICE_OBJECT_MAX_COUNT → ∀ o,
  rd (fd_objects d) (fd_object_count d) = Some o →
  put_ready index subindex data d (fd_object_count d)
    (d <| fd_object_count := fd_object_count d + 1 |>
       <| fd_objects := <[Z.to_nat (fd_object_count d) := o <| fo_index := index |> <| fo_subindex := subindex |>]>
            (fd_objects d) |>).
Proof.
  intros Hd Hf Hc o Ho. destruct Hd as []. pose proof (rd_bound _ _ _ Ho) as Hb.
  assert (object_ok o) as Hook by (by eapply (rd_Forall object_ok)).
  split.
  { exists (o <| fo_index := index |> <| fo_subindex := subindex |>). cbn.
    rewrite rd_lookup, list_lookup_insert_eq by (unfold zlen in *; lia). split_and!; [done| |done..].
    by destruct Hook; split. }
  split; [done|]. intros o' Hok' Hv' He' d2.
  assert (stored d2 = stored d ++ [o']) as Hst.
  { unfold stored. cbn. rewrite list_insert_insert_eq.
    replace (Z.to_nat (fd_object_count d + 1)) with (S (Z.to_nat (fd_object_count d))) by lia.
    rewrite (take_S_r _ _ o') by (apply list_lookup_insert_eq; unfold zlen in *; lia).
    by rewrite take_insert_ge by lia. }
  split.
  - split; cbn; try done; try lia; [by rewrite !zlen_insert|by repeat apply Forall_insert; destruct Hook|].
    change (Forall (fun o => fo_valid o = true) (stored d2)). rewrite Hst. apply Forall_app. by repeat constructor.
  - unfold store_put. rewrite Hf.
    assert (zlen (sv_store (fake_view d)) = fd_object_count d) as ->.
    { cbn. unfold stored, zlen in *. rewrite length_map, length_take. lia. }
    rewrite (proj2 (Z.ltb_lt _ _)) by done. eexists. split; [done|].
    assert (sv_store (fake_view d) ++ [(index, subindex, data)] = map object_entry (stored d2)) as ->.
    { rewrite Hst, map_app. cbn [map]. by rewrite He'. }
    done.
Qed.

Lemma find_or_create_ok index subindex data d : fake_ok d →
  wp (fake_iolink_device_find_or_create_object index subindex) (fun r d' =>
    match r with
    | None => d' = d ∧ store_put (sv_store (fake_view d)) index subindex data = None
    | Some k => put_ready index subindex data d k d'
    end) d.
Proof.
  intros Hd. apply wp_bind. eapply wp_mono; [by apply find_object_ok|]. intros r d' [-> ->].
  apply wp_bind, wp_get. destruct (find_from 0 _ index subindex) as [k|] eqn:Hf; cbn [null andb].
  - apply wp_ret. by apply put_existing.
  - pose proof (fk_count _ Hd) as Hc. pose proof (fk_objects _ Hd) as Ho. apply wp_if; intros Hlt; norm_bool.
    + apply wp_bind, wp_assign, wp_bind. destruct (rd_Some (fd_objects d) (fd_object_count d)) as [o Hrd]; [lia|].
      unfold FAKE_IOLINK_DEVICE_OBJECT_MAX_COUNT in *. rewrite u8_small by (unfold is_u8; lia).
      eapply change_object_ok; [exact Hrd|done|]. apply wp_ret. by apply (put_fresh d).
    + apply wp_ret. split; [done|]. unfold store_put. rewrite Hf.
      rewrite (proj2 (Z.ltb_ge _ _)); [done|]. cbn. unfold stored, zlen in *. rewrite length_map, length_take. lia.
Qed.

(** ** Requests *)

Lemma serve_write_ok d index subindex n : fake_ok d → 1 ≤ n → 2 + n ≤ fd_isdu_request_len d →
  let request := sv_request (fake_view d) in
  wp (serve_write index subindex n) (fun _ d' => fake_ok d' ∧ fake_view d' =
    server_write index subindex (take (Z.to_nat (zlen request - n - 2)) (drop (Z.to_nat (1 + n)) request))
      (fake_view d)) d.
Proof.
  intros Hd Hn Hl request. pose proof (fk_request_len _ Hd) as Hlen. pose proof (fk_request _ Hd) as Hsz.
  pose proof (fk_request_u8 _ Hd) as Hru. unfold FAKE_IOLINK_DEVICE_ISDU_REQUEST_MAX_LEN in *.
  assert (zlen request = fd_isdu_request_len d) as Hr by (unfold request; cbn [fake_view sv_request]; rewrite zlen_take; lia). rewrite Hr.
  set (payload := take _ (drop _ request)).
  assert (zlen payload = fd_isdu_request_len d - n - 2) as Hp.
  { unfold payload. rewrite zlen_take, zlen_drop, Hr. lia. }
  assert (slice (fd_isdu_request d) (1 + n) (zlen payload) = Some payload) as Hsl.
  { rewrite Hp, slice_Some by lia. unfold payload, request. cbn [sv_request fake_view].
    rewrite skipn_firstn_comm, take_take. do 2 f_equal. lia. }
  assert (Forall is_u8 payload) as Hu by (by apply Forall_take, Forall_drop, Forall_take).
  apply wp_bind, wp_get. cbv zeta. rewrite (u8_small (1 + n)) by (unfold is_u8; lia).
  replace (fd_isdu_request_len d - (1 + n) - 1) with (zlen payload) by lia.
  rewrite u8_small by (unfold is_u8; lia). unfold server_write.
  destruct (Z.ltb_spec FAKE_IOLINK_DEVICE_OBJECT_MAX_LEN (zlen payload)) as [Hlt|Hle].
  { apply error_ok; [done|apply law_service_not_avail]. }
  apply wp_bind. eapply wp_mono; [by apply (find_or_create_ok index subindex payload)|].
  intros [k|] d1.
  - intros ((o & Ho & Hook & Hi & Hs) & Hreq & Hput). apply wp_bind, wp_get, wp_bind.
    eapply wp_mem.
    { rewrite Hreq. instantiate (1 := payload). destruct (Z.ltb_spec 0 (zlen payload)); [exact Hsl|].
      by rewrite (nil_zlen payload). }
    destruct (store_object_ok o payload (zlen payload) Hook Hu eq_refl Hle) as (o' & Hst & Hok' & Hv' & He').
    rewrite Hi, Hs in He'. destruct (Hput o' Hok' Hv' He') as (Hd2 & store & Hsp & Hview).
    apply wp_bind. eapply change_object_ok; [exact Ho|exact Hst|]. rewrite Hsp.
    eapply wp_mono; [by apply ack_ok|]. intros ? d' [Hd' Hv]. split; [done|]. by rewrite Hv, Hview.
  - intros [-> Hsp]. rewrite Hsp. apply error_ok; [done|apply law_service_not_avail].
Qed.

Lemma request_target_prefix buffer request n :
  (∀ i, 0 ≤ i < zlen request → rd buffer i = rd request i) → 1 ≤ n → 2 + n ≤ zlen request →
  ∃ t, request_target buffer n = Some t ∧ request_target request n = Some t.
Proof.
  intros Hrd Hn Hl. unfold request_target. rewrite (Hrd 1) by lia.
  destruct (rd_Some request 1) as [a ->]; [lia|]. cbn [mbind option_bind].
  destruct (Z.eqb_spec n 1); [by eexists|]. rewrite (Hrd 2) by lia.
  destruct (rd_Some request 2) as [b ->]; [lia|]. cbn [mbind option_bind].
  destruct (Z.eqb_spec n 2); [by eexists|]. rewrite (Hrd 3) by lia.
  destruct (rd_Some request 3) as [c ->]; [lia|]. by eexists.
Qed.

Lemma service_bits head : is_u8 head →
  u8 (Z.shiftr head 4) = head / 16 ∧ u8 (Z.land (head / 16) 7) = (head / 16) mod 8 ∧
  0 ≤ (head / 16) mod 8 < 8.
Proof.
  unfold is_u8. intros Hh. rewrite Z.shiftr_div_pow2 by lia. change (2 ^ 4) with 16.
  assert (0 ≤ head / 16 < 16) by (split; [apply Z.div_pos|apply Z.div_lt_upper_bound]; lia).
  change 7 with (Z.ones 3). rewrite Z.land_ones by lia. change (2 ^ 3) with 8.
  pose proof (Z.mod_pos_bound (head / 16) 8 ltac:(lia)). rewrite !u8_small by (unfold is_u8; lia). lia.
Qed.

(** The octets of the request, in the buffer and in the view. *)
Lemma request_view d : fake_ok d →
  let request := sv_request (fake_view d) in
  zlen request = fd_isdu_request_len d ∧ Forall is_u8 request ∧
  ∀ i, 0 ≤ i < zlen request → rd (fd_isdu_request d) i = rd request i.
Proof.
  intros [] request. unfold FAKE_IOLINK_DEVICE_ISDU_REQUEST_MAX_LEN in *.
  assert (zlen request = fd_isdu_request_len d) as Hr by (unfold request; cbn [fake_view sv_request]; rewrite zlen_take; lia).
  split; [done|]. split; [by apply Forall_take|]. intros i Hi. rewrite !rd_lookup by lia.
  unfold request. cbn. by rewrite lookup_take_lt by lia.
Qed.

Lemma not_available_ok d : fake_ok d →
  wp not_available (fun _ d' => fake_ok d' ∧ fake_view d' = server_refuse (fake_view d)) d.
Proof. intros Hd. apply error_ok; [done|apply law_service_not_avail]. Qed.

Lemma prepare_response_ok d : fake_ok d →
  wp fake_iolink_device_prepare_isdu_response (fun _ d' =>
    fake_ok d' ∧ fake_view d' = server_execute (fake_view d)) d.
Proof.
  intros Hd. destruct (request_view d Hd) as (Hr & Hu & Hrd). pose proof (fk_request_len _ Hd) as Hlen.
  unfold FAKE_IOLINK_DEVICE_ISDU_REQUEST_MAX_LEN in *.
  set (request := sv_request (fake_view d)) in *.
  unfold server_execute. fold request. apply wp_bind, wp_get.
  destruct (Z.ltb_spec (fd_isdu_request_len d) 2) as [Hlt|Hge].
  { destruct request as [|a [|b l]]; [..|rewrite !zlen_cons in Hr; pose proof (zlen_nonneg l); lia];
      by apply not_available_ok. }
  rewrite Hrd by lia. destruct request as [|head [|second rest]] eqn:Hreq;
    [change (0 = fd_isdu_request_len d) in Hr; lia|change (1 = fd_isdu_request_len d) in Hr; lia|].
  rewrite <- Hreq in *. apply wp_bind. eapply wp_mem; [by rewrite Hreq|]. cbv zeta.
  assert (is_u8 head) as Hh by (rewrite Hreq in Hu; by inversion Hu).
  destruct (service_bits head Hh) as (-> & -> & Hn). rewrite (u8_small (2 + _)) by (unfold is_u8; lia).
  rewrite <- Hr. set (n := (head / 16) mod 8) in *. clearbody n.
  destruct (_ || _) eqn:Hg; [by apply not_available_ok|]. norm_bool.
  destruct (request_target_prefix (fd_isdu_request d) request n Hrd) as ([index subindex] & -> & ->); [lia..|].
  apply wp_bind. eapply wp_mem; [done|]. destruct ((_ =? 9) || _ || _); [by apply serve_read_ok|].
  destruct ((_ =? 1) || _ || _); [|by apply not_available_ok].
  apply serve_write_ok; [done|lia..].
Qed.

(** The end of a request. *)
Lemma complete_ok d : fake_ok d →
  let request := sv_request (fake_view d) in
  wp (d ← get;
      if fd_isdu_request_len d <? 2 then mret tt
      else
        head ← mem (rd (fd_isdu_request d) 0);
        declared ← (if Z.land head 0x0F =? 1 then mem (rd (fd_isdu_request d) 1) else mret (Z.land head 0x0F));
        if declared <? 2 then mret tt
        else when (declared <=? fd_isdu_request_len d) (
          fake_iolink_device_prepare_isdu_response;;
          fd_isdu_request_len <~ 0))
    (fun _ d' => fake_ok d' ∧ fake_view d' =
      match server_declared request with
      | Some n => if n <=? zlen request then server_execute (fake_view d) <| sv_request := [] |> else fake_view d
      | None => fake_view d
      end) d.
Proof.
  intros Hd request. destruct (request_view d Hd) as (Hr & Hu & Hrd). fold request in Hr, Hu, Hrd.
  clearbody request. apply wp_bind, wp_get. rewrite <- Hr. destruct (Z.ltb_spec (zlen request) 2) as [Hlt|Hge].
  { apply wp_ret. split; [done|]. destruct request as [|a [|b l]]; try done.
    rewrite !zlen_cons in Hlt. pose proof (zlen_nonneg l). lia. }
  rewrite (Hrd 0) by lia. destruct request as [|head [|second rest]] eqn:Hreq;
    [change (2 ≤ 0) in Hge; lia|change (2 ≤ 1) in Hge; lia|]. rewrite <- Hreq in *.
  apply wp_bind. eapply wp_mem; [rewrite Hreq; reflexivity|]. apply wp_bind.
  eapply (wp_mono _ (fun declared d' => d' = d ∧
    declared = if Z.land head 0x0F =? 1 then second else Z.land head 0x0F)).
  { destruct (_ =? 1); [|by apply wp_ret]. rewrite (Hrd 1) by lia. eapply wp_mem; [rewrite Hreq; reflexivity|done]. }
  intros declared d' [-> ->].
  assert (server_declared request = let n := if Z.land head 0x0F =? 1 then second else Z.land head 0x0F in
    if n <? 2 then None else Some n) as -> by (by rewrite Hreq). cbv zeta.
  set (n := if Z.land head 0x0F =? 1 then second else Z.land head 0x0F). clearbody n. destruct (n <? 2); [by apply wp_ret|].
  apply wp_when; intros Hn; rewrite Hn; [|done].
  apply wp_bind. eapply wp_mono; [by apply prepare_response_ok|]. intros ? d' [Hd' Hv]. apply wp_assign.
  rewrite <- Hv. split; [|done]. destruct Hd'. split; cbn; done.
Qed.

(** An octet of a request. *)
Lemma on_master_od_ok d od : fake_ok d → is_u8 od →
  wp (fake_iolink_device_on_master_od od) (fun _ d' =>
    fake_ok d' ∧ fake_view d' = server_feed (fake_view d) od) d.
Proof.
  intros Hd Hod. destruct (request_view d Hd) as (Hr & _). unfold server_feed. rewrite Hr.
  apply wp_bind, wp_get, wp_bind.
  eapply (wp_mono _ (fun _ d1 => fake_ok d1 ∧ fake_view d1 = fake_view d <| sv_request :=
    if fd_isdu_request_len d <? FAKE_IOLINK_DEVICE_ISDU_REQUEST_MAX_LEN
    then sv_request (fake_view d) ++ [od] else sv_request (fake_view d) |>)).
  - pose proof Hd as []. unfold FAKE_IOLINK_DEVICE_ISDU_REQUEST_MAX_LEN in *. apply wp_when; intros Hlt; norm_bool.
    + apply wp_bind. eapply wp_mem; [apply wr_Some; lia|]. apply wp_bind, wp_assign, wp_assign.
      rewrite u8_small by (unfold is_u8; lia). split.
      * split; cbn; try done; unfold FAKE_IOLINK_DEVICE_ISDU_REQUEST_MAX_LEN; try lia;
          [by rewrite zlen_insert|by apply Forall_insert].
      * rewrite (proj2 (Z.ltb_lt _ _)) by done. unfold fake_view. cbn -[Z.to_nat]. f_equal.
        replace (Z.to_nat (fd_isdu_request_len d + 1)) with (S (Z.to_nat (fd_isdu_request_len d))) by lia.
        rewrite (take_S_r _ _ od) by (apply list_lookup_insert_eq; unfold zlen in *; lia).
        by rewrite take_insert_ge by lia.
    + split; [done|]. rewrite (proj2 (Z.ltb_ge _ _)) by done. by destruct (fake_view d).
  - intros ? d1 [Hd1 Hv]. rewrite <- Hv. set (request := if fd_isdu_request_len d <? _ then sv_request (fake_view d) ++ [od] else _) in *. cbv zeta.
    assert (request = sv_request (fake_view d1)) as -> by (by rewrite Hv). by apply complete_ok.
Qed.

(** The next octet of the response. *)
Lemma next_response_ok d : fake_ok d →
  wp fake_iolink_device_next_response_od (fun od d' =>
    fake_ok d' ∧ is_u8 od ∧ (od, fake_view d') = server_next (fake_view d)) d.
Proof.
  intros Hd. pose proof Hd as []. apply wp_bind, wp_get. unfold server_next. cbn [sv_response fake_view].
  destruct (fd_isdu_response_active d) eqn:Ha; [|apply wp_ret; by split_and!]. cbn [negb orb].
  apply wp_if; intros Hpos; norm_bool.
  - apply wp_ret. split; [done|]. split; [done|]. rewrite drop_ge; [done|]. rewrite length_take. lia.
  - destruct (rd_Some (fd_isdu_response d) (fd_isdu_response_pos d)) as [od Hod]; [lia|].
    apply wp_bind. eapply wp_mem; [exact Hod|]. apply wp_bind, wp_assign, wp_ret.
    rewrite u8_small by (unfold is_u8; lia).
    assert (is_u8 od) as Hu by (eapply (rd_Forall is_u8); [|exact Hod]; done).
    rewrite rd_lookup in Hod by lia. split; [by split; cbn; try done; lia|]. split; [done|].
    rewrite (drop_S _ od (Z.to_nat (fd_isdu_response_pos d))) by (rewrite lookup_take_lt by lia; done).
    replace (S (Z.to_nat (fd_isdu_response_pos d))) with (Z.to_nat (fd_isdu_response_pos d + 1)) by lia.
    unfold fake_view. cbn -[Z.to_nat]. by rewrite Ha.
Qed.

(** ** Runs *)

(** What the port does to the device's ISDU machine: an octet of a request arrives, an
    octet of the response is asked for. *)
Inductive server_op : Type := Feed (od : Z) | Next.

Fixpoint device_run (ops : list server_op) : M fake_iolink_device_t (list Z) :=
  match ops with
  | [] => mret []
  | Feed od :: ops => fake_iolink_device_on_master_od od;; device_run ops
  | Next :: ops =>
      od ← fake_iolink_device_next_response_od;
      ods ← device_run ops;
      mret (od :: ods)
  end.

Fixpoint server_run (ops : list server_op) (σ : server) : list Z * server :=
  match ops with
  | [] => ([], σ)
  | Feed od :: ops => server_run ops (server_feed σ od)
  | Next :: ops =>
      let r := server_run ops (server_next σ).2 in ((server_next σ).1 :: r.1, r.2)
  end.

(** C16: the simulated device implements its ISDU server. For every sequence of request
    octets and response octets the device stays inside its arrays, answers octet by octet
    as the server does, and ends in a state that represents the server's. *)
Theorem fake_device_refines_server ops d : fake_ok d →
  Forall (fun op => match op with Feed od => is_u8 od | Next => True end) ops →
  wp (device_run ops) (fun ods d' => fake_ok d' ∧ (ods, fake_view d') = server_run ops (fake_view d)) d.
Proof.
  intros Hd Hops. revert d Hd. induction Hops as [|op ops Hop _ IH]; intros d Hd; [by apply wp_ret|].
  destruct op as [od|]; cbn [device_run server_run]; apply wp_bind.
  - eapply wp_mono; [by apply on_master_od_ok|]. intros ? d1 [Hd1 <-]. by apply IH.
  - eapply wp_mono; [by apply next_response_ok|]. intros od d1 (Hd1 & _ & Hn). rewrite <- Hn. cbn [fst snd].
    apply wp_bind. eapply wp_mono; [by apply IH|]. intros ods d2 [Hd2 Hr]. apply wp_ret. by rewrite <- Hr.
Qed.
End refinement.

(** A read of a stored parameter: Index 0x10, a request of three octets. *)
Definition wit_server : fake_iolink_device_t :=
  final (fake_iolink_device_set_isdu_object 0x10 0 [65; 66] 2) (fake_iolink_device_reset 0x5A 1 1).

Definition wit_ops : list server_op := map Feed [0x93; 0x10; 0x83] ++ replicate 4 Next.

Lemma fake_device_refines_server_witness :
  wp (device_run wit_ops) (fun ods d' =>
    fake_ok d' ∧ (ods, fake_view d') = server_run wit_ops (fake_view wit_server)) wit_server.
Proof.
  apply (fake_device_refines_server wit_ops wit_server); [split; decide_here|].
  repeat constructor; done.
Defined.

(** The device reads a request of 16 octets or more, which carries ExtLength, as if it had
    none: the data of a write to Index 0x18 are stored under Index 18, the ExtLength. *)
Example server_ignores_ext_length :
  foldl server_feed (fake_view (fake_iolink_device_reset 0x5A 1 1)) (write_request 0x18 0 (replicate 14 7)) =
  server_reply 5 [] (fake_view (fake_iolink_device_reset 0x5A 1 1) <| sv_store := [(18, 0, 0x18 :: replicate 14 7)] |>).
Proof. vm_compute. reflexivity. Qed.
