(* ===== verification/FakeSession.v ===== *)
(** * The simulated device on the wire

    The device of [FakeDevice] keeps the contract of [DeviceContract], so the start-up
    and the services over the wire hold with it at the other end. *)

From S2P Require Import Prelude Iolinki Reference Types Fixtures Parameters Isdu IsduResponse IsduRequest IsduService Services DataStorage Events EventReadout Hal Transmit Port PortInvariant PortServices ParameterBlock PortSafety PortCalls PortTransitions Carrier PortLink PortExchange IsduFrames Adapter DeviceContract Session SessionIsdu OverTheWire FakeDevice FakeServer FakeRefinement.

(** The device without its queue. *)
Definition fake_core (d : fake_iolink_device_t) : fake_iolink_device_t :=
  d <| fd_rx_queue := zeros 16 |> <| fd_rx_len := 0 |> <| fd_rx_pos := 0 |>.

(** The queue holds [reply]. *)
Definition fake_pending (d : fake_iolink_device_t) (reply : list Z) : Prop :=
  zlen (fd_rx_queue d) = 16 ∧ slice (fd_rx_queue d) (fd_rx_pos d) (fd_rx_len d - fd_rx_pos d) = Some reply.

Definition link_code (stage : link_stage) : Z :=
  match stage with
  | LinkReady => FAKE_LINK_STARTUP
  | LinkPreoperate => FAKE_LINK_PREOPERATE
  | LinkOperate => FAKE_LINK_OPERATE
  end.

(** [cks_flags] of the device. *)
Definition event_flag (event : bool) : Z := if event then 0x80 else 0.

Section adapter.
Context {IO : Iolinki} {DC : IolinkiDevice}.
(** The device as the test has set it up. *)
Context (setup : fake_iolink_device_t) (config : iolink_master_config_t).

#[local] Instance fake_adapter : Adapter fake_iolink_device_t := {|
  power_on := setup;
  effect := fun entry =>
    match entry with
    | IoSend _ data _ => fake_iolink_device_send data;; mret tt
    | IoRecvByte _ _ _ => fake_iolink_device_recv_byte;; mret tt
    | _ => mret tt
    end;
|}.

(** [g_phy] *)
Definition fake_iolink_device_phy : iolink_phy_api_t := {|
  phy_user := 0;
  phy_init := None;
  phy_set_mode := false;
  phy_set_baudrate := false;
  phy_send := Some (fun tr data => answer (fake_iolink_device_send data) (-1) tr);
  phy_recv_byte := Some (answer fake_iolink_device_recv_byte (-1, 0));
  phy_set_cq_line := false;
  phy_get_voltage_mv := None;
  phy_is_short_circuit := None;
|}.

#[local] Instance fake_wire : WireDevice fake_iolink_device_t fake_iolink_device_t := {|
  wire_phy := fake_iolink_device_phy;
  wire_send := fake_iolink_device_send;
  wire_recv := fake_iolink_device_recv_byte;
  wire_pending := fake_pending;
  wire_core := fake_core;
|}.

(** The device in a stage, set up for the configuration of the port. *)
Record fake_stage (stage : link_stage) (c : fake_iolink_device_t) (σ : server) : Prop := {
  fs_ok : fake_ok c;
  fs_view : fake_view c = σ;
  fs_link : fd_link_state c = link_code stage;
  fs_od_len : fd_od_len c = iolink_master_od_len_for_type (cfg_m_seq_type config);
  fs_pd_in_len : fd_pd_in_len c = cfg_pd_in_len config;
}.

#[local] Instance fake_sdci : SdciDevice fake_iolink_device_t fake_iolink_device_t server := {|
  sdci_stage := fake_stage;
  sdci_pd_in := sv_pd_in;
  sdci_flags := fun σ => event_flag (sv_event σ);
  sdci_feed := server_feed;
  sdci_next := server_next;
|}.

Context {laws : IolinkiLaws IO} {dlaws : IolinkiDeviceLaws DC}.
Implicit Types (d c : fake_iolink_device_t) (σ : server).

(** ** The queue *)

#[local] Instance fake_wire_laws : WireLaws fake_iolink_device_t fake_iolink_device_t.
Proof.
  split; try done.
  - intros d [_ Hs%slice_empty]. exists 0. cbn. unfold fake_iolink_device_recv_byte, get, mbind, M_bind.
    by rewrite (proj2 (Z.leb_le _ _)) by lia.
  - intros d b r [Hl Hs]. apply slice_pop in Hs as (Hp & Hlen & Hrd & Hs'). eexists. split; [|split].
    + cbn. unfold fake_iolink_device_recv_byte, get, mbind, M_bind.
      rewrite (proj2 (Z.leb_gt _ _)), Hrd by lia. reflexivity.
    + split; [done|]. cbn. by rewrite u8_small by (unfold is_u8; lia).
    + done.
Qed.

(** [l] is in the queue from its start on. *)
Definition filled (l : list Z) d : Prop :=
  zlen (fd_rx_queue d) = 16 ∧ fd_rx_pos d = 0 ∧ take (length l) (fd_rx_queue d) = l.

Lemma queue_begin_ok d : fake_pending d [] →
  wp fake_iolink_device_queue_begin (fun start d' => start = 0 ∧
    d' = d <| fd_rx_pos := 0 |> <| fd_rx_len := 0 |>) d.
Proof.
  intros [_ Hs]. apply zlen_slice in Hs. rewrite zlen_nil in Hs. apply wp_bind, wp_get.
  rewrite (proj2 (Z.ltb_ge _ _)), andb_false_r by lia. by apply wp_bind, wp_assign, wp_bind, wp_assign, wp_ret.
Qed.

Lemma put_rx_ok l v d : filled l d → zlen l < 16 →
  wp (put_rx (zlen l) v) (fun _ d' => filled (l ++ [v]) d' ∧ ∃ q, d' = d <| fd_rx_queue := q |>) d.
Proof.
  intros (Hl & Hp & Ht) Hlt. pose proof (zlen_nonneg l). apply wp_bind, wp_get, wp_bind.
  eapply wp_mem; [apply wr_Some; lia|]. apply wp_assign. split; [|by eexists].
  split; [cbn; by rewrite zlen_insert|]. split; [done|]. cbn.
  replace (Z.to_nat (zlen l)) with (length l) by (unfold zlen; lia).
  apply take_insert_snoc; [done|unfold zlen in *; lia].
Qed.

(** The last octet again. *)
Lemma put_rx_last l v v' d : filled (l ++ [v]) d →
  wp (put_rx (zlen l) v') (fun _ d' => filled (l ++ [v']) d' ∧ ∃ q, d' = d <| fd_rx_queue := q |>) d.
Proof.
  intros (Hl & Hp & Ht). pose proof (f_equal zlen Ht) as Hz. rewrite zlen_take, length_app, zlen_app in Hz.
  change (zlen [v]) with 1 in Hz. cbn [length] in Hz. apply put_rx_ok; [|lia]. split; [done|]. split; [done|].
  apply (f_equal (take (length l))) in Ht. rewrite take_take, take_app_length in Ht.
  rewrite length_app in Ht. cbn [length] in Ht. by replace (length l `min` (length l + 1))%nat with (length l) in Ht by lia.
Qed.

Lemma filled_slice l d : filled l d → slice (fd_rx_queue d) 0 (zlen l) = Some l.
Proof.
  intros (Hl & _ & Ht). pose proof (f_equal zlen Ht) as Hz. rewrite zlen_take in Hz. unfold zlen in Hz.
  rewrite slice_Some by (unfold zlen in *; lia). cbn. rewrite drop_0. unfold zlen. by rewrite Nat2Z.id, Ht.
Qed.

(** The queue changes, the rest does not. *)
Definition same_core d d' : Prop := ∃ q, d' = d <| fd_rx_queue := q |>.

Lemma same_core_trans d1 d2 d3 : same_core d1 d2 → same_core d2 d3 → same_core d1 d3.
Proof. intros [q1 ->] [q2 ->]. exists q2. by destruct d1. Qed.

Lemma put_pd_octets_ok n l d : filled l d → zlen l + Z.of_nat n < 16 →
  wp (put_rx_octets n (zlen l) (gets fd_pd_in_value)) (fun pos d' =>
    pos = zlen l + Z.of_nat n ∧ filled (l ++ replicate n (fd_pd_in_value d)) d' ∧ same_core d d') d.
Proof.
  revert l d. induction n as [|n IH]; intros l d Hl Hn; cbn [put_rx_octets replicate].
  - apply wp_ret. rewrite app_nil_r. split; [lia|]. split; [done|]. exists (fd_rx_queue d). by destruct d.
  - pose proof (zlen_nonneg l). apply wp_bind, wp_gets, wp_bind. eapply wp_mono; [apply put_rx_ok; [done|lia]|].
    intros ? d1 [H1 Hs]. rewrite u8_small by (unfold is_u8; lia).
    replace (zlen l + 1) with (zlen (l ++ [fd_pd_in_value d])) by slia.
    eapply wp_mono; [apply IH; [done|slia]|]. intros pos d2 (-> & H2 & Hs2).
    split; [slia|]. split; [|by eapply same_core_trans].
    destruct Hs as [q ->]. cbn in H2. by rewrite <- app_assoc in H2.
Qed.

Lemma event_flag_cks b : cks_flags (event_flag b).
Proof. destruct b; [right; right; by left|by left]. Qed.

(** The end of a reply: process data and CKS. *)
Lemma put_pd_and_cks_ok od d : filled od d → is_u8 (fd_pd_in_value d) → 0 ≤ fd_pd_in_len d →
  zlen od + fd_pd_in_len d < 16 →
  let pd := replicate (Z.to_nat (fd_pd_in_len d)) (fd_pd_in_value d) in
  wp (put_pd_and_cks 0 (zlen od)) (fun pos d' =>
    pos + 1 = zlen (reply_octets od pd (event_flag (fd_event_pending d))) ∧
    filled (reply_octets od pd (event_flag (fd_event_pending d))) d' ∧ same_core d d') d.
Proof.
  intros Hod Hv Hn Hroom pd. assert (zlen pd = fd_pd_in_len d) as Hpd by (unfold pd, zlen; rewrite length_replicate; lia).
  pose proof (zlen_nonneg od). apply wp_bind, wp_get, wp_bind.
  eapply wp_mono; [apply put_pd_octets_ok; [done|lia]|]. fold pd. intros pos d1 (-> & H1 & Hs1).
  replace (zlen od + Z.of_nat (Z.to_nat (fd_pd_in_len d))) with (zlen (od ++ pd)) by slia.
  set (flags := event_flag (fd_event_pending d)).
  apply wp_bind. eapply wp_mono; [apply put_rx_ok; [done|slia]|]. fold (event_flag (fd_event_pending d)) flags.
  intros ? d2 [H2 Hs2]. apply wp_bind, wp_get.
  assert (zlen (od ++ pd) + 1 - 0 = zlen ((od ++ pd) ++ [flags])) as Hz by slia.
  apply wp_bind. eapply wp_mem; [rewrite Hz; by apply filled_slice|].
  apply wp_bind. eapply wp_mem.
  { eapply rd_slice; [by apply filled_slice|]. rewrite rd_lookup by apply zlen_nonneg.
    unfold zlen. rewrite Nat2Z.id. by apply list_lookup_middle. }
  destruct (cks_fields flags (iolink_checksum6 ((od ++ pd) ++ [flags])) (event_flag_cks _) (law_checksum6 _)) as (Hu & _).
  rewrite Z.lor_comm, u8_small by done.
  apply wp_bind. eapply wp_mono; [by eapply put_rx_last|]. intros ? d3 [H3 Hs3]. apply wp_ret.
  unfold reply_octets. fold flags. rewrite <- !app_assoc in *. split; [slia|]. split; [done|].
  exact (same_core_trans _ _ _ Hs1 (same_core_trans _ _ _ Hs2 Hs3)).
Qed.

Lemma end_reply_ok reply d : filled reply d → fd_truncate_next_response d = false →
  wp (end_reply (zlen reply)) (fun _ d' => fake_pending d' reply ∧ fake_core d' = fake_core d) d.
Proof.
  intros Hr Ht. pose proof (filled_slice _ _ Hr) as Hs. destruct Hr as (Hl & Hp & _).
  assert (0 ≤ zlen reply ≤ 16) as Hz.
  { pose proof (zlen_nonneg reply). unfold slice in Hs. destruct (_ && _) eqn:Hb in Hs; [|done]. norm_bool. lia. }
  apply wp_bind, wp_assign, wp_bind, wp_get. cbn [fd_truncate_next_response set]. rewrite Ht. cbn [andb when].
  apply wp_ret. split; [|done]. split; [done|]. cbn. by rewrite Hp, u8_small, Z.sub_0_r by (unfold is_u8; lia).
Qed.

Lemma spoil_checksum_ok pos d : fd_corrupt_next_response_checksum d = false →
  wp (spoil_checksum pos) (fun _ d' => d' = d) d.
Proof. intros Hc. apply wp_bind, wp_get. rewrite Hc. by apply wp_ret. Qed.

(** The octets of the response. *)
Definition settings d : Z * Z * Z := (fd_link_state d, fd_od_len d, fd_pd_in_len d).

Lemma put_od_octets_ok n l d : filled l d → fake_ok d → zlen l + Z.of_nat n ≤ 16 →
  wp (put_rx_octets n (zlen l) fake_iolink_device_next_response_od) (fun pos d' =>
    let answer := sdci_answer n (fake_view d) in
    pos = zlen l + Z.of_nat n ∧ filled (l ++ answer.1) d' ∧ fake_ok d' ∧ fake_view d' = answer.2 ∧
    Forall is_u8 answer.1 ∧ settings d' = settings d) d.
Proof.
  revert l d. induction n as [|n IH]; intros l d Hl Hd Hn; cbn [put_rx_octets sdci_answer].
  - apply wp_ret. cbn. rewrite app_nil_r. by split_and!; [lia|..].
  - pose proof (zlen_nonneg l). apply wp_bind.
    eapply wp_mono.
    { apply (wp_keeps (fun d => (fd_rx_queue d, fd_rx_pos d, settings d))); [by apply next_response_ok|keeps_deep]. }
    intros od d1 [(Hd1 & Hod & Hnext) Hk]. injection Hk as Hq Hp Hset1 Hset2 Hset3. apply wp_bind.
    eapply wp_mono; [apply put_rx_ok; [|lia]|].
    { destruct Hl as (H1 & H2 & H3). split; [by rewrite Hq|]. split; [by rewrite Hp|by rewrite Hq]. }
    intros ? d2 [H2 [q ->]]. rewrite u8_small by (unfold is_u8; lia).
    replace (zlen l + 1) with (zlen (l ++ [od])) by slia. cbn [sdci_next fake_sdci]. rewrite <- Hnext. cbn [fst snd].
    eapply wp_mono; [apply IH; [done|destruct Hd1; split; cbn; try done; apply H2|slia]|].
    intros pos d3 (-> & H3 & Hd3 & Hv3 & Hu3 & Hset). change (fake_view (set fd_rx_queue _ d1)) with (fake_view d1) in *.
    split; [slia|]. rewrite <- app_assoc in H3. split; [done|]. split; [done|]. split; [done|].
    split; [by constructor|]. rewrite Hset. unfold settings. cbn. congruence.
Qed.

Lemma core_ok d : fake_ok d → fake_ok (fake_core d).
Proof. intros []. by split. Qed.
Lemma ok_core d : zlen (fd_rx_queue d) = 16 → fake_ok (fake_core d) → fake_ok d.
Proof. intros ? []. by split. Qed.
Lemma same_core_eq d d' : same_core d d' → fake_core d' = fake_core d.
Proof. by intros [q ->]. Qed.

Lemma server_next_image n σ : sv_pd_in (sdci_answer n σ).2 = sv_pd_in σ ∧ sv_event (sdci_answer n σ).2 = sv_event σ.
Proof.
  revert σ. induction n as [|n IH]; intros σ; [done|]. cbn [sdci_answer fst snd].
  destruct (IH (sdci_next σ).2) as [-> ->]. cbn. unfold server_next. by destruct (sv_response σ).
Qed.

(** What the device looks like after it has queued [reply]. *)
Definition queued d (reply : list Z) (σ : server) d' : Prop :=
  fake_pending d' reply ∧ fake_ok (fake_core d') ∧ fake_view d' = σ ∧ settings d' = settings d.

Lemma reply_ends d d1 reply σ : filled reply d1 → fake_ok (fake_core d1) → fake_view d1 = σ →
  settings d1 = settings d → wp (end_reply (zlen reply)) (fun _ d' => queued d reply σ d') d1.
Proof.
  intros Hf Hok Hv Hs. destruct (fk_faultless _ Hok) as (_ & _ & Ht).
  eapply wp_mono; [by apply end_reply_ok|]. intros ? d' [Hp Hc]. split; [done|].
  change (fake_view d') with (fake_view (fake_core d')). change (settings d') with (settings (fake_core d')).
  by rewrite Hc.
Qed.

Lemma operate_response_ok (read : bool) d : fake_pending d [] → fake_ok d → 0 ≤ fd_od_len d →
  fd_od_len d + fd_pd_in_len d < 16 →
  let σ := fake_view d in
  let answer := if read then sdci_answer (Z.to_nat (fd_od_len d)) σ else ([], σ) in
  wp (fake_iolink_device_queue_operate_response read) (fun _ d' =>
    Forall is_u8 answer.1 ∧ queued d (reply_octets answer.1 (sv_pd_in σ) (event_flag (sv_event σ))) answer.2 d') d.
Proof.
  intros Hp Hd Hod Hroom σ answer. pose proof (fk_faultless _ Hd) as (Hdrop & _).
  apply wp_bind, wp_get. rewrite Hdrop. apply wp_bind. eapply wp_mono; [by apply queue_begin_ok|].
  intros start d0 [-> ->]. set (d0 := d <| fd_rx_pos := 0 |> <| fd_rx_len := 0 |>).
  assert (fake_ok d0) as Hd0 by (by destruct Hd; split). pose proof (fk_queue _ Hd0) as Hq0.
  apply wp_bind. eapply (wp_mono _ (fun pos d1 => pos = zlen answer.1 ∧ filled answer.1 d1 ∧ fake_ok d1 ∧
    fake_view d1 = answer.2 ∧ Forall is_u8 answer.1 ∧ settings d1 = settings d ∧
    zlen answer.1 ≤ fd_od_len d ∧ sv_pd_in answer.2 = sv_pd_in σ ∧ sv_event answer.2 = sv_event σ)).
  { unfold answer. destruct read.
    - eapply wp_mono; [apply (put_od_octets_ok _ []); [done|done|rewrite zlen_nil; destruct (fk_pd _ Hd); lia]|].
      intros pos d1 (-> & H1 & H2 & H3 & H4 & H5). change (fake_view d0) with σ in *.
      pose proof (server_next_image (Z.to_nat (fd_od_len d)) σ) as [-> ->]. rewrite sdci_answer_length.
      split_and!; try done; cbn; lia.
    - apply wp_ret. by split_and!. }
  intros pos d1 (-> & Hf & Hd1 & Hv & Hu & Hs & Hl & Hpd & Hev). injection Hs as Hs1 Hs2 Hs3.
  pose proof (fk_pd _ Hd1) as [Hpv Hpn]. apply wp_bind.
  eapply wp_mono; [apply put_pd_and_cks_ok; [done|done|done|rewrite Hs3; lia]|].
  assert (replicate (Z.to_nat (fd_pd_in_len d1)) (fd_pd_in_value d1) = sv_pd_in σ) as Hpd1 by (by rewrite <- Hpd, <- Hv).
  assert (fd_event_pending d1 = sv_event σ) as Hev1 by (by rewrite <- Hev, <- Hv).
  rewrite Hpd1, Hev1. set (reply := reply_octets _ _ _). intros pos d2 (Hpos & H2 & Hc%same_core_eq).
  assert (fake_ok (fake_core d2)) as Hok2 by (rewrite Hc; by apply core_ok).
  apply wp_bind. eapply wp_mono; [by apply spoil_checksum_ok, (fk_faultless _ Hok2)|]. intros ? d3 ->.
  rewrite Hpos. eapply wp_mono; [apply (reply_ends d d2 reply answer.2)|by intros ? d' ?]; try done.
  - change (fake_view (fake_core d2) = answer.2). by rewrite Hc.
  - change (settings (fake_core d2) = settings d). rewrite Hc. unfold settings. cbn. congruence.
Qed.

Lemma queue_type0_ok value d : fake_pending d [] → fake_ok d →
  wp (fake_iolink_device_queue_type0 value) (fun _ d' =>
    queued d (reply_octets [value] [] 0) (fake_view d) d') d.
Proof.
  intros Hp Hd. pose proof (fk_faultless _ Hd) as (Hdrop & Hcor & _).
  apply wp_bind, wp_get. rewrite Hdrop. apply wp_bind. eapply wp_mono; [by apply queue_begin_ok|].
  intros start d0 [-> ->]. set (d0 := d <| fd_rx_pos := 0 |> <| fd_rx_len := 0 |>).
  assert (filled [] d0) as H0 by (split; [apply Hd|done]).
  apply wp_bind. eapply wp_mono; [by apply (put_rx_ok [] _ d0)|]. intros ? d1 [H1 Hs1].
  apply wp_bind. eapply wp_mono; [by apply (put_rx_ok [value])|]. intros ? d2 [H2 Hs2].
  apply wp_bind, wp_get, wp_bind. eapply wp_mem; [apply (filled_slice _ _ H2)|].
  apply wp_bind. eapply wp_mono; [by apply (put_rx_last [value] 0)|]. intros ? d3 [H3 Hs3].
  pose proof (same_core_eq _ _ (same_core_trans _ _ _ Hs1 (same_core_trans _ _ _ Hs2 Hs3))) as Hc.
  assert (fake_ok (fake_core d3)) as Hok3 by (rewrite Hc; exact (core_ok _ Hd)).
  apply wp_bind. eapply wp_mono; [by apply spoil_checksum_ok, (fk_faultless _ Hok3)|]. intros ? d4 ->.
  rewrite law_type0_len. apply (reply_ends d d3 (reply_octets [value] [] 0)); [done|done|..].
  - change (fake_view (fake_core d3) = fake_view d). by rewrite Hc.
  - change (settings (fake_core d3) = settings d). by rewrite Hc.
Qed.

Lemma device_operate_ok d : fake_pending d [] → fake_ok d →
  wp on_device_operate (fun _ d' =>
    queued (d <| fd_link_state := FAKE_LINK_OPERATE |>) (reply_octets [] [] 0) (fake_view d) d') d.
Proof.
  intros Hp Hd. apply wp_bind. eapply wp_mono; [by apply queue_begin_ok|]. intros start d0 [-> ->].
  apply wp_bind, wp_get, wp_bind, wp_assign, wp_bind, wp_assign, wp_bind.
  match goal with |- wp _ _ ?s => set (d1 := s) end.
  assert (filled [] d1) as H1 by (split; [apply Hd|done]).
  eapply wp_mono; [by apply (put_rx_ok [])|]. intros ? d2 [H2 Hs2].
  apply wp_bind, wp_get, wp_bind. eapply wp_mem; [apply (filled_slice _ _ H2)|].
  apply wp_bind. eapply wp_mono; [by apply (put_rx_last [] 0)|]. intros ? d3 [H3 Hs3].
  pose proof (same_core_eq _ _ (same_core_trans _ _ _ Hs2 Hs3)) as Hc.
  assert (fake_ok (fake_core d3)) as Hok3 by (rewrite Hc; destruct Hd; by split).
  apply wp_assign. pose proof (filled_slice _ _ H3) as Hs. destruct H3 as (Hl & Hpos & _).
  split; [split; [done|]; cbn; rewrite Hpos; exact Hs|].
  assert (∀ n, fake_core (d3 <| fd_rx_len := n |>) = fake_core d1) as Hc3 by (intros; exact Hc).
  split; [by rewrite Hc3, <- Hc|]. split.
  - change (fake_view (fake_core (d3 <| fd_rx_len := u8 (0 + 1) |>)) = fake_view d). by rewrite Hc3.
  - change (settings (fake_core (d3 <| fd_rx_len := u8 (0 + 1) |>)) = settings (d <| fd_link_state := FAKE_LINK_OPERATE |>)).
    by rewrite Hc3.
Qed.

Lemma direct_param_ok addr d : fake_ok d → 0 ≤ addr →
  wp (fake_iolink_device_direct_param_octet addr) (fun v d' => is_u8 v ∧ d' = d) d.
Proof.
  intros Hd Ha. apply wp_bind. eapply wp_mono; [by apply find_object_ok|]. intros r d' [-> ->].
  destruct (find_from 0 _ _ _) as [k|] eqn:Hf; [|by apply wp_ret].
  destruct (rd_Some (sv_store (fake_view d)) k) as [e He]; [apply find_from_bound in Hf; lia|].
  destruct (stored_at d k e Hd He) as (o & Ho & [Hsz Hu Hlen] & _). apply wp_bind, wp_get, wp_bind.
  eapply wp_mem; [exact Ho|]. apply wp_if; intros Hlt; norm_bool; [|by apply wp_ret].
  destruct (rd_Some (fo_data o) addr) as [v Hv]; [lia|]. eapply wp_mem; [exact Hv|].
  split; [by eapply (rd_Forall is_u8)|done].
Qed.

(** ** The contract *)

Lemma replies_wp frame d reply (P : fake_iolink_device_t → Prop) :
  wp (fake_iolink_device_send frame) (fun r d' => r = zlen frame ∧ fake_pending d' reply ∧ P (fake_core d')) d →
  replies_to frame d reply P.
Proof. intros (r & d' & Hs & -> & Hp & HP)%wp_inv. by exists d'. Qed.

(** A queued reply, in the words of the contract. *)
Lemma queued_stage stage d reply σ d' : queued d reply σ d' → fd_link_state d = link_code stage →
  fd_od_len d = iolink_master_od_len_for_type (cfg_m_seq_type config) → fd_pd_in_len d = cfg_pd_in_len config →
  fake_pending d' reply ∧ fake_stage stage (fake_core d') σ.
Proof.
  intros (Hp & Hok & Hv & Hs) Hl Ho Hi. injection Hs as Hs1 Hs2 Hs3. split; [done|].
  split; [done|exact Hv|cbn; congruence..].
Qed.

#[local] Instance fake_startup : StartupLaws fake_iolink_device_t fake_iolink_device_t server.
Proof.
  split.
  - done.
  - intros entry d σ He Hp Hs. exists d. by destruct entry.
  - intros d σ [Hl Hs] []. apply replies_wp. apply wp_bind, wp_get, wp_bind, wp_assign, wp_ret. split; [done|].
    split; [by split|]. split; try done. destruct fs_ok0. by split.
  - intros d σ Hp []. pose proof (ok_core d (proj1 Hp) fs_ok0) as Hd.
    set (addr := u8 (Z.land 0xA2 IOLINK_MC_ADDR_MASK)).
    destruct (wp_inv _ _ _ (direct_param_ok addr (d <| fd_link_state := FAKE_LINK_PREOPERATE |>)
      ltac:(destruct Hd; by split) (proj1 (u8_range _)))) as (v & d1 & Hv & Hu & ->).
    exists v. split; [done|]. apply replies_wp. unfold test_message, fake_iolink_device_send.
    rewrite law_mc_channel, law_channel_diagnosis, law_channel_isdu, law_min_len, law_type0_len.
    cbn [zlen length andb]. change (Z.of_nat 2) with 2.
    cbn -[fake_iolink_device_queue_type0 on_type0].
    apply wp_bind, wp_ret, wp_bind. unfold on_type0. apply wp_bind, wp_get.
    rewrite law_mc_rw, law_mc_channel. cbn [Z.land Pos.land N.of_nat Z.eqb negb].
    change (Z.land 162 128 =? 0) with false. change (Z.land 162 96 =? 32) with true.
    cbn in fs_link0. rewrite fs_link0. cbn [negb andb Z.eqb].
    apply wp_bind, wp_assign, wp_bind. eapply (wp_ok _ _ _ _ _ Hv).
    eapply wp_mono; [apply queue_type0_ok; [exact Hp|destruct Hd; by split]|]. intros ? d' Hq. apply wp_ret.
    split; [done|]. apply (queued_stage LinkPreoperate) in Hq; try done. destruct Hq as [Hp' Hst].
    split; [exact Hp'|]. rewrite <- fs_view0. exact Hst.
  - intros d σ Hp []. pose proof (ok_core d (proj1 Hp) fs_ok0) as Hd.
    apply replies_wp. unfold device_operate, fake_iolink_device_send.
    rewrite law_mc_channel, law_channel_diagnosis, law_channel_isdu, law_min_len, law_header_len, law_cmd_operate.
    cbn [zlen length andb]. change (Z.of_nat 3) with 3.
    change (Z.land 32 96 =? 64) with false. change (Z.land 32 96 =? 96) with false. cbn -[on_device_operate].
    apply wp_bind, wp_bind, wp_ret, wp_ret, wp_bind. eapply wp_mono; [by apply device_operate_ok|].
    intros ? d' Hq. apply wp_ret. split; [done|]. apply (queued_stage LinkOperate) in Hq; try done.
    destruct Hq as [Hp' Hst]. split; [exact Hp'|]. rewrite <- fs_view0. exact Hst.
Qed.

(** OPERATE: a reply has room in the queue, and the device takes every octet after the
    header of an ISDU write for request octets. *)
Context (Hcfg : config_ok config).
Notation od_len := (iolink_master_od_len_for_type (cfg_m_seq_type config)).
Context (Hroom : od_len + cfg_pd_in_len config < 16).

Lemma fake_view_fits c σ : fake_stage LinkOperate c σ → view_fits config (sv_pd_in σ) (event_flag (sv_event σ)).
Proof.
  intros [Hok <- _ _ Hi]. destruct (fk_pd _ Hok) as [Hv Hn]. unfold view_fits. cbn. split.
  - unfold zlen. rewrite length_replicate, Z2Nat.id by lia. done.
  - split; [by apply Forall_replicate|apply event_flag_cks].
Qed.

(** The reply in OPERATE, in the words of the contract. *)
Lemma operate_reply_stage (read : bool) d σ : fake_pending d [] → fake_ok d → fake_view d = σ →
  settings d = (FAKE_LINK_OPERATE, od_len, cfg_pd_in_len config) →
  let answer := if read then sdci_answer (Z.to_nat od_len) σ else ([], σ) in
  wp (fake_iolink_device_queue_operate_response read) (fun _ d' =>
    Forall is_u8 answer.1 ∧ fake_pending d' (reply_octets answer.1 (sv_pd_in σ) (event_flag (sv_event σ))) ∧
    fake_stage LinkOperate (fake_core d') answer.2) d.
Proof.
  intros Hp Hd <- [= Hl Ho Hi] answer. pose proof (od_len_range config) as Hod.
  eapply wp_mono; [apply (operate_response_ok read); [done|done|lia|lia]|].
  intros ? d' [Hu Hq]. rewrite Ho in Hu, Hq. fold answer in Hu, Hq. split; [done|].
  by apply (queued_stage LinkOperate) in Hq.
Qed.

(** The cyclic frame of the port makes the device answer with its process data. *)
Lemma cyclic_dispatched pd (Q : Z → fake_iolink_device_t → Prop) d : zlen pd = cfg_pd_out_len config →
  let frame := config_frame config 0 (pd ++ zeros od_len) in
  wp (fake_iolink_device_queue_operate_response false) (fun _ => Q (zlen frame))
    (d <| fd_operate_cycle_count := u32 (fd_operate_cycle_count d + 1) |> <| fd_link_state := FAKE_LINK_OPERATE |>) →
  wp (fake_iolink_device_send frame) Q d.
Proof.
  intros Hpl frame HQ. pose proof (od_len_range config) as Hod. revert HQ.
  unfold frame, config_frame, mseq_frame, fake_iolink_device_send. intros HQ.
  rewrite law_mc_channel, law_channel_diagnosis, law_channel_isdu, law_type0_len, !andb_false_r.
  change (Z.land 0 96 =? 64) with false. change (Z.land 0 96 =? 96) with false. cbv iota.
  apply wp_bind, wp_ret, wp_bind. cbv iota.
  rewrite (proj2 (Z.eqb_neq _ 2)) by (pose proof (zlen_nonneg pd); rewrite !zlen_cons, zlen_app, zlen_zeros by lia; lia).
  apply wp_bind, wp_get, wp_bind, wp_assign, wp_bind, wp_assign. rewrite law_mc_rw. change (negb (Z.land 0 128 =? 0)) with false.
  eapply wp_mono; [exact HQ|]. intros ? d' Hd'. by apply wp_ret.
Qed.

#[local] Instance fake_cyclic : CyclicLaws config fake_iolink_device_t fake_iolink_device_t server.
Proof.
  split; [exact fake_view_fits|]. intros d σ pd Hp [] Hpl _. apply replies_wp.
  pose proof (ok_core d (proj1 Hp) fs_ok0) as Hd. apply cyclic_dispatched; [done|]. eapply wp_mono.
  { apply (operate_reply_stage false _ σ); [exact Hp|destruct Hd; by split|exact fs_view0|].
    unfold settings. cbn in *. congruence. }
  by intros ? d' (_ & Hp' & Hst).
Qed.

Lemma server_feed_image l σ :
  sv_pd_in (foldl server_feed σ l) = sv_pd_in σ ∧ sv_event (foldl server_feed σ l) = sv_event σ.
Proof.
  revert σ. induction l as [|od l IH]; intros σ; [done|]. cbn [foldl]. destruct (IH (server_feed σ od)) as [-> ->].
  unfold server_feed, server_execute, server_read, server_write, server_refuse, server_reply.
  by repeat case_match.
Qed.

Lemma isdu_mc_bits (read : bool) flowctrl : 0 ≤ flowctrl < 32 →
  let mc := isdu_mc read flowctrl in
  (mc =? 0x55) = false ∧ Z.land mc 0x60 = 0x60 ∧ negb (Z.land mc 0x80 =? 0) = read.
Proof.
  intros Hf. cbv zeta. rewrite isdu_mc_value by done. assert (is_u8 flowctrl) as Hu by (unfold is_u8; lia). revert Hf.
  destruct read; revert flowctrl Hu; refine (forall_u8_dec _ _); vm_compute; reflexivity.
Qed.

Lemma find_object_keeps {F} (f : fake_iolink_device_t → F) places index subindex :
  keeps f (find_object_from places index subindex).
Proof. induction places; keeps_deep. Qed.
Hint Resolve find_object_keeps : keeps.

Lemma on_master_ods_keeps ods :
  keeps (fun d => (fd_rx_queue d, fd_rx_pos d, fd_rx_len d, settings d)) (on_master_ods ods).
Proof. induction ods; cbn [on_master_ods]; keeps_deep. Qed.

Lemma on_master_ods_ok ods d : fake_ok d → Forall is_u8 ods →
  wp (on_master_ods ods) (fun _ d' => fake_ok d' ∧ fake_view d' = foldl server_feed (fake_view d) ods) d.
Proof.
  intros Hd Hu. revert d Hd. induction Hu as [|od ods Hod _ IH]; intros d Hd; [by apply wp_ret|].
  apply wp_bind. eapply wp_mono; [by apply on_master_od_ok|]. intros ? d' [Hd' Hv]. cbn [foldl]. rewrite <- Hv. by apply IH.
Qed.

(** A frame of an ISDU service. *)
Lemma isdu_send_ok (read : bool) flowctrl od d σ : fake_pending d [] → fake_stage LinkOperate (fake_core d) σ →
  0 ≤ flowctrl < 32 → Forall is_u8 od →
  let σ1 := if read then σ else foldl server_feed σ od in
  let answer := if read then sdci_answer (Z.to_nat od_len) σ1 else ([], σ1) in
  wp (fake_iolink_device_send (config_frame config (isdu_mc read flowctrl) od)) (fun r d' =>
    Forall is_u8 answer.1 ∧ r = zlen (config_frame config (isdu_mc read flowctrl) od) ∧
    fake_pending d' (reply_octets answer.1 (sv_pd_in σ) (event_flag (sv_event σ))) ∧
    fake_stage LinkOperate (fake_core d') answer.2) d.
Proof.
  intros Hp [] Hf Hu σ1 answer. pose proof (ok_core d (proj1 Hp) fs_ok0) as Hd.
  destruct (isdu_mc_bits read flowctrl Hf) as (H55 & H60 & H80).
  unfold config_frame, mseq_frame, fake_iolink_device_send.
  rewrite H55, andb_false_r, law_mc_channel, law_channel_diagnosis, law_channel_isdu, H60. cbn [Z.eqb Pos.eqb].
  apply wp_bind. unfold on_isdu. rewrite law_mc_rw, H80, law_header_len. change (drop (Z.to_nat 2) (?x :: ?y :: ?l)) with l.
  apply wp_bind. eapply (wp_mono _ (fun _ d1 => (fake_ok d1 ∧ fake_view d1 = σ1) ∧
    (fd_rx_queue d1, fd_rx_pos d1, fd_rx_len d1, settings d1) = (fd_rx_queue d, fd_rx_pos d, fd_rx_len d, settings d))).
  { apply wp_when; intros Hr; destruct read; try done.
    eapply wp_mono; [apply (wp_keeps (fun d1 => (fd_rx_queue d1, fd_rx_pos d1, fd_rx_len d1, settings d1)));
      [by apply on_master_ods_ok|]|].
    - apply on_master_ods_keeps.
    - intros ? d1 [[H1 H2] H3]. split; [|done]. split; [done|]. rewrite H2. unfold σ1. by rewrite <- fs_view0. }
  intros ? d1 [[Hd1 Hv1] Hk]. injection Hk as Hq Hpos Hlen Hs1 Hs2 Hs3. apply wp_bind, wp_get.
  assert (fd_link_state d1 = FAKE_LINK_OPERATE) as Hl1 by (rewrite Hs1; exact fs_link0). rewrite Hl1, Z.eqb_refl.
  eapply wp_mono.
  { apply (operate_reply_stage read d1 σ1); [|done|done|].
    - unfold fake_pending. by rewrite Hq, Hpos, Hlen.
    - unfold settings. cbn in *. congruence. }
  change (if read then sdci_answer (Z.to_nat od_len) σ1 else ([], σ1)) with answer.
  assert (sv_pd_in σ1 = sv_pd_in σ ∧ sv_event σ1 = sv_event σ) as [-> ->].
  { unfold σ1. destruct read; [done|]. apply server_feed_image. }
  intros ? d' (Hau & Hp' & Hst). by apply wp_ret.
Qed.

#[local] Instance fake_isdu : cfg_pd_out_len config = 0 →
  IsduLaws config fake_iolink_device_t fake_iolink_device_t server.
Proof.
  intros H0. split; [exact fake_view_fits|..]; intros d σ flowctrl pd; [intros od|]; intros Hp Hst Hf Hpl _.
  - intros _ Hu. assert (pd = []) as -> by (apply nil_zlen; lia). cbn [app]. apply replies_wp.
    eapply wp_mono; [by apply (isdu_send_ok false flowctrl od d σ)|]. by intros r d' (_ & ? & ? & ?).
  - assert (pd = []) as -> by (apply nil_zlen; lia). 
    pose proof (isdu_send_ok true flowctrl [] d σ Hp Hst Hf ltac:(constructor)) as H.
    split; [by apply wp_inv in H as (? & ? & _ & ? & _)|]. apply replies_wp.
    eapply wp_mono; [exact H|]. by intros r d' (_ & ? & ? & ?).
Qed.

(** ** A write and a read *)

Lemma server_answer_all σ : sdci_answer (length (sv_response σ)) σ = (sv_response σ, σ <| sv_response := [] |>).
Proof.
  destruct σ as [store request response pd event memory]. cbn [sv_response set].
  revert store request pd event memory. induction response as [|od response IH]; intros; [done|].
  cbn [length sdci_answer]. change (sdci_next _) with (od, {| sv_store := store; sv_request := request;
    sv_response := response; sv_pd_in := pd; sv_event := event; sv_memory := memory |}). cbn [fst snd]. by rewrite IH.
Qed.

Lemma server_answer_keeps k σ : sv_request (sdci_answer k σ).2 = sv_request σ ∧ sv_store (sdci_answer k σ).2 = sv_store σ.
Proof.
  revert σ. induction k as [|k IH]; intros σ; [done|]. cbn [sdci_answer fst snd].
  destruct (IH (sdci_next σ).2) as [-> ->]. cbn. unfold server_next. by destruct (sv_response σ).
Qed.

(** The port and the device between two services. *)
Definition ready w σ : Prop :=
  calm config IOLINK_MASTER_STATE_OPERATE (w_port w) ∧ isdu_free (p_isdu (w_port w)) ∧
  device_in (w_io w) [] LinkOperate σ.

Context (Hbare : hookless config) (Htype : cfg_m_seq_type config ≠ IOLINK_MASTER_M_SEQ_TYPE_0).
Context (Hod1 : od_len = 1) (Hout : cfg_pd_out_len config = 0) {codec : CodecLaws IO}.

(** A service whose request the server answers with a positive response. *)
Lemma fake_serves {B} (status : B → Z) call id request service payload (Q : B → Prop) rounds fuel w σ :
  SessionIsdu.service wire_phy config status call id request (Payload payload) Q →
  request ≠ [] → ready w σ → 0 < service < 16 → service ≠ 4 → service ≠ 12 → isdu_body_fits payload →
  zlen payload + 3 ≤ IOLINK_ISDU_BUFFER_SIZE → Forall is_u8 payload →
  let σ' := foldl server_feed σ request in
  sv_response σ' = isdu_encode service payload → fuel_ok config fuel →
  (length request + length (isdu_encode service payload) ≤ rounds)%nat →
  wp (serve rounds fuel status call) (fun r w' => Q r ∧
    ∃ σ2, ready w' σ2 ∧ sv_store σ2 = sv_store σ' ∧ sv_request σ2 = sv_request σ') w.
Proof.
  intros Hs Hne (Hc & Hfree & Hd) H0 H4 H12 Hfit HB Hu σ' Hr Hf Hrounds.
  pose proof (fake_isdu Hout) as Hisdu.
  assert (sdci_request od_len request σ = σ') as Hreq.
  { unfold sdci_request, request_frames. rewrite Hod1. replace (zlen request + 1 - 1) with (zlen request) by lia.
    rewrite Z.div_1_r, Z.mul_1_r, Z.sub_diag. change (zeros 0) with (@nil Z). by rewrite app_nil_r. }
  assert (request_frames (zlen request) od_len = zlen request) as Hn.
  { unfold request_frames. rewrite Hod1. replace (zlen request + 1 - 1) with (zlen request) by lia. apply Z.div_1_r. }
  eapply wp_mono.
  { apply (serve_ends config Hcfg Hbare Htype status call id request (Payload payload) Q Hs fuel Hf
      (length (isdu_encode service payload)) rounds w σ Hne Hc Hd Hfree).
    - rewrite Hreq, Hod1, Nat.mul_1_r, <- Hr, server_answer_all. cbn [fst]. rewrite Hr, <- (app_nil_r (isdu_encode _ _)).
      rewrite rx_fold_pdu by by apply isdu_encode_pdu. by rewrite isdu_encode_decode.
    - rewrite Hn. unfold zlen. lia. }
  intros r w' (HQ & Hc' & Hf' & k & _ & Hd'). split; [done|]. rewrite Hreq in Hd'. eexists. split; [by split|].
  destruct (server_answer_keeps (k * Z.to_nat od_len) σ') as [-> ->]. done.
Qed.

Lemma encode_length service body : (length (isdu_encode service body) ≤ length body + 3)%nat.
Proof. unfold isdu_encode, isdu_header. rewrite !length_app. case_match; cbn; lia. Qed.

(** Writing and reading an object of the store. *)
Lemma fake_writes index subindex data store rounds fuel w σ :
  ready w σ → sv_request σ = [] → store_put (sv_store σ) index subindex data = Some store →
  is_u16 index → is_u8 subindex → Forall is_u8 data →
  zlen (index_octets index subindex) + zlen data + 2 ≤ 15 → zlen data ≤ u8 (IOLINK_ISDU_BUFFER_SIZE - 7) →
  fuel_ok config fuel → (20 ≤ rounds)%nat →
  wp (serve rounds fuel (fun r => r) (iolink_master_write_isdu PTR index subindex (Some data) (zlen data)))
    (fun r w' => r = IOLINK_MASTER_STATUS_OK ∧ ∃ σ2, ready w' σ2 ∧ sv_store σ2 = store ∧ sv_request σ2 = []) w.
Proof.
  intros Hr Hreq Hput Hi Hs Hu Hn HB Hf Hrounds. pose proof law_isdu_buffer. pose proof (zlen_nonneg data).
  destruct (index_len_octets index subindex Hi Hs) as (_ & Hl & _).
  pose proof (server_takes_request σ 0 index subindex data (or_introl eq_refl) Hi Hs Hu Hn Hreq) as Hw.
  cbn [Z.eqb] in Hw. rewrite Z.add_0_l in Hw. fold (write_request index subindex data) in Hw.
  unfold server_write, FAKE_IOLINK_DEVICE_OBJECT_MAX_LEN in Hw. rewrite (proj2 (Z.ltb_ge _ _)), Hput in Hw by lia.
  eapply wp_mono.
  { apply (fake_serves (fun r => r) (iolink_master_write_isdu PTR index subindex (Some data) (zlen data))
      (IOLINK_MASTER_ISDU_OP_WRITE, index, subindex) (write_request index subindex data) 5 []
      (write_result (Payload [])) rounds fuel w σ); try done.
    - apply write_service; try done; [lia|]. split; [done|]. left. lia.
    - unfold write_request, isdu_encode, isdu_header. by case_match.
    - rewrite zlen_nil. lia.
    - by rewrite Hw.
    - pose proof (encode_length (zlen (index_octets index subindex)) (index_octets index subindex ++ data)) as Hle.
      rewrite length_app in Hle. unfold write_request, zlen in *. change (length (isdu_encode 5 [])) with 2%nat. lia. }
  intros r w' (-> & σ2 & Hr2 & Hst2 & Hreq2). rewrite Hw in Hst2, Hreq2.
  split; [by unfold outcome_error; rewrite Z.eqb_refl|]. exists σ2. split; [done|]. by rewrite Hst2, Hreq2.
Qed.

(** A service that reads an object of the store. *)
Lemma fake_answers_read {B} (status : B → Z) call (Q : B → Prop) index subindex data rounds fuel w σ :
  SessionIsdu.service wire_phy config status call (IOLINK_MASTER_ISDU_OP_READ, index, subindex)
    (read_request index subindex) (Payload data) Q →
  ready w σ → sv_request σ = [] → store_get (sv_store σ) index subindex = Some data →
  is_u16 index → is_u8 subindex → Forall is_u8 data → zlen data ≤ 16 →
  fuel_ok config fuel → (30 ≤ rounds)%nat →
  wp (serve rounds fuel status call) (fun r w' => Q r ∧ ∃ σ2, ready w' σ2) w.
Proof.
  intros Hservice Hr Hreq Hget Hi Hs Hu H16 Hf Hrounds. pose proof law_isdu_buffer. pose proof (zlen_nonneg data).
  destruct (index_len_octets index subindex Hi Hs) as (_ & Hl & _).
  pose proof (server_takes_request σ 8 index subindex [] (or_intror eq_refl) Hi Hs (Forall_nil_2 _)) as Hrd.
  cbv zeta in Hrd. rewrite app_nil_r in Hrd. specialize (Hrd ltac:(rewrite zlen_nil; lia) Hreq).
  fold (read_request index subindex) in Hrd. cbn [Z.eqb Pos.eqb] in Hrd. unfold server_read in Hrd. rewrite Hget in Hrd.
  eapply wp_mono.
  { apply (fake_serves status call (IOLINK_MASTER_ISDU_OP_READ, index, subindex) (read_request index subindex) 13 data
      Q rounds fuel w σ); try done.
    - apply read_request_ne.
    - unfold isdu_body_fits. lia.
    - lia.
    - by rewrite Hrd.
    - pose proof (encode_length (8 + zlen (index_octets index subindex)) (index_octets index subindex)).
      pose proof (encode_length 13 data). unfold read_request, zlen in *. lia. }
  intros r w' (HQ & σ2 & Hr2 & _). split; [done|]. by exists σ2.
Qed.

Lemma fake_reads index subindex data buffer rounds fuel w σ :
  ready w σ → sv_request σ = [] → store_get (sv_store σ) index subindex = Some data →
  is_u16 index → is_u8 subindex → Forall is_u8 data → zlen data ≤ 16 → zlen data ≤ zlen buffer ≤ 255 →
  fuel_ok config fuel → (30 ≤ rounds)%nat →
  wp (serve rounds fuel (fun r => r.1.1)
        (iolink_master_read_isdu PTR index subindex (Some buffer) (Some (zlen buffer))))
    (fun r w' => r = (IOLINK_MASTER_STATUS_OK, Some (data ++ drop (length data) buffer), Some (zlen data)) ∧
      ∃ σ2, ready w' σ2) w.
Proof.
  intros Hr Hreq Hget Hi Hs Hu H16 Hbuf Hf Hrounds. pose proof (zlen_nonneg data).
  apply (fake_answers_read _ _ (read_result buffer (zlen buffer) (Payload data)) index subindex data rounds fuel w σ);
    try done. apply read_service; try done; [unfold is_u8; lia|lia].
Qed.

(** From power-on to OPERATE. *)
Lemma fake_brought_up fuel σ w :
  cfg_port_mode config = IOLINK_MASTER_PORT_MODE_IOLINK →
  iolink_master_startup_validation_required config = false →
  w_io w = [] → fake_pending setup [] → fake_stage LinkReady (fake_core setup) σ → fuel_ok config fuel →
  wp (bring_up fuel fake_iolink_device_phy config) (fun _ w' => ready w' σ) w.
Proof.
  intros Hmode Hval Hio Hpend Hst Hf. pose proof (od_len_range config). eapply wp_mono.
  { apply (bring_up_connects (wire := fake_wire) (dev := fake_sdci) (slaws := fake_startup) config Hcfg Hbare fuel w σ Hmode Hval).
    - exists setup. rewrite Hio. split; [reflexivity|]. by split.
    - unfold fuel_ok in Hf. lia. }
  intros ? w1 (_ & Hc1 & Hf1 & _ & Hd1). by split.
Qed.

(** Power-on, a write, a read of the same parameter. *)
Definition write_then_read (fuel : nat) (index subindex : Z) (data buffer : list Z)
    : M world (Z * (Z * option (list Z) * option Z)) :=
  bring_up fuel fake_iolink_device_phy config;;
  written ← serve 32 fuel (fun r => r) (iolink_master_write_isdu PTR index subindex (Some data) (zlen data));
  result ← serve 32 fuel (fun r => r.1.1)
    (iolink_master_read_isdu PTR index subindex (Some buffer) (Some (zlen buffer)));
  mret (written, result).

(** C7: a parameter written over the wire is read back over the wire. The simulated device,
    set up for the port and with a place left for the object, is brought to OPERATE from
    power-on; then a write of any data whose length fits the nibble of the I-Service
    returns OK, and a read of the same Index and Subindex returns OK and exactly the data
    written, each within the frames of its request and of the response. *)
Theorem fake_device_write_then_read index subindex data buffer fuel σ w :
  cfg_port_mode config = IOLINK_MASTER_PORT_MODE_IOLINK →
  iolink_master_startup_validation_required config = false →
  w_io w = [] → fake_pending setup [] → fake_stage LinkReady (fake_core setup) σ →
  sv_request σ = [] → zlen (sv_store σ) < FAKE_IOLINK_DEVICE_OBJECT_MAX_COUNT →
  is_u16 index → is_u8 subindex → Forall is_u8 data →
  zlen (index_octets index subindex) + zlen data + 2 ≤ 15 → zlen data ≤ u8 (IOLINK_ISDU_BUFFER_SIZE - 7) →
  zlen data ≤ zlen buffer ≤ 255 → fuel_ok config fuel →
  wp (write_then_read fuel index subindex data buffer) (fun r w' =>
    r = (IOLINK_MASTER_STATUS_OK,
         (IOLINK_MASTER_STATUS_OK, Some (data ++ drop (length data) buffer), Some (zlen data))) ∧
    p_state (w_port w') = IOLINK_MASTER_STATE_OPERATE) w.
Proof.
  intros Hmode Hval Hio Hpend Hst Hreq Hstore Hi Hs Hu Hn HB Hbuf Hf.
  pose proof (zlen_nonneg (index_octets index subindex)).
  apply wp_bind. eapply wp_mono; [by apply fake_brought_up|]. intros ? w1 Hr1.
  destruct (store_put_room (sv_store σ) index subindex data) as [store Hput]; [by right|].
  apply wp_bind. eapply wp_mono; [by apply (fake_writes index subindex data store 32 fuel w1 σ); [..|lia]|].
  intros written w2 (-> & σ2 & Hr2 & Hst2 & Hreq2).
  apply wp_bind. eapply wp_mono.
  { apply (fake_reads index subindex data buffer 32 fuel w2 σ2 Hr2 Hreq2); try done; [|lia..].
    rewrite Hst2. by eapply store_get_put. }
  intros result w3 (-> & σ3 & ([_ Hs3 _ _ _] & _)). by apply wp_ret.
Qed.
End adapter.
