(* ===== verification/Identification.v ===== *)
(** * Device identification over the wire

    [iolink_master_read_device_info] as a service: repeated until it no longer reports
    PENDING it ends with the device information that Direct Parameter page 1 of the device
    encodes and the verdict of the validation. A simulated device set up with
    [fake_iolink_device_set_direct_parameter_page1] is identified as what it was set up
    to be. *)

From S2P Require Import Prelude Iolinki Reference Types Fixtures Parameters Isdu IsduResponse IsduRequest IsduService Services DataStorage Events EventReadout Hal Transmit Port PortInvariant PortServices ParameterBlock PortSafety PortCalls PortTransitions Carrier PortLink PortExchange IsduFrames Adapter DeviceContract Session SessionIsdu OverTheWire FakeDevice FakeServer FakeRefinement FakeSession.

(** The call, and what the port knows of the device after it. *)
Definition identify {IO : Iolinki} : M iolink_master_port_state_t (Z * (Z * option iolink_master_device_info_t)) :=
  ret ← iolink_master_read_device_info PTR;
  port ← get;
  mret (ret, iolink_master_get_device_info (Some port) (Some device_info_zero)).

Lemma parse_page1_wp {IO : Iolinki} page info :
  zlen page = IOLINK_MASTER_DPP1_LEN → Forall is_u8 page → page_reserved page = false →
  wp (iolink_master_parse_direct_parameter_page1 (Some page) (zlen page) PTR)
    (fun r info' => r = IOLINK_MASTER_STATUS_OK ∧ info' = page_info page) info.
Proof.
  unfold IOLINK_MASTER_DPP1_LEN. intros Hl Hu Hr. unfold wp.
  rewrite parse_page1_ok, Hr by first [by apply Forall_take, Forall_drop|lia]. done.
Qed.

Lemma validate_concludes info config : di_valid info = true →
  iolink_master_validate_config_against_device_info (Some info) (Some config) ≠ IOLINK_MASTER_STATUS_PENDING.
Proof.
  intros Hv. unfold iolink_master_validate_config_against_device_info. rewrite Hv. cbn [negb]. by repeat case_match.
Qed.

Section service.
Context {IO : Iolinki} {laws : IolinkiLaws IO}.
Context (phy : iolink_phy_api_t) (config : iolink_master_config_t).

(** The end of an identification with the page [page]. *)
Definition identification (page : list Z) (r : Z * (Z * option iolink_master_device_info_t)) : Prop :=
  r = (iolink_master_validate_config_against_device_info (Some (page_info page)) (Some config),
       (IOLINK_MASTER_STATUS_OK, Some (page_info page))).

Lemma identify_service page : zlen page = IOLINK_MASTER_DPP1_LEN → Forall is_u8 page → page_reserved page = false →
  service phy config fst identify (IOLINK_MASTER_ISDU_OP_READ, IOLINK_IDX_DIRECT_PARAMETERS_1, 0)
    (read_request IOLINK_IDX_DIRECT_PARAMETERS_1 0) (Payload page) (identification page).
Proof.
  intros Hl Hu Hr. pose proof law_idx_dpp1 as Hix. pose proof Hl as Hl'. unfold IOLINK_MASTER_DPP1_LEN in Hl'.
  assert (is_u8 0) as H0 by done. split.
  - intros p Hp. apply wp_bind. eapply wp_mono; [by apply read_device_info_psafe|]. intros. apply wp_bind, wp_get.
    by apply wp_ret.
  - keeps_deep.
  - intros p Hst Hf. apply wp_bind, wp_bind, wp_bind.
    eapply wp_mono; [by apply read_isdu_starts; [left|..]|]. intros r p' (-> & isdu & -> & Hready).
    apply wp_ret. cbn [default]. apply wp_ret, wp_bind, wp_get, wp_ret. done.
  - intros p Hst Hop Hdone [= Hrd Hi Hs]. apply wp_bind, wp_bind, wp_bind, wp_bind, wp_get.
    rewrite acyclic_guard by (by left). unfold iolink_master_isdu_busy, iolink_master_isdu_matches.
    rewrite Hdone, Hrd, Hi, Hs, !Z.eqb_refl, bool_decide_false, bool_decide_true by done.
    by apply wp_ret, wp_ret, wp_ret, wp_bind, wp_get, wp_ret.
  - intros p Hok Hst Hx [= Hrd Hi Hs]. apply wp_bind, wp_bind, wp_bind.
    pose proof (zlen_zeros IOLINK_MASTER_DPP1_LEN ltac:(done)) as Hz.
    eapply wp_mono.
    { apply wp_and; [|apply (read_isdu_psafe phy config); first [done|unfold is_u8, IOLINK_MASTER_DPP1_LEN in *; lia]].
      apply (read_isdu_finishes p IOLINK_IDX_DIRECT_PARAMETERS_1 0 (zeros IOLINK_MASTER_DPP1_LEN) IOLINK_MASTER_DPP1_LEN page);
        first [done|by left|lia]. }
    intros r p' [(-> & Hf & _) Hok']. apply wp_ret. cbn [default]. cbn [negb Z.eqb IOLINK_MASTER_STATUS_OK].
    assert (drop (length page) (zeros IOLINK_MASTER_DPP1_LEN) = []) as ->.
    { apply drop_ge. unfold zlen, IOLINK_MASTER_DPP1_LEN in *. cbn. lia. }
    rewrite app_nil_r. apply wp_bind, wp_zoom. eapply wp_mono; [by apply parse_page1_wp|]. intros ? info [-> ->].
    apply wp_bind, wp_get, wp_ret, wp_bind, wp_get, wp_ret.
    split; [by apply validate_concludes|]. split; [|exact Hf]. unfold identification. by rewrite <- (ok_config _ _ _ Hok').
Qed.
End service.

(** ** The simulated device *)

(** A device whose first page is set up this way. *)
Definition device_page (min_cycle cap pd_in pd_out vendor_id device_id : Z) : list Z :=
  [0; 0; min_cycle; cap; 0x11; pd_in; pd_out; vendor_id / 256; vendor_id mod 256;
   device_id / 65536 mod 256; device_id / 256 mod 256; device_id mod 256; 0; 0; 0; 0].

Section device.
Context {IO : Iolinki} {laws : IolinkiLaws IO} {codec : CodecLaws IO} {DC : IolinkiDevice} {dlaws : IolinkiDeviceLaws DC}.

Lemma set_isdu_object_ok index subindex data d : fake_ok d → Forall is_u8 data →
  0 < zlen data ≤ FAKE_IOLINK_DEVICE_OBJECT_MAX_LEN →
  (find_from 0 (sv_store (fake_view d)) index subindex ≠ None ∨
   zlen (sv_store (fake_view d)) < FAKE_IOLINK_DEVICE_OBJECT_MAX_COUNT) →
  wp (fake_iolink_device_set_isdu_object index subindex data (zlen data)) (fun _ d' => fake_ok d' ∧
    ∃ store, store_put (sv_store (fake_view d)) index subindex data = Some store ∧
    fake_view d' = fake_view d <| sv_store := store |>) d.
Proof.
  intros Hd Hu Hl Hroom. unfold fake_iolink_device_set_isdu_object.
  rewrite (proj2 (Z.eqb_neq _ _)), (proj2 (Z.ltb_ge _ _)) by lia. cbn [orb].
  apply wp_bind. eapply wp_mono; [by apply (find_or_create_ok index subindex data)|]. intros [k|] d'.
  - intros ((o & Ho & Hok & Hi & Hs) & _ & Hput).
    destruct (store_object_ok o data (zlen data) Hok Hu eq_refl) as (o' & Hst & Hok' & Hv & He).
    { unfold FAKE_IOLINK_DEVICE_OBJECT_MAX_LEN in Hl. lia. }
    eapply change_object_ok; [exact Ho|exact Hst|]. rewrite Hi, Hs in He. by apply Hput.
  - intros [-> Hnone]. destruct (store_put_room _ index subindex data Hroom). congruence.
Qed.

#[local] Hint Resolve find_object_keeps : keeps.

Lemma set_page1_keeps min_cycle cap pd_in pd_out vendor_id device_id :
  keeps (fun d => (fd_rx_queue d, fd_rx_pos d, fd_rx_len d, settings d))
    (fake_iolink_device_set_direct_parameter_page1 min_cycle cap pd_in pd_out vendor_id device_id).
Proof. unfold fake_iolink_device_set_direct_parameter_page1. cbv zeta. keeps_deep. Qed.

(** The octets of the page. *)
Lemma device_page_octets vendor_id device_id : is_u16 vendor_id → is_u32 device_id →
  u8 (Z.shiftr vendor_id 8) = vendor_id / 256 ∧ u8 (Z.land vendor_id 0xFF) = vendor_id mod 256 ∧
  u8 (Z.land (Z.shiftr device_id 16) 0xFF) = device_id / 65536 mod 256 ∧
  u8 (Z.land (Z.shiftr device_id 8) 0xFF) = device_id / 256 mod 256 ∧
  u8 (Z.land device_id 0xFF) = device_id mod 256.
Proof.
  unfold is_u16, is_u32, u8. intros Hv Hd. change 0xFF with (Z.ones 8).
  rewrite !Z.land_ones, !Z.shiftr_div_pow2 by lia.
  change (2 ^ 8) with 256. change (2 ^ 16) with 65536. rewrite !Zmod_mod.
  split_and!; try done. apply Z.mod_small. split; [apply Z.div_pos|apply Z.div_lt_upper_bound]; lia.
Qed.

Lemma device_id_octets id :
  id / 65536 mod 256 * 65536 + id / 256 mod 256 * 256 + id mod 256 = id mod 2 ^ 24.
Proof.
  change (2 ^ 24) with (256 * (256 * 256)). rewrite Z.rem_mul_r, (Z.rem_mul_r (id / 256)), Z.div_div by lia.
  change (256 * 256) with 65536. lia.
Qed.

Lemma device_page_u8 min_cycle cap pd_in pd_out vendor_id device_id :
  is_u8 min_cycle → is_u8 cap → is_u8 pd_in → is_u8 pd_out → is_u16 vendor_id →
  Forall is_u8 (device_page min_cycle cap pd_in pd_out vendor_id device_id).
Proof.
  unfold is_u16, is_u8, device_page. intros.
  repeat apply Forall_cons_2; try apply Forall_nil_2; try lia; try (apply Z.mod_pos_bound; lia).
  split; [apply Z.div_pos|apply Z.div_lt_upper_bound]; lia.
Qed.

Lemma set_page1_ok min_cycle cap pd_in pd_out vendor_id device_id d : fake_ok d →
  is_u8 min_cycle → is_u8 cap → is_u8 pd_in → is_u8 pd_out → is_u16 vendor_id → is_u32 device_id →
  (find_from 0 (sv_store (fake_view d)) IOLINK_IDX_DIRECT_PARAMETERS_1 0 ≠ None ∨
   zlen (sv_store (fake_view d)) < FAKE_IOLINK_DEVICE_OBJECT_MAX_COUNT) →
  wp (fake_iolink_device_set_direct_parameter_page1 min_cycle cap pd_in pd_out vendor_id device_id) (fun _ d' =>
    fake_ok d' ∧ ∃ store, fake_view d' = fake_view d <| sv_store := store |> ∧
    store_get store IOLINK_IDX_DIRECT_PARAMETERS_1 0 =
      Some (device_page min_cycle cap pd_in pd_out vendor_id device_id)) d.
Proof.
  intros Hd Hm Hc Hpi Hpo Hv Hdi Hroom. unfold fake_iolink_device_set_direct_parameter_page1. cbv zeta.
  destruct (device_page_octets vendor_id device_id Hv Hdi) as (-> & -> & -> & -> & ->).
  change (zeros 16) with (replicate 16 0). repeat (apply wp_bind; eapply wp_mem; [reflexivity|]; cbv beta).
  eapply wp_mono; [apply set_isdu_object_ok; [done| |by split|exact Hroom]|].
  { by apply (device_page_u8 min_cycle cap pd_in pd_out vendor_id device_id). }
  intros ? d' (Hok & store & Hput & Hview). split; [done|]. exists store. split; [done|]. by eapply store_get_put.
Qed.

(** The device after it has been set up. *)
Lemma set_page1_stage config min_cycle cap pd_in pd_out vendor_id device_id d σ :
  fake_pending d [] → fake_stage config LinkReady (fake_core d) σ →
  is_u8 min_cycle → is_u8 cap → is_u8 pd_in → is_u8 pd_out → is_u16 vendor_id → is_u32 device_id →
  (find_from 0 (sv_store σ) IOLINK_IDX_DIRECT_PARAMETERS_1 0 ≠ None ∨
   zlen (sv_store σ) < FAKE_IOLINK_DEVICE_OBJECT_MAX_COUNT) →
  let setup := final (fake_iolink_device_set_direct_parameter_page1 min_cycle cap pd_in pd_out vendor_id device_id) d in
  fake_pending setup [] ∧ ∃ σ', fake_stage config LinkReady (fake_core setup) σ' ∧ sv_request σ' = sv_request σ ∧
    store_get (sv_store σ') IOLINK_IDX_DIRECT_PARAMETERS_1 0 =
      Some (device_page min_cycle cap pd_in pd_out vendor_id device_id).
Proof.
  intros Hp [Hok Hview Hlink Hod Hpd] Hm Hc Hpi Hpo Hv Hdi Hroom setup.
  pose proof (ok_core d (proj1 Hp) Hok) as Hd. subst σ. pattern setup. apply wp_final. eapply wp_mono.
  { apply (wp_keeps (fun d => (fd_rx_queue d, fd_rx_pos d, fd_rx_len d, settings d)));
      [by apply set_page1_ok|apply set_page1_keeps]. }
  intros ? d' [(Hd' & store & Hv' & Hget) Hk]. injection Hk as Hq Hrp Hrl Hs1 Hs2 Hs3.
  unfold fake_pending. rewrite Hq, Hrp, Hrl. split; [exact Hp|]. exists (fake_view d'). split.
  - split; [by apply core_ok|done|..]; cbn in *; congruence.
  - rewrite Hv'. by split.
Qed.

(** Power-on and identification. *)
Definition bring_up_and_identify (setup : fake_iolink_device_t) (config : iolink_master_config_t) (fuel : nat)
    : M world (Z * (Z * option iolink_master_device_info_t)) :=
  bring_up fuel (fake_iolink_device_phy setup) config;;
  serve 32 fuel fst identify.

(** C17: a device is identified as what it was set up to be. A simulated device whose Direct
    Parameter page 1 is set up with any cycle time, M-sequence capability, ProcessData
    descriptors, VendorID and DeviceID is brought to OPERATE from power-on; then
    [iolink_master_read_device_info] ends within the frames of the request and of the
    response, with the verdict of the validation against the configuration of the port, and
    [iolink_master_get_device_info] returns the values the device was set up with: VendorID
    and the low 24 bits of DeviceID, the cycle time and the process data lengths Annex B
    assigns to the octets. *)
Theorem fake_device_identified config min_cycle cap pd_in pd_out vendor_id device_id fuel d σ w :
  config_ok config → hookless config → cfg_m_seq_type config ≠ IOLINK_MASTER_M_SEQ_TYPE_0 →
  iolink_master_od_len_for_type (cfg_m_seq_type config) = 1 → 1 + cfg_pd_in_len config < 16 →
  cfg_pd_out_len config = 0 → cfg_port_mode config = IOLINK_MASTER_PORT_MODE_IOLINK →
  iolink_master_startup_validation_required config = false → fuel_ok config fuel →
  w_io w = [] → fake_pending d [] → fake_stage config LinkReady (fake_core d) σ → sv_request σ = [] →
  zlen (sv_store σ) < FAKE_IOLINK_DEVICE_OBJECT_MAX_COUNT →
  is_u8 min_cycle → is_u8 cap → is_u8 pd_in → is_u8 pd_out → is_u16 vendor_id → is_u32 device_id →
  pd_reserved_spec pd_in = false → pd_reserved_spec pd_out = false →
  let setup := final (fake_iolink_device_set_direct_parameter_page1 min_cycle cap pd_in pd_out vendor_id device_id) d in
  wp (bring_up_and_identify setup config fuel) (fun r w' => ∃ info,
    r = (iolink_master_validate_config_against_device_info (Some info) (Some config),
         (IOLINK_MASTER_STATUS_OK, Some info)) ∧
    di_vendor_id info = vendor_id ∧ di_device_id info = device_id mod 2 ^ 24 ∧ di_revision_id info = 0x11 ∧
    di_min_cycle_time_100us info = min_cycle_time_spec min_cycle ∧
    di_isdu_supported info = Z.odd cap ∧ di_operate_mseq_code info = cap / 2 mod 8 ∧
    di_pd_in_len info = pd_octets_spec pd_in ∧ di_pd_out_len info = pd_octets_spec pd_out ∧
    p_state (w_port w') = IOLINK_MASTER_STATE_OPERATE) w.
Proof.
  intros Hcfg Hbare Htype Hod Hpdin Hout Hmode Hval Hf Hio Hp Hst Hreq Hstore Hm Hc Hpi Hpo Hv Hdi Hr1 Hr2 setup.
  destruct (set_page1_stage config min_cycle cap pd_in pd_out vendor_id device_id d σ) as (Hp' & σ' & Hst' & Hreq' & Hget);
    try done; [by right|]. fold setup in Hp', Hst'.
  set (page := device_page min_cycle cap pd_in pd_out vendor_id device_id) in *.
  assert (Forall is_u8 page) as Hu by by apply device_page_u8.
  assert (iolink_master_od_len_for_type (cfg_m_seq_type config) + cfg_pd_in_len config < 16) as Hroom by lia.
  apply wp_bind. eapply wp_mono; [by apply (fake_brought_up setup config Hcfg Hbare Hod fuel σ')|].
  intros ? w1 Hr. eapply wp_mono.
  { apply (fake_answers_read setup config Hcfg Hroom Hbare Htype Hod Hout fst identify (identification config page)
      IOLINK_IDX_DIRECT_PARAMETERS_1 0 page 32 fuel w1 σ'); try done; [|congruence|apply law_idx_dpp1|lia].
    apply identify_service; try done. unfold page_reserved. cbn. by rewrite Hr1, Hr2. }
  intros r w2 (-> & σ2 & [_ Hs2 _ _ _] & _). exists (page_info page). split; [done|]. cbn [page_info dpp1_spec].
  split; [cbn; pose proof (Z.div_mod vendor_id 256); lia|].
  split; [|by split_and!]. cbn. apply device_id_octets.
Qed.
End device.
