(* ===== verification/FakeEvents.v ===== *)
(** * Events of the simulated device

    The device of [FakeDevice] keeps the contract of an event readout: a diagnosis read
    returns octets of its event memory, the confirmation clears its event flag. A device
    set up with events reports them over the wire. *)

From S2P Require Import Prelude Iolinki Reference Types Fixtures Parameters Isdu IsduResponse IsduRequest IsduService Services DataStorage Events EventReadout Hal Transmit Port PortInvariant PortServices ParameterBlock PortSafety PortCalls PortTransitions Carrier PortLink PortExchange IsduFrames EventFrames Adapter DeviceContract Session SessionIsdu OverTheWire EventSession FakeDevice FakeServer FakeRefinement FakeSession.

#[export] Instance fake_events : EventDevice server := {|
  sdci_memory := sv_memory;
  sdci_confirmed := fun σ => σ <| sv_event := false |>;
|}.

Section device.
Context {IO : Iolinki} {laws : IolinkiLaws IO} {DC : IolinkiDevice} {dlaws : IolinkiDeviceLaws DC}.
Implicit Types (d : fake_iolink_device_t) (σ : server).

Lemma event_octet_ok addr d :
  0 ≤ addr < 256 → zlen (fd_event_memory d) = 19 →
  wp (fake_iolink_device_event_memory_octet (u8 addr)) (fun v d' => v = octet (fd_event_memory d) addr ∧ d' = d) d.
Proof.
  intros Ha Hl. rewrite u8_small by done. apply wp_bind, wp_get.
  apply wp_if; intros Hlt; norm_bool.
  - eapply wp_mem; [by apply rd_octet|done].
  - apply wp_ret. split; [|done]. unfold octet. by rewrite rd_lookup, lookup_ge_None_2 by (unfold zlen in *; lia).
Qed.

(** The octets of the event memory. *)
Lemma put_event_octets_ok n addr l d : filled l d → zlen (fd_event_memory d) = 19 →
  zlen l + Z.of_nat n < 16 → 0 ≤ addr → addr + Z.of_nat n ≤ 256 →
  wp (put_event_octets n (zlen l) addr) (fun pos d' =>
    pos = zlen l + Z.of_nat n ∧ filled (l ++ memory_octets (fd_event_memory d) addr (Z.of_nat n)) d' ∧ same_core d d') d.
Proof.
  revert addr l d. induction n as [|n IH]; intros addr l d Hf Hl Hn Ha Hb; cbn [put_event_octets].
  - apply wp_ret. rewrite app_nil_r. split; [lia|]. split; [done|]. exists (fd_rx_queue d). by destruct d.
  - pose proof (zlen_nonneg l). apply wp_bind. eapply wp_mono; [apply event_octet_ok; [lia|done]|].
    intros v ? [-> ->]. apply wp_bind. eapply wp_mono; [apply put_rx_ok; [done|lia]|].
    intros ? d1 [H1 [q ->]]. set (v := octet _ addr) in *. rewrite u8_small by (unfold is_u8; lia).
    replace (zlen l + 1) with (zlen (l ++ [v])) by slia.
    eapply wp_mono; [apply IH; [done|done|slia|lia|lia]|]. cbn [fd_event_memory set].
    intros pos d2 (-> & H2 & Hs2). split; [slia|]. rewrite <- app_assoc in H2.
    split; [|by eapply same_core_trans; [eexists|]].
    unfold memory_octets. rewrite seqZ_cons by lia. replace (Z.pred (Z.of_nat (S n))) with (Z.of_nat n) by lia.
    by rewrite <- Z.add_1_r.
Qed.

Lemma diagnosis_read_ok addr d : fake_pending d [] → fake_ok d → 1 ≤ fd_od_len d →
  fd_od_len d + fd_pd_in_len d < 16 → 0 ≤ addr → addr + fd_od_len d ≤ 256 →
  let σ := fake_view d in
  wp (fake_iolink_device_queue_diagnosis_read addr (fd_od_len d)) (fun _ d' =>
    queued d (reply_octets (memory_octets (sv_memory σ) addr (fd_od_len d)) (sv_pd_in σ) (event_flag (sv_event σ))) σ d') d.
Proof.
  intros Hp Hd Hod Hroom Ha Hb σ. destruct (fk_memory _ Hd) as [Hml Hmu]. destruct (fk_pd _ Hd) as [Hv Hn].
  unfold fake_iolink_device_queue_diagnosis_read. rewrite (proj2 (Z.eqb_neq _ 0)) by lia. cbv zeta.
  apply wp_bind. eapply wp_mono; [by apply queue_begin_ok|]. intros start d0 [-> ->].
  set (d0 := d <| fd_rx_pos := 0 |> <| fd_rx_len := 0 |>).
  assert (filled [] d0) as H0 by (split; [apply Hd|done]).
  apply wp_bind. eapply wp_mono; [apply (put_event_octets_ok _ addr [] d0 H0 Hml); rewrite ?zlen_nil; lia|].
  cbn [app fd_event_memory set]. rewrite Z2Nat.id by lia. intros pos d1 (-> & H1 & [q1 ->]).
  change (fd_event_memory d0) with (sv_memory σ) in *. set (od := memory_octets (sv_memory σ) addr (fd_od_len d)) in *.
  assert (zlen od = fd_od_len d) as Hodl by (apply memory_octets_length; lia).
  change (zlen (@nil Z)) with 0. rewrite Z.add_0_l, <- Hodl.
  apply wp_bind. eapply wp_mono; [apply put_pd_and_cks_ok; [done|done|done|cbn; lia]|].
  cbn [fd_pd_in_len fd_pd_in_value fd_event_pending set]. intros pos d2 (Hpos & H2 & [q2 ->]). apply wp_assign.
  pose proof (filled_slice _ _ H2) as Hs. destruct H2 as (Hq2 & Hp2 & Ht2). rewrite Hpos.
  match type of Hs with context [reply_octets ?a ?b ?c] => set (reply := reply_octets a b c) in * end.
  assert (0 ≤ zlen reply ≤ 16) as Hz.
  { pose proof (f_equal length Ht2) as Hl. rewrite length_take in Hl. unfold zlen in *. cbn in *. lia. }
  split; [split; [done|]; cbn; rewrite u8_small, Z.sub_0_r by (unfold is_u8; lia); exact Hs|].
  split; [|done]. destruct Hd. by split.
Qed.

Lemma event_mc_bits (read : bool) addr : 0 ≤ addr < 32 →
  let mc := event_mc read addr in
  Z.land mc 0x60 = 0x40 ∧ negb (Z.land mc 0x80 =? 0) = read ∧ u8 (Z.land mc 0x1F) = addr.
Proof.
  intros Hf. cbv zeta. rewrite event_mc_value by done. assert (is_u8 addr) as Hu by (unfold is_u8; lia). revert Hf.
  destruct read; revert addr Hu; refine (forall_u8_dec _ _); vm_compute; reflexivity.
Qed.

(** Setting the event memory. *)
Lemma put_event_memory_eq places memory d :
  put_event_memory places memory d =
    match ofold (fun m i => v ← rd memory (0 + i); wr m (0 + i) v) (fd_event_memory d) places with
    | Some m => Ok tt (d <| fd_event_memory := m |>)
    | None => Ub
    end.
Proof.
  revert d. induction places as [|i places IH]; intros d; cbn [put_event_memory ofold]; [by destruct d|].
  unfold put_event_octet, mbind, M_bind, get, assign, modify, mem. rewrite !Z.add_0_l.
  destruct (rd memory i) as [v|]; cbn; [|done]. destruct (wr (fd_event_memory d) i v) as [m|]; cbn; [|done].
  by rewrite IH.
Qed.

Lemma set_event_memory_ok memory d : zlen (fd_event_memory d) = 19 → zlen memory ≤ 19 →
  fake_iolink_device_set_event_memory memory (zlen memory) d =
    Ok tt (d <| fd_event_memory := memory ++ zeros (19 - zlen memory) |>).
Proof.
  intros Hd Hm. pose proof (zlen_nonneg memory). unfold fake_iolink_device_set_event_memory, mbind, M_bind, get, assign, modify.
  rewrite Hd, put_event_memory_eq. cbn [fd_event_memory set]. rewrite Z.min_l by lia.
  rewrite ofold_copy by (rewrite ?(zlen_zeros 19); lia). rewrite drop_0, take_ge by (unfold zlen; lia).
  replace (zeros 19) with ([] ++ zeros (zlen memory) ++ zeros (19 - zlen memory)).
  - change 0 with (zlen (@nil Z)). rewrite blit_app by (by rewrite zlen_zeros). done.
  - cbn [app]. unfold zeros. rewrite <- replicate_add. f_equal. lia.
Qed.

Section adapter.
(** The device as the test has set it up. *)
Context (setup : fake_iolink_device_t) (config : iolink_master_config_t) (Hcfg : config_ok config).
Notation od_len := (iolink_master_od_len_for_type (cfg_m_seq_type config)).
Context (Hroom : od_len + cfg_pd_in_len config < 16).

Lemma fake_event_laws : EventLaws (H := fake_wire setup) (H0 := fake_sdci setup config) config
  fake_iolink_device_t fake_iolink_device_t server.
Proof using Type*.
  pose proof (od_len_range config) as Hod. split.
  - exact (fake_view_fits config).
  - intros c σ [Hok <- _ _ _]. apply (fk_memory _ Hok).
  - intros d σ addr pd Hp [Hok Hv Hl Ho Hi] Ha _ _. pose proof (ok_core d (proj1 Hp) Hok) as Hd.
    apply replies_wp. destruct (event_mc_bits true addr) as (H60 & H80 & H1F).
    { unfold IOLINK_MASTER_EVENT_MEMORY_LEN in Ha. lia. }
    unfold config_frame, mseq_frame, fake_iolink_device_send.
    rewrite law_mc_channel, law_channel_diagnosis, H60, (proj2 (Z.eqb_neq _ 1)), Z.eqb_refl
      by (rewrite !zlen_cons; pose proof (zlen_nonneg pd); lia).
    cbn [andb]. apply wp_bind. unfold on_diagnosis. rewrite law_mc_rw, H80, law_mc_addr, H1F. apply wp_bind, wp_get.
    cbn in Ho, Hi. unfold IOLINK_MASTER_EVENT_MEMORY_LEN in Ha.
    eapply wp_mono; [apply diagnosis_read_ok; [done|done|lia..]|].
    intros ? d' Hq. apply wp_ret. split; [done|]. rewrite Ho in Hq. subst σ. by eapply queued_stage.
  - intros d σ pd Hp [Hok Hv Hl Ho Hi] _ _. pose proof (ok_core d (proj1 Hp) Hok) as Hd. exists []. split; [by left|].
    apply replies_wp. destruct (event_mc_bits false 0) as (H60 & H80 & _); [done|].
    unfold config_frame, mseq_frame, fake_iolink_device_send.
    rewrite law_mc_channel, law_channel_diagnosis, H60, (proj2 (Z.eqb_neq _ 1)), Z.eqb_refl
      by (rewrite !zlen_cons, zlen_app; pose proof (zlen_nonneg pd); pose proof (zlen_nonneg (zeros od_len)); lia).
    cbn [andb]. apply wp_bind. unfold on_diagnosis. rewrite law_mc_rw, H80. apply wp_assign, wp_ret. split; [done|].
    split; [exact Hp|]. subst σ. split; try done. by destruct Hok; split.
Qed.
End adapter.

(** A device set up with events, and the port that is attached to it. *)
Definition set_events (memory : list Z) : M fake_iolink_device_t unit :=
  fake_iolink_device_set_event_memory memory (zlen memory);;
  fake_iolink_device_set_event_pending true.

Context {codec : CodecLaws IO}.

(** C18: the simulated device reports its events over the wire. A device set up with
    any event memory and the event flag is brought to OPERATE from power-on: the next
    exchange shows the flag, the details service, called with room for them, returns all
    active entries of that memory in slot order, the acknowledge service the first EventCode, and the exchange after it
    shows that the device has cleared the flag. *)
Theorem fake_device_events_reported config memory array max_events fuel d σ w :
  config_ok config → hookless config → cfg_m_seq_type config ≠ IOLINK_MASTER_M_SEQ_TYPE_0 →
  iolink_master_od_len_for_type (cfg_m_seq_type config) + cfg_pd_in_len config < 16 →
  cfg_port_mode config = IOLINK_MASTER_PORT_MODE_IOLINK →
  iolink_master_startup_validation_required config = false → fuel_ok config fuel →
  w_io w = [] → fake_pending d [] → fake_stage config LinkReady (fake_core d) σ →
  Forall is_u8 memory → zlen memory ≤ IOLINK_MASTER_EVENT_MEMORY_LEN →
  1 ≤ max_events ≤ 255 → max_events ≤ zlen array →
  let setup := final (set_events memory) d in
  let stored := memory ++ zeros (IOLINK_MASTER_EVENT_MEMORY_LEN - zlen memory) in
  let entries := event_entries stored in
  zlen entries ≤ max_events →
  wp (bring_up fuel (fake_iolink_device_phy setup) config;; event_round_trip 20 fuel array max_events) (fun r w' =>
    r = (true,
         (IOLINK_MASTER_STATUS_OK, Some (entries ++ drop (length entries) array), Some (zlen entries)),
         (IOLINK_MASTER_STATUS_OK, Some (first_code (event_entries stored)))) ∧
    diag_event_pending (p_diagnostics (w_port w')) = false ∧
    p_state (w_port w') = IOLINK_MASTER_STATE_OPERATE) w.
Proof.
  intros Hcfg Hbare Ht Hroom Hmode Hval Hf Hio Hp [Hok Hview Hlink Hodl Hpd] Hmu Hml Hmax Harr setup stored entries Hfit.
  unfold entries in *. clear entries.
  unfold IOLINK_MASTER_EVENT_MEMORY_LEN in Hml, stored.
  pose proof (ok_core d (proj1 Hp) Hok) as Hd. pose proof (zlen_nonneg memory). pose proof (od_len_range config) as Hod.
  destruct (fk_memory _ Hd) as [Hdm _].
  assert (zlen stored = 19) as Hsl by (unfold stored; rewrite zlen_app, zlen_zeros; lia).
  assert (Forall is_u8 stored) as Hsu by (apply Forall_app_2; [done|by apply zeros_Forall]).
  assert (setup = d <| fd_event_memory := stored |> <| fd_event_pending := true |>) as Hset.
  { unfold setup, set_events, final, mbind, M_bind. by rewrite set_event_memory_ok. }
  clearbody setup. clearbody stored.
  set (σ' := fake_view setup).
  assert (sv_memory σ' = stored) as Hmem by (unfold σ'; by rewrite Hset).
  assert (event_flag (sv_event σ') = 0x80) as Hflag by (unfold σ'; by rewrite Hset).
  assert (fake_stage config LinkReady (fake_core setup) σ') as Hst.
  { unfold σ'. rewrite Hset. split; [destruct Hok; by split|done..]. }
  assert (2 < fuel)%nat as Hf2 by (clear - Hf Hod; unfold fuel_ok in Hf; lia).
  clearbody σ'.
  apply wp_bind. eapply wp_mono.
  { apply (bring_up_connects (wire := fake_wire setup) (wlaws := fake_wire_laws setup) (dev := fake_sdci setup config) (slaws := fake_startup setup config)
      config Hcfg Hbare fuel w σ' Hmode Hval); [|exact Hf2].
    exists setup. rewrite Hio. split; [done|]. split; [by rewrite Hset|exact Hst]. }
  intros ? w1 (_ & Hc1). eapply wp_mono.
  { apply (event_round_trip_connected (wire := fake_wire setup) (wlaws := fake_wire_laws setup) (dev := fake_sdci setup config)
      config (cyc := fake_cyclic setup config Hroom) (events := fake_event_laws setup config Hcfg Hroom)
      array max_events 20 fuel w1 σ' Hcfg Hbare Ht Hc1 Hmax Harr Hf).
    change (sdci_memory σ') with (sv_memory σ'). rewrite Hmem. pose proof (needed_range stored Hsu) as Hn.
    destruct (request_frames_bounds (needed stored) (iolink_master_od_len_for_type (cfg_m_seq_type config))) as [_ [Hlt _]];
      [lia|lia|]. fold (needed stored). nia. }
  intros r w2 Hr. change (sdci_memory σ') with (sv_memory σ') in Hr. rewrite Hmem in Hr.
  cbv zeta in Hr. rewrite (take_all_entries _ _ Hfit) in Hr.
  destruct Hr as (-> & ([_ Hs2 _ _ _] & _) & Hp2). split; [|by split].
  by replace (sdci_flags σ') with 0x80 by (by rewrite <- Hflag).
Qed.
End device.
