(* ===== verification/FakeLossy.v ===== *)
(** * The simulated device on a faulty link

    A test that arms a fault of the device before each frame: the checksum of the next
    reply, the whole reply or its last octet. The bench so made keeps the contract of a
    link with faults, with the faults of its script as the fates of the replies. *)

From S2P Require Import Prelude Iolinki Reference Types Fixtures Parameters Isdu IsduResponse IsduRequest IsduService Services DataStorage Events EventReadout Hal Transmit Port PortInvariant PortServices ParameterBlock PortSafety PortCalls PortTransitions Carrier PortLink PortExchange PortTiming IsduFrames EventFrames Adapter DeviceContract Session SessionIsdu OverTheWire EventSession PacedLink FakeDevice FakeServer FakeRefinement FakeSession.

Inductive fault : Type := FaultNone | FaultCorrupt | FaultDrop | FaultTruncate.

(** What the test calls before a frame. *)
Definition arm (f : fault) : M fake_iolink_device_t unit :=
  match f with
  | FaultNone => mret tt
  | FaultCorrupt => fake_iolink_device_corrupt_next_response_checksum
  | FaultDrop => fake_iolink_device_drop_next_response
  | FaultTruncate => fake_iolink_device_truncate_next_response
  end.

Definition fault_fate (f : fault) : fate :=
  match f with FaultNone => Intact | FaultCorrupt => Garbled | _ => Short end.

Record bench : Type := { bn_device : fake_iolink_device_t; bn_script : list fault }.
#[export] Instance eta_bench : Eta bench := fun r => {| bn_device := bn_device r; bn_script := bn_script r |}.

(** ** Replies with a fault armed *)

Section faults.
Context {IO : Iolinki} {laws : IolinkiLaws IO} {codec : CodecLaws IO} {DC : IolinkiDevice} {dlaws : IolinkiDeviceLaws DC}.
Implicit Types (d : fake_iolink_device_t) (f : fault).

Definition armed f d : fake_iolink_device_t :=
  match f with
  | FaultNone => d
  | FaultCorrupt => d <| fd_corrupt_next_response_checksum := true |>
  | FaultDrop => d <| fd_drop_next_response := true |>
  | FaultTruncate => d <| fd_truncate_next_response := true |>
  end.

Lemma arm_ok f d : wp (arm f) (fun _ d' => d' = armed f d) d.
Proof. destruct f; cbn [arm armed]; [by apply wp_ret|apply wp_assign; done..]. Qed.

(** One bit of CKS flipped. *)
Lemma cks_flipped flags c : cks_flags flags → 0 ≤ c < 64 →
  Z.lxor (Z.lor flags c) 1 = Z.lor flags (Z.lxor c 1) ∧ 0 ≤ Z.lxor c 1 < 64 ∧ Z.lxor c 1 ≠ c.
Proof.
  intros Hf Hc. assert (is_u8 c) as Hu by (unfold is_u8; lia).
  assert ((0 <=? Z.lxor c 1) && (Z.lxor c 1 <? 64) && negb (Z.lxor c 1 =? c) && (Z.lxor (Z.lor flags c) 1 =? Z.lor flags (Z.lxor c 1)) = true) as Hb.
  { revert Hc. destruct Hf as [->|[->|[->| ->]]]; revert c Hu; refine (forall_u8_dec _ _); vm_compute; reflexivity. }
  norm_bool. lia.
Qed.

Lemma garbled_delivered pd flags : Forall is_u8 pd → cks_flags flags →
  let cks := Z.lor flags (iolink_checksum6 (pd ++ [flags])) in
  Forall is_u8 (pd ++ [Z.lxor cks 1]) ∧ delivered Garbled pd flags (pd ++ [Z.lxor cks 1]).
Proof.
  intros Hp Hf cks. destruct (cks_flipped flags _ Hf (law_checksum6 (pd ++ [flags]))) as (Heq & Hr & Hne).
  unfold cks. rewrite Heq. split.
  - apply Forall_app_2; [done|]. constructor; [|constructor]. by apply (cks_fields flags).
  - destruct (law_decode_octets [] pd flags _ (Forall_nil_2 _) Hp Hf Hr) as (resp & Hd & Hc & _).
    exists resp. split; [exact Hd|]. rewrite Hc. cbn [app]. by apply Z.eqb_neq.
Qed.

Lemma spoil_armed l v d : filled (l ++ [v]) d → fd_corrupt_next_response_checksum d = true →
  wp (spoil_checksum (zlen l)) (fun _ d' => filled (l ++ [Z.lxor v 1]) d' ∧
    ∃ q, d' = d <| fd_rx_queue := q |> <| fd_corrupt_next_response_checksum := false |>) d.
Proof.
  intros Hf Hc. apply wp_bind, wp_get. rewrite Hc. cbn [when]. apply wp_bind. eapply wp_mem.
  { eapply rd_slice; [by apply filled_slice|]. rewrite rd_lookup by apply zlen_nonneg.
    unfold zlen. rewrite Nat2Z.id. by apply list_lookup_middle. }
  apply wp_bind. eapply wp_mono; [by eapply put_rx_last|]. intros ? d1 [H1 [q ->]]. apply wp_assign.
  split; [exact H1|]. by exists q.
Qed.

Lemma end_truncated l v d : filled (l ++ [v]) d → fd_truncate_next_response d = true →
  wp (end_reply (zlen (l ++ [v]))) (fun _ d' => fake_pending d' l ∧
    fake_core d' = fake_core (d <| fd_truncate_next_response := false |>)) d.
Proof.
  intros Hr Ht. pose proof (filled_slice _ _ Hr) as Hs. destruct Hr as (Hl & Hp & Htk).
  pose proof (zlen_nonneg l). assert (zlen (l ++ [v]) = zlen l + 1) as Hz by (by rewrite zlen_app).
  assert (zlen l + 1 ≤ 16).
  { rewrite <- Hz. unfold slice in Hs. destruct (_ && _) eqn:Hb in Hs; [|done]. norm_bool. lia. }
  apply wp_bind, wp_assign, wp_bind, wp_get. rewrite Hz, u8_small by (unfold is_u8; lia).
  cbn [fd_truncate_next_response fd_rx_len set]. rewrite Ht, (proj2 (Z.ltb_lt _ _)) by lia. cbn [andb when].
  apply wp_bind, wp_assign, wp_assign. split; [|done]. split; [done|]. cbn. rewrite Hp, Z.sub_0_r.
  replace (zlen l + 1 - 1) with (zlen l) by lia. apply filled_slice. split; [done|]. split; [done|].
  apply (f_equal (take (length l))) in Htk. rewrite take_take, take_app_length, length_app in Htk. cbn [length] in Htk.
  by replace (length l `min` (length l + 1))%nat with (length l) in Htk by lia.
Qed.

(** Process data and CKS are queued, whatever is armed. *)
Lemma armed_filled f d (Q : fake_iolink_device_t → Prop) : fake_pending d [] → fake_ok d → fd_pd_in_len d < 16 →
  fd_drop_next_response (armed f d) = false →
  let pd := sv_pd_in (fake_view d) in
  let flags := event_flag (fd_event_pending d) in
  let cks := Z.lor flags (iolink_checksum6 (pd ++ [flags])) in
  (∀ d', filled (pd ++ [cks]) d' → fake_core d' = fake_core (armed f d) →
     wp (spoil_checksum (zlen pd);; end_reply (zlen (pd ++ [cks]))) (fun _ => Q) d') →
  wp (fake_iolink_device_queue_operate_response false) (fun _ => Q) (armed f d).
Proof.
  intros Hp Hd Hlen Hdrop pd flags cks HQ. destruct (fk_pd _ Hd) as [Hv Hn].
  apply wp_bind, wp_get. rewrite Hdrop. apply wp_bind. eapply wp_mono; [apply queue_begin_ok; by destruct f|].
  intros start d0 [-> ->]. set (d0 := armed f d <| fd_rx_pos := 0 |> <| fd_rx_len := 0 |>).
  assert (filled [] d0) as H0 by (destruct f; by split; [apply Hd|]).
  assert (fd_pd_in_value d0 = fd_pd_in_value d ∧ fd_pd_in_len d0 = fd_pd_in_len d ∧
    fd_event_pending d0 = fd_event_pending d) as (Hpv & Hpl & Hpe) by (by destruct f).
  apply wp_bind, wp_ret, wp_bind. eapply wp_mono.
  { apply (put_pd_and_cks_ok [] d0 H0); [by rewrite Hpv|by rewrite Hpl|rewrite zlen_nil, Hpl; lia]. }
  rewrite Hpv, Hpl, Hpe. fold flags. change (replicate _ _) with pd. unfold reply_octets. cbn [app]. fold cks.
  intros pos d1 (Hpos & H1 & Hc%same_core_eq). assert (pos = zlen pd) as -> by (rewrite zlen_app in Hpos; change (zlen [cks]) with 1 in Hpos; lia).
  rewrite Hpos. apply HQ; [exact H1|]. rewrite Hc. by destruct f.
Qed.

(** The fault is spent: the device is as it was but for the queue. *)
Lemma spent_ok d d1 reply : fake_pending d1 reply → fake_ok d → fake_core d1 = fake_core d →
  queued d reply (fake_view d) d1.
Proof.
  intros Hp Hd Hc. split; [done|]. split; [rewrite Hc; by apply core_ok|]. split.
  - change (fake_view (fake_core d1) = fake_view (fake_core d)). by rewrite Hc.
  - change (settings (fake_core d1) = settings (fake_core d)). by rewrite Hc.
Qed.

Context (setup : fake_iolink_device_t) (config : iolink_master_config_t).

(** The answer to a cyclic frame. *)
Lemma armed_response_ok f d : fake_pending d [] → fake_ok d → 0 ≤ fd_od_len d → fd_od_len d + fd_pd_in_len d < 16 →
  let σ := fake_view d in
  wp (fake_iolink_device_queue_operate_response false) (fun _ d' => ∃ reply, Forall is_u8 reply ∧
    delivered (fault_fate f) (sv_pd_in σ) (event_flag (sv_event σ)) reply ∧ queued d reply σ d') (armed f d).
Proof.
  intros Hp Hd Hod Hroom σ. pose proof (fk_faultless _ Hd) as (Hdrop & Hcor & Htr).
  destruct (fk_pd _ Hd) as [Hv Hn].
  assert (Forall is_u8 (sv_pd_in σ)) as Hpu by (by apply Forall_replicate).
  pose proof (event_flag_cks (fd_event_pending d)) as Hfl.
  destruct f.
  - eapply wp_mono; [by apply (operate_response_ok setup config false)|]. intros ? d' [_ Hq]. eexists. split; [|split; [reflexivity|exact Hq]].
    by apply reply_u8.
  - apply armed_filled; [done|done|lia|done|]. intros d1 H1 Hc1.
    apply wp_bind. eapply wp_mono; [apply (spoil_armed _ _ _ H1)|].
    { change (fd_corrupt_next_response_checksum (fake_core d1) = true). by rewrite Hc1. }
    intros ? d2 [H2 [q ->]]. destruct (garbled_delivered _ _ Hpu Hfl) as [Hgu Hgd].
    match goal with H2 : filled ?l _ |- wp (end_reply ?n) _ _ => replace n with (zlen l) by (by rewrite !zlen_app) end.
    eapply wp_mono; [apply (end_reply_ok _ _ H2)|].
    { change (fd_truncate_next_response (fake_core d1) = false). by rewrite Hc1. }
    intros ? d3 [Hp3 Hc3]. eexists. split; [exact Hgu|]. split; [exact Hgd|]. apply spent_ok; [exact Hp3|done|].
    rewrite Hc3. change (fake_core d1 <| fd_corrupt_next_response_checksum := false |> = fake_core d).
    rewrite Hc1. clear -Hcor. destruct d; cbn in *. by subst.
  - apply wp_bind, wp_get. cbn [fd_drop_next_response set]. apply wp_bind, wp_assign, wp_bind, wp_assign, wp_assign.
    exists []. split; [constructor|]. split; [apply zlen_nonneg|]. apply spent_ok; [|done|].
    + split; [apply Hd|]. cbn. by rewrite slice_Some, drop_0 by (pose proof (zlen_nonneg (fd_rx_queue d)); lia).
    + clear -Hdrop. destruct d; cbn in *. by subst.
  - apply armed_filled; [done|done|lia|done|]. intros d1 H1 Hc1.
    apply wp_bind. eapply wp_mono; [apply spoil_checksum_ok|].
    { change (fd_corrupt_next_response_checksum (fake_core d1) = false). by rewrite Hc1. }
    intros ? ? ->. eapply wp_mono; [apply (end_truncated _ _ _ H1)|].
    { change (fd_truncate_next_response (fake_core d1) = true). by rewrite Hc1. }
    intros ? d3 [Hp3 Hc3]. exists (sv_pd_in σ). split; [exact Hpu|]. split; [cbn; lia|]. apply spent_ok; [exact Hp3|done|].
    rewrite Hc3. change (fake_core d1 <| fd_truncate_next_response := false |> = fake_core d).
    rewrite Hc1. clear -Htr. destruct d; cbn in *. by subst.
Qed.
End faults.

(** ** The bench *)

Section bench.
Context {IO : Iolinki} {DC : IolinkiDevice}.
Context (setup : bench) (config : iolink_master_config_t).
Notation B := (M bench).
Implicit Types (b c : bench) (σ : server * list fault).

(** The test arms the next fault of its script, then the frame arrives. *)
Definition bench_send (data : list Z) : B Z :=
  script ← gets bn_script;
  bn_script <~ tail script;;
  zoom bn_device (arm (hd FaultNone script);; fake_iolink_device_send data).

Definition bench_recv : B (Z * Z) := zoom bn_device fake_iolink_device_recv_byte.

#[local] Instance bench_adapter : Adapter bench := {|
  power_on := setup;
  effect := fun entry =>
    match entry with
    | IoSend _ data _ => bench_send data;; mret tt
    | IoRecvByte _ _ _ => bench_recv;; mret tt
    | _ => mret tt
    end;
|}.

Definition bench_phy : iolink_phy_api_t := {|
  phy_user := 0;
  phy_init := None;
  phy_set_mode := false;
  phy_set_baudrate := false;
  phy_send := Some (fun tr data => answer (bench_send data) (-1) tr);
  phy_recv_byte := Some (answer bench_recv (-1, 0));
  phy_set_cq_line := false;
  phy_get_voltage_mv := None;
  phy_is_short_circuit := None;
|}.

#[local] Instance bench_wire : WireDevice bench bench := {|
  wire_phy := bench_phy;
  wire_send := bench_send;
  wire_recv := bench_recv;
  wire_pending := fun b => fake_pending (bn_device b);
  wire_core := fun b => b <| bn_device := fake_core (bn_device b) |>;
|}.

#[local] Instance bench_sdci : SdciDevice bench bench (server * list fault) := {|
  sdci_stage := fun stage c σ => fake_stage config stage (bn_device c) σ.1 ∧ bn_script c = σ.2;
  sdci_pd_in := fun σ => sv_pd_in σ.1;
  sdci_flags := fun σ => event_flag (sv_event σ.1);
  sdci_feed := fun σ od => (server_feed σ.1 od, σ.2);
  sdci_next := fun σ => ((server_next σ.1).1, ((server_next σ.1).2, σ.2));
|}.

#[local] Instance bench_lossy : LossyDevice (server * list fault) := {|
  lossy_fate := fun σ => fault_fate (hd FaultNone σ.2);
  lossy_next := fun σ => (σ.1, tail σ.2);
|}.

Context {laws : IolinkiLaws IO} {codec : CodecLaws IO} {dlaws : IolinkiDeviceLaws DC}.

#[local] Instance bench_wire_laws : WireLaws bench bench.
Proof.
  pose proof (fake_wire_laws (bn_device setup)) as Hf. split; try done.
  - intros b Hp. destruct (wire_recv_empty (WireLaws := Hf) (bn_device b) Hp) as [byte Hr]. exists byte.
    cbn. unfold bench_recv, zoom. cbn in Hr. rewrite Hr. by destruct b.
  - intros b x r Hp. destruct (wire_recv_octet (WireLaws := Hf) (bn_device b) x r Hp) as (d' & Hr & Hp' & Hc).
    exists (b <| bn_device := d' |>). cbn in Hr, Hc |- *. unfold bench_recv, zoom. rewrite Hr.
    split; [done|]. split; [done|]. by rewrite Hc.
Qed.

Context (Hcfg : config_ok config).
Notation od_len := (iolink_master_od_len_for_type (cfg_m_seq_type config)).
Context (Hroom : od_len + cfg_pd_in_len config < 16).

(** The frame of a cycle under a fault. *)
Lemma armed_exchange f pd d (s : server) : fake_pending d [] → fake_stage config LinkOperate (fake_core d) s →
  zlen pd = cfg_pd_out_len config →
  let frame := config_frame config 0 (pd ++ zeros od_len) in
  wp (arm f;; fake_iolink_device_send frame) (fun r d' => r = zlen frame ∧ ∃ reply, Forall is_u8 reply ∧
    delivered (fault_fate f) (sv_pd_in s) (event_flag (sv_event s)) reply ∧
    fake_pending d' reply ∧ fake_stage config LinkOperate (fake_core d') s) d.
Proof.
  intros Hp [Hok Hview Hlink Hodl Hpdl] Hpl frame. pose proof (ok_core d (proj1 Hp) Hok) as Hd.
  pose proof (od_len_range config) as Hod. cbn in Hlink, Hodl, Hpdl.
  apply wp_bind. eapply wp_mono; [apply arm_ok|]. intros ? d1 ->.
  apply (cyclic_dispatched config); [done|].
  set (d1 := d <| fd_operate_cycle_count := u32 (fd_operate_cycle_count d + 1) |> <| fd_link_state := FAKE_LINK_OPERATE |>).
  match goal with |- wp _ _ ?s => replace s with (armed f d1) by (by destruct f) end.
  eapply wp_mono.
  { apply (armed_response_ok (bn_device setup) config f d1); [exact Hp|destruct Hd; by split|cbn; lia|cbn; lia]. }
  intros ? d' (reply & Hu & Hdel & Hq). split; [done|]. exists reply. split; [exact Hu|].
  change (fake_view d1) with (fake_view (fake_core d)) in Hdel, Hq. rewrite Hview in Hdel, Hq. split; [exact Hdel|].
  by apply (queued_stage config LinkOperate) in Hq.
Qed.

Lemma bench_exchange pd b σ : fake_pending (bn_device b) [] → sdci_stage LinkOperate (wire_core b) σ →
  zlen pd = cfg_pd_out_len config →
  let frame := config_frame config 0 (pd ++ zeros od_len) in
  wp (bench_send frame) (fun r b' => r = zlen frame ∧ ∃ reply, Forall is_u8 reply ∧
    delivered (lossy_fate σ) (sdci_pd_in σ) (sdci_flags σ) reply ∧
    fake_pending (bn_device b') reply ∧ sdci_stage LinkOperate (wire_core b') (lossy_next σ)) b.
Proof.
  intros Hp [Hs Hscript] Hpl frame. cbn in Hscript. apply wp_bind, wp_gets, wp_bind, wp_assign, wp_zoom.
  rewrite Hscript. eapply wp_mono; [by apply (armed_exchange (hd FaultNone σ.2) pd _ σ.1)|].
  intros r d' (-> & reply & Hu & Hdel & Hp' & Hs'). split; [done|]. by exists reply.
Qed.

#[local] Instance bench_lossy_laws : LossyLaws config bench bench (server * list fault).
Proof.
  split.
  - intros c σ [Hs _]. by eapply (fake_view_fits config).
  - intros b σ pd Hp Hs Hpl _. destruct (wp_inv _ _ _ (bench_exchange pd b σ Hp Hs Hpl)) as
      (r & b' & Hm & -> & reply & Hu & Hdel & Hp' & Hs').
    exists reply. split; [exact Hu|]. split; [exact Hdel|]. by exists b'.
Qed.
End bench.
