(* ===== verification/FakeWitness.v ===== *)
(** * The simulated device at the end of the wire: witnesses

    A device with the parameter 0x10 and one octet of process data, attached to a
    TYPE_2_1 port: the theorems of [OverTheWire], [FakeSession] and [Identification] at
    concrete inputs. *)

From S2P Require Import Prelude Iolinki Reference Types Fixtures Parameters Isdu IsduResponse IsduRequest IsduService Services DataStorage Events EventReadout Hal Transmit Port PortInvariant PortServices ParameterBlock PortSafety PortCalls PortTransitions Carrier PortLink PortExchange IsduFrames Adapter DeviceContract Session SessionIsdu OverTheWire FakeDevice FakeServer FakeRefinement FakeSession Identification EventFrames EventSession FakeEvents PortTiming PacedLink FakeLossy.
(** A TYPE_2_1 port with one octet of input process data. *)
Definition wit_config : iolink_master_config_t := {|
  cfg_port_mode := IOLINK_MASTER_PORT_MODE_IOLINK;
  cfg_m_seq_type := IOLINK_MASTER_M_SEQ_TYPE_2_1;
  cfg_baudrate := IOLINK_BAUDRATE_COM3;
  cfg_min_cycle_time := 20;
  cfg_pd_in_len := 1;
  cfg_pd_out_len := 0;
  cfg_auto_baudrate := false;
  cfg_validate_device_info := false;
  cfg_inspection_level := IOLINK_MASTER_INSPECTION_NO_CHECK;
  cfg_expected_vendor_id := 0;
  cfg_expected_device_id := 0;
  cfg_response_timeout_100us := 0;
  cfg_isdu_timeout_100us := 0;
  cfg_t_dmt_tbit := 0;
  cfg_t_dwu_100us := 0;
  cfg_wake_retry_limit := 0;
  cfg_t_sd_100us := 0;
  cfg_event_user := 0;
  cfg_event_pending_handler := false;
  cfg_event_handler := false;
  cfg_set_mode_checked := None;
  cfg_set_baudrate_checked := None;
  cfg_read_cq_line_checked := None;
  cfg_flush_rx := None;
  cfg_prepare_tx := None;
  cfg_prepare_rx := None;
  cfg_read_cq_line := None;
  cfg_wake_up := None;
|}.

Lemma wit_config_ok : config_ok wit_config.
Proof. by split. Qed.
Lemma wit_config_hookless : hookless wit_config.
Proof. by split. Qed.

(** A device that holds the parameter 0x10 and sends 0x5A. *)
Definition wit_device : fake_iolink_device_t :=
  final (fake_iolink_device_set_isdu_object 0x10 0 [65; 66] 2) (fake_iolink_device_reset 0x5A 1 1).

Lemma wit_device_stage : fake_stage wit_config LinkReady (fake_core wit_device) (fake_view wit_device).
Proof.
  split; [|vm_compute; reflexivity..]. split; decide_here.
Qed.

(** The port attached to it, with the storage of the port as the program finds it. *)
Definition wit_attached : world := wit_world [].
Definition wit_phy : iolink_phy_api_t := fake_iolink_device_phy wit_device.

Lemma fake_device_write_then_read_witness :
  wp (write_then_read wit_device wit_config 64 0x18 0 [1; 2; 3] (zeros 8)) (fun r w' =>
    r = (IOLINK_MASTER_STATUS_OK,
         (IOLINK_MASTER_STATUS_OK, Some ([1; 2; 3] ++ drop (length [1; 2; 3]) (zeros 8)), Some (zlen [1; 2; 3]))) ∧
    p_state (w_port w') = IOLINK_MASTER_STATE_OPERATE) wit_attached.
Proof.
  apply (fake_device_write_then_read wit_device wit_config wit_config_ok ltac:(decide_here) wit_config_hookless
    ltac:(discriminate) eq_refl eq_refl 0x18 0 [1; 2; 3] (zeros 8) 64 (fake_view wit_device));
    first [apply wit_device_stage|reflexivity|split; reflexivity|decide_here|unfold fuel_ok; decide_here].
Defined.


Lemma wit_device_in : device_in (wire := fake_wire wit_device) (dev := fake_sdci wit_device wit_config) [] [] LinkReady (fake_view wit_device).
Proof. exists wit_device. split; [reflexivity|]. split; [split; reflexivity|]. apply wit_device_stage. Qed.

Definition wit_image : list Z := sv_pd_in (fake_view wit_device).

Lemma communication_over_the_wire_witness :
  wp (bring_up 64 wit_phy wit_config;; cycles 3 64) (fun _ w' =>
    connected (wire := fake_wire wit_device) (dev := fake_sdci wit_device wit_config) wit_config w' (fake_view wit_device) ∧
    iolink_master_get_pd_in (Some (w_port w')) (Some (zeros 4)) 4 (Some 0) =
      Some (IOLINK_MASTER_STATUS_OK, Some (wit_image ++ drop (length wit_image) (zeros 4)), Some (zlen wit_image)))
    wit_attached.
Proof.
  apply (communication_over_the_wire (wire := fake_wire wit_device) (wlaws := fake_wire_laws wit_device)
    (dev := fake_sdci wit_device wit_config) (slaws := fake_startup wit_device wit_config) wit_config
    (cyc := fake_cyclic wit_device wit_config ltac:(decide_here)) 2 64 (zeros 4) 4 wit_attached (fake_view wit_device));
    first [apply wit_config_ok|apply wit_config_hookless|apply wit_device_in|reflexivity|discriminate|decide_here].
Defined.






Lemma fake_device_identified_witness :
  wp (bring_up_and_identify
        (final (fake_iolink_device_set_direct_parameter_page1 10 0x01 0x08 0 0x1234 0xABCDEF) wit_device)
        wit_config 64) (fun r w' => ∃ info,
    r = (iolink_master_validate_config_against_device_info (Some info) (Some wit_config),
         (IOLINK_MASTER_STATUS_OK, Some info)) ∧
    di_vendor_id info = 0x1234 ∧ di_device_id info = 0xABCDEF mod 2 ^ 24 ∧ di_revision_id info = 0x11 ∧
    di_min_cycle_time_100us info = min_cycle_time_spec 10 ∧
    di_isdu_supported info = Z.odd 0x01 ∧ di_operate_mseq_code info = 0x01 / 2 mod 8 ∧
    di_pd_in_len info = pd_octets_spec 0x08 ∧ di_pd_out_len info = pd_octets_spec 0 ∧
    p_state (w_port w') = IOLINK_MASTER_STATE_OPERATE) wit_attached.
Proof.
  apply (fake_device_identified wit_config 10 0x01 0x08 0 0x1234 0xABCDEF 64 wit_device (fake_view wit_device));
    first [apply wit_device_stage|apply wit_config_ok|apply wit_config_hookless|reflexivity|discriminate
          |split; reflexivity|decide_here|unfold fuel_ok; decide_here].
Defined.

(** The device with the events of [wit_event_replies]. *)
Definition wit_memory : list Z := concat wit_event_replies.
Definition wit_event_device : fake_iolink_device_t := final (set_events wit_memory) wit_device.
Definition wit_event_view : server := fake_view wit_event_device.

Lemma wit_event_device_in :
  device_in (wire := fake_wire wit_event_device) (dev := fake_sdci wit_event_device wit_config) [] [] LinkReady wit_event_view.
Proof.
  exists wit_event_device. split; [reflexivity|]. split; [split; reflexivity|].
  split; [|vm_compute; reflexivity..]. split; decide_here.
Qed.

Lemma events_over_the_wire_witness :
  let entries := event_entries (sdci_memory wit_event_view) in
  wp (bring_up 64 (fake_iolink_device_phy wit_event_device) wit_config;;
      event_round_trip 12 64 (replicate 4 wit_no_event) 4) (fun r w' =>
    r = (Z.testbit (event_flag (sv_event wit_event_view)) 7,
         (IOLINK_MASTER_STATUS_OK, Some (entries ++ drop (length entries) (replicate 4 wit_no_event)), Some (zlen entries)),
         (IOLINK_MASTER_STATUS_OK, Some (first_code (event_entries (sdci_memory wit_event_view))))) ∧
    connected (wire := fake_wire wit_event_device) (dev := fake_sdci wit_event_device wit_config) wit_config
      w' (sdci_confirmed wit_event_view) ∧
    diag_event_pending (p_diagnostics (w_port w')) = Z.testbit (event_flag (sv_event (sdci_confirmed wit_event_view))) 7)
    wit_attached.
Proof.
  apply (events_over_the_wire (wire := fake_wire wit_event_device) (wlaws := fake_wire_laws wit_event_device)
    (dev := fake_sdci wit_event_device wit_config) (slaws := fake_startup wit_event_device wit_config) wit_config
    (cyc := fake_cyclic wit_event_device wit_config ltac:(decide_here))
    (events := fake_event_laws wit_event_device wit_config wit_config_ok ltac:(decide_here))
    (replicate 4 wit_no_event) 4 12 64 wit_attached wit_event_view);
    first [apply wit_config_ok|apply wit_config_hookless|apply wit_event_device_in|reflexivity|discriminate|decide_here
          |unfold fuel_ok; decide_here|vm_compute; reflexivity].
Defined.

Lemma fake_device_events_reported_witness :
  let stored := wit_memory ++ zeros (IOLINK_MASTER_EVENT_MEMORY_LEN - zlen wit_memory) in
  let entries := event_entries stored in
  wp (bring_up 64 (fake_iolink_device_phy wit_event_device) wit_config;;
      event_round_trip 20 64 (replicate 4 wit_no_event) 4) (fun r w' =>
    r = (true,
         (IOLINK_MASTER_STATUS_OK, Some (entries ++ drop (length entries) (replicate 4 wit_no_event)), Some (zlen entries)),
         (IOLINK_MASTER_STATUS_OK, Some (first_code (event_entries stored)))) ∧
    diag_event_pending (p_diagnostics (w_port w')) = false ∧
    p_state (w_port w') = IOLINK_MASTER_STATE_OPERATE) wit_attached.
Proof.
  apply (fake_device_events_reported wit_config wit_memory (replicate 4 wit_no_event) 4 64 wit_device (fake_view wit_device));
    first [apply wit_device_stage|apply wit_config_ok|apply wit_config_hookless|reflexivity|discriminate
          |split; reflexivity|decide_here|unfold fuel_ok; decide_here].
Defined.

(** The device in OPERATE on a faulty link, and a port that has just reached OPERATE: a
    reply is lost, one is cut short, one arrives, and two are garbled. *)
Definition wit_bench : bench := {|
  bn_device := wit_device <| fd_link_state := FAKE_LINK_OPERATE |>;
  bn_script := [FaultDrop; FaultTruncate; FaultNone; FaultCorrupt; FaultCorrupt];
|}.
Definition wit_bench_view : server * list fault := (fake_view (bn_device wit_bench), bn_script wit_bench).
Definition wit_paced_world : world :=
  {| w_port := port_initial (bench_phy wit_bench) wit_config <| p_state := IOLINK_MASTER_STATE_OPERATE |>; w_io := [] |}.
Definition wit_cycles : list cycle_times :=
  map (fun t => {| ct_send := t; ct_poll := t + 3; ct_deadline := t + 10 |}) [100; 120; 150; 170; 190].

Lemma wit_bench_in :
  device_in (wire := bench_wire wit_bench) (dev := bench_sdci wit_bench wit_config) [] [] LinkOperate wit_bench_view.
Proof.
  exists wit_bench. split; [reflexivity|]. split; [split; reflexivity|]. split; [|reflexivity].
  split; [|vm_compute; reflexivity..]. split; decide_here.
Qed.

(** The retries are 1, 2, 0 and 2, and the second garbled reply loses communication. *)
Lemma paced_link_retries_witness :
  wp (paced_run 64 wit_cycles) (fun _ w' =>
    match ofold retries_after 0 (fates (ldev := bench_lossy) (length wit_cycles) wit_bench_view) with
    | Some r' =>
        (∃ last', paced (wire := bench_wire wit_bench) wit_config false (0, false) last' r'
           (last_image (dev := bench_sdci wit_bench wit_config) (ldev := bench_lossy) (length wit_cycles) (false, [0]) wit_bench_view) (w_port w')) ∧
        device_in (wire := bench_wire wit_bench) (dev := bench_sdci wit_bench wit_config) (w_io w') [] LinkOperate
          (Nat.iter (length wit_cycles) (lossy_next (LossyDevice := bench_lossy)) wit_bench_view)
    | None => comlost (w_port w')
    end) wit_paced_world.
Proof.
  apply (paced_link_retries (wire := bench_wire wit_bench) (wlaws := bench_wire_laws wit_bench)
    (dev := bench_sdci wit_bench wit_config) (ldev := bench_lossy) wit_config
    (lossy := bench_lossy_laws wit_bench wit_config ltac:(decide_here))
    64 wit_cycles (0, false) 0 0 (false, [0]) wit_paced_world wit_bench_view);
    first [apply wit_config_ok|apply wit_config_hookless|apply wit_bench_in|discriminate|decide_here|idtac].
  - split; try done. apply ok_set_state, port_initial_ok.
Defined.
