(* ===== verification/CqLine.v ===== *)
(** * Who drives the C/Q line

    In standard I/O mode the master drives C/Q itself. Over every sequence of calls, the
    levels it drives are those of the [set_dq] calls made while the port was a digital
    output, and no others. *)

From S2P Require Import Prelude Iolinki Reference Types Fixtures Parameters Isdu IsduResponse IsduRequest IsduService Services DataStorage Events EventReadout Hal Transmit Port PortInvariant PortServices PortSafety Sio PortCalls PortTransitions Carrier PortLink PortExchange.

(** The levels driven so far. *)
Fixpoint cq_levels (tr : list io) : list Z :=
  match tr with
  | [] => []
  | IoSetCqLine _ level :: tr => level :: cq_levels tr
  | _ :: tr => cq_levels tr
  end.

Lemma cq_levels_app tr tr' : cq_levels (tr ++ tr') = cq_levels tr ++ cq_levels tr'.
Proof. induction tr as [|e tr IH]; [done|]. destruct e; cbn; rewrite IH; done. Qed.

Definition driven_levels (w : world) : list Z := cq_levels (w_io w).

Lemma undriven_call {A} (f : list io → A) entry :
  (∀ a, cq_levels [entry a] = []) → keeps driven_levels (call f entry).
Proof.
  intros He w a w' [= _ <-]. unfold driven_levels. cbn. by rewrite cq_levels_app, He, app_nil_r.
Qed.
Lemma undriven_emit entry : cq_levels [entry] = [] → keeps driven_levels (emit entry).
Proof.
  intros He w a w' H. injection H as _ <-. unfold driven_levels. cbn.
  by rewrite cq_levels_app, He, app_nil_r.
Qed.
#[export] Hint Extern 2 (keeps driven_levels (call _ _)) => apply undriven_call; done : keeps.
#[export] Hint Extern 2 (keeps driven_levels (emit _)) => apply undriven_emit; done : keeps.

Section undriven.
Context {IO : Iolinki}.
Notation undriven := (keeps driven_levels).

Lemma send_full_undriven data len : undriven (iolink_master_send_full data len).
Proof. keeps_deep. Qed.
Lemma restart_establish_undriven now timed : undriven (iolink_master_restart_establish now timed).
Proof. keeps_deep. Qed.
Hint Resolve send_full_undriven restart_establish_undriven : keeps.

Lemma on_timeout_undriven now timed : undriven (iolink_master_on_timeout_at PTR now timed).
Proof. keeps_deep. Qed.
Lemma process_at_undriven now timed : undriven (iolink_master_process_at PTR now timed).
Proof. keeps_deep. Qed.
Lemma on_rx_undriven data len : undriven (iolink_master_on_rx PTR data len).
Proof. keeps_deep. Qed.
Hint Resolve on_timeout_undriven process_at_undriven on_rx_undriven : keeps.

Lemma poll_loop_undriven n user recv_byte expected count :
  undriven (poll_loop n user recv_byte expected count).
Proof.
  revert count. induction n as [|n IH]; intros count; cbn [poll_loop]; [done|]. unfold rx_fault. keeps_deep.
Qed.
Hint Resolve poll_loop_undriven : keeps.
Lemma tick_common_undriven fuel event pace now :
  undriven (iolink_master_tick_common fuel PTR event pace now).
Proof. keeps_deep. Qed.

Lemma get_di_undriven level : undriven (iolink_master_get_di PTR level).
Proof.
  unfold iolink_master_get_di. destruct (_ || _); [keeps_deep|].
  apply keeps_bind; [keeps_deep|intros p]. destruct (_ <>e _); [keeps_deep|]. cbv zeta.
  destruct (cfg_read_cq_line_checked (p_config p)); [|destruct (cfg_read_cq_line (p_config p))]; keeps_deep.
Qed.

(** Events are handed on one after the other. *)
Lemma event_dispatch_undriven user events count : undriven (event_dispatch user events count).
Proof.
  apply keeps_for_loop. intros i w stop w' H.
  destruct (rd events i) as [event|] eqn:He; cbn [mem] in H; unfold mbind, M_bind in H;
    rewrite ?He in H; [|done].
  injection H as _ <-. unfold driven_levels. cbn. by rewrite cq_levels_app, app_nil_r.
Qed.
End undriven.
#[export] Hint Resolve send_full_undriven restart_establish_undriven on_timeout_undriven
  process_at_undriven on_rx_undriven poll_loop_undriven tick_common_undriven get_di_undriven
  event_dispatch_undriven : keeps.

(** ** The levels a sequence of calls drives *)

Section levels.
Context {IO : Iolinki} {laws : IolinkiLaws IO}.
Context (phy : iolink_phy_api_t).

(** The configuration after a request for another mode. *)
Definition config_in_mode (config : iolink_master_config_t) (mode : iolink_master_port_mode_t)
    : iolink_master_config_t :=
  let config' := config <| cfg_port_mode := mode |> in
  if negb (port_mode_in_range mode) || config_rejected config' then config else config'.

(** [set_dq] drives a digital output whose adapter has the line. *)
Definition drives (config : iolink_master_config_t) (level : bool) : list Z :=
  if (cfg_port_mode config =e IOLINK_MASTER_PORT_MODE_DQ) && phy_set_cq_line phy
  then [if level then 1 else 0] else [].

Fixpoint expected_levels (config : iolink_master_config_t) (calls : list port_call) : list Z :=
  match calls with
  | [] => []
  | CallSetDq level :: calls => drives config level ++ expected_levels config calls
  | CallSetPortMode mode :: calls => expected_levels (config_in_mode config mode) calls
  | _ :: calls => expected_levels config calls
  end.

(** One call: the configuration it leaves and the levels it drives. *)
Definition call_config (config : iolink_master_config_t) (c : port_call) : iolink_master_config_t :=
  match c with CallSetPortMode mode => config_in_mode config mode | _ => config end.
Definition call_levels (config : iolink_master_config_t) (c : port_call) : list Z :=
  match c with CallSetDq level => drives config level | _ => [] end.

Lemma expected_levels_cons config c calls :
  expected_levels config (c :: calls) = call_levels config c ++ expected_levels (call_config config c) calls.
Proof. by destruct c. Qed.

Lemma call_config_ok config c : config_ok config → config_ok (call_config config c).
Proof.
  intros Hcfg. destruct c; try done. cbn. unfold config_in_mode. cbv zeta.
  destruct (negb _); [done|]. destruct (mode_config config mode Hcfg) as [Hr|Hok]; [by rewrite Hr|].
  by rewrite (cfg_accepted _ Hok).
Qed.

Lemma init_undriven config : keeps driven_levels (iolink_master_init PTR (Some phy) (Some config)).
Proof. keeps_deep. Qed.

Lemma set_dq_levels config level w : port_ok phy config (w_port w) →
  wp (iolink_master_set_dq PTR level) (fun _ w' => port_ok phy config (w_port w') ∧
    driven_levels w' = driven_levels w ++ drives config level) w.
Proof.
  intros Hp. unfold iolink_master_set_dq, drives. cbn [ptr_null]. apply wp_bind, wp_gets.
  rewrite (ok_config _ _ _ Hp), (ok_phy _ _ _ Hp).
  destruct (cfg_port_mode config =e IOLINK_MASTER_PORT_MODE_DQ); cbn [negb andb];
    [|apply wp_ret; by rewrite app_nil_r].
  destruct (phy_set_cq_line phy); cbn [negb]; [|apply wp_ret; by rewrite app_nil_r].
  apply wp_bind, wp_bind, wp_get, wp_assign, wp_ret. split; [done|].
  unfold driven_levels. cbn. by rewrite cq_levels_app.
Qed.

(** The calls that neither drive the line nor initialise the port. *)
Definition passive (c : port_call) : bool :=
  match c with CallSetDq _ => false | _ => negb (reinitialises c) end.

Lemma passive_undriven fuel c : passive c = true → keeps driven_levels (port_call_run fuel c).
Proof.
  destruct c; try done; intros _; cbn [port_call_run]; keeps_deep.
Qed.

Lemma port_call_levels fuel pending config c w :
  adapter_ok phy fuel pending → config_ok config → call_valid c → port_ok phy config (w_port w) →
  wp (port_call_run fuel c) (fun _ w' => port_ok phy (call_config config c) (w_port w') ∧
    driven_levels w' = driven_levels w ++ call_levels config c) w.
Proof.
  intros Ha Hcfg Hc Hp. destruct (passive c) eqn:Hpas.
  - assert (call_config config c = config) as -> by by destruct c.
    assert (call_levels config c = []) as -> by by destruct c. rewrite app_nil_r.
    apply (wp_keeps driven_levels); [|by apply passive_undriven].
    eapply port_call_safe; [done..|by destruct c|done|done].
  - destruct c; try done; cbn [port_call_run call_config call_levels].
    + rewrite app_nil_r. apply wp_bind. unfold iolink_master_restart. cbn [ptr_null].
      apply wp_bind, wp_gets. rewrite (ok_phy _ _ _ Hp), (ok_config _ _ _ Hp). cbn [null].
      eapply wp_mono; [apply (wp_keeps driven_levels); [by apply init_ok|apply init_undriven]|].
      intros ret w' [Hw' Hl]. by apply wp_ret.
    + apply wp_bind. eapply wp_mono; [by apply set_dq_levels|]. intros ret w' Hw'. by apply wp_ret.
    + rewrite app_nil_r. apply wp_bind. unfold iolink_master_set_port_mode, config_in_mode. cbn [ptr_null orb].
      destruct (negb (port_mode_in_range mode)); cbn [orb]; [by apply wp_ret, wp_ret|].
      apply wp_bind, wp_gets. rewrite (ok_phy _ _ _ Hp), (ok_config _ _ _ Hp). cbn [null]. cbv zeta.
      destruct (mode_config config mode Hcfg) as [Hr|Hok].
      * unfold iolink_master_init. rewrite Hr. by apply wp_ret, wp_ret.
      * rewrite (cfg_accepted _ Hok).
        eapply wp_mono; [apply (wp_keeps driven_levels); [by apply init_ok|apply init_undriven]|].
        intros ret w' [Hw' Hl]. by apply wp_ret.
Qed.

(** C32: the line driver is exclusive. Over every sequence of calls the levels put on C/Q
    are exactly those of the [set_dq] calls made while the port was a digital output,
    in their order; start-up, data exchange, services and a change of the mode never
    drive the line. *)
Theorem cq_driven_only_as_output fuel pending config calls w :
  adapter_ok phy fuel pending → config_ok config → Forall call_valid calls →
  port_ok phy config (w_port w) →
  wp (port_run fuel calls) (fun _ w' =>
    driven_levels w' = driven_levels w ++ expected_levels config calls) w.
Proof.
  intros Ha Hcfg Hc. revert config w Hcfg. induction Hc as [|c calls Hc _ IH]; intros config w Hcfg Hp.
  - apply wp_ret. by rewrite app_nil_r.
  - apply wp_bind. eapply wp_mono; [by eapply port_call_levels|].
    intros ? w' [Hp' Hl]. eapply wp_mono; [by apply IH; [apply call_config_ok|]|].
    intros ? w'' ->. by rewrite Hl, expected_levels_cons, app_assoc.
Qed.
End levels.

(** ** Witness *)

(** An adapter with a line driver. *)
Definition fix_driver (script : list Z) : iolink_phy_api_t :=
  let phy := fix_phy script in
  {| phy_user := phy_user phy; phy_init := phy_init phy; phy_set_mode := phy_set_mode phy;
     phy_set_baudrate := phy_set_baudrate phy; phy_send := phy_send phy;
     phy_recv_byte := phy_recv_byte phy; phy_set_cq_line := true;
     phy_get_voltage_mv := None; phy_is_short_circuit := None |}.

Definition wit_line_calls : list port_call :=
  [CallSetDq true; CallTick true; CallSetPortMode IOLINK_MASTER_PORT_MODE_DQ; CallSetDq true;
   CallSetDq false; CallTick false; CallSetPortMode IOLINK_MASTER_PORT_MODE_DI; CallSetDq true].

Definition wit_driver_world : world :=
  {| w_port := port_initial (fix_driver []) fix_config; w_io := [] |}.

Lemma cq_driven_only_as_output_witness :
  wp (port_run 1 wit_line_calls) (fun _ w' => driven_levels w' = driven_levels wit_driver_world ++ [1; 0])
    wit_driver_world.
Proof.
  replace [1; 0] with (expected_levels (fix_driver []) fix_config wit_line_calls) by (vm_compute; reflexivity).
  apply (cq_driven_only_as_output (fix_driver []) 1 (fun tr => length (@nil Z) - received tr)%nat fix_config wit_line_calls wit_driver_world).
  - destruct (fix_adapter [] ltac:(decide_here)). by split.
  - exact fix_config_ok.
  - repeat constructor; done.
  - apply port_initial_ok.
Defined.
