(* ===== verification/Controller.v ===== *)
(** * The multi-port controller ([src/master_controller.c])

    The controller references the caller's port array. Its state here is that array,
    the number of managed ports and the trace of the calls all ports have made. *)

From S2P Require Import Prelude Iolinki Reference Types Fixtures Hal Port.

Record controller : Type := {
  c_ports : list iolink_master_port_state_t;
  c_port_count : Z;
  c_io : list io;
}.

#[export] Instance eta_controller : Eta controller := fun r => {|
  c_ports := c_ports r;
  c_port_count := c_port_count r;
  c_io := c_io r;
|}.

(** Run a port function on [&ports[i]]. *)
Definition on_port {A : Type} (i : Z) (m : M world A) : M controller A := fun s =>
  match rd (c_ports s) i with
  | None => Ub
  | Some port =>
      match m {| w_port := port; w_io := c_io s |} with
      | Ok a w => Ok a {| c_ports := <[Z.to_nat i := w_port w]> (c_ports s);
                          c_port_count := c_port_count s;
                          c_io := w_io w |}
      | Ub => Ub
      | Nofuel => Nofuel
      end
  end.

(** [if (ret < 0 && first_error == 0) first_error = ret] *)
Definition keep_first_error (first_error ret : Z) : Z :=
  if (ret <? 0) && (first_error =? 0) then ret else first_error.

(** Run [tick i] on every managed port; the first error is the result. *)
Fixpoint controller_tick_loop (tick : Z → iolink_master_port_state_t → M world Z)
    (indices : list Z) (first_error : Z) : M controller Z :=
  match indices with
  | [] => mret first_error
  | i :: indices =>
      ret ← on_port i (w ← get; tick i (w_port w));
      controller_tick_loop tick indices (keep_first_error first_error ret)
  end.

Section controller.
Context {IO : Iolinki}.

Fixpoint controller_init_loop (phys : list iolink_phy_api_t)
    (configs : list iolink_master_config_t) (indices : list Z) : M controller Z :=
  match indices with
  | [] => mret IOLINK_MASTER_STATUS_OK
  | i :: indices =>
      phy ← mem (rd phys i);
      config ← mem (rd configs i);
      ret ← on_port i (iolink_master_init PTR (Some phy) (Some config));
      if negb (ret =? 0) then
        c_port_count <~ i;;
        mret ret
      else controller_init_loop phys configs indices
  end.

Definition iolink_master_controller_init (controller ports : ptr) (port_count : Z)
    (phys : option (list iolink_phy_api_t)) (configs : option (list iolink_master_config_t))
    : M Controller.controller Z :=
  match phys, configs with
  | Some phys, Some configs =>
      if ptr_null controller || ptr_null ports || (port_count =? 0)
      then mret IOLINK_MASTER_ERR_INVALID_ARG
      else
        c_port_count <~ port_count;;
        controller_init_loop phys configs (upto port_count)
  | _, _ => mret IOLINK_MASTER_ERR_INVALID_ARG
  end.

Definition controller_tick_all (controller : ptr)
    (tick : Z → iolink_master_port_state_t → M world Z) : M Controller.controller Z :=
  if ptr_null controller then mret IOLINK_MASTER_ERR_INVALID_ARG else
  state ← get;
  controller_tick_loop tick (upto (c_port_count state)) IOLINK_MASTER_STATUS_OK.

(** An optional caller array read at index [i]. *)
Definition array_or {A : Type} (array : option (list A)) (other : A) (i : Z)
    : M world A :=
  match array with None => mret other | Some a => mem (rd a i) end.

Definition iolink_master_controller_tick (fuel : nat) (controller : ptr)
    (response_timeouts : option (list bool)) : M Controller.controller Z :=
  controller_tick_all controller (fun i _ =>
    timeout ← array_or response_timeouts false i;
    iolink_master_tick_event fuel PTR
      (if (timeout : bool) then IOLINK_MASTER_TICK_RESPONSE_TIMEOUT
       else IOLINK_MASTER_TICK_CYCLE_DUE)).

Definition iolink_master_controller_tick_events (fuel : nat) (controller : ptr)
    (events : option (list iolink_master_tick_event_t)) : M Controller.controller Z :=
  controller_tick_all controller (fun i _ =>
    event ← array_or events IOLINK_MASTER_TICK_CYCLE_DUE i;
    iolink_master_tick_event fuel PTR event).

Definition iolink_master_controller_tick_at (fuel : nat) (controller : ptr)
    (now_100us : Z) : M Controller.controller Z :=
  controller_tick_all controller (fun _ port =>
    iolink_master_tick_at fuel PTR
      (if iolink_master_response_due_at port now_100us
       then IOLINK_MASTER_TICK_RESPONSE_TIMEOUT
       else IOLINK_MASTER_TICK_CYCLE_DUE) now_100us).

(** The result and [*out_count] afterwards. *)
Definition iolink_master_controller_get_port_count (controller : option Controller.controller)
    (out_count : option Z) : Z * option Z :=
  match controller, out_count with
  | Some state, Some _ => (IOLINK_MASTER_STATUS_OK, Some (c_port_count state))
  | _, _ => (IOLINK_MASTER_ERR_INVALID_ARG, out_count)
  end.

(** The port pointer is the index of the port in the array. *)
Definition iolink_master_controller_get_port (controller : option Controller.controller)
    (index : Z) (out_port : option Z) : Z * option Z :=
  match controller, out_port with
  | Some state, Some _ =>
      if c_port_count state <=? index then (IOLINK_MASTER_ERR_INVALID_ARG, out_port)
      else (IOLINK_MASTER_STATUS_OK, Some index)
  | _, _ => (IOLINK_MASTER_ERR_INVALID_ARG, out_port)
  end.

(** The loop over the ports: [None] is a read outside the array; otherwise whether a
    port failed, and [*out_next_100us]. *)
Fixpoint controller_next_loop (ports : list iolink_master_port_state_t)
    (now_100us : Z) (indices : list Z) (out : Z) : option (bool * Z) :=
  match indices with
  | [] => Some (true, out)
  | i :: indices =>
      port ← rd ports i;
      match iolink_master_get_next_tick_time (Some port) now_100us (Some 0) with
      | (0, Some port_next) =>
          controller_next_loop ports now_100us indices
            (if port_next <? out then port_next else out)
      | _ => Some (false, out)
      end
  end.

Definition iolink_master_controller_get_next_tick_time
    (controller : option Controller.controller) (now_100us : Z)
    (out_next_100us : option Z) : option (Z * option Z) :=
  match controller, out_next_100us with
  | Some state, Some _ =>
      if c_port_count state =? 0
      then Some (IOLINK_MASTER_STATUS_OK, Some now_100us)
      else
        '(ok, out) ← controller_next_loop (c_ports state) now_100us
                       (upto (c_port_count state)) UINT32_MAX;
        Some (if (ok : bool) then IOLINK_MASTER_STATUS_OK
              else IOLINK_MASTER_ERR_INVALID_ARG, Some out)
  | _, _ => Some (IOLINK_MASTER_ERR_INVALID_ARG, out_next_100us)
  end.
End controller.
