(* ===== verification/ControllerPorts.v ===== *)
(** * The multi-port controller drives every port

    Initialisation, the ticks and the earliest deadline of a controller, as the same
    operation on each managed port in the order of the array. *)

From S2P Require Import Prelude Iolinki Reference Types Fixtures Parameters Isdu IsduResponse IsduRequest IsduService Services DataStorage Events EventReadout Hal Transmit Port PortInvariant PortServices PortSafety Sio PortCalls PortTransitions Carrier PortLink PortExchange IsduFrames PortTiming Controller.

(** A controller of the ports [managed], the first of the caller's array. *)
Definition controller_of (managed rest : list iolink_master_port_state_t) (tr : list io)
    : controller := {| c_ports := managed ++ rest; c_port_count := zlen managed; c_io := tr |}.

(** ** One port *)

Lemma rd_middle {A} (pre post : list A) x : rd (pre ++ x :: post) (zlen pre) = Some x.
Proof.
  rewrite rd_lookup by apply zlen_nonneg. unfold zlen. rewrite Nat2Z.id.
  by apply list_lookup_middle.
Qed.

Lemma insert_middle {A} (pre post : list A) x y :
  <[Z.to_nat (zlen pre) := y]> (pre ++ x :: post) = pre ++ y :: post.
Proof.
  unfold zlen. rewrite Nat2Z.id, insert_app_r_alt, Nat.sub_diag by lia. done.
Qed.

(** A port function acts on its own port and on the shared trace, on nothing else. *)
Lemma on_port_middle {A} (m : M world A) pre p post n tr :
  on_port (zlen pre) m {| c_ports := pre ++ p :: post; c_port_count := n; c_io := tr |} =
    match m {| w_port := p; w_io := tr |} with
    | Ok a w => Ok a {| c_ports := pre ++ w_port w :: post; c_port_count := n; c_io := w_io w |}
    | Ub => Ub
    | Nofuel => Nofuel
    end.
Proof. unfold on_port. cbn. rewrite rd_middle. destruct (m _); [|done..]. by rewrite insert_middle. Qed.

(** ** Every port in turn *)

(** [visited f i ports tr rets ports' tr']: [f] runs once on each port, on the first
    with index [i], in order, each from the trace its predecessor has left; the results
    are [rets]. *)
Inductive visited (f : Z → iolink_master_port_state_t → M world Z) :
    Z → list iolink_master_port_state_t → list io →
    list Z → list iolink_master_port_state_t → list io → Prop :=
| visited_nil i tr : visited f i [] tr [] [] tr
| visited_cons i p ports tr ret w rets ports' tr' :
    f i p {| w_port := p; w_io := tr |} = Ok ret w →
    visited f (i + 1) ports (w_io w) rets ports' tr' →
    visited f i (p :: ports) tr (ret :: rets) (w_port w :: ports') tr'.

(** The first negative result, or OK. *)
Fixpoint first_error (rets : list Z) : Z :=
  match rets with
  | [] => IOLINK_MASTER_STATUS_OK
  | ret :: rets => if ret <? 0 then ret else first_error rets
  end.

Lemma seqZ_step i n : 0 ≤ n → seqZ i (1 + n) = i :: seqZ (i + 1) n.
Proof. intros. rewrite seqZ_cons by lia. f_equal. f_equal; lia. Qed.

Lemma tick_loop_visits f ports pre rest tr rets ports' tr' n error :
  visited f (zlen pre) ports tr rets ports' tr' →
  controller_tick_loop f (seqZ (zlen pre) (zlen ports)) error
      {| c_ports := pre ++ ports ++ rest; c_port_count := n; c_io := tr |} =
    Ok (if error =? 0 then first_error rets else error)
      {| c_ports := pre ++ ports' ++ rest; c_port_count := n; c_io := tr' |}.
Proof.
  intros H. remember (zlen pre) as i eqn:Hi. revert pre Hi error.
  induction H as [i tr|i p ports tr ret w rets ports' tr' Hf Hv IH]; intros pre Hi error.
  - cbn. by destruct (Z.eqb_spec error 0) as [->|].
  - rewrite zlen_cons, seqZ_step by apply zlen_nonneg. cbn [controller_tick_loop].
    subst i. change ((p :: ports) ++ rest) with (p :: ports ++ rest).
    unfold mbind at 1, M_bind at 1. rewrite on_port_middle.
    unfold mbind at 1, M_bind at 1. cbn [get w_port]. rewrite Hf.
    change (w_port w :: ports') with ([w_port w] ++ ports'). rewrite <- (app_assoc [_]).
    rewrite !(app_assoc pre [w_port w]).
    change (pre ++ w_port w :: ports ++ rest) with (pre ++ [w_port w] ++ ports ++ rest).
    rewrite !(app_assoc pre [w_port w]).
    rewrite (IH (pre ++ [w_port w])) by slia. f_equal. cbn [first_error]. unfold keep_first_error.
    destruct (Z.ltb_spec ret 0), (Z.eqb_spec error 0); cbn [andb]; subst; try done.
    + by rewrite (proj2 (Z.eqb_neq ret 0)) by lia.
    + by rewrite (proj2 (Z.eqb_neq error 0)).
    + by rewrite (proj2 (Z.eqb_neq error 0)).
Qed.

(** A port function that keeps a property of ports visits all ports. *)
Lemma visited_total f (P : iolink_master_port_state_t → Prop) n ports i tr :
  (∀ j p tr, i ≤ j < n → P p → wp (f j p) (fun _ w => P (w_port w)) {| w_port := p; w_io := tr |}) →
  i + zlen ports ≤ n → Forall P ports →
  ∃ rets ports' tr', visited f i ports tr rets ports' tr' ∧ Forall P ports' ∧ zlen ports' = zlen ports.
Proof.
  intros Hf Hn HP. revert i tr Hf Hn. induction HP as [|p ports Hp HP IH]; intros i tr Hf Hn.
  - exists [], [], tr. split_and!; [constructor|constructor|done].
  - rewrite zlen_cons in Hn. pose proof (zlen_nonneg ports).
    destruct (wp_inv _ _ _ (Hf i p tr ltac:(lia) Hp)) as (ret & w & Hr & Hw).
    destruct (IH (i + 1) (w_io w)) as (rets & ports' & tr' & Hv & HP' & Hl); [|lia|].
    { intros j q tr1 Hj. apply Hf. lia. }
    exists (ret :: rets), (w_port w :: ports'), tr'. split_and!; [by econstructor|by constructor|].
    rewrite !zlen_cons. lia.
Qed.

Lemma visited_ext f g i ports tr rets ports' tr' :
  (∀ j p w, i ≤ j < i + zlen ports → f j p w = g j p w) →
  visited f i ports tr rets ports' tr' → visited g i ports tr rets ports' tr'.
Proof.
  intros Hfg H. induction H as [|i p ports tr ret w rets ports' tr' Hf Hv IH]; [constructor|].
  rewrite zlen_cons in Hfg. pose proof (zlen_nonneg ports).
  econstructor; [rewrite <- Hfg by lia; exact Hf|]. apply IH. intros. apply Hfg. lia.
Qed.

(** ** The three ticks *)

Inductive controller_call : Type :=
| ControllerTick (response_timeouts : option (list bool))
| ControllerTickEvents (events : option (list iolink_master_tick_event_t))
| ControllerTickAt (now_100us : Z).

(** The caller's array has an element for each of the [n] ports. *)
Definition covers {A : Type} (array : option (list A)) (n : Z) : Prop :=
  match array with Some a => n ≤ zlen a | None => True end.

Definition call_covers (c : controller_call) (n : Z) : Prop :=
  match c with
  | ControllerTick timeouts => covers timeouts n
  | ControllerTickEvents events => covers events n
  | ControllerTickAt _ => True
  end.

(** Element [i] of an optional array. *)
Definition element {A : Type} (array : option (list A)) (other : A) (i : Z) : A :=
  default other (a ← array; rd a i).

Lemma array_or_element {A} (array : option (list A)) other i n w :
  covers array n → 0 ≤ i < n → array_or array other i w = Ok (element array other i) w.
Proof.
  destruct array as [a|]; cbn; intros Hc Hi; [|done]. unfold element. cbn.
  destruct (rd_Some a i) as [x ->]; [lia|done].
Qed.

Section ticks.
Context {IO : Iolinki}.

Definition controller_call_run (fuel : nat) (c : controller_call) : M controller Z :=
  match c with
  | ControllerTick timeouts => iolink_master_controller_tick fuel PTR timeouts
  | ControllerTickEvents events => iolink_master_controller_tick_events fuel PTR events
  | ControllerTickAt now => iolink_master_controller_tick_at fuel PTR now
  end.

(** What the call means for port [i]. *)
Definition port_tick (fuel : nat) (c : controller_call) (i : Z) (p : iolink_master_port_state_t)
    : M world Z :=
  match c with
  | ControllerTick timeouts =>
      iolink_master_tick_event fuel PTR
        (if element timeouts false i then IOLINK_MASTER_TICK_RESPONSE_TIMEOUT
         else IOLINK_MASTER_TICK_CYCLE_DUE)
  | ControllerTickEvents events =>
      iolink_master_tick_event fuel PTR (element events IOLINK_MASTER_TICK_CYCLE_DUE i)
  | ControllerTickAt now =>
      iolink_master_tick_at fuel PTR
        (if iolink_master_response_due_at p now then IOLINK_MASTER_TICK_RESPONSE_TIMEOUT
         else IOLINK_MASTER_TICK_CYCLE_DUE) now
  end.

(** A call on the controller is the call on each port. *)
Lemma controller_call_visits fuel c ports rest tr rets ports' tr' :
  call_covers c (zlen ports) → zlen ports' = zlen ports →
  visited (port_tick fuel c) 0 ports tr rets ports' tr' →
  controller_call_run fuel c (controller_of ports rest tr) =
    Ok (first_error rets) (controller_of ports' rest tr').
Proof.
  intros Hc Hl Hv. unfold controller_of. rewrite Hl.
  assert (∀ f, (∀ j p w, 0 ≤ j < 0 + zlen ports → port_tick fuel c j p w = f j p w) →
    controller_tick_loop f (upto (zlen ports)) IOLINK_MASTER_STATUS_OK
      {| c_ports := ports ++ rest; c_port_count := zlen ports; c_io := tr |} =
    Ok (first_error rets) {| c_ports := ports' ++ rest; c_port_count := zlen ports; c_io := tr' |}) as Hloop.
  { intros f Hf. apply (tick_loop_visits f ports [] rest tr rets ports' tr').
    by eapply visited_ext. }
  destruct c as [timeouts|events|now]; cbn [controller_call_run call_covers] in *; apply Hloop;
    intros j p w Hj; cbn [port_tick]; [..|done];
    unfold mbind, M_bind; by rewrite (array_or_element _ _ j (zlen ports)) by (done || lia).
Qed.
End ticks.

Section controller_claims.
Context {IO : Iolinki} {laws : IolinkiLaws IO}.

(** A port that was initialised with an adapter whose queue holds fewer than [fuel]
    octets. *)
Definition alive (fuel : nat) (p : iolink_master_port_state_t) : Prop :=
  ∃ phy config pending, adapter_ok phy fuel pending ∧ config_ok config ∧ port_ok phy config p.

Lemma port_tick_alive fuel c i p tr :
  alive fuel p →
  wp (port_tick fuel c i p) (fun _ w => alive fuel (w_port w)) {| w_port := p; w_io := tr |}.
Proof.
  intros (phy & config & pending & Ha & Hcfg & Hp).
  assert (∀ event pace now, wp (iolink_master_tick_common fuel PTR event pace now)
    (fun _ w => alive fuel (w_port w)) {| w_port := p; w_io := tr |}) as Ht.
  { intros. eapply wp_mono; [by eapply tick_common_safe|]. intros ? w' Hw'. by exists phy, config, pending. }
  destruct c; apply Ht.
Qed.

(** C23: a controller drives all its ports. Each of the three ticks runs the tick of
    every managed port exactly once, in the order of the array, also after a port has
    failed; the answer is the first error; the ports outside the managed part of the
    array are left alone, and every port stays initialised. *)
Theorem controller_ticks_every_port fuel c ports rest tr :
  Forall (alive fuel) ports → call_covers c (zlen ports) →
  ∃ rets ports' tr', visited (port_tick fuel c) 0 ports tr rets ports' tr' ∧
    controller_call_run fuel c (controller_of ports rest tr) =
      Ok (first_error rets) (controller_of ports' rest tr') ∧
    Forall (alive fuel) ports'.
Proof.
  intros Ha Hc.
  destruct (visited_total (port_tick fuel c) (alive fuel) (zlen ports) ports 0 tr)
    as (rets & ports' & tr' & Hv & Ha' & Hl); [|lia|done|].
  { intros j p tr1 _. apply port_tick_alive. }
  exists rets, ports', tr'. split_and!; [done|by apply controller_call_visits|done].
Qed.
End controller_claims.

(** ** Initialisation *)

Section on_port.
Context {A : Type}.

Lemma wp_on_port (m : M world A) Q i c p :
  rd (c_ports c) i = Some p →
  wp m (fun a w => Q a {| c_ports := <[Z.to_nat i := w_port w]> (c_ports c);
                          c_port_count := c_port_count c; c_io := w_io w |})
    {| w_port := p; w_io := c_io c |} →
  wp (on_port i m) Q c.
Proof. intros Hp. unfold wp, on_port. rewrite Hp. by destruct (m _). Qed.
End on_port.

Section init.
Context {IO : Iolinki} {laws : IolinkiLaws IO}.
Context (phys : list iolink_phy_api_t) (configs : list iolink_master_config_t) (n : Z).

(** The first [k] ports are initialised with the PHYs and configurations of their indices. *)
Definition set_up (k : Z) (ports : list iolink_master_port_state_t) : Prop :=
  ∀ i, 0 ≤ i < k → ∃ phy config p, rd phys i = Some phy ∧ rd configs i = Some config ∧
    rd ports i = Some p ∧ port_ok phy config p.

Lemma set_up_insert k phy config p ports :
  rd phys k = Some phy → rd configs k = Some config → port_ok phy config p →
  0 ≤ k < zlen ports → set_up k ports → set_up (k + 1) (<[Z.to_nat k := p]> ports).
Proof.
  intros Hphy Hcfg Hp Hk Hs i Hi. destruct (decide (i = k)) as [->|Hne].
  - exists phy, config, p. split_and!; [done..| |done].
    rewrite rd_lookup by lia. apply list_lookup_insert_eq. unfold zlen in Hk. lia.
  - destruct (Hs i) as (phy' & config' & p' & ?&?& Hr &?); [lia|].
    exists phy', config', p'. split_and!; [done..| |done]. rewrite rd_lookup in * by lia.
    by rewrite list_lookup_insert_ne by lia.
Qed.

(** What initialisation answers and leaves: [k] ports are managed and initialised; all
    of them exactly when the answer is OK; the ports behind the one that failed are
    untouched. *)
Definition init_outcome (ports : list iolink_master_port_state_t) (ret : Z) (c : controller)
    : Prop :=
  ∃ k, 0 ≤ k ≤ n ∧ c_port_count c = k ∧ (ret = IOLINK_MASTER_STATUS_OK ↔ k = n) ∧
    set_up k (c_ports c) ∧ zlen (c_ports c) = zlen ports ∧
    ∀ i, k < i → rd (c_ports c) i = rd ports i.

(** The arrays cover the managed ports. *)
Definition arrays_cover (ports : list iolink_master_port_state_t) : Prop :=
  n ≤ zlen phys ∧ n ≤ zlen configs ∧ n ≤ zlen ports ∧
  Forall (fun config => 0 ≤ cfg_pd_in_len config ∧ 0 ≤ cfg_pd_out_len config) configs.

Lemma rd_insert_other {A} (l : list A) i k x : 0 ≤ k → k ≠ i → rd (<[Z.to_nat k := x]> l) i = rd l i.
Proof.
  intros Hk Hne. unfold rd. destruct (Z.ltb_spec i 0); [done|].
  apply list_lookup_insert_ne. lia.
Qed.

(** One port: refused without effect, or initialised, whatever its PHY answers. *)
Lemma init_port_cases phy config w :
  0 ≤ cfg_pd_in_len config ∧ 0 ≤ cfg_pd_out_len config →
  wp (iolink_master_init PTR (Some phy) (Some config)) (fun ret w' =>
    ret ≠ IOLINK_MASTER_STATUS_OK ∨ port_ok phy config (w_port w')) w.
Proof.
  intros [Hi Ho]. destruct (config_rejected config) eqn:Hr.
  - unfold iolink_master_init. rewrite Hr. apply wp_ret. by left.
  - eapply wp_mono; [by apply init_ok|]. intros. by right.
Qed.

Lemma init_loop_outcome ports m i c :
  arrays_cover ports → i + Z.of_nat m = n → 0 ≤ i → c_port_count c = n → set_up i (c_ports c) →
  zlen (c_ports c) = zlen ports → (∀ j, i ≤ j → rd (c_ports c) j = rd ports j) →
  wp (controller_init_loop phys configs (seqZ i (Z.of_nat m))) (init_outcome ports) c.
Proof.
  intros (Hphys & Hcfgs & Hports & Hpd). revert i c.
  induction m as [|m IH]; intros i c Hm Hi Hn Hs Hl Hd.
  { apply wp_ret. exists i. split_and!; try done; try lia. intros j Hj. apply Hd. lia. }
  replace (Z.of_nat (S m)) with (1 + Z.of_nat m) by lia. rewrite seqZ_step by lia.
  cbn [controller_init_loop].
  destruct (rd_Some phys i) as [phy Hphy]; [lia|]. destruct (rd_Some configs i) as [config Hcfg]; [lia|].
  destruct (rd_Some (c_ports c) i) as [p Hp]; [lia|].
  apply wp_bind. eapply wp_mem; [done|]. apply wp_bind. eapply wp_mem; [done|].
  apply wp_bind. eapply wp_on_port; [done|]. eapply wp_mono.
  { apply init_port_cases. exact (rd_Forall _ _ _ _ Hpd Hcfg). }
  intros ret w Hw. apply wp_if; intros Hret; norm_bool.
  - apply wp_bind, wp_assign, wp_ret. exists i. cbn. split_and!; try done; try lia.
    + change IOLINK_MASTER_STATUS_OK with 0. lia.
    + intros j Hj. destruct (Hs j Hj) as (phy' & config' & p' & ? & ? & ? & ?).
      exists phy', config', p'. by rewrite rd_insert_other by lia.
    + by rewrite zlen_insert.
    + intros j Hj. rewrite rd_insert_other by lia. apply Hd. lia.
  - destruct Hw as [Hw|Hw]; [done|]. apply IH; cbn; try done; try lia.
    + eapply set_up_insert; [done..|lia|done].
    + by rewrite zlen_insert.
    + intros j Hj. rewrite rd_insert_other by lia. apply Hd. lia.
Qed.

(** Initialisation of a controller. It initialises the ports in order with their PHYs
    and configurations; at the first failure it answers that code, and the ports before
    the failing one, which are initialised, remain the managed ones. It answers OK
    exactly when all ports are managed. *)
Theorem controller_init_manages_initialised_ports ports rest tr :
  0 < n → arrays_cover ports →
  wp (iolink_master_controller_init PTR PTR n (Some phys) (Some configs)) (init_outcome ports)
    {| c_ports := ports; c_port_count := rest; c_io := tr |}.
Proof.
  intros Hn Hc. unfold iolink_master_controller_init. cbn [ptr_null orb].
  rewrite (proj2 (Z.eqb_neq _ _)) by lia. apply wp_bind, wp_assign.
  unfold upto.
  replace (seqZ 0 n) with (seqZ 0 (Z.of_nat (Z.to_nat n))) by (f_equal; lia).
  apply init_loop_outcome; cbn; try done; try lia. intros i Hi. lia.
Qed.
End init.

(** ** The next instant *)

Section next.
Context {IO : Iolinki}.

(** The instant one port asks for. *)
Definition next_time (now : Z) (p : iolink_master_port_state_t) : Z :=
  default 0 (iolink_master_get_next_tick_time (Some p) now (Some 0)).2.

Lemma next_loop_min now ports pre rest out :
  controller_next_loop (pre ++ ports ++ rest) now (seqZ (zlen pre) (zlen ports)) out =
    Some (true, foldl Z.min out (map (next_time now) ports)).
Proof.
  revert pre out. induction ports as [|p ports IH]; intros pre out; [done|].
  rewrite zlen_cons, seqZ_step by apply zlen_nonneg. cbn [controller_next_loop].
  change (pre ++ (p :: ports) ++ rest) with (pre ++ p :: ports ++ rest).
  rewrite rd_middle. cbn [mbind option_bind].
  change (pre ++ p :: ports ++ rest) with (pre ++ [p] ++ ports ++ rest).
  rewrite (app_assoc pre). replace (zlen pre + 1) with (zlen (pre ++ [p])) by slia.
  cbn [iolink_master_get_next_tick_time]. unfold IOLINK_MASTER_STATUS_OK. cbv beta iota.
  rewrite IH. cbn [map foldl]. do 3 f_equal. unfold next_time. cbn [iolink_master_get_next_tick_time snd default].
  match goal with |- (if ?t <? _ then _ else _) = _ => destruct (Z.ltb_spec t out) end; cbn; unfold id; lia.
Qed.

Lemma foldl_min out l : (∀ t, t ∈ l → foldl Z.min out l ≤ t) ∧ foldl Z.min out l ≤ out ∧
  (foldl Z.min out l = out ∨ foldl Z.min out l ∈ l).
Proof.
  revert out. induction l as [|t l IH]; intros out; cbn [foldl].
  - split_and!; [|lia|by left]. intros t Ht. by apply elem_of_nil in Ht.
  - destruct (IH (Z.min out t)) as (Hl & Hm & Hin). split_and!.
    + intros u Hu. apply elem_of_cons in Hu as [->|Hu]; [lia|by apply Hl].
    + lia.
    + destruct Hin as [Hin|Hin]; [|right; by right].
      destruct (Z.le_ge_cases out t); [left; lia|]. right. rewrite Hin, Z.min_r by lia. by left.
Qed.

(** A port whose clock does not wrap: it is starting up or operating, and its deadlines
    are 32-bit instants. *)
Record on_time (now : Z) (p : iolink_master_port_state_t) : Prop := {
  on_time_wrap : no_wrap p now;
  on_time_phy : null (p_phy p) = false;
  on_time_state : p_state p = IOLINK_MASTER_STATE_STARTUP ∨ p_state p = IOLINK_MASTER_STATE_OPERATE;
  on_time_gate : p_state p = IOLINK_MASTER_STATE_OPERATE → gate_open p now;
  on_time_ready : p_send_ready_at_100us p ≤ UINT32_MAX;
  on_time_deadline : p_response_deadline_100us p ≤ UINT32_MAX;
}.

Lemma next_time_bound now p : on_time now p → next_time now p ≤ UINT32_MAX.
Proof.
  intros [(Hl & Hn & Hm & Hs) _ _ _ Hr Hd]. unfold next_time, UINT32_MAX in *. cbn [iolink_master_get_next_tick_time snd default].
  unfold id. repeat case_match; try lia. unfold u32 in *. pose proof (Z.mod_pos_bound (p_last_cycle_start_100us p + cfg_min_cycle_time (p_config p)) 4294967296). lia.
Qed.

(** The instant is the first one at which the port has work. *)
Lemma next_time_first now p : on_time now p →
  now ≤ next_time now p ∧ has_work p (next_time now p) = true ∧
  ∀ t' tr, now ≤ t' < next_time now p →
    tick_transmit true t' {| w_port := p; w_io := tr |} = Ok tt {| w_port := p; w_io := tr |}.
Proof.
  intros [Hw Hp Hs Hg _ _].
  destruct (port_next_time p now 0 Hw Hp Hs Hg) as (t & Ht & Hn & Hwork & Hbefore).
  assert (next_time now p = t) as -> by (unfold next_time; by rewrite Ht).
  split_and!; [done..|]. intros t' tr Ht'. by apply Hbefore.
Qed.

(** C34: the instant a controller asks for is the earliest of its ports. No managed port
    has anything to send before it, and one of them has work at it. *)
Theorem controller_next_tick_is_earliest ports rest tr now out :
  0 < zlen ports → Forall (on_time now) ports →
  ∃ t, iolink_master_controller_get_next_tick_time (Some (controller_of ports rest tr)) now (Some out) =
      Some (IOLINK_MASTER_STATUS_OK, Some t) ∧
    now ≤ t ∧ Exists (fun p => has_work p t = true) ports ∧
    ∀ t', now ≤ t' < t → Forall (fun p => ∀ tr,
      tick_transmit true t' {| w_port := p; w_io := tr |} = Ok tt {| w_port := p; w_io := tr |}) ports.
Proof.
  intros Hne Hall.
  assert (∀ p, p ∈ ports → on_time now p) as Hon.
  { intros p [i Hi]%list_elem_of_lookup_1. by eapply Forall_lookup_1. }
  cbn [iolink_master_controller_get_next_tick_time controller_of c_port_count c_ports].
  rewrite (proj2 (Z.eqb_neq _ _)) by lia. unfold upto.
  pose proof (next_loop_min now ports [] rest UINT32_MAX) as Hloop. cbn [app] in Hloop.
  change (zlen []) with 0 in Hloop. rewrite Hloop. clear Hloop. cbn [mbind option_bind].
  destruct (foldl_min UINT32_MAX (map (next_time now) ports)) as (Hle & _ & Hin).
  set (t := foldl _ _ _) in *.
  assert (∃ p, p ∈ ports ∧ next_time now p = t) as (p & Hp & Ht).
  { destruct Hin as [Hin|Hin].
    - destruct ports as [|p ports]; [done|]. exists p. split; [by left|].
      apply Z.le_antisymm; [rewrite Hin; apply next_time_bound; by inversion_clear Hall|].
      apply Hle. by left.
    - apply list_elem_of_fmap in Hin as (p & -> & Hp). by exists p. }
  exists t. destruct (next_time_first now p) as (Hn & Hw & _); [by apply Hon|].
  rewrite Ht in Hn, Hw. split_and!; [done..| |].
  - apply Exists_exists. exists p. split; [by apply list_elem_of_In|done].
  - intros t' Ht'. apply Forall_lookup_2. intros i q Hq%list_elem_of_lookup_2 tr'.
    apply (next_time_first now q); [by apply Hon|].
    assert (t ≤ next_time now q); [|lia]. apply Hle. apply list_elem_of_fmap. by exists q.
Qed.
End next.

(** ** Witnesses *)

Lemma wit_operate_alive : alive 1 (w_port wit_operate).
Proof.
  exists (fix_phy []), fix_config, (fun tr => 0 - received tr)%nat.
  split_and!; [exact (fix_adapter [] ltac:(decide_here))|exact fix_config_ok|exact wit_operate_ok].
Qed.

(** Two ports in OPERATE, an unmanaged third one. *)
Lemma controller_ticks_every_port_witness :
  ∃ rets ports' tr',
    visited (port_tick 1 (ControllerTick (Some [false; true]))) 0
      [w_port wit_operate; w_port wit_operate] [] rets ports' tr' ∧
    controller_call_run 1 (ControllerTick (Some [false; true]))
      (controller_of [w_port wit_operate; w_port wit_operate] [w_port (wit_world [])] []) =
      Ok (first_error rets) (controller_of ports' [w_port (wit_world [])] tr') ∧
    Forall (alive 1) ports'.
Proof.
  apply (controller_ticks_every_port 1 (ControllerTick (Some [false; true]))); [|done].
  repeat constructor; exact wit_operate_alive.
Defined.

(** The second configuration is refused: one port is managed. *)
Definition wit_configs : list iolink_master_config_t := [fix_config; fix_config <| cfg_pd_in_len := 255 |>].

Lemma controller_init_manages_initialised_ports_witness :
  wp (iolink_master_controller_init PTR PTR 2 (Some [fix_phy []; fix_phy []]) (Some wit_configs))
    (init_outcome [fix_phy []; fix_phy []] wit_configs 2
       [w_port (wit_world []); w_port (wit_world [])])
    {| c_ports := [w_port (wit_world []); w_port (wit_world [])]; c_port_count := 0; c_io := [] |}.
Proof.
  apply (controller_init_manages_initialised_ports [fix_phy []; fix_phy []] wit_configs 2
    [w_port (wit_world []); w_port (wit_world [])] 0 []); [done|].
  split_and!; [done..|]. repeat constructor; done.
Defined.

Lemma wit_paced_on_time : on_time 105 wit_paced.
Proof. split; try done; by right. Qed.

Lemma controller_next_tick_is_earliest_witness :
  ∃ t, iolink_master_controller_get_next_tick_time
        (Some (controller_of [wit_paced; wit_paced <| p_last_cycle_start_100us := 90 |>] [] [])) 105 (Some 0) =
      Some (IOLINK_MASTER_STATUS_OK, Some t) ∧
    105 ≤ t ∧
    Exists (fun p => has_work p t = true) [wit_paced; wit_paced <| p_last_cycle_start_100us := 90 |>] ∧
    ∀ t', 105 ≤ t' < t → Forall (fun p => ∀ tr,
      tick_transmit true t' {| w_port := p; w_io := tr |} = Ok tt {| w_port := p; w_io := tr |})
      [wit_paced; wit_paced <| p_last_cycle_start_100us := 90 |>].
Proof.
  apply (controller_next_tick_is_earliest [wit_paced; wit_paced <| p_last_cycle_start_100us := 90 |>] [] [] 105 0);
    [done|].
  repeat constructor; try done; by right.
Defined.
