(* ===== verification/FourPortDemo.v ===== *)
(** * The four-port demonstration ([examples/master_4port_controller_demo.c])

    One controller drives an IO-Link port, a digital input, a digital output and a
    deactivated port. [main] checks the mode each PHY was put into, the level it reads, the
    level it drives and the number of frames the first tick sends. *)

From S2P Require Import Prelude Iolinki Reference Types Fixtures Parameters Isdu IsduResponse IsduRequest IsduService Services DataStorage Events EventReadout Hal Transmit Port PortInvariant PortServices PortSafety Sio PortCalls PortTransitions Carrier PortLink PortExchange IsduFrames Adapter DeviceContract Session LoopbackPhy PortTiming Controller ControllerPorts.

(** The statics. *)
Record four_port_t : Type := {
  g_iolink_sends : Z;
  g_dq_level : Z;
  g_di_level : Z;
  g_modes : list iolink_phy_mode_t;
}.
#[export] Instance eta_four_port : Eta four_port_t := fun r => {|
  g_iolink_sends := g_iolink_sends r;
  g_dq_level := g_dq_level r;
  g_di_level := g_di_level r;
  g_modes := g_modes r;
|}.

Definition four_port_statics : four_port_t := {|
  g_iolink_sends := 0; g_dq_level := 0; g_di_level := 1;
  g_modes := replicate 4 IOLINK_PHY_MODE_INACTIVE;
|}.

Definition phy0_send (data : list Z) : M four_port_t Z :=
  let len := zlen data in
  if len =? 0 then mret (-1)
  else
    s ← get;
    g_iolink_sends <~ g_iolink_sends s + 1;;
    mret len.

(** [phy0_set_mode] to [phy3_set_mode] *)
Definition phy_set_mode_of (i : Z) (mode : iolink_phy_mode_t) : M four_port_t unit :=
  s ← get;
  modes ← mem (wr (g_modes s) i mode);
  g_modes <~ modes.

Definition phy1_read_cq : M four_port_t Z :=
  gets g_di_level.

Definition phy2_set_cq (level : Z) : M four_port_t unit :=
  g_dq_level <~ (if negb (level =? 0) then 1 else 0).

(** The four PHYs are four sets of functions. In the trace the PHY of a call is told by its
    [user], which here is the index of the PHY. *)
#[export] Instance four_port_adapter : Adapter four_port_t := {|
  power_on := four_port_statics;
  effect := fun entry =>
    match entry with
    | IoSetMode user mode => phy_set_mode_of user mode
    | IoSend 0 data _ => phy0_send data;; mret tt
    | IoSetCqLine 2 level => phy2_set_cq level
    | _ => mret tt
    end;
|}.

Definition four_port_phy (user : Z) (send : option (list io → list Z → Z)) (set_cq_line : bool) : iolink_phy_api_t := {|
  phy_user := user;
  phy_init := None;
  phy_set_mode := true;
  phy_set_baudrate := false;
  phy_send := send;
  phy_recv_byte := None;
  phy_set_cq_line := set_cq_line;
  phy_get_voltage_mv := None;
  phy_is_short_circuit := None;
|}.

Definition phys : list iolink_phy_api_t :=
  [four_port_phy 0 (Some (fun tr data => answer (phy0_send data) (-1) tr)) false;
   four_port_phy 1 None false;
   four_port_phy 2 None true;
   four_port_phy 3 None false].

Definition four_port_config (port_mode : iolink_master_port_mode_t) (min_cycle_time : Z)
    (read_cq_line : option (list io → Z)) : iolink_master_config_t := {|
  cfg_port_mode := port_mode;
  cfg_m_seq_type := IOLINK_MASTER_M_SEQ_TYPE_0;
  cfg_baudrate := IOLINK_BAUDRATE_COM3;
  cfg_min_cycle_time := min_cycle_time;
  cfg_pd_in_len := 0;
  cfg_pd_out_len := 0;
  cfg_auto_baudrate := false;
  cfg_validate_device_info := false;
  cfg_inspection_level := IOLINK_MASTER_INSPECTION_NO_CHECK;
  cfg_expected_vendor_id := 0;
  cfg_expected_device_id := 0;
  cfg_response_timeout_100us := 0;
  cfg_isdu_timeout_100us := 0;
  cfg_t_dmt_tbit := 0;
  cfg_t_dwu_100us := 0;
  cfg_wake_retry_limit := 0;
  cfg_t_sd_100us := 0;
  cfg_event_user := 0;
  cfg_event_pending_handler := false;
  cfg_event_handler := false;
  cfg_set_mode_checked := None;
  cfg_set_baudrate_checked := None;
  cfg_read_cq_line_checked := None;
  cfg_flush_rx := None;
  cfg_prepare_tx := None;
  cfg_prepare_rx := None;
  cfg_read_cq_line := read_cq_line;
  cfg_wake_up := None;
|}.

Definition configs : list iolink_master_config_t :=
  [four_port_config IOLINK_MASTER_PORT_MODE_IOLINK 20 None;
   four_port_config IOLINK_MASTER_PORT_MODE_DI 0 (Some (answer phy1_read_cq 0));
   four_port_config IOLINK_MASTER_PORT_MODE_DQ 0 None;
   four_port_config IOLINK_MASTER_PORT_MODE_DEACTIVATED 0 None].

(** ** [main] *)

(** [main] reads a static. *)
Definition four_port_read : M controller four_port_t :=
  c ← get;
  mem (adapter_at (c_io c)).

Section main.
Context {IO : Iolinki}.

(** The exit code. The state is the controller and its ports, whatever they held before:
    the initialisation of a port overwrites all of it, so the [memset] of the array is left
    out, as are that of [g_modes], which is zero before [main], and the line [main] prints. *)
Definition main (fuel : nat) : M controller Z :=
  let di_level := false in
  ret ← iolink_master_controller_init PTR PTR 4 (Some phys) (Some configs);
  fail_if (negb (ret =? IOLINK_MASTER_STATUS_OK)) 1 (
  s ← four_port_read;
  mode0 ← mem (rd (g_modes s) 0);
  mode1 ← mem (rd (g_modes s) 1);
  mode2 ← mem (rd (g_modes s) 2);
  mode3 ← mem (rd (g_modes s) 3);
  fail_if ((mode0 <>e IOLINK_PHY_MODE_SDCI) || (mode1 <>e IOLINK_PHY_MODE_SIO) ||
           (mode2 <>e IOLINK_PHY_MODE_SIO) || (mode3 <>e IOLINK_PHY_MODE_INACTIVE)) 2 (
  '(ret, di_level) ← on_port 1 (iolink_master_get_di PTR (Some di_level));
  fail_if (negb (ret =? IOLINK_MASTER_STATUS_OK)) 3 (
  fail_if (negb (default false di_level)) 4 (
  ret ← on_port 2 (iolink_master_set_dq PTR true);
  fail_if (negb (ret =? IOLINK_MASTER_STATUS_OK)) 5 (
  s ← four_port_read;
  fail_if (negb (g_dq_level s =? 1)) 6 (
  ret ← iolink_master_controller_tick_at fuel PTR 100;
  fail_if (negb (ret =? IOLINK_MASTER_STATUS_OK)) 7 (
  s ← four_port_read;
  fail_if (negb (g_iolink_sends s =? 1)) 8 (
  mret 0)))))))).
End main.

Section claim.
Context {IO : Iolinki} {laws : IolinkiLaws IO}.

Lemma four_port_accepted mode cycle read : port_mode_in_range mode = true →
  config_rejected (four_port_config mode cycle read) = false.
Proof.
  intros Hm. pose proof law_pd_in_max. pose proof law_pd_out_max. unfold config_rejected. cbn.
  by rewrite !(proj2 (Z.ltb_ge _ _)), Hm by lia.
Qed.

(** The PHY mode of a port mode. *)
Definition mode_of (mode : iolink_master_port_mode_t) : iolink_phy_mode_t :=
  match mode with
  | IOLINK_MASTER_PORT_MODE_IOLINK => IOLINK_PHY_MODE_SDCI
  | IOLINK_MASTER_PORT_MODE_DI | IOLINK_MASTER_PORT_MODE_DQ => IOLINK_PHY_MODE_SIO
  | _ => IOLINK_PHY_MODE_INACTIVE
  end.


Lemma four_port_ok mode cycle read : port_mode_in_range mode = true →
  config_ok (four_port_config mode cycle read).
Proof. intros Hm. split; [by apply four_port_accepted|done..]. Qed.

Lemma four_port_hookless mode cycle read : hookless (four_port_config mode cycle read).
Proof. by split. Qed.

(** A port initialised, its PHY in the mode of the port. *)
Lemma init_four_port user send cq mode cycle read w :
  let phy := four_port_phy user send cq in
  let config := four_port_config mode cycle read in
  port_mode_in_range mode = true →
  wp (iolink_master_init PTR (Some phy) (Some config)) (fun ret w' => ret = IOLINK_MASTER_STATUS_OK ∧
    w' = {| w_port := port_initial phy config; w_io := w_io w ++ [IoSetMode user (mode_of mode)] |}) w.
Proof.
  intros phy config Hm. assert (config_ok config) as Hcfg by by apply four_port_ok.
  assert (hookless config) as Hbare by apply four_port_hookless.
  destruct (decide (mode = IOLINK_MASTER_PORT_MODE_IOLINK)) as [->|Hne].
  { eapply wp_mono; [by apply (init_hookless phy config Hcfg Hbare IOLINK_BAUDRATE_COM3)|].
    intros ret w' (-> & Hw & Hio). split; [done|]. destruct w'. cbn in *. by subst. }
  assert (∀ w1, on_link phy config w1 →
    wp (iolink_master_set_mode (mode_of mode)) (fun ret w' => ret = 0 ∧
      w' = w1 <| w_io := w_io w1 ++ [IoSetMode user (mode_of mode)] |>) w1) as Hset.
  { intros w1 Hl. by apply (set_mode_hookless phy config Hbare). }
  unfold iolink_master_init. rewrite (cfg_accepted _ Hcfg). cbn [ptr_null orb].
  apply wp_bind, wp_assign. unfold or_fail. apply wp_bind, wp_ret. cbn [negb Z.eqb IOLINK_MASTER_STATUS_OK].
  destruct mode; try (exfalso; done); cbn [cfg_port_mode config four_port_config] in *;
    rewrite ?bool_decide_false, ?bool_decide_true by done; cbn [orb];
    (apply wp_bind; eapply wp_mono; [by apply Hset|]); intros ret w' [-> ->]; by apply wp_ret.
Qed.

Lemma init_demo p0 p1 p2 p3 n :
  wp (iolink_master_controller_init PTR PTR 4 (Some phys) (Some configs)) (fun ret c => ret = IOLINK_MASTER_STATUS_OK ∧
    c = {| c_ports := zip_with port_initial phys configs; c_port_count := 4;
           c_io := [IoSetMode 0 IOLINK_PHY_MODE_SDCI; IoSetMode 1 IOLINK_PHY_MODE_SIO;
                    IoSetMode 2 IOLINK_PHY_MODE_SIO; IoSetMode 3 IOLINK_PHY_MODE_INACTIVE] |})
    {| c_ports := [p0; p1; p2; p3]; c_port_count := n; c_io := [] |}.
Proof.
  unfold iolink_master_controller_init. cbn [ptr_null orb Z.eqb]. apply wp_bind, wp_assign.
  change (upto 4) with [0; 1; 2; 3]. cbn [controller_init_loop].
  do 4 (apply wp_bind; eapply wp_mem; [reflexivity|]; apply wp_bind; eapply wp_mem; [reflexivity|];
        apply wp_bind; eapply wp_on_port; [reflexivity|]; eapply wp_mono; [by apply init_four_port|];
        intros ? ? [-> ->]; cbn [negb Z.eqb IOLINK_MASTER_STATUS_OK]).
  by apply wp_ret.
Qed.

(** The demonstration succeeds, with every library that keeps the laws and whatever
    the storage of the ports held before: each PHY is in the mode of its port, the digital
    input is read, the digital output driven, and the first tick of the controller sends
    exactly one frame. *)
Theorem four_port_demo_succeeds fuel p0 p1 p2 p3 n :
  wp (main fuel) (fun code _ => code = 0)
    {| c_ports := [p0; p1; p2; p3]; c_port_count := n; c_io := [] |}.
Proof.
  apply wp_bind. eapply wp_mono; [apply init_demo|]. intros ret c [-> ->]. vm_compute. reflexivity.
Qed.
End claim.
