(* ===== verification/Gateway.v ===== *)
(** * The gateway record line ([src/master_gateway.c])

    [iolinki-gw/1 <port> <vendor> <device> <pd>]: a text line assembled in a local
    buffer of 128 characters and copied to the caller. A character is its code. *)

From Stdlib Require Import String Ascii.
From S2P Require Import Prelude Iolinki Reference Types Fixtures Parameters Port.

(** The character codes of a literal. *)
Definition chars (s : string) : list Z :=
  map (fun c => Z.of_N (N_of_ascii c)) (list_ascii_of_string s).

(** The local [line] buffer and the characters in use. *)
Record gateway_buf : Type := { gw_out : list Z; gw_used : Z }.
#[export] Instance eta_gateway_buf : Eta gateway_buf :=
  fun r => {| gw_out := gw_out r; gw_used := gw_used r |}.

Definition gateway_append (out_len ch : Z) : M gateway_buf Z :=
  line ← get;
  if out_len <? gw_used line + 2 then mret (-1)
  else
    out ← mem (wr (gw_out line) (gw_used line) ch);
    gw_used <~ gw_used line + 1;;
    out ← mem (wr out (gw_used line + 1) 0);
    gw_out <~ out;;
    mret 0.

(** Append the characters of [text] until one does not fit. *)
Fixpoint gateway_append_all (out_len : Z) (text : list Z) : M gateway_buf Z :=
  match text with
  | [] => mret 0
  | ch :: text =>
      ret ← gateway_append out_len ch;
      if negb (ret =? 0) then mret (-1) else gateway_append_all out_len text
  end.

Definition gateway_append_str (out_len : Z) (text : string) : M gateway_buf Z :=
  gateway_append_all out_len (chars text).

(** The [do ... while] loop that produces the digits of [n], least significant first. *)
Fixpoint gateway_digits (fuel : nat) (digits : list Z) (count n : Z)
    : M gateway_buf (list Z * Z) :=
  match fuel with
  | O => nofuel
  | S fuel =>
      digits ← mem (wr digits count (48 + n mod 10));
      let count := u8 (count + 1) in
      let n := u8 (n / 10) in
      if negb (n =? 0) then gateway_digits fuel digits count n
      else mret (digits, count)
  end.

(** [while (count > 0) { count--; append(digits[count]) }] *)
Fixpoint gateway_append_digits (out_len : Z) (digits : list Z) (count : nat)
    : M gateway_buf Z :=
  match count with
  | O => mret 0
  | S count =>
      digit ← mem (rd digits (Z.of_nat count));
      ret ← gateway_append out_len digit;
      if negb (ret =? 0) then mret (-1) else gateway_append_digits out_len digits count
  end.

(** A [uint8_t] has at most three digits. *)
Definition gateway_append_u8_dec (out_len value : Z) : M gateway_buf Z :=
  '(digits, count) ← gateway_digits 3 (zeros 3) 0 value;
  gateway_append_digits out_len digits (Z.to_nat count).

Definition k_hex : list Z := chars "0123456789abcdef".

(** [for (i = width; i > 0; i--)] *)
Fixpoint gateway_append_hex (out_len value : Z) (width : nat) : M gateway_buf Z :=
  match width with
  | O => mret 0
  | S width =>
      let shift := u8 (Z.of_nat width * 4) in
      digit ← mem (rd k_hex (Z.land (Z.shiftr value shift) 0x0F));
      ret ← gateway_append out_len digit;
      if negb (ret =? 0) then mret (-1) else gateway_append_hex out_len value width
  end.

(** Run the calls in order until one fails, as a chain of [||] does. *)
Fixpoint gateway_all (steps : list (M gateway_buf Z)) : M gateway_buf Z :=
  match steps with
  | [] => mret 0
  | step :: steps =>
      ret ← step;
      if negb (ret =? 0) then mret (-1) else gateway_all steps
  end.

(** [for (i = 0; i < pd_in_len; i++)] over the process data. *)
Fixpoint gateway_append_pd (out_len : Z) (pd_in : list Z) (indices : list Z)
    : M gateway_buf Z :=
  match indices with
  | [] => mret 0
  | i :: indices =>
      octet ← mem (rd pd_in i);
      ret ← gateway_append_hex out_len octet 2;
      if negb (ret =? 0) then mret (-1) else gateway_append_pd out_len pd_in indices
  end.

Section gateway.
Context {IO : Iolinki} {St : Type}.

(** The result and the caller's buffer [out] afterwards. *)
Definition iolink_master_format_gateway_line (port_index : Z)
    (info : option iolink_master_device_info_t) (pd_in : option (list Z)) (pd_in_len : Z)
    (out : option (list Z)) (out_len : Z) : M St (Z * option (list Z)) :=
  match info, out with
  | Some info, Some out' =>
    if (out_len =? 0) || negb (di_valid info) || (IOLINK_PD_IN_MAX_SIZE <? pd_in_len) ||
       ((0 <? pd_in_len) && null pd_in)
    then mret (IOLINK_MASTER_ERR_INVALID_ARG, out)
    else
      let size := IOLINK_MASTER_GATEWAY_LINE_MAX in
      '(ret, line) ← local {| gw_out := zeros size; gw_used := 0 |} (gateway_all [
         gateway_append_str size "iolinki-gw/1 ";
         gateway_append_u8_dec size port_index;
         gateway_append size 32;
         gateway_append_hex size (di_vendor_id info) 4;
         gateway_append size 32;
         gateway_append_hex size (di_device_id info) 8;
         gateway_append size 32;
         if pd_in_len =? 0 then gateway_append size 45
         else gateway_append_pd size (default [] pd_in) (upto pd_in_len);
         gateway_append size 10 ]);
      if negb (ret =? 0) then mret (IOLINK_MASTER_ERR_BUFFER_TOO_SMALL, out)
      else if out_len <? gw_used line + 1
      then mret (IOLINK_MASTER_ERR_BUFFER_TOO_SMALL, out)
      else
        out' ← mem (memcpy out' 0 (gw_out line) 0 (gw_used line + 1));
        mret (IOLINK_MASTER_STATUS_OK, Some out')
  | _, _ => mret (IOLINK_MASTER_ERR_INVALID_ARG, out)
  end.

Definition iolink_master_write_gateway_line (port : option iolink_master_port_state_t)
    (port_index : Z) (out : option (list Z)) (out_len : Z) : M St (Z * option (list Z)) :=
  match port, out with
  | Some _, Some _ =>
    if out_len =? 0 then mret (IOLINK_MASTER_ERR_INVALID_ARG, out) else
    let '(ret, info) := iolink_master_get_device_info port (Some device_info_zero) in
    if negb (ret =? IOLINK_MASTER_STATUS_OK) then mret (ret, out) else
    '(ret, pd, pd_len) ← mem (iolink_master_get_pd_in port
        (Some (zeros IOLINK_PD_IN_MAX_SIZE)) (u8 IOLINK_PD_IN_MAX_SIZE) (Some 0));
    if ret =? IOLINK_MASTER_STATUS_PENDING then
      iolink_master_format_gateway_line port_index info None 0 out out_len
    else if negb (ret =? IOLINK_MASTER_STATUS_OK) then mret (ret, out)
    else iolink_master_format_gateway_line port_index info pd (default 0 pd_len) out out_len
  | _, _ => mret (IOLINK_MASTER_ERR_INVALID_ARG, out)
  end.
End gateway.
