(* ===== verification/GatewayLine.v ===== *)
(** * The text of a gateway record

    The line as a function of the port, the device and its process data, and the
    formatter as a writer of that line into a buffer of bounded size. *)

From Stdlib Require Import String Ascii.
From S2P Require Import Prelude Iolinki Reference Types Fixtures Parameters Isdu IsduResponse IsduRequest IsduService Services DataStorage Events EventReadout Hal Transmit Port PortInvariant PortServices PortSafety Sio PortCalls PortTransitions PortLink PortExchange IsduFrames Gateway.

(** ** The text *)

Definition hex_digit (d : Z) : Z := if d <? 10 then 48 + d else 87 + d.

(** The [width] least significant hexadecimal digits of [v], the most significant first. *)
Fixpoint hex (width : nat) (v : Z) : list Z :=
  match width with
  | O => []
  | S width => hex_digit (v / 16 ^ Z.of_nat width mod 16) :: hex width v
  end.

(** An octet in decimal. *)
Definition decimal (v : Z) : list Z :=
  if v <? 10 then [48 + v]
  else if v <? 100 then [48 + v / 10; 48 + v mod 10]
  else [48 + v / 100; 48 + v / 10 mod 10; 48 + v mod 10].

(** [iolinki-gw/1 <port> <vendor> <device> <pd or ->], with the newline. *)
Definition gateway_line (port_index : Z) (info : iolink_master_device_info_t) (pd : list Z)
    : list Z :=
  chars "iolinki-gw/1 " ++ decimal port_index ++ [32] ++ hex 4 (di_vendor_id info) ++ [32] ++
  hex 8 (di_device_id info) ++ [32] ++
  (if zlen pd =? 0 then [45] else concat (map (hex 2) pd)) ++ [10].

(** ** Writers

    [writes text m]: [m] appends [text] to the line when the line, its terminating NUL
    included, still fits, and fails otherwise. *)

Section writers.
Context (size : Z).

Record holds (text : list Z) (b : gateway_buf) : Prop := {
  holds_used : gw_used b = zlen text;
  holds_size : zlen (gw_out b) = size;
  holds_text : ∃ tail, gw_out b = text ++ 0 :: tail;
}.

Definition writes (text : list Z) (m : M gateway_buf Z) : Prop :=
  ∀ pre b, holds pre b → wp m (fun ret b' =>
    if zlen (pre ++ text) + 1 <=? size then ret = 0 ∧ holds (pre ++ text) b' else ret ≠ 0) b.

Lemma holds_fits pre b : holds pre b → zlen pre + 1 ≤ size.
Proof. intros [_ Hs [tail Ht]]. rewrite <- Hs, Ht. pose proof (zlen_nonneg tail). slia. Qed.

Lemma writes_nil : writes [] (mret 0).
Proof.
  intros pre b Hb. apply wp_ret. rewrite app_nil_r.
  by rewrite (proj2 (Z.leb_le _ _)) by (by apply holds_fits with b).
Qed.

(** One writer after another, as the code chains them. *)
Lemma writes_then t1 t2 m1 m2 : writes t1 m1 → writes t2 m2 →
  writes (t1 ++ t2) (ret ← m1; if negb (ret =? 0) then mret (-1) else m2).
Proof.
  intros H1 H2 pre b Hb. apply wp_bind. eapply wp_mono; [by apply H1|].
  intros ret b'. rewrite (app_assoc pre). destruct (Z.leb_spec (zlen (pre ++ t1) + 1) size).
  - intros [-> Hb']. cbn [negb Z.eqb]. by apply H2.
  - intros Hr. rewrite (proj2 (Z.eqb_neq _ _)) by done. apply wp_ret.
    rewrite (proj2 (Z.leb_gt _ _)); [done|]. rewrite zlen_app. pose proof (zlen_nonneg t2). lia.
Qed.

Lemma writes_append ch : writes [ch] (gateway_append size ch).
Proof.
  intros pre b [Hu Hs [tail Ht]]. unfold gateway_append. apply wp_bind, wp_get.
  rewrite zlen_app. change (zlen [ch]) with 1. pose proof (zlen_nonneg pre).
  assert (zlen pre + 1 + zlen tail = size) as Hlen by (rewrite <- Hs, Ht; slia).
  apply wp_if; intros Hfit; norm_bool.
  { apply wp_ret. by rewrite (proj2 (Z.leb_gt _ _)) by lia. }
  rewrite (proj2 (Z.leb_le _ _)) by lia. destruct tail as [|x tail]; [rewrite zlen_nil in Hlen; lia|].
  apply wp_bind. eapply wp_mem; [apply wr_Some; lia|]. apply wp_bind, wp_assign. cbn [gw_used set].
  apply wp_bind. eapply wp_mem; [apply wr_Some; rewrite zlen_insert; cbn; lia|].
  apply wp_bind, wp_assign, wp_ret. split; [done|].
  assert (∀ y, <[Z.to_nat (zlen pre) := y]> (pre ++ 0 :: x :: tail) = pre ++ y :: x :: tail) as Hins.
  { intros. unfold zlen. by rewrite Nat2Z.id, insert_app_r_alt, Nat.sub_diag by lia. }
  split; cbn.
  - rewrite Hu. slia.
  - by rewrite !zlen_insert.
  - exists tail. rewrite Hu, Ht, Hins. replace (Z.to_nat (zlen pre + 1)) with (length (pre ++ [ch])).
    + change (pre ++ ch :: x :: tail) with (pre ++ [ch] ++ x :: tail). rewrite app_assoc.
      by rewrite insert_app_r_alt, Nat.sub_diag by lia.
    + rewrite length_app. unfold zlen. simpl. lia.
Qed.

(** A recursion that appends one character and goes on. *)
Lemma writes_cons ch text m : writes text m →
  writes (ch :: text) (ret ← gateway_append size ch; if negb (ret =? 0) then mret (-1) else m).
Proof. apply (writes_then [ch]), writes_append. Qed.

Lemma writes_all text : writes text (gateway_append_all size text).
Proof. induction text as [|ch text IH]; [apply writes_nil|by apply writes_cons]. Qed.

Lemma writes_steps texts steps :
  Forall2 writes texts steps → writes (concat texts) (gateway_all steps).
Proof. induction 1; [apply writes_nil|by apply writes_then]. Qed.

(** A value computed without touching the line. *)
Lemma writes_value {A} text (m : M gateway_buf A) (k : A → M gateway_buf Z) a :
  (∀ b, m b = Ok a b) → writes text (k a) → writes text (mbind k m).
Proof. intros Hm Hk pre b Hb. apply wp_bind. unfold wp at 1. rewrite Hm. by apply Hk. Qed.

(** ** The fields *)

Lemma k_hex_digit d : 0 ≤ d < 16 → rd k_hex d = Some (hex_digit d).
Proof.
  intros Hd.
  assert (∀ x, is_u8 x → x < 16 → rd k_hex x = Some (hex_digit x)) as H.
  { apply (forall_u8_dec (fun x => x < 16 → rd k_hex x = Some (hex_digit x))). vm_compute. reflexivity. }
  apply H; unfold is_u8; lia.
Qed.

Lemma writes_hex width v : (width ≤ 8)%nat → 0 ≤ v → writes (hex width v) (gateway_append_hex size v width).
Proof.
  intros Hw Hv. induction width as [|width IH]; [apply writes_nil|]. cbn [hex gateway_append_hex].
  assert (Z.land (Z.shiftr v (u8 (Z.of_nat width * 4))) 15 = v / 16 ^ Z.of_nat width mod 16) as Hd.
  { rewrite u8_small by (unfold is_u8; lia). change 15 with (Z.ones 4). rewrite Z.land_ones by lia.
    rewrite Z.shiftr_div_pow2 by lia. change (2 ^ 4) with 16.
    replace (16 ^ Z.of_nat width) with (2 ^ (Z.of_nat width * 4)); [done|].
    rewrite Z.mul_comm, Z.pow_mul_r by lia. done. }
  cbv zeta. eapply writes_value; [|by apply writes_cons, IH; lia].
  intros b. rewrite Hd, k_hex_digit; [done|]. by apply Z.mod_pos_bound.
Qed.

Lemma writes_digits n digits : (n ≤ length digits)%nat →
  writes (reverse (take n digits)) (gateway_append_digits size digits n).
Proof.
  induction n as [|n IH]; intros Hn; [apply writes_nil|]. cbn [gateway_append_digits].
  destruct (lookup_lt_is_Some_2 digits n) as [d Hd]; [lia|].
  rewrite (take_S_r _ _ _ Hd), reverse_snoc.
  eapply writes_value; [|apply writes_cons, IH; lia].
  intros b. rewrite rd_lookup, Nat2Z.id, Hd by lia. done.
Qed.

Lemma gateway_digits_u8 v b : is_u8 v →
  ∃ digits count, gateway_digits 3 (zeros 3) 0 v b = Ok (digits, count) b ∧
    (Z.to_nat count ≤ length digits)%nat ∧ reverse (take (Z.to_nat count) digits) = decimal v.
Proof.
  unfold is_u8. intros Hv. unfold decimal.
  assert (u8 (v / 10) = v / 10) as H1.
  { apply u8_small. unfold is_u8. split; [apply Z.div_pos; lia|apply Z.div_lt_upper_bound; lia]. }
  assert (u8 (v / 10 / 10) = v / 100) as H2.
  { rewrite Z.div_div by lia. apply u8_small. unfold is_u8.
    split; [apply Z.div_pos; lia|apply Z.div_lt_upper_bound; lia]. }
  assert (u8 (v / 100 / 10) = 0) as H3.
  { rewrite Z.div_div by lia. by rewrite (Z.div_small v) by lia. }
  destruct (Z.ltb_spec v 10).
  - exists [48 + v; 0; 0], 1. split_and!; [|simpl; lia|done].
    cbn. unfold mbind, M_bind, mret, M_ret. cbn. rewrite H1, Z.div_small, Z.mod_small by lia. done.
  - assert (v / 10 ≠ 0) as Hne by (assert (1 ≤ v / 10) by (apply Z.div_le_lower_bound; lia); lia).
    apply Z.eqb_neq in Hne. destruct (Z.ltb_spec v 100).
    + assert (v / 10 < 10) by (apply Z.div_lt_upper_bound; lia).
      assert (0 ≤ v / 10) by (apply Z.div_pos; lia).
      exists [48 + v mod 10; 48 + v / 10; 0], 2. split_and!; [|simpl; lia|done].
      cbn. unfold mbind, M_bind, mret, M_ret. cbn. rewrite H1, Hne. cbn.
      rewrite H2, (Z.div_small v 100), (Z.mod_small (v / 10)) by lia. done.
    + assert (v / 100 ≠ 0) as Hne' by (assert (1 ≤ v / 100) by (apply Z.div_le_lower_bound; lia); lia).
      apply Z.eqb_neq in Hne'. assert (v / 100 < 10) by (apply Z.div_lt_upper_bound; lia).
      assert (0 ≤ v / 100) by (apply Z.div_pos; lia).
      exists [48 + v mod 10; 48 + v / 10 mod 10; 48 + v / 100], 3. split_and!; [|simpl; lia|done].
      cbn. unfold mbind, M_bind, mret, M_ret. cbn. rewrite H1, Hne. cbn. rewrite H2, Hne'. cbn.
      rewrite H3, (Z.mod_small (v / 100)) by lia. done.
Qed.

Lemma writes_decimal v : is_u8 v → writes (decimal v) (gateway_append_u8_dec size v).
Proof.
  intros Hv pre b Hb. unfold gateway_append_u8_dec.
  destruct (gateway_digits_u8 v b Hv) as (digits & count & Hd & Hc & <-).
  apply wp_bind. unfold wp at 1. rewrite Hd. by apply writes_digits.
Qed.

Lemma writes_octets pd_in indices octets :
  Forall2 (fun i octet => rd pd_in i = Some octet ∧ is_u8 octet) indices octets →
  writes (concat (map (hex 2) octets)) (gateway_append_pd size pd_in indices).
Proof.
  induction 1 as [|i octet indices octets [Hr Ho] _ IH]; [apply writes_nil|].
  cbn [gateway_append_pd map concat]. eapply writes_value; [by intros b; rewrite Hr|].
  apply writes_then; [|done]. apply writes_hex; [lia|]. unfold is_u8 in Ho. lia.
Qed.
End writers.

Lemma upto_octets (l : list Z) n : 0 ≤ n ≤ zlen l → Forall is_u8 l →
  Forall2 (fun i octet => rd l i = Some octet ∧ is_u8 octet) (upto n) (take (Z.to_nat n) l).
Proof.
  intros Hn Hl. apply Forall2_same_length_lookup. unfold zlen in Hn. split.
  - unfold upto. rewrite length_seqZ, length_take. lia.
  - intros i x y Hx Hy. apply lookup_upto in Hx as [-> Hx].
    apply lookup_take_Some in Hy as [Hy Hi]. rewrite rd_lookup, Nat2Z.id by lia.
    split; [done|]. by eapply Forall_lookup_1.
Qed.

(** ** The record *)

Section record.
Context {IO : Iolinki} {laws : IolinkiLaws IO} {St : Type}.

(** The octets of the process data a record shows. *)
Definition pd_shown (pd_in : option (list Z)) (pd_in_len : Z) : list Z :=
  take (Z.to_nat pd_in_len) (default [] pd_in).

(** The answer of the formatter: the line and its NUL, when the caller's buffer and the
    line buffer hold them. *)
Definition gateway_answer (line out : list Z) (out_len : Z) : Z * option (list Z) :=
  if zlen line + 1 <=? Z.min IOLINK_MASTER_GATEWAY_LINE_MAX out_len
  then (IOLINK_MASTER_STATUS_OK, Some (line ++ 0 :: drop (S (length line)) out))
  else (IOLINK_MASTER_ERR_BUFFER_TOO_SMALL, Some out).

Lemma initial_line : holds 128 [] {| gw_out := zeros 128; gw_used := 0 |}.
Proof. split; [done|done|]. by exists (zeros 127). Qed.

Lemma line_writes port_index info pd_in pd_in_len :
  is_u8 port_index → 0 ≤ di_vendor_id info → 0 ≤ di_device_id info →
  0 ≤ pd_in_len ≤ zlen (default [] pd_in) → Forall is_u8 (default [] pd_in) →
  writes 128 (gateway_line port_index info (pd_shown pd_in pd_in_len)) (gateway_all [
    gateway_append_str 128 "iolinki-gw/1 "; gateway_append_u8_dec 128 port_index;
    gateway_append 128 32; gateway_append_hex 128 (di_vendor_id info) 4;
    gateway_append 128 32; gateway_append_hex 128 (di_device_id info) 8;
    gateway_append 128 32;
    if pd_in_len =? 0 then gateway_append 128 45
    else gateway_append_pd 128 (default [] pd_in) (upto pd_in_len);
    gateway_append 128 10 ]).
Proof.
  intros Hi Hv Hd Hn Hpd. unfold gateway_line.
  assert (zlen (pd_shown pd_in pd_in_len) = pd_in_len) as Hl by (unfold pd_shown; slia).
  rewrite Hl. set (pd := if _ =? 0 then [45] else _).
  replace (chars _ ++ _) with (concat [chars "iolinki-gw/1 "; decimal port_index; [32];
    hex 4 (di_vendor_id info); [32]; hex 8 (di_device_id info); [32]; pd; [10]])
    by (cbn [concat]; by rewrite app_nil_r).
  apply writes_steps. repeat (apply Forall2_cons_2; [try apply writes_append|]); [..|apply Forall2_nil_2].
  - apply writes_all.
  - by apply writes_decimal.
  - apply writes_hex; [lia|done].
  - apply writes_hex; [lia|done].
  - unfold pd. destruct (pd_in_len =? 0); [apply writes_append|].
    by apply writes_octets, upto_octets.
Qed.

Lemma format_gateway_line_text port_index info pd_in pd_in_len out out_len (s : St) :
  is_u8 port_index → di_valid info = true → 0 ≤ di_vendor_id info → 0 ≤ di_device_id info →
  0 ≤ pd_in_len ≤ IOLINK_PD_IN_MAX_SIZE → pd_in_len ≤ zlen (default [] pd_in) →
  Forall is_u8 (default [] pd_in) → 0 < out_len ≤ zlen out →
  iolink_master_format_gateway_line port_index (Some info) pd_in pd_in_len (Some out) out_len s =
    Ok (gateway_answer (gateway_line port_index info (pd_shown pd_in pd_in_len)) out out_len) s.
Proof.
  intros Hi Hvalid Hv Hd Hn Hle Hpd Ho. unfold iolink_master_format_gateway_line. rewrite Hvalid.
  rewrite (proj2 (Z.eqb_neq out_len 0)), (proj2 (Z.ltb_ge IOLINK_PD_IN_MAX_SIZE pd_in_len)) by lia.
  assert ((0 <? pd_in_len) && null pd_in = false) as ->.
  { destruct pd_in; [apply andb_false_r|]. cbn in Hle. rewrite zlen_nil in Hle.
    by rewrite (proj2 (Z.ltb_ge _ _)) by lia. }
  cbn [negb orb]. cbv zeta. unfold IOLINK_MASTER_GATEWAY_LINE_MAX.
  set (line := gateway_line _ _ _).
  pose proof (line_writes port_index info pd_in pd_in_len Hi Hv Hd ltac:(lia) Hpd [] _ initial_line)
    as (ret & b & Hrun & Hb)%wp_inv.
  unfold mbind at 1, M_bind at 1, local. rewrite Hrun. clear Hrun. fold line in Hb. cbn [app] in Hb.
  unfold gateway_answer, IOLINK_MASTER_GATEWAY_LINE_MAX.
  destruct (Z.leb_spec (zlen line + 1) 128) as [Hfit|Hfit].
  - destruct Hb as [-> [Hu Hs [tail Ht]]]. cbn [negb Z.eqb]. rewrite Hu.
    destruct (Z.ltb_spec out_len (zlen line + 1)).
    { by rewrite (proj2 (Z.leb_gt _ _)) by lia. }
    rewrite (proj2 (Z.leb_le _ _)) by lia. pose proof (zlen_nonneg line).
    rewrite memcpy_prefix by lia. cbn [mem]. unfold mbind, M_bind, mret, M_ret. do 3 f_equal.
    replace (Z.to_nat (zlen line + 1)) with (S (length line)) by (unfold zlen; lia).
    rewrite Ht. change (0 :: tail) with ([0] ++ tail). rewrite app_assoc, take_app_length'.
    + by rewrite <- app_assoc.
    + rewrite length_app. simpl. lia.
  - rewrite (proj2 (Z.eqb_neq _ _)) by done. by rewrite (proj2 (Z.leb_gt _ _)) by lia.
Qed.

Lemma zlen_hex width v : zlen (hex width v) = Z.of_nat width.
Proof. induction width as [|width IH]; [done|]. cbn [hex]. rewrite zlen_cons, IH. lia. Qed.

Lemma zlen_octets_hex l : zlen (concat (map (hex 2) l)) = 2 * zlen l.
Proof. induction l as [|x l IH]; [done|]. cbn [map concat]. rewrite zlen_app, zlen_hex, IH, zlen_cons. lia. Qed.

Lemma zlen_gateway_line port_index info pd :
  zlen (gateway_line port_index info pd) ≤ 33 + Z.max 1 (2 * zlen pd).
Proof.
  assert (zlen (decimal port_index) ≤ 3) by (unfold decimal; repeat case_match; by cbv).
  unfold gateway_line. rewrite !zlen_app, !zlen_hex.
  change (zlen (chars "iolinki-gw/1 ")) with 13. change (zlen [32]) with 1. change (zlen [10]) with 1.
  case_match; [change (zlen [45]) with 1|rewrite zlen_octets_hex]; lia.
Qed.

(** C35: the gateway record of a port. Once the identity is known the caller's buffer
    receives exactly the text [iolinki-gw/1 <port> <vendor> <device> <pd>], newline and
    NUL included, with the received process data or [-] while they are not valid, and
    nothing behind it changes; when the text does not fit, the buffer is left alone.
    Up to 47 octets of process data always fit the line buffer. *)
Theorem gateway_line_of_port phy config p port_index out out_len (s : St) :
  port_ok phy config p → config_ok config → is_u8 port_index → 0 < out_len ≤ zlen out →
  0 ≤ di_vendor_id (p_device_info p) → 0 ≤ di_device_id (p_device_info p) →
  let pd := if p_pd_valid p then take (Z.to_nat (p_pd_in_len p)) (p_pd_in p) else [] in
  let line := gateway_line port_index (p_device_info p) pd in
  iolink_master_write_gateway_line (Some p) port_index (Some out) out_len s =
    Ok (if di_valid (p_device_info p) then gateway_answer line out out_len
        else (IOLINK_MASTER_STATUS_PENDING, Some out)) s ∧
  (cfg_pd_in_len config ≤ 47 → zlen line + 1 ≤ IOLINK_MASTER_GATEWAY_LINE_MAX).
Proof.
  intros Hp Hcfg Hi Ho Hv Hd. cbv zeta. pose proof law_pd_in_max as Hmax.
  destruct (pd_len_range config Hcfg) as [Hlen _].
  pose proof (ok_pd_in _ _ _ Hp) as Hz. pose proof (ok_pd_in_len _ _ _ Hp) as Hpl.
  assert (memcpy (zeros IOLINK_PD_IN_MAX_SIZE) 0 (p_pd_in p) 0 (p_pd_in_len p) =
    Some (take (Z.to_nat (p_pd_in_len p)) (p_pd_in p) ++ drop (Z.to_nat (p_pd_in_len p)) (zeros IOLINK_PD_IN_MAX_SIZE)))
    as Hcopy by (apply memcpy_prefix; slia).
  split.
  - unfold iolink_master_write_gateway_line. rewrite (proj2 (Z.eqb_neq _ _)) by lia.
    cbn [iolink_master_get_device_info]. destruct (di_valid (p_device_info p)) eqn:Hvalid; [|done].
    change (negb (IOLINK_MASTER_STATUS_OK =? IOLINK_MASTER_STATUS_OK)) with false. cbv beta iota.
    rewrite u8_small by (unfold is_u8; lia). unfold iolink_master_get_pd_in.
    rewrite (proj2 (Z.ltb_ge _ _)) by lia.
    destruct (p_pd_valid p); cbn [negb].
    + rewrite Hcopy. cbn [mbind option_bind mem]. unfold mbind at 1, M_bind at 1, mret, M_ret.
      change (IOLINK_MASTER_STATUS_OK =? IOLINK_MASTER_STATUS_PENDING) with false.
      change (negb (IOLINK_MASTER_STATUS_OK =? IOLINK_MASTER_STATUS_OK)) with false. cbv beta iota.
      set (pd := take (Z.to_nat (p_pd_in_len p)) (p_pd_in p)).
      assert (zlen pd = p_pd_in_len p) as Hpd by (unfold pd; slia).
      rewrite format_gateway_line_text; try done; cbn [default]; unfold id; try lia.
      * unfold pd_shown. cbn [default]. unfold id. rewrite take_app_length'; [done|].
        unfold zlen in Hpd. lia.
      * rewrite zlen_app, Hpd. pose proof (zlen_nonneg (drop (Z.to_nat (p_pd_in_len p)) (zeros IOLINK_PD_IN_MAX_SIZE))). lia.
      * apply Forall_app_2; [apply Forall_take, (ok_pd_in_u8 _ _ _ Hp)|].
        by apply Forall_drop, zeros_Forall.
    + cbn [mem]. unfold mbind at 1, M_bind at 1, mret, M_ret.
      change (IOLINK_MASTER_STATUS_PENDING =? IOLINK_MASTER_STATUS_PENDING) with true. cbv beta iota.
      rewrite format_gateway_line_text; try done; cbn [default]; try lia; constructor.
  - intros H47. pose proof (zlen_gateway_line port_index (p_device_info p)
      (if p_pd_valid p then take (Z.to_nat (p_pd_in_len p)) (p_pd_in p) else [])) as Hline.
    unfold IOLINK_MASTER_GATEWAY_LINE_MAX. destruct (p_pd_valid p); [|change (@zlen Z []) with 0 in Hline; lia].
    rewrite zlen_take in Hline. lia.
Qed.
End record.

(** ** Witness *)

(** The port of the fixtures, identified. *)
Definition wit_identified : iolink_master_port_state_t :=
  w_port wit_operate <| p_device_info := fix_info |>.

Lemma gateway_line_of_port_witness :
  iolink_master_write_gateway_line (Some wit_identified) 7 (Some (zeros 128)) 128 tt =
    Ok (IOLINK_MASTER_STATUS_OK,
        Some (chars "iolinki-gw/1 7 1234 00abcdef -" ++ 10 :: zeros 97)) tt ∧
  zlen (gateway_line 7 fix_info []) + 1 ≤ IOLINK_MASTER_GATEWAY_LINE_MAX.
Proof.
  assert (port_ok (fix_phy []) fix_config wit_identified) as Hok.
  { apply ok_set_device_info, wit_operate_ok. }
  destruct (gateway_line_of_port (fix_phy []) fix_config wit_identified 7 (zeros 128) 128 tt Hok fix_config_ok)
    as [Hline Hfit]; [unfold is_u8; lia|by split|done|done|].
  split; [rewrite Hline; reflexivity|by apply Hfit].
Defined.
